(* ===== verification/_CoqProject ===== *)
-Q . S2P
Prelude.v
Clib.v
Scan.v
Json.v
Rfc.v
Packet.v
Report.v
Parts.v
Util.v
Sender.v
Routine.v
Unsent.v
Storage.v
Insert.v
Handoff.v
HandoffList.v
HandoffLost.v
Plugin.v
Life.v
HandoffTurn.v
HandoffOwn.v
HandoffRun.v
Cancel.v
Os.v
OsReport.v
Sparser.v
Metadata.v
Handshake.v
Restart.v
Scheduler.v
Agent.v
Mysql.v
MysqlReport.v
Mstring.v
Korr.v
IoCache.v
Timing.v
Headers.v
ErrTables.v
Errors.v
Psi.v
PsiWrap.v
PsiFile.v
PsiThread.v
PsiClient.v
PsiPool.v
PsiStream.v
PsiDemo.v
Main.v
