(* ===== verification/Prelude.v ===== *)
(** * The monitoring agent, verified

    The program (C, under src/src and src/inc) is a daemon that watches a host.
    It reads a configuration, loads one plugin per target, registers each with a
    server under an id that survives restarts, and lets every plugin gather
    samples into JSON packets, which a storage routine posts.  Its parts:

    - packets (packet.c, packet.h): a fixed buffer of 32 KiB that text is
      appended to with [snprintf], with transactions, a state and an expiry;
    - storage (storage.c): the list of packets and the routine that posts the
      READY ones, first to last, and recycles the DONE ones;
    - sender (sender.c): one libcurl handle per kind of message;
    - plugins (plugin.c): a task pointer that goes from preparing to registering
      to gathering, with alerts in between; metric packets go through the
      storage list, registrations and alerts are posted directly;
    - routines (routine.c): a thread per plugin, scheduler and storage, pinged
      through two mutexes and two conditions;
    - scheduler (scheduler.c) and main loop (agent.c): who is pinged when;
    - the start (agent.c, sparser.c, metadata.c, daemon.c): configuration, host
      data, identities restored from res/;
    - the plugins os and mysql (plugins/os.c, plugins/mysql.c): what is gathered,
      from the texts of /proc and ps and from the rows of a server;
    - unsent spool (unsent.c) and clock (util.c);
    - the instrumented calls of the MySQL headers that the plugin mysql is built
      with (inc/mysql/mysql/psi: psi.h, mysql_file.h, mysql_thread.h): inline
      functions around file, lock and thread calls that report each wait to the
      performance schema of a server, if there is one;
    - the macros and inline functions of the other vendored headers that compute
      something (inc/mysql: m_string.h, my_global.h, my_sys.h, my_pthread.h,
      m_ctype.h, decimal.h, mysql.h; inc/zlog: zc_arraylist.h, buf.h), and the
      tables of errors (inc/mysql: mysqld_error.h, mysqld_ername.h, sql_state.h,
      errmsg.h).

    ** Files

    - Prelude: bytes, the outcomes of a C call (a value, undefined behaviour, a
      busy wait), machine integers, buffers.
    - Clib: what is used of the C library: decimal printing, [printf] formats,
      single-precision numbers (on SpecFloat), [fgets]; Scan: the scanf family.
    - Json: the JSON text that the agent writes, as relations between bytes and
      values; Rfc: the whole grammar of RFC 8259, which contains it.
    - Packet: packet.c and packet.h, and the interface of a gathering function,
      the classes [Gatherer] (what it appends, and how much room it needs) and
      [JsonGatherer] (that this is the inside of an object).  Plugin.v is proved
      against these classes; os.c and mysql.c are instances of them.
    - Report: sequences of [packet_append] that print fields and arrays, and
      gathering functions that read and then report; Parts: a gathering function
      that calls several and takes the conjunction of their results, in any
      order of evaluation (class [Parts]).
    - Util, Sender, Unsent, Sparser, Metadata: the source file of that name.
    - Routine: the record of a routine and its timing; Handshake: the threads of
      routine.c as a step relation (module [Threads]); Restart: stopping and
      restarting, with the cancelled workers that have not ended.
    - Storage: storage.c, over a heap of packets linked by addresses; Insert: the
      insertion of [get_packet] by several threads (module [Race]).
    - Handoff: [get_packet], the use of a packet by its plugin and [storage_main],
      one memory access per step, for any number of threads; HandoffList: the list
      and its locks in every state they can reach; HandoffLost: a packet that no
      thread can reach any more; HandoffTurn: what a thread does
      undisturbed is what Storage and Plugin say; HandoffOwn: what a plugin does to
      its packet in every interleaving, in one turn; HandoffRun: in several.
    - Plugin: plugin.c, and the theorems on metric packets; Life: registration,
      alerts, and the task machine of a plugin; Cancel: a turn that a restart of
      the routine cancels inside the gathering function.
    - Scheduler: scheduler.c and the loop of [main], and the handshake with a clock
      and due dates (module [Timed]); Agent: the block of [main]
      that restores identities; Main: daemon.c and [main] up to its loop.
    - Os and OsReport: plugins/os.c and what it reports; Mysql and MysqlReport:
      plugins/mysql.c, its alerts and what it reports.
    - Psi: psi.h, the record [PSI_v1] of the functions of a server, and programs as
      trees of calls ([prog]), with the relation [replaces] (a program makes the
      calls of another on the machine) and the protocol of events ([wp]); PsiWrap:
      the frame the inline functions share; PsiFile: mysql_file.h; PsiThread:
      mysql_thread.h; PsiClient: programs that use both; PsiPool: several threads;
      PsiStream: streams; PsiDemo: a machine and a server to evaluate them.
    - Mstring: m_string.h; Korr: the byte orders of my_global.h; IoCache: the cached
      files of my_sys.h, with the classes [CacheReader] and [CacheWriter] for the
      functions that refill and flush; Timing: deadlines and counters of
      my_pthread.h; Headers: the small macros; ErrTables: the rows of the error
      tables; Errors: what holds between them, and the macro [ER].

    A definition has the name of the function it models.  A pointer is an
    [option loc] into a [gmap] of packets, so that aliasing is explicit; a
    struct is a record with a setter per field; an [int], a [size_t] or an
    [unsigned long long] is a [Z] whose overflow is written out ([u64], the
    [SignedOverflow] and [OutOfBounds] outcomes, three bits for [delay]).  What
    the program gets from outside (clock, memory, network, files, results of
    pthread and libcurl calls, a plugin's own module) is an argument.

    ** What is proved

    - Metrics: [metrics_reach_server] (turns of a plugin, through the packet and
      the storage list, to a body the server accepted, which is a JSON document
      of exactly the samples gathered) and [metric_turn_refines] (each turn
      refines a list of samples, failed samples leave no trace).
    - Life of a plugin: [plugin_life_safe] (as long as tasks find memory, files,
      senders, clean data and room, every reachable state keeps the invariant and
      the next task is free of undefined behaviour; without memory it is not),
      [registration_turn], [registration_patch_as_new], [alert_turn_sends],
      [plugin_init_starts].
    - Storage: [storage_main] refines the abstract [drain] of a list; delivery,
      stopping at the first refusal, recycling, freeing; two insertions at the
      same time are safe in every interleaving, three can lose a packet.
    - Hand-off among threads: no access of any number of plugins and the storage
      thread goes wrong, a packet has one owner, and what is handed over is what was
      accepted and what is still READY in memory ([handoff_safe]); a turn fills and hands over its
      packet in every interleaving as it does alone ([turn_interleaved]), and so do
      the turns of a packet's whole life ([session_interleaved]); searches
      end ([scan_ends]) and locks come back ([locks_come_back]); recycling next to
      insertions can lose a packet, so that whatever is handed over in it never gets
      to the server ([recycling_loses_packet]).
    - Packets: atomic transactions, expiry, what an overrun does.
    - Threads: in calm runs each ping is answered by one run of the task and the
      threads never block each other; a busy worker cannot be pinged; a started
      routine waits; a spurious wake-up can wedge it; a restart recovers it when the
      cancellation acts in the task ([restart_recovers]), and can let two workers
      run the task when it does not ([restart_runs_two_tasks]).  A gathering that is
      cancelled spoils the packet its plugin is filling: what is handed over is not
      JSON ([cancelled_turn_ruins_packet]).
    - Scheduling: the turn of the scheduler and of the main loop, and what they
      do to a gathering that takes long ([slow_gather_restarted]: the due date moves
      only when a task ends, so that the plugin is still overdue).
    - Start: ids survive a restart ([restart_keeps_ids], [aid_persists]), a
      configuration that was written is read back ([sparse_render]), the parser
      terminates, everything main starts has its task and is due at once.
    - Gathering: the tables of interfaces and mounts are reported row by row
      ([network_reports], [disk_reports], [memory_reports]), a sample is one
      object whatever the order of evaluation ([os_gather_reports],
      [mysql_gather_turn], where a listed query or process makes the call undefined),
      alerts alternate ([alerts_alternate]), a saved module
      is recognized ([module_recognized]), and every loop over a text ends
      ([os_gather_terminates]).
    - Instrumentation: it is transparent to a client ([client_transparent]) and to
      threads that interleave ([pool_transparent]), for every server; waits are
      started and ended in pairs, each for the operation it was asked for
      ([client_waits_paired], [pool_waits_paired]), all this for clients that do not
      create threads; streams leave no memory behind ([stream_no_leak]).
    - Headers: cached files read the bytes of a stream ([cache_reads_stream]) and
      write them up to the first call of the library that fails
      ([cache_writes_stream]); numbers are portable between
      machines ([korr_portable], [floats_portable]); the search for trailing spaces
      by words is the one by characters ([skip_trailing_space_ok]); deadlines are
      exact ([deadline_exact]), counters under a lock are ([counters_exact]), and
      [rint] rounds to the nearest even integer ([rint_nearest_even]); [ER] gives the
      messages of the client's codes and reads beyond its table for every other one
      ([ER_reads]).
    - Errors: what failed initializations, refused posts, missing files and full
      buffers lead to, branch by branch.

    ** Bounds and fuel

    Loops over the packet list have the size of the heap and one more as fuel:
    an acyclic list is shorter ([chain_bound]); a cyclic one makes the C loop run
    forever, which is the outcome [Spins].  The parser has one unit of fuel per
    byte of the file: every line takes a byte ([fgets_spec]), and it never runs
    out ([sparse_terminates]).  [unsent_send] has one per byte of the spool, and the
    loops of os.c one per byte of the text they read, and one more.

    ** What is not modelled, and why

    zlog calls and the DEBUG macro (logging only); what two workers of one
    plugin that run at the same time after a restart do to its packet; compilers and processors that
    reorder the accesses of a thread; in the interleavings of Handoff, a malloc that
    returns NULL and a plugin that writes outside of its packet (both are in the
    sequential models, Storage and Packet); a wake-up of the wait for [pong] without
    a signal; read errors of streams; the int counter of
    attempts (it would overflow after 2^31 posts); the NULL tests of plugin tasks,
    which are always called with a plugin; hexadecimal floats, [inf] and [nan] in
    what the commands print; the sign glibc gives to a NaN.  What the shell
    commands and the queries compute is the environment's.
    The plugin jvm is not compiled.  The rest of the vendored headers are
    declarations of functions of libmysqlclient and zlog that are not in the
    sources, constants, and macros that choose between platforms.  A
    [MYSQL_FILE] pointer given to a file call other than [fclose] is taken not to
    be NULL; a hook [m_psi] that was never set, or whose object was freed, is read as
    any value; members of an IO_CACHE that its macros do not use are left out, and so
    is the variant of [uint3korr] for HAVE_purify; [sint4korr] wraps where C leaves
    the shift into the sign bit undefined; the functions of a server act on the server's own state, the storage
    of a locker included, and not on files and locks, except that it creates
    threads. *)
From Stdlib Require Import ZArith Ascii Lia.
From stdpp Require Import base list strings numbers gmap.

(** * Scopes, results and the development's tactics *)

Declare Scope air_scope.
Delimit Scope air_scope with air.

(** Bytes are characters of the machine; a C buffer is a list of them. *)
Abbreviation bytes := (list ascii).
Abbreviation NUL := ("000"%char).
Abbreviation DQ := ("034"%char).

(** What makes a call of the program go wrong for the C abstract machine. *)
Inductive ub : Type :=
| NullDeref
| OutOfBounds
| Uninit
| SignedOverflow
| BadFormat
| Aborted.

(** The outcome of a call: a value, undefined behaviour, or a wait (a loop, or a
    call that blocks) that only another thread can end. *)
Inductive res (A : Type) : Type :=
| Ok (a : A)
| Ub (why : ub)
| Spins.

Arguments Ok {A} a.
Arguments Ub {A} why.
Arguments Spins {A}.

#[global] Instance ub_eq_dec : EqDecision ub.
Proof. solve_decision. Defined.

Definition rbind {A B : Type} (m : res A) (k : A → res B) : res B :=
  match m with
  | Ok a => k a
  | Ub w => Ub w
  | Spins => Spins
  end.

Definition of_opt {A : Type} (w : ub) (o : option A) : res A :=
  match o with
  | Some a => Ok a
  | None => Ub w
  end.

Notation "'do' x <- m ; k" := (rbind m (λ x, k))
  (at level 10, x binder, m at level 100, k at level 200) : air_scope.
Open Scope air_scope.

Create HintDb air.

Lemma rbind_Ok {A B} (m : res A) (k : A → res B) b :
  rbind m k = Ok b ↔ ∃ a, m = Ok a ∧ k a = Ok b.
Proof.
  destruct m; simpl; split; [by eauto|by intros (?&[= ->]&?)|done|by intros (?&?&?)|done|by intros (?&?&?)].
Qed.

Lemma rbind_assoc {A B C} (m : res A) (f : A → res B) (g : B → res C) :
  rbind (rbind m f) g = rbind m (λ a, rbind (f a) g).
Proof. by destruct m. Qed.

(** [inv_ok H] opens a successful sequence of calls [H : do x <- m; k = Ok v]. *)
Ltac inv_ok H :=
  let x := fresh "v" in
  let E := fresh "E" in
  apply rbind_Ok in H as (x & E & H).

(** * Machine integers *)

Local Open Scope Z_scope.

Definition INT_MAX : Z := 2147483647.
Definition u64 (z : Z) : Z := z mod 2 ^ 64.
Definition u32 (z : Z) : Z := z mod 2 ^ 32.
Definition u16 (z : Z) : Z := z mod 2 ^ 16.

(** A bit-field [unsigned f : n] keeps the low [n] bits of what is stored. *)
Definition bitfield (n z : Z) : Z := z mod 2 ^ n.

(** The value of the C expression [e - 1] for a boolean [e]. *)
Definition b2z (b : bool) : Z := if b then 1 else 0.

Definition is_u64 (z : Z) : Prop := 0 ≤ z < 2 ^ 64.

Lemma u64_range z : is_u64 (u64 z).
Proof. unfold is_u64, u64. apply Z.mod_pos_bound. lia. Qed.

Lemma u64_small z : is_u64 z → u64 z = z.
Proof. unfold is_u64, u64. intros. by apply Z.mod_small. Qed.

Lemma u64_idem z : u64 (u64 z) = u64 z.
Proof. apply u64_small, u64_range. Qed.

Lemma u64_step a b : u64 (u64 a * 10 + b) = u64 (a * 10 + b).
Proof.
  unfold u64. rewrite Z.add_mod, Z.mul_mod, Z.mod_mod by lia.
  by rewrite <- Z.mul_mod, <- Z.add_mod by lia.
Qed.

#[export] Hint Resolve u64_range : air.

(** * Buffers *)

(** The size of the program's small buffers. *)
Definition BFSZ : Z := 128.

(** The bytes of a C literal.  The source's string literals are JSON text full
    of double quotes, which are written here as apostrophes. *)
Definition lit (s : string) : bytes :=
  (λ c, if Ascii.eqb c "'"%char then DQ else c) <$> Stdlib.Strings.String.list_ascii_of_string s.

(** A shell command or a query, in which it is double quotes that are written
    differently, as backquotes. *)
Definition sh (s : string) : bytes :=
  (λ c, if Ascii.eqb c "`"%char then DQ else c) <$> Stdlib.Strings.String.list_ascii_of_string s.

(** The C string a buffer holds: what precedes its first NUL. *)
Fixpoint cstr (l : bytes) : bytes :=
  match l with
  | [] => []
  | c :: l => if Ascii.eqb c NUL then [] else c :: cstr l
  end.

Definition no_nul (s : bytes) : Prop := Forall (λ c, c ≠ NUL) s.

#[global] Instance no_nul_dec s : Decision (no_nul s).
Proof. unfold no_nul. apply _. Defined.

(** Overwrite [l] from offset [off] with [s]; the caller has checked bounds. *)
Definition write_at {A} (l : list A) (off : nat) (s : list A) : list A :=
  take off l ++ s ++ drop (off + length s) l.

Lemma cstr_app s t : no_nul s → cstr (s ++ t) = s ++ cstr t.
Proof.
  induction 1 as [|c s Hc _ IH]; [done|]. simpl.
  destruct (Ascii.eqb_spec c NUL); [done|]. by rewrite IH.
Qed.

Lemma cstr_nul s t : no_nul s → cstr (s ++ NUL :: t) = s.
Proof. intros H. rewrite cstr_app by done. simpl. apply app_nil_r. Qed.

Lemma cstr_no_nul l : no_nul (cstr l).
Proof.
  induction l as [|c l IH]; simpl; [constructor|].
  destruct (Ascii.eqb_spec c NUL); constructor; done.
Qed.

Lemma no_nul_app s t : no_nul (s ++ t) ↔ no_nul s ∧ no_nul t.
Proof. apply Forall_app. Qed.

Lemma length_write_at {A} (l : list A) off s :
  (off + length s ≤ length l)%nat → length (write_at l off s) = length l.
Proof.
  intros H. unfold write_at.
  rewrite !length_app, length_take, length_drop. lia.
Qed.

(** Writing just behind a known prefix keeps it and exposes the rest. *)
Lemma write_at_app {A} (l : list A) off s c :
  take off l = c → length c = off →
  write_at l off s = c ++ s ++ drop (off + length s) l.
Proof. intros <- _. done. Qed.

Lemma take_write_at {A} (l : list A) off s n :
  (n ≤ off)%nat → (off ≤ length l)%nat → take n (write_at l off s) = take n l.
Proof.
  intros Hn Hl. unfold write_at. rewrite take_app_le by (rewrite length_take; lia).
  rewrite take_take. f_equal. lia.
Qed.

(** Overwriting the middle field of a buffer by a field of the same size. *)
Lemma write_at_middle {A} (a b c s : list A) :
  length s = length b → write_at (a ++ b ++ c) (length a) s = a ++ s ++ c.
Proof.
  intros H. unfold write_at. rewrite take_app_length, H, <- drop_drop.
  by rewrite !drop_app_length.
Qed.
