(* ===== verification/Clib.v ===== *)
(** The C library routines the agent calls on its own data: decimal output and
    input of integers, the [printf] family, single precision arithmetic and
    [fgets]. *)
From Stdlib Require Import ZArith Ascii Lia SpecFloat.
From stdpp Require Import base list strings numbers.
From S2P Require Import Prelude.

Local Open Scope Z_scope.

(** * Decimal integers *)

Definition code (c : ascii) : Z := Z.of_N (N_of_ascii c).

(** [ptr[i]-'0'] of the source. *)
Definition digit_val (c : ascii) : Z := code c - 48.

Definition digit (d : Z) : ascii := ascii_of_N (Z.to_N (48 + d)).

Definition is_digit (c : ascii) : bool := (48 <=? code c) && (code c <=? 57).

Fixpoint dec_go (fuel : nat) (n : Z) (acc : bytes) : bytes :=
  match fuel with
  | O => acc
  | S fuel =>
      let acc := digit (n mod 10) :: acc in
      if n <? 10 then acc else dec_go fuel (n / 10) acc
  end.

(** [%llu] *)
Definition dec (n : Z) : bytes := dec_go (S (Z.to_nat (Z.log2 n))) n [].

(** The value a run of decimal digits denotes. *)
Definition undec (s : bytes) : Z := fold_left (λ a c, a * 10 + digit_val c) s 0.

Lemma digit_val_digit d : 0 ≤ d < 10 → digit_val (digit d) = d.
Proof.
  intros H. unfold digit_val, code, digit.
  rewrite N_ascii_embedding by lia. lia.
Qed.

Lemma is_digit_digit d : 0 ≤ d < 10 → is_digit (digit d) = true.
Proof.
  intros H. unfold is_digit. pose proof (digit_val_digit d H) as E.
  unfold digit_val in E. apply andb_true_intro. split; apply Z.leb_le; lia.
Qed.

Lemma undec_snoc s c : undec (s ++ [c]) = undec s * 10 + digit_val c.
Proof. unfold undec. by rewrite fold_left_app. Qed.

(** What [dec_go] puts in front of its accumulator, all its properties at once. *)
Record dec_spec (n : Z) (ds : bytes) : Prop := {
  ds_value : undec ds = n;
  ds_digits : Forall (λ c, is_digit c = true) ds;
  ds_nonempty : ds ≠ [];
  ds_length : ∀ k : nat, (1 ≤ k)%nat → n < 10 ^ Z.of_nat k → (length ds ≤ k)%nat;
  ds_lead : 0 < n → head ds ≠ Some "0"%char
}.

Lemma dec_spec_digit n : 0 ≤ n < 10 → dec_spec n [digit n].
Proof.
  intros H. split; simpl.
  - unfold undec. simpl. rewrite digit_val_digit; lia.
  - constructor; [by apply is_digit_digit|done].
  - done.
  - lia.
  - intros Hn [= E]. apply (f_equal digit_val) in E.
    rewrite digit_val_digit in E by lia. cbv in E. lia.
Qed.

Lemma dec_spec_snoc n ds :
  10 ≤ n → dec_spec (n / 10) ds → dec_spec n (ds ++ [digit (n mod 10)]).
Proof.
  intros H [Hv Hd Hne Hl Hz]. pose proof (Z.mod_pos_bound n 10 ltac:(lia)) as Hm.
  split.
  - rewrite undec_snoc, Hv, digit_val_digit by lia.
    rewrite (Z.div_mod n 10) at 3; lia.
  - apply Forall_app. split; [done|]. constructor; [by apply is_digit_digit|done].
  - by destruct ds.
  - intros k Hk Hb. rewrite length_app. simpl.
    destruct k as [|[|k]]; [lia|simpl in Hb; lia|].
    specialize (Hl (S k) ltac:(lia)).
    assert (n / 10 < 10 ^ Z.of_nat (S k)).
    { apply Z.div_lt_upper_bound; [lia|].
      rewrite (Nat2Z.inj_succ (S k)), Z.pow_succ_r in Hb by lia. lia. }
    specialize (Hl ltac:(done)). lia.
  - intros _. destruct ds as [|d ds]; [done|]. apply Hz.
    apply Z.div_str_pos. lia.
Qed.

Lemma dec_go_spec fuel n acc :
  0 ≤ n < 2 ^ Z.of_nat fuel → (0 < fuel)%nat →
  ∃ ds, dec_go fuel n acc = ds ++ acc ∧ dec_spec n ds.
Proof.
  revert n acc. induction fuel as [|fuel IH]; intros n acc Hn Hf; [lia|].
  simpl. destruct (Z.ltb_spec n 10) as [Hs|Hs].
  - exists [digit n]. rewrite Z.mod_small by lia. split; [done|].
    apply dec_spec_digit. lia.
  - rewrite Nat2Z.inj_succ, Z.pow_succ_r in Hn by lia.
    assert (0 ≤ n / 10 < 2 ^ Z.of_nat fuel) as Hq.
    { split; [apply Z.div_pos; lia|]. apply Z.div_lt_upper_bound; lia. }
    assert (0 < fuel)%nat.
    { destruct fuel; [|lia]. change (2 ^ Z.of_nat 0) with 1 in Hn. lia. }
    destruct (IH (n / 10) (digit (n mod 10) :: acc) Hq) as (ds & -> & Hds); [done|].
    exists (ds ++ [digit (n mod 10)]). rewrite <- app_assoc. split; [done|].
    by apply dec_spec_snoc.
Qed.

Lemma dec_ok n : 0 ≤ n → dec_spec n (dec n).
Proof.
  intros H. unfold dec.
  destruct (dec_go_spec (S (Z.to_nat (Z.log2 n))) n []) as (ds & -> & Hds); [|lia|].
  - rewrite Nat2Z.inj_succ, Z2Nat.id by apply Z.log2_nonneg. split; [done|].
    destruct (Z.eq_dec n 0) as [->|]; [by vm_compute|]. apply Z.log2_spec. lia.
  - by rewrite app_nil_r.
Qed.

Lemma undec_dec n : 0 ≤ n → undec (dec n) = n.
Proof. intros. by apply ds_value, dec_ok. Qed.

Lemma dec_digits n : 0 ≤ n → Forall (λ c, is_digit c = true) (dec n).
Proof. intros H. exact (ds_digits _ _ (dec_ok n H)). Qed.

Lemma dec_no_nul n : 0 ≤ n → no_nul (dec n).
Proof.
  intros H. pose proof (dec_digits n H) as Hd. revert Hd.
  apply List.Forall_impl. intros c Hc ->. done.
Qed.

(** A 64-bit unsigned number has at most the twenty digits of [%20llu]. *)
Lemma dec_u64_length n : is_u64 n → (length (dec n) ≤ 20)%nat.
Proof.
  intros [H0 H]. apply (ds_length n); [by apply dec_ok|lia|].
  change (Z.of_nat 20) with 20. etrans; [exact H|]. by vm_compute.
Qed.

#[export] Hint Resolve dec_ok dec_digits dec_no_nul : air.

(** * Single precision numbers

    [float] is IEEE binary32 and [double] binary64; the target evaluates float
    expressions in single precision. *)

Abbreviation float := spec_float.

Definition f32_of_Z (z : Z) : float := binary_normalize 24 128 z 0 false.
Definition f32_mul : float → float → float := SFmul 24 128.
Definition f64_of_Z (z : Z) : float := binary_normalize 53 1024 z 0 false.
Definition f64_div : float → float → float := SFdiv 53 1024.

(** The conversion of a [double] to a [float]. *)
Definition f32_of_f64 (x : float) : float :=
  match x with
  | S754_finite s m e => binary_normalize 24 128 (if s then Zneg m else Zpos m) e s
  | _ => x
  end.

(** The literals [num/den F] and [num/den] of the source: the quotient of two
    exact numbers, correctly rounded, is the literal's value. *)
Definition f32_lit (num den : Z) : float := SFdiv 24 128 (f32_of_Z num) (f32_of_Z den).
Definition f64_lit (num den : Z) : float := f64_div (f64_of_Z num) (f64_of_Z den).

(** [x >= y] on floats. *)
Definition f32_geb (x y : float) : bool :=
  match SFcompare x y with
  | Some Gt | Some Eq => true
  | _ => false
  end.

(** The conversion of a [float] to [unsigned long long]: truncation; undefined
    out of range. *)
Definition f32_trunc (x : float) : option Z :=
  match x with
  | S754_zero _ => Some 0
  | S754_finite s m e =>
      let q := Z.shiftl (Zpos m) e in
      if s then (if q =? 0 then Some 0 else None)
      else if q <? 2 ^ 64 then Some q else None
  | _ => None
  end.

Lemma f32_trunc_nonneg x z : f32_trunc x = Some z → 0 ≤ z.
Proof.
  destruct x as [s|s| |s m e]; simpl; try done; [by intros [= <-]|].
  assert (0 ≤ Z.shiftl (Zpos m) e) by (apply Z.shiftl_nonneg; lia).
  destruct s; case_match; naive_solver.
Qed.

(** [%.<prec>f]: the exact value scaled by ten to the [prec], rounded to
    nearest, ties to even. *)
Definition fixed_scaled (prec : nat) (m : positive) (e : Z) : Z :=
  let num := Zpos m * 10 ^ Z.of_nat prec in
  if 0 <=? e then num * 2 ^ e
  else
    let den := 2 ^ (- e) in
    let q := num / den in
    let r := num mod den in
    if 2 * r <? den then q
    else if den <? 2 * r then q + 1
    else if Z.even q then q else q + 1.

Definition pad_left (width : nat) (c : ascii) (s : bytes) : bytes :=
  replicate (width - length s) c ++ s.

Definition fixed_digits (prec : nat) (q : Z) : bytes :=
  let p := 10 ^ Z.of_nat prec in
  dec (q / p) ++ "."%char :: pad_left prec "0"%char (dec (q mod p)).

Definition fixed (prec : nat) (x : float) : bytes :=
  match x with
  | S754_zero s => (if s then lit "-" else []) ++ fixed_digits prec 0
  | S754_infinity s => if s then lit "-inf" else lit "inf"
  | S754_nan => lit "nan"
  | S754_finite s m e =>
      (if s then lit "-" else []) ++ fixed_digits prec (fixed_scaled prec m e)
  end.

(** ** Large integers stay large when converted

    Only the exponent of the result matters for a comparison with a smaller
    number: rounding never lowers it and never loses the mantissa. *)

Definition mantissa_over (k : Z) (r : shr_record) : Prop :=
  ∃ q, shr_m r = Zpos q ∧ k < Zpos (digits2_pos q).

Lemma shr_1_over k r : 0 ≤ k → mantissa_over (k + 1) r → mantissa_over k (shr_1 r).
Proof.
  intros Hk (q & E & Hq). destruct r as [m a b]. simpl in E. subst m.
  destruct q as [q|q|]; simpl in *; [exists q; simpl; split; [done|lia]..|lia].
Qed.

Lemma iter_shr_1_over n k r :
  0 ≤ k → mantissa_over (k + Zpos n) r → mantissa_over k (SpecFloat.iter_pos shr_1 n r).
Proof.
  revert k r. induction n as [n IH|n IH|]; intros k r Hk H; simpl.
  - apply IH; [done|]. apply IH; [lia|]. apply shr_1_over; [lia|].
    by replace (k + Zpos n + Zpos n + 1) with (k + Zpos (n~1)) by lia.
  - apply IH; [done|]. apply IH; [lia|].
    by replace (k + Zpos n + Zpos n) with (k + Zpos (n~0)) by lia.
  - by apply shr_1_over.
Qed.

Lemma shr_m_of_loc m l : shr_m (shr_record_of_loc m l) = m.
Proof. by destruct l as [|[]]. Qed.

Lemma shr_fexp_over q e l r e' :
  -149 ≤ e → shr_fexp 24 128 (Zpos q) e l = (r, e') → mantissa_over 0 r ∧ e ≤ e'.
Proof.
  intros He. unfold shr_fexp, shr, fexp, emin. cbn [Zdigits2].
  destruct (Z.max _ _ - e) as [|n|n] eqn:En; intros [= <- <-].
  1,3: split; [|lia]; exists q; rewrite shr_m_of_loc; split; [done|lia].
  split; [|lia]. apply iter_shr_1_over; [lia|]. exists q. rewrite shr_m_of_loc.
  split; [done|]. lia.
Qed.

Lemma round_nearest_even_pos q l : ∃ q', round_nearest_even (Zpos q) l = Zpos q'.
Proof. destruct l as [|[]]; simpl; try case_match; eauto. Qed.

(** A positive value aligned at exponent [ex] becomes a number of exponent at
    least [ex], or infinity. *)
Lemma binary_round_aux_ge q ex :
  -149 ≤ ex →
  (∃ m e, binary_round_aux 24 128 false (Zpos q) ex loc_Exact = S754_finite false m e ∧ ex ≤ e)
  ∨ binary_round_aux 24 128 false (Zpos q) ex loc_Exact = S754_infinity false.
Proof.
  intros He. unfold binary_round_aux.
  destruct (shr_fexp _ _ _ _ _) as [r1 e1] eqn:E1.
  apply shr_fexp_over in E1 as [(q1 & -> & _) H1]; [|done].
  destruct (round_nearest_even_pos q1 (loc_of_shr_record r1)) as [q2 ->].
  destruct (shr_fexp _ _ (Zpos q2) _ _) as [r2 e2] eqn:E2.
  apply shr_fexp_over in E2 as [(q3 & -> & _) H2]; [|lia].
  destruct (_ <=? _); [left; eexists _, _; split; [done|lia]|by right].
Qed.

Lemma f32_of_Z_exp v m e :
  8 ≤ v → e ≤ -21 → f32_geb (f32_of_Z v) (S754_finite false m e) = true.
Proof.
  intros Hv He. destruct v as [|v|v]; [lia| |lia]. unfold f32_of_Z. cbn [binary_normalize].
  assert (4 ≤ Zpos (digits2_pos v)) as Hd.
  { destruct v as [[[[v|v|]|[v|v|]|]|[[v|v|]|[v|v|]|]|]|[[[v|v|]|[v|v|]|]|[[v|v|]|[v|v|]|]|]|];
      simpl; lia. }
  unfold binary_round, shl_align, fexp, emin.
  destruct (Z.max _ _ - 0) as [|d|d] eqn:Ed;
    match goal with |- context [binary_round_aux _ _ _ (Zpos ?q) ?ex _] =>
      destruct (binary_round_aux_ge q ex) as [(m' & e' & -> & H)| ->]; [lia| |done] end;
    unfold f32_geb; simpl; rewrite (proj2 (Z.compare_gt_iff e' e)) by lia; done.
Qed.

(** * The printf family *)

(** An argument of a variadic call. *)
Inductive arg : Type :=
| AStr (s : bytes)
| AInt (z : Z)
| AFlt (x : float).

Inductive conv : Type :=
| CStr
| CUns (bits : Z)
| CInt
| CFix (prec : nat).

Inductive piece : Type :=
| PLit (s : string)
| PConv (width : nat) (c : conv).

Fixpoint read_nat (acc : nat) (s : string) : nat * string :=
  match s with
  | String c s' =>
      if is_digit c then read_nat (acc * 10 + Z.to_nat (digit_val c)) s' else (acc, s)
  | EmptyString => (acc, s)
  end.

(** The conversion specifications the source uses: [%s], [%d], [%hu], [%u],
    [%lu], [%llu], [%.Nf], [%.Nlf], each with an optional field width. *)
Definition read_conv (s : string) : option (piece * string) :=
  let '(width, s) := read_nat 0 s in
  match s with
  | String "s" s => Some (PConv width CStr, s)
  | String "d" s => Some (PConv width CInt, s)
  | String "u" s => Some (PConv width (CUns 32), s)
  | String "h" (String "u" s) => Some (PConv width (CUns 16), s)
  | String "l" (String "u" s) => Some (PConv width (CUns 64), s)
  | String "l" (String "l" (String "u" s)) => Some (PConv width (CUns 64), s)
  | String "." s =>
      let '(prec, s) := read_nat 0 s in
      match s with
      | String "f" s => Some (PConv width (CFix prec), s)
      | String "l" (String "f" s) => Some (PConv width (CFix prec), s)
      | _ => None
      end
  | _ => None
  end.

(** The pieces of a format; the fuel is the length of the format, each round
    consumes a character. *)
Fixpoint pieces_go (fuel : nat) (run : string → string) (s : string) : option (list piece) :=
  match fuel, s with
  | _, EmptyString => Some [PLit (run EmptyString)]
  | O, _ => None
  | S fuel, String "%" s =>
      match read_conv s with
      | Some (p, s) =>
          match pieces_go fuel (λ t, t) s with
          | Some ps => Some (PLit (run EmptyString) :: p :: ps)
          | None => None
          end
      | None => None
      end
  | S fuel, String c s => pieces_go fuel (λ t, run (String c t)) s
  end.

Definition pieces (f : string) : option (list piece) :=
  pieces_go (String.length f) (λ t, t) f.

Definition render_conv (c : conv) (a : arg) : option bytes :=
  match c, a with
  | CStr, AStr s => Some s
  | CUns bits, AInt z => Some (dec (z mod 2 ^ bits))
  | CInt, AInt z => Some (if z <? 0 then "-"%char :: dec (- z) else dec z)
  | CFix prec, AFlt x => Some (fixed prec x)
  | _, _ => None
  end.

Fixpoint render (ps : list piece) (args : list arg) : option bytes :=
  match ps, args with
  | [], _ => Some []
  | PLit s :: ps, _ =>
      match render ps args with
      | Some t => Some (lit s ++ t)
      | None => None
      end
  | PConv w c :: ps, a :: args =>
      match render_conv c a, render ps args with
      | Some b, Some t => Some (pad_left w " "%char b ++ t)
      | _, _ => None
      end
  | PConv _ _ :: _, [] => None
  end.

(** The text a format and its arguments denote; [None] when they disagree. *)
Definition format (f : string) (args : list arg) : option bytes :=
  match pieces f with
  | Some ps => render ps args
  | None => None
  end.

Lemma pad_left_0 c s : pad_left 0 c s = s.
Proof. done. Qed.

Lemma length_pad_left w c s : (length s ≤ w)%nat → length (pad_left w c s) = w.
Proof. intros. unfold pad_left. rewrite length_app, length_replicate. lia. Qed.

Arguments f32_of_Z : simpl never.
Arguments f32_mul : simpl never.
Arguments lit : simpl never.
Arguments dec : simpl never.
Arguments pad_left : simpl never.

(** * Line input *)

(** At most [n] characters up to and including the first newline. *)
Fixpoint read_line (n : nat) (s : bytes) : bytes * bytes :=
  match n, s with
  | O, _ | _, [] => ([], s)
  | S n, c :: s' =>
      if Ascii.eqb c "010"%char then ([c], s')
      else let '(l, r) := read_line n s' in (c :: l, r)
  end.

(** [fgets(buf, n, f)] on the unread contents [s] of a file: the line stored and
    what remains, or [None] at the end of the file. *)
Definition fgets (n : Z) (s : bytes) : option (bytes * bytes) :=
  match s with
  | [] => None
  | _ => Some (read_line (Z.to_nat (n - 1)) s)
  end.

Lemma read_line_app n s : (read_line n s).1 ++ (read_line n s).2 = s.
Proof.
  revert s. induction n as [|n IH]; intros [|c s]; simpl; [done..|].
  destruct (Ascii.eqb c _); [done|]. specialize (IH s).
  destruct (read_line n s); simpl in *. by rewrite IH.
Qed.

Lemma read_line_length n s : (length (read_line n s).1 ≤ n)%nat.
Proof.
  revert s. induction n as [|n IH]; intros [|c s]; simpl; [lia..|].
  destruct (Ascii.eqb c _); simpl; [lia|]. specialize (IH s).
  destruct (read_line n s); simpl in *. lia.
Qed.

Lemma read_line_progress n s : (0 < n)%nat → s ≠ [] → (length (read_line n s).2 < length s)%nat.
Proof.
  intros Hn Hs. destruct n as [|n]; [lia|]. destruct s as [|c s]; [done|]. simpl.
  destruct (Ascii.eqb c _); simpl; [lia|].
  pose proof (read_line_app n s) as E. destruct (read_line n s) as [l r]; simpl in *.
  apply (f_equal length) in E. rewrite length_app in E. lia.
Qed.

(** A line fits the buffer with its terminator, nothing of the file is lost, and
    every call makes progress. *)
Lemma fgets_spec n s l r :
  2 ≤ n → fgets n s = Some (l, r) →
  s = l ++ r ∧ Z.of_nat (length l) < n ∧ (length r < length s)%nat.
Proof.
  intros Hn. unfold fgets. destruct s as [|c s]; [done|]. intros [= E].
  pose proof (read_line_app (Z.to_nat (n - 1)) (c :: s)) as H1.
  pose proof (read_line_length (Z.to_nat (n - 1)) (c :: s)) as H2.
  pose proof (read_line_progress (Z.to_nat (n - 1)) (c :: s) ltac:(lia) ltac:(done)) as H3.
  rewrite E in *. simpl in *. split; [done|]. split; lia.
Qed.

(** [fmt_eval] evaluates the closed format strings of the goal into the
    concatenation of their literal runs and converted arguments. *)
Ltac fmt_eval :=
  unfold format;
  repeat match goal with
  | |- context [pieces ?f] =>
      let t := eval vm_compute in (pieces f) in
      change (pieces f) with t
  end;
  cbn [render render_conv of_opt rbind];
  rewrite ?pad_left_0.
