(* ===== verification/Scan.v ===== *)
(** The scanf family, as far as the program uses it: every conversion reads from
    the front of a text and gives what it stored and the text left over. *)
From Stdlib Require Import ZArith Ascii Lia SpecFloat.
From stdpp Require Import base list strings numbers.
From S2P Require Import Prelude.
From S2P Require Import Clib.

Local Open Scope Z_scope.

Definition NL : ascii := "010"%char.

(** [isspace] *)
Definition is_space (c : ascii) : bool :=
  bool_decide (c ∈ [" "%char; "009"%char; "010"%char; "011"%char; "012"%char; "013"%char]).

Fixpoint skip_space (s : bytes) : bytes :=
  match s with
  | c :: s' => if is_space c then skip_space s' else s
  | [] => []
  end.

Fixpoint take_word (s : bytes) : bytes :=
  match s with
  | c :: s' => if is_space c then [] else c :: take_word s'
  | [] => []
  end.

(** The longest prefix of at most [n] characters that satisfy [f], and the rest. *)
Fixpoint span_n (n : nat) (f : ascii → bool) (s : bytes) : bytes * bytes :=
  match n, s with
  | S n, c :: s' => if f c then let '(a, b) := span_n n f s' in (c :: a, b) else ([], s)
  | _, _ => ([], s)
  end.

(** The longest prefix of characters that satisfy [f], and the rest. *)
Fixpoint span (f : ascii → bool) (s : bytes) : bytes * bytes :=
  match s with
  | c :: s' => if f c then let '(a, b) := span f s' in (c :: a, b) else ([], s)
  | [] => ([], [])
  end.

(** [%<n>[...]]: at least one character, no white space is skipped. *)
Definition scan_set (n : nat) (f : ascii → bool) (s : bytes) : option (bytes * bytes) :=
  let '(w, s) := span_n n f s in
  if decide (w = []) then None else Some (w, s).

(** [%<n>s] *)
Definition scan_str (n : nat) (s : bytes) : option (bytes * bytes) :=
  scan_set n (λ c, negb (is_space c)) (skip_space s).

(** A literal character. *)
Definition scan_char (c : ascii) (s : bytes) : option bytes :=
  match s with
  | d :: s' => if Ascii.eqb c d then Some s' else None
  | [] => None
  end.

Fixpoint scan_lit (l : bytes) (s : bytes) : option bytes :=
  match l with
  | [] => Some s
  | c :: l => scan_char c s ≫= scan_lit l
  end.

Definition ULLONG_MAX : Z := 2 ^ 64 - 1.

Definition scan_sign (s : bytes) : bool * bytes :=
  match s with
  | c :: s' =>
      if Ascii.eqb c "+"%char then (false, s')
      else if Ascii.eqb c "-"%char then (true, s')
      else (false, s)
  | [] => (false, s)
  end.

(** [%llu] and [%lu]: white space, a sign, digits; a value too large becomes the
    largest. *)
Definition scan_llu (s : bytes) : option (Z * bytes) :=
  let '(neg, s) := scan_sign (skip_space s) in
  let '(ds, s) := span is_digit s in
  if decide (ds = []) then None
  else
    let v := undec ds in
    Some (if ULLONG_MAX <? v then ULLONG_MAX else if neg then u64 (- v) else v, s).

(** [%hu] *)
Definition scan_hu (s : bytes) : option (Z * bytes) :=
  '(v, s) ← scan_llu s; Some (u16 v, s).

(** The [float] nearest to [n * 10^e]. *)
Definition f32_dec (neg : bool) (n e : Z) : float :=
  match n with
  | Zpos m =>
      if 0 <=? e then binary_normalize 24 128 (if neg then - (n * 10 ^ e) else n * 10 ^ e) 0 neg
      else match 10 ^ (- e) with
      | Zpos d =>
          let '(mz, ez, lz) := SFdiv_core_binary 24 128 (Zpos m) 0 (Zpos d) 0 in
          binary_round_aux 24 128 neg mz ez lz
      | _ => S754_nan
      end
  | _ => S754_zero neg
  end.

(** An exponent, if there is one: [None] when it has no digits. *)
Definition scan_exp (s : bytes) : option (Z * bytes) :=
  match s with
  | c :: s' =>
      if Ascii.eqb c "e"%char || Ascii.eqb c "E"%char then
        let '(neg, s') := scan_sign s' in
        let '(ds, s') := span is_digit s' in
        if decide (ds = []) then None else Some (if neg then - undec ds else undec ds, s')
      else Some (0, s)
  | [] => Some (0, s)
  end.

(** [%f] on decimal text: a sign, digits with an optional point, an optional
    exponent.  (Hexadecimal numbers, [inf] and [nan] are not read.) *)
Definition scan_f (s : bytes) : option (float * bytes) :=
  let '(neg, s) := scan_sign (skip_space s) in
  let '(ds, s) := span is_digit s in
  let '(fs, s) :=
    match scan_char "."%char s with
    | Some s' => span is_digit s'
    | None => ([], s)
    end in
  if decide (ds ++ fs = []) then None
  else '(e, s) ← scan_exp s; Some (f32_dec neg (undec (ds ++ fs)) (e - Z.of_nat (length fs)), s).

(** [%llu] [n] times in a row. *)
Fixpoint scan_llus (n : nat) (s : bytes) : option (list Z * bytes) :=
  match n with
  | O => Some ([], s)
  | S n => '(v, s) ← scan_llu s; '(vs, s) ← scan_llus n s; Some (v :: vs, s)
  end.

(** The numbers [%llu] [n] times in a row stores before it fails. *)
Fixpoint scan_some (n : nat) (s : bytes) : list Z :=
  match n with
  | O => []
  | S n => match scan_llu s with Some (v, s) => v :: scan_some n s | None => [] end
  end.

(** * Lemmas *)

Lemma span_app f a b :
  Forall (λ c, f c = true) a → (∀ c, head b = Some c → f c = false) → span f (a ++ b) = (a, b).
Proof.
  intros Ha Hb. induction Ha as [|c a Hc _ IH]; simpl.
  - destruct b as [|c b]; [done|]. simpl. by rewrite (Hb c eq_refl).
  - by rewrite Hc, IH.
Qed.

Lemma digit_not_sign c : is_digit c = true → is_space c = false ∧ c ≠ "+"%char ∧ c ≠ "-"%char.
Proof.
  intros H. split; [|split; by intros ->].
  unfold is_space. apply bool_decide_false. intros Hin.
  repeat (apply elem_of_cons in Hin as [->|Hin]; [done|]). by apply elem_of_nil in Hin.
Qed.

(** A number that was printed, with anything but a digit behind it. *)
Lemma scan_llu_dec v r :
  is_u64 v → (∀ c, head r = Some c → is_digit c = false) → scan_llu (dec v ++ r) = Some (v, r).
Proof.
  intros Hv Hr. pose proof (dec_digits v ltac:(apply Hv)) as Hd. unfold scan_llu.
  assert (dec v ≠ []) as Hne by (apply (ds_nonempty _ _ (dec_ok v ltac:(apply Hv)))).
  assert (skip_space (dec v ++ r) = dec v ++ r) as ->.
  { destruct Hd as [|c ds Hc _]; [done|]. simpl. by rewrite (proj1 (digit_not_sign c Hc)). }
  assert (scan_sign (dec v ++ r) = (false, dec v ++ r)) as ->.
  { destruct Hd as [|c ds Hc _]; [done|]. simpl. destruct (digit_not_sign c Hc) as (_ & H1 & H2).
    destruct (Ascii.eqb_spec c "+"%char); [done|]. by destruct (Ascii.eqb_spec c "-"%char). }
  rewrite span_app by done. rewrite decide_False by done. rewrite undec_dec by apply Hv.
  rewrite (proj2 (Z.ltb_ge _ _)); [done|]. unfold ULLONG_MAX. destruct Hv. lia.
Qed.


(** ** What the conversions store and how far they read *)

Lemma span_spec f s : Forall (λ c, f c = true) (span f s).1 ∧ (span f s).1 ++ (span f s).2 = s.
Proof.
  induction s as [|c s [IH1 IH2]]; simpl; [by split|].
  destruct (f c) eqn:E; [|by split]. destruct (span f s) as [a b]. simpl in *.
  split; [by constructor|by rewrite IH2].
Qed.

Lemma span_n_spec n f s :
  Forall (λ c, f c = true) (span_n n f s).1 ∧ (span_n n f s).1 ++ (span_n n f s).2 = s.
Proof.
  revert s. induction n as [|n IH]; intros [|c s]; simpl; [by split..|].
  destruct (f c) eqn:E; [|by split]. destruct (IH s) as [IH1 IH2]. destruct (span_n n f s) as [a b].
  simpl in *. split; [by constructor|by rewrite IH2].
Qed.

Lemma undec_nonneg s : Forall (λ c, is_digit c = true) s → 0 ≤ undec s.
Proof.
  induction s as [|c s IH] using rev_ind; intros H; [done|]. apply Forall_app in H as [H1 H2].
  rewrite undec_snoc. apply list.Forall_cons in H2 as [Hc _].
  unfold is_digit in Hc. apply andb_true_iff in Hc as [Hc _]. apply Z.leb_le in Hc.
  unfold digit_val. specialize (IH H1). lia.
Qed.

Lemma scan_llu_range s v r : scan_llu s = Some (v, r) → is_u64 v.
Proof.
  unfold scan_llu. destruct (scan_sign _) as [neg s1].
  destruct (span_spec is_digit s1) as [Hd _]. destruct (span is_digit s1) as [ds s2]. simpl in Hd.
  case_decide; [done|]. intros [= <- <-]. apply undec_nonneg in Hd. unfold ULLONG_MAX.
  destruct (Z.ltb_spec (2 ^ 64 - 1) (undec ds)); [by vm_compute|].
  destruct neg; [apply u64_range|]. unfold is_u64. lia.
Qed.

Lemma scan_llus_range n s vs r :
  scan_llus n s = Some (vs, r) → length vs = n ∧ Forall is_u64 vs.
Proof.
  revert s vs r. induction n as [|n IH]; intros s vs r; cbn [scan_llus]; [by intros [= <- _]|].
  destruct (scan_llu s) as [[v s1]|] eqn:E1; [|done]. cbn.
  destruct (scan_llus n s1) as [[vs1 s2]|] eqn:E2; [|done]. cbn. intros [= <- <-].
  apply IH in E2 as [<- H2]. split; [done|]. constructor; [|done]. by eapply scan_llu_range.
Qed.

Lemma scan_some_range n s : Forall is_u64 (scan_some n s).
Proof.
  revert s. induction n as [|n IH]; intros s; simpl; [constructor|].
  destruct (scan_llu s) as [[v r]|] eqn:E; [|constructor].
  constructor; [by eapply scan_llu_range|apply IH].
Qed.

Lemma skip_space_length s : (length (skip_space s) ≤ length s)%nat.
Proof. induction s as [|c s IH]; simpl; [done|]. destruct (is_space c); simpl; lia. Qed.

Lemma scan_set_spec n f s w r :
  scan_set n f s = Some (w, r) → s = w ++ r ∧ w ≠ [] ∧ Forall (λ c, f c = true) w.
Proof.
  unfold scan_set. destruct (span_n_spec n f s) as [H1 H2]. destruct (span_n n f s) as [a b].
  case_decide; [done|]. intros [= <- <-]. by rewrite <- H2.
Qed.

Lemma scan_set_length n f s w r : scan_set n f s = Some (w, r) → (length r < length s)%nat.
Proof.
  intros (-> & Hw & _)%scan_set_spec. rewrite length_app. destruct w; [done|]. simpl. lia.
Qed.

Lemma scan_str_length n s w r : scan_str n s = Some (w, r) → (length r < length s)%nat.
Proof. intros H%scan_set_length. pose proof (skip_space_length s). lia. Qed.

Lemma scan_sign_length s : (length (scan_sign s).2 ≤ length s)%nat.
Proof. destruct s as [|c s]; simpl; [done|]. repeat case_match; simpl; lia. Qed.

Lemma span_length f s : (length (span f s).2 ≤ length s)%nat.
Proof.
  destruct (span_spec f s) as [_ H]. apply (f_equal length) in H. rewrite length_app in H. lia.
Qed.

Lemma scan_llu_length s v r : scan_llu s = Some (v, r) → (length r ≤ length s)%nat.
Proof.
  unfold scan_llu. pose proof (skip_space_length s). pose proof (scan_sign_length (skip_space s)).
  destruct (scan_sign _) as [neg s1]. pose proof (span_length is_digit s1).
  destruct (span is_digit s1) as [ds s2]. case_decide; [done|]. simpl in *. intros [= _ <-]. lia.
Qed.

Lemma scan_llus_length n s vs r : scan_llus n s = Some (vs, r) → (length r ≤ length s)%nat.
Proof.
  revert s vs r. induction n as [|n IH]; intros s vs r; cbn [scan_llus]; [by intros [= _ <-]|].
  destruct (scan_llu s) as [[v s1]|] eqn:E1; [|done]. cbn.
  destruct (scan_llus n s1) as [[vs1 s2]|] eqn:E2; [|done]. cbn. intros [= _ <-].
  apply IH in E2. apply scan_llu_length in E1. lia.
Qed.

Lemma scan_char_length c s r : scan_char c s = Some r → (length r ≤ length s)%nat.
Proof. destruct s as [|d s]; simpl; [done|]. case_match; [|done]. intros [= <-]. lia. Qed.

Lemma scan_lit_length l s r : scan_lit l s = Some r → (length r ≤ length s)%nat.
Proof.
  revert s. induction l as [|c l IH]; intros s; simpl; [by intros [= <-]|].
  destruct (scan_char c s) as [s1|] eqn:E; [|done]. simpl. intros H%IH.
  apply scan_char_length in E. lia.
Qed.

Lemma scan_exp_length s e r : scan_exp s = Some (e, r) → (length r ≤ length s)%nat.
Proof.
  destruct s as [|c s]; simpl; [by intros [= _ <-]|]. destruct (_ || _); [|by intros [= _ <-]].
  pose proof (scan_sign_length s). destruct (scan_sign s) as [n s1].
  pose proof (span_length is_digit s1). destruct (span is_digit s1) as [ds s2]. simpl in *.
  case_decide; [done|]. intros [= _ <-]. lia.
Qed.

Lemma scan_f_length s x r : scan_f s = Some (x, r) → (length r ≤ length s)%nat.
Proof.
  unfold scan_f. pose proof (skip_space_length s). pose proof (scan_sign_length (skip_space s)).
  destruct (scan_sign _) as [neg s1]. pose proof (span_length is_digit s1).
  destruct (span is_digit s1) as [ds s2]. cbn [snd] in *.
  assert (length (match scan_char "."%char s2 with Some s' => span is_digit s' | None => ([], s2) end).2
          ≤ length s2)%nat as H3.
  { destruct (scan_char _ s2) as [s'|] eqn:E; [|done]. apply scan_char_length in E.
    pose proof (span_length is_digit s'). lia. }
  destruct (match scan_char _ s2 with Some _ => _ | None => _ end) as [fs s3]. cbn [snd] in H3.
  case_decide; [done|]. destruct (scan_exp s3) as [[e s4]|] eqn:E; [|done]. cbn.
  intros [= _ <-]. apply scan_exp_length in E. lia.
Qed.

(** ** Reading back what was printed *)

Lemma span_n_app n f a b :
  Forall (λ c, f c = true) a → (∀ c, head b = Some c → f c = false) → (length a ≤ n)%nat →
  span_n n f (a ++ b) = (a, b).
Proof.
  intros Ha Hb. revert n. induction Ha as [|c a Hc _ IH]; intros n Hn; simpl in *.
  - destruct n, b as [|c b]; try done. simpl. by rewrite (Hb c eq_refl).
  - destruct n as [|n]; [lia|]. simpl. rewrite Hc, IH by lia. done.
Qed.

Lemma scan_set_app n f a b :
  Forall (λ c, f c = true) a → (∀ c, head b = Some c → f c = false) → (length a ≤ n)%nat → a ≠ [] →
  scan_set n f (a ++ b) = Some (a, b).
Proof.
  intros Ha Hb Hn Hne. unfold scan_set. rewrite span_n_app by done. by rewrite decide_False.
Qed.

Lemma skip_space_id s : (∀ c, head s = Some c → is_space c = false) → skip_space s = s.
Proof. destruct s as [|c s]; [done|]. intros H. simpl. by rewrite (H c eq_refl). Qed.

(** A word without white space. *)
Definition word (s : bytes) : Prop := s ≠ [] ∧ Forall (λ c, is_space c = false) s.

#[global] Instance word_dec s : Decision (word s).
Proof. unfold word. apply _. Defined.

Lemma scan_str_word n w r :
  word w → (length w ≤ n)%nat → (∀ c, head r = Some c → is_space c = true) →
  scan_str n (" "%char :: w ++ r) = Some (w, r).
Proof.
  intros [Hne Hw] Hn Hr. unfold scan_str. cbn [skip_space]. change (is_space " ") with true. cbv iota.
  rewrite skip_space_id.
  - apply scan_set_app; [|by intros c ->%Hr|done|done].
    eapply list.Forall_impl; [exact Hw|]. by intros c ->.
  - destruct Hw as [|c w Hc _]; [done|]. by intros ? [= <-].
Qed.

(** Numbers, each behind the white space [b]. *)
Definition nums_by (b : ascii) (vs : list Z) : bytes := mjoin ((λ v, b :: dec v) <$> vs).

Definition nums_line (vs : list Z) : bytes := nums_by " "%char vs.

Lemma scan_llu_skip b s : is_space b = true → scan_llu (b :: s) = scan_llu s.
Proof. intros Hb. unfold scan_llu. simpl. by rewrite Hb. Qed.

Lemma scan_llus_by b vs r :
  is_space b = true → Forall is_u64 vs → (∀ c, head r = Some c → is_digit c = false) →
  scan_llus (length vs) (nums_by b vs ++ r) = Some (vs, r).
Proof.
  intros Hb Hv Hr. induction Hv as [|v vs Hv _ IH]; [done|]. cbn [length scan_llus].
  change (nums_by b (v :: vs)) with ((b :: dec v) ++ nums_by b vs).
  rewrite <- app_assoc, <- app_comm_cons, scan_llu_skip by done.
  rewrite scan_llu_dec; [cbn; by rewrite IH|done|].
  destruct vs; [done|]. intros c [= <-]. destruct (is_digit b) eqn:Hd; [|done].
  by apply digit_not_sign in Hd as [H _]; rewrite Hb in H.
Qed.

Lemma scan_llus_line vs r :
  Forall is_u64 vs → (∀ c, head r = Some c → is_digit c = false) →
  scan_llus (length vs) (nums_line vs ++ r) = Some (vs, r).
Proof. by apply scan_llus_by. Qed.

(** Numbers separated by [b], and a newline. *)
Definition listed (b : ascii) (vs : list Z) : bytes := drop 1 (nums_by b vs) ++ [NL].

Lemma scan_llus_listed b vs :
  is_space b = true → Forall is_u64 vs → scan_llus (length vs) (listed b vs) = Some (vs, [NL]).
Proof.
  intros Hb Hv. rewrite <- (scan_llus_by b vs [NL]) by (done || by intros c [= <-]).
  destruct Hv as [|v vs Hv _]; [done|]. unfold listed.
  change (nums_by b (v :: vs)) with (b :: dec v ++ nums_by b vs). cbn [drop length scan_llus].
  by rewrite <- app_comm_cons, scan_llu_skip by done.
Qed.

Lemma scan_llus_some n s vs r : scan_llus n s = Some (vs, r) → scan_some n s = vs.
Proof.
  revert s vs. induction n as [|n IH]; intros s vs; cbn [scan_llus scan_some]; [by intros [= <- _]|].
  destruct (scan_llu s) as [[v s1]|]; [|done]. cbn.
  destruct (scan_llus n s1) as [[vs1 s2]|] eqn:E; [|done]. cbn. intros [= <- <-]. by rewrite (IH s1 vs1 E).
Qed.
