(* ===== verification/Json.v ===== *)
(** The JSON text the agent promises to its server: a grammar of values in the
    shape of RFC 8259, restricted to what the agent sends (numbers without
    exponent, strings without escapes), given as relations between a text and
    the value it denotes. *)
From Stdlib Require Import ZArith Ascii Lia.
From stdpp Require Import base list strings numbers.
From S2P Require Import Prelude.
From S2P Require Import Clib.

Local Open Scope Z_scope.

(** [JDec q k] is the decimal fraction [q / 10^k]. *)
#[warnings="-register-all"]
Inductive json : Type :=
| JInt (z : Z)
| JDec (q : Z) (k : nat)
| JStr (s : bytes)
| JArr (js : list json)
| JObj (kvs : list (bytes * json)).

(** A character that may stand in a JSON string without an escape. *)
Definition plain (c : ascii) : bool :=
  (32 <=? code c) && negb (Ascii.eqb c DQ) && negb (Ascii.eqb c "092"%char).

Definition clean (s : bytes) : Prop := Forall (λ c, plain c = true) s.

#[global] Instance clean_dec s : Decision (clean s).
Proof. unfold clean. apply _. Defined.

(** [solve_clean] proves that a literal needs no escape. *)
Ltac solve_clean := apply (bool_decide_unpack _); vm_compute; exact I.

Definition quoted (s : bytes) : bytes := DQ :: s ++ [DQ].

Inductive value : bytes → json → Prop :=
| v_int n pad : 0 ≤ n → value (replicate pad " "%char ++ dec n) (JInt n)
| v_dec q k : 0 ≤ q → (1 ≤ k)%nat → value (fixed_digits k q) (JDec q k)
| v_str s : clean s → value (quoted s) (JStr s)
| v_arr s js : elements s js → value ("["%char :: s ++ ["]"%char]) (JArr js)
| v_obj s kvs : members s kvs → value ("{"%char :: s ++ ["}"%char]) (JObj kvs)
with elements : bytes → list json → Prop :=
| e_nil : elements [] []
| e_one s j : value s j → elements s [j]
| e_snoc s js t j :
    elements s js → js ≠ [] → value t j → elements (s ++ ","%char :: t) (js ++ [j])
with members : bytes → list (bytes * json) → Prop :=
| m_nil : members [] []
| m_one k s j : clean k → value s j → members (quoted k ++ ":"%char :: s) [(k, j)]
| m_snoc s kvs k t j :
    members s kvs → kvs ≠ [] → clean k → value t j →
    members (s ++ ","%char :: quoted k ++ ":"%char :: t) (kvs ++ [(k, j)]).

Create HintDb json.
#[export] Hint Constructors value elements members : json.

(** A text that is empty exactly when it denotes no element or member. *)
Lemma value_nonempty s j : value s j → s ≠ [].
Proof.
  destruct 1 as [n pad Hn|q k ? ?| | |]; try done.
  - intros [_ E]%app_eq_nil. by destruct (ds_nonempty _ _ (dec_ok n Hn)).
  - unfold fixed_digits. by intros [_ ?]%app_eq_nil.
Qed.

Lemma members_nil_iff s kvs : members s kvs → s = [] ↔ kvs = [].
Proof.
  destruct 1 as [|k s j|s kvs k t j].
  - done.
  - done.
  - split; intros E; [by apply app_eq_nil in E as [_ ?]|by destruct kvs].
Qed.

Lemma elements_nil_iff s js : elements s js → s = [] ↔ js = [].
Proof.
  destruct 1 as [|s j Hv|s js t j].
  - done.
  - split; intros E; [by apply value_nonempty in Hv|done].
  - split; intros E; [by apply app_eq_nil in E as [_ ?]|by destruct js].
Qed.

(** Adding a member behind a possibly empty list, with the comma it needs. *)
Lemma members_add s kvs k t j sep :
  members s kvs → clean k → value t j →
  sep = (if decide (s = []) then [] else [","%char]) →
  members (s ++ sep ++ quoted k ++ ":"%char :: t) (kvs ++ [(k, j)]).
Proof.
  intros Hm Hk Hv ->. pose proof (members_nil_iff s kvs Hm) as Hn.
  case_decide as Hs.
  - rewrite (proj1 Hn Hs), Hs. by apply m_one.
  - apply m_snoc; [done|by intros ?%Hn|done|done].
Qed.

(** The last character of an object is its brace. *)
Lemma value_obj_last s kvs : value s (JObj kvs) → list.last s = Some "}"%char.
Proof. inversion 1; subst. by rewrite app_comm_cons, last_snoc. Qed.

(** A JSON text holds no NUL, so a C string carries all of it. *)
Lemma plain_no_nul c : plain c = true → c ≠ NUL.
Proof. by intros Hp ->. Qed.

Lemma clean_no_nul s : clean s → no_nul s.
Proof. intros H. eapply List.Forall_impl; [|exact H]. apply plain_no_nul. Qed.

Lemma quoted_no_nul s : clean s → no_nul (quoted s).
Proof.
  intros H. constructor; [done|]. apply no_nul_app. split; [by apply clean_no_nul|].
  by repeat constructor.
Qed.

Lemma pad_no_nul n c s : c ≠ NUL → no_nul s → no_nul (replicate n c ++ s).
Proof.
  intros Hc Hs. apply no_nul_app. split; [|done].
  apply Forall_replicate. done.
Qed.

Lemma fixed_digits_no_nul k q : 0 ≤ q → no_nul (fixed_digits k q).
Proof.
  intros Hq. unfold fixed_digits. apply no_nul_app. split.
  - apply dec_no_nul, Z.div_pos; lia.
  - constructor; [done|]. apply pad_no_nul; [done|].
    apply dec_no_nul, Z.mod_pos_bound. lia.
Qed.

Scheme value_mut := Minimality for value Sort Prop
  with elements_mut := Minimality for elements Sort Prop
  with members_mut := Minimality for members Sort Prop.
Combined Scheme json_mut from value_mut, elements_mut, members_mut.

Lemma json_no_nul :
  (∀ s j, value s j → no_nul s) ∧ (∀ s js, elements s js → no_nul s)
  ∧ (∀ s kvs, members s kvs → no_nul s).
Proof.
  apply (json_mut (λ s _, no_nul s) (λ s _, no_nul s) (λ s _, no_nul s)).
  - intros. apply pad_no_nul; [done|by apply dec_no_nul].
  - intros. by apply fixed_digits_no_nul.
  - intros. by apply quoted_no_nul.
  - intros s _ _ H. constructor; [done|]. apply no_nul_app. split; [done|by repeat constructor].
  - intros s _ _ H. constructor; [done|]. apply no_nul_app. split; [done|by repeat constructor].
  - constructor.
  - done.
  - intros. apply no_nul_app. split; [done|]. by constructor.
  - constructor.
  - intros. apply no_nul_app. split; [by apply quoted_no_nul|]. by constructor.
  - intros. apply no_nul_app. split; [done|]. constructor; [done|].
    apply no_nul_app. split; [by apply quoted_no_nul|]. by constructor.
Qed.

Lemma value_no_nul s j : value s j → no_nul s.
Proof. apply json_no_nul. Qed.

(** ** Objects from their fields *)

Definition field_text (kt : bytes * bytes) : bytes := quoted kt.1 ++ ":"%char :: kt.2.

(** The fields separated by commas, in braces. *)
Definition fields_text (l : list (bytes * bytes)) : bytes :=
  match l with
  | [] => []
  | x :: l => field_text x ++ mjoin ((λ x, ","%char :: field_text x) <$> l)
  end.

Definition obj_text (l : list (bytes * bytes)) : bytes := "{"%char :: fields_text l ++ ["}"%char].

(** [field x y]: the text [x] of a field denotes the member [y]. *)
Definition field (x : bytes * bytes) (y : bytes * json) : Prop :=
  clean x.1 ∧ y.1 = x.1 ∧ value x.2 y.2.

Lemma members_more s kvs l kvs' :
  members s kvs → kvs ≠ [] → Forall2 field l kvs' →
  members (s ++ mjoin ((λ x, ","%char :: field_text x) <$> l)) (kvs ++ kvs').
Proof.
  intros Hm Hne H. revert s kvs Hm Hne. induction H as [|[k t] [k' j] l kvs' (Hk & Ek & Hv) _ IH];
    intros s kvs Hm Hne; cbn [fst snd] in *.
  - simpl. by rewrite !app_nil_r.
  - subst k'. change ((k, j) :: kvs') with ([(k, j)] ++ kvs'). rewrite fmap_cons, app_assoc.
    change (mjoin (?x :: ?xs)) with (x ++ mjoin xs). rewrite app_assoc.
    apply IH; [|by destruct kvs]. by apply m_snoc.
Qed.

Lemma fields_members l kvs : Forall2 field l kvs → members (fields_text l) kvs.
Proof.
  destruct 1 as [|[k t] [k' j] l kvs (Hk & Ek & Hv) H]; [constructor|]. cbn [fst snd] in *. subst k'.
  unfold fields_text. apply (members_more (field_text (k, t)) [(k, j)]); [by apply m_one|done|done].
Qed.

Lemma obj_value l kvs : Forall2 field l kvs → value (obj_text l) (JObj kvs).
Proof. intros H. by apply v_obj, fields_members. Qed.

(** [solve_fields] checks an object against its members, field by field. *)
Ltac solve_fields :=
  repeat first
    [ apply Forall2_nil_2
    | apply Forall2_cons_2; [split; [solve_clean|split; [reflexivity|cbn [fst snd]]]|] ].

(** ** Arrays from their elements *)

Definition elements_text (l : list bytes) : bytes :=
  match l with
  | [] => []
  | x :: l => x ++ mjoin ((λ x, ","%char :: x) <$> l)
  end.

Definition array_text (l : list bytes) : bytes := "["%char :: elements_text l ++ ["]"%char].

Lemma elements_more s js l js' :
  elements s js → js ≠ [] → Forall2 value l js' →
  elements (s ++ mjoin ((λ x, ","%char :: x) <$> l)) (js ++ js').
Proof.
  intros He Hne H. revert s js He Hne. induction H as [|t j l js' Hv _ IH]; intros s js He Hne.
  - simpl. by rewrite !app_nil_r.
  - change (j :: js') with ([j] ++ js'). rewrite fmap_cons, app_assoc.
    change (mjoin (?x :: ?xs)) with (x ++ mjoin xs). rewrite app_assoc.
    apply IH; [by apply e_snoc|by destruct js].
Qed.

Lemma array_value l js : Forall2 value l js → value (array_text l) (JArr js).
Proof.
  intros H. apply v_arr. destruct H as [|t j l js Hv H]; [constructor|].
  unfold elements_text. apply (elements_more t [j]); [by constructor|done|done].
Qed.

Lemma elements_text_snoc l x :
  elements_text (l ++ [x]) = elements_text l ++ (if decide (l = []) then [] else [","%char]) ++ x.
Proof.
  destruct l as [|y l]; simpl; [by rewrite app_nil_r|].
  rewrite fmap_app, join_app. simpl. by rewrite app_nil_r, <- app_assoc.
Qed.

Lemma fields_text_snoc l x :
  fields_text (l ++ [x])
  = fields_text l ++ (if decide (l = []) then [] else [","%char]) ++ field_text x.
Proof.
  unfold fields_text. destruct l as [|y l].
  - rewrite decide_True by done. apply app_nil_r.
  - rewrite <- app_comm_cons, decide_False, fmap_app, join_app, <- app_assoc by done.
    do 2 f_equal. apply app_nil_r.
Qed.

(** A whole number and a decimal fraction as values. *)
Lemma dec_value n : 0 ≤ n → value (dec n) (JInt n).
Proof. apply (v_int n 0). Qed.

(** [%.<k>f] of a number that is neither negative nor infinite. *)
Definition f_plain (x : float) : bool :=
  match x with
  | SpecFloat.S754_zero false | SpecFloat.S754_finite false _ _ => true
  | _ => false
  end.

(** The number of units of ten to the minus [k] it is printed as. *)
Definition units (k : nat) (x : float) : Z :=
  match x with
  | SpecFloat.S754_finite _ m e => fixed_scaled k m e
  | _ => 0
  end.

Lemma units_nonneg k x : 0 ≤ units k x.
Proof.
  destruct x as [| | |s m e]; simpl; try done. unfold fixed_scaled.
  assert (0 < 10 ^ Z.of_nat k) by (apply Z.pow_pos_nonneg; lia).
  destruct (Z.leb_spec 0 e); [apply Z.mul_nonneg_nonneg; [lia|apply Z.pow_nonneg; lia]|].
  assert (0 ≤ Zpos m * 10 ^ Z.of_nat k / 2 ^ (- e)).
  { apply Z.div_pos; [lia|]. apply Z.pow_pos_nonneg; lia. }
  repeat case_match; lia.
Qed.

Lemma fixed_value k x :
  f_plain x = true → (1 ≤ k)%nat → value (fixed k x) (JDec (units k x) k).
Proof.
  intros Hx Hk. pose proof (units_nonneg k x). destruct x as [[]|[]| |[] m e]; try done;
    by apply v_dec.
Qed.
