(* ===== verification/Rfc.v ===== *)
(** The whole JSON grammar of RFC 8259: white space, literals, signs and exponents,
    and strings with escapes, none of which the agent writes.  [Json.value] is the
    part of it that the agent sends ([value_json]); a text that is no JSON for a
    server is one outside of this grammar, which is shown by counting its braces
    ([opens_not_json]). *)
From Stdlib Require Import ZArith Ascii Lia.
From stdpp Require Import base list sets strings numbers.
From S2P Require Import Prelude.
From S2P Require Import Clib.
From S2P Require Import Json.

Local Open Scope Z_scope.

(** * The grammar *)

Definition BSL : ascii := "092"%char.

(** [ws] *)
Definition blank (c : ascii) : Prop := c ∈ [" "; "009"; "010"; "013"]%char.
Definition blanks (s : bytes) : Prop := Forall blank s.

Definition digits (s : bytes) : Prop := s ≠ [] ∧ Forall (λ c, is_digit c = true) s.

(** [int]: a zero, or digits that do not begin with a zero. *)
Definition int_part (s : bytes) : Prop := digits s ∧ (head s = Some "0"%char → s = lit "0").

(** [frac] and [exp], which may be absent. *)
Definition frac_part (s : bytes) : Prop := s = [] ∨ ∃ ds, s = "."%char :: ds ∧ digits ds.
Definition exp_part (s : bytes) : Prop :=
  s = [] ∨ ∃ e sg ds, s = e :: sg ++ ds ∧ e ∈ ["e"; "E"]%char ∧ sg ∈ [[]; lit "+"; lit "-"] ∧ digits ds.

Definition number (s : bytes) : Prop :=
  ∃ sg i f e, s = sg ++ i ++ f ++ e ∧ sg ∈ [[]; lit "-"] ∧ int_part i ∧ frac_part f ∧ exp_part e.

Definition hex_digit (c : ascii) : Prop :=
  is_digit c = true ∨ 65 ≤ code c ≤ 70 ∨ 97 ≤ code c ≤ 102.

(** The characters of a string: those that need no escape (a byte above 127 is a
    part of one), and the escapes. *)
Inductive chars : bytes → Prop :=
| ch_nil : chars []
| ch_plain c s : plain c = true → chars s → chars (c :: s)
| ch_escape c s : c ∈ [DQ; BSL; "/"; "b"; "f"; "n"; "r"; "t"]%char → chars s → chars (BSL :: c :: s)
| ch_unicode a b c d s :
    Forall hex_digit [a; b; c; d] → chars s → chars (BSL :: "u"%char :: a :: b :: c :: d :: s).

(** Values without the white space around them, and the elements and members with
    theirs. *)
Inductive jvalue : bytes → Prop :=
| j_lit s : s ∈ [lit "true"; lit "false"; lit "null"] → jvalue s
| j_number s : number s → jvalue s
| j_string s : chars s → jvalue (quoted s)
| j_empty_array w : blanks w → jvalue ("["%char :: w ++ ["]"%char])
| j_array s : jelements s → jvalue ("["%char :: s ++ ["]"%char])
| j_empty_object w : blanks w → jvalue ("{"%char :: w ++ ["}"%char])
| j_object s : jmembers s → jvalue ("{"%char :: s ++ ["}"%char])
with jelements : bytes → Prop :=
| je_one w v w' : blanks w → jvalue v → blanks w' → jelements (w ++ v ++ w')
| je_more s w v w' : jelements s → blanks w → jvalue v → blanks w' → jelements (s ++ ","%char :: w ++ v ++ w')
with jmembers : bytes → Prop :=
| jm_one w k w1 w2 v w' :
    blanks w → chars k → blanks w1 → blanks w2 → jvalue v → blanks w' →
    jmembers (w ++ quoted k ++ w1 ++ ":"%char :: w2 ++ v ++ w')
| jm_more s w k w1 w2 v w' :
    jmembers s → blanks w → chars k → blanks w1 → blanks w2 → jvalue v → blanks w' →
    jmembers (s ++ ","%char :: w ++ quoted k ++ w1 ++ ":"%char :: w2 ++ v ++ w').

Scheme jvalue_mut := Minimality for jvalue Sort Prop
  with jelements_mut := Minimality for jelements Sort Prop
  with jmembers_mut := Minimality for jmembers Sort Prop.
Combined Scheme jvalue_all from jvalue_mut, jelements_mut, jmembers_mut.

(** [JSON-text] *)
Definition json_text (s : bytes) : Prop := ∃ w v w', s = w ++ v ++ w' ∧ blanks w ∧ jvalue v ∧ blanks w'.

(** * The agent's texts are JSON *)

Lemma dec_int n : 0 ≤ n → int_part (dec n).
Proof.
  intros Hn. destruct (dec_ok n Hn) as [_ Hd Hne _ Hlead]. split; [by split|]. intros H0.
  destruct (decide (n = 0)) as [->|Hz]; [done|]. by destruct (Hlead ltac:(lia)).
Qed.

Lemma clean_chars s : clean s → chars s.
Proof. induction 1; by constructor. Qed.

Lemma dec_number n : 0 ≤ n → number (dec n).
Proof.
  intros Hn. exists [], (dec n), [], []. split; [by rewrite !app_nil_r|]. split; [by left|].
  split; [by apply dec_int|]. split; by left.
Qed.

Lemma fixed_digits_number q k : 0 ≤ q → (1 ≤ k)%nat → number (fixed_digits k q).
Proof.
  intros Hq Hk. unfold fixed_digits.
  eexists [], _, _, []. split; [by rewrite app_nil_r|]. split; [by left|].
  split; [apply dec_int, Z.div_pos; lia|]. split; [right; eexists; split; [reflexivity|]|by left].
  assert (0 ≤ q mod 10 ^ Z.of_nat k) as Hm by (apply Z.mod_pos_bound; lia).
  destruct (dec_ok _ Hm) as [_ Hd Hne _ _]. split.
  - by intros [_ ?]%app_eq_nil.
  - apply Forall_app. split; [by apply Forall_replicate|done].
Qed.

Lemma json_text_value s : jvalue s → json_text s.
Proof. intros H. exists [], s, []. rewrite app_nil_r. split; [done|]. split; [apply Forall_nil_2|]. split; [done|apply Forall_nil_2]. Qed.

Lemma pad_blanks n : blanks (replicate n " "%char).
Proof. apply Forall_replicate. by left. Qed.

Lemma agent_json :
  (∀ s j, value s j → json_text s)
  ∧ (∀ s js, elements s js → js = [] ∧ s = [] ∨ jelements s)
  ∧ (∀ s kvs, members s kvs → kvs = [] ∧ s = [] ∨ jmembers s).
Proof.
  apply (json_mut (λ s _, json_text s) (λ s js, js = [] ∧ s = [] ∨ jelements s)
    (λ s kvs, kvs = [] ∧ s = [] ∨ jmembers s)).
  - intros n pad Hn. exists (replicate pad " "%char), (dec n), []. rewrite app_nil_r.
    split; [done|]. split; [apply pad_blanks|]. split; [by apply j_number, dec_number|constructor].
  - intros q k Hq Hk. by apply json_text_value, j_number, fixed_digits_number.
  - intros s Hs. by apply json_text_value, j_string, clean_chars.
  - intros s js _ [[_ ->]|H]; apply json_text_value; [apply (j_empty_array []); constructor|by apply j_array].
  - intros s js _ [[_ ->]|H]; apply json_text_value; [apply (j_empty_object []); constructor|by apply j_object].
  - by left.
  - intros s j _ (w & v & w' & -> & Hw & Hv & Hw'). right. by apply je_one.
  - intros s js t j _ [[-> _]|Hs] Hne _ (w & v & w' & -> & Hw & Hv & Hw'); [done|]. right. by apply je_more.
  - by left.
  - intros k s j Hk _ (w & v & w' & -> & Hw & Hv & Hw'). right.
    apply (jm_one [] k [] w v w'); try done; [constructor|by apply clean_chars|constructor].
  - intros s kvs k t j _ [[-> _]|Hs] Hne Hk _ (w & v & w' & -> & Hw & Hv & Hw'); [done|]. right.
    apply (jm_more s [] k [] w v w'); try done; [constructor|by apply clean_chars|constructor].
Qed.

Lemma value_json s j : value s j → json_text s.
Proof. apply agent_json. Qed.

(** * Braces *)

(** Where a reader of the text is: outside of a string, in one, or behind a
    backslash in one. *)
Inductive mode : Set := Outside | Inside | Escaped.

(** That, and how many braces are open. *)
Definition brace_step (st : mode * Z) (c : ascii) : mode * Z :=
  match st.1 with
  | Outside =>
      if Ascii.eqb c DQ then (Inside, st.2)
      else if Ascii.eqb c "{" then (Outside, st.2 + 1)
      else if Ascii.eqb c "}" then (Outside, st.2 - 1)
      else st
  | Inside =>
      if Ascii.eqb c DQ then (Outside, st.2)
      else if Ascii.eqb c BSL then (Escaped, st.2)
      else st
  | Escaped => (Inside, st.2)
  end.

Definition braces (st : mode * Z) (s : bytes) : mode * Z := foldl brace_step st s.

(** A text that opens [d] braces more than it closes, and closes its strings. *)
Definition opens (d : Z) (s : bytes) : Prop := braces (Outside, 0) s = (Outside, d).

Lemma brace_step_shift q e d c : brace_step (q, e + d) c = ((brace_step (q, e) c).1, (brace_step (q, e) c).2 + d).
Proof.
  unfold brace_step. cbn [fst snd].
  destruct q, (Ascii.eqb c DQ), (Ascii.eqb c "{"), (Ascii.eqb c "}"), (Ascii.eqb c BSL); cbn [fst snd]; f_equal; lia.
Qed.

Lemma braces_shift s : ∀ q e d, braces (q, e + d) s = ((braces (q, e) s).1, (braces (q, e) s).2 + d).
Proof.
  induction s as [|c s IH]; intros q e d; [done|]. unfold braces in *. cbn [foldl].
  rewrite brace_step_shift, IH. by destruct (brace_step (q, e) c).
Qed.

Lemma opens_app d e s t : opens d s → opens e t → opens (d + e) (s ++ t).
Proof.
  unfold opens, braces. intros Hs Ht. rewrite foldl_app, Hs. change d with (0 + d).
  pose proof (braces_shift t Outside 0 d) as H. unfold braces in H. rewrite H, Ht. cbn. f_equal. lia.
Qed.

Lemma opens_app_0 d s t : opens d s → opens 0 t → opens d (s ++ t).
Proof. intros Hs Ht. rewrite <- (Z.add_0_r d). by apply opens_app. Qed.

(** Texts without quotes and braces. *)
Definition flat (c : ascii) : Prop := c ≠ DQ ∧ c ≠ "{"%char ∧ c ≠ "}"%char.

Lemma opens_flat s : Forall flat s → opens 0 s.
Proof.
  unfold opens. induction 1 as [|c s (H1 & H2 & H3) _ IH]; [done|]. cbn [braces foldl]. unfold brace_step at 2. cbn [fst snd].
  rewrite (proj2 (Ascii.eqb_neq c DQ)), (proj2 (Ascii.eqb_neq c _)), (proj2 (Ascii.eqb_neq c _)) by done. exact IH.
Qed.

Lemma opens_cons c s : flat c → opens 0 s → opens 0 (c :: s).
Proof.
  intros Hc Hs. apply (opens_app 0 0 [c]); [|done]. apply opens_flat, Forall_cons_2; [done|constructor].
Qed.

(** A string stays a string up to its quote. *)
Lemma hex_inside c : hex_digit c → brace_step (Inside, 0) c = (Inside, 0).
Proof.
  intros H. unfold brace_step. cbn [fst].
  destruct (Ascii.eqb_spec c DQ) as [->|_]; [by destruct H as [?|[[? ?]|[? ?]]]|].
  destruct (Ascii.eqb_spec c BSL) as [->|_]; [by destruct H as [?|[[? ?]|[? ?]]]|]. done.
Qed.

Lemma chars_inside s : chars s → braces (Inside, 0) s = (Inside, 0).
Proof.
  unfold braces. induction 1 as [|c s Hc _ IH|c s _ _ IH|a b c d s Hh _ IH]; [done|..]; cbn [foldl].
  - replace (brace_step (Inside, 0) c) with (Inside, 0); [done|]. unfold plain in Hc. unfold brace_step. cbn [fst].
    apply andb_true_iff in Hc as [[_ H1]%andb_true_iff H2]. unfold BSL.
    by destruct (Ascii.eqb c DQ), (Ascii.eqb c "092").
  - exact IH.
  - rewrite !list.Forall_cons in Hh. destruct Hh as (Ha & Hb & Hc & Hd & _).
    change (brace_step (brace_step (Inside, 0) BSL) "u") with (Inside, 0).
    by rewrite (hex_inside a), (hex_inside b), (hex_inside c), (hex_inside d).
Qed.

Lemma opens_string s : chars s → opens 0 (quoted s).
Proof.
  intros H. change (foldl brace_step (Inside, 0) (s ++ [DQ]) = (Outside, 0)). rewrite foldl_app.
  pose proof (chars_inside s H) as E. unfold braces in E. by rewrite E.
Qed.

Lemma opens_quoted s : clean s → opens 0 (quoted s).
Proof. intros H. by apply opens_string, clean_chars. Qed.

(** ** What is flat *)

Lemma digit_flat c : is_digit c = true → flat c.
Proof. intros H. split; [|split]; by intros ->. Qed.

Lemma dec_flat n : 0 ≤ n → Forall flat (dec n).
Proof. intros Hn. eapply List.Forall_impl; [apply digit_flat|]. by apply dec_digits. Qed.

Lemma blanks_flat s : blanks s → Forall flat s.
Proof.
  apply List.Forall_impl. intros c Hc. split; [|split]; intros ->; unfold blank in Hc; set_solver.
Qed.

Lemma digits_flat s : digits s → Forall flat s.
Proof. intros [_ H]. eapply List.Forall_impl; [apply digit_flat|done]. Qed.

Lemma number_flat s : number s → Forall flat s.
Proof.
  intros (sg & i & f & e & -> & Hsg & [Hi _] & Hf & He). rewrite !Forall_app. split; [|split; [|split]].
  - rewrite !elem_of_cons in Hsg. destruct Hsg as [->|[->|[]%elem_of_nil]]; by repeat constructor.
  - by apply digits_flat.
  - destruct Hf as [->|(ds & -> & Hd)]; [constructor|]. constructor; [done|by apply digits_flat].
  - destruct He as [->|(x & sg' & ds & -> & Hx & Hs & Hd)]; [constructor|]. constructor.
    + rewrite !elem_of_cons in Hx. by destruct Hx as [->|[->|[]%elem_of_nil]].
    + apply Forall_app. split; [|by apply digits_flat].
      rewrite !elem_of_cons in Hs. destruct Hs as [->|[->|[->|[]%elem_of_nil]]]; by repeat constructor.
Qed.

Lemma opens_blanks s : blanks s → opens 0 s.
Proof. intros H. by apply opens_flat, blanks_flat. Qed.

(** * In JSON every brace is closed *)

Lemma opens_around w v w' : blanks w → opens 0 v → blanks w' → opens 0 (w ++ v ++ w').
Proof.
  intros Hw Hv Hw'. apply opens_app_0; [by apply opens_blanks|]. apply opens_app_0; [done|by apply opens_blanks].
Qed.

Lemma opens_member w k w1 w2 v w' :
  blanks w → chars k → blanks w1 → blanks w2 → opens 0 v → blanks w' →
  opens 0 (w ++ quoted k ++ w1 ++ ":"%char :: w2 ++ v ++ w').
Proof.
  intros Hw Hk H1 H2 Hv Hw'. apply opens_app_0; [by apply opens_blanks|]. apply opens_app_0; [by apply opens_string|].
  apply opens_app_0; [by apply opens_blanks|]. apply opens_cons; [done|by apply opens_around].
Qed.

Lemma opens_brackets s : opens 0 s → opens 0 ("["%char :: s ++ ["]"%char]).
Proof.
  intros H. apply opens_cons; [done|]. apply opens_app_0; [done|]. by apply opens_flat, Forall_cons_2, Forall_nil_2.
Qed.

Lemma opens_braces s : opens 0 s → opens 0 ("{"%char :: s ++ ["}"%char]).
Proof. intros H. apply (opens_app 1 (-1) ["{"%char] (s ++ ["}"%char])); [done|]. by apply (opens_app 0 (-1)). Qed.

Lemma rfc_opens :
  (∀ s, jvalue s → opens 0 s) ∧ (∀ s, jelements s → opens 0 s) ∧ (∀ s, jmembers s → opens 0 s).
Proof.
  apply (jvalue_all (opens 0) (opens 0) (opens 0)).
  - intros s Hs. rewrite !elem_of_cons in Hs. by destruct Hs as [->|[->|[->|[]%elem_of_nil]]].
  - intros s Hs. by apply opens_flat, number_flat.
  - apply opens_string.
  - intros w Hw. by apply opens_brackets, opens_blanks.
  - intros s _. apply opens_brackets.
  - intros w Hw. by apply opens_braces, opens_blanks.
  - intros s _. apply opens_braces.
  - intros w v w' Hw _ Hv Hw'. by apply opens_around.
  - intros s w v w' _ Hs Hw _ Hv Hw'. apply opens_app_0; [done|]. apply opens_cons; [done|by apply opens_around].
  - intros w k w1 w2 v w' Hw Hk H1 H2 _ Hv Hw'. by apply opens_member.
  - intros s w k w1 w2 v w' _ Hs Hw Hk H1 H2 _ Hv Hw'. apply opens_app_0; [done|].
    apply opens_cons; [done|by apply opens_member].
Qed.

Lemma json_text_opens s : json_text s → opens 0 s.
Proof. intros (w & v & w' & -> & Hw & Hv & Hw'). apply opens_around; [done|by apply (proj1 rfc_opens)|done]. Qed.

Lemma value_opens s j : value s j → opens 0 s.
Proof. intros H. by eapply json_text_opens, value_json. Qed.

Lemma elements_opens s js : elements s js → opens 0 s.
Proof. intros H. destruct (proj1 (proj2 agent_json) _ _ H) as [[_ ->]|H']; [done|by apply (proj1 (proj2 rfc_opens))]. Qed.

(** A text that leaves a brace open is not JSON. *)
Lemma opens_not_json d s : opens d s → d ≠ 0 → ¬ json_text s.
Proof. intros Ho Hd Hj. apply json_text_opens in Hj. unfold opens in *. congruence. Qed.

(** A text with white space, a literal, a sign and an exponent. *)
Example json_text_full : json_text (lit " { 'a' : [ true , -1.5e+3 ] } ").
Proof.
  exists (lit " "), (lit "{ 'a' : [ true , -1.5e+3 ] }"), (lit " ").
  assert (blanks (lit " ")) as Hb by (apply Forall_cons_2, Forall_nil_2; by left).
  split; [done|]. split; [exact Hb|]. split; [|exact Hb].
  apply (j_object (lit " 'a' : [ true , -1.5e+3 ] ")).
  apply (jm_one (lit " ") (lit "a") (lit " ") (lit " ") (lit "[ true , -1.5e+3 ]") (lit " "));
    try (exact Hb); [by repeat constructor|].
  apply (j_array (lit " true , -1.5e+3 ")), (je_more (lit " true ") (lit " ") (lit "-1.5e+3") (lit " "));
    try (exact Hb).
  - apply (je_one (lit " ") (lit "true") (lit " ")); try (exact Hb). apply j_lit. by left.
  - apply j_number. exists (lit "-"), (lit "1"), (lit ".5"), (lit "e+3"). split; [done|].
    split; [by right; left|]. split; [by repeat constructor|]. split; right.
    + exists (lit "5"). split; [done|]. by repeat constructor.
    + exists "e"%char, (lit "+"), (lit "3"). split; [done|]. split; [by left|]. split; [by right; left|]. by repeat constructor.
Qed.
