(* ===== verification/Packet.v ===== *)
(** Packets (inc/packet.h, src/packet.c): the fixed payload buffer with its
    append, transaction and gather operations, and the packet state machine. *)
From Stdlib Require Import ZArith Ascii Lia SpecFloat.
From stdpp Require Import base list strings numbers gmap.
From S2P Require Import Prelude.
From S2P Require Import Clib.
From S2P Require Import Json.

Local Open Scope Z_scope.

(** * Data *)

Definition PKTSZ : Z := 32768.
Definition MSPS : Z := 1000.

Inductive packet_type := METRIC | REGISTER | ALERT.
Inductive packet_state := EMPTY | BEGIN | WROTE | READY | DONE | FREE.

#[global] Instance packet_type_eq_dec : EqDecision packet_type.
Proof. solve_decision. Defined.
#[global] Instance packet_state_eq_dec : EqDecision packet_state.
Proof. solve_decision. Defined.

(** [enum packet_response]: the codes the server answers with. *)
Definition EINVALLICENSE : Z := 201.
Definition ETARGETAUTHFAIL : Z := 202.
Definition EAGENTAUTHFAIL : Z := 203.
Definition ETARGETNOTFOUND : Z := 301.
Definition ETARGETREG : Z := 302.
Definition ETARGETPCH : Z := 303.
Definition ETARGETVER : Z := 401.
Definition EAGENTVER : Z := 402.
Definition ENOTSUPPORT : Z := 403.
Definition EAGENTREG : Z := 404.
Definition EAGENTPCH : Z := 405.

(** [enum plugin_gather_error] *)
Definition ENONE : Z := 0.
Definition ENODATA : Z := 1.
Definition EPLUGUP : Z := 2.
Definition EPLUGDOWN : Z := 3.

(** The address of a heap object. *)
Abbreviation loc := positive.

Record packet_t := Packet {
  started : Z;
  type : packet_type;
  state : packet_state;
  response : Z;
  size : Z;
  rollback_point : Z;
  attempt : Z;
  payload : bytes;
  spin : Z;
  next : option loc
}.

Definition set_started v p := Packet v (type p) (state p) (response p) (size p) (rollback_point p) (attempt p) (payload p) (spin p) (next p).
Definition set_type v p := Packet (started p) v (state p) (response p) (size p) (rollback_point p) (attempt p) (payload p) (spin p) (next p).
Definition set_state v p := Packet (started p) (type p) v (response p) (size p) (rollback_point p) (attempt p) (payload p) (spin p) (next p).
Definition set_response v p := Packet (started p) (type p) (state p) v (size p) (rollback_point p) (attempt p) (payload p) (spin p) (next p).
Definition set_size v p := Packet (started p) (type p) (state p) (response p) v (rollback_point p) (attempt p) (payload p) (spin p) (next p).
Definition set_rollback_point v p := Packet (started p) (type p) (state p) (response p) (size p) v (attempt p) (payload p) (spin p) (next p).
Definition set_attempt v p := Packet (started p) (type p) (state p) (response p) (size p) (rollback_point p) v (payload p) (spin p) (next p).
Definition set_payload v p := Packet (started p) (type p) (state p) (response p) (size p) (rollback_point p) (attempt p) v (spin p) (next p).
Definition set_spin v p := Packet (started p) (type p) (state p) (response p) (size p) (rollback_point p) (attempt p) (payload p) v (next p).
Definition set_next v p := Packet (started p) (type p) (state p) (response p) (size p) (rollback_point p) (attempt p) (payload p) (spin p) v.

(** * Buffer operations *)

(** [snprintf(payload+size, PKTSZ-size, ...)] and [size += <its result>].  The
    text [s] has already been formatted.  With no room left nothing is written
    and the size still grows; once the size has passed [PKTSZ] the difference
    [PKTSZ-size] is negative, becomes a huge [size_t], and the write lands
    outside of the buffer. *)
Definition append_bytes (p : packet_t) (s : bytes) : res packet_t :=
  let room := PKTSZ - size p in
  let len := Z.of_nat (length s) in
  if (size p <? 0) || (room <? 0) then Ub OutOfBounds
  else if INT_MAX <? size p + len then Ub SignedOverflow
  else
    let payload' :=
      if room =? 0 then payload p
      else write_at (payload p) (Z.to_nat (size p)) (take (Z.to_nat (room - 1)) s ++ [NUL]) in
    Ok (set_size (size p + len) (set_payload payload' p)).

Definition packet_append (p : packet_t) (fmt : string) (args : list arg) : res packet_t :=
  do s <- of_opt BadFormat (format fmt args);
  append_bytes p s.

(** [payload[i]] *)
Definition payload_at (p : packet_t) (i : Z) : res ascii :=
  if i <? 0 then Ub OutOfBounds else of_opt OutOfBounds (payload p !! Z.to_nat i).

(** [payload[i] = c] *)
Definition payload_set (p : packet_t) (i : Z) (c : ascii) : res packet_t :=
  if (0 <=? i) && (i <? PKTSZ)
  then Ok (set_payload (<[Z.to_nat i := c]> (payload p)) p)
  else Ub OutOfBounds.

Definition packet_transaction (p : packet_t) : packet_t := set_rollback_point (size p) p.

Definition packet_commit (p : packet_t) : packet_t := set_rollback_point (size p) p.

Definition packet_rollback (p : packet_t) : res packet_t :=
  let p := set_size (rollback_point p) p in
  payload_set p (size p) NUL.

(** A gathering function sees the outside world ([E], what the calls it makes
    return) and its module ([M]); it appends to the packet, may update its
    module, and returns an error code. *)
Definition gather_fn (E M : Type) : Type := E → M → packet_t → res (Z * M * packet_t).

Definition packet_gather {E M} (p : packet_t) (tag : string) (func : gather_fn E M)
    (env : E) (module : M) : res (Z * M * packet_t) :=
  let rollback := size p in
  do last <- payload_at p (size p - 1);
  do p <- packet_append p "%s'%s':{" [AStr (if Ascii.eqb last "}"%char then lit "," else []); AStr (lit tag)];
  do r <- func env module p;
  let '(res, module, p) := r in
  if negb (res =? 0) then
    do p <- payload_set (set_size rollback p) rollback NUL;
    Ok (res, module, p)
  else
    do p <- packet_append p "}" [];
    Ok (0, module, p).

(** * src/packet.c *)

Definition packet_type_of (z : Z) : option packet_type :=
  if z =? 0 then Some METRIC
  else if z =? 1 then Some REGISTER
  else if z =? 2 then Some ALERT
  else None.

(** A [memset] packet of type [t]. *)
Definition zeroed (t : packet_type) : packet_t :=
  Packet 0 t EMPTY 0 0 0 0 (replicate (Z.to_nat PKTSZ) NUL) 0 None.

(** The contents of the block [packet_alloc] returns, when [malloc] gives one. *)
Definition packet_alloc (mem : option loc) (t : Z) : option (loc * packet_t) :=
  match packet_type_of t, mem with
  | Some t, Some l => Some (l, zeroed t)
  | _, _ => None
  end.

(** [packet_fetch]: the payload of a packet that is READY.  The packet's spin
    lock is taken and released around the test. *)
Definition packet_fetch (p : packet_t) : res (option bytes * packet_t) :=
  if spin p =? 0 then
    let out := if bool_decide (state p = READY) then Some (payload p) else None in
    Ok (out, set_spin 0 p)
  else Spins.

Definition packet_change_state (p : packet_t) (from to : packet_state) : Z * packet_t :=
  if bool_decide (state p = from) then (b2z true - 1, set_state to p)
  else (b2z false - 1, p).

Definition PACKET_EXP : float := f32_lit 6033 1000.

(** [now] is what [epoch_time()] returns; the pointer may be NULL. *)
Definition packet_expired (now : Z) (p : option packet_t) : bool :=
  match p with
  | Some p => f32_geb (f32_of_Z (u64 (now - started p) / MSPS)) PACKET_EXP
  | None => false
  end.

(** The heap of packets. *)
Abbreviation heap := (gmap loc packet_t).

Definition deref (h : heap) (l : option loc) : res packet_t :=
  of_opt NullDeref (l ≫= λ l, h !! l).

Lemma deref_Some h a p : h !! a = Some p → deref h (Some a) = Ok p.
Proof. intros H. unfold deref. simpl. by rewrite H. Qed.

(** [free] of a block that is not allocated is undefined. *)
Definition packet_free (h : heap) (l : option loc) : res heap :=
  match l with
  | None => Ok h
  | Some l => match h !! l with Some _ => Ok (delete l h) | None => Ub OutOfBounds end
  end.

(** * What a buffer holds *)

Lemma PKTSZ_range : 0 < PKTSZ ∧ PKTSZ < INT_MAX.
Proof. unfold PKTSZ, INT_MAX. lia. Qed.

Arguments PKTSZ : simpl never.
Arguments INT_MAX : simpl never.
Opaque PKTSZ INT_MAX.

Definition full (p : packet_t) : Prop := Z.of_nat (length (payload p)) = PKTSZ.

(** [keeps p c]: the payload still starts with [c], whatever the size says. *)
Definition keeps (p : packet_t) (c : bytes) : Prop :=
  full p ∧ Z.of_nat (length c) < PKTSZ ∧ take (length c) (payload p) = c.

(** [begins p c]: [c] is what has been written so far. *)
Definition begins (p : packet_t) (c : bytes) : Prop :=
  keeps p c ∧ size p = Z.of_nat (length c).

(** [holds p c]: the payload is the NUL-terminated text [c] of length [size]. *)
Definition holds (p : packet_t) (c : bytes) : Prop :=
  full p ∧ size p = Z.of_nat (length c) ∧ ∃ rest, payload p = c ++ NUL :: rest.

(** Everything but the size and the payload is the same. *)
Definition same_meta (p p' : packet_t) : Prop :=
  p' = set_size (size p') (set_payload (payload p') p).

(** [room p n]: [n] more bytes and the terminator fit. *)
Definition fits (c : bytes) (n : nat) : Prop := Z.of_nat (length c + n) < PKTSZ.

Create HintDb packet.

#[global] Instance same_meta_refl : Reflexive same_meta.
Proof. intros []. done. Qed.

#[global] Instance same_meta_trans : Transitive same_meta.
Proof. intros p q r -> ->. done. Qed.

Lemma holds_begins p c : holds p c → begins p c.
Proof.
  intros (Hf & Hs & rest & Hp). unfold full in Hf. rewrite Hp, length_app in Hf.
  simpl in Hf. split; [|done]. split; [|split].
  - unfold full. rewrite Hp, length_app. simpl. lia.
  - lia.
  - rewrite Hp. apply take_app_length.
Qed.

Lemma begins_keeps p c : begins p c → keeps p c.
Proof. by intros []. Qed.

Lemma begins_nil p : full p → size p = 0 → begins p [].
Proof. intros Hf Hs. split; [|done]. split; [done|]. split; [apply PKTSZ_range|done]. Qed.

Lemma keeps_app p c s : keeps p (c ++ s) → keeps p c.
Proof.
  intros (Hf & Hl & Ht). rewrite length_app in *. split; [done|]. split; [lia|].
  apply (f_equal (take (length c))) in Ht. rewrite take_take, take_app_length in Ht.
  by replace (length c `min` (length c + length s))%nat with (length c) in Ht by lia.
Qed.

Lemma keeps_ext p q c : payload p = payload q → keeps p c → keeps q c.
Proof. unfold keeps, full. by intros ->. Qed.

Lemma holds_ext p q c : payload p = payload q → size p = size q → holds p c → holds q c.
Proof. unfold holds, full. by intros -> ->. Qed.

Lemma holds_keeps p c : holds p c → keeps p c.
Proof. intros H. by apply begins_keeps, holds_begins. Qed.

#[export] Hint Resolve holds_begins begins_keeps keeps_app holds_keeps : packet.
#[export] Hint Extern 1 (same_meta _ _) => reflexivity : packet.
#[export] Hint Extern 2 (same_meta _ _) => etransitivity; eassumption : packet.

Lemma holds_cstr p c : holds p c → no_nul c → cstr (payload p) = c.
Proof. intros (_ & _ & rest & ->) H. by apply cstr_nul. Qed.

Lemma zeroed_holds t : holds (zeroed t) [].
Proof.
  pose proof PKTSZ_range as [H _]. split; [|split]; [|done|].
  - unfold full. simpl. rewrite length_replicate. lia.
  - simpl. destruct (Z.to_nat PKTSZ) eqn:E; [lia|]. simpl. by eexists.
Qed.

#[export] Hint Resolve zeroed_holds : packet.

(** ** Append *)

Lemma append_bytes_ok p c s :
  begins p c → fits c (length s) →
  ∃ p', append_bytes p s = Ok p' ∧ same_meta p p' ∧ holds p' (c ++ s).
Proof.
  intros [(Hf & Hl & Ht) Hs] Hfit. unfold fits in Hfit. unfold full in Hf.
  pose proof PKTSZ_range as [_ Hmax].
  unfold append_bytes. rewrite Hs, Nat2Z.id.
  rewrite (proj2 (Z.ltb_ge _ _)), (proj2 (Z.ltb_ge (PKTSZ - _) _)) by lia. simpl.
  rewrite (proj2 (Z.ltb_ge INT_MAX _)), (proj2 (Z.eqb_neq _ _)) by lia.
  rewrite take_ge by lia.
  eexists. split; [done|]. split; [done|]. split; [|split]; simpl.
  - unfold full. simpl. rewrite length_write_at; [lia|]. rewrite length_app. simpl. lia.
  - rewrite length_app. lia.
  - rewrite (write_at_app _ _ _ c) by done. eexists. by rewrite <- !app_assoc.
Qed.

Lemma packet_append_ok p c fmt args s :
  begins p c → format fmt args = Some s → fits c (length s) →
  ∃ p', packet_append p fmt args = Ok p' ∧ same_meta p p' ∧ holds p' (c ++ s).
Proof. intros Hb Hs Hf. unfold packet_append. rewrite Hs. by apply append_bytes_ok. Qed.

(** Appending never touches what was written before, even when it truncates. *)
Lemma append_bytes_keeps p p' c s :
  keeps p c → Z.of_nat (length c) ≤ size p → append_bytes p s = Ok p' →
  keeps p' c ∧ size p' = size p + Z.of_nat (length s) ∧ same_meta p p'.
Proof.
  intros (Hf & Hl & Ht) Hs. unfold full in Hf. unfold append_bytes.
  destruct (Z.ltb_spec (size p) 0) as [|Hp]; [done|].
  destruct (Z.ltb_spec (PKTSZ - size p) 0) as [|Hr]; [done|]. simpl.
  destruct (Z.ltb_spec INT_MAX (size p + Z.of_nat (length s))); [done|].
  intros [= <-]. split; [|done]. destruct (Z.eqb_spec (PKTSZ - size p) 0) as [|Hne].
  { done. }
  split; [|split]; [|done|]; unfold full; simpl.
  - rewrite length_write_at; [lia|]. rewrite length_app, length_take. simpl. lia.
  - rewrite take_write_at; [done|lia..].
Qed.

(** ** Transactions *)

Lemma payload_set_holds p c n :
  keeps p c → n = Z.of_nat (length c) → size p = n →
  ∃ p', payload_set p n NUL = Ok p' ∧ same_meta p p' ∧ holds p' c.
Proof.
  intros (Hf & Hl & Ht) -> Hs. unfold payload_set, full in *.
  rewrite (proj2 (Z.leb_le _ _)), (proj2 (Z.ltb_lt _ _)) by lia. simpl.
  rewrite Nat2Z.id. eexists. split; [done|]. split; [by destruct p; simpl in *; subst|].
  split; [|split]; unfold full; simpl; [by rewrite length_insert|done|].
  rewrite insert_take_drop by lia. rewrite Ht. by eexists.
Qed.

Lemma packet_rollback_ok p c :
  keeps p c → rollback_point p = Z.of_nat (length c) →
  ∃ p', packet_rollback p = Ok p' ∧ same_meta p p' ∧ holds p' c.
Proof.
  intros Hk Hr. unfold packet_rollback.
  destruct (payload_set_holds (set_size (rollback_point p) p) c (rollback_point p))
    as (p' & E & Hm & Hh); [done|done|done|].
  simpl. rewrite E. eexists. split; [done|]. split; [|done]. by rewrite Hm.
Qed.

(** ** Gathering

    What a gathering function promises to [packet_gather], and what
    [packet_gather] makes of it.  The promise is stated for a packet whose text
    ends with the opening brace of the object to fill. *)

Definition opened (c : bytes) : Prop := list.last c = Some "{"%char.

Class Gatherer {E M} (f : gather_fn E M) : Type := {
  (** what the outside world has to be like *)
  g_clean : E → M → Prop;
  (** the error code, the module afterwards, the bytes appended *)
  g_code : E → M → Z;
  g_module : E → M → M;
  g_text : E → M → bytes;
  (** an upper bound of the buffer space it uses *)
  g_need : E → M → nat;
  g_run : ∀ e m p c,
    g_clean e m → holds p c → opened c → fits c (g_need e m) →
    ∃ p', f e m p = Ok (g_code e m, g_module e m, p') ∧ same_meta p p'
          ∧ if decide (g_code e m = 0) then holds p' (c ++ g_text e m) else keeps p' c;
  g_text_need : ∀ e m, g_code e m = 0 → (length (g_text e m) ≤ g_need e m)%nat;
  g_codes : ∀ e m, 0 ≤ g_code e m ≤ 3
}.

Arguments g_clean {E M} f {_} e m.
Arguments g_code {E M} f {_} e m.
Arguments g_module {E M} f {_} e m.
Arguments g_text {E M} f {_} e m.
Arguments g_need {E M} f {_} e m.

(** Its promise about JSON: the bytes are the members of an object. *)
Class JsonGatherer {E M} (f : gather_fn E M) `{!Gatherer f} : Prop := {
  g_members : ∀ e m, g_clean f e m → g_code f e m = 0 → ∃ kvs, members (g_text f e m) kvs
}.

(** The separator [packet_gather] puts in front of a new member. *)
Definition sep (c : bytes) : bytes :=
  if decide (list.last c = Some "}"%char) then [","%char] else [].

Definition member_text (tag : string) (s : bytes) : bytes :=
  quoted (lit tag) ++ ":"%char :: "{"%char :: s ++ ["}"%char].

Lemma length_member_text tag s : length (member_text tag s) = (length (lit tag) + 5 + length s)%nat.
Proof. unfold member_text, quoted. simpl. rewrite !length_app. simpl. rewrite length_app. simpl. lia. Qed.

Lemma holds_last p c x :
  holds p (c ++ [x]) → payload_at p (size p - 1) = Ok x.
Proof.
  intros (_ & Hs & rest & Hp). unfold payload_at. rewrite Hs, length_app, Hp. simpl.
  rewrite (proj2 (Z.ltb_ge _ _)) by lia.
  replace (Z.to_nat _) with (length c) by lia.
  rewrite <- app_assoc. simpl. by rewrite list_lookup_middle.
Qed.

Lemma sep_snoc c x : sep (c ++ [x]) = if Ascii.eqb x "}"%char then lit "," else [].
Proof.
  unfold sep. rewrite last_snoc. destruct (Ascii.eqb_spec x "}"%char) as [->|Hx].
  - by rewrite decide_True.
  - rewrite decide_False; [done|]. by intros [=].
Qed.

Definition gather_need {E M} (tag : string) (f : gather_fn E M) `{!Gatherer f} e m : nat :=
  length (lit tag) + 6 + g_need f e m.

Definition gathered {E M} (c : bytes) (tag : string) (f : gather_fn E M) `{!Gatherer f} e m : bytes :=
  if decide (g_code f e m = 0) then c ++ sep c ++ member_text tag (g_text f e m) else c.

Lemma packet_gather_ok {E M} (f : gather_fn E M) `{!Gatherer f} p c tag e m :
  g_clean f e m → holds p c → c ≠ [] → fits c (gather_need tag f e m) →
  ∃ p', packet_gather p tag f e m = Ok (g_code f e m, g_module f e m, p')
        ∧ same_meta p p' ∧ holds p' (gathered c tag f e m).
Proof.
  intros Hcl Hh Hc Hfit. unfold fits, gather_need in Hfit. unfold packet_gather.
  destruct (exists_last Hc) as (c' & x & E0).
  rewrite (holds_last p c' x) by congruence. cbn [rbind].
  replace (if Ascii.eqb x _ then _ else _) with (sep c) by (by rewrite E0, sep_snoc).
  assert (length (sep c) ≤ 1)%nat by (unfold sep; case_decide; simpl; lia).
  set (o := sep c ++ quoted (lit tag) ++ [":"%char; "{"%char]).
  assert (length o ≤ length (lit tag) + 5)%nat.
  { subst o. unfold quoted. rewrite !length_app. simpl. rewrite length_app. simpl. lia. }
  destruct (packet_append_ok p c "%s'%s':{" [AStr (sep c); AStr (lit tag)] o)
    as (p1 & -> & Hm1 & Hh1); [by apply holds_begins| |unfold fits; lia|].
  { fmt_eval. subst o. unfold quoted. rewrite <- app_comm_cons, <- app_assoc. done. }
  cbn [rbind].
  destruct (g_run e m p1 (c ++ o)) as (p2 & -> & Hm2 & H2); [done|done| | |].
  { unfold opened. subst o. by rewrite !app_assoc, last_app_cons. }
  { unfold fits. rewrite length_app. lia. }
  unfold gathered. cbn [rbind].
  destruct (decide (g_code f e m = 0)) as [Hz|Hz].
  - rewrite Hz. cbn [negb Z.eqb].
    pose proof (g_text_need e m Hz).
    destruct (packet_append_ok p2 ((c ++ o) ++ g_text f e m) "}" [] (lit "}"))
      as (p3 & -> & Hm3 & Hh3); [by apply holds_begins|done| |].
    { unfold fits. rewrite !length_app. simpl. lia. }
    eexists. split; [done|]. split; [by rewrite Hm1, Hm2|].
    eapply eq_ind; [exact Hh3|]. subst o. unfold member_text.
    by rewrite <- !app_assoc.
  - rewrite (proj2 (Z.eqb_neq _ _)) by done. cbn [negb].
    destruct (payload_set_holds (set_size (size p) p2) c (size p)) as (p3 & -> & Hm3 & Hh3).
    { apply keeps_app in H2. by eapply keeps_ext. }
    { by destruct Hh as (_ & -> & _). }
    { done. }
    eexists. split; [done|]. split; [|done].
    rewrite Hm1, Hm2. by rewrite Hm3.
Qed.

(** ** The members of an object under construction

    Between two calls of [packet_gather] the text of the enclosing object is
    empty or ends with the brace of its last member, which is what the test of
    the last byte relies on. *)

Definition obj_members (s : bytes) (kvs : list (bytes * json)) : Prop :=
  members s kvs ∧ (s = [] ∨ list.last s = Some "}"%char).

Lemma obj_members_nil : obj_members [] [].
Proof. split; [constructor|by left]. Qed.

(** A text behind which a separator is wanted exactly when members precede it. *)
Definition no_brace (c : bytes) : Prop := list.last c ≠ Some "}"%char.

Lemma opened_no_brace c : opened c → no_brace c.
Proof. unfold opened, no_brace. by intros ->. Qed.

Lemma opened_ne c : opened c → c ≠ [].
Proof. by intros H ->. Qed.

#[export] Hint Resolve obj_members_nil opened_no_brace opened_ne : packet.

Lemma sep_members c s kvs :
  no_brace c → obj_members s kvs →
  sep (c ++ s) = (if decide (s = []) then [] else [","%char]).
Proof.
  intros Hc [_ [->|Hs]]; unfold sep.
  - rewrite app_nil_r. by rewrite decide_False, decide_True by done.
  - rewrite last_app, Hs. destruct s; [done|]. by rewrite decide_True, decide_False.
Qed.

Lemma gathered_members {E M} (f : gather_fn E M) `{!Gatherer f} `{!JsonGatherer f} c s kvs tag e m :
  no_brace c → obj_members s kvs → clean (lit tag) → g_clean f e m →
  ∃ s' kvs', gathered (c ++ s) tag f e m = c ++ s' ∧ obj_members s' kvs'
    ∧ if decide (g_code f e m = 0)
      then ∃ o, kvs' = kvs ++ [(lit tag, JObj o)] ∧ members (g_text f e m) o
      else s' = s ∧ kvs' = kvs.
Proof.
  intros Hc Hs Ht Hcl. unfold gathered. destruct (decide (g_code f e m = 0)) as [Hz|Hz].
  - destruct (g_members e m Hcl Hz) as [o Ho].
    exists (s ++ sep (c ++ s) ++ member_text tag (g_text f e m)), (kvs ++ [(lit tag, JObj o)]).
    split; [by rewrite <- app_assoc|]. split; [|by eauto].
    rewrite (sep_members c s kvs) by done. split.
    + apply members_add; [by apply Hs|done|by constructor|done].
    + right. unfold member_text. rewrite !app_comm_cons, !app_assoc. apply last_snoc.
  - by exists s, kvs.
Qed.

Lemma packet_expired_spec now p :
  packet_expired now (Some p) = (7000 <=? u64 (now - started p)).
Proof.
  unfold packet_expired. pose proof (u64_range (now - started p)) as [H0 _].
  set (d := u64 (now - started p)) in *. unfold MSPS.
  assert (0 ≤ d / 1000) as Hq by (apply Z.div_pos; lia).
  destruct (Z.leb_spec 7000 d) as [Hd|Hd].
  - assert (7 ≤ d / 1000) by (apply Z.div_le_lower_bound; lia).
    destruct (Z.eq_dec (d / 1000) 7) as [->|]; [by vm_compute|].
    assert (PACKET_EXP = S754_finite false 12652118 (-21)) as -> by (by vm_compute).
    apply f32_of_Z_exp; lia.
  - assert (d / 1000 < 7) by (apply Z.div_lt_upper_bound; lia).
    assert (d / 1000 = 0 ∨ d / 1000 = 1 ∨ d / 1000 = 2 ∨ d / 1000 = 3 ∨ d / 1000 = 4
            ∨ d / 1000 = 5 ∨ d / 1000 = 6) as Hc by lia.
    destruct_or! Hc; rewrite Hc; by vm_compute.
Qed.

(** * Properties *)

(** A packet filled by several appends. *)
Definition append_all (p : packet_t) (l : list bytes) : res packet_t :=
  foldl (λ r s, do p <- r; append_bytes p s) (Ok p) l.

Lemma append_all_fail l r :
  (∀ p, r ≠ Ok p) → ∀ p, foldl (λ r s, do p <- r; append_bytes p s) r l ≠ Ok p.
Proof.
  revert r. induction l as [|s l IH]; intros r Hr p; simpl; [apply Hr|].
  apply IH. intros q. destruct r; [by destruct (Hr a)|done..].
Qed.

Lemma append_all_keeps l p p' c :
  keeps p c → Z.of_nat (length c) ≤ size p → append_all p l = Ok p' →
  keeps p' c ∧ same_meta p p'.
Proof.
  revert p. induction l as [|s l IH]; intros p Hk Hs; unfold append_all; simpl.
  { intros [= <-]. by split. }
  destruct (append_bytes p s) as [q| |] eqn:E; simpl; intros H;
    [|by apply append_all_fail in H..].
  apply (append_bytes_keeps _ _ c) in E as (Hk' & Hs' & Hm); [|done..].
  destruct (IH q) as [? Hm']; [done|lia|done|]. split; [done|]. by rewrite Hm.
Qed.

Lemma append_all_ok l p c :
  begins p c → fits c (length (concat l)) → ∃ p', append_all p l = Ok p'.
Proof.
  revert p c. induction l as [|s l IH]; intros p c Hb Hf; [by eexists|].
  unfold fits in Hf. simpl in Hf. rewrite length_app in Hf.
  destruct (append_bytes_ok p c s) as (q & E & _ & Hq); [done|unfold fits; lia|].
  unfold append_all. simpl. rewrite E. apply (IH q (c ++ s)); [by apply holds_begins|].
  unfold fits. rewrite length_app. lia.
Qed.

(** C7. A transaction is atomic: whatever was appended since
    [packet_transaction], truncated or not, [packet_rollback] succeeds and the
    payload is again the terminated text it was before. *)
Theorem transaction_rollback p c l p' :
  begins p c → append_all (packet_transaction p) l = Ok p' →
  ∃ p'', packet_rollback p' = Ok p'' ∧ holds p'' c ∧ rollback_point p'' = Z.of_nat (length c)
         ∧ state p'' = state p ∧ started p'' = started p.
Proof.
  intros [Hk Hs] H.
  apply (append_all_keeps _ _ _ c) in H as [Hk' Hm]; [|done|simpl; lia].
  destruct (packet_rollback_ok p' c) as (p'' & E & Hm'' & Hh); [done|by rewrite Hm; simpl|].
  exists p''. split; [done|]. split; [done|]. rewrite Hm'', Hm. simpl. by rewrite Hs.
Qed.

Lemma transaction_rollback_witness :
  ∃ p', append_all (packet_transaction (zeroed METRIC)) [lit "abc"; lit "d"] = Ok p'
    ∧ ∃ p'', packet_rollback p' = Ok p'' ∧ holds p'' [] ∧ rollback_point p'' = 0
             ∧ state p'' = EMPTY ∧ started p'' = 0.
Proof.
  destruct (append_all_ok [lit "abc"; lit "d"] (packet_transaction (zeroed METRIC)) [])
    as (p' & E); [by apply (holds_begins _ _ (zeroed_holds METRIC))|by vm_compute|].
  exists p'. split; [done|].
  apply (transaction_rollback (zeroed METRIC) [] [lit "abc"; lit "d"] p'); [|done].
  apply holds_begins, zeroed_holds.
Defined.

(** There is no bound check: an append that does not fit is truncated but
    advances the size past the buffer, and every later append to the packet
    writes outside of it. *)
Theorem append_overrun p c s :
  begins p c → PKTSZ < Z.of_nat (length c + length s) → Z.of_nat (length c + length s) ≤ INT_MAX →
  ∃ p', append_bytes p s = Ok p' ∧ PKTSZ < size p'
        ∧ ∀ fmt args t, format fmt args = Some t → packet_append p' fmt args = Ub OutOfBounds.
Proof.
  intros [(Hf & Hl & Ht) Hs] Hover Hint. unfold append_bytes. rewrite Hs.
  rewrite (proj2 (Z.ltb_ge _ 0)), (proj2 (Z.ltb_ge (PKTSZ - _) _)) by lia. simpl.
  rewrite (proj2 (Z.ltb_ge INT_MAX _)) by lia.
  eexists. split; [done|]. simpl. split; [lia|]. intros fmt args t Hfmt.
  unfold packet_append. rewrite Hfmt. simpl. unfold append_bytes. simpl.
  rewrite (proj2 (Z.ltb_lt (PKTSZ - _) 0)) by lia. by rewrite orb_true_r.
Qed.

Lemma append_overrun_witness :
  ∃ p', append_bytes (zeroed METRIC) (replicate (S (Z.to_nat PKTSZ)) "x"%char) = Ok p'
        ∧ PKTSZ < size p'
        ∧ ∀ fmt args t, format fmt args = Some t → packet_append p' fmt args = Ub OutOfBounds.
Proof.
  pose proof PKTSZ_range as [H0 H1].
  apply (append_overrun (zeroed METRIC) []).
  - apply holds_begins, zeroed_holds.
  - rewrite length_replicate. simpl length. lia.
  - rewrite length_replicate. simpl length. lia.
Defined.

(** A packet expires once seven whole seconds have passed since its first
    record, by the clock modulo 2^64; in particular at once when the clock is
    set back. *)
Theorem packet_expired_seven_seconds now p :
  is_u64 now → is_u64 (started p) →
  packet_expired now (Some p) = (7000 <=? now - started p) || (now <? started p)
                                && (now - started p + 2 ^ 64 >=? 7000).
Proof.
  intros Hn Hs. rewrite packet_expired_spec. unfold u64, is_u64 in *.
  destruct (Z.ltb_spec now (started p)) as [Hlt|Hge].
  - rewrite (proj2 (Z.leb_gt 7000 (now - started p))) by lia.
    rewrite <- (Z.mod_add _ 1) by lia. rewrite Z.mod_small by lia.
    by rewrite Z.geb_leb.
  - rewrite Z.mod_small by lia. by rewrite andb_false_l, orb_false_r.
Qed.

Lemma packet_expired_seven_seconds_witness :
  packet_expired 8000 (Some (set_started 1000 (zeroed METRIC)))
  = (7000 <=? 8000 - 1000) || (8000 <? 1000) && (8000 - 1000 + 2 ^ 64 >=? 7000).
Proof.
  apply (packet_expired_seven_seconds 8000 (set_started 1000 (zeroed METRIC)));
    unfold is_u64; simpl; lia.
Defined.
