(* ===== verification/Report.v ===== *)
(** Sequences of [packet_append], the way the plugins write what they gathered:
    a literal, then a loop over an array with a comma in front of every element
    but the first, then the next literal. *)
From Stdlib Require Import ZArith Ascii Lia SpecFloat.
From stdpp Require Import base list strings numbers.
From S2P Require Import Prelude.
From S2P Require Import Clib.
From S2P Require Import Json.
From S2P Require Import Packet.

Local Open Scope Z_scope.

(** * Arrays that are filled from a text *)

(** A conversion stores [w] and its terminator in a buffer of [BFSZ] bytes, in
    element [k] of an array of [n]. *)
Definition store_str (k n : nat) (w : bytes) : res unit :=
  if (n <=? k)%nat || (BFSZ <=? Z.of_nat (length w)) then Ub OutOfBounds else Ok tt.

Lemma store_str_ok k n w : (k < n)%nat → Z.of_nat (length w) < BFSZ → store_str k n w = Ok tt.
Proof.
  intros Hk Hw. unfold store_str. rewrite (proj2 (Nat.leb_gt n k)), (proj2 (Z.leb_gt _ _)) by lia. done.
Qed.

(** * Scripts *)

(** A sequence of [packet_append] calls, each a format with its arguments. *)
Abbreviation script := (list (string * list arg)).

Fixpoint run (p : packet_t) (l : script) : res packet_t :=
  match l with
  | [] => Ok p
  | (fmt, args) :: l => do p <- packet_append p fmt args; run p l
  end.

Definition say (fmt : string) : script := [(fmt, [])].

(** [for(int i=0; i<k; i++) packet_append(pkt, fmt, i?",":"", args(x[i]))] *)
Definition each {A} (fmt : string) (args : A → list arg) (xs : list A) : script :=
  imap (λ i x, (fmt, AStr (if decide (i = 0%nat) then [] else lit ",") :: args x)) xs.

(** [prints l t]: the calls append the text [t]. *)
Inductive prints : script → bytes → Prop :=
| prints_nil : prints [] []
| prints_cons fmt args l s t :
    format fmt args = Some s → prints l t → prints ((fmt, args) :: l) (s ++ t).

Lemma prints_app l1 l2 t1 t2 : prints l1 t1 → prints l2 t2 → prints (l1 ++ l2) (t1 ++ t2).
Proof.
  induction 1 as [|fmt args l s t Hf _ IH]; intros H2; [done|]. simpl.
  rewrite <- app_assoc. constructor; [done|by apply IH].
Qed.

Lemma prints_one fmt args t : format fmt args = Some t → prints [(fmt, args)] t.
Proof. intros H. rewrite <- (app_nil_r t). by repeat constructor. Qed.

(** Running a script on a packet that has room for its text. *)
Lemma run_ok l t p c :
  prints l t → holds p c → fits c (length t) →
  ∃ p', run p l = Ok p' ∧ same_meta p p' ∧ holds p' (c ++ t).
Proof.
  intros H. revert p c. induction H as [|fmt args l s t Hf _ IH]; intros p c Hh Hfit.
  { exists p. by rewrite app_nil_r. }
  unfold fits in Hfit. rewrite length_app in Hfit. cbn [run].
  destruct (packet_append_ok p c fmt args s) as (p1 & -> & Hm1 & Hh1);
    [by apply holds_begins|done|unfold fits; lia|]. cbn [rbind].
  destruct (IH p1 (c ++ s)) as (p2 & -> & Hm2 & Hh2); [done|unfold fits; rewrite length_app; lia|].
  exists p2. split; [done|]. split; [by rewrite Hm1|]. by rewrite app_assoc.
Qed.

(** ** Arrays *)

Lemma each_more {A} fmt (args : A → list arg) (t : A → bytes) xs n :
  (∀ x s, x ∈ xs → format fmt (AStr s :: args x) = Some (s ++ t x)) → n ≠ 0%nat →
  prints (imap (λ i x, (fmt, AStr (if decide ((n + i)%nat = 0%nat) then [] else lit ",") :: args x)) xs)
         (mjoin ((λ x, ","%char :: x) <$> (t <$> xs))).
Proof.
  revert n. induction xs as [|x xs IH]; intros n Hf Hn; [constructor|]. cbn [imap fmap list_fmap].
  change (mjoin (?a :: ?b)) with (a ++ mjoin b). constructor.
  - rewrite Nat.add_0_r, decide_False by done. rewrite Hf by left. done.
  - eapply (eq_ind _ (λ l, prints l _)); [apply (IH (S n)); [intros; apply Hf; by right|lia]|].
    apply imap_ext. intros i y _. simpl. by rewrite Nat.add_succ_r.
Qed.

Lemma prints_each {A} fmt (args : A → list arg) (t : A → bytes) xs :
  (∀ x s, x ∈ xs → format fmt (AStr s :: args x) = Some (s ++ t x)) →
  prints (each fmt args xs) (elements_text (t <$> xs)).
Proof.
  intros Hf. destruct xs as [|x xs]; [constructor|]. unfold each. cbn [imap fmap list_fmap].
  unfold elements_text. constructor; [rewrite Hf by left; done|].
  eapply (eq_ind _ (λ l, prints l _)); [apply (each_more fmt args t xs 1); [intros; apply Hf; by right|done]|].
  by apply imap_ext.
Qed.

(** ** Formats of elements *)

Lemma prints_say s : format s [] = Some (lit s) → prints (say s) (lit s).
Proof. apply prints_one. Qed.

Lemma format_str s w : format "%s'%s'" [AStr s; AStr w] = Some (s ++ quoted w).
Proof. by fmt_eval. Qed.

Lemma format_llu s z : is_u64 z → format "%s%llu" [AStr s; AInt z] = Some (s ++ dec z).
Proof.
  intros H. fmt_eval. change (z mod 2 ^ 64) with (u64 z). rewrite u64_small by done.
  by rewrite app_nil_r.
Qed.

Lemma format_lu s z : is_u64 z → format "%s%lu" [AStr s; AInt z] = Some (s ++ dec z).
Proof. apply format_llu. Qed.

Lemma format_f1 s x : format "%s%.1f" [AStr s; AFlt x] = Some (s ++ fixed 1 x).
Proof. fmt_eval. by rewrite app_nil_r. Qed.

(** The text of an array of strings, of numbers, of fractions with one digit. *)
Definition strs {A} (f : A → bytes) (xs : list A) : bytes := array_text ((λ x, quoted (f x)) <$> xs).
Definition nums {A} (f : A → Z) (xs : list A) : bytes := array_text ((λ x, dec (f x)) <$> xs).
Definition fixs {A} (f : A → float) (xs : list A) : bytes := array_text ((λ x, fixed 1 (f x)) <$> xs).

Lemma prints_strs {A} (f : A → bytes) xs :
  prints (each "%s'%s'" (λ x, [AStr (f x)]) xs) (elements_text ((λ x, quoted (f x)) <$> xs)).
Proof. apply prints_each. intros. apply format_str. Qed.

Lemma prints_nums {A} (f : A → Z) xs :
  Forall (λ x, is_u64 (f x)) xs →
  prints (each "%s%llu" (λ x, [AInt (f x)]) xs) (elements_text ((λ x, dec (f x)) <$> xs)).
Proof.
  intros H. apply prints_each. intros x s Hx. apply format_llu. by apply (proj1 (list.Forall_forall _ _) H).
Qed.

Lemma prints_lus {A} (f : A → Z) xs :
  Forall (λ x, is_u64 (f x)) xs →
  prints (each "%s%lu" (λ x, [AInt (f x)]) xs) (elements_text ((λ x, dec (f x)) <$> xs)).
Proof.
  intros H. apply prints_each. intros x s Hx. apply format_lu. by apply (proj1 (list.Forall_forall _ _) H).
Qed.

Lemma prints_fixs {A} (f : A → float) xs :
  prints (each "%s%.1f" (λ x, [AFlt (f x)]) xs) (elements_text ((λ x, fixed 1 (f x)) <$> xs)).
Proof. apply prints_each. intros. apply format_f1. Qed.

Lemma prints_eq l t t' : prints l t → t = t' → prints l t'.
Proof. by intros ? <-. Qed.

Lemma strs_value {A} (f : A → bytes) xs :
  Forall (λ x, clean (f x)) xs → value (strs f xs) (JArr ((λ x, JStr (f x)) <$> xs)).
Proof.
  intros H. apply array_value, Forall2_fmap_2, Forall_Forall2_diag.
  eapply list.Forall_impl; [exact H|]. intros x. apply v_str.
Qed.

Lemma nums_value {A} (f : A → Z) xs :
  Forall (λ x, is_u64 (f x)) xs → value (nums f xs) (JArr ((λ x, JInt (f x)) <$> xs)).
Proof.
  intros H. apply array_value, Forall2_fmap_2, Forall_Forall2_diag.
  eapply list.Forall_impl; [exact H|]. intros x Hx. apply dec_value, Hx.
Qed.

Lemma fixs_value {A} (f : A → float) xs :
  Forall (λ x, f_plain (f x) = true) xs →
  value (fixs f xs) (JArr ((λ x, JDec (units 1 (f x)) 1) <$> xs)).
Proof.
  intros H. apply array_value, Forall2_fmap_2, Forall_Forall2_diag.
  eapply list.Forall_impl; [exact H|]. intros x Hx. by apply fixed_value.
Qed.

Lemma fits_fields c l l' :
  fits c (length (fields_text (l ++ l'))) → fits c (length (fields_text l)).
Proof.
  revert l. induction l' as [|x l' IH]; intros l; [by rewrite app_nil_r|].
  change (x :: l') with ([x] ++ l'). rewrite app_assoc. intros H%IH.
  unfold fits in *. rewrite fields_text_snoc, !length_app in H. lia.
Qed.

(** ** Gathering functions that append the fields of an object *)
Program Definition fields_gatherer {E M} (f : gather_fn E M) (cl : E → M → Prop) (code : E → M → Z)
    (fields : E → M → list (bytes * bytes))
    (Hrun : ∀ e m p c, cl e m → holds p c → opened c → fits c (length (fields_text (fields e m))) →
      ∃ p', f e m p = Ok (code e m, m, p') ∧ same_meta p p' ∧ holds p' (c ++ fields_text (fields e m)))
    (Hcode : ∀ e m, 0 ≤ code e m ≤ 3) : Gatherer f := {|
  g_clean := cl;
  g_code := code;
  g_module := λ _ m, m;
  g_text := λ e m, fields_text (fields e m);
  g_need := λ e m, length (fields_text (fields e m))
|}.
Next Obligation.
  intros E M f cl code fields Hrun _ e m p c Hcl Hh Ho Hf.
  destruct (Hrun e m p c Hcl Hh Ho Hf) as (p' & -> & Hm & Hh'). exists p'. split; [done|]. split; [done|].
  case_decide; [done|]. by eapply keeps_app, holds_keeps.
Qed.
Next Obligation. done. Qed.
Next Obligation. intros E M f cl code fields _ Hcode. exact Hcode. Qed.

(** ** Gathering functions that read and then report

    They read first, and then either leave the packet alone, with ENODATA, or
    print what they read as the fields of an object. *)

Definition report {E A} (read : E → res (option A)) (say : A → script) : gather_fn E unit :=
  λ e m p,
    do x <- read e;
    match x with
    | None => Ok (ENODATA, m, p)
    | Some a => do p <- run p (say a); Ok (ENONE, m, p)
    end.

Section Report.
Context {E A : Type} (read : E → res (option A)) (say : A → script).
Context (good : A → Prop) (fields : A → list (bytes * bytes)).

Definition read_clean (e : E) (_ : unit) : Prop :=
  match read e with
  | Ok (Some a) => good a
  | Ok None => True
  | _ => False
  end.

Definition read_fields (e : E) : option (list (bytes * bytes)) :=
  match read e with
  | Ok (Some a) => Some (fields a)
  | _ => None
  end.

Definition read_code (e : E) : Z := if read_fields e is Some _ then ENONE else ENODATA.

Definition read_text (e : E) : bytes := default [] (fields_text <$> read_fields e).

Program Definition report_gatherer (Hs : ∀ a, good a → prints (say a) (fields_text (fields a)))
    : Gatherer (report read say) := {|
  g_clean := read_clean;
  g_code := λ e _, read_code e;
  g_module := λ _ m, m;
  g_text := λ e _, read_text e;
  g_need := λ e _, length (read_text e)
|}.
Next Obligation.
  intros Hs e m p c Hcl Hh _ Hfit.
  unfold read_clean, report, read_code, read_text, read_fields in *.
  destruct (read e) as [[a|]| |]; [| |done..]; cbn [rbind fmap option_fmap] in *;
    [|exists p; split; [done|]; split; [done|]; by apply holds_keeps].
  destruct (run_ok (say a) _ p c (Hs a Hcl) Hh Hfit) as (p' & -> & Hm & Hh').
  by exists p'.
Qed.
Next Obligation. done. Qed.
Next Obligation. intros. unfold read_code. by destruct (read_fields e). Qed.
End Report.

Lemma report_json {E A} (read : E → res (option A)) say good fields kvs Hs :
  (∀ a, good a → Forall2 field (fields a) (kvs a)) →
  JsonGatherer (report read say) (Gatherer0 := report_gatherer read say good fields Hs).
Proof.
  intros Hk. split. intros e m Hcl Hz. simpl in *.
  unfold read_clean, read_code, read_text, read_fields in *.
  destruct (read e) as [[a|]| |]; [|done..]. exists (kvs a). by apply fields_members, Hk.
Qed.

(** What a function makes of a reading it can print. *)
Lemma report_ok {E A} (read : E → res (option A)) say good fields kvs e a p c :
  (∀ a, good a → prints (say a) (fields_text (fields a))) →
  (∀ a, good a → Forall2 field (fields a) (kvs a)) →
  read e = Ok (Some a) → good a → holds p c → fits c (length (read_text read fields e)) →
  ∃ p' s, report read say e tt p = Ok (ENONE, tt, p') ∧ same_meta p p' ∧ holds p' (c ++ s)
          ∧ members s (kvs a).
Proof.
  intros Hs Hk Er Ha Hh. unfold report, read_text, read_fields. rewrite Er. cbn [rbind fmap option_fmap option_map default].
  intros Hf. destruct (run_ok _ _ p c (Hs a Ha) Hh Hf) as (p' & -> & Hm & Hh').
  exists p', (fields_text (fields a)). split; [done|]. split; [done|]. split; [done|].
  by apply fields_members, Hk.
Qed.

(** [solve_prints] runs through the calls of a script and compares the text with
    the fields it should print. *)
Ltac prints_step :=
  lazymatch goal with
  | |- prints (_ ++ _) _ => eapply prints_app
  | |- prints (say _) _ => apply prints_say; reflexivity
  | |- prints [(_, _)] _ => apply prints_one; fmt_eval; reflexivity
  | |- prints (each "%s'%s'" _ _) _ => apply prints_strs
  | |- prints (each "%s%.1f" _ _) _ => apply prints_fixs
  | |- prints (each "%s%llu" _ _) _ => apply prints_nums; try eassumption
  | |- prints (each "%s%lu" _ _) _ => apply prints_lus; try eassumption
  end.
Ltac text_eq :=
  change (?z mod 2 ^ 64) with (u64 z); rewrite ?u64_small by assumption;
  unfold obj_text, fields_text, field_text, strs, nums, fixs, array_text;
  cbn [fmap list_fmap mjoin list_join fst snd]; unfold quoted; rewrite ?app_nil_r;
  repeat (rewrite <- ?app_comm_cons; rewrite <- ?app_assoc);
  reflexivity.
Ltac solve_prints := eapply prints_eq; [repeat prints_step|text_eq].

(** ** Calls that come to an end *)

Definition ends {A} (m : res A) : Prop := m ≠ Spins.

Lemma ends_bind {A B} (m : res A) (k : A → res B) :
  ends m → (∀ a, m = Ok a → ends (k a)) → ends (rbind m k).
Proof. destruct m; simpl; [intros _ H; by apply H|done|done]. Qed.

Lemma ends_Ok {A} (a : A) : ends (Ok a).
Proof. done. Qed.

Lemma ends_opt {A} w (o : option A) : ends (of_opt w o).
Proof. by destruct o. Qed.

Lemma append_ends p fmt args : ends (packet_append p fmt args).
Proof.
  apply ends_bind; [apply ends_opt|]. intros s _. unfold append_bytes. by repeat case_match.
Qed.

Lemma run_ends p l : ends (run p l).
Proof.
  revert p. induction l as [|[fmt args] l IH]; intros p; [done|]. apply ends_bind; [apply append_ends|auto].
Qed.

Lemma payload_at_ends p i : ends (payload_at p i).
Proof. unfold payload_at. case_match; [done|apply ends_opt]. Qed.

Lemma payload_set_ends p i c : ends (payload_set p i c).
Proof. unfold payload_set. by case_match. Qed.

Lemma store_ends k n w : ends (store_str k n w).
Proof. unfold store_str. by case_match. Qed.

Create HintDb ends.
#[export] Hint Resolve ends_Ok append_ends run_ends payload_at_ends payload_set_ends store_ends : ends.

Lemma packet_gather_ends {E M} p tag (f : gather_fn E M) e m :
  (∀ p, ends (f e m p)) → ends (packet_gather p tag f e m).
Proof.
  intros Hf. unfold packet_gather. apply ends_bind; [auto with ends|]. intros ? _.
  apply ends_bind; [auto with ends|]. intros q _. apply ends_bind; [auto|]. intros [[z m'] q'] _.
  case_match; apply ends_bind; auto with ends.
Qed.

Lemma report_ends {E A} (read : E → res (option A)) say e m p :
  ends (read e) → ends (report read say e m p).
Proof.
  intros Hr. apply ends_bind; [done|]. intros [a|] _; [|done]. apply ends_bind; auto with ends.
Qed.

(** A call that ends, but not with a value. *)
Lemma ends_undefined {A} (m : res A) : ends m → (∀ a, m ≠ Ok a) → ∃ why, m = Ub why.
Proof. destruct m as [a|w|]; intros He H; [by destruct (H a)|by exists w|done]. Qed.

(** A packet in which the object has just been opened. *)
Lemma opened_packet n :
  Z.of_nat n < PKTSZ - 1 →
  ∃ p, append_bytes (zeroed METRIC) (lit "{") = Ok p ∧ holds p (lit "{") ∧ opened (lit "{") ∧ fits (lit "{") n.
Proof.
  intros Hn. destruct (append_bytes_ok (zeroed METRIC) [] (lit "{")) as (p & E & _ & Hh).
  - apply holds_begins, zeroed_holds.
  - by vm_compute.
  - exists p. split; [done|]. split; [done|]. split; [done|]. unfold fits.
    change (length (lit "{")) with 1%nat. lia.
Qed.
