(* ===== verification/Parts.v ===== *)
(** A gathering function made of several: [packet_gather] for each part, and the
    bitwise conjunction of what they return.  C does not fix the order in which
    the operands of [&] are evaluated, so everything here is for a given order of
    the calls. *)
From Stdlib Require Import ZArith Ascii Lia SpecFloat.
From stdpp Require Import base list strings numbers.
From S2P Require Import Prelude.
From S2P Require Import Clib.
From S2P Require Import Json.
From S2P Require Import Packet.
From S2P Require Import Report.

Local Open Scope Z_scope.

Section Calls.
Context {E M X : Type} (tag : X → string) (fn : X → gather_fn E M).

(** The calls in the given order; the conjunction of their results. *)
Fixpoint gather_parts (acc : Z) (order : list X) (e : E) (m : M) (p : packet_t)
    : res (Z * M * packet_t) :=
  match order with
  | [] => Ok (acc, m, p)
  | x :: order =>
      do r <- packet_gather p (tag x) (fn x) e m;
      let '(code, m, p) := r in
      gather_parts (Z.land acc code) order e m p
  end.

Lemma gather_parts_ends acc order e m p :
  (∀ x m p, ends (fn x e m p)) → ends (gather_parts acc order e m p).
Proof.
  intros Hf. revert acc m p. induction order as [|x order IH]; intros acc m p; [done|].
  apply ends_bind; [by apply packet_gather_ends|]. intros [[z m'] q] _. apply IH.
Qed.

Lemma packet_gather_Ok p t (f : gather_fn E M) e m z m' q :
  packet_gather p t f e m = Ok (z, m', q) → ∃ p1 q1, f e m p1 = Ok (z, m', q1).
Proof.
  unfold packet_gather. intros H. inv_ok H. inv_ok H. inv_ok H. destruct v1 as [[y m1] q1].
  exists v0, q1. destruct (Z.eqb_spec y 0) as [->|]; cbn [negb] in H; inv_ok H; by injection H as <- <- <-.
Qed.

(** When all the calls return, each function did; if they leave the module alone
    and return 0 or 1, so does the whole. *)
Lemma gather_parts_Ok acc order e m p z m' q :
  (∀ x p z m' q, fn x e m p = Ok (z, m', q) → m' = m ∧ (z = ENONE ∨ z = ENODATA)) →
  gather_parts acc order e m p = Ok (z, m', q) →
  m' = m ∧ (∀ x, x ∈ order → ∃ p r, fn x e m p = Ok r)
  ∧ ((acc = ENONE ∨ acc = ENODATA) ∨ acc = -1 ∧ order ≠ [] → z = ENONE ∨ z = ENODATA).
Proof.
  intros Hf. revert acc p. induction order as [|x order IH]; intros acc p H; cbn [gather_parts] in H.
  - injection H as <- <- <-. split; [done|]. split; [by intros x ?%elem_of_nil|]. by intros [?|[_ ?]].
  - inv_ok H. destruct v as [[y m1] p1]. apply packet_gather_Ok in E0 as (p0 & q0 & E0).
    destruct (Hf _ _ _ _ _ E0) as [-> Hy]. destruct (IH _ _ H) as (-> & Hall & Hz). split; [done|]. split.
    + intros x' [->|Hx]%elem_of_cons; [by eauto|by apply Hall].
    + intros Hacc. apply Hz. left. destruct Hy as [-> | ->], Hacc as [[-> | ->]|[-> _]]; by vm_compute; auto.
Qed.
End Calls.

(** The members a reading denotes. *)
Definition read_members {A} (r : res (option A)) (kvs : A → list (bytes * json)) : list (bytes * json) :=
  match r with
  | Ok (Some a) => kvs a
  | _ => []
  end.

Lemma report_members {E A} (read : E → res (option A)) good fields kvs e :
  (∀ a, good a → Forall2 field (fields a) (kvs a)) → read_clean read good e tt →
  members (read_text read fields e) (read_members (read e) kvs).
Proof.
  unfold read_clean, read_text, read_fields, read_members. intros Hk.
  destruct (read e) as [[a|]| |]; intros H; [by apply fields_members, Hk|constructor|done..].
Qed.

(** What is asked of the parts: they leave the module alone, return 0 or 1, and
    print the members [kvs] says. *)
Class Parts {E M X} (tag : X → string) (fn : X → gather_fn E M) `{∀ x, Gatherer (fn x)}
    (kvs : E → M → X → list (bytes * json)) : Prop := {
  pt_tag : ∀ x, clean (lit (tag x));
  pt_module : ∀ x e m, g_module (fn x) e m = m;
  pt_code : ∀ x e m, g_code (fn x) e m = ENONE ∨ g_code (fn x) e m = ENODATA;
  pt_members : ∀ x e m, g_clean (fn x) e m → members (g_text (fn x) e m) (kvs e m x)
}.

(** An order of evaluation. *)
Class Ordering {X} (all order : list X) : Prop := ordering : order ≡ₚ all.

#[export] Instance ordering_refl {X} (all : list X) : Ordering all all.
Proof. unfold Ordering. reflexivity. Qed.

Section Parts.
Context {E M X : Type} (tag : X → string) (fn : X → gather_fn E M) `{!∀ x, Gatherer (fn x)}.

(** The room the calls need, whatever their order. *)
Definition parts_need (e : E) (m : M) (order : list X) : nat :=
  sum_list_with (λ x, gather_need (tag x) (fn x) e m) order.

(** What a call makes of the text of the members before it. *)
Definition add_part (e : E) (m : M) (s : bytes) (x : X) : bytes :=
  if decide (g_code (fn x) e m = 0)
  then s ++ (if decide (s = []) then [] else [","%char]) ++ member_text (tag x) (g_text (fn x) e m)
  else s.

Definition parts_text (e : E) (m : M) (order : list X) : bytes := foldl (add_part e m) [] order.

(** The conjunction: ENODATA when every part says so. *)
Definition parts_code (e : E) (m : M) (order : list X) : Z :=
  if forallb (λ x, g_code (fn x) e m =? ENODATA) order then ENODATA else ENONE.

Lemma parts_code_range e m order : 0 ≤ parts_code e m order ≤ 3.
Proof. unfold parts_code. by case_match. Qed.

Lemma add_part_gathered e m c s kvs x :
  no_brace c → obj_members s kvs →
  gathered (c ++ s) (tag x) (fn x) e m = c ++ add_part e m s x.
Proof.
  intros Hc Hs. unfold gathered, add_part. case_decide; [|done].
  by rewrite (sep_members c s kvs), <- app_assoc by done.
Qed.

Lemma add_part_length e m s x :
  (length (add_part e m s x) ≤ length s + gather_need (tag x) (fn x) e m)%nat.
Proof.
  unfold add_part, gather_need. case_decide as Hz; [|lia].
  apply g_text_need in Hz. rewrite !length_app, length_member_text.
  destruct (decide (s = [])); simpl; lia.
Qed.

Lemma parts_length e m order s :
  (length (foldl (add_part e m) s order) ≤ length s + parts_need e m order)%nat.
Proof.
  revert s. induction order as [|x order IH]; intros s; cbn [foldl]; [unfold parts_need; simpl; lia|].
  specialize (IH (add_part e m s x)). pose proof (add_part_length e m s x).
  unfold parts_need in *. cbn [sum_list_with]. lia.
Qed.

Context (kvs : E → M → X → list (bytes * json)) `{!Parts tag fn kvs}.

(** The parts that have data, in the order of the calls. *)
Definition parts_members (e : E) (m : M) (order : list X) : list (bytes * json) :=
  omap (λ x, if decide (g_code (fn x) e m = 0) then Some (lit (tag x), JObj (kvs e m x)) else None) order.

Lemma add_part_members e m s l x :
  g_clean (fn x) e m → obj_members s l → obj_members (add_part e m s x) (l ++ parts_members e m [x]).
Proof.
  intros Hcl [Hs Hb]. unfold add_part, parts_members. cbn [omap list_omap]. case_decide; [|by rewrite app_nil_r].
  split.
  - apply members_add; [done|apply pt_tag| |done]. by constructor; apply pt_members.
  - right. unfold member_text. by rewrite !app_comm_cons, !app_assoc, last_snoc.
Qed.

Lemma parts_members_cons e m x order :
  parts_members e m (x :: order) = parts_members e m [x] ++ parts_members e m order.
Proof. unfold parts_members. cbn [omap list_omap]. by case_decide. Qed.

Lemma parts_members_ok e m order s l :
  (∀ x, g_clean (fn x) e m) → obj_members s l →
  obj_members (foldl (add_part e m) s order) (l ++ parts_members e m order).
Proof.
  intros Hcl. revert s l. induction order as [|x order IH]; intros s l Hs; [by rewrite app_nil_r|].
  rewrite parts_members_cons, app_assoc. apply IH. by apply add_part_members.
Qed.

Lemma parts_text_members e m order :
  (∀ x, g_clean (fn x) e m) → members (parts_text e m order) (parts_members e m order).
Proof. intros Hcl. by apply (parts_members_ok e m order [] [] Hcl obj_members_nil). Qed.

Lemma gather_parts_ok e m order acc p c s l :
  (∀ x, g_clean (fn x) e m) → holds p (c ++ s) → opened c → obj_members s l →
  fits c (length s + parts_need e m order) →
  ∃ p', gather_parts tag fn acc order e m p = Ok (foldl (λ a x, Z.land a (g_code (fn x) e m)) acc order, m, p')
        ∧ same_meta p p' ∧ holds p' (c ++ foldl (add_part e m) s order).
Proof.
  intros Hcl Hh Ho Hs. revert acc p s l Hh Hs. induction order as [|x order IH]; intros acc p s l Hh Hs Hf.
  { by exists p. }
  cbn [gather_parts]. unfold fits, parts_need in Hf. cbn [sum_list_with] in Hf.
  destruct (packet_gather_ok (fn x) p (c ++ s) (tag x) e m) as (p1 & -> & Hm1 & Hh1).
  { apply Hcl. } { done. }
  { intros [-> _]%app_eq_nil. done. }
  { unfold fits. rewrite length_app. lia. }
  cbn [rbind]. rewrite (add_part_gathered e m c s l x) in Hh1 by eauto with packet.
  pose proof (add_part_members e m s l x (Hcl x) Hs) as Hs'.
  pose proof (add_part_length e m s x). rewrite pt_module.
  destruct (IH (Z.land acc (g_code (fn x) e m)) p1 (add_part e m s x) (l ++ parts_members e m [x]))
    as (p2 & -> & Hm2 & Hh2); [done|done| |].
  { unfold fits, parts_need. lia. }
  exists p2. split; [done|]. split; [by rewrite Hm1|done].
Qed.

Lemma land_parts e m order acc :
  acc = ENONE ∨ acc = ENODATA →
  foldl (λ a x, Z.land a (g_code (fn x) e m)) acc order
  = if (acc =? ENODATA) && forallb (λ x, g_code (fn x) e m =? ENODATA) order then ENODATA else ENONE.
Proof.
  revert acc. induction order as [|x order IH]; intros acc Ha; cbn [foldl forallb].
  { by destruct Ha as [-> | ->]. }
  destruct Ha as [-> | ->], (pt_code x e m) as [-> | ->]; rewrite IH by (cbn; auto); done.
Qed.

(** -1 is the unit of [&]. *)
Lemma parts_code_spec e m order :
  order ≠ [] → foldl (λ a x, Z.land a (g_code (fn x) e m)) (-1) order = parts_code e m order.
Proof.
  destruct order as [|x order]; [done|]. intros _. cbn [foldl]. rewrite Z.land_m1_l.
  by rewrite land_parts by apply pt_code.
Qed.

Context (all : list X).

Lemma parts_code_order e m order `{!Ordering all order} : parts_code e m order = parts_code e m all.
Proof.
  unfold parts_code. set (f := λ x, g_code (fn x) e m =? ENODATA).
  assert (forallb f order = forallb f all) as ->; [|done].
  apply eq_bool_prop_intro. by rewrite !forallb_True, (ordering : order ≡ₚ all).
Qed.

Lemma parts_need_order e m order `{!Ordering all order} : parts_need e m order = parts_need e m all.
Proof. unfold parts_need. by rewrite (ordering : order ≡ₚ all). Qed.

Lemma parts_text_length e m order `{!Ordering all order} :
  (length (parts_text e m order) ≤ parts_need e m all)%nat.
Proof. rewrite <- (parts_need_order e m order). apply (parts_length e m order []). Qed.

Lemma gather_parts_order order `{!Ordering all order} e m p c :
  all ≠ [] → (∀ x, g_clean (fn x) e m) → holds p c → opened c → fits c (parts_need e m all) →
  ∃ p', gather_parts tag fn (-1) order e m p = Ok (parts_code e m all, m, p') ∧ same_meta p p'
        ∧ holds p' (c ++ parts_text e m order).
Proof.
  intros Hne Hcl Hh Ho Hf.
  destruct (gather_parts_ok e m order (-1) p c [] []) as (p' & E0 & H'); [done|by rewrite app_nil_r|done|..].
  { apply obj_members_nil. } { by rewrite parts_need_order. }
  exists p'. split; [|done]. rewrite E0, parts_code_spec; [by rewrite parts_code_order|].
  intros ->. apply Hne. by apply Permutation_nil, ordering.
Qed.
End Parts.

(** No member exactly when every part has no data. *)
Lemma parts_code_members {E M X} (tag : X → string) (fn : X → gather_fn E M) `{!∀ x, Gatherer (fn x)} kvs
    `{!Parts tag fn kvs} e m order :
  parts_code fn e m order = ENODATA ↔ parts_members tag fn kvs e m order = [].
Proof.
  unfold parts_code, parts_members. induction order as [|x order IH]; cbn [forallb omap list_omap]; [done|].
  destruct (pt_code x e m) as [-> | ->]; [done|]. rewrite decide_False by done. exact IH.
Qed.
