(* ===== verification/Util.v ===== *)
(** src/util.c: the millisecond clock and the sub-second sleep. *)
From Stdlib Require Import ZArith Ascii Lia SpecFloat.
From stdpp Require Import base list numbers.
From S2P Require Import Prelude.
From S2P Require Import Clib.
From S2P Require Import Packet.

Local Open Scope Z_scope.

Definition NSPMS : Z := 1000000.

Record timespec := Timespec { tv_sec : Z; tv_nsec : Z }.

(** [now] is what [clock_gettime(CLOCK_REALTIME)] stores. *)
Definition epoch_time (now : timespec) : Z :=
  u64 (u64 (tv_sec now) * MSPS + u64 (tv_nsec now) / NSPMS).

Definition f32_sub : float → float → float := SFsub 24 128.

(** The duration handed to [nanosleep]; [None] when a conversion is out of
    range.  The integers are converted to [float] before they are multiplied. *)
Definition snyo_sleep (sec : float) : option timespec :=
  tv_sec ← f32_trunc sec;
  tv_nsec ← f32_trunc (f32_mul (f32_mul (f32_sub sec (f32_of_Z tv_sec)) (f32_of_Z NSPMS)) (f32_of_Z MSPS));
  Some (Timespec tv_sec tv_nsec).

(** A clock reading of a real date, split back into its second. *)
Lemma epoch_time_range now : is_u64 (epoch_time now).
Proof. apply u64_range. Qed.

#[export] Hint Resolve epoch_time_range : air.

(** Until the year 584,000,000 the clock is exact: the milliseconds since
    the epoch, monotone in the seconds, with the sub-second part below 1000. *)
Theorem epoch_time_exact now :
  0 ≤ tv_sec now < 2 ^ 53 → 0 ≤ tv_nsec now < 1000000000 →
  epoch_time now / MSPS = tv_sec now ∧ epoch_time now mod MSPS = tv_nsec now / NSPMS.
Proof.
  intros Hs Hn. unfold epoch_time, MSPS, NSPMS.
  rewrite (u64_small (tv_sec now)), (u64_small (tv_nsec now)) by (unfold is_u64; lia).
  assert (0 ≤ tv_nsec now / 1000000 < 1000) as Hq.
  { split; [apply Z.div_pos; lia|apply Z.div_lt_upper_bound; lia]. }
  rewrite u64_small by (unfold is_u64; lia).
  rewrite Z.add_comm, Z.mul_comm, Z.mul_comm. split.
  - rewrite Z.div_add, Z.div_small by lia. done.
  - rewrite Z.mod_add, Z.mod_small by lia. done.
Qed.

Lemma epoch_time_exact_witness :
  epoch_time (Timespec 1480000000 123456789) / MSPS = 1480000000
  ∧ epoch_time (Timespec 1480000000 123456789) mod MSPS = 123456789 / NSPMS.
Proof. apply (epoch_time_exact (Timespec 1480000000 123456789)); simpl; lia. Defined.

(** The pause of the main loop, [snyo_sleep(0.07)], is the float nearest
    to seventy milliseconds: no whole second and under a second of nanoseconds. *)
Theorem main_loop_sleep : snyo_sleep (f32_of_f64 (f64_lit 7 100)) = Some (Timespec 0 70000000).
Proof. by vm_compute. Qed.
