(* ===== verification/Sender.v ===== *)
(** src/sender.c: posting a packet through libcurl.

    libcurl is a parameter: [net] gives, for a request, the chunks of the
    response body that reach the write callback, the [CURLcode] and the HTTP
    status.  What the agent relies on is stated as [curl_contract]. *)
From Stdlib Require Import ZArith Ascii Lia.
From stdpp Require Import base list strings numbers gmap.
From S2P Require Import Prelude.
From S2P Require Import Clib.
From S2P Require Import Json.
From S2P Require Import Packet.

Local Open Scope Z_scope.

Definition CURLE_OK : Z := 0.

Definition METRIC_URL : string := "https://gate.maxgauge.com/v1/metrics".
Definition REGISTER_URL : string := "https://gate.maxgauge.com/v1/agents".
Definition ALERT_URL : string := "https://gate.maxgauge.com/v1/alert".

(** * Data *)

Abbreviation handle := positive.

Record sender_t := Sender { curl : option handle; lock : Z }.

(** The file's statics: the three-element array [sender] and whether the list
    [header] is allocated; with the easy handles libcurl has open. *)
Record senders := Senders {
  s_metric : sender_t;
  s_register : sender_t;
  s_alert : sender_t;
  s_header : bool;
  s_live : gset handle
}.

Definition sender_of (s : senders) (t : packet_type) : sender_t :=
  match t with
  | METRIC => s_metric s
  | REGISTER => s_register s
  | ALERT => s_alert s
  end.

Definition set_sender (s : senders) (t : packet_type) (x : sender_t) : senders :=
  match t with
  | METRIC => Senders x (s_register s) (s_alert s) (s_header s) (s_live s)
  | REGISTER => Senders (s_metric s) x (s_alert s) (s_header s) (s_live s)
  | ALERT => Senders (s_metric s) (s_register s) x (s_header s) (s_live s)
  end.

Definition set_live (s : senders) (l : gset handle) : senders :=
  Senders (s_metric s) (s_register s) (s_alert s) (s_header s) l.

Definition set_header (s : senders) (b : bool) : senders :=
  Senders (s_metric s) (s_register s) (s_alert s) b (s_live s).

Inductive copt := CO_URL (url : string) | CO_POST | CO_TIMEOUT | CO_NOSIGNAL | CO_HTTPHEADER | CO_WRITEFUNCTION.

(** * Initialisation

    [mk] is what [curl_easy_init] returns for each sender, [setopt] what
    [curl_easy_setopt] returns, [hdr] whether [curl_slist_append] succeeds. *)

Definition sender_add_opt (s : senders) (t : packet_type) (url : string)
    (mk : option handle) (setopt : copt → Z) : Z * senders :=
  let s := set_sender s t (Sender mk (lock (sender_of s t))) in
  match mk with
  | None => (b2z false - 1, s)
  | Some h =>
      let s := set_live s ({[h]} ∪ s_live s) in
      (b2z (forallb (λ o, setopt o =? CURLE_OK)
             [CO_URL url; CO_POST; CO_TIMEOUT; CO_NOSIGNAL; CO_HTTPHEADER; CO_WRITEFUNCTION]) - 1, s)
  end.

Definition cleanup (s : senders) (t : packet_type) : senders :=
  match curl (sender_of s t) with
  | None => s
  | Some h => set_live s (s_live s ∖ {[h]})
  end.

(** [sender_fini]: the handles are closed and the header list is freed; the
    array keeps the pointers. *)
Definition sender_fini (s : senders) : Z * senders :=
  (0, set_header (cleanup (cleanup (cleanup s METRIC) REGISTER) ALERT) false).

Definition sender_init (s : senders) (hdr : bool) (mk : packet_type → option handle)
    (setopt : packet_type → copt → Z) : Z * senders :=
  let s := set_header s hdr in
  if negb hdr then (-1, snd (sender_fini s))
  else
    let '(r, s) := sender_add_opt s METRIC METRIC_URL (mk METRIC) (setopt METRIC) in
    if r <? 0 then (-1, snd (sender_fini s)) else
    let '(r, s) := sender_add_opt s REGISTER REGISTER_URL (mk REGISTER) (setopt REGISTER) in
    if r <? 0 then (-1, snd (sender_fini s)) else
    let '(r, s) := sender_add_opt s ALERT ALERT_URL (mk ALERT) (setopt ALERT) in
    if r <? 0 then (-1, snd (sender_fini s)) else (0, s).

(** * The write callback *)

(** [char] is signed on the target. *)
Definition schar (c : ascii) : Z := if code c <? 128 then code c else code c - 256.

Definition in_int (z : Z) : bool := (- INT_MAX - 1 <=? z) && (z <=? INT_MAX).

Fixpoint callback_code (acc : Z) (l : bytes) : res Z :=
  match l with
  | [] => Ok acc
  | c :: l =>
      let v := acc * 10 + (schar c - 48) in
      if in_int (acc * 10) && in_int v then callback_code v l else Ub SignedOverflow
  end.

(** [callback]: the body of a response is a decimal code; the result is 0,
    whatever the length of the chunk. *)
Definition callback (chunk : bytes) (p : packet_t) : res (Z * packet_t) :=
  do v <- callback_code 0 chunk;
  Ok (0, set_response v p).

Fixpoint callbacks (chunks : list bytes) (p : packet_t) : res packet_t :=
  match chunks with
  | [] => Ok p
  | c :: chunks => do r <- callback c p; callbacks chunks (snd r)
  end.

(** * Posting *)

Record transfer := Transfer { chunks : list bytes; curl_code : Z; status_code : Z }.

(** What a request to the URL of a packet type, with a body, comes to. *)
Abbreviation network := (packet_type → bytes → transfer).

Definition success (t : transfer) : bool :=
  (curl_code t =? CURLE_OK) && ((status_code t =? 202) || (status_code t =? 200)).

Definition post (net : network) (s : senders) (p : packet_t) : res (Z * senders * packet_t) :=
  let p := set_attempt (attempt p + 1) p in
  do f <- packet_fetch p;
  let '(payload, p) := f in
  match payload with
  | None => Ok (-1, s, p)
  | Some payload =>
      let snd := sender_of s (type p) in
      if negb (lock snd =? 0) then Spins
      else match curl snd with
      | None => Ok (-1, set_sender s (type p) (Sender None 0), p)
      | Some h =>
          if bool_decide (h ∈ s_live s) then
            let t := net (type p) (cstr payload) in
            do p' <- callbacks (chunks t) p;
            Ok (b2z (success t) - 1, set_sender s (type p) (Sender (Some h) 0), p')
          else Ub OutOfBounds
      end
  end.

(** libcurl's documentation of CURLOPT_WRITEFUNCTION: when the callback returns
    something else than the size of the chunk it was given, the transfer fails
    with CURLE_WRITE_ERROR.  It is stated for any callback result [ret]. *)
Definition curl_contract (ret : bytes → Z) (net : network) : Prop :=
  ∀ t body, curl_code (net t body) = CURLE_OK →
  Forall (λ c, ret c = Z.of_nat (length c)) (chunks (net t body)).

(** * Lemmas *)

(** A sender [post] can use: its lock is free and its handle open. *)
Definition usable (s : senders) (t : packet_type) : Prop :=
  lock (sender_of s t) = 0 ∧ ∃ h, curl (sender_of s t) = Some h ∧ h ∈ s_live s.

(** The response bodies are decimal codes that fit an [int]. *)
Definition codes_fit (net : network) : Prop :=
  ∀ t body, Forall (λ c, ∃ v, callback_code 0 c = Ok v) (chunks (net t body)).

(** A packet [post] has handed to the network: one attempt more and perhaps a
    new response. *)
Definition posted (p p' : packet_t) : Prop :=
  ∃ r, p' = set_response r (set_attempt (attempt p + 1) p).

Lemma set_sender_of s t : set_sender s t (sender_of s t) = s.
Proof. by destruct s, t. Qed.

Lemma callbacks_ok ch p :
  Forall (λ c, ∃ v, callback_code 0 c = Ok v) ch → ∃ r, callbacks ch p = Ok (set_response r p).
Proof.
  intros H. revert p. induction H as [|c ch (v & E) _ IH]; intros p; simpl.
  - exists (response p). by destruct p.
  - unfold callback. rewrite E. simpl. destruct (IH (set_response v p)) as [r ->]. by exists r.
Qed.

Lemma post_ready net s p :
  state p = READY → spin p = 0 → usable s (type p) → codes_fit net →
  ∃ p', post net s p = Ok (b2z (success (net (type p) (cstr (payload p)))) - 1, s, p')
        ∧ posted p p'.
Proof.
  intros Hst Hsp (Hl & h & Hc & Hh) Hcf. unfold post, packet_fetch. simpl.
  rewrite Hsp, Hst. cbn [Z.eqb]. rewrite bool_decide_true by done. simpl.
  rewrite Hl, Hc, bool_decide_true by done. simpl.
  destruct (callbacks_ok (chunks (net (type p) (cstr (payload p))))
              (set_spin 0 (set_attempt (attempt p + 1) p))) as [r E]; [by apply Hcf|].
  rewrite E. simpl. eexists. split.
  - do 3 f_equal. rewrite <- (set_sender_of s (type p)) at 2. f_equal.
    destruct (sender_of s (type p)); simpl in *. by subst.
  - exists r. unfold set_spin, set_attempt, set_response. simpl. by rewrite Hsp.
Qed.

Lemma callback_code_app acc l c :
  callback_code acc (l ++ [c]) =
  (do v <- callback_code acc l;
   if in_int (v * 10) && in_int (v * 10 + (schar c - 48)) then Ok (v * 10 + (schar c - 48))
   else Ub SignedOverflow).
Proof.
  revert acc. induction l as [|x l IH]; intros acc; simpl.
  - by destruct (_ && _).
  - destruct (_ && _); [apply IH|done].
Qed.

Lemma in_int_true z : 0 ≤ z ≤ INT_MAX → in_int z = true.
Proof. intros H. unfold in_int. apply andb_true_intro. split; apply Z.leb_le; lia. Qed.

Lemma callback_code_digits l :
  Forall (λ c, is_digit c = true) l → undec l ≤ INT_MAX → callback_code 0 l = Ok (undec l) ∧ 0 ≤ undec l.
Proof.
  induction l as [|c l IH] using rev_ind; intros Hd Hm; [done|].
  apply Forall_app in Hd as [Hd Hc]. inversion_clear Hc as [|? ? Hc' _].
  rewrite undec_snoc in *. unfold is_digit in Hc'. apply andb_prop in Hc' as [H1 H2].
  apply Z.leb_le in H1, H2. unfold digit_val in *.
  destruct IH as [IH Hp]; [done| |].
  { pose proof PKTSZ_range. lia. }
  rewrite callback_code_app, IH. simpl. unfold schar.
  rewrite (proj2 (Z.ltb_lt _ _)) by lia.
  rewrite !in_int_true by lia. split; [done|lia].
Qed.

Lemma live_cleanup s t h : h ∈ s_live (cleanup s t) → h ∈ s_live s.
Proof. unfold cleanup. destruct (curl _); simpl; set_solver. Qed.

Lemma sender_of_cleanup s t t' : sender_of (cleanup s t) t' = sender_of s t'.
Proof. unfold cleanup. destruct (curl _), t'; done. Qed.

(** [sender_fini] leaves no usable sender behind, and the pointers as they were. *)
Lemma sender_fini_dangling s t h :
  curl (sender_of s t) = Some h →
  curl (sender_of (snd (sender_fini s)) t) = Some h ∧ h ∉ s_live (snd (sender_fini s)).
Proof.
  intros Hc. unfold sender_fini. simpl. split.
  - destruct t; simpl; unfold cleanup; simpl; repeat (case_match; simpl); done.
  - assert (∀ s', curl (sender_of s' t) = Some h → h ∉ s_live (cleanup s' t)) as Hx.
    { intros s' E. unfold cleanup. rewrite E. simpl. set_solver. }
    destruct t.
    + intros H. by apply (Hx s), live_cleanup with REGISTER, live_cleanup with ALERT.
    + intros H. apply (Hx (cleanup s METRIC)); [by rewrite sender_of_cleanup|].
      by apply live_cleanup with ALERT.
    + apply Hx. by rewrite !sender_of_cleanup.
Qed.

Lemma sender_fini_of s t : sender_of (snd (sender_fini s)) t = sender_of s t.
Proof. destruct t; simpl; unfold cleanup; simpl; by repeat (case_match; simpl). Qed.

Lemma sender_init_fail s hdr mk setopt s' :
  sender_init s hdr mk setopt = (-1, s') → ∃ s0, s' = snd (sender_fini s0).
Proof.
  unfold sender_init. destruct (negb hdr); [intros [= <-]; by eexists|].
  do 3 (destruct (sender_add_opt _ _ _ _ _) as [? ?]; destruct (_ <? 0);
    [intros [= <-]; by eexists|]).
  by intros [=].
Qed.

(** * Properties *)

(** [post] of a READY packet sends exactly the text the packet holds, leaves
    every sender lock free, counts the attempt, and reports success exactly for
    a completed transfer with status 200 or 202. *)
Theorem post_sends net s p c :
  state p = READY → spin p = 0 → usable s (type p) → codes_fit net → holds p c → no_nul c →
  ∃ r p', post net s p = Ok (r, s, p') ∧ posted p p'
    ∧ (r = 0 ↔ curl_code (net (type p) c) = CURLE_OK
               ∧ (status_code (net (type p) c) = 200 ∨ status_code (net (type p) c) = 202))
    ∧ (r = 0 ∨ r = -1).
Proof.
  intros Hst Hsp Hu Hcf (_ & _ & rest & Hp) Hn.
  destruct (post_ready net s p) as (p' & E & Hpo); [done..|].
  rewrite Hp, cstr_nul in E by done. eexists _, p'. split; [exact E|]. split; [done|].
  unfold success. destruct (Z.eqb_spec (curl_code (net (type p) c)) CURLE_OK),
    (Z.eqb_spec (status_code (net (type p) c)) 202), (Z.eqb_spec (status_code (net (type p) c)) 200);
    simpl; split; naive_solver lia.
Qed.

Definition ok_network : network := λ _ _, Transfer [] 0 202.
Definition ready_packet : packet_t := set_state READY (zeroed ALERT).
Definition open_senders : senders :=
  Senders (Sender (Some 1%positive) 0) (Sender (Some 2%positive) 0) (Sender (Some 3%positive) 0)
    true {[1%positive; 2%positive; 3%positive]}.

Lemma open_senders_usable t : usable open_senders t.
Proof. destruct t; (split; [done|]); eexists; (split; [done|]); set_solver. Qed.

Lemma ready_packet_holds : holds ready_packet [].
Proof. eapply holds_ext; [..|apply (zeroed_holds ALERT)]; done. Qed.

Lemma post_sends_witness :
  ∃ r p', post ok_network open_senders ready_packet = Ok (r, open_senders, p') ∧ posted ready_packet p'
    ∧ (r = 0 ↔ curl_code (ok_network ALERT []) = CURLE_OK
               ∧ (status_code (ok_network ALERT []) = 200 ∨ status_code (ok_network ALERT []) = 202))
    ∧ (r = 0 ∨ r = -1).
Proof.
  apply (post_sends ok_network open_senders ready_packet []); try done.
  - apply open_senders_usable.
  - intros t b. constructor.
  - apply ready_packet_holds.
  - constructor.
Defined.

(** The write callback decodes the server's answer: a body that prints a
    code as a decimal number stores that code as the packet's response. *)
Theorem callback_decodes n p :
  0 ≤ n ≤ INT_MAX → callback (dec n) p = Ok (0, set_response n p).
Proof.
  intros Hn. pose proof (undec_dec n ltac:(lia)) as E.
  destruct (callback_code_digits (dec n)) as [H _]; [apply dec_digits; lia|lia|].
  unfold callback. by rewrite H, E.
Qed.

Lemma callback_decodes_witness :
  callback (dec 302) (zeroed METRIC) = Ok (0, set_response ETARGETREG (zeroed METRIC)).
Proof. apply (callback_decodes 302). split; [lia|by vm_compute]. Defined.

(** The callback returns 0, so libcurl aborts every transfer whose response
    has a body: a successful [post] got an empty one, and the response of the
    packet is the one it had. *)
Theorem post_success_empty_body net s p s' p' :
  curl_contract (λ _, 0) net → state p = READY → post net s p = Ok (0, s', p') →
  Forall (λ c, c = []) (chunks (net (type p) (cstr (payload p)))).
Proof.
  intros Hc Hst. unfold post, packet_fetch. simpl. rewrite Hst.
  destruct (spin p =? 0); [|done]. rewrite bool_decide_true by done. simpl.
  destruct (negb _); [done|]. destruct (curl _); [|done].
  destruct (bool_decide _); [|done]. destruct (callbacks _ _); [|done..]. simpl.
  destruct (success _) eqn:E; [|done]. intros _. unfold success in E.
  apply andb_prop in E as [E _]. apply Z.eqb_eq in E. specialize (Hc _ _ E).
  eapply List.Forall_impl; [|exact Hc]. intros [|x l] H; [done|simpl in H; lia].
Qed.

Lemma post_success_empty_body_witness :
  ∃ s' p', post ok_network open_senders ready_packet = Ok (0, s', p')
    ∧ Forall (λ c, c = []) (chunks (ok_network (type ready_packet) (cstr (payload ready_packet)))).
Proof.
  destruct (post_ready ok_network open_senders ready_packet) as (p' & E & _);
    [done|done|apply open_senders_usable|intros ? ?; constructor|].
  exists open_senders, p'. split; [exact E|].
  apply (post_success_empty_body ok_network open_senders ready_packet open_senders p');
    [intros t b _; constructor|done|exact E].
Defined.

(** When a handle or an option cannot be set up, [sender_init] closes the
    handles it had opened but keeps their addresses; [storage_init] only logs
    the error and goes on, and posting through such a sender uses a closed
    handle. *)
Theorem sender_init_failure_dangles s hdr mk setopt s' p net h :
  sender_init s hdr mk setopt = (-1, s') →
  state p = READY → spin p = 0 → lock (sender_of s' (type p)) = 0 →
  curl (sender_of s' (type p)) = Some h →
  post net s' p = Ub OutOfBounds.
Proof.
  intros Hi Hst Hsp Hl Hc.
  assert (h ∉ s_live s') as Hdead.
  { apply sender_init_fail in Hi as [s0 ->]. rewrite sender_fini_of in Hc.
    by apply sender_fini_dangling in Hc as [_ ?]. }
  unfold post, packet_fetch. simpl. rewrite Hsp, Hst. cbn [Z.eqb].
  rewrite bool_decide_true by done. simpl. rewrite Hl, Hc. simpl.
  by rewrite bool_decide_false.
Qed.

Lemma sender_init_failure_dangles_witness :
  let mk t := match t with METRIC => Some 1%positive | REGISTER => Some 2%positive | ALERT => None end in
  let s := Senders (Sender None 0) (Sender None 0) (Sender None 0) false ∅ in
  ∃ s', sender_init s true mk (λ _ _, 0) = (-1, s')
        ∧ post ok_network s' (set_type METRIC ready_packet) = Ub OutOfBounds.
Proof.
  intros mk s. eexists. split; [by vm_compute|].
  by apply (sender_init_failure_dangles s true mk (λ _ _, 0) _ _ _ 1%positive).
Defined.
