(* ===== verification/Routine.v ===== *)
(** src/routine.c, the part one thread executes: the routine record, its
    initialisation, one turn of the loop of [routine_main], and the clock test
    the schedulers use.  The interleavings of [routine_main] with its pinger are
    in [PingPong]. *)
From Stdlib Require Import ZArith Ascii Lia SpecFloat.
From stdpp Require Import base list strings numbers.
From S2P Require Import Prelude.
From S2P Require Import Clib.
From S2P Require Import Packet.

Local Open Scope Z_scope.

(** The functions a task pointer ever holds. *)
Inductive task_fn :=
| plugin_prep_fn | plugin_regr_fn | plugin_gather_fn | plugin_alert_up_fn | plugin_alert_down_fn
| scheduler_main_fn | storage_main_fn.

#[global] Instance task_fn_eq_dec : EqDecision task_fn.
Proof. solve_decision. Defined.

Record routine_t := Routine {
  alive : bool;
  tag : option string;
  tick : float;
  due : Z;
  delay : Z;
  task : option task_fn
}.

Definition set_alive v r := Routine v (tag r) (tick r) (due r) (delay r) (task r).
Definition set_tag v r := Routine (alive r) v (tick r) (due r) (delay r) (task r).
Definition set_tick v r := Routine (alive r) (tag r) v (due r) (delay r) (task r).
Definition set_due v r := Routine (alive r) (tag r) (tick r) v (delay r) (task r).
Definition set_delay v r := Routine (alive r) (tag r) (tick r) (due r) (bitfield 3 v) (task r).
Definition set_task v r := Routine (alive r) (tag r) (tick r) (due r) (delay r) v.

(** The results of the two [pthread_mutex_init] and two [pthread_cond_init]. *)
Record pthread_results := Pthread {
  pt_ping_me : Z; pt_pong_me : Z; pt_ping : Z; pt_pong : Z
}.

Definition any_negative (pt : pthread_results) : bool :=
  (pt_ping_me pt <? 0) || (pt_pong_me pt <? 0) || (pt_ping pt <? 0) || (pt_pong pt <? 0).

(** [routine_init]; the pointer may be NULL. *)
Definition routine_init (pt : pthread_results) (r : option routine_t) : Z * option routine_t :=
  match r with
  | None => (-1, None)
  | Some r =>
      let r := set_alive false r in
      let r := set_tag None r in
      let r := set_tick (f32_of_Z 3600) r in
      let r := set_due 0 r in
      let r := set_task None r in
      if any_negative pt then (-1, Some r) else (0, Some r)
  end.

(** [routine_fini]: the results of the four destroys, then of the join. *)
Definition routine_fini (pt : pthread_results) (join : Z) : Z :=
  if any_negative pt then -1 else join.

Definition routine_change_task (r : routine_t) (t : option task_fn) : routine_t := set_task t r.

Definition routine_alive (r : routine_t) : bool := alive r.

Definition routine_overdue (now : Z) (r : routine_t) : bool := due r <=? now.

(** The due date the loop computes from the instant it was woken. *)
Definition next_due (begin : Z) (r : routine_t) : option Z :=
  dt ← f32_trunc (f32_mul (tick r) (f32_of_Z MSPS)); Some (u64 (begin + dt)).

(** The body of the loop of [routine_main] once it has been pinged: [run] is the
    call through the task pointer, on the state [S] the routine lives in. *)
Definition routine_turn {S} (get : S → routine_t) (put : routine_t → S → S)
    (run : task_fn → S → res S) (begin : Z) (s : S) : res S :=
  do s <- match task (get s) with Some f => run f s | None => Ok s end;
  do d <- of_opt OutOfBounds (next_due begin (get s));
  Ok (put (set_due d (get s)) s).

(** [routine_start] before the thread runs, and [routine_stop] once it is
    cancelled, as far as the record goes. *)
Definition routine_start_record (r : routine_t) : routine_t := set_due 0 (set_alive true r).
Definition routine_stop_record (r : routine_t) : routine_t := set_alive false r.

(** The periods the program sets. *)
Definition SCHEDULER_TICK : float := f32_of_f64 (f64_lit 53 100).
Definition STORAGE_TICK : Z := 21.
Definition OS_TICK : float := f32_lit 2977 1000.
Definition MYSQL_TICK : float := f32_lit 4973 1000.

(** The period of a routine in milliseconds. *)
Definition period (r : routine_t) : option Z := f32_trunc (f32_mul (tick r) (f32_of_Z MSPS)).

(** * Properties *)

(** After a turn begun at [begin], whatever its task did and however long it
    took, a routine is overdue exactly when the period it then has has passed
    since [begin]. *)
Theorem turn_period {S} (get : S → routine_t) put (run : task_fn → S → res S) begin s s' ms now :
  (∀ r s, get (put r s) = r) →
  routine_turn get put run begin s = Ok s' →
  period (get s') = Some ms → begin + ms < 2 ^ 64 → 0 ≤ begin →
  routine_overdue now (get s') = (begin + ms <=? now).
Proof.
  intros Hgp H Hp Hb H0. unfold routine_turn in H. inv_ok H. inv_ok H.
  injection H as <-. rewrite Hgp in Hp |- *. unfold routine_overdue. simpl.
  change (period (set_due v0 (get v))) with (period (get v)) in Hp.
  unfold next_due in E0. unfold period in Hp. rewrite Hp in E0. injection E0 as <-.
  apply f32_trunc_nonneg in Hp. rewrite u64_small; [done|]. unfold is_u64. lia.
Qed.

Definition idle_routine : routine_t := Routine true None OS_TICK 0 0 None.

Lemma turn_period_witness :
  ∃ s', routine_turn id (λ r _, r) (λ _ s, Ok s) 1000 idle_routine = Ok s'
    ∧ routine_overdue 3976 s' = (1000 + 2977 <=? 3976).
Proof.
  eexists. split; [by vm_compute|].
  by apply (turn_period id (λ r _, r) (λ _ s, Ok s) 1000 idle_routine).
Defined.

(** The periods the program writes as floats, in seconds, are whole numbers
    of milliseconds once multiplied: 0.53, 21, 2.977, 4.973 and 3600 seconds. *)
Theorem tick_constants r :
  period (set_tick SCHEDULER_TICK r) = Some 530
  ∧ period (set_tick (f32_of_Z STORAGE_TICK) r) = Some 21000
  ∧ period (set_tick OS_TICK r) = Some 2977
  ∧ period (set_tick MYSQL_TICK r) = Some 4973
  ∧ period (set_tick (f32_of_Z 3600) r) = Some 3600000.
Proof. by repeat split; vm_compute. Qed.

(** The pthread functions report an error by a positive number, which the
    test [< 0] does not see: with any results POSIX allows, [routine_init]
    reports success and the routine is dead, unscheduled and without a task. *)
Theorem routine_init_never_fails pt r :
  0 ≤ pt_ping_me pt → 0 ≤ pt_pong_me pt → 0 ≤ pt_ping pt → 0 ≤ pt_pong pt →
  ∃ r', routine_init pt (Some r) = (0, Some r')
    ∧ alive r' = false ∧ due r' = 0 ∧ task r' = None ∧ period r' = Some 3600000.
Proof.
  intros H1 H2 H3 H4. unfold routine_init, any_negative.
  rewrite !(proj2 (Z.ltb_ge _ _)) by done. simpl. eexists. split; [done|].
  by repeat split; vm_compute.
Qed.

Lemma routine_init_never_fails_witness :
  ∃ r', routine_init (Pthread 12 0 11 0) (Some idle_routine) = (0, Some r')
    ∧ alive r' = false ∧ due r' = 0 ∧ task r' = None ∧ period r' = Some 3600000.
Proof. apply (routine_init_never_fails (Pthread 12 0 11 0)); simpl; lia. Defined.
