(* ===== verification/Unsent.v ===== *)
(** src/unsent.c: the spool of unsent metrics kept in the log directory. *)
From Stdlib Require Import ZArith Ascii Lia.
From stdpp Require Import base list strings numbers gmap.
From S2P Require Import Prelude.
From S2P Require Import Clib.

Local Open Scope Z_scope.

Definition UNSENT_SENDING : bytes := lit "log/UNSENT_SENDING".
Definition UNSENT_BEGIN : Z := -1.
Definition UNSENT_END : Z := 1.
Definition unsent_path : bytes := lit "log".

(** The files of the spool by name, with their contents; [fixed_files] are those
    the process may not remove or rename. *)
Record fs := Fs { files : gmap bytes bytes; fixed_files : gset bytes }.

(** The file's globals: the unread rest of [unsent_sending_fp] when it is open,
    the flag and the buffer of the line being sent, and [unsent_end]. *)
Record unsent_t := Unsent {
  sending : option bytes;
  json_loaded : bool;
  json_line : bytes;
  unsent_end : bytes
}.

Definition file_exist (f : fs) (name : bytes) : bool := bool_decide (is_Some (files f !! name)).

Definition unsent_file (i : Z) : bytes :=
  if 0 <=? i then
    take 49 (unsent_path ++ lit "/unsent." ++ (if i <? 0 then "-"%char :: dec (- i) else dec i))
  else take 49 (unsent_path ++ lit "/unsent").

(** [remove]: 0, or -1 when the file is missing or may not be touched. *)
Definition remove (f : fs) (name : bytes) : Z * fs :=
  if file_exist f name && bool_decide (name ∉ fixed_files f)
  then (0, Fs (delete name (files f)) (fixed_files f)) else (-1, f).

Definition rename (f : fs) (from to : bytes) : Z * fs :=
  match files f !! from with
  | Some c =>
      if bool_decide (from ∉ fixed_files f) && bool_decide (to ∉ fixed_files f)
      then (0, Fs (<[to := c]> (delete from (files f))) (fixed_files f)) else (-1, f)
  | None => (-1, f)
  end.

(** Remove a file if it is there; the result is or-ed into [success]. *)
Definition clear_one (acc : Z * fs) (name : bytes) : Z * fs :=
  let '(success, f) := acc in
  if file_exist f name then let '(r, f) := remove f name in (Z.lor success r, f) else acc.

Definition unsent_clear (f : fs) : Z * fs :=
  let '(success, f) :=
    fold_left clear_one [unsent_file (-1); unsent_file 0; unsent_file 1; UNSENT_SENDING] (0, f) in
  (b2z (success =? 0) - 1, f).

Definition unsent_init (f : fs) (u : unsent_t) : Z * fs * unsent_t :=
  let u := Unsent (sending u) (json_loaded u) (json_line u) (unsent_file UNSENT_END) in
  let '(r, f) := unsent_clear f in
  (if r <? 0 then -1 else 0, f, u).

(** The loop of [unsent_load], newest index first. *)
Fixpoint load_first (names : list bytes) (f : fs) (u : unsent_t) : Z * fs * unsent_t :=
  match names with
  | [] => (-1, f, u)
  | name :: names =>
      if file_exist f name then
        let '(r, f) := rename f name UNSENT_SENDING in
        if negb (r =? 0) then (-1, f, u)
        else
          let fp := files f !! UNSENT_SENDING in
          (b2z (bool_decide (is_Some fp)) - 1, f,
           Unsent fp (json_loaded u) (json_line u) (unsent_end u))
      else load_first names f u
  end.

Definition unsent_load (f : fs) (u : unsent_t) : Z * fs * unsent_t :=
  if negb (file_exist f (unsent_file UNSENT_BEGIN)) && negb (file_exist f (unsent_file 0))
  then (-1, f, u)
  else load_first [unsent_file 1; unsent_file 0; unsent_file (-1)] f u.

(** [fclose] of a NULL stream is undefined. *)
Definition unsent_drop_sending (f : fs) (u : unsent_t) : res (fs * unsent_t) :=
  match sending u with
  | None => Ub NullDeref
  | Some _ => Ok (snd (remove f UNSENT_SENDING), Unsent None false (json_line u) (unsent_end u))
  end.

(** The loop of [unsent_send]; the sending itself is commented out in the
    source.  Each round but the first reads a line, so the length of the file
    bounds the rounds. *)
Fixpoint send_lines (fuel : nat) (u : unsent_t) : res unsent_t :=
  match sending u with
  | None => Ub NullDeref
  | Some rest =>
      if json_loaded u then
        match fuel with
        | O => Spins
        | S fuel => send_lines fuel (Unsent (sending u) false (json_line u) (unsent_end u))
        end
      else match fgets 32768 rest with
      | None => Ok u
      | Some (l, r) =>
          match fuel with
          | O => Spins
          | S fuel => send_lines fuel (Unsent (Some r) false l (unsent_end u))
          end
      end
  end.

Definition unsent_send (f : fs) (u : unsent_t) : res (fs * unsent_t) :=
  let go f u :=
    do u <- send_lines (S (S (length (default [] (sending u))))) u;
    unsent_drop_sending f u in
  match sending u with
  | None =>
      let '(r, f, u) := unsent_load f u in
      if r <? 0 then Ok (f, u) else go f u
  | Some _ =>
      if file_exist f (unsent_end u) then
        do d <- unsent_drop_sending f u;
        let '(f, u) := d in
        let '(r, f, u) := unsent_load f u in
        if r <? 0 then Ok (f, u) else go f u
      else go f u
  end.

(** * Lemmas *)

Definition spool : list bytes := [unsent_file (-1); unsent_file 0; unsent_file 1; UNSENT_SENDING].

Lemma remove_ok f name :
  name ∉ fixed_files f → is_Some (files f !! name) →
  remove f name = (0, Fs (delete name (files f)) (fixed_files f)).
Proof. intros Hn Hs. unfold remove, file_exist. by rewrite !bool_decide_true. Qed.

(** With nothing fixed, clearing removes exactly the listed files. *)
Lemma clear_all names f :
  (∀ n, n ∈ names → n ∉ fixed_files f) →
  ∃ f', fold_left clear_one names (0, f) = (0, f') ∧ fixed_files f' = fixed_files f
    ∧ ∀ n, files f' !! n = if decide (n ∈ names) then None else files f !! n.
Proof.
  revert f. induction names as [|name names IH]; intros f Hf.
  { exists f. split; [done|]. split; [done|]. intros n. by rewrite decide_False by apply not_elem_of_nil. }
  assert (∃ f1, clear_one (0, f) name = (0, f1) ∧ fixed_files f1 = fixed_files f
    ∧ files f1 = delete name (files f)) as (f1 & E & Hx & Hd).
  { unfold clear_one, file_exist. destruct (files f !! name) eqn:En.
    - rewrite bool_decide_true by done. rewrite remove_ok by (try apply Hf; try left; done). by eexists.
    - rewrite bool_decide_false by (by intros []). eexists. split; [done|]. split; [done|].
      by rewrite delete_id. }
  cbn [fold_left]. rewrite E. destruct (IH f1) as (f' & -> & Hx' & Hl); [intros n Hn; rewrite Hx; apply Hf; by right|].
  exists f'. split; [done|]. split; [congruence|]. intros n. rewrite Hl, Hd.
  destruct (decide (n = name)) as [->|Hn].
  - rewrite (decide_True (P := name ∈ name :: names)) by (by left).
    case_decide; [done|]. by rewrite lookup_delete_eq.
  - rewrite lookup_delete_ne by done. destruct (decide (n ∈ names)) as [Hi|Hi].
    + by rewrite decide_True by (by right).
    + rewrite decide_False; [done|]. by intros [?|?]%elem_of_cons.
Qed.

(** The loop reads the stream to its end. *)
Lemma send_lines_ok fuel u rest :
  sending u = Some rest → (length rest + (if json_loaded u then 1 else 0) < fuel)%nat →
  ∃ u', send_lines fuel u = Ok u' ∧ sending u' = Some [] ∧ unsent_end u' = unsent_end u.
Proof.
  revert u rest. induction fuel as [|fuel IH]; intros u rest Hs Hf; [lia|].
  simpl. rewrite Hs. destruct (json_loaded u).
  { apply (IH (Unsent (Some rest) false (json_line u) (unsent_end u)) rest); simpl; [done|lia]. }
  destruct (fgets 32768 rest) as [[l r]|] eqn:E.
  - apply fgets_spec in E as (_ & _ & H); [|lia]. 
    apply (IH (Unsent (Some r) false l (unsent_end u)) r); simpl; [done|lia].
  - exists u. destruct rest; [by rewrite Hs|done].
Qed.

Lemma drop_sending_ok f u rest :
  sending u = Some rest →
  ∃ f' u', unsent_drop_sending f u = Ok (f', u') ∧ sending u' = None ∧ json_loaded u' = false.
Proof. intros H. unfold unsent_drop_sending. rewrite H. by eexists _, _. Qed.

(** A load that reports success has opened the stream, and one that does not
    leaves it closed. *)
Lemma load_first_sending names f u r f' u' :
  sending u = None → load_first names f u = (r, f', u') →
  if r <? 0 then sending u' = None else ∃ c, sending u' = Some c.
Proof.
  intros Hs. induction names as [|n names IH]; simpl; [by intros [= <- <- <-]|].
  destruct (file_exist f n); [|done].
  destruct (rename f n UNSENT_SENDING) as [rr ff]. destruct (negb (rr =? 0)).
  { by intros [= <- <- <-]. }
  intros [= <- <- <-]. simpl. destruct (files ff !! UNSENT_SENDING) as [c|].
  - rewrite bool_decide_true by done. simpl. by eexists.
  - by rewrite bool_decide_false by (by intros []).
Qed.

Lemma unsent_load_sending f u r f' u' :
  sending u = None → unsent_load f u = (r, f', u') →
  if r <? 0 then sending u' = None else ∃ c, sending u' = Some c.
Proof.
  intros Hs. unfold unsent_load. destruct (_ && _); [by intros [= <- <- <-]|].
  by apply load_first_sending.
Qed.

(** * Properties *)

(** [unsent_init] on a writable log directory removes the four spool files
    and nothing else, and reports success. *)
Theorem unsent_init_clears f u :
  (∀ n, n ∈ spool → n ∉ fixed_files f) →
  ∃ f' u', unsent_init f u = (0, f', u') ∧ unsent_end u' = lit "log/unsent.1"
    ∧ ∀ n, files f' !! n = if decide (n ∈ spool) then None else files f !! n.
Proof.
  intros Hf. destruct (clear_all spool f Hf) as (f' & E & _ & Hl).
  unfold unsent_init, unsent_clear. fold spool. rewrite E. simpl. by eexists _, _.
Qed.

Lemma unsent_init_clears_witness :
  let f := Fs {[lit "log/unsent.0" := lit "old"; lit "log/agent.log" := lit "x"]} ∅ in
  ∃ f' u', unsent_init f (Unsent None false [] []) = (0, f', u') ∧ unsent_end u' = lit "log/unsent.1"
    ∧ ∀ n, files f' !! n = if decide (n ∈ spool) then None else files f !! n.
Proof. intros f. apply (unsent_init_clears f). intros n _. apply not_elem_of_empty. Defined.

(** [unsent_send] always ends, never touches a closed stream, and leaves
    the spool stream closed: the lines it reads are dropped. *)
Theorem unsent_send_total f u :
  ∃ f' u', unsent_send f u = Ok (f', u') ∧ sending u' = None.
Proof.
  assert (∀ f u c, sending u = Some c →
    ∃ f' u', (do u <- send_lines (S (S (length (default [] (sending u))))) u;
              unsent_drop_sending f u) = Ok (f', u') ∧ sending u' = None) as Hgo.
  { intros g v c Hc. destruct (send_lines_ok (S (S (length c))) v c) as (v' & E & Hs & _);
      [done|destruct (json_loaded v); lia|].
    rewrite Hc. simpl default. rewrite E. simpl.
    destruct (drop_sending_ok g v' []) as (? & ? & -> & ? & _); [done|]. by eauto. }
  assert (∀ f u, sending u = None →
    ∃ f' u', (let '(r, f, u) := unsent_load f u in if r <? 0 then Ok (f, u) else
      do u <- send_lines (S (S (length (default [] (sending u))))) u; unsent_drop_sending f u)
      = Ok (f', u') ∧ sending u' = None) as Hload.
  { intros g v Hv. destruct (unsent_load g v) as [[r g'] v'] eqn:E.
    apply unsent_load_sending in E; [|done]. destruct (r <? 0); [by eauto|].
    destruct E as [c Hc]. by apply (Hgo g' v' c). }
  unfold unsent_send. destruct (sending u) as [c|] eqn:Hs; [|by apply Hload].
  destruct (file_exist f (unsent_end u)); [|rewrite <- Hs; by apply (Hgo f u c)].
  destruct (drop_sending_ok f u c Hs) as (f1 & u1 & -> & H1 & _). by apply Hload.
Qed.
