(* ===== verification/Storage.v ===== *)
(** src/storage.c: the list of packets the plugins fill and the storage routine
    posts.  The list and the plugins share the packets, so they live in a heap
    and are linked by their [next] pointers.  Here an operation is one
    step; Insert and Handoff have the accesses of several threads. *)
From Stdlib Require Import ZArith Ascii Lia SpecFloat.
From stdpp Require Import base list strings numbers gmap.
From S2P Require Import Prelude.
From S2P Require Import Clib.
From S2P Require Import Json.
From S2P Require Import Packet.
From S2P Require Import Sender.
From S2P Require Import Routine.
From S2P Require Import Unsent.

Local Open Scope Z_scope.

(** * Data *)

(** The static [packets] and the heap it points into. *)
Record store := Store { cells : heap; packets : option loc }.

Definition type_code (t : packet_type) : Z :=
  match t with METRIC => 0 | REGISTER => 1 | ALERT => 2 end.

(** * Operations *)

(** The fields [get_packet] resets before it hands a packet out again. *)
Definition recycle (t : packet_type) (p : packet_t) : packet_t :=
  set_spin 0 (set_attempt 0 (set_size 0 (set_response 0 (set_type t p)))).

(** The first loop of [get_packet]: the first DONE packet, made EMPTY.  A list
    of more cells than the heap has is a cycle, on which the loop never ends. *)
Fixpoint get_reused (fuel : nat) (t : packet_type) (h : heap) (l : option loc)
    : res (option (loc * heap)) :=
  match l with
  | None => Ok None
  | Some a =>
      match fuel with
      | O => Spins
      | S fuel =>
          do p <- deref h l;
          let '(r, p') := packet_change_state p DONE EMPTY in
          if r =? 0 then Ok (Some (a, <[a := recycle t p']> h))
          else get_reused fuel t h (next p)
      end
  end.

(** [get_packet]; [mem] is what [malloc] returns if it is called. *)
Definition get_packet (mem : option loc) (t : packet_type) (s : store)
    : res (option loc * store) :=
  do r <- get_reused (S (base.size (cells s))) t (cells s) (packets s);
  match r with
  | Some (a, h) => Ok (Some a, Store h (packets s))
  | None =>
      match packet_alloc mem (type_code t), packets s with
      | None, None => Ok (None, s)
      | Some (a, p), None => Ok (Some a, Store (<[a := p]> (cells s)) (Some a))
      | pkt, Some hd =>
          do head <- deref (cells s) (Some hd);
          if negb (spin head =? 0) then Spins
          else match pkt with
          | None => Ub NullDeref
          | Some (a, p) =>
              let h := <[a := set_next (Some hd) p]> (cells s) in
              Ok (Some a, Store (<[hd := set_spin 0 head]> h) (Some a))
          end
      end
  end.

(** [(delay << 1) | !(delay << 1)], stored in three bits. *)
Definition backoff (r : routine_t) : routine_t :=
  let d := Z.shiftl (delay r) 1 in
  set_delay (Z.lor d (b2z (d =? 0))) r.

Record storage_state := Storage { st : routine_t; snd_s : senders; sto : heap }.

(** The loop of [storage_main] from list position [l]. *)
Fixpoint storage_loop (fuel : nat) (net : network) (l : option loc) (s : storage_state)
    : res (Z * storage_state) :=
  match l with
  | None => Ok (0, s)
  | Some a =>
      match fuel with
      | O => Spins
      | S fuel =>
          do p <- deref (sto s) l;
          if bool_decide (state p = READY) then
            do r <- post net (snd_s s) p;
            let '(res, sd, p) := r in
            if res <? 0 then Ok (-1, Storage (backoff (st s)) sd (<[a := p]> (sto s)))
            else
              let r := set_delay 1 (st s) in
              let p := set_state DONE p in
              let r := set_tick (f32_of_Z (STORAGE_TICK * delay r)) r in
              storage_loop fuel net (next p) (Storage r sd (<[a := p]> (sto s)))
          else storage_loop fuel net (next p) s
      end
  end.

Definition storage_main (net : network) (pk : option loc) (s : storage_state)
    : res (Z * storage_state) :=
  storage_loop (S (base.size (sto s))) net pk s.

(** What [storage_init] sets up beside its routine. *)
Record storage_globals := Globals {
  gl_senders : senders;
  gl_packets : option loc;
  gl_fs : fs;
  gl_unsent : unsent_t
}.

Definition storage_init (pt : pthread_results) (hdr : bool) (mk : packet_type → option handle)
    (setopt : packet_type → copt → Z) (r : option routine_t) (g : storage_globals)
    : Z * option routine_t * storage_globals :=
  match routine_init pt r with
  | (z, Some r) =>
      if z <? 0 then (-1, Some r, g)
      else
        let r := set_tag (Some "storage") r in
        let '(_, sd) := sender_init (gl_senders g) hdr mk setopt in
        let '(_, f, u) := unsent_init (gl_fs g) (gl_unsent g) in
        let r := set_delay 1 r in
        let r := set_tick (f32_of_Z STORAGE_TICK) r in
        let r := set_task (Some storage_main_fn) r in
        (0, Some r, Globals sd None f u)
  | (_, None) => (-1, None, g)
  end.

(** The loop of [storage_fini]. *)
Fixpoint free_all (fuel : nat) (h : heap) (l : option loc) : res heap :=
  match l with
  | None => Ok h
  | Some a =>
      match fuel with
      | O => Spins
      | S fuel =>
          do p <- deref h l;
          do h <- packet_free h (Some a);
          free_all fuel h (next p)
      end
  end.

Definition storage_fini (s : store) (sd : senders) : res (Z * store * senders) :=
  do h <- free_all (S (base.size (cells s))) (cells s) (packets s);
  Ok (0, Store h None, snd (sender_fini sd)).

(** * The list *)

(** [chain h l ls]: following [next] from [l] visits the cells [ls] in order. *)
Fixpoint chain (h : heap) (l : option loc) (ls : list loc) : Prop :=
  match ls with
  | [] => l = None
  | a :: ls => l = Some a ∧ ∃ p, h !! a = Some p ∧ chain h (next p) ls
  end.

Create HintDb storage.

Lemma chain_ext h h' l ls :
  (∀ a, a ∈ ls → next <$> h' !! a = next <$> h !! a) → chain h l ls → chain h' l ls.
Proof.
  revert l. induction ls as [|a ls IH]; intros l Hn; simpl; [done|].
  intros (-> & p & Hp & Hc). split; [done|].
  pose proof (Hn a ltac:(by left)) as Ha. rewrite Hp in Ha. simpl in Ha.
  destruct (h' !! a) as [p'|] eqn:Hp'; [|done]. simpl in Ha. injection Ha as Ha.
  exists p'. split; [done|]. rewrite Ha. apply IH; [|done]. intros b Hb. apply Hn. by right.
Qed.

(** Changing a cell but not its link changes no list. *)
Lemma chain_update h l ls a p p' :
  h !! a = Some p → next p' = next p → chain h l ls → chain (<[a := p']> h) l ls.
Proof.
  intros Ha Hn. apply chain_ext. intros b _. rewrite lookup_insert.
  case_decide; [|done]. subst b. rewrite Ha. simpl. by rewrite Hn.
Qed.

Lemma chain_fresh h l ls a p : a ∉ ls → chain h l ls → chain (<[a := p]> h) l ls.
Proof.
  intros Ha. apply chain_ext. intros b Hb. rewrite lookup_insert_ne; [done|].
  by intros ->.
Qed.

Lemma chain_in h l ls a : chain h l ls → a ∈ ls → is_Some (h !! a).
Proof.
  revert l. induction ls as [|b ls IH]; intros l; simpl; [by intros _ ?%elem_of_nil|].
  intros (_ & p & Hp & Hc) [->|Hi]%elem_of_cons; [by eexists|by eapply IH].
Qed.

(** An acyclic list is no longer than the heap, which is why the fuel of the
    loops below is enough. *)
Lemma chain_bound h l ls : chain h l ls → NoDup ls → (length ls ≤ base.size h)%nat.
Proof.
  intros Hc Hn. rewrite <- size_dom.
  rewrite <- (size_list_to_set (C := gset loc) ls) by done.
  apply subseteq_size. intros a Ha%elem_of_list_to_set.
  apply elem_of_dom. by eapply chain_in.
Qed.

#[export] Hint Resolve chain_bound chain_update chain_fresh : storage.

Lemma get_reused_spec fuel t h l ls :
  chain h l ls → (length ls ≤ fuel)%nat →
  (∃ a p, a ∈ ls ∧ h !! a = Some p ∧ state p = DONE
     ∧ get_reused fuel t h l = Ok (Some (a, <[a := recycle t (set_state EMPTY p)]> h)))
  ∨ ((∀ a p, a ∈ ls → h !! a = Some p → state p ≠ DONE) ∧ get_reused fuel t h l = Ok None).
Proof.
  revert fuel l. induction ls as [|a ls IH]; intros fuel l Hc Hf.
  { right. simpl in Hc. subst l. split; [by intros ? ? ?%elem_of_nil|by destruct fuel]. }
  destruct Hc as (-> & p & Hp & Hc). destruct fuel as [|fuel]; simpl in Hf; [lia|].
  cbn [get_reused]. rewrite (deref_Some _ _ _ Hp). cbn [rbind]. unfold packet_change_state.
  destruct (decide (state p = DONE)) as [Hd|Hd].
  - rewrite bool_decide_true by done. simpl. left. exists a, p.
    split; [by left|]. split; [done|]. by split.
  - rewrite bool_decide_false by done. simpl.
    destruct (IH fuel (next p) Hc ltac:(lia)) as [(b & q & Hb & Hq & Hs & E)|[Hall E]].
    + left. exists b, q. split; [by right|]. by split.
    + right. split; [|done]. intros b q [->|Hb]%elem_of_cons Hq; [|by eapply Hall].
      by simplify_eq.
Qed.

(** ** What the storage routine sees of a packet *)

Abbreviation seen := (packet_state * packet_type * bytes)%type.

Definition see (p : packet_t) : seen := (state p, type p, cstr (payload p)).

Definition views (h : heap) (ls : list loc) (vs : list seen) : Prop :=
  Forall2 (λ a v, see <$> h !! a = Some v) ls vs.

(** The specification of [storage_main]: post what is READY, in list order, mark
    what was accepted, stop at the first failure. *)
Fixpoint drain (net : network) (vs : list seen) : Z * list seen :=
  match vs with
  | [] => (0, [])
  | (READY, t, b) :: vs =>
      if success (net t b) then let '(r, vs') := drain net vs in (r, (DONE, t, b) :: vs')
      else (-1, (READY, t, b) :: vs)
  | v :: vs => let '(r, vs') := drain net vs in (r, v :: vs')
  end.

Lemma views_frame h h' ls vs :
  (∀ a, a ∈ ls → h' !! a = h !! a) → views h ls vs → views h' ls vs.
Proof.
  intros Hf Hv. induction Hv as [|a v ls vs Ha _ IH]; constructor.
  - rewrite Hf by (by left). done.
  - apply IH. intros b Hb. apply Hf. by right.
Qed.

Lemma views_insert h ls vs a p :
  a ∉ ls → views h ls vs → views (<[a := p]> h) ls vs.
Proof.
  intros Ha. apply views_frame. intros b Hb. rewrite lookup_insert_ne; [done|]. by intros ->.
Qed.

Lemma drain_skip net v vs :
  v.1.1 ≠ READY → drain net (v :: vs) = (fst (drain net vs), v :: snd (drain net vs)).
Proof. destruct v as [[[] t] b]; simpl; intros H; try done; by destruct (drain net vs). Qed.

(** What [storage_main] needs of the senders and of the list. *)
Record drainable (net : network) (sd : senders) (h : heap) (ls : list loc) : Prop := {
  dr_codes : codes_fit net;
  dr_usable : ∀ t, usable sd t;
  dr_spin : ∀ a p, a ∈ ls → h !! a = Some p → spin p = 0
}.

(** The period of the storage routine, after any number of turns. *)
Definition steady (r r' : routine_t) : Prop :=
  tick r' = tick r ∨ tick r' = f32_of_Z STORAGE_TICK.

#[global] Instance steady_trans : Transitive steady.
Proof. intros r1 r2 r3 [H|H] [H'|H']; unfold steady; rewrite ?H', ?H; auto. Qed.

Record drained (s s' : storage_state) (l : option loc) (ls : list loc) (vs' : list seen) : Prop := {
  dd_views : views (sto s') ls vs';
  dd_frame : ∀ a, a ∉ ls → sto s' !! a = sto s !! a;
  dd_chain : chain (sto s') l ls;
  dd_senders : snd_s s' = snd_s s;
  dd_steady : steady (st s) (st s')
}.

Lemma drained_refl s l ls vs : views (sto s) ls vs → chain (sto s) l ls → drained s s l ls vs.
Proof. intros. split; try done. by left. Qed.

(** Putting the head cell back in front of a drained rest. *)
Lemma drained_cons s s1 s' a p p1 ls vs' :
  sto s !! a = Some p → a ∉ ls → next p1 = next p →
  sto s1 = <[a := p1]> (sto s) → snd_s s1 = snd_s s → steady (st s) (st s1) →
  drained s1 s' (next p) ls vs' → drained s s' (Some a) (a :: ls) (see p1 :: vs').
Proof.
  intros Ha Hn Hnx Hh Hsd Hst [Hv Hf Hc Hs Hstd].
  assert (sto s' !! a = Some p1) as Ha' by (rewrite Hf, Hh by done; apply lookup_insert_eq).
  split.
  - constructor; [by rewrite Ha'|done].
  - intros b [Hb Hbl]%not_elem_of_cons. rewrite Hf, Hh by done. by apply lookup_insert_ne.
  - split; [done|]. exists p1. rewrite Hnx. by split.
  - by rewrite Hs.
  - by transitivity (st s1).
Qed.

Lemma drainable_tail net sd h a p ls :
  drainable net sd h (a :: ls) → a ∉ ls → drainable net sd (<[a := p]> h) ls.
Proof.
  intros [Hc Hu Hs] Ha. split; [done..|]. intros b q Hb. rewrite lookup_insert_ne.
  - apply Hs. by right.
  - by intros ->.
Qed.

Lemma storage_loop_ok net ls : ∀ fuel l s vs,
  drainable net (snd_s s) (sto s) ls → chain (sto s) l ls → NoDup ls →
  (length ls ≤ fuel)%nat → views (sto s) ls vs →
  ∃ s', storage_loop fuel net l s = Ok (fst (drain net vs), s')
        ∧ drained s s' l ls (snd (drain net vs)).
Proof.
  induction ls as [|a ls IH]; intros fuel l s vs Hd Hc Hn Hf Hv.
  { inversion_clear Hv. simpl in Hc. subst l. exists s.
    split; [by destruct fuel|]. by apply drained_refl; [constructor|]. }
  destruct Hc as (-> & p & Hp & Hc). destruct fuel as [|fuel]; simpl in Hf; [lia|].
  inversion Hv as [|? v ? vs' Hpv Hv']; subst. rewrite Hp in Hpv. injection Hpv as <-.
  apply NoDup_cons in Hn as [Ha Hn].
  cbn [storage_loop]. rewrite (deref_Some _ _ _ Hp). cbn [rbind].
  pose proof (dr_spin _ _ _ _ Hd a p ltac:(by left) Hp) as Hsp.
  destruct (decide (state p = READY)) as [Hr|Hr].
  - rewrite bool_decide_true by done. unfold see at 1 2. rewrite Hr. cbn [drain].
    destruct (post_ready net (snd_s s) p) as (p' & -> & r & ->);
      [done..|by apply Hd|by apply Hd|]. cbn [rbind].
    destruct (success (net (type p) (cstr (payload p)))) eqn:Hok; simpl.
    + set (s1 := Storage _ _ _).
      edestruct (IH fuel (next p) s1 vs') as (s' & -> & Hd'); simpl.
      { by apply (drainable_tail _ _ _ a). }
      { by apply (chain_fresh _ _ _ a). }
      { done. }
      { lia. }
      { by apply views_insert. }
      exists s'. destruct (drain net vs') as [rr vs'']. split; [done|].
      by apply (drained_cons s s1 s' a p
        (set_state DONE (set_response r (set_attempt (attempt p + 1) p))) ls vs'' Hp Ha);
        try done; right.
    + eexists. split; [done|]. split; simpl.
      * constructor; [|by apply views_insert]. rewrite lookup_insert_eq. simpl.
        unfold see. simpl. by rewrite Hr.
      * intros b [Hb _]%not_elem_of_cons. by apply lookup_insert_ne.
      * split; [done|]. eexists. rewrite lookup_insert_eq. split; [done|].
        by apply chain_fresh.
      * done.
      * by left.
  - rewrite bool_decide_false by done. rewrite drain_skip by done. cbn [fst snd].
    destruct (IH fuel (next p) s vs') as (s' & E & Hd'); try done; [|lia|].
    { split; try apply Hd. intros b q Hb. apply Hd. by right. }
    exists s'. split; [done|].
    apply (drained_cons s s s' a p p ls _); try done; [|by left].
    by rewrite insert_id.
Qed.

(** Every loop over the list is bounded by the fuel; whatever it returns, the
    period of the storage routine is the one it had or [STORAGE_TICK]. *)
Lemma storage_loop_steady net fuel : ∀ l s r s',
  storage_loop fuel net l s = Ok (r, s') → steady (st s) (st s').
Proof.
  induction fuel as [|fuel IH]; intros [a|] s r s'; cbn [storage_loop]; try done.
  1,3: intros [= <- <-]; by left.
  intros H. inv_ok H. destruct (bool_decide _); [|by apply IH in H].
  inv_ok H. destruct v0 as [[rr sd] p]. destruct (rr <? 0).
  - injection H as <- <-. by left.
  - apply IH in H. transitivity (set_tick (f32_of_Z (STORAGE_TICK * 1)) (set_delay 1 (st s)));
      [by right|done].
Qed.

Lemma drain_accepted net t b vs :
  success (net t b) = true →
  drain net ((READY, t, b) :: vs) = (fst (drain net vs), (DONE, t, b) :: snd (drain net vs)).
Proof. intros H. cbn [drain]. rewrite H. by destruct (drain net vs). Qed.

Lemma drain_refused net t b vs :
  success (net t b) = false → drain net ((READY, t, b) :: vs) = (-1, (READY, t, b) :: vs).
Proof. intros H. cbn [drain]. by rewrite H. Qed.

(** What a complete turn makes of a packet. *)
Definition delivered (net : network) (v v' : seen) : Prop :=
  v' = (if bool_decide (v.1.1 = READY) then DONE else v.1.1, v.1.2, v.2)
  ∧ (v.1.1 = READY → success (net v.1.2 v.2) = true).

Lemma drain_done net vs :
  fst (drain net vs) = 0 → Forall2 (delivered net) vs (snd (drain net vs)).
Proof.
  induction vs as [|[[x t] b] vs IH]; [constructor|].
  destruct (decide (x = READY)) as [->|Hx].
  - destruct (success (net t b)) eqn:E.
    + rewrite drain_accepted by done. intros H. constructor; [|by apply IH]. by split.
    + rewrite drain_refused by done. by intros [=].
  - rewrite drain_skip by done. intros H. constructor; [|by apply IH].
    split; [by rewrite bool_decide_false|by intros [=]].
Qed.

Lemma free_all_ok ls : ∀ fuel h l,
  chain h l ls → NoDup ls → (length ls ≤ fuel)%nat →
  ∃ h', free_all fuel h l = Ok h' ∧ ∀ a, h' !! a = if decide (a ∈ ls) then None else h !! a.
Proof.
  induction ls as [|b ls IH]; intros fuel h l Hc Hn Hf.
  { simpl in Hc. subst l. exists h. split; [by destruct fuel|].
    intros a. by rewrite decide_False by apply not_elem_of_nil. }
  destruct Hc as (-> & p & Hp & Hc). destruct fuel as [|fuel]; simpl in Hf; [lia|].
  apply NoDup_cons in Hn as [Hb Hn]. cbn [free_all]. rewrite (deref_Some _ _ _ Hp). cbn [rbind].
  unfold packet_free. rewrite Hp. cbn [rbind].
  destruct (IH fuel (delete b h) (next p)) as (h' & -> & Hl); [|done|lia|].
  { eapply chain_ext; [|exact Hc]. intros a Ha. rewrite lookup_delete_ne; [done|]. by intros ->. }
  exists h'. split; [done|]. intros a. rewrite Hl. destruct (decide (a = b)) as [->|Hab].
  - rewrite (decide_True (P := b ∈ b :: ls)) by (by left). case_decide; [done|].
    apply lookup_delete_eq.
  - rewrite lookup_delete_ne by done. destruct (decide (a ∈ ls)).
    + by rewrite decide_True by (by right).
    + rewrite decide_False; [done|]. by intros [?|?]%elem_of_cons.
Qed.

(** The second half of [get_packet]: a new cell in front of the list. *)
Lemma new_cell s ls a t :
  chain (cells s) (packets s) ls → a ∉ ls → cells s !! a = None →
  (∀ b p, b ∈ ls → cells s !! b = Some p → spin p = 0 ∧ full p) →
  ∃ s' p,
    match packet_alloc (Some a) (type_code t), packets s with
    | None, None => Ok (None, s)
    | Some (a, p), None => Ok (Some a, Store (<[a := p]> (cells s)) (Some a))
    | pkt, Some hd =>
        do head <- deref (cells s) (Some hd);
        if negb (spin head =? 0) then Spins
        else match pkt with
        | None => Ub NullDeref
        | Some (a, p) =>
            let h := <[a := set_next (Some hd) p]> (cells s) in
            Ok (Some a, Store (<[hd := set_spin 0 head]> h) (Some a))
        end
    end = Ok (Some a, s')
    ∧ chain (cells s') (packets s') (a :: ls) ∧ cells s' !! a = Some p
    ∧ (∀ c, c ≠ a → cells s' !! c = cells s !! c) ∧ p = set_next (packets s) (zeroed t).
Proof.
  intros Hc Hal Ha Hall.
  assert (packet_alloc (Some a) (type_code t) = Some (a, zeroed t)) as -> by (by destruct t).
  destruct ls as [|hd ls].
  - simpl in Hc. rewrite Hc. eexists _, _. split; [done|]. simpl.
    rewrite lookup_insert_eq. split; [split; [done|]; by eexists|]. split; [done|].
    split; [|done]. intros c Hca. by apply lookup_insert_ne.
  - destruct Hc as (Hpk & head & Hhd & Hc). rewrite Hpk.
    destruct (Hall hd head ltac:(by left) Hhd) as [Hsp _].
    apply not_elem_of_cons in Hal as [Hahd Hals].
    rewrite (deref_Some _ _ _ Hhd). cbn [rbind]. rewrite Hsp. cbn [Z.eqb negb].
    set (na := set_next (Some hd) (zeroed t)).
    assert (<[hd := set_spin 0 head]> (<[a := na]> (cells s)) = <[a := na]> (cells s)) as Ehp.
    { rewrite insert_id; [done|]. rewrite lookup_insert_ne by done. rewrite Hhd.
      f_equal. destruct head; simpl in *. by subst. }
    rewrite Ehp. eexists _, na. split; [done|]. cbn [cells packets].
    rewrite lookup_insert_eq. split.
    { split; [done|]. exists na. split; [apply lookup_insert_eq|].
      split; [done|]. exists head. rewrite lookup_insert_ne by done. split; [done|].
      by apply chain_fresh. }
    split; [done|]. split; [|done]. intros c Hca. by apply lookup_insert_ne.
Qed.

(** * Properties *)

Lemma chain_views h l ls : chain h l ls → ∃ vs, views h ls vs.
Proof.
  revert l. induction ls as [|a ls IH]; intros l; simpl.
  - intros _. exists []. constructor.
  - intros (-> & p & Hp & Hc). destruct (IH _ Hc) as [vs Hv]. exists (see p :: vs).
    constructor; [by rewrite Hp|done].
Qed.

(** The turn of [storage_main] in the middle of a list: it ends with the result
    and the view that [drain] gives. *)
Lemma storage_main_ok net pk s ls vs :
  drainable net (snd_s s) (sto s) ls → chain (sto s) pk ls → NoDup ls → views (sto s) ls vs →
  ∃ s', storage_main net pk s = Ok (fst (drain net vs), s')
        ∧ drained s s' pk ls (snd (drain net vs)).
Proof.
  intros Hd Hc Hn Hv. apply storage_loop_ok; try done. pose proof (chain_bound _ _ _ Hc Hn). lia.
Qed.

(** A READY packet of the list, after a complete turn. *)
Lemma storage_main_accepts net pk s ls x t c s' :
  drainable net (snd_s s) (sto s) ls → chain (sto s) pk ls → NoDup ls → x ∈ ls →
  see <$> sto s !! x = Some (READY, t, c) → storage_main net pk s = Ok (0, s') →
  success (net t c) = true ∧ see <$> sto s' !! x = Some (DONE, t, c).
Proof.
  intros Hd Hc Hn Hx Hs Hr. destruct (chain_views _ _ _ Hc) as [vs Hv].
  destruct (storage_main_ok net pk s ls vs Hd Hc Hn Hv) as (s1 & E & [Hv1 _ _ _ _]).
  rewrite E in Hr. injection Hr as H0 ->. apply drain_done in H0.
  apply list_elem_of_lookup in Hx as [i Hi].
  destruct (Forall2_lookup_l _ _ _ _ _ Hv Hi) as (v & Hvi & Hxv).
  destruct (Forall2_lookup_l _ _ _ _ _ Hv1 Hi) as (v' & Hvi' & Hxv').
  destruct (Forall2_lookup_lr _ _ _ _ _ _ H0 Hvi Hvi') as [-> Hd']. rewrite Hs in Hxv.
  injection Hxv as <-. split; [by apply Hd'|done].
Qed.

(** A packet [b] handed out of the list [ls]: EMPTY, of type [t], with nothing
    written, and nothing else changed. *)
Record handed (s : store) (ls : list loc) (t : packet_type) (b : loc) (p : packet_t)
    (s' : store) (ls' : list loc) : Prop := {
  ha_chain : chain (cells s') (packets s') ls';
  ha_nodup : NoDup ls';
  ha_in : b ∈ ls';
  ha_cell : cells s' !! b = Some p;
  ha_state : state p = EMPTY;
  ha_type : type p = t;
  ha_text : begins p [];
  ha_attempt : attempt p = 0;
  ha_spin : spin p = 0;
  ha_frame : ∀ c, c ≠ b → cells s' !! c = cells s !! c;
  ha_list : if decide (ls' = ls) then ∃ q, cells s !! b = Some q ∧ state q = DONE
            else ls' = b :: ls ∧ ∀ c q, c ∈ ls → cells s !! c = Some q → state q ≠ DONE
}.

Lemma get_packet_ok s ls a t :
  chain (cells s) (packets s) ls → NoDup ls → cells s !! a = None →
  (∀ b p, b ∈ ls → cells s !! b = Some p → spin p = 0 ∧ full p) →
  ∃ b p s' ls', get_packet (Some a) t s = Ok (Some b, s') ∧ handed s ls t b p s' ls'.
Proof.
  intros Hc Hn Ha Hall. unfold get_packet.
  destruct (get_reused_spec (S (base.size (cells s))) t (cells s) (packets s) ls Hc)
    as [(b & q & Hb & Hq & Hs & ->)|[Hno ->]].
  { pose proof (chain_bound _ _ _ Hc Hn). lia. }
  - destruct (Hall b q Hb Hq) as [_ Hf].
    eexists b, _, _, ls. split; [done|].
    split; simpl; [by apply (chain_update _ _ _ b q)|done|done|apply lookup_insert_eq|done|done| |done|done| |].
    + by apply begins_nil.
    + intros c Hcb. by apply lookup_insert_ne.
    + rewrite decide_True by done. by exists q.
  - assert (a ∉ ls) as Hal by (intros Hi; destruct (chain_in _ _ _ _ Hc Hi); congruence).
    destruct (new_cell s ls a t Hc Hal Ha Hall) as (s' & p & E & Hch & Hp & Hfr & Hx).
    exists a, p, s', (a :: ls). cbn [rbind]. split; [exact E|]. subst p.
    split; [done|by apply NoDup_cons|by left|done|done|done| |done|done|done|].
    + apply begins_nil; [apply (zeroed_holds t)|done].
    + rewrite decide_False by (intros E'; apply (f_equal length) in E'; simpl in E'; lia). by split.
Qed.

(** C6. Refinement: on an acyclic list with free spin locks, [storage_main]
    terminates and does what the specification [drain] says, in list order: it
    returns [drain]'s code, leaves the list, the senders and every packet that
    is not on the list as they were, and shows [drain]'s packets. *)
Theorem storage_main_refines_drain net pk s ls vs :
  drainable net (snd_s s) (sto s) ls → chain (sto s) pk ls → NoDup ls → views (sto s) ls vs →
  ∃ s', storage_main net pk s = Ok (fst (drain net vs), s')
        ∧ drained s s' pk ls (snd (drain net vs)).
Proof.
  apply storage_main_ok.
Qed.

(** One READY alert packet on the list. *)
Definition one_packet : storage_state :=
  Storage (Routine true None (f32_of_Z STORAGE_TICK) 0 1 (Some storage_main_fn))
    open_senders {[1%positive := ready_packet]}.

Lemma one_packet_ok :
  drainable ok_network (snd_s one_packet) (sto one_packet) [1%positive]
  ∧ chain (sto one_packet) (Some 1%positive) [1%positive].
Proof.
  split; [split|].
  - intros t b. constructor.
  - apply open_senders_usable.
  - intros a p ->%list_elem_of_singleton. unfold one_packet. simpl.
    rewrite lookup_singleton_eq. by intros [= <-].
  - split; [done|]. exists ready_packet. split; [apply lookup_singleton_eq|done].
Qed.

Lemma one_packet_views : views (sto one_packet) [1%positive] [see ready_packet].
Proof. constructor; [|constructor]. unfold one_packet. simpl sto. by rewrite lookup_singleton_eq. Qed.

Lemma storage_main_refines_drain_witness :
  ∃ s', storage_main ok_network (Some 1%positive) one_packet = Ok (0, s')
        ∧ drained one_packet s' (Some 1%positive) [1%positive]
            [(DONE, ALERT, cstr (payload ready_packet))].
Proof.
  apply (storage_main_refines_drain ok_network (Some 1%positive) one_packet [1%positive]
           [see ready_packet]).
  - apply one_packet_ok.
  - apply one_packet_ok.
  - apply NoDup_singleton.
  - apply one_packet_views.
Defined.

(** Delivery: when [storage_main] returns 0 no packet of the list is READY
    any more, and every packet that was READY has been accepted by the server
    with exactly its text and is DONE; all others are as they were. *)
Theorem storage_main_delivers net pk s ls vs s' :
  drainable net (snd_s s) (sto s) ls → chain (sto s) pk ls → NoDup ls → views (sto s) ls vs →
  storage_main net pk s = Ok (0, s') →
  ∃ vs', views (sto s') ls vs'
    ∧ Forall2 (delivered net) vs vs'.
Proof.
  intros Hd Hc Hn Hv Hr.
  destruct (storage_main_ok net pk s ls vs Hd Hc Hn Hv) as (s1 & E & [Hv1 _ _ _ _]).
  rewrite E in Hr. injection Hr as H0 ->.
  eexists. split; [exact Hv1|]. by apply drain_done.
Qed.

Lemma storage_main_delivers_witness :
  ∃ s', storage_main ok_network (Some 1%positive) one_packet = Ok (0, s')
    ∧ ∃ vs', views (sto s') [1%positive] vs'
      ∧ Forall2 (delivered ok_network) [see ready_packet] vs'.
Proof.
  destruct (storage_loop_ok ok_network [1%positive] 2 (Some 1%positive) one_packet [see ready_packet])
    as (s' & E & _); [apply one_packet_ok|apply one_packet_ok|apply NoDup_singleton|simpl; lia| |].
  { apply one_packet_views. }
  exists s'. split; [exact E|].
  apply (storage_main_delivers ok_network (Some 1%positive) one_packet [1%positive]
           [see ready_packet] s'); [apply one_packet_ok|apply one_packet_ok|apply NoDup_singleton| |exact E].
  apply one_packet_views.
Defined.

(** What a turn makes of a packet it goes past: a READY one was accepted, and is
    DONE, with one attempt more and the response; any other is as it was. *)
Definition passed (net : network) (p p' : packet_t) : Prop :=
  if decide (state p = READY) then
    success (net (type p) (cstr (payload p))) = true
    ∧ ∃ r, p' = set_state DONE (set_response r (set_attempt (attempt p + 1) p))
  else p' = p.

(** The turn stopped at the packet [a] of [ls]. *)
Definition stopped (net : network) (h h' : heap) (ls : list loc) : Prop :=
  ∃ ls1 a ls2 p r, ls = ls1 ++ a :: ls2 ∧ h !! a = Some p ∧ state p = READY
    ∧ success (net (type p) (cstr (payload p))) = false
    ∧ h' !! a = Some (set_response r (set_attempt (attempt p + 1) p))
    ∧ (∀ b, b ∈ ls1 → ∃ q q', h !! b = Some q ∧ h' !! b = Some q' ∧ passed net q q')
    ∧ ∀ b, b ∉ ls1 ++ [a] → h' !! b = h !! b.

(** One packet further to the front, that was gone past. *)
Lemma stopped_cons net h h' a p p' ls :
  h !! a = Some p → passed net p p' → a ∉ ls → stopped net (<[a := p']> h) h' ls → stopped net h h' (a :: ls).
Proof.
  intros Hp Hpp Ha (ls1 & b & ls2 & q & r & -> & Hq & Hr & Hf & Hq' & H1 & H2).
  apply not_elem_of_app in Ha as [Ha1 [Hab Ha2]%not_elem_of_cons].
  exists (a :: ls1), b, ls2, q, r. rewrite lookup_insert_ne in Hq by done. do 5 (split; [done|]). split.
  - intros c [->|Hc]%elem_of_cons.
    + exists p, p'. split; [done|]. split; [|done]. rewrite H2; [apply lookup_insert_eq|].
      apply not_elem_of_app. split; [done|]. by apply not_elem_of_cons; split; [|apply not_elem_of_nil].
    + destruct (H1 c Hc) as (q0 & q1 & E0 & E1 & Hqq). exists q0, q1. split; [|done].
      rewrite lookup_insert_ne in E0; [done|by intros ->].
  - intros c Hc. rewrite <- app_comm_cons in Hc. apply not_elem_of_cons in Hc as [Hca Hc].
    rewrite H2 by done. by apply lookup_insert_ne.
Qed.

Lemma storage_loop_stops net ls : ∀ fuel l s s',
  drainable net (snd_s s) (sto s) ls → chain (sto s) l ls → NoDup ls →
  storage_loop fuel net l s = Ok (-1, s') → stopped net (sto s) (sto s') ls.
Proof.
  induction ls as [|a ls IH]; intros fuel l s s' Hd Hc Hn E.
  { simpl in Hc. subst l. by destruct fuel. }
  destruct Hc as (-> & p & Hp & Hc). destruct fuel as [|fuel]; [done|]. apply NoDup_cons in Hn as [Ha Hn].
  cbn [storage_loop] in E. rewrite (deref_Some _ _ _ Hp) in E. cbn [rbind] in E.
  pose proof (dr_spin _ _ _ _ Hd a p ltac:(by left) Hp) as Hsp.
  destruct (decide (state p = READY)) as [Hr|Hr].
  - rewrite bool_decide_true in E by done.
    destruct (post_ready net (snd_s s) p) as (p' & Ep & r & ->); [done..|by apply Hd|by apply Hd|].
    rewrite Ep in E. cbn [rbind] in E.
    destruct (success (net (type p) (cstr (payload p)))) eqn:Hok; simpl in E.
    + apply IH in E; [|by apply (drainable_tail _ _ _ a)|by apply (chain_fresh _ _ _ a)|done].
      apply (stopped_cons net _ _ a p _ _ Hp) in E; [done| |done].
      unfold passed. rewrite decide_True by done. by split; [|exists r].
    + injection E as <-. exists [], a, ls, p, r. do 4 (split; [done|]). split; [apply lookup_insert_eq|]. split.
      * by intros b ?%elem_of_nil.
      * intros b [Hb _]%not_elem_of_cons. by apply lookup_insert_ne.
  - rewrite bool_decide_false in E by done.
    apply (IH fuel (next p)) in E; [|split; try apply Hd; intros b q Hb; apply Hd; by right|done|done].
    apply (stopped_cons net _ _ a p p); [done|unfold passed; by rewrite decide_False|done|]. by rewrite insert_id.
Qed.

(** C30. A failed post stops the turn at the refused packet: every READY packet in
    front of it was accepted and is DONE; the refused one is READY as it was, its
    text included, but for the count of attempts and the response; and the packets
    behind it, like all that are not in the list, are as they were, field by
    field. *)
Theorem storage_main_stops net pk s ls s' :
  drainable net (snd_s s) (sto s) ls → chain (sto s) pk ls → NoDup ls →
  storage_main net pk s = Ok (-1, s') →
  ∃ ls1 a ls2 p r, ls = ls1 ++ a :: ls2 ∧ sto s !! a = Some p ∧ state p = READY
    ∧ success (net (type p) (cstr (payload p))) = false
    ∧ sto s' !! a = Some (set_response r (set_attempt (attempt p + 1) p))
    ∧ (∀ b, b ∈ ls1 → ∃ q q', sto s !! b = Some q ∧ sto s' !! b = Some q' ∧ passed net q q')
    ∧ ∀ b, b ∉ ls1 ++ [a] → sto s' !! b = sto s !! b.
Proof. intros Hd Hc Hn E. exact (storage_loop_stops net ls _ pk s s' Hd Hc Hn E). Qed.

Definition down_network : network := λ _ _, Transfer [] 7 0.

Lemma storage_main_stops_witness :
  ∃ s', storage_main down_network (Some 1%positive) one_packet = Ok (-1, s')
    ∧ ∃ ls1 a ls2 p r, [1%positive] = ls1 ++ a :: ls2 ∧ sto one_packet !! a = Some p ∧ state p = READY
      ∧ success (down_network (type p) (cstr (payload p))) = false
      ∧ sto s' !! a = Some (set_response r (set_attempt (attempt p + 1) p))
      ∧ (∀ b, b ∈ ls1 → ∃ q q', sto one_packet !! b = Some q ∧ sto s' !! b = Some q' ∧ passed down_network q q')
      ∧ ∀ b, b ∉ ls1 ++ [a] → sto s' !! b = sto one_packet !! b.
Proof.
  assert (drainable down_network (snd_s one_packet) (sto one_packet) [1%positive]) as Hd.
  { destruct one_packet_ok as [[_ ? ?] _]. split; [intros ? ?; constructor|done..]. }
  destruct (storage_loop_ok down_network [1%positive] 2 (Some 1%positive) one_packet [see ready_packet])
    as (s' & E & _); [done|apply one_packet_ok|apply NoDup_singleton|simpl; lia|apply one_packet_views|].
  exists s'. split; [exact E|].
  apply (storage_main_stops down_network (Some 1%positive) one_packet [1%positive] s');
    [done|apply one_packet_ok|apply NoDup_singleton|exact E].
Defined.

(** The backoff never slows the storage routine down: the delay grows
    1, 2, 4, then wraps to 0 in its three bits and starts again, and the period,
    once set by [storage_init], is 21 seconds after every turn, since a failed
    post returns before the period is assigned. *)
Theorem backoff_without_effect net pk s r s' :
  tick (st s) = f32_of_Z STORAGE_TICK → storage_main net pk s = Ok (r, s') →
  period (st s') = Some 21000
  ∧ ∀ r0, delay r0 = 1 →
      delay (backoff r0) = 2 ∧ delay (backoff (backoff r0)) = 4
      ∧ delay (backoff (backoff (backoff r0))) = 0
      ∧ delay (backoff (backoff (backoff (backoff r0)))) = 1.
Proof.
  intros Ht Hr. split.
  - apply storage_loop_steady in Hr as [Hs|Hs]; unfold period; rewrite Hs, ?Ht; by vm_compute.
  - intros r0 H0. unfold backoff. simpl. by rewrite H0.
Qed.

Lemma backoff_without_effect_witness :
  ∃ s', storage_main down_network (Some 1%positive) one_packet = Ok (-1, s')
    ∧ period (st s') = Some 21000
    ∧ ∀ r0, delay r0 = 1 →
        delay (backoff r0) = 2 ∧ delay (backoff (backoff r0)) = 4
        ∧ delay (backoff (backoff (backoff r0))) = 0
        ∧ delay (backoff (backoff (backoff (backoff r0)))) = 1.
Proof.
  assert (drainable down_network (snd_s one_packet) (sto one_packet) [1%positive]) as Hd.
  { destruct one_packet_ok as [[_ ? ?] _]. split; [intros ? ?; constructor|done..]. }
  destruct (storage_loop_ok down_network [1%positive] 2 (Some 1%positive) one_packet [see ready_packet])
    as (s' & E & _); [done|apply one_packet_ok|apply NoDup_singleton|simpl; lia|apply one_packet_views|].
  exists s'. split; [exact E|].
  apply (backoff_without_effect down_network (Some 1%positive) one_packet (-1) s'); [done|exact E].
Defined.

(** [get_packet] hands out an EMPTY packet of the type asked for with
    nothing written: a DONE packet of the list when there is one, else a new one
    that it puts in front of the list.  The list stays acyclic, and no other
    packet changes. *)
Theorem get_packet_gives_empty s ls a t :
  chain (cells s) (packets s) ls → NoDup ls → cells s !! a = None →
  (∀ b p, b ∈ ls → cells s !! b = Some p → spin p = 0 ∧ full p) →
  ∃ b p s' ls', get_packet (Some a) t s = Ok (Some b, s')
    ∧ chain (cells s') (packets s') ls' ∧ NoDup ls' ∧ b ∈ ls'
    ∧ cells s' !! b = Some p ∧ state p = EMPTY ∧ type p = t ∧ begins p [] ∧ attempt p = 0
    ∧ (∀ c, c ≠ b → cells s' !! c = cells s !! c)
    ∧ (if decide (ls' = ls) then ∃ q, cells s !! b = Some q ∧ state q = DONE
       else ls' = b :: ls ∧ ∀ c q, c ∈ ls → cells s !! c = Some q → state q ≠ DONE).
Proof.
  intros Hc Hn Ha Hall.
  destruct (get_packet_ok s ls a t Hc Hn Ha Hall) as (b & p & s' & ls' & E & []).
  by exists b, p, s', ls'.
Qed.

(** A list of one DONE packet, at address 1. *)
Definition done_store : store :=
  Store {[1%positive := set_state DONE (zeroed METRIC)]} (Some 1%positive).

Lemma get_packet_gives_empty_witness :
  ∃ b p s' ls', get_packet (Some 2%positive) METRIC done_store = Ok (Some b, s')
    ∧ chain (cells s') (packets s') ls' ∧ NoDup ls' ∧ b ∈ ls'
    ∧ cells s' !! b = Some p ∧ state p = EMPTY ∧ type p = METRIC ∧ begins p [] ∧ attempt p = 0
    ∧ (∀ c, c ≠ b → cells s' !! c = cells done_store !! c)
    ∧ (if decide (ls' = [1%positive]) then ∃ q, cells done_store !! b = Some q ∧ state q = DONE
       else ls' = b :: [1%positive]
            ∧ ∀ c q, c ∈ [1%positive] → cells done_store !! c = Some q → state q ≠ DONE).
Proof.
  apply (get_packet_gives_empty done_store [1%positive]).
  - split; [done|]. eexists. split; [apply lookup_singleton_eq|done].
  - apply NoDup_singleton.
  - by apply lookup_singleton_ne.
  - intros b p ->%list_elem_of_singleton. unfold done_store. simpl cells.
    rewrite lookup_singleton_eq. intros [= <-]. split; [done|]. apply (zeroed_holds METRIC).
Defined.

(** [storage_fini] frees every packet of the list exactly once, none of the
    others, and empties the list. *)
Theorem storage_fini_frees s ls sd :
  chain (cells s) (packets s) ls → NoDup ls →
  ∃ s', storage_fini s sd = Ok (0, s', snd (sender_fini sd)) ∧ packets s' = None
    ∧ ∀ a, cells s' !! a = if decide (a ∈ ls) then None else cells s !! a.
Proof.
  intros Hc Hn. unfold storage_fini.
  destruct (free_all_ok ls (S (base.size (cells s))) (cells s) (packets s)) as (h & -> & Hh);
    [done|done| |].
  { pose proof (chain_bound _ _ _ Hc Hn). lia. }
  simpl. by eexists.
Qed.

Lemma storage_fini_frees_witness :
  ∃ s', storage_fini done_store open_senders = Ok (0, s', snd (sender_fini open_senders))
    ∧ packets s' = None
    ∧ ∀ a, cells s' !! a = if decide (a ∈ [1%positive]) then None else cells done_store !! a.
Proof.
  apply (storage_fini_frees done_store [1%positive]).
  - split; [done|]. eexists. split; [apply lookup_singleton_eq|done].
  - apply NoDup_singleton.
Defined.
