(* ===== verification/Insert.v ===== *)
(** Concurrent insertions into the list of packets: the second half of
    [get_packet] (src/storage.c), one memory access per step, for any number of
    plugin threads. *)
From Stdlib Require Import ZArith Lia.
From stdpp Require Import base list numbers gmap sets.
From S2P Require Import Prelude.
From S2P Require Import Packet.

Module Race.

(** The list of packets as the insertion sees it: the static [packets], the
    [next] of every packet, and the packets whose [spin] is 1. *)
Record shared := Shared {
  packets : option loc;
  nexts : gmap loc (option loc);
  spins : gset loc
}.

(** Where a thread is; [h] is the packet whose [spin] is [head_lock]. *)
Inductive ipc :=
| Test                (* while(!packets) *)
| Cas                 (* __sync_bool_compare_and_swap(&packets, 0, pkt) *)
| Head                (* head_lock = &packets->spin *)
| Lock (h : loc)      (* __sync_bool_compare_and_swap(head_lock, 0, 1) *)
| Link (h : loc)      (* pkt->next = packets *)
| Push (h : loc)      (* packets = pkt *)
| Unlock (h : loc)    (* *head_lock = 0 *)
| Returned.

#[global] Instance ipc_eq_dec : EqDecision ipc.
Proof. solve_decision. Defined.

(** One step of the thread that inserts [a]; [None]: it goes round its loop. *)
Definition istep (a : loc) (pc : ipc) (s : shared) : res (option (ipc * shared)) :=
  let '(Shared hd nx sp) := s in
  match pc with
  | Test => Ok (Some (match hd with None => Cas | Some _ => Head end, s))
  | Cas =>
      Ok (Some (match hd with
                | None => (Returned, Shared (Some a) nx sp)
                | Some _ => (Test, s)
                end))
  | Head => do h <- of_opt NullDeref hd; Ok (Some (Lock h, s))
  | Lock h => Ok (if decide (h ∈ sp) then None else Some (Link h, Shared hd nx ({[h]} ∪ sp)))
  | Link h => Ok (Some (Push h, Shared hd (<[a := hd]> nx) sp))
  | Push h => Ok (Some (Unlock h, Shared (Some a) nx sp))
  | Unlock h => Ok (Some (Returned, Shared hd nx (sp ∖ {[h]})))
  | Returned => Ok None
  end.

(** The threads, each with the packet it inserts. *)
Abbreviation threads := (list (loc * ipc)).

(** One step of thread [i]; a thread that cannot move leaves things as they are. *)
Definition sched_step (i : nat) (c : threads * shared) : res (threads * shared) :=
  let '(ts, s) := c in
  match ts !! i with
  | None => Ok c
  | Some (a, pc) =>
      do r <- istep a pc s;
      match r with
      | None => Ok c
      | Some (pc, s) => Ok (<[i := (a, pc)]> ts, s)
      end
  end.

(** A schedule says who moves next. *)
Fixpoint sched_run (who : list nat) (c : threads * shared) : res (threads * shared) :=
  match who with
  | [] => Ok c
  | i :: who => do c <- sched_step i c; sched_run who c
  end.

(** * The list *)

Fixpoint is_list (nx : gmap loc (option loc)) (l : list loc) (hd : option loc) : Prop :=
  match l with
  | [] => hd = None
  | x :: l => hd = Some x ∧ ∃ n, nx !! x = Some n ∧ is_list nx l n
  end.

Lemma is_list_insert nx l hd a v : a ∉ l → is_list nx l hd → is_list (<[a := v]> nx) l hd.
Proof.
  revert hd. induction l as [|x l IH]; intros hd Ha; [done|]. cbn [is_list].
  rewrite not_elem_of_cons in Ha. destruct Ha as [Hx Ha]. intros [-> (n & Hn & Hl)]. split; [done|].
  exists n. rewrite lookup_insert_ne by done. split; [done|by apply IH].
Qed.

Lemma is_list_fun nx l l' hd : is_list nx l hd → is_list nx l' hd → l = l'.
Proof.
  revert l' hd. induction l as [|x l IH]; intros [|y l'] hd; cbn [is_list]; naive_solver.
Qed.

(** * Two threads *)

(** Sets of places, as tests. *)
Definition waits (pc : ipc) (h : loc) : bool :=
  match pc with Lock h' | Link h' | Push h' => bool_decide (h = h') | _ => false end.
Definition owns (pc : ipc) (h : loc) : bool :=
  match pc with Link h' | Push h' | Unlock h' => bool_decide (h = h') | _ => false end.
Definition placed (pc : ipc) : bool :=
  match pc with Unlock _ | Returned => true | _ => false end.
Definition linked (pc : ipc) : bool :=
  match pc with Push _ => true | _ => false end.
Definition past_test (pc : ipc) : bool :=
  match pc with Test | Cas => false | _ => true end.

(** What one thread relies on, the other being at [pc']. *)
Record side (a : loc) (pc pc' : ipc) (s : shared) (l : list loc) : Prop := {
  sd_stale : ∀ h, waits pc h = true → packets s = Some h ∨ placed pc' = true;
  sd_lock : ∀ h, owns pc h = true → h ∈ spins s ∧ owns pc' h = false;
  sd_link : placed pc = false →
    nexts s !! a = Some (if linked pc then packets s else None);
  sd_head : past_test pc = true → packets s ≠ None;
  sd_in : a ∈ l ↔ placed pc = true
}.

(** The list so far: the packets that have been inserted, in front of the old ones. *)
Record inv (l0 : list loc) (a b : loc) (pa pb : ipc) (s : shared) (l : list loc) : Prop := {
  iv_list : is_list (nexts s) l (packets s);
  iv_split : ∃ new, l = new ++ l0 ∧ NoDup new ∧ (∀ x, x ∈ new → x = a ∨ x = b);
  iv_spins : ∀ h, h ∈ spins s → owns pa h = true ∨ owns pb h = true;
  iv_a : side a pa pb s l;
  iv_b : side b pb pa s l
}.

Lemma inv_sym l0 a b pa pb s l : inv l0 a b pa pb s l → inv l0 b a pb pa s l.
Proof.
  intros [H1 (new & E & Hd & Hn) H3 H4 H5]. split; [done| |naive_solver|done|done].
  exists new. split; [done|]. split; [done|]. naive_solver.
Qed.

(** A step that changes nothing but the place of the thread. *)
Lemma inv_move l0 a b pa pa' pb s l :
  inv l0 a b pa pb s l → (∀ h, owns pa' h = owns pa h) → placed pa' = placed pa → linked pa' = linked pa →
  (∀ h, waits pa' h = true → packets s = Some h ∨ placed pb = true) →
  (past_test pa' = true → packets s ≠ None) →
  inv l0 a b pa' pb s l.
Proof.
  intros [H1 H2 H3 [] []] Ho Hp Hl Hw Ht. split; [done|done| | |].
  - intros h. rewrite Ho. apply H3.
  - split; [done| | |done|by rewrite Hp]; [intros h; rewrite Ho; auto|by rewrite Hp, Hl].
  - split; [by rewrite Hp| |done|done|done]. intros h. rewrite Ho. auto.
Qed.

Lemma inv_cas l0 a b pb nx sp l :
  a ≠ b → inv l0 a b Cas pb (Shared None nx sp) l → inv l0 a b Returned pb (Shared (Some a) nx sp) (a :: l).
Proof.
  intros Hab [H1 (new & -> & Hd & Hn) H3 [] []]. cbn [nexts packets spins] in *.
  assert (past_test pb = false) as Hb by (destruct (past_test pb); naive_solver).
  split; cbn [nexts packets spins].
  - split; [done|]. exists None. split; [by apply sd_link0|]. by destruct (new ++ l0) as [|? ?]; [|destruct H1].
  - exists (a :: new). split; [done|]. split.
    + constructor; [|done]. intros Hin. assert (a ∈ new ++ l0) as Hin' by (apply elem_of_app; by left).
      apply sd_in0 in Hin'. done.
    + intros x. rewrite elem_of_cons. naive_solver.
  - done.
  - split; cbn [nexts packets spins]; try done. rewrite elem_of_cons. naive_solver.
  - split; cbn [nexts packets spins]; try (by destruct pb).
    rewrite elem_of_cons, sd_in1. naive_solver.
Qed.

Lemma inv_lock l0 a b pb hd nx sp l h :
  h ∉ sp → inv l0 a b (Lock h) pb (Shared hd nx sp) l →
  inv l0 a b (Link h) pb (Shared hd nx ({[h]} ∪ sp)) l.
Proof.
  intros Hh [H1 H2 H3 [] []]. cbn [nexts packets spins waits owns placed linked past_test] in *.
  split; cbn [nexts packets spins]; [done|done| | |].
  - intros h'. rewrite elem_of_union, elem_of_singleton. intros [->|Hin]; [left; by apply bool_decide_eq_true|].
    destruct (H3 h' Hin); [done|by right].
  - split; cbn [nexts packets spins waits owns placed linked past_test]; try done.
    intros h' ->%bool_decide_eq_true. split; [set_solver|]. destruct (owns pb h) eqn:E; [|done].
    by destruct (sd_lock1 h E).
  - split; cbn [nexts packets spins waits owns placed linked past_test]; try done.
    intros h' Ho. destruct (sd_lock1 h' Ho) as [Hin _]. split; [set_solver|].
    apply bool_decide_eq_false. by intros ->.
Qed.

Lemma inv_link l0 a b pb hd nx sp l h :
  a ≠ b → inv l0 a b (Link h) pb (Shared hd nx sp) l →
  inv l0 a b (Push h) pb (Shared hd (<[a := hd]> nx) sp) l.
Proof.
  intros Hab [H1 H2 H3 [] []]. cbn [nexts packets spins waits owns placed linked past_test] in *.
  split; cbn [nexts packets spins]; [|done|done| |].
  - apply is_list_insert; [|done]. intros Hin. by apply sd_in0 in Hin.
  - split; cbn [nexts packets spins waits owns placed linked past_test]; try done.
    intros _. apply lookup_insert_eq.
  - split; cbn [nexts packets spins waits owns placed linked past_test]; try done.
    by rewrite lookup_insert_ne.
Qed.

Lemma inv_push l0 a b pb hd nx sp l h :
  a ≠ b → inv l0 a b (Push h) pb (Shared hd nx sp) l →
  inv l0 a b (Unlock h) pb (Shared (Some a) nx sp) (a :: l).
Proof.
  intros Hab [H1 (new & -> & Hd & Hn) H3 [] []]. cbn [nexts packets spins waits owns placed linked past_test] in *.
  assert (linked pb = false) as Hpb.
  { destruct pb as [| | |h'|h'|h'|h'|]; try done. exfalso.
    destruct (sd_stale1 h') as [E1|]; [by apply bool_decide_eq_true| |done].
    destruct (sd_stale0 h) as [E0|]; [by apply bool_decide_eq_true| |done]. simplify_eq.
    destruct (sd_lock0 h) as [_ E]; [by apply bool_decide_eq_true|]. by apply bool_decide_eq_false in E. }
  split; cbn [nexts packets spins].
  - split; [done|]. exists hd. split; [by apply sd_link0|done].
  - exists (a :: new). split; [done|]. split.
    + constructor; [|done]. intros Hin. assert (a ∈ new ++ l0) as Hin' by (apply elem_of_app; by left).
      apply sd_in0 in Hin'. done.
    + intros x. rewrite elem_of_cons. naive_solver.
  - done.
  - split; cbn [nexts packets spins waits owns placed linked past_test]; try done.
    rewrite elem_of_cons. naive_solver.
  - split; cbn [nexts packets spins waits owns placed linked past_test]; try done; [by right|..].
    + rewrite Hpb in *. done.
    + rewrite elem_of_cons, sd_in1. naive_solver.
Qed.

Lemma inv_unlock l0 a b pb hd nx sp l h :
  inv l0 a b (Unlock h) pb (Shared hd nx sp) l →
  inv l0 a b Returned pb (Shared hd nx (sp ∖ {[h]})) l.
Proof.
  intros [H1 H2 H3 [] []]. cbn [nexts packets spins waits owns placed linked past_test] in *.
  assert (owns pb h = false) as Hb by (apply sd_lock0; by apply bool_decide_eq_true).
  split; cbn [nexts packets spins]; [done|done| | |].
  - intros h' [Hin Hne]%elem_of_difference. destruct (H3 h' Hin) as [->%bool_decide_eq_true|]; [set_solver|by right].
  - split; cbn [nexts packets spins waits owns placed linked past_test]; try done.
  - split; cbn [nexts packets spins waits owns placed linked past_test]; try done.
    intros h' Ho. destruct (sd_lock1 h' Ho) as [Hin _]. split; [|done].
    apply elem_of_difference. split; [done|]. intros ->%elem_of_singleton. by rewrite Ho in Hb.
Qed.

Lemma step_first l0 a b pa pb s l pa' s' :
  a ≠ b → inv l0 a b pa pb s l → istep a pa s = Ok (Some (pa', s')) →
  ∃ l', inv l0 a b pa' pb s' l'.
Proof.
  intros Hab Hi. destruct s as [hd nx sp]. destruct pa as [| | |h|h|h|h|]; cbn [istep].
  - intros [= <- <-]. exists l. apply (inv_move _ _ _ Test); try done; by destruct hd.
  - destruct hd as [x|]; intros [= <- <-].
    + exists l. by apply (inv_move _ _ _ Cas).
    + exists (a :: l). by apply inv_cas.
  - destruct hd as [x|]; [|done]. intros [= <- <-]. exists l. apply (inv_move _ _ _ Head); try done.
    intros h ->%bool_decide_eq_true. by left.
  - case_decide as Hh; [done|]. intros [= <- <-]. exists l. by apply inv_lock.
  - intros [= <- <-]. exists l. by apply inv_link.
  - intros [= <- <-]. exists (a :: l). by apply (inv_push _ _ _ _ hd).
  - intros [= <- <-]. exists l. by apply inv_unlock.
  - done.
Qed.

(** No thread dereferences a NULL head. *)
Lemma step_defined l0 a b pa pb s l : inv l0 a b pa pb s l → ∃ r, istep a pa s = Ok r.
Proof.
  intros [_ _ _ [] _]. destruct s as [hd nx sp]. destruct pa; cbn [istep packets past_test] in *; eauto.
  destruct hd as [x|]; [by eexists|]. by destruct (sd_head0 eq_refl).
Qed.

(** Only a lock can keep a thread from moving, and then its owner moves. *)
Lemma blocked a pc s : istep a pc s = Ok None → pc = Returned ∨ ∃ h, pc = Lock h ∧ h ∈ spins s.
Proof.
  destruct s as [hd nx sp]. destruct pc as [| | |h|h|h|h|]; cbn [istep spins]; try done.
  - by destruct hd.
  - case_decide; [|done]. intros _. right. by exists h.
  - by left.
Qed.

Lemma owner_moves a pc s h : owns pc h = true → ∃ x, istep a pc s = Ok (Some x).
Proof. destruct s as [hd nx sp]. destruct pc; cbn [istep owns]; try done; intros _; by eexists. Qed.

Lemma someone_moves l0 a b pa pb s l :
  inv l0 a b pa pb s l →
  pa = Returned ∧ pb = Returned ∨ (∃ x, istep a pa s = Ok (Some x)) ∨ (∃ x, istep b pb s = Ok (Some x)).
Proof.
  intros Hi. destruct (step_defined l0 a b pa pb s l Hi) as [[x|] Ea]; [right; left; by exists x|].
  destruct (step_defined l0 b a pb pa s l (inv_sym _ _ _ _ _ _ _ Hi)) as [[x|] Eb]; [right; right; by exists x|].
  assert (∀ h, h ∈ spins s → ∃ x, istep a pa s = Ok (Some x) ∨ istep b pb s = Ok (Some x)) as Hown.
  { intros h Hh. destruct (iv_spins _ _ _ _ _ _ _ Hi h Hh) as [H|H].
    - destruct (owner_moves a pa s h H) as [x ?]. exists x. by left.
    - destruct (owner_moves b pb s h H) as [x ?]. exists x. by right. }
  destruct (blocked a pa s Ea) as [->|(h & -> & Hh)];
    [destruct (blocked b pb s Eb) as [->|(h & -> & Hh)]; [by left|]|];
    destruct (Hown h Hh) as [x [?|?]]; congruence.
Qed.

(** Two threads, in every interleaving. *)
Lemma run_inv l0 a b who pa pb s l :
  a ≠ b → inv l0 a b pa pb s l →
  ∃ pa' pb' s' l', sched_run who ([(a, pa); (b, pb)], s) = Ok ([(a, pa'); (b, pb')], s')
                   ∧ inv l0 a b pa' pb' s' l'.
Proof.
  intros Hab. revert pa pb s l. induction who as [|i who IH]; intros pa pb s l Hi; [by eauto 10|].
  cbn [sched_run]. unfold sched_step at 1. destruct i as [|[|i]].
  - change ([(a, pa); (b, pb)] !! 0) with (Some (a, pa)). cbv iota beta.
    destruct (step_defined l0 a b pa pb s l Hi) as [[[pa' s']|] E]; rewrite E; cbn [rbind]; [|by eapply IH].
    destruct (step_first l0 a b pa pb s l pa' s' Hab Hi E) as [l' Hi']. by eapply IH.
  - change ([(a, pa); (b, pb)] !! 1) with (Some (b, pb)). cbv iota beta. apply inv_sym in Hi.
    destruct (step_defined l0 b a pb pa s l Hi) as [[[pb' s']|] E]; rewrite E; cbn [rbind];
      [|apply inv_sym in Hi; by eapply IH].
    destruct (step_first l0 b a pb pa s l pb' s' (not_eq_sym Hab) Hi E) as [l' Hi'].
    apply inv_sym in Hi'. by eapply IH.
  - rewrite lookup_ge_None_2 by (simpl; lia). cbn [rbind]. by eapply IH.
Qed.

(** The list [l0] with no insertion under way. *)
Record at_rest (l0 : list loc) (s : shared) : Prop := {
  ar_list : is_list (nexts s) l0 (packets s);
  ar_spins : spins s = ∅
}.

Lemma inv_start l0 a b s :
  at_rest l0 s → a ∉ l0 → b ∉ l0 → nexts s !! a = Some None → nexts s !! b = Some None →
  inv l0 a b Test Test s l0.
Proof.
  intros [Hl Hs] Ha Hb Na Nb. split; [done| | | |].
  - exists []. split; [done|]. split; [constructor|]. by intros x ?%elem_of_nil.
  - intros h. rewrite Hs. by intros ?%not_elem_of_empty.
  - by split.
  - by split.
Qed.

Lemma inv_end l0 a b s l :
  a ≠ b → a ∉ l0 → b ∉ l0 → inv l0 a b Returned Returned s l → (l = a :: b :: l0 ∨ l = b :: a :: l0) ∧ at_rest l s.
Proof.
  intros Hab Ha Hb [Hl (new & -> & Hd & Hn) Hs [_ _ _ _ Ia] [_ _ _ _ Ib]]. split.
  - assert (a ∈ new) as Ha' by (destruct (proj1 (elem_of_app new l0 a) (proj2 Ia eq_refl)); done).
    assert (b ∈ new) as Hb' by (destruct (proj1 (elem_of_app new l0 b) (proj2 Ib eq_refl)); done).
    assert (new ≡ₚ [a; b]) as Hp.
    { apply NoDup_Permutation; [done| |].
      - apply NoDup_cons; split; [by rewrite list_elem_of_singleton|apply NoDup_singleton].
      - intros x. rewrite elem_of_cons, list_elem_of_singleton. split; [apply Hn|by intros [-> | ->]]. }
    symmetry in Hp. apply Permutation_length_2_inv in Hp as [-> | ->]; auto.
  - split; [done|]. apply set_eq. intros h. split; [|by intros ?%not_elem_of_empty].
    intros H. by destruct (Hs h H).
Qed.

(** C13. Two plugins that insert at the same time, in every interleaving of their
    memory accesses: no access goes wrong, one of them can always go on until both
    have returned, and then both packets are in front of the old ones and no lock
    is held. *)
Theorem two_insertions_safe who l0 a b s :
  at_rest l0 s → a ≠ b → a ∉ l0 → b ∉ l0 → nexts s !! a = Some None → nexts s !! b = Some None →
  ∃ pa pb s', sched_run who ([(a, Test); (b, Test)], s) = Ok ([(a, pa); (b, pb)], s')
    ∧ (pa = Returned → pb = Returned →
       ∃ l, (l = a :: b :: l0 ∨ l = b :: a :: l0) ∧ at_rest l s')
    ∧ (pa = Returned ∧ pb = Returned
       ∨ (∃ x, istep a pa s' = Ok (Some x)) ∨ (∃ x, istep b pb s' = Ok (Some x))).
Proof.
  intros Hr Hab Ha Hb Na Nb.
  destruct (run_inv l0 a b who Test Test s l0 Hab (inv_start l0 a b s Hr Ha Hb Na Nb))
    as (pa & pb & s' & l & E & Hi). exists pa, pb, s'. split; [done|]. split.
  - intros -> ->. destruct (inv_end l0 a b s' l Hab Ha Hb Hi) as [H1 H2]. by exists l.
  - by apply (someone_moves l0 a b pa pb s' l).
Qed.

(** ** Witnesses *)

(** A list of one packet, and packets 2, 3 and 4 to be inserted. *)
Definition one_packet : shared :=
  Shared (Some 1%positive) {[1%positive := None; 2%positive := None; 3%positive := None; 4%positive := None]} ∅.

Lemma one_packet_rest : at_rest [1%positive] one_packet.
Proof. split; [|done]. split; [done|]. by exists None. Qed.

Lemma two_insertions_safe_witness :
  ∃ pa pb s', sched_run (replicate 6 0%nat ++ replicate 6 1%nat)
      ([(2%positive, Test); (3%positive, Test)], one_packet) = Ok ([(2%positive, pa); (3%positive, pb)], s')
    ∧ pa = Returned ∧ pb = Returned
    ∧ ∃ l, (l = [2; 3; 1]%positive ∨ l = [3; 2; 1]%positive) ∧ at_rest l s'.
Proof.
  destruct (two_insertions_safe (replicate 6 0%nat ++ replicate 6 1%nat) [1%positive] 2%positive 3%positive one_packet)
    as (pa & pb & s' & E & Hdone & _);
    [apply one_packet_rest|done|by rewrite list_elem_of_singleton|by rewrite list_elem_of_singleton|done|done|].
  assert (pa = Returned ∧ pb = Returned) as [-> ->].
  { vm_compute in E. by injection E as <- <- _. }
  exists Returned, Returned, s'. split; [exact E|]. split; [done|]. split; [done|]. by apply Hdone.
Defined.

(** Three insertions are one too many: a thread that read the head before another
    one replaced it takes the lock of a packet that is no longer the first, while
    a third takes the lock of the one that is.  Both link to the same packet, and
    one of the two new packets is not on the list: it is never sent. *)
Theorem three_insertions_lose_packet :
  ∃ who s', sched_run who ([(2%positive, Test); (3%positive, Test); (4%positive, Test)], one_packet)
      = Ok ([(2%positive, Returned); (3%positive, Returned); (4%positive, Returned)], s')
    ∧ at_rest [4; 2; 1]%positive s'.
Proof.
  exists ([1; 1] ++ replicate 6 0 ++ [2; 2; 2; 1] ++ [1; 2] ++ [1; 2] ++ [1; 2])%nat.
  eexists. split; [by vm_compute|]. split; [|by vm_compute].
  split; [done|]. exists (Some 2%positive). split; [done|]. split; [done|]. exists (Some 1%positive).
  split; [done|]. split; [done|]. by exists None.
Qed.

(** A thread that is not disturbed does what [get_packet] does in one step. *)
Lemma insert_alone a s :
  spins s = ∅ → is_Some (packets s) →
  sched_run (replicate 6 0%nat) ([(a, Test)], s)
  = Ok ([(a, Returned)], Shared (Some a) (<[a := packets s]> (nexts s)) ∅).
Proof.
  intros Hs [h Hh]. destruct s as [hd nx sp]. cbn [spins packets nexts] in *. subst.
  cbn -[union difference]. rewrite decide_False by apply not_elem_of_empty. cbn -[union difference].
  do 3 f_equal. set_solver.
Qed.
End Race.
