(* ===== verification/Handoff.v ===== *)
(** The packets between the plugins and the storage routine, one memory access per
    step, for any number of plugin threads: the whole of [get_packet] and
    [storage_main] (src/storage.c), [packet_fetch] and [packet_change_state]
    (src/packet.c), [post] (src/sender.c), and what [plugin_gather]
    (src/plugin.c) does to the state of its packet. *)
From Stdlib Require Import ZArith Ascii Lia.
From stdpp Require Import base list strings numbers gmap sets.
From S2P Require Import Prelude.
From S2P Require Import Packet.
From S2P Require Import Storage.

Local Open Scope Z_scope.

Module Handoff.

(** * Threads *)

(** What the server is sent: the type of a packet, which selects the address, and
    the text of its payload. *)
Abbreviation body := (packet_type * bytes)%type.

Definition body_of (p : packet_t) : body := (type p, cstr (payload p)).

(** The shared memory: the packets and the static [packets]. *)
Record shm := Shm { mem : heap; first : option loc }.

(** The fields that [get_packet] resets, in its order. *)
Inductive pkt_field := FType | FResponse | FSize | FAttempt | FSpin.

Definition reset_fields : list pkt_field := [FType; FResponse; FSize; FAttempt; FSpin].

Definition reset (f : pkt_field) : packet_t → packet_t :=
  match f with
  | FType => set_type METRIC
  | FResponse => set_response 0
  | FSize => set_size 0
  | FAttempt => set_attempt 0
  | FSpin => set_spin 0
  end.

(** Where a plugin thread is.  [a] is the packet it has got, [h] the one whose
    [spin] is [head_lock]. *)
Inductive plug_pc :=
| Idle                            (* p->working is NULL: get_packet is called *)
| Scan (l : option loc)           (* the test of the loop, and the compare-and-swap *)
| Next (a : loc)                  (* pkt = pkt->next *)
| Reset (a : loc) (fs : list pkt_field)
| Alloc                           (* packet_alloc *)
| ITest (a : loc)                 (* while(!packets) *)
| ICas (a : loc)                  (* the compare-and-swap of packets *)
| IHead (a : loc)                 (* head_lock = &packets->spin *)
| ILock (a h : loc)
| ILink (a h : loc)               (* pkt->next = packets *)
| IPush (a h : loc)               (* packets = pkt *)
| IUnlock (a h : loc)
| Hold (a : loc).                 (* p->working is a *)

(** The fields that filling a packet writes. *)
Record filling := Filling { f_started : Z; f_size : Z; f_rollback : Z; f_payload : bytes }.

Definition fill (d : filling) (p : packet_t) : packet_t :=
  set_started (f_started d) (set_size (f_size d)
    (set_rollback_point (f_rollback d) (set_payload (f_payload d) p))).

(** What the surroundings of a plugin thread decide: the block that [malloc]
    returns, what the plugin writes and when it changes the state. *)
Inductive move :=
| Go
| Malloc (a : loc)
| Fill (d : filling)
| Mark                            (* EMPTY to BEGIN, BEGIN to WROTE *)
| Close.                          (* the packet has expired *)

(** [*a = f( *a)] *)
Definition upd (a : loc) (f : packet_t → packet_t) (s : shm) : res shm :=
  do p <- deref (mem s) (Some a); Ok (Shm (<[a := f p]> (mem s)) (first s)).

Definition alone {A B} (x : A) (m : res B) : res (option (A * B * list body)) :=
  do b <- m; Ok (Some (x, b, [])).

(** One access of a plugin thread, with the bodies it hands over; [None]: it
    cannot make this move (in [ILock]: it goes round its loop).  Two things are not
    in this model: [packet_alloc] gives memory (where malloc returns NULL,
    [get_packet] uses it, see [get_packet] in Storage.v), and what a plugin writes
    into its own packet is one move, [Fill], with a terminator somewhere in the
    payload (overruns are in Packet.v). *)
Definition pstep (m : move) (pc : plug_pc) (s : shm) : res (option (plug_pc * shm * list body)) :=
  match pc, m with
  | Idle, Go => Ok (Some (Scan (first s), s, []))
  | Scan None, Go => Ok (Some (Alloc, s, []))
  | Scan (Some a), Go =>
      do p <- deref (mem s) (Some a);
      let '(r, p') := packet_change_state p DONE EMPTY in
      if r =? 0 then Ok (Some (Reset a reset_fields, Shm (<[a := p']> (mem s)) (first s), []))
      else Ok (Some (Next a, s, []))
  | Next a, Go => do p <- deref (mem s) (Some a); Ok (Some (Scan (next p), s, []))
  | Reset a [], Go => Ok (Some (Hold a, s, []))
  | Reset a (f :: fs), Go => alone (Reset a fs) (upd a (reset f) s)
  | Alloc, Malloc a =>
      if decide (mem s !! a = None) then
        match packet_alloc (Some a) (type_code METRIC) with
        | Some (a, p) => Ok (Some (ITest a, Shm (<[a := p]> (mem s)) (first s), []))
        | None => Ok None
        end
      else Ok None
  | ITest a, Go => Ok (Some (match first s with None => ICas a | Some _ => IHead a end, s, []))
  | ICas a, Go =>
      Ok (Some (match first s with
                | None => (Hold a, Shm (mem s) (Some a), [])
                | Some _ => (ITest a, s, [])
                end))
  | IHead a, Go => do h <- of_opt NullDeref (first s); Ok (Some (ILock a h, s, []))
  | ILock a h, Go =>
      do p <- deref (mem s) (Some h);
      if spin p =? 0 then alone (ILink a h) (upd h (set_spin 1) s) else Ok None
  | ILink a h, Go => alone (IPush a h) (upd a (set_next (first s)) s)
  | IPush a h, Go => Ok (Some (IUnlock a h, Shm (mem s) (Some a), []))
  | IUnlock a h, Go => alone (Hold a) (upd h (set_spin 0) s)
  | Hold a, Fill d =>
      if decide (NUL ∈ f_payload d) then alone (Hold a) (upd a (fill d) s) else Ok None
  | Hold a, Mark =>
      do p <- deref (mem s) (Some a);
      match state p with
      | EMPTY => alone (Hold a) (upd a (set_state BEGIN) s)
      | BEGIN => alone (Hold a) (upd a (set_state WROTE) s)
      | _ => Ok None
      end
  | Hold a, Close =>
      do p <- deref (mem s) (Some a);
      if bool_decide (state p = WROTE) then
        do s <- upd a (set_state READY) s; Ok (Some (Idle, s, [body_of p]))
      else alone Idle (upd a (set_state DONE) s)
  | _, _ => Ok None
  end.

(** Where the storage thread is; [sent] is what has been read of the payload.  The
    lock of the metric sender is left out: only this thread takes it. *)
Inductive spc :=
| SIdle                           (* between two calls of storage_main *)
| SVisit (l : option loc)         (* the test of the loop, pkt->state == READY *)
| SAttempt (a : loc)              (* post: pkt->attempt++ *)
| SFetch (a : loc)                (* packet_fetch: the lock *)
| SRead (a : loc)                 (* packet_fetch: pkt->state==READY *)
| SUnlock (a : loc) (ready : bool)
| SSend (a : loc) (sent : bytes)  (* curl_easy_perform reads the payload *)
| SWait (a : loc) (sent : bytes)  (* ... and waits for the server *)
| SDone (a : loc)                 (* pkt->state = DONE *)
| SNext (a : loc).                (* pkt = pkt->next *)

(** What the network decides: what [callback] stores, if it is called, and
    whether the transfer succeeded. *)
Record reply := Reply { r_response : option Z; r_ok : bool }.

(** One access of the storage thread, with the bodies the server accepted. *)
Definition sstep (r : reply) (pc : spc) (s : shm) : res (option (spc * shm * list body)) :=
  match pc with
  | SIdle => Ok (Some (SVisit (first s), s, []))
  | SVisit None => Ok (Some (SIdle, s, []))
  | SVisit (Some a) =>
      do p <- deref (mem s) (Some a);
      Ok (Some (if bool_decide (state p = READY) then SAttempt a else SNext a, s, []))
  | SAttempt a => alone (SFetch a) (upd a (λ p, set_attempt (attempt p + 1) p) s)
  | SFetch a =>
      do p <- deref (mem s) (Some a);
      if spin p =? 0 then alone (SRead a) (upd a (set_spin 1) s) else Ok None
  | SRead a =>
      do p <- deref (mem s) (Some a);
      Ok (Some (SUnlock a (bool_decide (state p = READY)), s, []))
  | SUnlock a ready => alone (if ready then SSend a [] else SIdle) (upd a (set_spin 0) s)
  | SSend a sent =>
      do p <- deref (mem s) (Some a);
      do c <- of_opt OutOfBounds (payload p !! length sent);
      Ok (Some (if Ascii.eqb c NUL then SWait a sent else SSend a (sent ++ [c]), s, []))
  | SWait a sent =>
      do p <- deref (mem s) (Some a);
      do s <- upd a (λ p, set_response (default (response p) (r_response r)) p) s;
      Ok (Some (if r_ok r then (SDone a, s, [(type p, sent)]) else (SIdle, s, [])))
  | SDone a => alone (SNext a) (upd a (set_state DONE) s)
  | SNext a => do p <- deref (mem s) (Some a); Ok (Some (SVisit (next p), s, []))
  end.

(** Everything: the threads, the memory, and what was handed over and accepted. *)
Record config := Config {
  plugins : list plug_pc;
  storage : spc;
  memory : shm;
  handed : list body;
  accepted : list body
}.

(** Who moves next. *)
Inductive act := Plug (i : nat) (m : move) | Stor (r : reply).

#[global] Instance filling_eq_dec : EqDecision filling.
Proof. solve_decision. Defined.
#[global] Instance move_eq_dec : EqDecision move.
Proof. solve_decision. Defined.
#[global] Instance reply_eq_dec : EqDecision reply.
Proof. solve_decision. Defined.
#[global] Instance act_eq_dec : EqDecision act.
Proof. solve_decision. Defined.

Definition hstep (a : act) (c : config) : res config :=
  match a with
  | Plug i m =>
      match plugins c !! i with
      | None => Ok c
      | Some pc =>
          do r <- pstep m pc (memory c);
          Ok (match r with
              | None => c
              | Some (pc, s, bs) => Config (<[i := pc]> (plugins c)) (storage c) s (bs ++ handed c) (accepted c)
              end)
      end
  | Stor r =>
      do x <- sstep r (storage c) (memory c);
      Ok (match x with
          | None => c
          | Some (pc, s, bs) => Config (plugins c) pc s (handed c) (bs ++ accepted c)
          end)
  end.

Fixpoint hrun (l : list act) (c : config) : res config :=
  match l with
  | [] => Ok c
  | a :: l => do c <- hstep a c; hrun l c
  end.

Lemma run_app l l' c : hrun (l ++ l') c = rbind (hrun l c) (hrun l').
Proof.
  revert c. induction l as [|a l IH]; intros c; cbn; [done|]. destruct (hstep a c); cbn; [apply IH|done|done].
Qed.

(** [n] plugins before their first packet. *)
Definition hstart (n : nat) : config := Config (replicate n Idle) SIdle (Shm ∅ None) [] [].

(** The resets are those of the sequential model. *)
Lemma reset_recycle p : foldl (λ p f, reset f p) p reset_fields = recycle METRIC p.
Proof. done. Qed.

(** * Collecting over the heap *)

Section collect.
Context {A : Type}.
Implicit Types (f : loc * packet_t → option A) (h : heap).

Definition collect f h : list A := omap f (map_to_list h).

Lemma collect_split f h a p :
  h !! a = Some p → collect f h ≡ₚ option_list (f (a, p)) ++ collect f (delete a h).
Proof.
  intros Ha. unfold collect. rewrite <- (map_to_list_delete h a p Ha). cbn. by destruct (f (a, p)).
Qed.

Lemma collect_insert f h a p :
  collect f (<[a := p]> h) ≡ₚ option_list (f (a, p)) ++ collect f (delete a h).
Proof. rewrite (collect_split f _ a p) by apply lookup_insert_eq. by rewrite delete_insert_eq. Qed.

Lemma collect_fresh f h a p :
  h !! a = None → collect f (<[a := p]> h) ≡ₚ option_list (f (a, p)) ++ collect f h.
Proof. intros Ha. by rewrite collect_insert, (delete_id h a Ha). Qed.

Lemma collect_same f h a p p' :
  h !! a = Some p → f (a, p') = f (a, p) → collect f (<[a := p']> h) ≡ₚ collect f h.
Proof. intros Ha Hf. by rewrite collect_insert, Hf, <- collect_split. Qed.

Lemma collect_ext f g h : (∀ a p, h !! a = Some p → f (a, p) = g (a, p)) → collect f h = collect g h.
Proof.
  intros H. unfold collect. assert (Forall (λ x, f x = g x) (map_to_list h)) as Hall.
  { apply list.Forall_forall. intros [a p] Hx%elem_of_map_to_list. by apply H. }
  induction Hall as [|x l Hx _ IH]; [done|]. cbn. by rewrite Hx, IH.
Qed.
End collect.

(** * Who has what *)

(** The packet a thread has got and not given away. *)
Definition holder (pc : plug_pc) : option loc :=
  match pc with
  | Reset a _ | ITest a | ICas a | IHead a | ILock a _ | ILink a _ | IPush a _ | IUnlock a _
  | Hold a => Some a
  | _ => None
  end.

Definition held (ts : list plug_pc) : list loc := omap holder ts.

Definition filled (st : packet_state) : bool :=
  match st with EMPTY | BEGIN | WROTE => true | _ => false end.

Definition fill_at (x : loc * packet_t) : option loc := if filled (state x.2) then Some x.1 else None.

(** The packet that was accepted and is not DONE yet. *)
Definition posted (sp : spc) : option loc := match sp with SDone a => Some a | _ => None end.

(** What has been handed over and that the server has not accepted: the READY packets
    in memory, also one that is on no list any more (HandoffLost.v) and that the
    storage thread will therefore never see. *)
Definition wait_at (sp : spc) (x : loc * packet_t) : option body :=
  if bool_decide (state x.2 = READY ∧ posted sp ≠ Some x.1) then Some (body_of x.2) else None.

Definition waiting (c : config) : list body := collect (wait_at (storage c)) (mem (memory c)).

(** The published packets, newest first: each links to an older one. *)
Definition opt_in (l : option loc) (pub : list loc) : Prop :=
  match l with None => True | Some a => a ∈ pub end.

Fixpoint linked (h : heap) (pub : list loc) : Prop :=
  match pub with
  | [] => True
  | a :: pub => (a ∉ pub) ∧ (∃ n, next <$> h !! a = Some n ∧ opt_in n pub) ∧ linked h pub
  end.

Definition first_ok (l : option loc) (pub : list loc) : Prop :=
  match l with None => pub = [] | Some a => a ∈ pub end.

Definition fresh (pub : list loc) (h : heap) (a : loc) : Prop :=
  (a ∉ pub) ∧ next <$> h !! a = Some None.

Definition pc_ok (pub : list loc) (h : heap) (pc : plug_pc) : Prop :=
  match pc with
  | Scan l => opt_in l pub
  | Next a | Reset a _ => a ∈ pub
  | ITest a | ICas a => fresh pub h a
  | IHead a => fresh pub h a ∧ pub ≠ []
  | ILock a h' | ILink a h' => fresh pub h a ∧ h' ∈ pub
  | IPush a h' => (a ∉ pub) ∧ h' ∈ pub ∧ ∃ n, next <$> h !! a = Some n ∧ opt_in n pub
  | IUnlock a h' => h' ∈ pub
  | _ => True
  end.

(** The packet the storage thread posts is READY, and what was read of its payload
    is still there. *)
Definition sending (pub : list loc) (h : heap) (a : loc) (Q : bytes → Prop) : Prop :=
  a ∈ pub ∧ ∃ p, h !! a = Some p ∧ state p = READY ∧ Q (payload p).

Definition spc_ok (pub : list loc) (h : heap) (sp : spc) : Prop :=
  match sp with
  | SIdle => True
  | SVisit l => opt_in l pub
  | SNext a => a ∈ pub
  | SAttempt a | SFetch a | SRead a | SDone a => sending pub h a (λ _, True)
  | SUnlock a ready => ready = true ∧ sending pub h a (λ _, True)
  | SSend a sent => sending pub h a (λ b, no_nul sent ∧ ∃ rest, b = sent ++ rest)
  | SWait a sent => sending pub h a (λ b, cstr b = sent)
  end.

Record inv (pub : list loc) (c : config) : Prop := {
  v_own : held (plugins c) ≡ₚ collect fill_at (mem (memory c));
  v_list : linked (mem (memory c)) pub;
  v_first : first_ok (first (memory c)) pub;
  v_plugins : Forall (pc_ok pub (mem (memory c))) (plugins c);
  v_storage : spc_ok pub (mem (memory c)) (storage c);
  v_nul : map_Forall (λ _ p, NUL ∈ payload p) (mem (memory c));
  v_log : handed c ≡ₚ accepted c ++ waiting c
}.

Lemma start_inv n : inv [] (hstart n).
Proof.
  assert (held (replicate n Idle) = []) as Hh by (induction n; done).
  split; cbn; try done; [by unfold held in Hh; rewrite Hh|]. by apply Forall_replicate.
Qed.

(** ** Consequences *)

Lemma nodup_fill h : NoDup (collect fill_at h).
Proof.
  unfold collect. pose proof (NoDup_fst_map_to_list h) as H. revert H.
  induction (map_to_list h) as [|[a p] l IH]; cbn; [done|]. intros [Ha Hl]%NoDup_cons.
  unfold fill_at at 1. cbn [fst snd]. destruct (filled (state p)); [|by apply IH]. apply NoDup_cons. split; [|by apply IH].
  intros Hin. apply Ha. apply list_elem_of_omap in Hin as ([b q] & Hb & Hf). unfold fill_at in Hf. cbn in Hf.
  destruct (filled (state q)); [|done]. injection Hf as <-. apply list_elem_of_fmap. by exists (b, q).
Qed.

Lemma elem_of_fill h a : a ∈ collect fill_at h ↔ ∃ p, h !! a = Some p ∧ filled (state p) = true.
Proof.
  unfold collect. rewrite list_elem_of_omap. unfold fill_at. split.
  - intros ([b p] & Hb%elem_of_map_to_list & Hf). cbn in Hf. destruct (filled (state p)) eqn:E; [|done].
    injection Hf as <-. by exists p.
  - intros (p & Hp & Hf). exists (a, p). rewrite elem_of_map_to_list. cbn. by rewrite Hf.
Qed.

Lemma linked_in h pub a : linked h pub → a ∈ pub → ∃ p, h !! a = Some p ∧ opt_in (next p) pub.
Proof.
  induction pub as [|b pub IH]; [by intros _ ?%elem_of_nil|]. cbn [linked].
  assert (∀ n, opt_in n pub → opt_in n (b :: pub)) as Hs by (intros [?|]; [by right|done]).
  intros (_ & (n & Hn & Ho) & Hl) [->|Ha]%elem_of_cons.
  - apply fmap_Some in Hn as (p & Hp & ->). exists p. auto.
  - destruct (IH Hl Ha) as (p & Hp & Hop). exists p. auto.
Qed.

Lemma linked_ext h h' pub :
  (∀ a, a ∈ pub → next <$> h' !! a = next <$> h !! a) → linked h pub → linked h' pub.
Proof.
  induction pub as [|a pub IH]; [done|]. cbn [linked]. intros He (Ha & Hn & Hl).
  rewrite He by (by left). split; [done|]. split; [done|]. apply IH; [|done]. intros b Hb. apply He. by right.
Qed.

Lemma next_update (h : heap) (a : loc) p p' :
  h !! a = Some p → next p' = next p → ∀ x, next <$> <[a := p']> h !! x = next <$> h !! x.
Proof.
  intros Ha Hn x. rewrite lookup_insert. case_decide as E; [|done]. subst x. rewrite Ha. cbn. by rewrite Hn.
Qed.

Section facts.
Context {pub : list loc} {c : config} (Hi : inv pub c).

Lemma held_nodup : NoDup (held (plugins c)).
Proof. rewrite (v_own _ _ Hi). apply nodup_fill. Qed.

Lemma held_in a :
  a ∈ held (plugins c) ↔ ∃ p, mem (memory c) !! a = Some p ∧ filled (state p) = true.
Proof. rewrite (v_own _ _ Hi). apply elem_of_fill. Qed.

Lemma pub_in a : a ∈ pub → ∃ p, mem (memory c) !! a = Some p ∧ opt_in (next p) pub.
Proof. apply linked_in, Hi. Qed.

Lemma nul_in a p : mem (memory c) !! a = Some p → NUL ∈ payload p.
Proof. apply (v_nul _ _ Hi). Qed.
End facts.

(** ** What a step does to the facts of the other threads *)

(** The thread that has [b] may have published it and changed its link. *)
Record grows (b : option loc) (pub pub' : list loc) (h h' : heap) : Prop := {
  g_more : ∀ x, x ∈ pub → x ∈ pub';
  g_only : ∀ x, x ∈ pub' → x ∈ pub ∨ b = Some x;
  g_next : ∀ x, b ≠ Some x → is_Some (h !! x) → next <$> h' !! x = next <$> h !! x
}.

Lemma grows_same b pub h h' :
  (∀ x, is_Some (h !! x) → next <$> h' !! x = next <$> h !! x) → grows b pub pub h h'.
Proof. intros H. split; auto. Qed.

Lemma grows_fresh b pub pub' h h' x :
  grows b pub pub' h h' → b ≠ Some x → fresh pub h x → fresh pub' h' x.
Proof.
  intros [Hm Ho Hn] Hb [Hx Hf]. split.
  - intros Hin. by destruct (Ho x Hin).
  - rewrite Hn; [done|done|]. apply fmap_Some in Hf as (p & -> & _). by eexists.
Qed.

Lemma grows_opt b pub pub' h h' l : grows b pub pub' h h' → opt_in l pub → opt_in l pub'.
Proof. intros [Hm _ _]. destruct l; cbn; auto. Qed.

Lemma pc_ok_grows b pub pub' h h' pc :
  grows b pub pub' h h' → (∀ x, holder pc = Some x → b ≠ Some x) → pc_ok pub h pc → pc_ok pub' h' pc.
Proof.
  intros Hg Hb. pose proof (g_more _ _ _ _ _ Hg) as Hm.
  destruct pc; cbn [pc_ok holder] in *; try done; auto; specialize (Hb _ eq_refl) || clear Hb.
  - by eapply grows_opt.
  - by eapply grows_fresh.
  - by eapply grows_fresh.
  - intros [Hf Hp]. split; [by eapply grows_fresh|]. destruct pub as [|x pub]; [done|]. intros ->.
    by destruct (not_elem_of_nil x); apply Hm; left.
  - intros [Hf Hp]. split; [by eapply grows_fresh|auto].
  - intros [Hf Hp]. split; [by eapply grows_fresh|auto].
  - intros (Ha & Hh & n & Hn & Ho). split; [|split; [auto|]].
    + intros Hin. by destruct (g_only _ _ _ _ _ Hg _ Hin).
    + exists n. split; [|by eapply grows_opt]. rewrite (g_next _ _ _ _ _ Hg); [done|done|].
      apply fmap_Some in Hn as (p & -> & _). by eexists.
Qed.

(** The storage thread relies on READY packets staying as they are. *)
Definition keeps_ready (h h' : heap) : Prop :=
  ∀ a p, h !! a = Some p → state p = READY →
    ∃ p', h' !! a = Some p' ∧ state p' = READY ∧ payload p' = payload p.

Lemma sending_keeps pub pub' h h' a Q :
  (∀ x, x ∈ pub → x ∈ pub') → keeps_ready h h' → sending pub h a Q → sending pub' h' a Q.
Proof.
  intros Hm Hk [Ha (p & Hp & Hr & HQ)]. split; [auto|]. destruct (Hk a p Hp Hr) as (p' & Hp' & Hr' & Hb).
  exists p'. rewrite Hb. auto.
Qed.

Lemma spc_ok_keeps pub pub' h h' sp :
  (∀ x, x ∈ pub → x ∈ pub') → keeps_ready h h' → spc_ok pub h sp → spc_ok pub' h' sp.
Proof.
  intros Hm Hk. destruct sp as [|[x|]|a|a|a|a b|a b|a b|a|a]; cbn; auto; try (by eapply sending_keeps).
  intros [? ?]. split; [done|]. by eapply sending_keeps.
Qed.

Lemma keeps_ready_refl h : keeps_ready h h.
Proof. intros a p Hp Hr. by exists p. Qed.

Lemma keeps_ready_insert h a p p' :
  h !! a = Some p → (state p = READY → state p' = READY ∧ payload p' = payload p) →
  keeps_ready h (<[a := p']> h).
Proof.
  intros Ha Hk b q Hq Hr. destruct (decide (a = b)) as [<-|Hne].
  - simplify_eq. exists p'. rewrite lookup_insert_eq. split; [done|]. auto.
  - exists q. by rewrite lookup_insert_ne.
Qed.

Lemma keeps_ready_fresh h a p : h !! a = None → keeps_ready h (<[a := p]> h).
Proof. intros Ha b q Hq Hr. exists q. rewrite lookup_insert_ne; [done|]. intros ->. congruence. Qed.

Lemma held_app l1 pc l2 : held (l1 ++ pc :: l2) ≡ₚ option_list (holder pc) ++ held (l1 ++ l2).
Proof.
  unfold held. rewrite !omap_app. cbn. destruct (holder pc); cbn; [|done].
  by rewrite <- Permutation_middle.
Qed.

(** The threads other than the one that moves. *)
Lemma others_grow b pub pub' h h' l1 pc l2 pc' :
  Forall (pc_ok pub h) (l1 ++ pc :: l2) → grows b pub pub' h h' →
  (∀ x, b = Some x → x ∉ held (l1 ++ l2)) → pc_ok pub' h' pc' →
  Forall (pc_ok pub' h') (l1 ++ pc' :: l2).
Proof.
  intros Hf Hg Hb Hpc. apply Forall_app in Hf as [H1 [_ H2]%list.Forall_cons].
  assert (∀ l, (∀ q, q ∈ l → q ∈ l1 ++ l2) → Forall (pc_ok pub h) l → Forall (pc_ok pub' h') l) as Hl.
  { intros l Hin Hl. apply list.Forall_forall. intros q Hq. rewrite list.Forall_forall in Hl.
    eapply pc_ok_grows; [done| |by apply Hl]. intros x Hx ->. apply (Hb x eq_refl).
    apply list_elem_of_omap. exists q. auto. }
  apply Forall_app. split; [apply Hl; [|done]; set_solver|]. apply list.Forall_cons. split; [done|].
  apply Hl; [|done]. set_solver.
Qed.

(** ** The effects a step can have *)

Lemma trade {A} (o o' f f' H R : list A) :
  o' ++ f ≡ₚ o ++ f' → o ++ H ≡ₚ f ++ R → o' ++ H ≡ₚ f' ++ R.
Proof.
  intros E1 E2. apply (Permutation_app_inv_l f).
  transitivity ((o' ++ f) ++ H); [by solve_Permutation|]. rewrite E1.
  transitivity (f' ++ (o ++ H)); [by solve_Permutation|]. rewrite E2. solve_Permutation.
Qed.

Section effects.
Context (pub : list loc) (l1 l2 : list plug_pc) (pc : plug_pc) (sp : spc) (h : heap) (f : option loc) (ha ac : list body).
Hypothesis (Hi : inv pub (Config (l1 ++ pc :: l2) sp (Shm h f) ha ac)).

(** Nothing but the place of the thread changes. *)
Lemma inv_place pc' :
  holder pc' = holder pc → pc_ok pub h pc' → inv pub (Config (l1 ++ pc' :: l2) sp (Shm h f) ha ac).
Proof.
  intros Hh Hpc. destruct Hi as [H1 H2 H3 H4 H5 H6 H7]. cbn in *. split; cbn; try done.
  - rewrite held_app, Hh, <- H1. by rewrite held_app.
  - eapply (others_grow None); [done|by apply grows_same|done|done].
Qed.

(** A cell changes, but not its link; a body may be handed over. *)
Lemma inv_update a p p' pc' bs :
  h !! a = Some p → next p' = next p → NUL ∈ payload p' →
  (state p = READY → state p' = READY ∧ payload p' = payload p) →
  option_list (holder pc') ++ option_list (fill_at (a, p)) ≡ₚ option_list (holder pc) ++ option_list (fill_at (a, p')) →
  bs ++ option_list (wait_at sp (a, p)) ≡ₚ option_list (wait_at sp (a, p')) →
  pc_ok pub h pc' →
  inv pub (Config (l1 ++ pc' :: l2) sp (Shm (<[a := p']> h) f) (bs ++ ha) ac).
Proof.
  intros Ha Hn Hnul Hr Hown Hlog Hpc. destruct Hi as [H1 H2 H3 H4 H5 H6 H7]. unfold waiting in *. cbn in *.
  pose proof (next_update h a p p' Ha Hn) as Hnx.
  split; unfold waiting; cbn; try done.
  - rewrite held_app, collect_insert. rewrite held_app, (collect_split _ h a p Ha) in H1. by eapply trade.
  - by eapply linked_ext; [|done].
  - assert (grows None pub pub h (<[a := p']> h)) as Hg by (by apply grows_same).
    eapply (others_grow None); [done|done|done|]. eapply (pc_ok_grows None); done.
  - eapply spc_ok_keeps; [done|by eapply keeps_ready_insert|done].
  - by apply map_Forall_insert_2.
  - rewrite H7, (collect_split _ h a p Ha), collect_insert, <- Hlog. solve_Permutation.
Qed.

(** A packet is linked before it is published. *)
Lemma inv_relink a n pc' p :
  h !! a = Some p → holder pc = Some a → holder pc' = Some a → a ∉ pub →
  pc_ok pub (<[a := set_next n p]> h) pc' →
  inv pub (Config (l1 ++ pc' :: l2) sp (Shm (<[a := set_next n p]> h) f) ha ac).
Proof.
  intros Ha Hh Hh' Hpub Hpc. pose proof (held_nodup Hi) as Hnd. destruct Hi as [H1 H2 H3 H4 H5 H6 H7].
  unfold waiting in *. cbn in *. rewrite held_app, Hh in Hnd. apply NoDup_cons in Hnd as [Hnin _].
  split; unfold waiting; cbn; try done.
  - rewrite held_app, Hh', (collect_same _ h a p) by done. by rewrite <- H1, held_app, Hh.
  - eapply linked_ext; [|done]. intros x Hx. rewrite lookup_insert_ne; [done|]. by intros ->.
  - eapply (others_grow (Some a)); [done| | |done].
    + split; auto. intros x Hne _. rewrite lookup_insert_ne; [done|]. congruence.
    + by intros x [= <-].
  - eapply spc_ok_keeps; [done|by eapply keeps_ready_insert|done].
  - apply map_Forall_insert_2; [|done]. by apply (H6 a p).
  - by rewrite (collect_same _ h a p).
Qed.

(** A packet is allocated. *)
Lemma inv_alloc a p pc' :
  h !! a = None → holder pc = None → holder pc' = Some a → filled (state p) = true → NUL ∈ payload p →
  pc_ok pub (<[a := p]> h) pc' →
  inv pub (Config (l1 ++ pc' :: l2) sp (Shm (<[a := p]> h) f) ha ac).
Proof.
  intros Ha Hh Hh' Hst Hnul Hpc. pose proof (held_in Hi a) as Hin. destruct Hi as [H1 H2 H3 H4 H5 H6 H7].
  unfold waiting in *. cbn in *.
  assert (∀ x, is_Some (h !! x) → next <$> <[a := p]> h !! x = next <$> h !! x) as Hnx.
  { intros x [q Hq]. rewrite lookup_insert_ne; [done|]. intros ->. congruence. }
  split; unfold waiting; cbn; try done.
  - rewrite held_app, Hh', (collect_fresh _ h a p Ha). unfold fill_at at 1. cbn. rewrite Hst.
    rewrite held_app, Hh in H1. cbn in *. by rewrite H1.
  - eapply linked_ext; [|done]. intros x Hx. apply Hnx. destruct (linked_in _ _ _ H2 Hx) as (q & Hq & _). by eexists.
  - by eapply (others_grow None); [|apply grows_same| |].
  - eapply spc_ok_keeps; [done|by apply keeps_ready_fresh|done].
  - by apply map_Forall_insert_2.
  - rewrite (collect_fresh _ h a p Ha). unfold wait_at at 1. rewrite bool_decide_false; [done|].
    intros [Hr _]. cbn in Hr. by rewrite Hr in Hst.
Qed.

(** A packet is published. *)
Lemma inv_publish a n pc' :
  holder pc = Some a → holder pc' = Some a → a ∉ pub → next <$> h !! a = Some n → opt_in n pub →
  pc_ok (a :: pub) h pc' →
  inv (a :: pub) (Config (l1 ++ pc' :: l2) sp (Shm h (Some a)) ha ac).
Proof.
  intros Hh Hh' Hpub Hn Ho Hpc. pose proof (held_nodup Hi) as Hnd. destruct Hi as [H1 H2 H3 H4 H5 H6 H7].
  cbn in *. rewrite held_app, Hh in Hnd. apply NoDup_cons in Hnd as [Hnin _].
  split; cbn; try done.
  - rewrite held_app, Hh'. by rewrite <- H1, held_app, Hh.
  - split; [done|]. split; [by exists n|done].
  - by left.
  - eapply (others_grow (Some a)); [done| | |done].
    + split; [by right| |done]. intros x [->|Hx]%elem_of_cons; auto.
    + by intros x [= <-].
  - eapply spc_ok_keeps; [by right|apply keeps_ready_refl|done].
Qed.
End effects.

(** ** Every step of a plugin keeps the invariant *)

Definition extends (pub pub' : list loc) : Prop := pub' = pub ∨ ∃ a, pub' = a :: pub.

Definition plug_kept (pub : list loc) (l1 l2 : list plug_pc) (sp : spc) (ha ac : list body)
    (r : res (option (plug_pc * shm * list body))) : Prop :=
  match r with
  | Ok None => True
  | Ok (Some (pc', s', bs)) => ∃ pub', extends pub pub' ∧ inv pub' (Config (l1 ++ pc' :: l2) sp s' (bs ++ ha) ac)
  | _ => False
  end.

Lemma wait_same sp a p p' :
  state p' = state p → payload p' = payload p → type p' = type p → wait_at sp (a, p') = wait_at sp (a, p).
Proof. unfold wait_at, body_of. cbn. by intros -> -> ->. Qed.

Lemma wait_none sp a p : state p ≠ READY → wait_at sp (a, p) = None.
Proof. intros H. unfold wait_at. cbn. rewrite bool_decide_false; [done|]. by intros [? _]. Qed.

Section plugin_steps.
Context {pub : list loc} {l1 l2 : list plug_pc} {sp : spc} {h : heap} {f : option loc} {ha ac : list body}.

Lemma pc_here pc : inv pub (Config (l1 ++ pc :: l2) sp (Shm h f) ha ac) → pc_ok pub h pc.
Proof. intros Hi. pose proof (v_plugins _ _ Hi) as H. cbn in H. by apply Forall_app in H as [_ [H _]%list.Forall_cons]. Qed.

Lemma cell_here pc a :
  inv pub (Config (l1 ++ pc :: l2) sp (Shm h f) ha ac) → holder pc = Some a →
  ∃ p, h !! a = Some p ∧ filled (state p) = true.
Proof.
  intros Hi Hh. apply (held_in Hi a). cbn. rewrite held_app, Hh. by left.
Qed.

(** A step that only moves. *)
Lemma kept_move pc pc' :
  inv pub (Config (l1 ++ pc :: l2) sp (Shm h f) ha ac) → holder pc' = holder pc → pc_ok pub h pc' →
  plug_kept pub l1 l2 sp ha ac (Ok (Some (pc', Shm h f, []))).
Proof. intros Hi Hh Hpc. exists pub. split; [by left|]. by apply (inv_place _ _ _ pc). Qed.

(** A step that writes the packet the thread has. *)
Lemma kept_own pc pc' a p p' :
  inv pub (Config (l1 ++ pc :: l2) sp (Shm h f) ha ac) → holder pc = Some a → holder pc' = Some a →
  h !! a = Some p → next p' = next p → NUL ∈ payload p' → filled (state p') = true → pc_ok pub h pc' →
  plug_kept pub l1 l2 sp ha ac (Ok (Some (pc', Shm (<[a := p']> h) f, []))).
Proof.
  intros Hi Hh Hh' Ha Hn Hnul Hst Hpc. exists pub. split; [by left|].
  destruct (cell_here pc a Hi Hh) as (q & Hq & Hf). simplify_eq.
  assert (∀ q, filled (state q) = true → state q ≠ READY) as Hnr by (intros q Hq' E; by rewrite E in Hq').
  apply (inv_update _ _ _ pc _ _ _ _ _ Hi a p); try done.
  - intros E. by destruct (Hnr p Hf).
  - unfold fill_at. cbn. by rewrite Hst, Hf, Hh, Hh'.
  - by rewrite !wait_none by auto.
Qed.

(** A step that takes or gives back the lock of a packet. *)
Lemma kept_spin pc pc' a p v :
  inv pub (Config (l1 ++ pc :: l2) sp (Shm h f) ha ac) → holder pc' = holder pc → h !! a = Some p → pc_ok pub h pc' →
  plug_kept pub l1 l2 sp ha ac (Ok (Some (pc', Shm (<[a := set_spin v p]> h) f, []))).
Proof.
  intros Hi Hh Ha Hpc. exists pub. split; [by left|].
  apply (inv_update _ _ _ pc _ _ _ _ _ Hi a p); try done.
  - by apply (nul_in Hi a p).
  - by rewrite Hh.
Qed.

(** The compare-and-swap that recycles a packet. *)
Lemma kept_recycle pc a p fs :
  inv pub (Config (l1 ++ pc :: l2) sp (Shm h f) ha ac) → holder pc = None → h !! a = Some p → state p = DONE → a ∈ pub →
  plug_kept pub l1 l2 sp ha ac (Ok (Some (Reset a fs, Shm (<[a := set_state EMPTY p]> h) f, []))).
Proof.
  intros Hi Hh Ha Hst Hpub. exists pub. split; [by left|].
  apply (inv_update _ _ _ pc _ _ _ _ _ Hi a p); try done.
  - by apply (nul_in Hi a p).
  - rewrite Hst. done.
  - rewrite Hh. unfold fill_at. cbn. by rewrite Hst.
  - rewrite !wait_none; [done| |]; [done|by rewrite Hst].
Qed.

(** The step that gives a packet away. *)
Lemma kept_close a p st :
  inv pub (Config (l1 ++ Hold a :: l2) sp (Shm h f) ha ac) → h !! a = Some p → st = READY ∨ st = DONE →
  plug_kept pub l1 l2 sp ha ac
    (Ok (Some (Idle, Shm (<[a := set_state st p]> h) f, if decide (st = READY) then [body_of p] else []))).
Proof.
  intros Hi Ha Hst. exists pub. split; [by left|].
  destruct (cell_here (Hold a) a Hi eq_refl) as (q & Hq & Hf). simplify_eq.
  assert (state p ≠ READY) as Hnr by (intros E; by rewrite E in Hf).
  apply (inv_update _ _ _ (Hold a) _ _ _ _ _ Hi a p); try done.
  - by apply (nul_in Hi a p).
  - unfold fill_at. cbn. rewrite Hf. by destruct Hst as [-> | ->].
  - rewrite (wait_none _ _ p) by done. destruct Hst as [-> | ->]; [|by rewrite wait_none].
    rewrite decide_True by done. unfold wait_at. cbn. rewrite bool_decide_true; [done|]. split; [done|].
    (* the storage thread is not posting it *)
    intros Hp. pose proof (v_storage _ _ Hi) as Hs. cbn in Hs. destruct sp; try done. injection Hp as ->.
    destruct Hs as [_ (q & Hq' & Hr & _)]. by simplify_eq.
Qed.

Lemma zeroed_nul : NUL ∈ payload (zeroed METRIC).
Proof. cbn. apply elem_of_replicate. split; [done|]. pose proof PKTSZ_range. lia. Qed.

End plugin_steps.

Lemma pstep_ok pub l1 l2 sp h f ha ac m pc :
  inv pub (Config (l1 ++ pc :: l2) sp (Shm h f) ha ac) → plug_kept pub l1 l2 sp ha ac (pstep m pc (Shm h f)).
Proof.
  intros Hi. pose proof (pc_here pc Hi) as Hpc. pose proof (v_first _ _ Hi) as Hf. cbn in Hf.
  assert (∀ a, a ∈ pub → ∃ p, h !! a = Some p ∧ opt_in (next p) pub) as Hin by apply (pub_in Hi).
  pose proof (λ a, cell_here pc a Hi) as Hcell.
  destruct pc as [|[a|]|a|a fs| |a|a|a|a h'|a h'|a h'|a h'|a], m as [|b|d| |]; try done; try (by destruct fs);
    cbn [pc_ok holder] in *;
    try (destruct (Hcell a eq_refl) as (p & Hp & Hst)); unfold pstep, alone, upd; cbn [mem first].
  - apply (kept_move Idle); [done|done|]. by destruct f.
  - destruct (Hin a Hpc) as (p & Hp & Ho). rewrite (deref_Some _ _ _ Hp). cbn [rbind].
    unfold packet_change_state. case_bool_decide as Hd; cbn.
    + by eapply (kept_recycle (Scan (Some a))).
    + by apply (kept_move (Scan (Some a))).
  - by apply (kept_move (Scan None)).
  - destruct (Hin a Hpc) as (p & Hp & Ho). rewrite (deref_Some _ _ _ Hp). by apply (kept_move (Next a)).
  - destruct fs as [|x fs]; [by apply (kept_move (Reset a []))|]. rewrite (deref_Some _ _ _ Hp). cbn [rbind].
    eapply (kept_own (Reset a (x :: fs)) _ a p); try done; [by destruct x| |by destruct x].
    destruct x; by apply (nul_in Hi a p).
  - destruct (decide (h !! b = None)) as [Hb|]; [|done]. exists pub. split; [by left|].
    apply (inv_alloc _ _ _ Alloc _ _ _ _ _ Hi); try done; [apply zeroed_nul|]. split; [|by rewrite lookup_insert_eq].
    intros Hx. destruct (Hin b Hx) as (p & Hp & _). congruence.
  - apply (kept_move (ITest a)); [done|by destruct f|]. destruct f as [x|]; cbn; [|done]. split; [done|]. by intros ->; apply elem_of_nil in Hf.
  - destruct f as [x|]; [by apply (kept_move (ICas a))|]. destruct Hpc as [Hx Hn].
    exists (a :: pub). split; [right; by exists a|]. by eapply (inv_publish _ _ _ (ICas a) _ _ _ _ _ Hi).
  - destruct f as [x|]; [|by destruct Hpc]. apply (kept_move (IHead a)); [done|done|]. by destruct Hpc.
  - destruct Hpc as [Hx Hh]. destruct (Hin h' Hh) as (q & Hq & _). rewrite !(deref_Some _ _ _ Hq). cbn [rbind].
    destruct (spin q =? 0); [|done]. by apply (kept_spin (ILock a h')).
  - destruct Hpc as [[Hx Hn] Hh]. rewrite (deref_Some _ _ _ Hp). cbn [rbind]. exists pub. split; [by left|].
    eapply (inv_relink _ _ _ (ILink a h') _ _ _ _ _ Hi); try done. cbn. split; [done|]. split; [done|].
    exists f. rewrite lookup_insert_eq. split; [done|]. by destruct f.
  - destruct Hpc as (Hx & Hh & n & Hn & Ho). exists (a :: pub). split; [right; by exists a|].
    eapply (inv_publish _ _ _ (IPush a h') _ _ _ _ _ Hi); try done. by right.
  - destruct (Hin h' Hpc) as (q & Hq & _). rewrite !(deref_Some _ _ _ Hq). cbn [rbind].
    by apply (kept_spin (IUnlock a h')).
  - case_decide as Hd; [|done]. rewrite (deref_Some _ _ _ Hp). cbn [rbind].
    by eapply (kept_own (Hold a) _ a p).
  - rewrite !(deref_Some _ _ _ Hp). cbn [rbind]. destruct (state p) eqn:E; try done; cbn;
      eapply (kept_own (Hold a) _ a p); try done; by apply (nul_in Hi a p).
  - rewrite !(deref_Some _ _ _ Hp). cbn [rbind]. case_bool_decide as E; cbn.
    + apply (kept_close a p READY); auto.
    + apply (kept_close a p DONE); auto.
Qed.

(** ** Every step of the storage thread keeps the invariant *)

Definition stor_kept (pub : list loc) (ts : list plug_pc) (ha ac : list body)
    (r : res (option (spc * shm * list body))) : Prop :=
  match r with
  | Ok None => True
  | Ok (Some (sp', s', bs)) => inv pub (Config ts sp' s' ha (bs ++ ac))
  | _ => False
  end.

Section storage_steps.
Context {pub : list loc} {ts : list plug_pc} {h : heap} {f : option loc} {ha ac : list body}.

(** A step that only moves. *)
Lemma stor_move sp sp' :
  inv pub (Config ts sp (Shm h f) ha ac) → posted sp = None → posted sp' = None → spc_ok pub h sp' →
  stor_kept pub ts ha ac (Ok (Some (sp', Shm h f, []))).
Proof.
  intros [H1 H2 H3 H4 H5 H6 H7] Hp Hp' Hok. unfold waiting in *. cbn in *. split; unfold waiting; cbn; try done.
  rewrite H7. f_equiv. unfold wait_at. by rewrite Hp, Hp'.
Qed.

(** A step that writes the packet that is posted, whatever it does to its state: it
    may mark it DONE, and the server may have accepted it. *)
Lemma stor_update sp sp' a p p' bs :
  inv pub (Config ts sp (Shm h f) ha ac) → h !! a = Some p → next p' = next p → payload p' = payload p →
  fill_at (a, p') = fill_at (a, p) →
  (posted sp = None ∨ posted sp = Some a) → (posted sp' = None ∨ posted sp' = Some a) →
  option_list (wait_at sp (a, p)) ≡ₚ bs ++ option_list (wait_at sp' (a, p')) →
  spc_ok pub (<[a := p']> h) sp' →
  stor_kept pub ts ha ac (Ok (Some (sp', Shm (<[a := p']> h) f, bs))).
Proof.
  intros [H1 H2 H3 H4 H5 H6 H7] Ha Hn Hb Hf Hs Hs' Hlog Hok. unfold waiting in *. cbn in *.
  pose proof (next_update h a p p' Ha Hn) as Hnx.
  split; unfold waiting; cbn; try done.
  - by rewrite (collect_same _ h a p).
  - by eapply linked_ext; [|done].
  - apply list.Forall_forall. rewrite list.Forall_forall in H4. intros q Hq.
    eapply (pc_ok_grows None pub pub h); [by apply grows_same|done|auto].
  - apply map_Forall_insert_2; [|done]. rewrite Hb. by apply (H6 a p).
  - rewrite H7, (collect_split _ h a p Ha), collect_insert, Hlog.
    rewrite (collect_ext (wait_at sp) (wait_at sp')); [solve_Permutation|].
    intros x q [Hne Hq]%lookup_delete_Some. unfold wait_at. cbn.
    rewrite (bool_decide_ext _ (state q = READY ∧ posted sp' ≠ Some x)); [done|].
    destruct Hs as [-> | ->], Hs' as [-> | ->]; naive_solver.
Qed.

Lemma wait_here sp a p : state p = READY → posted sp = None → wait_at sp (a, p) = Some (body_of p).
Proof. intros Hr Hp. unfold wait_at. cbn. rewrite bool_decide_true; [done|]. by rewrite Hp. Qed.

Lemma sending_set (a : loc) (p' : packet_t) (Q : bytes → Prop) :
  a ∈ pub → state p' = READY → Q (payload p') → sending pub (<[a := p']> h) a Q.
Proof. intros Ha Hr HQ. split; [done|]. exists p'. by rewrite lookup_insert_eq. Qed.

(** A step of [post] that leaves the packet READY and its payload alone. *)
Lemma stor_touch sp sp' a p p' :
  inv pub (Config ts sp (Shm h f) ha ac) → h !! a = Some p → state p = READY →
  next p' = next p → payload p' = payload p → state p' = READY → type p' = type p →
  posted sp = None → posted sp' = None → spc_ok pub (<[a := p']> h) sp' →
  stor_kept pub ts ha ac (Ok (Some (sp', Shm (<[a := p']> h) f, []))).
Proof.
  intros Hi Ha Hr Hn Hb Hr' Ht Hs Hs' Hok. apply (stor_update sp sp' a p); auto.
  - unfold fill_at. cbn. by rewrite Hr, Hr'.
  - rewrite !wait_here by done. unfold body_of. by rewrite Hb, Ht.
Qed.
End storage_steps.

Lemma sent_next (b sent : bytes) :
  NUL ∈ b → no_nul sent → (∃ rest, b = sent ++ rest) →
  ∃ c, b !! length sent = Some c ∧ (c = NUL → cstr b = sent)
       ∧ (c ≠ NUL → no_nul (sent ++ [c]) ∧ ∃ rest, b = (sent ++ [c]) ++ rest).
Proof.
  intros Hnul Hs (rest & ->). destruct rest as [|c rest].
  - rewrite app_nil_r in Hnul. unfold no_nul in Hs. rewrite list.Forall_forall in Hs. by destruct (Hs NUL Hnul).
  - exists c. rewrite lookup_app_r, Nat.sub_diag by lia. split; [done|]. split.
    + intros ->. by apply cstr_nul.
    + intros Hc. split; [|exists rest; by rewrite <- app_assoc]. apply no_nul_app. split; [done|]. by apply Forall_cons_2.
Qed.

Lemma sstep_ok pub ts h f ha ac r sp :
  inv pub (Config ts sp (Shm h f) ha ac) → stor_kept pub ts ha ac (sstep r sp (Shm h f)).
Proof.
  intros Hi. pose proof (v_storage _ _ Hi) as Hs. pose proof (v_first _ _ Hi) as Hf. cbn in Hs, Hf.
  assert (∀ a, a ∈ pub → ∃ p, h !! a = Some p ∧ opt_in (next p) pub) as Hin by apply (pub_in Hi).
  destruct sp as [|[a|]|a|a|a|a ready|a sent|a sent|a|a]; unfold sstep, alone, upd; cbn [mem first spc_ok] in *.
  - apply (stor_move SIdle); try done. by destruct f.
  - destruct (Hin a Hs) as (p & Hp & Ho). rewrite (deref_Some _ _ _ Hp). cbn [rbind].
    case_bool_decide; by apply (stor_move (SVisit (Some a))); [..|try split; eauto].
  - by apply (stor_move (SVisit None)).
  - destruct Hs as [Ha (p & Hp & Hr & _)]. rewrite (deref_Some _ _ _ Hp). cbn [rbind].
    apply (stor_touch (SAttempt a) _ a p); try done. by apply (sending_set a).
  - destruct Hs as [Ha (p & Hp & Hr & _)]. rewrite !(deref_Some _ _ _ Hp). cbn [rbind].
    destruct (spin p =? 0); [|done]. apply (stor_touch (SFetch a) _ a p); try done. by apply (sending_set a).
  - pose proof Hs as [Ha (p & Hp & Hr & _)]. rewrite (deref_Some _ _ _ Hp). cbn [rbind].
    rewrite bool_decide_true by done. by apply (stor_move (SRead a)).
  - destruct Hs as [-> [Ha (p & Hp & Hr & _)]]. rewrite (deref_Some _ _ _ Hp). cbn [rbind].
    apply (stor_touch (SUnlock a true) _ a p); try done. apply (sending_set a); [done|done|].
    split; [apply Forall_nil_2|]. by exists (payload p).
  - destruct Hs as [Ha (p & Hp & Hr & Hsent & Hrest)]. rewrite (deref_Some _ _ _ Hp). cbn [rbind].
    destruct (sent_next (payload p) sent (nul_in Hi a p Hp) Hsent Hrest) as (c & -> & Hend & Hgo). cbn [of_opt rbind].
    destruct (Ascii.eqb_spec c NUL) as [E|E]; apply (stor_move (SSend a sent)); try done; split; [done|exists p; auto|done|exists p; auto].
  - destruct Hs as [Ha (p & Hp & Hr & Hsent)]. rewrite !(deref_Some _ _ _ Hp). cbn [rbind].
    set (p' := set_response _ p). destruct (r_ok r).
    + apply (stor_update (SWait a sent) _ a p p'); try done; [by left|by right| |].
      * rewrite wait_here by done. unfold wait_at. cbn. rewrite bool_decide_false by naive_solver.
        unfold body_of. by rewrite Hsent.
      * by apply (sending_set a).
    + by apply (stor_touch (SWait a sent) _ a p).
  - destruct Hs as [Ha (p & Hp & Hr & _)]. rewrite (deref_Some _ _ _ Hp). cbn [rbind].
    apply (stor_update (SDone a) _ a p); try done; [|by right|by left| ].
    + unfold fill_at. cbn. by rewrite Hr.
    + unfold wait_at. cbn. rewrite !bool_decide_false by naive_solver. done.
  - destruct (Hin a Hs) as (p & Hp & Ho). rewrite (deref_Some _ _ _ Hp). by apply (stor_move (SNext a)).
Qed.

(** ** Every reachable state *)

Lemma step_ok pub c a :
  inv pub c → ∃ pub' c', hstep a c = Ok c' ∧ extends pub pub' ∧ inv pub' c'.
Proof.
  intros Hi. destruct c as [ts sp [h f] ha ac]. destruct a as [i m|r]; cbn [hstep plugins storage memory handed accepted].
  - destruct (ts !! i) as [pc|] eqn:E; [|exists pub; eexists; split; [done|split; [by left|done]]].
    pose proof (take_drop_middle ts i pc E) as Hsplit. assert (i < length ts)%nat as Hlt by (by eapply lookup_lt_Some).
    rewrite <- Hsplit in Hi. pose proof (pstep_ok _ _ _ _ _ _ _ _ m pc Hi) as Hk.
    destruct (pstep m pc (Shm h f)) as [[[[pc' s'] bs]|]| |]; cbn in Hk; try done; cbn [rbind].
    + destruct Hk as (pub' & Hx & Hi'). exists pub'. eexists. split; [done|]. split; [done|].
      by rewrite (insert_take_drop ts i pc' Hlt).
    + exists pub. eexists. split; [done|]. split; [by left|]. by rewrite Hsplit in Hi.
  - pose proof (sstep_ok _ _ _ _ _ _ r sp Hi) as Hk. exists pub.
    destruct (sstep r sp (Shm h f)) as [[[[sp' s'] bs]|]| |]; cbn in Hk; try done; cbn [rbind];
      eexists; (split; [done|]); (split; [by left|done]).
Qed.

Lemma hrun_ok l pub c : inv pub c → ∃ pub' c', hrun l c = Ok c' ∧ inv pub' c'.
Proof.
  revert pub c. induction l as [|a l IH]; intros pub c Hi; [by exists pub, c|]. cbn [hrun].
  destruct (step_ok pub c a Hi) as (pub1 & c1 & -> & _ & Hi1). cbn [rbind]. by eapply IH.
Qed.

Lemma omap_nodup {A B} (f : A → option B) (l : list A) i j x y b :
  NoDup (omap f l) → l !! i = Some x → l !! j = Some y → f x = Some b → f y = Some b → i = j.
Proof.
  revert i j. induction l as [|z l IH]; intros i j; [done|]. cbn.
  assert (∀ k w, l !! k = Some w → f w = Some b → b ∈ omap f l) as Hin.
  { intros k w Hk Hw. apply list_elem_of_omap. exists w. split; [by eapply list_elem_of_lookup_2|done]. }
  destruct i as [|i], j as [|j]; cbn; intros Hnd Hx Hy Fx Fy; [done|..]; simplify_eq.
  - rewrite Fx in Hnd. apply NoDup_cons in Hnd as [Hb _]. destruct Hb. by eapply Hin.
  - rewrite Fy in Hnd. apply NoDup_cons in Hnd as [Hb _]. destruct Hb. by eapply Hin.
  - f_equal. apply (IH i j); try done. destruct (f z); [by apply NoDup_cons in Hnd as [_ ?]|done].
Qed.

(** The packet that [post] is working on. *)
Definition posting (sp : spc) : option loc :=
  match sp with
  | SAttempt a | SFetch a | SRead a | SUnlock a _ | SSend a _ | SWait a _ | SDone a => Some a
  | _ => None
  end.

Lemma posting_ready pub h sp a :
  spc_ok pub h sp → posting sp = Some a → ∃ p, h !! a = Some p ∧ state p = READY.
Proof.
  destruct sp; cbn; try done; intros H [= ->]; [..|destruct H as [_ H]| | |]; destruct H as [_ (p & Hp & Hr & _)]; by exists p.
Qed.

(** C3. Any number of plugins and the storage thread, in every interleaving of their
    memory accesses, whatever the plugins write and the server answers: no access
    goes wrong; no two plugins have the same packet; the storage thread never
    posts a packet that a plugin has; and what the plugins handed over is exactly
    what the server accepted and what still waits in memory, so that nothing is
    accepted twice and nothing but whole packets.  (That a packet waits does not mean
    that it is still on the list, see HandoffLost.) *)
Theorem handoff_safe n l :
  ∃ c, hrun l (hstart n) = Ok c
    ∧ (∀ i j pc pc' a, plugins c !! i = Some pc → plugins c !! j = Some pc' →
         holder pc = Some a → holder pc' = Some a → i = j)
    ∧ (∀ i pc a, plugins c !! i = Some pc → holder pc = Some a → posting (storage c) ≠ Some a)
    ∧ handed c ≡ₚ accepted c ++ waiting c.
Proof.
  destruct (hrun_ok l [] (hstart n) (start_inv n)) as (pub & c & E & Hi). exists c. split; [done|]. split; [|split].
  - intros i j pc pc' a Hp Hp' Ha Ha'. by eapply omap_nodup; [apply (held_nodup Hi)|..].
  - intros i pc a Hp Ha Hs. destruct (posting_ready _ _ _ a (v_storage _ _ Hi) Hs) as (p & Hmem & Hr).
    assert (a ∈ held (plugins c)) as Hin.
    { apply list_elem_of_omap. exists pc. split; [by eapply list_elem_of_lookup_2|done]. }
    apply (held_in Hi) in Hin as (q & Hq & Hf). simplify_eq. by rewrite Hr in Hf.
  - apply (v_log _ _ Hi).
Qed.

End Handoff.
