(* ===== verification/HandoffList.v ===== *)
(** What holds of the list of packets in every state that the threads of [Handoff]
    can reach: it has no cycle, every search of [get_packet] ends, every lock
    comes back; and how a packet can be lost from it. *)
From Stdlib Require Import ZArith Ascii Lia.
From stdpp Require Import base list strings numbers gmap sets.
From S2P Require Import Prelude.
From S2P Require Import Packet.
From S2P Require Import Storage.
From S2P Require Import Handoff.
Import Handoff.

Local Open Scope Z_scope.

(** * The list in every reachable state *)

Lemma chain_of_linked h pub l : linked h pub → opt_in l pub → ∃ ls, chain h l ls ∧ NoDup ls ∧ ∀ x, x ∈ ls → x ∈ pub.
Proof.
  revert l. induction pub as [|a pub IH]; intros l Hl Ho.
  - destruct l as [x|]; [by apply elem_of_nil in Ho|]. exists []. split; [done|]. split; [constructor|by intros ? ?%elem_of_nil].
  - destruct Hl as (Ha & (n & Hn & Hno) & Hl).
    assert (∃ ls, chain h n ls ∧ NoDup ls ∧ ∀ x, x ∈ ls → x ∈ pub) as (ls & Hc & Hnd & Hsub) by (by apply IH).
    destruct l as [x|]; [|exists []; split; [done|]; split; [constructor|by intros ? ?%elem_of_nil]].
    cbn in Ho. apply elem_of_cons in Ho as [->|Hx].
    + apply fmap_Some in Hn as (p & Hp & ->). exists (a :: ls). split; [split; [done|by exists p]|].
      split; [apply NoDup_cons; auto|]. intros y [->|Hy]%elem_of_cons; [by left|right; auto].
    + destruct (IH (Some x) Hl Hx) as (ls' & Hc' & Hnd' & Hsub'). exists ls'. split; [done|]. split; [done|].
      intros y Hy. right. auto.
Qed.

Lemma reach_inv n l c : hrun l (hstart n) = Ok c → ∃ pub, inv pub c.
Proof.
  intros H. destruct (hrun_ok l [] (hstart n) (start_inv n)) as (pub & c' & E & Hi).
  rewrite H in E. injection E as <-. by exists pub.
Qed.

(** In every reachable state the list has no cycle. *)
Lemma list_acyclic n l c :
  hrun l (hstart n) = Ok c → ∃ ls, chain (mem (memory c)) (first (memory c)) ls ∧ NoDup ls.
Proof.
  intros H. destruct (reach_inv n l c H) as [pub Hi]. pose proof (v_first _ _ Hi) as Hf.
  destruct (chain_of_linked _ _ (first (memory c)) (v_list _ _ Hi)) as (ls & Hc & Hnd & _); [|by exists ls].
  by destruct (first (memory c)).
Qed.

(** ** Links of published packets never change *)

Definition same_next (h h' : heap) (x : loc) : Prop := next <$> h' !! x = next <$> h !! x.

Lemma deref_inv h a p : deref h (Some a) = Ok p → h !! a = Some p.
Proof. unfold deref. cbn. destruct (h !! a); by intros [= ->]. Qed.

(** The locks a thread has taken. *)
Definition owns (pc : plug_pc) : option loc :=
  match pc with ILink _ h | IPush _ h | IUnlock _ h => Some h | _ => None end.
Definition sowns (sp : spc) : option loc :=
  match sp with SRead a | SUnlock a _ => Some a | _ => None end.

(** What a step does to a lock, when the thread owned [o] before it and owns [o']
    after it: nothing, take it, give it back, or free it without having it. *)
Definition lock_move (o o' : option loc) (a : loc) (v v' : Z) : Prop :=
  v' = v ∧ o' = o ∨ o = None ∧ o' = Some a ∨ v' = 0 ∧ o = Some a ∧ o' = None ∨ v' = 0 ∧ o = None ∧ o' = None.

(** The effect of a step on the memory: none, one cell, or a new cell; [link] is
    the cell whose link it may change. *)
Inductive effect (link o o' : option loc) (h : heap) : heap → Prop :=
| Nothing : o' = o → effect link o o' h h
| Written a p p' : h !! a = Some p → (next p' = next p ∨ link = Some a) →
    lock_move o o' a (spin p) (spin p') → effect link o o' h (<[a := p']> h)
| New a p : h !! a = None → o' = o → spin p = 0 → effect link o o' h (<[a := p]> h).

Definition link_of (pc : plug_pc) : option loc := match pc with ILink a _ => Some a | _ => None end.

Lemma upd_effect link o o' a g s s' :
  upd a g s = Ok s' → (∀ p, next (g p) = next p ∨ link = Some a) →
  (∀ p, lock_move o o' a (spin p) (spin (g p))) → effect link o o' (mem s) (mem s').
Proof.
  unfold upd. intros H Hg Hl. inv_ok H. injection H as <-. apply deref_inv in E. by apply (Written _ _ _ _ a v).
Qed.

Lemma alone_inv {A B} (x y : A) (m : res B) b bs :
  alone x m = Ok (Some (y, b, bs)) → y = x ∧ m = Ok b ∧ bs = [].
Proof. unfold alone. intros H. inv_ok H. by simplify_eq. Qed.

(** Finish a step that updates a cell. *)
Ltac upd_step :=
  repeat match goal with H : alone _ _ = Ok _ |- _ => apply alone_inv in H as (-> & H & ->) end; eapply upd_effect; [eassumption| |];
  intros ?; unfold lock_move; cbn; naive_solver.

Lemma pstep_effect m pc s pc' s' bs :
  pstep m pc s = Ok (Some (pc', s', bs)) → effect (link_of pc) (owns pc) (owns pc') (mem s) (mem s').
Proof.
  intros H.
  destruct pc as [|[a|]|a|a fs| |a|a|a|a h'|a h'|a h'|a h'|a], m as [|b|d| |]; cbn in H; try (destruct fs as [|x' fs]);
    simplify_eq; try done; try (by apply Nothing); try (inv_ok H); simplify_eq; try (by apply Nothing).
  - apply deref_inv in E. unfold packet_change_state in H. case_bool_decide; cbn in H;
      [change (1 - 1 =? 0) with true in H|change (0 - 1 =? 0) with false in H]; cbv iota in H; simplify_eq;
      [|by apply Nothing]. apply (Written _ _ _ _ a v); [done|by left|by left].
  - destruct x'; upd_step.
  - destruct (decide (mem s !! b = None)) as [Hb|]; simplify_eq. by apply New.
  - by destruct (first s'); apply Nothing.
  - destruct (first s); simplify_eq; by apply Nothing.
  - destruct (spin v =? 0); [|done]. upd_step.
  - upd_step.
  - upd_step.
  - case_decide; [|done]. upd_step.
  - destruct (state v); try done; upd_step.
  - case_bool_decide; [inv_ok H; simplify_eq|]; upd_step.
Qed.

Lemma sstep_effect r sp s sp' s' bs :
  sstep r sp s = Ok (Some (sp', s', bs)) → effect None (sowns sp) (sowns sp') (mem s) (mem s').
Proof.
  intros H. destruct sp as [|[a|]|a|a|a|a b|a b|a b|a|a]; cbn in H; simplify_eq; try (by apply Nothing);
    try (inv_ok H); simplify_eq; try (by apply Nothing).
  - case_bool_decide; by apply Nothing.
  - upd_step.
  - destruct (spin v =? 0); [|done]. upd_step.
  - destruct b; upd_step.
  - inv_ok H. simplify_eq. destruct (Ascii.eqb v0 NUL); by apply Nothing.
  - inv_ok H. destruct (r_ok r); simplify_eq; upd_step.
  - upd_step.
Qed.

Lemma effect_next link o o' h h' x :
  effect link o o' h h' → is_Some (h !! x) → link ≠ Some x → same_next h h' x.
Proof.
  unfold same_next. intros [Ho|a p p' Ha Hn _|a p Ha _ _] [q Hq] Hl; [done| |].
  - destruct (decide (a = x)) as [->|Hne]; [|by rewrite lookup_insert_ne].
    rewrite lookup_insert_eq, Hq. simplify_eq. destruct Hn as [Hn|Hn]; [|done]. cbn. by rewrite Hn.
  - rewrite lookup_insert_ne; [done|]. intros ->. congruence.
Qed.

Lemma step_next pub c a c' x : inv pub c → hstep a c = Ok c' → x ∈ pub → same_next (mem (memory c)) (mem (memory c')) x.
Proof.
  intros Hi H Hx. destruct (pub_in Hi x Hx) as (p & Hp & _). destruct a as [i m|r]; cbn in H.
  - destruct (plugins c !! i) as [pc|] eqn:Hpc; [|by simplify_eq]. inv_ok H.
    destruct v as [[[pc' s'] bs]|]; simplify_eq; [|done]. cbn. eapply effect_next; [by eapply pstep_effect|by eexists|].
    intros Hl. destruct pc as [| | | | | | | | |a h'| | |]; try done. injection Hl as ->. pose proof (v_plugins _ _ Hi) as Hf. rewrite list.Forall_forall in Hf.
    by destruct (Hf _ (list_elem_of_lookup_2 _ _ _ Hpc)) as [[? _] _].
  - inv_ok H. destruct v as [[[sp' s'] bs]|]; simplify_eq; [|done]. cbn.
    eapply effect_next; [by eapply sstep_effect|by eexists|done].
Qed.

(** ** Every search ends *)

Definition scanning (pc : plug_pc) : bool := match pc with Scan _ | Next _ => true | _ => false end.

(** A search that is over: a packet to reset, or one to allocate. *)
Definition found (pc : plug_pc) : Prop := (∃ a, pc = Reset a reset_fields) ∨ pc = Alloc.

(** The packets that a search has before it, and the steps they take. *)
Definition scan_left (pub : list loc) (h : heap) (pc : plug_pc) (n : nat) : Prop :=
  match pc with
  | Scan l => ∃ ls, chain h l ls ∧ (∀ x, x ∈ ls → x ∈ pub) ∧ n = (2 * length ls + 1)%nat
  | Next a => ∃ ls, chain h (Some a) (a :: ls) ∧ (∀ x, x ∈ a :: ls → x ∈ pub) ∧ n = (2 * length ls + 2)%nat
  | _ => False
  end.

Lemma scan_left_bound pub c pc :
  inv pub c → pc_ok pub (mem (memory c)) pc → scanning pc = true →
  ∃ n, scan_left pub (mem (memory c)) pc n ∧ (n ≤ 2 * base.size (mem (memory c)) + 1)%nat.
Proof.
  intros Hi Hok Hs. destruct pc as [|l|a| | | | | | | | | |]; try done; cbn in Hok.
  - destruct (chain_of_linked _ _ l (v_list _ _ Hi) Hok) as (ls & Hc & Hnd & Hsub).
    exists (2 * length ls + 1)%nat. split; [by exists ls|]. pose proof (chain_bound _ _ _ Hc Hnd). lia.
  - destruct (chain_of_linked _ _ (Some a) (v_list _ _ Hi) Hok) as ([|b ls] & Hc & Hnd & Hsub); [done|].
    pose proof Hc as [[= <-] _]. exists (2 * length ls + 2)%nat. split; [by exists ls|].
    pose proof (chain_bound _ _ _ Hc Hnd) as Hb. cbn in Hb. lia.
Qed.

(** What the other threads do changes nothing for a search. *)
Lemma scan_left_stable pub pub' c a c' pc n :
  inv pub c → hstep a c = Ok c' → extends pub pub' →
  scan_left pub (mem (memory c)) pc n → scan_left pub' (mem (memory c')) pc n.
Proof.
  intros Hi Hstep Hext. assert (∀ x, x ∈ pub → x ∈ pub') as Hm.
  { intros x Hx. destruct Hext as [-> |[b ->]]; [done|by right]. }
  assert (∀ l ls, (∀ x, x ∈ ls → x ∈ pub) → chain (mem (memory c)) l ls → chain (mem (memory c')) l ls) as Hc.
  { intros l ls Hsub. apply chain_ext. intros x Hx. eapply (step_next pub c a); auto. }
  destruct pc as [|l|b| | | | | | | | | |]; try done; intros (ls & Hch & Hsub & ->); exists ls; auto.
Qed.

(** One step of the search itself. *)
Lemma scan_step pub h f pc n r :
  scan_left pub h pc n → pstep Go pc (Shm h f) = Ok r →
  ∃ pc' s' bs, r = Some (pc', s', bs) ∧ (found pc' ∨ s' = Shm h f ∧ ∃ n', n = S n' ∧ scan_left pub h pc' n').
Proof.
  destruct pc as [|[a|]|a| | | | | | | | | |]; try done; cbn [scan_left]; intros (ls & Hc & Hsub & ->); cbn [pstep mem first].
  - destruct ls as [|b ls]; [done|]. pose proof Hc as ([= <-] & p & Hp & Hn). rewrite (deref_Some _ _ _ Hp). cbn [rbind].
    unfold packet_change_state. case_bool_decide; cbn.
    + intros [= <-]. do 3 eexists. split; [done|]. left. left. by exists a.
    + intros [= <-]. do 3 eexists. split; [done|]. right. split; [done|]. exists (2 * length ls + 2)%nat.
      split; [lia|]. by exists ls.
  - intros [= <-]. do 3 eexists. split; [done|]. left. by right.
  - pose proof Hc as (_ & p & Hp & Hn). rewrite (deref_Some _ _ _ Hp). cbn [rbind]. intros [= <-].
    do 3 eexists. split; [done|]. right. split; [done|]. exists (2 * length ls + 1)%nat. split; [lia|].
    exists ls. split; [done|]. split; [|done]. intros x Hx. apply Hsub. by right.
Qed.

(** How often thread [i] moves. *)
Fixpoint goes (i : nat) (l : list act) : nat :=
  match l with
  | [] => 0
  | Plug j Go :: l => if decide (i = j) then S (goes i l) else goes i l
  | _ :: l => goes i l
  end.

Lemma other_thread i a c c' pc :
  hstep a c = Ok c' → plugins c !! i = Some pc → scanning pc = true → a ≠ Plug i Go → plugins c' !! i = Some pc.
Proof.
  intros H Hpc Hs Hne. destruct a as [j m|r]; cbn in H.
  - destruct (plugins c !! j) as [pc'|] eqn:Hj; [|by simplify_eq]. inv_ok H.
    destruct (decide (i = j)) as [<-|Hij].
    + rewrite Hpc in Hj. injection Hj as <-. assert (v = None) as ->; [|by simplify_eq].
      destruct pc as [|[?|]|?| | | | | | | | | |]; try done; destruct m; cbn in E; simplify_eq; done.
    + destruct v as [[[pc'' s'] bs]|]; simplify_eq; [|done]. cbn. by rewrite list_lookup_insert_ne.
  - inv_ok H. by destruct v as [[[sp' s'] bs]|]; simplify_eq.
Qed.

Lemma scan_ends_from i l : ∀ pub c pc n,
  inv pub c → plugins c !! i = Some pc → scanning pc = true → scan_left pub (mem (memory c)) pc n → (n ≤ goes i l)%nat →
  ∃ l1 l2 c1 pc1, l = l1 ++ l2 ∧ hrun l1 c = Ok c1 ∧ plugins c1 !! i = Some pc1 ∧ found pc1.
Proof.
  induction l as [|a l IH]; intros pub c pc n Hi Hpc Hs Hl Hn.
  { exfalso. cbn in Hn. assert (n = 0%nat) as -> by lia. destruct pc; try done; destruct Hl as (ls & _ & _ & ?); lia. }
  destruct (step_ok pub c a Hi) as (pub' & c' & Hstep & Hext & Hi').
  assert (∀ l1 c1, hrun l1 c' = Ok c1 → hrun (a :: l1) c = Ok c1) as Hcons by (intros; cbn [hrun]; by rewrite Hstep).
  pose proof (scan_left_stable pub pub' c a c' pc n Hi Hstep Hext Hl) as Hl'.
  destruct (decide (a = Plug i Go)) as [->|Hne].
  - cbn in Hn. rewrite decide_True in Hn by done. pose proof Hstep as E. cbn [hstep] in E. rewrite Hpc in E. inv_ok E.
    destruct c as [ts sp [h f] ha ac]. cbn [plugins memory mem] in *.
    destruct (scan_step pub h f pc n v Hl E0) as (pc' & s' & bs & -> & Hd). injection E as <-. cbn [plugins memory mem storage handed accepted] in *.
    assert (<[i := pc']> ts !! i = Some pc') as Hpc' by (apply list_lookup_insert_eq; by eapply lookup_lt_Some).
    destruct Hd as [Hf|(-> & n' & -> & Hn')].
    + exists [Plug i Go], l. do 2 eexists. split; [done|]. split; [by apply Hcons|]. by split.
    + edestruct (IH pub' (Config (<[i := pc']> ts) sp (Shm h f) (bs ++ ha) ac) pc' n')
        as (l1 & l2 & c1 & pc1 & -> & Hrun & Hp1 & Hf1); [done|done|by destruct pc'| |lia|].
      { cbn. destruct Hext as [-> |[b ->]]; [done|]. destruct pc'; try done; destruct Hn' as (ls & ? & ? & ->);
          exists ls; (split; [done|]); (split; [|done]); intros x Hx; right; auto. }
      exists (Plug i Go :: l1), l2, c1, pc1. split; [done|]. split; [by apply Hcons|]. by split.
  - assert (goes i (a :: l) = goes i l) as Eg.
    { cbn. destruct a as [j []|]; try done. rewrite decide_False; [done|]. by intros ->. }
    rewrite Eg in Hn. destruct (IH pub' c' pc n) as (l1 & l2 & c1 & pc1 & -> & Hrun & Hp1 & Hf1);
      [done|by eapply other_thread|done|done|done|].
    exists (a :: l1), l2, c1, pc1. split; [done|]. split; [by apply Hcons|]. by split.
Qed.

(** C14. A search of [get_packet] ends: once the plugin has taken two steps per packet
    and one more, it has found a DONE packet or goes on to allocate one, whatever
    the other threads insert, recycle and post in between. *)
Theorem scan_ends n l0 c i pc l :
  hrun l0 (hstart n) = Ok c → plugins c !! i = Some pc → scanning pc = true →
  (2 * base.size (mem (memory c)) + 1 ≤ goes i l)%nat →
  ∃ l1 l2 c1 pc1, l = l1 ++ l2 ∧ hrun l1 c = Ok c1 ∧ plugins c1 !! i = Some pc1 ∧ found pc1.
Proof.
  intros Hrun Hpc Hs Hg. destruct (reach_inv n l0 c Hrun) as [pub Hi].
  pose proof (v_plugins _ _ Hi) as Hf. rewrite list.Forall_forall in Hf.
  destruct (scan_left_bound pub c pc Hi (Hf _ (list_elem_of_lookup_2 _ _ _ Hpc)) Hs) as (k & Hk & Hle).
  apply (scan_ends_from i l pub c pc k); try done. lia.
Qed.

(** ** Every lock comes back *)

Definition owned (c : config) (a : loc) : Prop :=
  (∃ i pc, plugins c !! i = Some pc ∧ owns pc = Some a) ∨ sowns (storage c) = Some a.

Definition spins_owned (c : config) : Prop :=
  ∀ a p, mem (memory c) !! a = Some p → spin p ≠ 0 → owned c a.

(** A lock that is held after a step was held before it by another thread, or is
    the mover's. *)
Lemma effect_locks link o o' h h' a p' :
  effect link o o' h h' → h' !! a = Some p' → spin p' ≠ 0 →
  o' = Some a ∨ o ≠ Some a ∧ ∃ p, h !! a = Some p ∧ spin p ≠ 0.
Proof.
  intros [Ho|b p q Hb _ Hl|b p Hb Ho Hp].
  - subst o'. intros Ha Hs. destruct (decide (o = Some a)); [by left|]. right. split; [done|]. by exists p'.
  - unfold lock_move in Hl. destruct (decide (b = a)) as [->|Hd].
    + rewrite lookup_insert_eq. intros [= <-] Hs. destruct Hl as [[E1 ->]|[[_ E2]|[(E1 & _)|(E1 & _)]]]; [|by left|done..].
      destruct (decide (o = Some a)); [by left|]. right. split; [done|]. exists p. by rewrite <- E1.
    + rewrite lookup_insert_ne by done. intros Ha Hs.
      destruct Hl as [[_ ->]|[[-> _]|[(_ & -> & _)|(_ & -> & _)]]]; [destruct (decide (o = Some a)); [by left|]|..];
        right; (split; [congruence|]); by exists p'.
  - subst o'. destruct (decide (b = a)) as [->|Hd]; [rewrite lookup_insert_eq; by intros [= <-]|].
    rewrite lookup_insert_ne by done. intros Ha Hs. destruct (decide (o = Some a)); [by left|]. right. split; [done|]. by exists p'.
Qed.

Lemma step_owned c a c' : spins_owned c → hstep a c = Ok c' → spins_owned c'.
Proof.
  intros Hs H. destruct a as [i m|r]; cbn in H.
  - destruct (plugins c !! i) as [pc|] eqn:Hpc; [|by simplify_eq]. inv_ok H.
    destruct v as [[[pc' s'] bs]|]; simplify_eq; [|done]. intros a p' Ha Hsp. cbn in Ha.
    assert (i < length (plugins c))%nat as Hlt by (by eapply lookup_lt_Some).
    destruct (effect_locks _ _ _ _ _ a p' (pstep_effect _ _ _ _ _ _ E) Ha Hsp) as [Ho|(Ho & p & Hp & Hv)].
    + left. exists i, pc'. cbn. by rewrite list_lookup_insert_eq.
    + destruct (Hs a p Hp Hv) as [(j & q & Hj & Hq)|Hst]; [|by right]. left. exists j, q. cbn.
      rewrite list_lookup_insert_ne; [done|]. intros <-. by simplify_eq.
  - inv_ok H. destruct v as [[[sp' s'] bs]|]; simplify_eq; [|done]. intros a p' Ha Hsp. cbn in Ha.
    destruct (effect_locks _ _ _ _ _ a p' (sstep_effect _ _ _ _ _ _ E) Ha Hsp) as [Ho|(Ho & p & Hp & Hv)];
      [by right|]. destruct (Hs a p Hp Hv) as [Hpl|Hst]; [by left|done].
Qed.

Lemma run_owned l c c' : spins_owned c → hrun l c = Ok c' → spins_owned c'.
Proof.
  revert c. induction l as [|a l IH]; intros c Hs H; cbn in H; [by injection H as <-|].
  inv_ok H. eapply IH; [|done]. by eapply step_owned.
Qed.

(** The steps a thread takes before it gives its lock back. *)
Definition lock_left (pc : plug_pc) : nat :=
  match pc with ILink _ _ => 3 | IPush _ _ => 2 | IUnlock _ _ => 1 | _ => 0 end.
Definition slock_left (sp : spc) : nat := match sp with SRead _ => 2 | SUnlock _ _ => 1 | _ => 0 end.

(** A step that goes on towards freeing [a]. *)
Definition freeing (a : loc) (n n' : nat) (o' : option loc) (s' : shm) : Prop :=
  o' = Some a ∧ n = S n' ∨ o' = None ∧ n = 1%nat ∧ ∃ p, mem s' !! a = Some p ∧ spin p = 0.

Lemma upd_freed a s p : mem s !! a = Some p → ∃ s', upd a (set_spin 0) s = Ok s' ∧ ∃ p', mem s' !! a = Some p' ∧ spin p' = 0.
Proof.
  intros Ha. unfold upd. rewrite (deref_Some _ _ _ Ha). eexists. split; [done|]. cbn. rewrite lookup_insert_eq. by eexists.
Qed.

(** C15. No lock is lost: in every reachable state a lock that is taken is owned by a
    plugin that is inserting or by the storage thread in [packet_fetch]; that
    thread is not blocked, and its next steps, three at most, free the lock. *)
Theorem locks_come_back n l c a p :
  hrun l (hstart n) = Ok c → mem (memory c) !! a = Some p → spin p ≠ 0 →
  (∃ i pc pc' s', plugins c !! i = Some pc ∧ owns pc = Some a
     ∧ pstep Go pc (memory c) = Ok (Some (pc', s', []))
     ∧ freeing a (lock_left pc) (lock_left pc') (owns pc') s')
  ∨ sowns (storage c) = Some a
    ∧ ∀ r, ∃ sp' s', sstep r (storage c) (memory c) = Ok (Some (sp', s', []))
             ∧ freeing a (slock_left (storage c)) (slock_left sp') (sowns sp') s'.
Proof.
  intros Hrun Ha Hs. destruct (reach_inv n l c Hrun) as [pub Hi].
  destruct (run_owned l (hstart n) c ltac:(done) Hrun a p Ha Hs) as [(i & pc & Hpc & Ho)|Ho].
  - left. exists i, pc. pose proof (v_plugins _ _ Hi) as Hf. rewrite list.Forall_forall in Hf.
    pose proof (list_elem_of_lookup_2 _ _ _ Hpc) as Hin. specialize (Hf _ Hin).
    destruct pc as [| | | | | | | | |b h'|b h'|b h'|]; try done; injection Ho as ->; cbn [pstep].
    + assert (b ∈ held (plugins c)) as Hb by (apply list_elem_of_omap; by exists (ILink b a)).
      apply (held_in Hi) in Hb as (q & Hq & _). unfold upd. rewrite (deref_Some _ _ _ Hq). cbn.
      do 2 eexists. do 3 (split; [done|]). by left.
    + do 2 eexists. do 3 (split; [done|]). by left.
    + destruct (upd_freed a (memory c) p Ha) as (s' & E & Hfree). rewrite E. cbn. do 2 eexists. do 3 (split; [done|]). by right.
  - right. split; [done|]. intros r. destruct (storage c) as [| | | |b|b ready| | | |]; try done; injection Ho as ->; cbn [sstep].
    + rewrite (deref_Some _ _ _ Ha). cbn. do 2 eexists. split; [done|]. by left.
    + destruct (upd_freed a (memory c) p Ha) as (s' & E & Hfree). rewrite E. cbn. do 2 eexists. split; [done|].
      right. by destruct ready.
Qed.

(** ** Witnesses *)

(** Plugin 0 has a packet, and plugin 1 has begun its search. *)
Definition searching : list act := (Plug 0 <$> [Go; Go; Malloc 1; Go; Go]) ++ (Plug 1 <$> [Go]).

Lemma scan_ends_witness :
  match hrun searching (hstart 2) with
  | Ok c => ∃ l1 l2 c1 pc1, (Plug 1 <$> [Go; Go; Go]) = l1 ++ l2 ∧ hrun l1 c = Ok c1
              ∧ plugins c1 !! 1%nat = Some pc1 ∧ found pc1
  | _ => False
  end.
Proof.
  assert (match hrun searching (hstart 2) with
          | Ok c => Some (plugins c !! 1%nat, base.size (mem (memory c))) | _ => None end
          = Some (Some (Scan (Some 1%positive)), 1%nat)) as H by by vm_compute.
  destruct (hrun searching (hstart 2)) as [c| |] eqn:E; try discriminate H. injection H as Hpc Hsz.
  apply (scan_ends 2 searching c 1 (Scan (Some 1%positive))); [exact E|exact Hpc|reflexivity|rewrite Hsz; vm_compute; lia].
Defined.

(** Plugin 1 inserts and has the lock of the first packet. *)
Definition inserting : list act :=
  (Plug 0 <$> [Go; Go; Malloc 1; Go; Go]) ++ (Plug 1 <$> [Go; Go; Go; Go; Malloc 2; Go; Go; Go]).

Lemma locks_come_back_witness :
  match hrun inserting (hstart 2) with
  | Ok c => match mem (memory c) !! 1%positive with
            | Some p => spin p ≠ 0
                ∧ ((∃ i pc pc' s', plugins c !! i = Some pc ∧ owns pc = Some 1%positive
                      ∧ pstep Go pc (memory c) = Ok (Some (pc', s', []))
                      ∧ freeing 1 (lock_left pc) (lock_left pc') (owns pc') s')
                   ∨ sowns (storage c) = Some 1%positive
                     ∧ ∀ r, ∃ sp' s', sstep r (storage c) (memory c) = Ok (Some (sp', s', []))
                              ∧ freeing 1 (slock_left (storage c)) (slock_left sp') (sowns sp') s')
            | None => False
            end
  | _ => False
  end.
Proof.
  assert (match hrun inserting (hstart 2) with
          | Ok c => spin <$> mem (memory c) !! 1%positive | _ => None end = Some 1) as H by by vm_compute.
  destruct (hrun inserting (hstart 2)) as [c| |] eqn:E; try discriminate H.
  destruct (mem (memory c) !! 1%positive) as [p|] eqn:Ep; [|discriminate H]. cbn in H. injection H as Hs.
  assert (spin p ≠ 0) as Hne by (rewrite Hs; lia).
  split; [exact Hne|]. exact (locks_come_back 2 inserting c 1 p E Ep Hne).
Defined.
