(* ===== verification/HandoffLost.v ===== *)
(** A packet that nobody can find any more, and how recycling next to insertions
    (src/storage.c) comes to one: what was handed over in it is never accepted. *)
From Stdlib Require Import ZArith Ascii Lia.
From stdpp Require Import base list strings numbers gmap sets.
From S2P Require Import Prelude.
From S2P Require Import Packet.
From S2P Require Import Storage.
From S2P Require Import Handoff.
Import Handoff.

Local Open Scope Z_scope.

(** * Packets that are out of reach *)

(** The packets a thread has a pointer to. *)
Definition mentions (pc : plug_pc) : list loc :=
  match pc with
  | Idle | Alloc | Scan None => []
  | Scan (Some a) | Next a | Reset a _ | ITest a | ICas a | IHead a | Hold a => [a]
  | ILock a h | ILink a h | IPush a h | IUnlock a h => [a; h]
  end.

Definition mentions_s (pc : spc) : list loc :=
  match pc with
  | SIdle | SVisit None => []
  | SVisit (Some a) | SAttempt a | SFetch a | SRead a | SUnlock a _ | SSend a _ | SWait a _ | SDone a | SNext a => [a]
  end.

(** The packet [p] at [a] is on no list: neither [packets] nor another packet points
    to it. *)
Definition off_list (a : loc) (p : packet_t) (s : shm) : Prop :=
  mem s !! a = Some p ∧ first s ≠ Some a ∧ ∀ x q, x ≠ a → mem s !! x = Some q → next q ≠ Some a.

Definition lost (a : loc) (p : packet_t) (c : config) : Prop :=
  off_list a p (memory c) ∧ Forall (λ pc, a ∉ mentions pc) (plugins c) ∧ a ∉ mentions_s (storage c).

Lemma off_list_insert a p s x q :
  off_list a p s → x ≠ a → next q ≠ Some a → off_list a p (Shm (<[x := q]> (mem s)) (first s)).
Proof.
  intros (Hp & Hf & Hn) Hx Hq. split; [|split]; cbn; [by rewrite lookup_insert_ne|done|].
  intros y r Hy. destruct (decide (y = x)) as [->|Hyx]; [rewrite lookup_insert_eq; by intros [= <-]|].
  rewrite lookup_insert_ne by done. by apply Hn.
Qed.

Lemma off_list_upd a p s x f s' :
  off_list a p s → x ≠ a → (∀ q, next q ≠ Some a → next (f q) ≠ Some a) → upd x f s = Ok s' → off_list a p s'.
Proof.
  intros Ho Hx Hf H. unfold upd in H. inv_ok H. injection H as <-. apply off_list_insert; [done|done|].
  apply Hf. destruct Ho as (_ & _ & Hn). apply (Hn x); [done|]. unfold deref in E. cbn in E.
  destruct (mem s !! x); cbn in E; congruence.
Qed.

Lemma off_list_next a p s x q : off_list a p s → x ≠ a → deref (mem s) (Some x) = Ok q → next q ≠ Some a.
Proof.
  intros (_ & _ & Hn) Hx E. apply (Hn x); [done|]. unfold deref in E. cbn in E. destruct (mem s !! x); cbn in E; congruence.
Qed.

Lemma off_list_first a p s x : off_list a p s → x ≠ a → off_list a p (Shm (mem s) (Some x)).
Proof. intros (? & _ & ?) ?. split; [done|]. split; [|done]. cbn. congruence. Qed.

Lemma alone_upd {A} (x y : A) a p s z f s' bs :
  off_list a p s → z ≠ a → (∀ q, next q ≠ Some a → next (f q) ≠ Some a) →
  alone x (upd z f s) = Ok (Some (y, s', bs)) → off_list a p s' ∧ y = x.
Proof. intros Ho Hz Hf H. unfold alone in H. inv_ok H. injection H as <- <- <-. split; [by eapply off_list_upd|done]. Qed.

(** The step of a thread that has no pointer to the packet leaves it alone and does
    not get one. *)
Lemma pstep_off m pc s pc' s' bs a p :
  off_list a p s → a ∉ mentions pc → pstep m pc s = Ok (Some (pc', s', bs)) → off_list a p s' ∧ a ∉ mentions pc'.
Proof.
  intros Ho Hm H. pose proof Ho as (Hp & Hf & _).
  assert (∀ l, l ≠ Some a → a ∉ mentions (Scan l)) as Hscan.
  { intros [b|] Hl; cbn; [|by apply not_elem_of_nil]. intros ->%list_elem_of_singleton. by apply Hl. }
  destruct pc as [|[b|]|b|b fs| |b|b|b|b h|b h|b h|b h|b], m as [|b'|d| |]; try done; cbn [pstep] in H; try done;
    try (by destruct fs); cbn [mentions] in Hm; rewrite ?not_elem_of_cons in Hm; try (destruct Hm as [Hb Hm]).
  - injection H as <- <- <-. by split; [|apply Hscan].
  - inv_ok H. pose proof (off_list_next _ _ _ _ _ Ho (not_eq_sym Hb) E) as Hn. unfold packet_change_state in H.
    destruct (bool_decide _); cbn in H; injection H as <- <- <-; (split; [|by apply not_elem_of_cons]); [|done].
    by apply off_list_insert.
  - by injection H as <- <- <-.
  - inv_ok H. pose proof (off_list_next _ _ _ _ _ Ho (not_eq_sym Hb) E). injection H as <- <- <-. by split; [|apply Hscan].
  - destruct fs as [|f fs]; [injection H as <- <- <-; by split; [|apply not_elem_of_cons]|].
    apply (alone_upd _ _ a p) in H as [? ->]; [by split; [|apply not_elem_of_cons]|done|done|by destruct f].
  - destruct (decide (mem s !! b' = None)) as [Hfr|]; [|done]. assert (b' ≠ a) as Hne by (intros ->; congruence).
    unfold packet_alloc in H. destruct (packet_type_of _) as [t|]; [|done]. injection H as <- <- <-.
    split; [by apply off_list_insert|]. apply not_elem_of_cons. split; [done|apply not_elem_of_nil].
  - injection H as <- <- <-. split; [done|]. by destruct (first s); apply not_elem_of_cons.
  - destruct (first s); injection H as <- <- <-; (split; [|by apply not_elem_of_cons]); [done|]. by apply off_list_first.
  - inv_ok H. injection H as <- <- <-. split; [done|]. destruct (first s) as [x|]; cbn in E; [|done]. injection E as ->.
    do 2 (apply not_elem_of_cons; split; [first [done|congruence]|]). apply not_elem_of_nil.
  - inv_ok H. destruct (spin v =? 0); [|done]. destruct Hm as [Hh Hm].
    apply (alone_upd _ _ a p) in H as [? ->]; [|done|done|done]. split; [done|]. cbn; by rewrite !not_elem_of_cons.
  - destruct Hm as [Hh Hm]. apply (alone_upd _ _ a p) in H as [? ->]; [|done|done|done].
    split; [done|]. cbn; by rewrite !not_elem_of_cons.
  - destruct Hm as [Hh Hm]. injection H as <- <- <-. split; [by apply off_list_first|]. cbn; by rewrite !not_elem_of_cons.
  - destruct Hm as [Hh Hm]. apply (alone_upd _ _ a p) in H as [? ->]; [|done|done|done]. by split; [|apply not_elem_of_cons].
  - destruct (decide (NUL ∈ f_payload d)); [|done]. apply (alone_upd _ _ a p) in H as [? ->]; [|done|done|done]. by split; [|apply not_elem_of_cons].
  - inv_ok H. destruct (state v); try done;
      (apply (alone_upd _ _ a p) in H as [? ->]; [|done|done|done]; by split; [|apply not_elem_of_cons]).
  - inv_ok H. destruct (bool_decide _).
    + inv_ok H. injection H as <- <- <-. split; [by apply (off_list_upd _ _ _ _ _ _ Ho (not_eq_sym Hb)) in E0|]. apply not_elem_of_nil.
    + apply (alone_upd _ _ a p) in H as [? ->]; [|done|done|done]. split; [done|]. apply not_elem_of_nil.
Qed.

Lemma sstep_off r pc s pc' s' bs a p :
  off_list a p s → a ∉ mentions_s pc → sstep r pc s = Ok (Some (pc', s', bs)) → off_list a p s' ∧ a ∉ mentions_s pc'.
Proof.
  intros Ho Hm H. pose proof Ho as (Hp & Hf & _).
  assert (∀ l, l ≠ Some a → a ∉ mentions_s (SVisit l)) as Hvis.
  { intros [b|] Hl; cbn; [|by apply not_elem_of_nil]. intros ->%list_elem_of_singleton. by apply Hl. }
  destruct pc as [|[b|]|b|b|b|b ready|b sent|b sent|b|b]; cbn [sstep] in H; cbn [mentions_s] in Hm;
    rewrite ?not_elem_of_cons in Hm; try (destruct Hm as [Hb Hm]).
  - injection H as <- <- <-. by split; [|apply Hvis].
  - inv_ok H. injection H as <- <- <-. split; [done|]. by destruct (bool_decide _); apply not_elem_of_cons.
  - by injection H as <- <- <-.
  - apply (alone_upd _ _ a p) in H as [? ->]; [|done|done|done]. by split; [|apply not_elem_of_cons].
  - inv_ok H. destruct (spin v =? 0); [|done].
    apply (alone_upd _ _ a p) in H as [? ->]; [|done|done|done]. by split; [|apply not_elem_of_cons].
  - inv_ok H. injection H as <- <- <-. by split; [|apply not_elem_of_cons].
  - apply (alone_upd _ _ a p) in H as [? ->]; [|done|done|done]. split; [done|].
    destruct ready; [by apply not_elem_of_cons|apply not_elem_of_nil].
  - inv_ok H. inv_ok H. injection H as <- <- <-. split; [done|]. by destruct (Ascii.eqb _ _); apply not_elem_of_cons.
  - inv_ok H. inv_ok H. assert (off_list a p v0) as Ho' by (by apply (off_list_upd _ _ _ _ _ _ Ho (not_eq_sym Hb)) in E0).
    destruct (r_ok r); injection H as <- <- <-; (split; [done|]); [by apply not_elem_of_cons|apply not_elem_of_nil].
  - apply (alone_upd _ _ a p) in H as [? ->]; [|done|done|done]. by split; [|apply not_elem_of_cons].
  - inv_ok H. pose proof (off_list_next _ _ _ _ _ Ho (not_eq_sym Hb) E). injection H as <- <- <-. by split; [|apply Hvis].
Qed.

Lemma lost_step x c c' a p : lost a p c → hstep x c = Ok c' → lost a p c'.
Proof.
  intros (Ho & Hp & Hs) H. destruct x as [i m|r]; cbn [hstep] in H.
  - destruct (plugins c !! i) as [pc|] eqn:Ei; [|by injection H as <-]. inv_ok H.
    destruct v as [[[pc' s'] bs]|]; injection H as <-; [|done].
    destruct (pstep_off m pc (memory c) pc' s' bs a p) as [Ho' Hm]; [done| |done|].
    { by apply (proj1 (list.Forall_lookup _ _) Hp i). }
    split; [done|]. split; [|done]. cbn. by apply list.Forall_insert.
  - inv_ok H. destruct v as [[[pc' s'] bs]|]; injection H as <-; [|done].
    destruct (sstep_off r (storage c) (memory c) pc' s' bs a p) as [Ho' Hm]; [done..|]. done.
Qed.

(** Once lost, always lost. *)
Lemma lost_run l : ∀ c c' a p, lost a p c → hrun l c = Ok c' → lost a p c'.
Proof.
  induction l as [|x l IH]; intros c c' a p Hl H; cbn [hrun] in H; [by injection H as <-|]. inv_ok H.
  eapply IH; [|exact H]. by eapply lost_step.
Qed.

(** What was handed over in a lost packet is not among what was accepted. *)
Lemma lost_unaccepted pub c a p :
  inv pub c → lost a p c → state p = READY → ∃ rest, handed c ≡ₚ body_of p :: rest ∧ accepted c ⊆+ rest.
Proof.
  intros Hi ((Hp & _ & _) & _ & Hs) Hr. exists (accepted c ++ collect (wait_at (storage c)) (delete a (mem (memory c)))).
  split; [|by apply submseteq_inserts_r].
  rewrite (v_log _ _ Hi). unfold waiting. rewrite (collect_split _ _ a p Hp). unfold wait_at at 1. cbn [fst snd].
  rewrite bool_decide_true; [symmetry; apply Permutation_middle|]. split; [done|]. unfold posted.
  destruct (storage c); try done. intros [= ->]. apply Hs. by left.
Qed.

(** * Handing over a packet *)

Ltac eval_step := cbn [rbind memory plugins storage handed accepted app mem first].

(** Filling the packet one has got and giving it away. *)
Lemma hand_over i a p d c :
  plugins c !! i = Some (Hold a) → mem (memory c) !! a = Some p → state p = EMPTY → NUL ∈ f_payload d →
  let q := set_state READY (fill d p) in
  hrun (Plug i <$> [Mark; Fill d; Mark; Close]) c
  = Ok (Config (<[i := Idle]> (plugins c)) (storage c) (Shm (<[a := q]> (mem (memory c))) (first (memory c)))
          (body_of q :: handed c) (accepted c)).
Proof.
  intros Hi Hp Hs Hd q. assert (i < length (plugins c))%nat as Hl by by eapply lookup_lt_Some.
  assert (∀ pc, <[i := pc]> (plugins c) !! i = Some pc) as Hlook by (intros; by apply list_lookup_insert_eq).
  assert (∀ h (x : packet_t), deref (<[a := x]> h) (Some a) = Ok x) as Hder
    by (intros; apply deref_Some, lookup_insert_eq).
  cbn [fmap list_fmap hrun hstep]. rewrite Hi. cbn [pstep]. rewrite (deref_Some _ _ _ Hp). cbn [rbind]. rewrite Hs.
  unfold alone at 1, upd at 1. rewrite (deref_Some _ _ _ Hp). eval_step.
  rewrite Hlook. cbn [pstep]. destruct (decide (NUL ∈ f_payload d)) as [_|]; [|done].
  unfold alone at 1, upd at 1. eval_step. rewrite Hder. eval_step.
  rewrite list_insert_insert_eq, Hlook. cbn [pstep]. eval_step. rewrite Hder. cbn [rbind state fill set_started set_size set_rollback_point set_payload set_state].
  unfold alone at 1, upd at 1. eval_step. rewrite Hder. eval_step.
  rewrite list_insert_insert_eq, Hlook. cbn [pstep]. eval_step. rewrite Hder. eval_step.
  rewrite bool_decide_true by done. unfold upd. eval_step. rewrite Hder. eval_step.
  rewrite list_insert_insert_eq, !insert_insert_eq. done.
Qed.

(** * Recycling next to insertions *)

(** Plugin 0 has the first packet while plugins 1 and 2 find nothing to recycle;
    it gives it back and plugin 1 takes its lock to insert; plugin 0 recycles it,
    which clears the lock; plugin 2 takes the lock too. *)
Definition unlocking : list act :=
  (Plug 0 <$> [Go; Go; Malloc 1; Go; Go])
  ++ (Plug 1 <$> [Go; Go; Go; Go; Malloc 2]) ++ (Plug 2 <$> [Go; Go; Go; Go; Malloc 3])
  ++ (Plug 0 <$> [Mark; Close])
  ++ (Plug 1 <$> [Go; Go; Go; Go])
  ++ (Plug 0 <$> [Go; Go; Go; Go; Go; Go; Go; Go])
  ++ (Plug 2 <$> [Go; Go; Go; Go])
  ++ (Plug 1 <$> [Go; Go]) ++ (Plug 2 <$> [Go; Go]).

(** The pointers after it: packet 2 is not on the list, and plugin 1 has it. *)
Lemma unlocked :
  ∃ c p, hrun unlocking (hstart 3) = Ok c ∧ plugins c = [Hold 1; Hold 2; Hold 3] ∧ storage c = SIdle
    ∧ mem (memory c) !! 2%positive = Some p ∧ state p = EMPTY ∧ type p = METRIC
    ∧ first (memory c) = Some 3%positive
    ∧ ∀ x q, x ≠ 2%positive → mem (memory c) !! x = Some q → next q ≠ Some 2%positive.
Proof.
  destruct (hrun_ok unlocking [] (hstart 3) (start_inv 3)) as (_ & c & E & _).
  set (look := λ (m : res config), match m with
    | Ok c => Some (plugins c, storage c, (λ p, (state p, type p)) <$> mem (memory c) !! 2%positive, first (memory c),
                    prod_map id next <$> map_to_list (mem (memory c)))
    | _ => None end).
  assert (∃ l, look (hrun unlocking (hstart 3))
      = Some ([Hold 1; Hold 2; Hold 3], SIdle, Some (EMPTY, METRIC), Some 3%positive, l)
    ∧ forallb (λ x, bool_decide (x.1 = 2%positive ∨ x.2 ≠ Some 2%positive)) l = true) as (l & Hl & Hn).
  { eexists. split; [vm_compute; reflexivity|vm_compute; reflexivity]. }
  rewrite E in Hl. subst look. cbv beta iota in Hl. injection Hl as Hp Hs H2 Hf <-.
  apply fmap_Some in H2 as (p & H2 & [= Hst Hty]). exists c, p. do 7 (split; [done|]). intros x q Hx Hq.
  assert ((x, next q) ∈ prod_map id next <$> map_to_list (mem (memory c))) as Hin.
  { apply list_elem_of_fmap. exists (x, q). split; [reflexivity|]. by apply elem_of_map_to_list. }
  apply list_elem_of_In in Hin. apply (proj1 (forallb_forall _ _) Hn), bool_decide_eq_true_1 in Hin.
  cbn in Hin. destruct Hin as [Hin|Hin]; [exfalso; exact (Hx Hin)|exact Hin].
Qed.

(** C16. Resetting [spin] while recycling frees a lock that another plugin has taken.
    Two insertions, which are safe on their own, then lose a packet when a third
    plugin recycles the head of the list between them: whatever its plugin writes
    into that packet and hands over, no continuation, of any threads, gives it to
    the server.  It stays READY in memory, and the bodies that are accepted are
    among the others that were handed over. *)
Theorem recycling_loses_packet d :
  NUL ∈ f_payload d →
  ∃ l c, hrun l (hstart 3) = Ok c ∧ (METRIC, cstr (f_payload d)) ∈ handed c
    ∧ ∀ l', ∃ c' p rest, hrun l' c = Ok c' ∧ lost 2 p c' ∧ state p = READY
        ∧ body_of p = (METRIC, cstr (f_payload d))
        ∧ handed c' ≡ₚ (METRIC, cstr (f_payload d)) :: rest ∧ accepted c' ⊆+ rest.
Proof.
  intros Hd. destruct unlocked as (c0 & p0 & E0 & Hpl & Hsp & Hp & Hst & Hty & Hf & Hn).
  pose proof (hand_over 1 2 p0 d c0) as E1. rewrite Hpl in E1. specialize (E1 eq_refl Hp Hst Hd). cbv zeta in E1.
  set (q := set_state READY (fill d p0)) in *. set (c := Config _ _ _ _ _) in E1.
  exists (unlocking ++ (Plug 1 <$> [Mark; Fill d; Mark; Close])), c.
  assert (hrun (unlocking ++ (Plug 1 <$> [Mark; Fill d; Mark; Close])) (hstart 3) = Ok c) as E
    by (rewrite run_app, E0; exact E1).
  assert (body_of q = (METRIC, cstr (f_payload d))) as Hb by (clear E E0 E1; unfold body_of; cbn; by rewrite Hty).
  assert (lost 2 q c) as Hl.
  { clear E E0 E1. split; [|split].
    - split; [apply lookup_insert_eq|]. split; [cbn; by rewrite Hf|]. intros x r Hx. cbn.
      rewrite lookup_insert_ne by done. by apply Hn.
    - change (Forall (λ pc, 2%positive ∉ mentions pc) [Hold 1; Idle; Hold 3]). apply (bool_decide_unpack _). vm_compute. exact I.
    - cbn. rewrite Hsp. apply not_elem_of_nil. }
  split; [exact E|]. split; [cbn; rewrite Hb; by left|]. intros l'.
  destruct (hrun_ok (unlocking ++ (Plug 1 <$> [Mark; Fill d; Mark; Close])) [] (hstart 3) (start_inv 3))
    as (pub & c1 & Ec & Hi). rewrite E in Ec. injection Ec as <-.
  destruct (hrun_ok l' pub c Hi) as (pub' & c' & E' & Hi'). pose proof (lost_run l' c c' 2 q Hl E') as Hl'.
  destruct (lost_unaccepted pub' c' 2 q Hi' Hl' eq_refl) as (rest & Hr & Ha). rewrite Hb in Hr.
  exists c', q, rest. exact (conj E' (conj Hl' (conj eq_refl (conj Hb (conj Hr Ha))))).
Qed.

Definition some_text : filling := Filling 0 2 0 (lit "{}" ++ [NUL]).

Lemma recycling_loses_packet_witness :
  ∃ l c, hrun l (hstart 3) = Ok c ∧ (METRIC, lit "{}") ∈ handed c
    ∧ ∀ l', ∃ c' p rest, hrun l' c = Ok c' ∧ lost 2 p c' ∧ state p = READY ∧ body_of p = (METRIC, lit "{}")
        ∧ handed c' ≡ₚ (METRIC, lit "{}") :: rest ∧ accepted c' ⊆+ rest.
Proof. apply (recycling_loses_packet some_text). apply (bool_decide_unpack _). vm_compute. exact I. Defined.
