(* ===== verification/Plugin.v ===== *)
(** src/plugin.c: the life of a plugin.  Its task pointer is a state machine,
    prepare, register, gather, with alerts in between; its packets go to the
    server directly (registration, alerts) or through the storage list
    (metrics). *)
From Stdlib Require Import ZArith Ascii Lia SpecFloat.
From stdpp Require Import base list strings numbers gmap.
From S2P Require Import Prelude.
From S2P Require Import Clib.
From S2P Require Import Json.
From S2P Require Import Packet.
From S2P Require Import Sender.
From S2P Require Import Routine.
From S2P Require Import Storage.

Local Open Scope Z_scope.

(** The globals of src/metadata.c. *)
Record metadata := Metadata {
  license : bytes; aid : Z; agent_type : bytes; os : bytes; host : bytes; aip : bytes
}.

(** The target type and the address are C strings; [prep], [gather] and [cmp]
    are function pointers; the module is the plugin's own data. *)
Record plugin_t (E M : Type) := Plugin {
  r : routine_t;
  tid : Z;
  tip : option bytes;
  ptype : bytes;
  working : option loc;
  oob : option loc;
  prep : option (E → M → Z * M);
  gather : gather_fn E M;
  cmp : bytes → M → Z → Z;
  module_size : Z;
  module : M
}.

Arguments Plugin {E M}.
Arguments r {E M}.
Arguments tid {E M}.
Arguments tip {E M}.
Arguments ptype {E M}.
Arguments working {E M}.
Arguments oob {E M}.
Arguments prep {E M}.
Arguments gather {E M}.
Arguments cmp {E M}.
Arguments module_size {E M}.
Arguments module {E M}.

(** The rest of the program's memory and the files of [res/]. *)
Record world := World { w_store : store; w_senders : senders; w_res : gmap bytes bytes }.

Definition set_cells (h : heap) (w : world) : world :=
  World (Store h (packets (w_store w))) (w_senders w) (w_res w).

Definition w_heap (w : world) : heap := cells (w_store w).

(** [epoch_time()*epoch_time()*epoch_time()] on three readings of the clock. *)
Definition new_id (now : nat → Z) (i : nat) : Z := u64 (now i * now (S i) * now (S (S i))).

(** A little-endian [int] as [fwrite] stores it. *)
Definition le32 (z : Z) : bytes :=
  (λ k, ascii_of_N (Z.to_N (Z.land (Z.shiftr z (8 * k)) 255))) <$> [0; 1; 2; 3].

Section Plugin.
Context {E M : Type}.
Implicit Types p : plugin_t E M.
Implicit Types js : list json.

(** The memory image of a module. *)
Variable image : M → bytes.
Variable meta : metadata.

Definition set_r v p := Plugin v (tid p) (tip p) (ptype p) (working p) (oob p) (prep p) (gather p) (cmp p) (module_size p) (module p).
Definition set_tid v p := Plugin (r p) v (tip p) (ptype p) (working p) (oob p) (prep p) (gather p) (cmp p) (module_size p) (module p).
Definition set_working v p := Plugin (r p) (tid p) (tip p) (ptype p) v (oob p) (prep p) (gather p) (cmp p) (module_size p) (module p).
Definition set_oob v p := Plugin (r p) (tid p) (tip p) (ptype p) (working p) v (prep p) (gather p) (cmp p) (module_size p) (module p).
Definition set_module v p := Plugin (r p) (tid p) (tip p) (ptype p) (working p) (oob p) (prep p) (gather p) (cmp p) (module_size p) v.

Definition goto (f : task_fn) (p : plugin_t E M) : plugin_t E M :=
  set_r (routine_change_task (r p) (Some f)) p.

(** [plugin_init]; the pointer may be NULL. *)
Definition plugin_init (pt : pthread_results) (p : option (plugin_t E M))
    : Z * option (plugin_t E M) :=
  match p with
  | None => (-1, None)
  | Some p =>
      match routine_init pt (Some (r p)) with
      | (z, Some r') =>
          let p := set_r r' p in
          if z <? 0 then (-1, Some p)
          else
            let p := set_oob None (set_working None (set_tid 0 p)) in
            (0, Some (goto plugin_prep_fn p))
      | (_, None) => (-1, Some p)
      end
  end.

(** [plugin_fini]: [call] is what the call [p->fini(p)] comes to, if there is one. *)
Definition plugin_fini (call : option (res unit)) (p : plugin_t E M) (h : heap) : res (Z * heap) :=
  do _ <- default (Ok tt) call;
  do h <- packet_free h (working p);
  Ok (0, h).

(** ** Registration *)

(** The outcome of the calls [plugin_regr] makes: clock readings, [malloc], the
    network, and whether [fopen] of the state file succeeds. *)
Record regr_env := RegrEnv {
  re_now : nat → Z; re_mem : option loc; re_net : network; re_fopen : bool
}.

Definition regr_tail_args (p : plugin_t E M) : list arg :=
  [AInt (tid p); AStr (agent_type meta); AStr (ptype p); AStr (os meta); AStr (host meta); AStr (aip meta);
   AStr (match tip p with Some _ => lit ",'target_ip':'" | None => [] end);
   AStr (match tip p with Some ip => ip | None => [] end);
   AStr (match tip p with Some _ => lit "'" | None => [] end)].

(** The packet of a first registration. *)
Definition regr_fill (p : plugin_t E M) (k : packet_t) : res packet_t :=
  let k := set_state READY k in
  do k <- packet_append k "{'license':'%s','aid':%llu,'tid':" [AStr (license meta); AInt (aid meta)];
  let k := packet_transaction k in
  packet_append k "%20llu,'agent_type':'%s','target_type':'%s','os':'%s','hostname':'%s','ip':'%s'%s%s%s}"
    (regr_tail_args p).

(** The packet of a repeated registration: [sprintf] over the id field, and the
    comma put back over its terminator. *)
Definition regr_patch (p : plugin_t E M) (k : packet_t) : res packet_t :=
  do s <- of_opt BadFormat (format "%20llu" [AInt (tid p)]);
  let n := rollback_point k in
  if (n <? 0) || (PKTSZ <? n + Z.of_nat (length s) + 1) then Ub OutOfBounds
  else
    let k := set_payload (write_at (payload k) (Z.to_nat n) (s ++ [NUL])) k in
    payload_set k (n + 20) ","%char.

(** The name and the contents of the file a registered plugin leaves in [res/]. *)
Definition res_name (id : Z) : bytes := take (Z.to_nat (BFSZ - 1)) (lit "res/" ++ dec id).

Definition res_file (p : plugin_t E M) : bytes :=
  le32 (Z.of_nat (length (ptype p))) ++ ptype p
  ++ le32 (module_size p) ++ take (Z.to_nat (module_size p)) (image (module p)).

(** The message to post: a new packet, or the last one under the current id. *)
Definition regr_build (e : regr_env) (p : plugin_t E M) (w : world)
    : res (plugin_t E M * loc * packet_t) :=
  match oob p with
  | None =>
      let p := if tid p =? 0 then set_tid (new_id (re_now e) 0) p else p in
      match packet_alloc (re_mem e) 1 with
      | None => Ub NullDeref
      | Some (a, k) =>
          do k <- regr_fill p k;
          Ok (set_oob (Some a) p, a, k)
      end
  | Some a =>
      do k <- deref (w_heap w) (oob p);
      do k <- regr_patch p k;
      Ok (p, a, k)
  end.

Definition plugin_regr (e : regr_env) (p : plugin_t E M) (w : world)
    : res (Z * plugin_t E M * world) :=
  do built <- regr_build e p w;
  let '(p, a, k) := built in
  do sent <- post (re_net e) (w_senders w) k;
  let '(z, sd, k) := sent in
  let w := World (Store (<[a := k]> (w_heap w)) (packets (w_store w))) sd (w_res w) in
  if z <? 0 then
    let p := if response k =? ETARGETREG then set_tid (new_id (re_now e) 3) p else p in
    Ok (-1, p, w)
  else
    do h <- packet_free (w_heap w) (Some a);
    let w := set_cells h w in
    let p := set_oob None p in
    if negb (re_fopen e) then Ub NullDeref
    else
      let w := World (w_store w) (w_senders w) (<[res_name (tid p) := res_file p]> (w_res w)) in
      Ok (0, goto plugin_gather_fn p, w).

(** [plugin_prep] *)
Definition plugin_prep (env : E) (e : regr_env) (p : plugin_t E M) (w : world)
    : res (Z * plugin_t E M * world) :=
  let '(z, m) := match prep p with Some f => f env (module p) | None => (0, module p) end in
  let p := set_module m p in
  if z <? 0 then Ok (-1, p, w)
  else plugin_regr e (goto plugin_regr_fn p) w.

(** ** Alerts *)

Definition alert_fill (p : plugin_t E M) (stat : string) (k : packet_t) : res packet_t :=
  packet_append (set_state READY k) "{'license':'%s','tid':%llu,'status':'%s'}"
    [AStr (license meta); AInt (tid p); AStr (lit stat)].

Definition alert_build (e : regr_env) (stat : string) (p : plugin_t E M) (w : world)
    : res (plugin_t E M * loc * packet_t) :=
  match oob p with
  | None =>
      match packet_alloc (re_mem e) 2 with
      | None => Ub NullDeref
      | Some (a, k) => do k <- alert_fill p stat k; Ok (set_oob (Some a) p, a, k)
      end
  | Some a => do k <- deref (w_heap w) (oob p); Ok (p, a, k)
  end.

Definition plugin_alert (e : regr_env) (stat : string) (p : plugin_t E M) (w : world)
    : res (Z * plugin_t E M * world) :=
  do built <- alert_build e stat p w;
  let '(p, a, k) := built in
  do sent <- post (re_net e) (w_senders w) k;
  let '(z, sd, k) := sent in
  let w := World (Store (<[a := k]> (w_heap w)) (packets (w_store w))) sd (w_res w) in
  if z <? 0 then Ok (-1, p, w)
  else
    do h <- packet_free (w_heap w) (Some a);
    Ok (0, goto plugin_gather_fn (set_oob None p), set_cells h w).

Definition plugin_alert_up e := plugin_alert e "up".
Definition plugin_alert_down e := plugin_alert e "down".

(** ** Gathering *)

(** The start of a metric packet, written when it is EMPTY. *)
Definition gather_open (p : plugin_t E M) (k : packet_t) : res packet_t :=
  if bool_decide (state k = EMPTY) then
    do k <- packet_append k "{'license':'%s','tid':%llu,'metrics':[" [AStr (license meta); AInt (tid p)];
    Ok (set_state BEGIN k)
  else Ok k.

(** One sample, begun at the instant [begin]. *)
Definition gather_sample (env : E) (begin : Z) (p : plugin_t E M) (k : packet_t)
    : res (plugin_t E M * packet_t) :=
  let k := if bool_decide (state k = BEGIN) then set_started begin k else k in
  let k := packet_transaction k in
  do k <- (if bool_decide (state k = WROTE) then packet_append k "," [] else Ok k);
  do k <- packet_append k "{'timestamp':%llu," [AInt begin];
  do g <- packet_gather k "values" (gather p) env (module p);
  let '(z, m, k) := g in
  let p := set_module m p in
  if z =? ENONE then
    do k <- packet_append k "}" [];
    let k := if bool_decide (state k = BEGIN) then set_state WROTE k else k in
    Ok (p, packet_commit k)
  else if z =? ENODATA then
    do k <- packet_rollback k; Ok (p, k)
  else if z =? EPLUGUP then
    do k <- packet_rollback k; Ok (goto plugin_alert_up_fn p, k)
  else if z =? EPLUGDOWN then
    do k <- packet_rollback k; Ok (goto plugin_alert_down_fn p, k)
  else Ok (p, k).

(** The end of the packet, once it has expired at the instant [now]. *)
Definition gather_close (now : Z) (p : plugin_t E M) (k : packet_t)
    : res (plugin_t E M * packet_t) :=
  if packet_expired now (Some k) then
    if bool_decide (state k = WROTE) then
      do k <- packet_append k "]}" [];
      Ok (set_working None p, set_state READY k)
    else Ok (set_working None p, set_state DONE k)
  else Ok (p, k).

(** [plugin_gather]: [mem] is what [malloc] returns, [begin] and [now] the clock
    before the sample and at the expiry test. *)
Definition plugin_gather (env : E) (mem : option loc) (begin now : Z) (p : plugin_t E M) (w : world)
    : res (Z * plugin_t E M * world) :=
  do got <-
    match working p with
    | None =>
        do g <- get_packet mem METRIC (w_store w);
        Ok (set_working g.1 p, World g.2 (w_senders w) (w_res w))
    | Some _ => Ok (p, w)
    end;
  let '(p, w) := got in
  match working p with
  | None => Ub NullDeref
  | Some a =>
      do k <- deref (w_heap w) (Some a);
      do k <- gather_open p k;
      do q <- gather_sample env begin p k;
      do q <- gather_close now q.1 q.2;
      Ok (0, q.1, set_cells (<[a := q.2]> (w_heap w)) w)
  end.

(** [plugin_gather_phase] *)
Definition plugin_gather_phase (p : plugin_t E M) : bool :=
  bool_decide (task (r p) = Some plugin_gather_fn).


(** * The metric packet under construction *)

(** The text before the samples. *)
Definition header (p : plugin_t E M) : bytes :=
  lit "{'license':'" ++ license meta ++ lit "','tid':" ++ dec (tid p mod 2 ^ 64) ++ lit ",'metrics':[".

(** The text of a sample around the members [s] of its values, and its value. *)
Definition sample_text (begin : Z) (s : bytes) : bytes :=
  lit "{'timestamp':" ++ dec (begin mod 2 ^ 64) ++ lit "," ++ member_text "values" s ++ lit "}".

Definition sample_json (begin : Z) (kvs : list (bytes * json)) : json :=
  JObj [(lit "timestamp", JInt (begin mod 2 ^ 64)); (lit "values", JObj kvs)].

(** [samples p k js]: the packet has been opened and shows the samples [js]. *)
Definition samples (p : plugin_t E M) (k : packet_t) (js : list json) : Prop :=
  ∃ s, holds k (header p ++ s) ∧ elements s js
       ∧ state k = (if decide (js = []) then BEGIN else WROTE).

(** [metric_inv p k js]: a packet a plugin may be filling. *)
Definition metric_inv (p : plugin_t E M) (k : packet_t) (js : list json) : Prop :=
  (state k = EMPTY ∧ begins k [] ∧ js = []) ∨ samples p k js.

(** The finished document. *)
Definition document (p : plugin_t E M) (js : list json) : json :=
  JObj [(lit "license", JStr (license meta)); (lit "tid", JInt (tid p mod 2 ^ 64));
        (lit "metrics", JArr js)].

Lemma tid_mod_nonneg z : 0 ≤ z mod 2 ^ 64.
Proof. apply Z.mod_pos_bound. lia. Qed.

(** The comma in front of a sample that is not the first. *)
Definition comma (js : list json) : bytes := if decide (js = []) then [] else [","%char].

Lemma length_comma js : (length (comma js) ≤ 1)%nat.
Proof. unfold comma. case_decide; simpl; lia. Qed.

Lemma elements_add s js t j :
  elements s js → value t j →
  elements (s ++ comma js ++ t) (js ++ [j]).
Proof.
  intros He Hv. pose proof (elements_nil_iff s js He) as Hn. unfold comma. case_decide as Hj.
  - rewrite (proj2 Hn Hj), Hj. by apply e_one.
  - by apply e_snoc.
Qed.

Lemma sample_value begin s kvs :
  members s kvs → value (sample_text begin s) (sample_json begin kvs).
Proof.
  intros Hm. unfold sample_text, sample_json, member_text.
  replace (lit "{'timestamp':" ++ _) with
    ("{"%char :: ((quoted (lit "timestamp") ++ ":"%char :: replicate 0 " "%char ++ dec (begin mod 2 ^ 64))
       ++ ","%char :: quoted (lit "values") ++ ":"%char :: ("{"%char :: s ++ ["}"%char])) ++ ["}"%char]).
  2: { rewrite <- !app_assoc. done. }
  apply v_obj. apply (m_snoc _ [(lit "timestamp", _)]); [|done|solve_clean|by constructor].
  apply m_one; [solve_clean|]. apply v_int, tid_mod_nonneg.
Qed.

Lemma document_value p s js :
  clean (license meta) → elements s js → value (header p ++ s ++ lit "]}") (document p js).
Proof.
  intros Hl He. unfold header, document.
  replace (_ ++ s ++ _) with
    ("{"%char :: (((quoted (lit "license") ++ ":"%char :: quoted (license meta))
       ++ ","%char :: quoted (lit "tid") ++ ":"%char :: replicate 0 " "%char ++ dec (tid p mod 2 ^ 64))
       ++ ","%char :: quoted (lit "metrics") ++ ":"%char :: ("["%char :: s ++ ["]"%char])) ++ ["}"%char]).
  2: { unfold quoted. rewrite <- !app_assoc. simpl. rewrite <- !app_assoc. done. }
  apply v_obj. apply (m_snoc _ [(lit "license", _); (lit "tid", _)]);
    [|done|solve_clean|by constructor].
  apply (m_snoc _ [(lit "license", _)]); [|done|solve_clean|apply v_int, tid_mod_nonneg].
  apply m_one; [solve_clean|by constructor].
Qed.

(** What filling a packet leaves alone: its place in the list, its lock, its type. *)
Definition same_cell (k k' : packet_t) : Prop :=
  next k' = next k ∧ spin k' = spin k ∧ type k' = type k
  ∧ attempt k' = attempt k ∧ response k' = response k.

#[export] Instance same_cell_trans : Transitive same_cell.
Proof. unfold same_cell. intros k1 k2 k3. intuition congruence. Qed.

Lemma same_meta_cell k k' : same_meta k k' → same_cell k k'.
Proof. by intros ->. Qed.

Lemma gather_open_ok p k js n :
  metric_inv p k js → size k + Z.of_nat (length (header p) + n) < PKTSZ →
  ∃ k', gather_open p k = Ok k' ∧ samples p k' js ∧ same_cell k k' ∧ started k' = started k
        ∧ size k' ≤ size k + Z.of_nat (length (header p)).
Proof.
  intros [(He & Hb & ->)|(s & Hh & Hel & Hst)] Hr; unfold gather_open.
  - rewrite bool_decide_true by done.
    destruct (packet_append_ok k [] "{'license':'%s','tid':%llu,'metrics':["
                [AStr (license meta); AInt (tid p)] (header p)) as (k' & -> & Hm & Hh).
    { done. }
    { by fmt_eval. }
    { destruct Hb as [_ Hs]. unfold fits. simpl in *. lia. }
    cbn [rbind]. eexists. split; [done|]. split; [|split; [|split]].
    + exists []. split; [|by repeat constructor]. rewrite app_nil_r.
      by apply (holds_ext k').
    + by rewrite Hm.
    + by rewrite Hm.
    + destruct Hh as (_ & Hs & _). destruct Hb as [_ Hs0]. simpl in *. lia.
  - rewrite bool_decide_false by (rewrite Hst; by case_decide).
    exists k. split; [done|]. split; [by exists s|]. split; [done|]. split; [done|]. lia.
Qed.

(** The separator and the head of a sample. *)
Lemma sample_open_ok p k s js begin :
  holds k (header p ++ s) → state k = (if decide (js = []) then BEGIN else WROTE) →
  size k + Z.of_nat (length (lit ",{'timestamp':,") + length (dec (begin mod 2 ^ 64))) < PKTSZ →
  ∃ k', (do k <- (if bool_decide (state k = WROTE) then packet_append k "," [] else Ok k);
         packet_append k "{'timestamp':%llu," [AInt begin]) = Ok k'
    ∧ same_meta k k'
    ∧ holds k' ((header p ++ s) ++ comma js
                ++ lit "{'timestamp':" ++ dec (begin mod 2 ^ 64) ++ lit ",").
Proof.
  intros Hh Hst Hr. pose proof Hh as (_ & Hs & _).
  assert (∃ k1, (if bool_decide (state k = WROTE) then packet_append k "," [] else Ok k) = Ok k1
    ∧ same_meta k k1
    ∧ holds k1 ((header p ++ s) ++ comma js))
    as (k1 & -> & Hm1 & Hh1).
  { rewrite Hst. unfold comma. case_decide.
    - rewrite bool_decide_false by done. exists k. by rewrite app_nil_r.
    - rewrite bool_decide_true by done.
      apply packet_append_ok; [by apply holds_begins|done|]. unfold fits. simpl in *. lia. }
  cbn [rbind].
  destruct (packet_append_ok k1 _ "{'timestamp':%llu," [AInt begin]
     (lit "{'timestamp':" ++ dec (begin mod 2 ^ 64) ++ lit ",") (holds_begins _ _ Hh1))
    as (k2 & -> & Hm2 & Hh2).
  { by fmt_eval. }
  { pose proof (length_comma js). unfold fits. rewrite !length_app in *. simpl in *. lia. }
  exists k2. split; [done|]. split; [by rewrite Hm1|]. by rewrite <- app_assoc in Hh2.
Qed.

Definition task_after (z : Z) (p : plugin_t E M) : plugin_t E M :=
  if z =? EPLUGUP then goto plugin_alert_up_fn p
  else if z =? EPLUGDOWN then goto plugin_alert_down_fn p
  else p.

Lemma task_after_working z m p a :
  working p = Some a →
  set_working (Some a) (task_after z (set_module m p)) = task_after z (set_module m p).
Proof.
  intros H. unfold task_after. destruct p; simpl in H; subst. by repeat case_match.
Qed.

(** The text before the values of a sample ends with a comma. *)
Lemma sample_head_shape p s js begin :
  ∃ c', (header p ++ s) ++ comma js ++ lit "{'timestamp':" ++ dec (begin mod 2 ^ 64) ++ lit ","
        = c' ++ [","%char]
    ∧ (length ((header p ++ s) ++ comma js ++ lit "{'timestamp':" ++ dec (begin mod 2 ^ 64) ++ lit ",")
       ≤ length (header p ++ s) + length (lit ",{'timestamp':,") + length (dec (begin mod 2 ^ 64)))%nat.
Proof.
  exists (((header p ++ s) ++ comma js) ++ lit "{'timestamp':" ++ dec (begin mod 2 ^ 64)).
  split; [by rewrite <- !app_assoc|].
  pose proof (length_comma js). rewrite !length_app. simpl. lia.
Qed.

(** The state of the packet when a sample starts. *)
Lemma sample_begin_ok p k s js begin :
  holds k (header p ++ s) → state k = (if decide (js = []) then BEGIN else WROTE) →
  let k0 := packet_transaction (if bool_decide (state k = BEGIN) then set_started begin k else k) in
  holds k0 (header p ++ s) ∧ state k0 = state k ∧ same_cell k k0 ∧ size k0 = size k
  ∧ started k0 = (if decide (js = []) then begin else started k) ∧ rollback_point k0 = size k.
Proof.
  intros Hh Hst k0. subst k0. rewrite Hst. case_decide.
  - rewrite bool_decide_true by done. split; [by apply (holds_ext k)|done].
  - rewrite bool_decide_false by done. split; [by apply (holds_ext k)|done].
Qed.

(** The end of a sample that was gathered, ... *)
Lemma sample_commit_ok p k s js begin t :
  holds k ((header p ++ s) ++ comma js ++ lit "{'timestamp':" ++ dec (begin mod 2 ^ 64) ++ lit ","
           ++ member_text "values" t) →
  state k = (if decide (js = []) then BEGIN else WROTE) → size k + 1 < PKTSZ →
  ∃ k', packet_append k "}" [] = Ok k' ∧ size k' = size k + 1
    ∧ let k'' := packet_commit (if bool_decide (state k' = BEGIN) then set_state WROTE k' else k') in
      holds k'' (header p ++ s ++ comma js ++ sample_text begin t) ∧ state k'' = WROTE
      ∧ same_cell k k'' ∧ started k'' = started k ∧ size k'' = size k'.
Proof.
  intros Hh Hst Hr. pose proof Hh as (_ & Hs & _).
  destruct (packet_append_ok k _ "}" [] (lit "}") (holds_begins _ _ Hh)) as (k' & -> & Hm' & Hh').
  { done. }
  { unfold fits. change (length (lit "}")) with 1%nat. lia. }
  pose proof Hh' as (_ & Hs' & _). exists k'. split; [done|]. split.
  { rewrite Hs', Hs, length_app. change (length (lit "}")) with 1%nat. lia. }
  assert (state k' = state k) as Hst' by (by rewrite Hm').
  intros k''. assert (payload k'' = payload k' ∧ size k'' = size k' ∧ state k'' = WROTE
    ∧ same_cell k k'' ∧ started k'' = started k) as (E1 & E2 & E3 & E4 & E5).
  { subst k''. destruct (decide (js = [])) as [Hj|Hj]; rewrite <- Hst' in Hst.
    - rewrite bool_decide_true by done. by rewrite Hm'.
    - rewrite bool_decide_false by (by rewrite Hst). simpl. rewrite Hst. by rewrite Hm'. }
  split; [|by split]. apply (holds_ext k'); [done..|]. unfold sample_text. rewrite <- !app_assoc in Hh'.
  by rewrite <- ?app_assoc.
Qed.

(** ... and of one that was not. *)
Lemma sample_rollback_ok p k s c :
  holds k ((header p ++ s) ++ c) → rollback_point k = Z.of_nat (length (header p ++ s)) →
  ∃ k', packet_rollback k = Ok k' ∧ holds k' (header p ++ s) ∧ state k' = state k
        ∧ same_cell k k' ∧ started k' = started k ∧ size k' = rollback_point k.
Proof.
  intros Hh Hrb.
  destruct (packet_rollback_ok k (header p ++ s)) as (k' & Ek & Hm & Hh');
    [by apply (keeps_app _ _ c), holds_keeps|done|].
  exists k'. split; [done|]. split; [done|]. split; [by rewrite Hm|]. split; [by apply same_meta_cell|].
  split; [by rewrite Hm|]. rewrite Hrb. by destruct Hh' as (_ & -> & _).
Qed.

(** ** A plugin with its gathering function

    The plugin's function pointer is [f], of which only the promise
    [JsonGatherer] is known. *)
Section Gathering.
Context (f : gather_fn E M) `{!Gatherer f} `{!JsonGatherer f}.

Definition sample_need (p : plugin_t E M) (env : E) (begin : Z) : nat :=
  length (lit ",{'timestamp':,}") + length (dec (begin mod 2 ^ 64))
  + gather_need "values" f env (module p).

(** What a gathering function makes of the samples gathered so far. *)
Definition sampled (p : plugin_t E M) (env : E) (begin : Z)
    (js js' : list json) : Prop :=
  if decide (g_code f env (module p) = 0)
  then ∃ kvs, members (g_text f env (module p)) kvs ∧ js' = js ++ [sample_json begin kvs]
  else js' = js.

(** What a sample does to the text: it appends itself when the gathering function
    delivers, and leaves no trace when it does not.  Of [js] only matters whether
    there are samples already. *)
Lemma gather_sample_text p k s js begin env :
  gather p = f → holds k (header p ++ s) → state k = (if decide (js = []) then BEGIN else WROTE) →
  g_clean f env (module p) → size k + Z.of_nat (sample_need p env begin) < PKTSZ →
  ∃ k', gather_sample env begin p k
      = Ok (task_after (g_code f env (module p))
              (set_module (g_module f env (module p)) p), k')
    ∧ same_cell k k' ∧ started k' = (if decide (js = []) then begin else started k)
    ∧ size k' ≤ size k + Z.of_nat (sample_need p env begin)
    ∧ if decide (g_code f env (module p) = 0)
      then holds k' (header p ++ s ++ comma js ++ sample_text begin (g_text f env (module p))) ∧ state k' = WROTE
      else holds k' (header p ++ s) ∧ state k' = state k.
Proof.
  intros Hg Hh Hst Hcl Hr. unfold gather_sample, sample_need in *. rewrite Hg.
  pose proof Hh as (_ & Hs & _).
  destruct (sample_begin_ok p k s js begin Hh Hst) as (Hh0 & Hst0 & Hc0 & Hs0 & Hb0 & Hrb0).
  set (k0 := packet_transaction _) in *. clearbody k0. rewrite <- rbind_assoc.
  destruct (sample_open_ok p k0 s js begin) as (k1 & -> & Hm1 & Hh1);
    [done|by rewrite Hst0|rewrite Hs0; simpl in *; lia|].
  cbn [rbind]. set (c1 := (header p ++ s) ++ _) in Hh1.
  destruct (sample_head_shape p s js begin) as (c' & Ec1 & Hlc1). fold c1 in Ec1, Hlc1.
  destruct (packet_gather_ok f k1 c1 "values" env (module p)) as (k2 & -> & Hm2 & Hh2).
  { done. }
  { done. }
  { rewrite Ec1. by destruct c'. }
  { unfold fits. simpl in *. lia. }
  assert (state k2 = state k) as Est2 by (rewrite Hm2, Hm1; simpl; by rewrite Hst0).
  assert (same_cell k k2 ∧ started k2 = started k0 ∧ rollback_point k2 = size k) as (Hc2 & Hb2 & Hrb2).
  { split; [|by rewrite Hm2, Hm1]. transitivity k0; [done|].
    transitivity k1; by apply same_meta_cell. }
  clear Hm1 Hm2 Hh1 Hst0 Hc0 Hh0. cbn [rbind]. unfold gathered, gather_need in *.
  pose proof (g_codes (f := f) env (module p)) as Hz.
  destruct (decide (g_code f env (module p) = 0)) as [Hz0|Hz0].
  - rewrite Hz0. cbn [Z.eqb ENONE].
    pose proof (g_text_need env (module p) Hz0) as Hn.
    assert (sep c1 = []) as Esep by (rewrite Ec1; apply sep_snoc). rewrite Esep in Hh2.
    assert (size k2 + 1 ≤ size k + Z.of_nat (length (lit ",{'timestamp':,}")
      + length (dec (begin mod 2 ^ 64)) + (length (lit "values") + 6 + g_need f env (module p))))
      as Hsz.
    { destruct Hh2 as (_ & -> & _). rewrite length_app. simpl app. rewrite length_member_text.
      change (length (lit ",{'timestamp':,}")) with (S (length (lit ",{'timestamp':,"))). lia. }
    subst c1.
    rewrite <- !app_assoc in Hh2. rewrite (app_assoc (header p)) in Hh2.
    destruct (sample_commit_ok p k2 s js begin _ Hh2) as (k3 & -> & Hs3 & H3); [by rewrite Est2|lia|].
    cbn [rbind]. destruct H3 as (Hh3 & Hst3 & Hc3 & Hb3 & Hs3').
    eexists _. split; [done|]. split; [by transitivity k2|]. split; [by rewrite Hb3, Hb2|]. split; [lia|done].
  - destruct (sample_rollback_ok p k2 s _ Hh2) as (k3 & Hk3 & Hh3 & Hst3 & Hc3 & Hb3 & Hs3); [by rewrite Hrb2|].
    exists k3. split.
    { assert (g_code f env (module p) = 1 ∨ g_code f env (module p) = 2
        ∨ g_code f env (module p) = 3) as Hcase by lia.
      destruct_or! Hcase; rewrite Hcase; cbn [Z.eqb ENONE ENODATA EPLUGUP EPLUGDOWN Pos.eqb];
        by rewrite Hk3. }
    split; [by transitivity k2|]. split; [by rewrite Hb3, Hb2|]. split; [lia|]. split; [done|congruence].
Qed.

(** One sample adds itself to the list when the gathering function delivers. *)
Lemma gather_sample_ok p k js begin env :
  gather p = f → samples p k js → g_clean f env (module p) →
  size k + Z.of_nat (sample_need p env begin) < PKTSZ →
  ∃ k' js', gather_sample env begin p k
      = Ok (task_after (g_code f env (module p))
              (set_module (g_module f env (module p)) p), k')
    ∧ samples p k' js' ∧ same_cell k k' ∧ sampled p env begin js js'
    ∧ started k' = (if decide (js = []) then begin else started k)
    ∧ size k' ≤ size k + Z.of_nat (sample_need p env begin).
Proof.
  intros Hg (s & Hh & Hel & Hst) Hcl Hr.
  destruct (gather_sample_text p k s js begin env Hg Hh Hst Hcl Hr) as (k' & Ek & Hc & Hb & Hz & Ht).
  unfold sampled. destruct (decide (g_code f env (module p) = 0)) as [Hz0|Hz0]; destruct Ht as [Hh' Hst'].
  - destruct (g_members env (module p) Hcl Hz0) as [kvs Hkvs].
    exists k', (js ++ [sample_json begin kvs]). split; [done|]. split; [|split; [done|]; split; [by exists kvs|done]].
    exists (s ++ comma js ++ sample_text begin (g_text f env (module p))).
    split; [done|]. split; [by apply elements_add, sample_value|]. rewrite decide_False; [done|]. by destruct js.
  - exists k', js. split; [done|]. split; [|done]. exists s. split; [done|]. split; [done|]. by rewrite Hst'.
Qed.

(** What closing does to the text. *)
Lemma gather_close_text p k c now :
  holds k c → size k + 2 < PKTSZ →
  ∃ k', gather_close now p k
      = Ok (if packet_expired now (Some k) then set_working None p else p, k')
    ∧ same_cell k k' ∧ size k' ≤ size k + 2
    ∧ if packet_expired now (Some k)
      then if bool_decide (state k = WROTE) then state k' = READY ∧ holds k' (c ++ lit "]}")
           else state k' = DONE ∧ holds k' c
      else k' = k.
Proof.
  intros Hh Hr. unfold gather_close. destruct (packet_expired now (Some k)).
  2: { exists k. split; [done|]. split; [done|]. split; [lia|done]. }
  case_bool_decide as Hst.
  - pose proof Hh as (_ & Hs & _).
    destruct (packet_append_ok k _ "]}" [] (lit "]}") (holds_begins _ _ Hh)) as (k' & -> & Hm & Hh').
    { done. }
    { unfold fits. change (length (lit "]}")) with 2%nat. lia. }
    eexists. split; [done|]. split; [by rewrite Hm|]. split.
    { simpl. destruct Hh' as (_ & -> & _). rewrite length_app.
      change (length (lit "]}")) with 2%nat. lia. }
    split; [done|]. by apply (holds_ext k').
  - eexists. split; [done|]. split; [done|]. split; [simpl; lia|]. split; [done|]. by apply (holds_ext k).
Qed.

(** What closing a packet with the samples [js] makes of it. *)
Definition closed (p : plugin_t E M) (k : packet_t) (js : list json) : Prop :=
  if decide (js = []) then state k = DONE ∧ ∃ c, holds k c
  else state k = READY ∧ ∃ c, holds k c ∧ value c (document p js).

Lemma gather_close_ok p k js now :
  samples p k js → clean (license meta) → size k + 2 < PKTSZ →
  ∃ k', gather_close now p k
      = Ok (if packet_expired now (Some k) then set_working None p else p, k')
    ∧ same_cell k k' ∧ size k' ≤ size k + 2
    ∧ if packet_expired now (Some k) then closed p k' js else k' = k.
Proof.
  intros (s & Hh & Hel & Hst) Hl Hr.
  destruct (gather_close_text p k _ now Hh Hr) as (k' & Ek & Hc & Hz & Ht).
  exists k'. split; [done|]. split; [done|]. split; [done|]. destruct (packet_expired now (Some k)); [|done].
  unfold closed. rewrite Hst in Ht. case_decide as Hj.
  - rewrite bool_decide_false in Ht by done. destruct Ht as [? ?]. by eauto.
  - rewrite bool_decide_true in Ht by done. destruct Ht as [? Hh']. split; [done|].
    exists ((header p ++ s) ++ lit "]}"). split; [done|]. rewrite <- app_assoc. by apply document_value.
Qed.

(** The space one turn may need. *)
Definition turn_need (p : plugin_t E M) (env : E) (begin : Z) : nat :=
  length (header p) + (sample_need p env begin + 2).

(** The instant of the first record of the packet. *)
Definition first_record (k : packet_t) (js : list json) (begin : Z) : Z :=
  if decide (js = []) then begin else started k.

(** The result of a turn that started with the samples [js] in the packet [k]. *)
Record turned (p : plugin_t E M) (env : E) (begin now : Z)
    (a : loc) (k : packet_t) (js : list json) (p' : plugin_t E M) (k' : packet_t) (js' : list json)
    : Prop := {
  tu_sampled : sampled p env begin js js';
  tu_plugin : p' =
    set_working (if 7000 <=? u64 (now - first_record k js begin) then None else Some a)
      (task_after (g_code f env (module p))
        (set_module (g_module f env (module p)) p));
  tu_cell : same_cell k k';
  tu_packet : if 7000 <=? u64 (now - first_record k js begin) then closed p k' js'
              else samples p k' js' ∧ started k' = first_record k js begin;
  tu_size : size k' ≤ size k + Z.of_nat (turn_need p env begin)
}.

Lemma plugin_gather_ok p w a k js env mem begin now :
  gather p = f → working p = Some a → w_heap w !! a = Some k → metric_inv p k js →
  clean (license meta) → g_clean f env (module p) →
  size k + Z.of_nat (turn_need p env begin) < PKTSZ →
  ∃ p' k' js', plugin_gather env mem begin now p w
      = Ok (0, p', set_cells (<[a := k']> (w_heap w)) w)
    ∧ turned p env begin now a k js p' k' js'.
Proof.
  intros Hg Hw Hk Hinv Hl Hcl Hr. unfold plugin_gather, turn_need in *. rewrite Hw. cbn [rbind].
  rewrite Hw, (deref_Some _ _ _ Hk). cbn [rbind].
  destruct (gather_open_ok p k js (sample_need p env begin + 2) Hinv)
    as (k1 & -> & Hs1 & Hc1 & Hb1 & Hz1); [lia|]. cbn [rbind].
  destruct (gather_sample_ok p k1 js begin env Hg Hs1 Hcl)
    as (k2 & js' & -> & Hs2 & Hc2 & Hsam & Hb2 & Hz2); [lia|]. cbn [rbind fst snd].
  set (p2 := task_after _ _) in *.
  assert (header p2 = header p ∧ ∀ js, document p2 js = document p js) as [Eh Ed].
  { subst p2. unfold task_after. repeat case_match; done. }
  destruct (gather_close_ok p2 k2 js' now) as (k3 & -> & Hc3 & Hz3 & H3);
    [unfold samples; by rewrite Eh|done|lia|].
  cbn [rbind fst snd]. eexists _, k3, js'. split; [done|].
  rewrite packet_expired_spec in *.
  assert (started k2 = first_record k js begin) as Eb
    by (rewrite Hb2; unfold first_record; case_decide; done).
  rewrite Eb in *. pose proof Hs2 as (s2 & (_ & Hs2' & _) & _). split.
  - done.
  - subst p2. destruct (7000 <=? _); [done|]. by rewrite task_after_working.
  - transitivity k1; [done|]. by transitivity k2.
  - destruct (7000 <=? _).
    + unfold closed in *. case_decide; [done|]. by rewrite <- Ed.
    + subst k3. by split.
  - unfold turn_need. lia.
Qed.

(** ** A run of turns *)

Record turn := Turn { tn_env : E; tn_mem : option loc; tn_begin : Z; tn_now : Z }.

Fixpoint run_turns (ts : list turn) (p : plugin_t E M) (w : world) : res (plugin_t E M * world) :=
  match ts with
  | [] => Ok (p, w)
  | t :: ts =>
      do x <- plugin_gather (tn_env t) (tn_mem t) (tn_begin t) (tn_now t) p w;
      run_turns ts x.1.2 x.2
  end.

(** A turn in which the plugin delivers; [b] bounds the space it takes, and
    [late] tells whether the packet, begun at [first], has expired at its end. *)
Record good_turn (p : plugin_t E M) (first : Z) (b : nat) (late : bool) (t : turn) : Prop := {
  gt_code : ∀ m, g_code f (tn_env t) m = 0;
  gt_clean : ∀ m, g_clean f (tn_env t) m;
  gt_need : ∀ m, (turn_need (set_module m p) (tn_env t) (tn_begin t) ≤ b)%nat;
  gt_time : (7000 <=? u64 (tn_now t - first)) = late
}.

Lemma good_turn_module p first b late t m :
  good_turn p first b late t → good_turn (set_module m p) first b late t.
Proof. by intros []. Qed.

Lemma good_turn_working p first b late t a :
  good_turn p first b late t → good_turn (set_working a p) first b late t.
Proof. by intros []. Qed.

(** The members each turn gathered, the module going through the turns from [m]
    to [m']. *)
Fixpoint reports (ts : list turn) (m m' : M) (kvss : list (list (bytes * json))) : Prop :=
  match ts, kvss with
  | [], [] => m' = m
  | t :: ts, kvs :: kvss =>
      members (g_text f (tn_env t) m) kvs ∧ reports ts (g_module f (tn_env t) m) m' kvss
  | _, _ => False
  end.

Lemma set_cells_id w a k : w_heap w !! a = Some k → set_cells (<[a := k]> (w_heap w)) w = w.
Proof. intros H. unfold set_cells. rewrite insert_id by done. by destruct w as [[]]. Qed.

Lemma set_cells_twice w a k k' :
  let w' := set_cells (<[a := k]> (w_heap w)) w in
  set_cells (<[a := k']> (w_heap w')) w' = set_cells (<[a := k']> (w_heap w)) w.
Proof. unfold set_cells, w_heap. simpl. by rewrite insert_insert_eq. Qed.

Lemma run_turns_app ts1 ts2 p w :
  run_turns (ts1 ++ ts2) p w = (do x <- run_turns ts1 p w; run_turns ts2 x.1 x.2).
Proof.
  revert p w. induction ts1 as [|t ts1 IH]; intros p w; [done|]. simpl.
  destruct (plugin_gather _ _ _ _ p w) as [[[]]| |]; simpl; [apply IH|done..].
Qed.

(** One such turn. *)
Lemma good_turn_ok p w a k js first b late t :
  gather p = f → clean (license meta) →
  working p = Some a → w_heap w !! a = Some k → metric_inv p k js →
  first = first_record k js (tn_begin t) → good_turn p first b late t →
  size k + Z.of_nat b < PKTSZ →
  ∃ k' kvs, let js' := js ++ [sample_json (tn_begin t) kvs] in
    plugin_gather (tn_env t) (tn_mem t) (tn_begin t) (tn_now t) p w
      = Ok (0, set_working (if late then None else Some a)
                 (set_module (g_module f (tn_env t) (module p)) p),
            set_cells (<[a := k']> (w_heap w)) w)
    ∧ members (g_text f (tn_env t) (module p)) kvs ∧ same_cell k k'
    ∧ size k' ≤ size k + Z.of_nat b
    ∧ if late then closed p k' js' else samples p k' js' ∧ started k' = first.
Proof.
  intros Hg Hl Hw Hk Hinv Hf [Hcode Hclean Hneed Htime] Hr.
  assert (turn_need p (tn_env t) (tn_begin t) ≤ b)%nat as Hnb
    by (specialize (Hneed (module p)); by destruct p).
  destruct (plugin_gather_ok p w a k js (tn_env t) (tn_mem t) (tn_begin t) (tn_now t) Hg Hw Hk Hinv Hl)
    as (p1 & k1 & js1 & E1 & [Hsam Hp1 Hc1 Hpk Hz1]); [done|lia|].
  rewrite <- Hf, Htime in *. rewrite Hcode in Hp1. cbn [task_after Z.eqb] in Hp1.
  unfold sampled in Hsam. rewrite decide_True in Hsam by done. destruct Hsam as (kvs & Hkvs & ->).
  exists k1, kvs. rewrite E1, Hp1. split; [done|]. split; [done|]. split; [done|].
  split; [lia|]. by destruct late.
Qed.

(** Turns before the packet expires. *)
Lemma run_steady ts : ∀ p w a k js first b,
  gather p = f → clean (license meta) →
  working p = Some a → w_heap w !! a = Some k → metric_inv p k js →
  (ts ≠ [] → first = first_record k js (default 0 (head (tn_begin <$> ts)))) →
  Forall (good_turn p first b false) ts → size k + Z.of_nat (length ts * b) < PKTSZ →
  ∃ m k' kvss, let p' := set_module m p in
    run_turns ts p w = Ok (p', set_cells (<[a := k']> (w_heap w)) w)
    ∧ same_cell k k' ∧ reports ts (module p) m kvss
    ∧ metric_inv p k' (js ++ zip_with sample_json (tn_begin <$> ts) kvss)
    ∧ (ts ≠ [] → started k' = first) ∧ size k' ≤ size k + Z.of_nat (length ts * b).
Proof.
  induction ts as [|t ts IH]; intros p w a k js first b Hg Hl Hw Hk Hinv Hf Hst Hr.
  { exists (module p), k, []. rewrite (set_cells_id _ _ _ Hk). simpl. rewrite app_nil_r.
    repeat split; try done; [by destruct p|lia]. }
  inversion_clear Hst as [|? ? Ht Hts]. specialize (Hf ltac:(done)). simpl in Hf, Hr.
  destruct (good_turn_ok p w a k js first b false t Hg Hl Hw Hk Hinv Hf Ht)
    as (k1 & kvs & E1 & Hkvs & Hc1 & Hz1 & Hs1 & Hb1); [lia|]. rewrite <- Hw in E1.
  destruct (IH (set_module (g_module f (tn_env t) (module p)) p)
              (set_cells (<[a := k1]> (w_heap w)) w) a k1 (js ++ [sample_json (tn_begin t) kvs])
              first b) as (m & k' & kvss & E2 & Hc' & Hrep & Hi' & Hb' & Hz');
    [done|done|done|apply lookup_insert_eq|by right| | |lia|].
  { intros _. unfold first_record. rewrite decide_False; [done|by destruct js]. }
  { eapply List.Forall_impl; [|exact Hts]. intros t'. apply good_turn_module. }
  rewrite set_cells_twice in E2.
  cbn [run_turns]. rewrite E1. cbn [rbind fst snd]. exists m, k', (kvs :: kvss).
  split; [by destruct p|]. split; [by transitivity k1|]. split; [by split|]. split; [|split].
  - by rewrite <- app_assoc in Hi'.
  - intros _. destruct ts as [|t' ts]; [|by apply Hb'].
    simpl in E2. injection E2 as _ E2. apply (f_equal (lookup a)) in E2.
    rewrite !lookup_insert_eq in E2. by injection E2 as <-.
  - simpl. lia.
Qed.

Lemma reports_snoc ts t : ∀ m m' kvss kvs,
  reports ts m m' kvss → members (g_text f (tn_env t) m') kvs →
  reports (ts ++ [t]) m (g_module f (tn_env t) m') (kvss ++ [kvs]).
Proof.
  induction ts as [|t' ts IH]; intros m m' [|kvs' kvss] kvs H Hk; try done; simpl in *.
  - by subst m'.
  - destruct H as [H1 H2]. split; [done|]. by apply IH.
Qed.

Lemma reports_length ts : ∀ m m' kvss, reports ts m m' kvss → length kvss = length ts.
Proof.
  induction ts as [|t ts IH]; intros m m' [|kvs kvss] H; try done.
  simpl. f_equal. by eapply IH, H.
Qed.

(** The instant a packet filled by the turns [ts] and then [tl] was begun. *)
Definition first_begin (ts : list turn) (tl : turn) : Z := default (tn_begin tl) (tn_begin <$> head ts).

(** All the turns of a packet: it expires in the last one. *)
Lemma run_collect ts tl p w a k b :
  gather p = f → clean (license meta) →
  working p = Some a → w_heap w !! a = Some k → metric_inv p k [] →
  Forall (good_turn p (first_begin ts tl) b false) ts → good_turn p (first_begin ts tl) b true tl →
  size k + Z.of_nat (S (length ts) * b) < PKTSZ →
  ∃ m k' kvss, run_turns (ts ++ [tl]) p w
      = Ok (set_working None (set_module m p), set_cells (<[a := k']> (w_heap w)) w)
    ∧ same_cell k k' ∧ reports (ts ++ [tl]) (module p) m kvss
    ∧ closed p k' (zip_with sample_json (tn_begin <$> (ts ++ [tl])) kvss).
Proof.
  intros Hg Hl Hw Hk Hinv Hts Htl Hr. set (first := first_begin ts tl) in *.
  destruct (run_steady ts p w a k [] first b Hg Hl Hw Hk Hinv)
    as (m & k1 & kvss & E1 & Hc1 & Hrep & Hi1 & Hb1 & Hz1); [by destruct ts|done|lia|].
  pose proof (reports_length _ _ _ _ Hrep) as Hlen. simpl app in Hi1.
  set (js := zip_with _ _ _) in Hi1.
  destruct (good_turn_ok (set_module m p) (set_cells (<[a := k1]> (w_heap w)) w) a k1 js first b true tl)
    as (k2 & kvs & E2 & Hkvs & Hc2 & _ & Hcl);
    [done|done|done|apply lookup_insert_eq|done| |by apply good_turn_module|lia|].
  { unfold first_record. destruct ts as [|t ts]; [done|].
    destruct kvss as [|kvs0 kvss]; [done|]. rewrite decide_False by done. by rewrite Hb1. }
  rewrite set_cells_twice in E2.
  exists (g_module f (tn_env tl) m), k2, (kvss ++ [kvs]).
  rewrite run_turns_app, E1. cbn [rbind fst snd run_turns]. rewrite E2. cbn [rbind fst snd].
  split; [done|]. split; [by transitivity k1|]. split; [by apply reports_snoc|].
  rewrite fmap_app, zip_with_app by (by rewrite length_fmap). exact Hcl.
Qed.

(** A plugin without a packet takes one from the storage and goes on with it. *)
Lemma plugin_gather_new env mem begin now p w a st' :
  working p = None → get_packet mem METRIC (w_store w) = Ok (Some a, st') →
  plugin_gather env mem begin now p w
  = plugin_gather env mem begin now (set_working (Some a) p) (World st' (w_senders w) (w_res w)).
Proof. intros Hw Eg. unfold plugin_gather. by rewrite Hw, Eg. Qed.

Lemma run_turns_new ts mem p w a st' :
  ts ≠ [] → (tn_mem <$> head ts) = Some mem →
  working p = None → get_packet mem METRIC (w_store w) = Ok (Some a, st') →
  run_turns ts p w = run_turns ts (set_working (Some a) p) (World st' (w_senders w) (w_res w)).
Proof.
  intros Hne Hm Hw Eg. destruct ts as [|t ts]; [done|]. injection Hm as <-. cbn [run_turns].
  by rewrite (plugin_gather_new _ _ _ _ _ _ _ _ Hw Eg).
Qed.

(** C2. One turn of [plugin_gather] refines the list of samples: a gathering that
    delivers appends one sample, stamped with the time the turn began, and any
    other leaves the text as it was.  Seven seconds after its first sample the
    packet is closed, READY with a JSON document of exactly these samples, or
    DONE when there are none; otherwise the plugin keeps filling it. *)
Theorem metric_turn_refines p w a k js env mem begin now :
  gather p = f → working p = Some a → w_heap w !! a = Some k → metric_inv p k js →
  clean (license meta) → g_clean f env (module p) →
  size k + Z.of_nat (turn_need p env begin) < PKTSZ →
  ∃ p' k' js', plugin_gather env mem begin now p w
      = Ok (0, p', set_cells (<[a := k']> (w_heap w)) w)
    ∧ sampled p env begin js js' ∧ tid p' = tid p ∧ gather p' = f ∧ same_cell k k'
    ∧ if 7000 <=? u64 (now - first_record k js begin)
      then working p' = None ∧ closed p k' js'
      else working p' = Some a ∧ metric_inv p' k' js' ∧ started k' = first_record k js begin.
Proof.
  intros Hg Hw Hk Hinv Hl Hcl Hr.
  destruct (plugin_gather_ok p w a k js env mem begin now Hg Hw Hk Hinv Hl Hcl Hr)
    as (p' & k' & js' & Ep & [Hsam Hp Hc Hpk Hz]).
  exists p', k', js'. split; [done|]. split; [done|].
  assert (tid p' = tid p ∧ gather p' = gather p ∧ header p' = header p) as (? & Hg' & Eh).
  { subst p'. unfold task_after. repeat case_match; done. }
  split; [done|]. split; [by rewrite Hg'|]. split; [done|]. destruct (7000 <=? _).
  - by rewrite Hp.
  - destruct Hpk as [Hs Hb]. split; [by rewrite Hp|]. split; [|done].
    right. unfold samples. by rewrite Eh.
Qed.

(** C1. From samples to the server.  A plugin without a packet that delivers in
    the turns [ts ++ [tl]], the packet expiring in the last of them, leaves in
    the storage list a READY metric packet whose text is the JSON document of
    its samples, one per turn, in order and with the times the turns began; and
    a turn of the storage routine that reports success has had that text
    accepted by the server. *)
Theorem metrics_reach_server ts tl p w ls a b :
  gather p = f → clean (license meta) → working p = None →
  chain (cells (w_store w)) (packets (w_store w)) ls → NoDup ls →
  w_heap w !! a = None → tn_mem <$> head (ts ++ [tl]) = Some (Some a) →
  (∀ x q, x ∈ ls → w_heap w !! x = Some q → spin q = 0 ∧ full q) →
  Forall (good_turn p (first_begin ts tl) b false) ts → good_turn p (first_begin ts tl) b true tl →
  Z.of_nat (S (length ts) * b) < PKTSZ →
  ∃ p' w' x k kvss c, run_turns (ts ++ [tl]) p w = Ok (p', w') ∧ working p' = None
    ∧ w_heap w' !! x = Some k ∧ see k = (READY, METRIC, c)
    ∧ reports (ts ++ [tl]) (module p) (module p') kvss
    ∧ value c (document p (zip_with sample_json (tn_begin <$> (ts ++ [tl])) kvss))
    ∧ ∀ net st s', codes_fit net → (∀ t, usable (w_senders w) t) →
      storage_main net (packets (w_store w')) (Storage st (w_senders w') (w_heap w')) = Ok (0, s') →
      success (net METRIC c) = true ∧ see <$> sto s' !! x = Some (DONE, METRIC, c).
Proof.
  intros Hg Hl Hw Hch Hnd Ha Hmem Hall Hts Htl Hr.
  destruct (get_packet_ok (w_store w) ls a METRIC Hch Hnd Ha Hall) as (x & q & st' & ls' & Eg & Hh).
  pose proof Hh as [_ _ _ _ Hqe _ Hqt _ _ _ _].
  destruct (run_collect ts tl (set_working (Some x) p) (World st' (w_senders w) (w_res w)) x q b)
    as (m & k & kvss & Er & Hc & Hrep & Hcl);
    [done|done|done|apply Hh|by left| |by apply good_turn_working|by destruct Hqt as [_ ->]|].
  { eapply List.Forall_impl; [|exact Hts]. intros t. apply good_turn_working. }
  rewrite <- (run_turns_new (ts ++ [tl]) (Some a) p w x st') in Er by (by destruct ts).
  unfold closed in Hcl. rewrite decide_False in Hcl.
  2: { intros En%(f_equal length). apply reports_length in Hrep.
       rewrite length_zip_with, length_fmap, Hrep, Nat.min_id, length_app in En. simpl in En. lia. }
  destruct Hcl as [Hst (c & Hhc & Hv)].
  assert (see k = (READY, METRIC, c)) as Hsee.
  { unfold see. rewrite Hst, (holds_cstr _ _ Hhc (value_no_nul _ _ Hv)).
    destruct Hc as (_ & _ & -> & _). by rewrite (ha_type _ _ _ _ _ _ _ Hh). }
  eexists _, _, x, k, kvss, c. split; [exact Er|]. split; [done|].
  split; [apply lookup_insert_eq|]. do 3 (split; [done|]).
  intros net st s' Hcf Hus Hrun. destruct Hh as [Hch' Hnd' Hx Hq _ _ _ _ Hsp Hfr Hls].
  eapply (storage_main_accepts net _ _ ls'); [| |exact Hnd'|exact Hx| |exact Hrun];
    unfold w_heap, set_cells; simpl.
  - split; [done|done|]. intros y z Hy. unfold w_heap, set_cells. simpl. rewrite lookup_insert_Some.
    intros [[<- <-]|[Hne Hz]]; [by destruct Hc as (_ & -> & _)|].
    rewrite Hfr in Hz by done. eapply Hall; [|exact Hz]. case_decide; [by subst ls'|].
    destruct Hls as [-> _]. by apply elem_of_cons in Hy as [->|?].
  - apply (chain_update _ _ _ x q); [done|by destruct Hc|done].
  - rewrite lookup_insert_eq. by rewrite <- Hsee.
Qed.

End Gathering.

End Plugin.

(** * Witnesses *)

(** A plugin that reports the same member in every turn. *)
Definition up_gather : gather_fn unit unit := λ _ m k,
  do k <- packet_append k "'up':1" []; Ok (0, m, k).

#[export] Program Instance up_gatherer : Gatherer up_gather := {|
  g_clean _ _ := True;
  g_code _ _ := 0;
  g_module _ m := m;
  g_text _ _ := lit "'up':1";
  g_need _ _ := 6%nat
|}.
Next Obligation.
  intros [] [] k c _ Hh _ Hf. unfold up_gather.
  destruct (packet_append_ok k c "'up':1" [] (lit "'up':1") (holds_begins _ _ Hh))
    as (k' & -> & Hm & Hh'); [done|done|].
  exists k'. by split.
Qed.
Next Obligation. intros e m _. simpl. lia. Qed.
Next Obligation. simpl. lia. Qed.

#[export] Instance up_json : JsonGatherer up_gather.
Proof.
  split. intros e m _ _. exists [(lit "up", JInt 1)].
  apply (m_one (lit "up") (replicate 0 " "%char ++ dec 1)); [solve_clean|by apply v_int].
Qed.

Definition some_meta : metadata :=
  Metadata (lit "license") 7 (lit "linux") (lit "os") (lit "host") (lit "10.0.0.1").

Definition up_plugin (a o : option loc) (f : task_fn) : plugin_t unit unit :=
  Plugin (Routine true None (f32_of_Z 1) 0 0 (Some f)) 42 None (lit "up") a o None up_gather
    (λ _ _ _, 0) 0 tt.

Definition new_world : world := World (Store {[1%positive := zeroed METRIC]} (Some 1%positive)) open_senders ∅.
Definition empty_world : world := World (Store ∅ None) open_senders ∅.

Lemma metric_turn_refines_witness :
  ∃ p' k' js', plugin_gather some_meta tt None 1000 2000 (up_plugin (Some 1%positive) None plugin_gather_fn) new_world
      = Ok (0, p', set_cells (<[1%positive := k']> (w_heap new_world)) new_world)
    ∧ sampled up_gather (up_plugin (Some 1%positive) None plugin_gather_fn) tt 1000 [] js'
    ∧ tid p' = 42 ∧ gather p' = up_gather ∧ same_cell (zeroed METRIC) k'
    ∧ working p' = Some 1%positive ∧ metric_inv some_meta p' k' js' ∧ started k' = 1000.
Proof.
  destruct (metric_turn_refines some_meta up_gather (up_plugin (Some 1%positive) None plugin_gather_fn)
    new_world 1%positive (zeroed METRIC) [] tt None 1000 2000) as (p' & k' & js' & H).
  - reflexivity.
  - reflexivity.
  - apply lookup_singleton_eq.
  - left. split; [reflexivity|]. split; [apply holds_begins, zeroed_holds|reflexivity].
  - solve_clean.
  - exact I.
  - vm_compute. reflexivity.
  - exists p', k', js'. exact H.
Defined.

(** Two turns, begun at 1000 and 2000 ms, the packet expiring in the second. *)
Definition turn1 : turn := Turn tt (Some 1%positive) 1000 1500.
Definition turn2 : turn := Turn tt None 2000 8000.

Lemma up_good_turn b late t :
  tn_begin t ∈ [1000; 2000] → (7000 <=? u64 (tn_now t - b)) = late →
  good_turn some_meta up_gather (up_plugin None None plugin_gather_fn) b 200 late t.
Proof.
  intros Hb Ht. split; [done|done| |done]. intros []. unfold turn_need, sample_need.
  apply elem_of_cons in Hb as [Eb|Eb%list_elem_of_singleton]; rewrite Eb; vm_compute; lia.
Qed.

Lemma metrics_reach_server_witness :
  ∃ p' w' x k kvss c, run_turns some_meta [turn1; turn2] (up_plugin None None plugin_gather_fn) empty_world
      = Ok (p', w') ∧ working p' = None
    ∧ w_heap w' !! x = Some k ∧ see k = (READY, METRIC, c)
    ∧ reports up_gather [turn1; turn2] tt (module p') kvss
    ∧ value c (document some_meta (up_plugin None None plugin_gather_fn)
        (zip_with sample_json [1000; 2000] kvss))
    ∧ ∀ net st s', codes_fit net → (∀ t, usable open_senders t) →
      storage_main net (packets (w_store w')) (Storage st (w_senders w') (w_heap w')) = Ok (0, s') →
      success (net METRIC c) = true ∧ see <$> sto s' !! x = Some (DONE, METRIC, c).
Proof.
  apply (metrics_reach_server some_meta up_gather [turn1] turn2 (up_plugin None None plugin_gather_fn)
    empty_world [] 1%positive 200).
  - reflexivity.
  - solve_clean.
  - reflexivity.
  - reflexivity.
  - constructor.
  - reflexivity.
  - reflexivity.
  - intros x q Hx. by apply elem_of_nil in Hx.
  - constructor; [apply up_good_turn; [by left|reflexivity]|constructor].
  - apply up_good_turn; [by right; left|reflexivity].
  - vm_compute. reflexivity.
Defined.
