(* ===== verification/Life.v ===== *)
(** The messages a plugin sends on its own (registration and alerts, the [oob]
    packet of src/plugin.c) and its life as a state machine over its task
    pointer: prepare, register, gather, alert. *)
From Stdlib Require Import ZArith Ascii Lia SpecFloat.
From stdpp Require Import base list strings numbers gmap.
From S2P Require Import Prelude.
From S2P Require Import Clib.
From S2P Require Import Json.
From S2P Require Import Packet.
From S2P Require Import Sender.
From S2P Require Import Routine.
From S2P Require Import Storage.
From S2P Require Import Plugin.

Local Open Scope Z_scope.

(** What one run of the task function of a plugin depends on: the outside world
    of its module, the calls it makes, and the clock. *)
Record task_env (E : Type) := TaskEnv {
  te_env : E; te_call : regr_env; te_begin : Z; te_now : Z
}.
Arguments TaskEnv {E}.
Arguments te_env {E}.
Arguments te_call {E}.
Arguments te_begin {E}.
Arguments te_now {E}.

(** The transitions of the task pointer. *)
Inductive edge : task_fn → task_fn → Prop :=
| edge_prep_fails : edge plugin_prep_fn plugin_prep_fn
| edge_prep_waits : edge plugin_prep_fn plugin_regr_fn
| edge_prep_registers : edge plugin_prep_fn plugin_gather_fn
| edge_regr_fails : edge plugin_regr_fn plugin_regr_fn
| edge_regr_registers : edge plugin_regr_fn plugin_gather_fn
| edge_gathers : edge plugin_gather_fn plugin_gather_fn
| edge_up : edge plugin_gather_fn plugin_alert_up_fn
| edge_down : edge plugin_gather_fn plugin_alert_down_fn
| edge_up_fails : edge plugin_alert_up_fn plugin_alert_up_fn
| edge_up_sent : edge plugin_alert_up_fn plugin_gather_fn
| edge_down_fails : edge plugin_alert_down_fn plugin_alert_down_fn
| edge_down_sent : edge plugin_alert_down_fn plugin_gather_fn.

Section Life.
Context {E M : Type}.
Implicit Types p : plugin_t E M.
Variable image : M → bytes.
Variable meta : metadata.

(** The call [r->task(r)] of [routine_main], for a routine that is a plugin. *)
Definition plugin_task (te : task_env E) (p : plugin_t E M) (w : world)
    : res (Z * plugin_t E M * world) :=
  match task (r p) with
  | Some plugin_prep_fn => plugin_prep image meta (te_env te) (te_call te) p w
  | Some plugin_regr_fn => plugin_regr image meta (te_call te) p w
  | Some plugin_gather_fn =>
      plugin_gather meta (te_env te) (re_mem (te_call te)) (te_begin te) (te_now te) p w
  | Some plugin_alert_up_fn => plugin_alert_up meta (te_call te) p w
  | Some plugin_alert_down_fn => plugin_alert_down meta (te_call te) p w
  | _ => Ub NullDeref
  end.

(** * Registration *)

Definition id_field (id : Z) : bytes := pad_left 20 " "%char (dec (id mod 2 ^ 64)).

Definition regr_prefix : bytes :=
  lit "{'license':'" ++ license meta ++ lit "','aid':" ++ dec (aid meta mod 2 ^ 64) ++ lit ",'tid':".

Definition regr_suffix (p : plugin_t E M) : bytes :=
  lit "'agent_type':'" ++ agent_type meta ++ lit "','target_type':'" ++ ptype p
  ++ lit "','os':'" ++ os meta ++ lit "','hostname':'" ++ host meta ++ lit "','ip':'" ++ aip meta
  ++ lit "'" ++ match tip p with Some ip => lit ",'target_ip':'" ++ ip ++ lit "'" | None => [] end
  ++ lit "}".

(** The registration message of a plugin under the id [id], and what it says. *)
Definition regr_text (p : plugin_t E M) (id : Z) : bytes :=
  regr_prefix ++ id_field id ++ ","%char :: regr_suffix p.

Definition regr_json (p : plugin_t E M) (id : Z) : json :=
  JObj ([(lit "license", JStr (license meta)); (lit "aid", JInt (aid meta mod 2 ^ 64));
         (lit "tid", JInt (id mod 2 ^ 64)); (lit "agent_type", JStr (agent_type meta));
         (lit "target_type", JStr (ptype p)); (lit "os", JStr (os meta));
         (lit "hostname", JStr (host meta)); (lit "ip", JStr (aip meta))]
        ++ match tip p with Some ip => [(lit "target_ip", JStr ip)] | None => [] end).

(** No string of the message needs an escape. *)
Record regr_clean (p : plugin_t E M) : Prop := {
  rc_license : clean (license meta);
  rc_agent : clean (agent_type meta);
  rc_target : clean (ptype p);
  rc_os : clean (os meta);
  rc_host : clean (host meta);
  rc_aip : clean (aip meta);
  rc_tip : ∀ ip, tip p = Some ip → clean ip
}.

Lemma id_field_length id : length (id_field id) = 20%nat.
Proof. apply length_pad_left, dec_u64_length, Z.mod_pos_bound. lia. Qed.

Lemma id_field_value id : value (id_field id) (JInt (id mod 2 ^ 64)).
Proof. apply v_int, tid_mod_nonneg. Qed.

Lemma regr_value p id : regr_clean p → value (regr_text p id) (regr_json p id).
Proof.
  intros [? ? ? ? ? ? Htip].
  replace (regr_text p id) with
    (obj_text ([(lit "license", quoted (license meta));
                (lit "aid", replicate 0 " "%char ++ dec (aid meta mod 2 ^ 64));
                (lit "tid", id_field id); (lit "agent_type", quoted (agent_type meta));
                (lit "target_type", quoted (ptype p)); (lit "os", quoted (os meta));
                (lit "hostname", quoted (host meta)); (lit "ip", quoted (aip meta))]
               ++ match tip p with Some ip => [(lit "target_ip", quoted ip)] | None => [] end)).
  - apply obj_value, Forall2_app.
    + solve_fields; by auto using id_field_value, v_str, v_int, tid_mod_nonneg.
    + destruct (tip p) as [ip|]; solve_fields. by apply v_str, Htip.
  - unfold regr_text, regr_prefix, regr_suffix, obj_text, quoted.
    destruct (tip p); cbn [fields_text app fmap list_fmap mjoin list_join];
      unfold field_text, quoted; cbn [fst snd]; simpl; rewrite <- ?app_assoc; simpl;
      repeat (rewrite <- ?app_assoc; simpl); done.
Qed.

(** A packet ready to be posted with the text [c]. *)
Record sendable (k : packet_t) (t : packet_type) (c : bytes) : Prop := {
  se_text : holds k c;
  se_state : state k = READY;
  se_type : type k = t;
  se_spin : spin k = 0
}.

(** A packet that carries the registration of [p] under [id]; its rollback point
    is where the id stands. *)
Definition regr_packet (p : plugin_t E M) (id : Z) (k : packet_t) : Prop :=
  sendable k REGISTER (regr_text p id) ∧ rollback_point k = Z.of_nat (length regr_prefix).

Lemma regr_text_length p id id' : length (regr_text p id) = length (regr_text p id').
Proof. unfold regr_text. rewrite !length_app, !id_field_length. done. Qed.

Lemma regr_tail_format p :
  format "%20llu,'agent_type':'%s','target_type':'%s','os':'%s','hostname':'%s','ip':'%s'%s%s%s}"
    (regr_tail_args meta p) = Some (id_field (tid p) ++ ","%char :: regr_suffix p).
Proof.
  unfold regr_tail_args, regr_suffix, id_field. destruct (tip p); fmt_eval; simpl;
    by rewrite <- ?app_assoc.
Qed.

Lemma regr_fill_ok p :
  fits [] (length (regr_text p (tid p))) →
  ∃ k, regr_fill meta p (zeroed REGISTER) = Ok k ∧ regr_packet p (tid p) k.
Proof.
  intros Hf. unfold regr_text, regr_fill, fits in *. rewrite !length_app in Hf. simpl in Hf.
  destruct (packet_append_ok (set_state READY (zeroed REGISTER)) []
    "{'license':'%s','aid':%llu,'tid':" [AStr (license meta); AInt (aid meta)] regr_prefix)
    as (k & -> & Hm & Hh).
  { apply holds_begins. apply (holds_ext (zeroed REGISTER)); [done|done|apply zeroed_holds]. }
  { by fmt_eval. }
  { unfold fits. simpl. lia. }
  cbn [rbind]. simpl app in Hh.
  destruct (packet_append_ok (packet_transaction k) regr_prefix _ _ _
    (holds_begins _ _ (holds_ext k (packet_transaction k) _ eq_refl eq_refl Hh)) (regr_tail_format p))
    as (k' & -> & Hm' & Hh').
  { unfold fits. rewrite length_app. simpl. lia. }
  exists k'. split; [done|]. split; [split; [done|..]|]; rewrite Hm'; simpl;
    [by rewrite Hm..|]. by destruct Hh as (_ & -> & _).
Qed.

(** A terminated field written over a field of the same size and its separator,
    and the separator put back. *)
Lemma overwrite_field (a b b' c : bytes) (x y : ascii) :
  length b' = length b →
  <[(length a + length b')%nat := x]> (write_at (a ++ b ++ x :: c) (length a) (b' ++ [y]))
  = a ++ b' ++ x :: c.
Proof.
  intros Hl. change (x :: c) with ([x] ++ c). rewrite (app_assoc b), write_at_middle.
  - replace (length a + length b')%nat with (length (a ++ b') + 0)%nat
      by (rewrite length_app; lia).
    rewrite !app_assoc, <- (app_assoc _ [y]), insert_app_r. simpl. by rewrite <- !app_assoc.
  - rewrite !length_app. simpl. lia.
Qed.

(** Overwriting the id leaves the packet as if it had been written with it. *)
Lemma regr_patch_ok p id k :
  regr_packet p id k →
  ∃ k', regr_patch p k = Ok k' ∧ regr_packet p (tid p) k' ∧ same_meta k k' ∧ size k' = size k.
Proof.
  intros [[(Hfl & Hs & rest & Hp) Hst Hty Hsp] Hr]. unfold regr_patch.
  pose proof Hp as Hp0. pose proof Hfl as Hfl0.
  assert (format "%20llu" [AInt (tid p)] = Some (id_field (tid p))) as ->.
  { fmt_eval. by rewrite app_nil_r. }
  cbn [of_opt rbind]. rewrite Hr, id_field_length.
  unfold full in Hfl. unfold regr_text in Hp. rewrite Hp, !length_app in Hfl.
  rewrite id_field_length in Hfl. cbn [length] in Hfl.
  rewrite (proj2 (Z.ltb_ge _ _)), (proj2 (Z.ltb_ge PKTSZ _)) by lia. cbn [orb].
  rewrite Nat2Z.id. rewrite <- !app_assoc in Hp. cbn [app] in Hp.
  set (k1 := set_payload _ k). set (n := Z.of_nat (length regr_prefix) + 20).
  unfold payload_set. rewrite (proj2 (Z.leb_le _ n)), (proj2 (Z.ltb_lt n _)) by lia. cbn [andb].
  assert (<[Z.to_nat n := ","%char]> (payload k1) = regr_text p (tid p) ++ NUL :: rest) as Hpay.
  { replace (Z.to_nat n) with (length regr_prefix + length (id_field (tid p)))%nat
      by (rewrite id_field_length; lia).
    subst k1. simpl payload. rewrite Hp, overwrite_field by (by rewrite !id_field_length).
    unfold regr_text. rewrite <- !app_assoc. done. }
  rewrite Hpay. subst k1. eexists. split; [done|]. split; [|done].
  split; [split; [split; [|split]|done..]|done].
  - unfold full. cbn [payload set_payload].
    by rewrite length_app, (regr_text_length p _ id), <- length_app, <- Hp0.
  - cbn [size set_payload]. rewrite Hs. f_equal. apply regr_text_length.
  - by exists rest.
Qed.

(** * Alerts *)

Definition alert_text (p : plugin_t E M) (stat : string) : bytes :=
  lit "{'license':'" ++ license meta ++ lit "','tid':" ++ dec (tid p mod 2 ^ 64)
  ++ lit ",'status':'" ++ lit stat ++ lit "'}".

Definition alert_json (p : plugin_t E M) (stat : string) : json :=
  JObj [(lit "license", JStr (license meta)); (lit "tid", JInt (tid p mod 2 ^ 64));
        (lit "status", JStr (lit stat))].

Lemma alert_value p stat :
  clean (license meta) → clean (lit stat) → value (alert_text p stat) (alert_json p stat).
Proof.
  intros Hl Hs.
  replace (alert_text p stat) with
    (obj_text [(lit "license", quoted (license meta));
               (lit "tid", replicate 0 " "%char ++ dec (tid p mod 2 ^ 64));
               (lit "status", quoted (lit stat))]).
  - apply obj_value. solve_fields; auto using v_str, v_int, tid_mod_nonneg.
  - unfold alert_text, obj_text, fields_text, field_text, quoted. cbn [fst snd fmap list_fmap mjoin list_join].
    repeat (rewrite <- ?app_assoc; simpl). done.
Qed.

Definition alert_packet (p : plugin_t E M) (stat : string) (k : packet_t) : Prop :=
  sendable k ALERT (alert_text p stat).

Lemma alert_fill_ok p stat :
  fits [] (length (alert_text p stat)) →
  ∃ k, alert_fill meta p stat (zeroed ALERT) = Ok k ∧ alert_packet p stat k.
Proof.
  intros Hf. unfold alert_fill.
  destruct (packet_append_ok (set_state READY (zeroed ALERT)) []
    "{'license':'%s','tid':%llu,'status':'%s'}"
    [AStr (license meta); AInt (tid p); AStr (lit stat)] (alert_text p stat))
    as (k & -> & Hm & Hh); [|by fmt_eval|done|].
  { apply holds_begins. apply (holds_ext (zeroed ALERT)); [done|done|apply zeroed_holds]. }
  exists k. split; [done|]. split; [done|by rewrite Hm..].
Qed.

(** * Posting *)

(** A post hands the server the text of the packet, and leaves the packet as it
    was but for the attempt counter and the response. *)
Lemma sendable_post net sd k t c :
  sendable k t c → no_nul c → usable sd t → codes_fit net →
  ∃ rs, post net sd k
      = Ok (b2z (success (net t c)) - 1, sd, set_response rs (set_attempt (attempt k + 1) k)).
Proof.
  intros [Hh Hst Hty Hsp] Hn Hu Hc.
  destruct (post_ready net sd k Hst Hsp) as (k' & Ep & rs & ->); [by rewrite Hty|done|].
  exists rs. by rewrite Ep, Hty, (holds_cstr _ _ Hh Hn).
Qed.

Lemma sendable_again k t c rs n :
  sendable k t c → sendable (set_response rs (set_attempt n k)) t c.
Proof. intros [Hh ? ? ?]. split; [by apply (holds_ext k)|done..]. Qed.

(** * The life of a plugin *)

(** The storage list: no cycle, and every packet of it unlocked and whole. *)
Record list_ok (s : store) (ls : list loc) : Prop := {
  lo_chain : chain (cells s) (packets s) ls;
  lo_nodup : NoDup ls;
  lo_cells : ∀ x q, x ∈ ls → cells s !! x = Some q → spin q = 0 ∧ full q
}.

Lemma list_ok_frame s h ls :
  list_ok s ls → (∀ x, x ∈ ls → h !! x = cells s !! x) → list_ok (Store h (packets s)) ls.
Proof.
  intros [Hc Hn Hx] Hf. split; simpl; [|done|].
  - eapply chain_ext; [|exact Hc]. intros x Hi. by rewrite Hf.
  - intros x q Hi. rewrite Hf by done. by apply Hx.
Qed.

Lemma list_ok_fresh s ls a : list_ok s ls → cells s !! a = None → a ∉ ls.
Proof. intros Hl Ha Hi. destruct (chain_in _ _ _ _ (lo_chain _ _ Hl) Hi). congruence. Qed.

(** The message that belongs to a task. *)
Definition oob_packet (t : option task_fn) (p : plugin_t E M) (k : packet_t) : Prop :=
  match t with
  | Some plugin_regr_fn => ∃ id, regr_packet p id k
  | Some plugin_alert_up_fn => alert_packet p "up" k
  | Some plugin_alert_down_fn => alert_packet p "down" k
  | _ => False
  end.

(** The invariant of a plugin and its world: the packet it fills is one of the
    list and shows samples under its current id, its out-of-band packet is
    outside of the list and carries the message of its task, and it fills no
    packet before it is registered. *)
Record life_inv (p : plugin_t E M) (w : world) (ls : list loc) : Prop := {
  li_list : list_ok (w_store w) ls;
  li_working : ∀ a, working p = Some a →
    a ∈ ls ∧ ∃ k js, w_heap w !! a = Some k ∧ metric_inv meta p k js;
  li_oob : ∀ b, oob p = Some b →
    (b ∉ ls) ∧ ∃ k, w_heap w !! b = Some k ∧ oob_packet (task (r p)) p k;
  li_task : task (r p) ∈ Some <$>
    [plugin_prep_fn; plugin_regr_fn; plugin_gather_fn; plugin_alert_up_fn; plugin_alert_down_fn];
  li_idle : task (r p) ∈ Some <$> [plugin_prep_fn; plugin_regr_fn] → working p = None
}.

(** What the environment must supply for a message: memory, a state file that
    can be opened, and a network whose answers are decimal codes. *)
Record call_ok (e : regr_env) (w : world) : Prop := {
  co_mem : ∃ a, re_mem e = Some a ∧ w_heap w !! a = None;
  co_fopen : re_fopen e = true;
  co_codes : codes_fit (re_net e);
  co_usable : ∀ t, usable (w_senders w) t
}.

(** The id a registration is sent under. *)
Definition regr_id (e : regr_env) (p : plugin_t E M) : Z :=
  match oob p with
  | None => if tid p =? 0 then new_id (re_now e) 0 else tid p
  | Some _ => tid p
  end.

Definition regr_posts (e : regr_env) (p : plugin_t E M) : bool :=
  success (re_net e REGISTER (regr_text p (regr_id e p))).

(** The message is built or rebuilt for the current id. *)
Lemma regr_build_ok e p w ls :
  life_inv p w ls → task (r p) = Some plugin_regr_fn → call_ok e w →
  fits [] (length (regr_text p 0)) →
  ∃ b k, regr_build meta e p w
      = Ok (set_oob (Some b) (set_tid (regr_id e p) p), b, k)
    ∧ (b ∉ ls) ∧ regr_packet p (regr_id e p) k.
Proof.
  intros [Hls _ Hoob _ _] Ht [(a & Ha & Hfr) _ _ _] Hf. unfold regr_build, regr_id.
  destruct (oob p) as [b|] eqn:Eo.
  - destruct (Hoob b eq_refl) as (Hb & k & Hk & Hp). rewrite Ht in Hp. destruct Hp as [id Hp].
    rewrite (deref_Some _ _ _ Hk). cbn [rbind].
    destruct (regr_patch_ok p id k Hp) as (k' & -> & Hp' & _). exists b, k'. split; [|done].
    cbn [rbind]. do 3 f_equal. destruct p; simpl in *; by subst.
  - set (p1 := if tid p =? 0 then _ else _).
    assert (p1 = set_tid (if tid p =? 0 then new_id (re_now e) 0 else tid p) p) as ->.
    { subst p1. destruct (tid p =? 0); [done|]. by destruct p. }
    rewrite Ha. cbn [packet_alloc packet_type_of Z.eqb Pos.eqb].
    destruct (regr_fill_ok (set_tid (if tid p =? 0 then new_id (re_now e) 0 else tid p) p))
      as (k & -> & Hp).
    { unfold fits. rewrite (regr_text_length _ _ 0). exact Hf. }
    exists a, k. split; [done|]. split; [|exact Hp].
    by eapply list_ok_fresh.
Qed.

(** ** The turns *)

(** Changing the cell [b], outside of the list, and the fields of the plugin that
    its packets do not show. *)
Lemma life_inv_oob p w ls p' h res b :
  life_inv p w ls → b ∉ ls → (∀ x, x ≠ b → h !! x = w_heap w !! x) →
  working p' = working p → (working p = None ∨ tid p' = tid p) →
  (∀ x, oob p' = Some x → x = b ∧ ∃ k, h !! b = Some k ∧ oob_packet (task (r p')) p' k) →
  task (r p') ∈ Some <$>
    [plugin_prep_fn; plugin_regr_fn; plugin_gather_fn; plugin_alert_up_fn; plugin_alert_down_fn] →
  (task (r p') ∈ Some <$> [plugin_prep_fn; plugin_regr_fn] → working p = None) →
  life_inv p' (World (Store h (packets (w_store w))) (w_senders w) res) ls.
Proof.
  intros [Hls Hwk Hoob Htk Hid] Hb Hh Ew Eid Ho Ht Hi. split; simpl.
  - apply list_ok_frame; [done|]. intros x Hx. apply Hh. by intros ->.
  - rewrite Ew. intros a Ha. destruct (Hwk a Ha) as (Hal & k & js & Hk & Hm). split; [done|].
    exists k, js. unfold w_heap. simpl. rewrite Hh by (by intros ->). split; [done|].
    destruct Eid as [Eid|Eid]; [congruence|].
    unfold metric_inv, samples, header. by rewrite Eid.
  - intros x Hx. by destruct (Ho x Hx) as [-> Hk].
  - done.
  - intros Hp. rewrite Ew. by apply Hi.
Qed.

Lemma regr_turn e p w ls :
  life_inv p w ls → task (r p) = Some plugin_regr_fn → call_ok e w → regr_clean p →
  fits [] (length (regr_text p 0)) →
  ∃ p' w', plugin_regr image meta e p w = Ok (b2z (regr_posts e p) - 1, p', w')
    ∧ life_inv p' w' ls ∧ w_senders w' = w_senders w ∧ working p' = None ∧ gather p' = gather p
    ∧ if regr_posts e p
      then task (r p') = Some plugin_gather_fn ∧ tid p' = regr_id e p ∧ oob p' = None
           ∧ w_res w' = <[res_name (regr_id e p) := res_file image p]> (w_res w)
      else task (r p') = Some plugin_regr_fn ∧ w_res w' = w_res w
           ∧ ∃ b k, oob p' = Some b ∧ w_heap w' !! b = Some k
             ∧ tid p' = if response k =? ETARGETREG then new_id (re_now e) 3 else regr_id e p.
Proof.
  intros Hinv Ht Hce Hcl Hf.
  pose proof (li_idle _ _ _ Hinv) as Hidle. rewrite Ht in Hidle.
  specialize (Hidle ltac:(by right; left)).
  destruct (regr_build_ok e p w ls Hinv Ht Hce Hf) as (b & k & Eb & Hb & Hp).
  unfold plugin_regr. rewrite Eb. cbn [rbind]. destruct Hce as [_ Hfo Hco Hus].
  destruct Hp as [Hse Hrb].
  destruct (sendable_post (re_net e) (w_senders w) k _ _ Hse) as [rs ->];
    [by eapply value_no_nul, regr_value|done|done|].
  cbn [rbind]. fold (regr_posts e p). set (k' := set_response _ _).
  assert (regr_packet p (regr_id e p) k') as Hk'.
  { split; [by apply sendable_again|done]. }
  clearbody k'. clear Hse Hrb k Eb. destruct (regr_posts e p); cbn [b2z Z.sub Z.ltb Z.compare].
  - unfold packet_free, w_heap. simpl. rewrite lookup_insert_eq. simpl. rewrite Hfo. simpl.
    eexists _, _. split; [done|]. split; [|done].
    eapply (life_inv_oob p w ls _ _ _ b Hinv Hb); simpl; try done.
    + intros x Hx. by rewrite lookup_delete_ne, lookup_insert_ne.
    + by left.
    + set_solver.
  - eexists _, _. split; [done|].
    set (p' := if response k' =? ETARGETREG then _ else _).
    assert (p' = set_oob (Some b) (set_tid (if response k' =? ETARGETREG then new_id (re_now e) 3
      else regr_id e p) p)) as -> by (subst p'; by destruct (response k' =? ETARGETREG)).
    split; [|split; [done|]; split; [done|]; split; [done|]; split; [done|]; split; [done|]].
    + eapply (life_inv_oob p w ls _ _ _ b Hinv Hb); simpl; try done.
      * intros x Hx. by rewrite lookup_insert_ne.
      * by left.
      * intros x [= <-]. split; [done|]. exists k'. rewrite lookup_insert_eq. split; [done|].
        rewrite Ht. by exists (regr_id e p).
      * apply Hinv.
    + exists b, k'. split; [done|]. split; [apply lookup_insert_eq|done].
Qed.

(** The status an alert task reports. *)
Definition alert_stat (f : task_fn) : option string :=
  match f with
  | plugin_alert_up_fn => Some "up"
  | plugin_alert_down_fn => Some "down"
  | _ => None
  end%string.

Lemma alert_stat_oob f stat p k :
  alert_stat f = Some stat → oob_packet (Some f) p k = alert_packet p stat k.
Proof. by destruct f; intros [= <-]. Qed.

Lemma alert_stat_clean f stat : alert_stat f = Some stat → clean (lit stat).
Proof. destruct f; intros [= <-]; solve_clean. Qed.

Lemma alert_stat_task f stat :
  alert_stat f = Some stat → Some f ∉ Some <$> [plugin_prep_fn; plugin_regr_fn].
Proof. destruct f; intros [= <-]; set_solver. Qed.

Lemma alert_build_ok e p w ls f stat :
  life_inv p w ls → task (r p) = Some f → alert_stat f = Some stat → call_ok e w →
  fits [] (length (alert_text p stat)) →
  ∃ b k, alert_build meta e stat p w = Ok (set_oob (Some b) p, b, k)
    ∧ (b ∉ ls) ∧ alert_packet p stat k.
Proof.
  intros [Hls _ Hoob _ _] Ht Hst [(a & Ha & Hfr) _ _ _] Hf. unfold alert_build.
  destruct (oob p) as [b|] eqn:Eo.
  - destruct (Hoob b eq_refl) as (Hb & k & Hk & Hp).
    rewrite Ht, (alert_stat_oob _ _ _ _ Hst) in Hp.
    rewrite (deref_Some _ _ _ Hk). exists b, k. split; [|done]. simpl. do 3 f_equal.
    destruct p; simpl in *; by subst.
  - rewrite Ha. cbn [packet_alloc packet_type_of Z.eqb Pos.eqb].
    destruct (alert_fill_ok p stat Hf) as (k & -> & Hp).
    exists a, k. split; [done|]. split; [by eapply list_ok_fresh|exact Hp].
Qed.

Definition alert_posts (e : regr_env) (p : plugin_t E M) (stat : string) : bool :=
  success (re_net e ALERT (alert_text p stat)).

Lemma alert_turn e p w ls f stat :
  life_inv p w ls → task (r p) = Some f → alert_stat f = Some stat → call_ok e w →
  clean (license meta) → fits [] (length (alert_text p stat)) →
  ∃ p' w', plugin_alert meta e stat p w = Ok (b2z (alert_posts e p stat) - 1, p', w')
    ∧ life_inv p' w' ls ∧ w_senders w' = w_senders w ∧ tid p' = tid p ∧ gather p' = gather p
    ∧ task (r p') = Some (if alert_posts e p stat then plugin_gather_fn else f).
Proof.
  intros Hinv Ht Hst Hce Hcl Hf.
  destruct (alert_build_ok e p w ls f stat Hinv Ht Hst Hce Hf) as (b & k & Eb & Hb & Hp).
  unfold plugin_alert. rewrite Eb. cbn [rbind]. destruct Hce as [_ _ Hco Hus].
  destruct (sendable_post (re_net e) (w_senders w) k _ _ Hp) as [rs ->];
    [by eapply value_no_nul, alert_value, alert_stat_clean|done|done|].
  cbn [rbind]. fold (alert_posts e p stat). set (k' := set_response _ _).
  assert (alert_packet p stat k') as Hk' by (by apply sendable_again).
  clearbody k'. clear Hp k Eb. pose proof (alert_stat_task _ _ Hst) as Hnt.
  destruct (alert_posts e p stat); cbn [b2z Z.sub Z.ltb Z.compare].
  - unfold packet_free, w_heap. simpl. rewrite lookup_insert_eq. simpl.
    eexists _, _. split; [done|]. split; [|done].
    eapply (life_inv_oob p w ls _ _ _ b Hinv Hb); simpl; [|done|by right|done|set_solver|set_solver].
    intros x Hx. by rewrite lookup_delete_ne, lookup_insert_ne.
  - eexists _, _. split; [done|]. split; [|done].
    eapply (life_inv_oob p w ls _ _ _ b Hinv Hb); simpl; [|done|by right| |apply Hinv|].
    + intros x Hx. by rewrite lookup_insert_ne.
    + intros x [= <-]. split; [done|]. exists k'. rewrite lookup_insert_eq. split; [done|].
      rewrite Ht. by rewrite (alert_stat_oob _ _ _ _ Hst).
    + by rewrite Ht.
Qed.

(** ** Gathering, as a step of the life *)

Section Gatherer.
Context (f : gather_fn E M) `{!Gatherer f} `{!JsonGatherer f}.

(** The buffer of the packet being filled has room for one more turn. *)
Definition roomy (p : plugin_t E M) (w : world) (env : E) (begin : Z) : Prop :=
  ∀ n, n = match working p ≫= λ a, w_heap w !! a with Some k => size k | None => 0 end →
  n + Z.of_nat (turn_need meta f p env begin) < PKTSZ.

(** The task a gathering of result [z] leaves behind. *)
Definition next_task (z : Z) : task_fn :=
  if z =? EPLUGUP then plugin_alert_up_fn
  else if z =? EPLUGDOWN then plugin_alert_down_fn
  else plugin_gather_fn.

Lemma turn_full p k' js (late : bool) (P : Prop) :
  (if late then closed meta p k' js else samples meta p k' js ∧ P) → full k'.
Proof.
  destruct late; [unfold closed; case_decide|].
  - by intros (_ & c & ? & _).
  - by intros (_ & c & (? & _) & _).
  - by intros ((s & (? & _) & _) & _).
Qed.

Lemma gather_step_some p w ls a env mem begin now :
  life_inv p w ls → task (r p) = Some plugin_gather_fn → gather p = f → working p = Some a →
  clean (license meta) → g_clean f env (module p) → roomy p w env begin →
  ∃ p' w', plugin_gather meta env mem begin now p w = Ok (0, p', w') ∧ life_inv p' w' ls
    ∧ w_senders w' = w_senders w ∧ tid p' = tid p ∧ gather p' = f
    ∧ task (r p') = Some (next_task (g_code f env (module p))).
Proof.
  intros Hinv Ht Hg Hw Hl Hc Hr. pose proof Hinv as [Hls Hwk Hoob Htk Hid].
  destruct (Hwk a Hw) as (Ha & k & js & Hk & Hm).
  destruct (plugin_gather_ok meta f p w a k js env mem begin now Hg Hw Hk Hm Hl Hc)
    as (p' & k' & js' & -> & [Hsam Hp Hcell Hpk Hz]).
  { apply Hr. rewrite Hw. simpl. by rewrite Hk. }
  assert (oob p = None) as Ho.
  { destruct (oob p) as [b|] eqn:Ho; [|done]. destruct (Hoob b eq_refl) as (_ & q & _ & Hq).
    by rewrite Ht in Hq. }
  assert (tid p' = tid p ∧ oob p' = None ∧ gather p' = f
    ∧ task (r p') = Some (next_task (g_code f env (module p)))
    ∧ task (r p') ∈ Some <$> [plugin_gather_fn; plugin_alert_up_fn; plugin_alert_down_fn])
    as (Et & Eo & Eg & Ek & Hin).
  { subst p'. unfold task_after, next_task. repeat case_match; simpl; rewrite ?Ht, ?Ho; set_solver. }
  eexists p', _. split; [done|]. split; [|done]. split; simpl.
  - split; simpl.
    + eapply chain_update; [exact Hk|by destruct Hcell|apply Hls].
    + apply Hls.
    + intros x q Hx. rewrite lookup_insert_Some. intros [[<- <-]|[_ Hq]]; [|by apply (lo_cells _ _ Hls x)].
      destruct Hcell as (_ & -> & _). split; [|by eapply turn_full].
      by apply (lo_cells _ _ Hls a k).
  - intros x Hx. rewrite Hp in Hx. simpl in Hx. destruct (7000 <=? _); [done|]. injection Hx as <-.
    split; [done|]. exists k', js'. unfold w_heap. simpl. rewrite lookup_insert_eq. split; [done|].
    right. destruct Hpk as [Hs _]. unfold samples, header in *. by rewrite Et.
  - by rewrite Eo.
  - set_solver.
  - set_solver.
Qed.

(** A plugin without a packet first takes one. *)
Lemma take_packet_inv p w ls x q st' ls' :
  life_inv p w ls → oob p = None → task (r p) = Some plugin_gather_fn →
  handed (w_store w) ls METRIC x q st' ls' →
  life_inv (set_working (Some x) p) (World st' (w_senders w) (w_res w)) ls'.
Proof.
  intros [Hls Hwk Hoob Htk Hid] Ho Ht [Hc Hn Hx Hq He Hty Hb Hat Hsp Hfr Hl]. split; simpl.
  - split; simpl; [done|done|]. intros y z Hy Hz. destruct (decide (y = x)) as [->|Hne].
    + rewrite Hq in Hz. injection Hz as <-. split; [done|]. by destruct Hb as [[? _] _].
    + rewrite Hfr in Hz by done. apply (lo_cells _ _ Hls y); [|done].
      case_decide; [by subst ls'|]. destruct Hl as [-> _]. by apply elem_of_cons in Hy as [->|?].
  - intros a [= <-]. split; [done|]. exists q, []. split; [done|]. by left.
  - by rewrite Ho.
  - done.
  - rewrite Ht. set_solver.
Qed.

Lemma gather_step p w ls a env begin now :
  life_inv p w ls → task (r p) = Some plugin_gather_fn → gather p = f → w_heap w !! a = None →
  clean (license meta) → g_clean f env (module p) → roomy p w env begin →
  ∃ p' w' ls', plugin_gather meta env (Some a) begin now p w = Ok (0, p', w') ∧ life_inv p' w' ls'
    ∧ w_senders w' = w_senders w ∧ tid p' = tid p ∧ gather p' = f
    ∧ task (r p') = Some (next_task (g_code f env (module p))).
Proof.
  intros Hinv Ht Hg Ha Hl Hc Hr. destruct (working p) as [b|] eqn:Hw.
  { destruct (gather_step_some p w ls b env (Some a) begin now) as (p' & w' & H); try done.
    by exists p', w', ls. }
  assert (oob p = None) as Ho.
  { destruct (oob p) as [b|] eqn:Ho; [|done].
    destruct (li_oob _ _ _ Hinv b Ho) as (_ & q & _ & Hq). by rewrite Ht in Hq. }
  destruct (li_list _ _ _ Hinv) as [Hch Hnd Hcs].
  destruct (get_packet_ok (w_store w) ls a METRIC Hch Hnd Ha Hcs) as (x & q & st' & ls' & Eg & Hh).
  rewrite (plugin_gather_new meta _ _ _ _ _ _ _ _ Hw Eg).
  pose proof (take_packet_inv p w ls x q st' ls' Hinv Ho Ht Hh) as Hinv'.
  destruct (gather_step_some _ _ _ x env (Some a) begin now Hinv') as (p' & w' & H); try done.
  - intros n ->. unfold roomy in Hr. rewrite Hw in Hr. specialize (Hr 0 eq_refl). simpl.
    unfold w_heap. simpl. rewrite (ha_cell _ _ _ _ _ _ _ Hh).
    destruct (ha_text _ _ _ _ _ _ _ Hh) as [_ ->]. done.
  - by exists p', w', ls'.
Qed.

(** What one run of the task function relies on. *)
Record task_ok (te : task_env E) (p : plugin_t E M) (w : world) : Prop := {
  to_call : call_ok (te_call te) w;
  to_clean : regr_clean p;
  to_module : g_clean f (te_env te) (module p);
  to_room : roomy p w (te_env te) (te_begin te);
  to_regr : fits [] (length (regr_text p 0));
  to_up : fits [] (length (alert_text p "up"));
  to_down : fits [] (length (alert_text p "down"))
}.

(** The result of one run. *)
Record lived (p : plugin_t E M) (w : world) (p' : plugin_t E M) (w' : world) : Prop := {
  lv_inv : ∃ ls, life_inv p' w' ls;
  lv_edge : ∃ t t', task (r p) = Some t ∧ task (r p') = Some t' ∧ edge t t';
  lv_id : task (r p) ∉ Some <$> [plugin_prep_fn; plugin_regr_fn] → tid p' = tid p;
  lv_gather : gather p' = gather p;
  lv_senders : w_senders w' = w_senders w
}.

Lemma prep_module_inv p w ls m :
  life_inv p w ls → life_inv (set_module m p) w ls.
Proof. by intros []. Qed.

Lemma prep_goto_inv p w ls :
  life_inv p w ls → task (r p) = Some plugin_prep_fn → life_inv (goto plugin_regr_fn p) w ls.
Proof.
  intros [Hls Hwk Hoob Htk Hid] Ht. rewrite Ht in *. split; simpl; [done|done| |set_solver|].
  - intros b Hb. by destruct (Hoob b Hb) as (_ & k & _ & []).
  - intros _. apply Hid. set_solver.
Qed.

Lemma lived_intro p w p' w' ls' t t' :
  life_inv p' w' ls' → task (r p) = Some t → task (r p') = Some t' → edge t t' →
  (t ≠ plugin_prep_fn → t ≠ plugin_regr_fn → tid p' = tid p) →
  gather p' = gather p → w_senders w' = w_senders w → lived p w p' w'.
Proof.
  intros Hi Ht Ht' He Hid Hg Hs. split; [by exists ls'|by exists t, t'| |done|done].
  rewrite Ht. intros Hn. apply Hid; set_solver.
Qed.

Lemma regr_lived p p1 w ls (te : task_env E) t :
  life_inv p1 w ls → task (r p1) = Some plugin_regr_fn → call_ok (te_call te) w → regr_clean p1 →
  fits [] (length (regr_text p1 0)) →
  task (r p) = Some t → gather p1 = gather p → t = plugin_prep_fn ∨ t = plugin_regr_fn →
  ∃ z p' w', plugin_regr image meta (te_call te) p1 w = Ok (z, p', w') ∧ (z = 0 ∨ z = -1)
    ∧ lived p w p' w'.
Proof.
  intros Hi Ht Hca Hcl Hf Htp Hgp Hcase.
  destruct (regr_turn (te_call te) p1 w ls Hi Ht Hca Hcl Hf)
    as (p' & w' & -> & Hi' & Hs & _ & Hg & H).
  eexists _, p', w'. split; [done|]. split; [destruct (regr_posts _ _); auto|].
  destruct (regr_posts _ _); destruct H as [Ht' _];
    (eapply lived_intro; [exact Hi'|exact Htp|exact Ht'| | |by rewrite Hg|done]);
    destruct Hcase as [-> | ->]; done || constructor.
Qed.

Lemma alert_lived p w ls (te : task_env E) t stat :
  life_inv p w ls → task (r p) = Some t → alert_stat t = Some stat → call_ok (te_call te) w →
  clean (license meta) → fits [] (length (alert_text p stat)) →
  ∃ z p' w', plugin_alert meta (te_call te) stat p w = Ok (z, p', w') ∧ (z = 0 ∨ z = -1)
    ∧ lived p w p' w'.
Proof.
  intros Hi Ht Hst Hca Hcl Hf.
  destruct (alert_turn (te_call te) p w ls t stat Hi Ht Hst Hca Hcl Hf)
    as (p' & w' & -> & Hi' & Hs & Hid & Hg & Ht').
  eexists _, p', w'. split; [done|]. split; [destruct (alert_posts _ _ _); auto|].
  eapply lived_intro; [exact Hi'|exact Ht|exact Ht'| |done|done|done].
  destruct (alert_posts _ _ _); destruct t; simplify_eq; constructor.
Qed.

Lemma life_step p w ls te :
  life_inv p w ls → gather p = f → task_ok te p w →
  ∃ z p' w', plugin_task te p w = Ok (z, p', w') ∧ (z = 0 ∨ z = -1) ∧ lived p w p' w'.
Proof.
  intros Hinv Hg [Hca Hcl Hmo Hro Hre Hup Hdn]. unfold plugin_task.
  pose proof (li_task _ _ _ Hinv) as Ht. pose proof (rc_license _ Hcl) as Hli.
  destruct (task (r p)) as [t|] eqn:Et; [|set_solver].
  destruct t; [| | | | |set_solver|set_solver].
  - unfold plugin_prep. destruct (match prep p with Some _ => _ | None => _ end) as [z m].
    pose proof (prep_module_inv p w ls m Hinv) as Hinv'. destruct (z <? 0).
    + eexists _, _, _. split; [done|]. split; [by right|].
      eapply lived_intro; [exact Hinv'|exact Et|exact Et|constructor|done..].
    + eapply regr_lived; [by apply prep_goto_inv|done|done|by destruct Hcl|done|exact Et|done|by left].
  - eapply regr_lived; try done. by right.
  - destruct (co_mem _ _ Hca) as (a & -> & Ha).
    destruct (gather_step p w ls a (te_env te) (te_begin te) (te_now te))
      as (p' & w' & ls' & -> & Hi & Hs & Hid & Hg' & Ht'); try done.
    eexists _, p', w'. split; [done|]. split; [by left|].
    eapply lived_intro; [exact Hi|exact Et|exact Ht'| |done|by rewrite Hg|done].
    unfold next_task. repeat case_match; constructor.
  - by eapply alert_lived.
  - by eapply alert_lived.
Qed.

(** Runs of the task function, one after the other. *)
Inductive reach (p : plugin_t E M) (w : world) : plugin_t E M → world → Prop :=
| reach_refl : reach p w p w
| reach_step p1 w1 p2 w2 te z :
    reach p w p1 w1 → task_ok te p1 w1 → plugin_task te p1 w1 = Ok (z, p2, w2) →
    reach p w p2 w2.

(** A task that has to get memory: a message that is not there yet, or the first
    packet of all. *)
Definition needs_memory (p : plugin_t E M) (w : world) : Prop :=
  match task (r p) with
  | Some plugin_regr_fn | Some plugin_alert_up_fn | Some plugin_alert_down_fn => oob p = None
  | Some plugin_gather_fn => working p = None ∧ packets (w_store w) = None
  | _ => False
  end.

Lemma starved_task te p w :
  needs_memory p w → re_mem (te_call te) = None → plugin_task te p w = Ub NullDeref.
Proof.
  unfold needs_memory, plugin_task. destruct (task (r p)) as [[]|]; try done; intros H Hm.
  - unfold plugin_regr, regr_build. by rewrite H, Hm.
  - destruct H as [H1 H2]. unfold plugin_gather, get_packet. rewrite H1, H2, Hm. by cbn.
  - unfold plugin_alert_up, plugin_alert, alert_build. by rewrite H, Hm.
  - unfold plugin_alert_down, plugin_alert, alert_build. by rewrite H, Hm.
Qed.

(** C5. The life of a plugin, as long as each run of its task finds what [task_ok]
    says: memory for a new packet and a state file that can be opened, usable
    senders and decimal answers, metadata and module data that need no escape, and
    room in the packet.  Whatever the server answers and the module gathers, every
    state the plugin reaches keeps the invariant [life_inv] (the packet it fills is
    in the storage list and shows complete samples under its id; its out-of-band
    packet is its own and carries the message of its task), and its next task runs
    to the end without undefined behaviour, returns 0 or -1, moves the task pointer
    along [edge] only, and never changes the id of a registered plugin.  Memory is
    indeed needed: where a task has to get some and there is none, it dereferences
    NULL. *)
Theorem plugin_life_safe p0 w0 ls0 p w te :
  life_inv p0 w0 ls0 → gather p0 = f → reach p0 w0 p w → task_ok te p w →
  (∃ ls, life_inv p w ls)
  ∧ (∃ z p' w', plugin_task te p w = Ok (z, p', w') ∧ (z = 0 ∨ z = -1)
      ∧ (∃ t t', task (r p) = Some t ∧ task (r p') = Some t' ∧ edge t t')
      ∧ (task (r p) ∉ Some <$> [plugin_prep_fn; plugin_regr_fn] → tid p' = tid p))
  ∧ ∀ te', needs_memory p w → re_mem (te_call te') = None → plugin_task te' p w = Ub NullDeref.
Proof.
  intros Hi Hg Hr Hte.
  assert ((∃ ls, life_inv p w ls) ∧ gather p = f) as [[ls Hinv] Hgp].
  { clear Hte. induction Hr as [|p1 w1 p2 w2 te' z _ [[ls IH] IHg] Hok Hrun]; [by eauto|].
    destruct (life_step p1 w1 ls te' IH IHg Hok) as (z' & p' & w' & Er & _ & [Hl _ _ Hgg _]).
    rewrite Er in Hrun. injection Hrun as _ -> ->. split; [done|by rewrite Hgg]. }
  split; [by exists ls|]. split; [|intros; by apply starved_task].
  destruct (life_step p w ls te Hinv Hgp Hte) as (z & p' & w' & Er & Hz & [_ He Hid _ _]).
  by exists z, p', w'.
Qed.

End Gatherer.

(** C28. Registration.  The message posted is a JSON document that names the
    plugin under its id, a new id if it had none.  If the server accepts it, the
    packet is freed, the file that restores the plugin is written under that id
    and the plugin gathers next; if not, the packet is kept for another attempt
    and the id stays, unless the server says it is taken. *)
Theorem registration_turn e p w ls :
  life_inv p w ls → task (r p) = Some plugin_regr_fn → call_ok e w → regr_clean p →
  fits [] (length (regr_text p 0)) →
  value (regr_text p (regr_id e p)) (regr_json p (regr_id e p))
  ∧ ∃ p' w', plugin_regr image meta e p w = Ok (b2z (regr_posts e p) - 1, p', w')
    ∧ life_inv p' w' ls
    ∧ if regr_posts e p
      then task (r p') = Some plugin_gather_fn ∧ tid p' = regr_id e p ∧ oob p' = None
           ∧ w_res w' = <[res_name (regr_id e p) := res_file image p]> (w_res w)
      else task (r p') = Some plugin_regr_fn ∧ w_res w' = w_res w
           ∧ ∃ b k, oob p' = Some b ∧ w_heap w' !! b = Some k
             ∧ tid p' = if response k =? ETARGETREG then new_id (re_now e) 3 else regr_id e p.
Proof.
  intros Hi Ht Hc Hcl Hf. split; [by apply regr_value|].
  destruct (regr_turn e p w ls Hi Ht Hc Hcl Hf) as (p' & w' & Er & Hi' & _ & _ & _ & H).
  by exists p', w'.
Qed.

(** A registration packet whose id is overwritten in place, with [sprintf]
    and the comma it destroys put back, shows the same text, the one of the new
    id, as a packet written afresh for that id. *)
Theorem registration_patch_as_new p id :
  fits [] (length (regr_text p 0)) →
  ∃ k k' k'', regr_fill meta p (zeroed REGISTER) = Ok k
    ∧ regr_patch (set_tid id p) k = Ok k'
    ∧ regr_fill meta (set_tid id p) (zeroed REGISTER) = Ok k''
    ∧ holds k (regr_text p (tid p)) ∧ holds k' (regr_text p id) ∧ holds k'' (regr_text p id)
    ∧ rollback_point k' = rollback_point k'' ∧ size k' = size k.
Proof.
  intros Hf. unfold fits in Hf.
  destruct (regr_fill_ok p) as (k & Ek & Hk); [unfold fits; by rewrite (regr_text_length p _ 0)|].
  destruct (regr_patch_ok (set_tid id p) (tid p) k Hk) as (k' & Ek' & Hk' & _ & Hs).
  destruct (regr_fill_ok (set_tid id p)) as (k'' & Ek'' & Hk'');
    [unfold fits; by rewrite (regr_text_length _ _ 0)|].
  exists k, k', k''. destruct Hk as [[? _ _ _] _], Hk' as [[? _ _ _] ?], Hk'' as [[? _ _ _] ?].
  repeat (split; [done|]). split; [congruence|done].
Qed.

(** C29. Alerts.  The message posted is a JSON document with the id of the plugin
    and its status; once it has been accepted the plugin gathers again, until
    then the alert is repeated. *)
Theorem alert_turn_sends e p w ls f stat :
  life_inv p w ls → task (r p) = Some f → alert_stat f = Some stat → call_ok e w →
  clean (license meta) → fits [] (length (alert_text p stat)) →
  value (alert_text p stat) (alert_json p stat)
  ∧ ∃ p' w', plugin_alert meta e stat p w = Ok (b2z (alert_posts e p stat) - 1, p', w')
    ∧ life_inv p' w' ls ∧ tid p' = tid p
    ∧ task (r p') = Some (if alert_posts e p stat then plugin_gather_fn else f).
Proof.
  intros Hi Ht Hst Hc Hcl Hf. split; [by eapply alert_value, alert_stat_clean|].
  destruct (alert_turn e p w ls f stat Hi Ht Hst Hc Hcl Hf) as (p' & w' & Er & Hi' & _ & Hid & _ & H).
  by exists p', w'.
Qed.

(** [plugin_init] establishes the invariant: the plugin has no packet, no id,
    and prepares first. *)
Theorem plugin_init_starts pt p w ls p' :
  list_ok (w_store w) ls → plugin_init pt (Some p) = (0, Some p') →
  life_inv p' w ls ∧ task (r p') = Some plugin_prep_fn ∧ tid p' = 0
  ∧ working p' = None ∧ oob p' = None.
Proof.
  intros Hl. unfold plugin_init. destruct (routine_init pt (Some (r p))) as [z [r'|]]; [|done].
  destruct (z <? 0); [done|]. intros [= <-]. split; [|done].
  split; simpl; [done|done|done|set_solver|done].
Qed.

End Life.

(** * Witnesses *)

Definition up_call : regr_env := RegrEnv (λ i, 1000 + Z.of_nat i) (Some 9%positive) ok_network true.
Definition up_task : task_env unit := TaskEnv tt up_call 1000 2000.

Lemma empty_list_ok : list_ok (w_store empty_world) [].
Proof. split; [done|constructor|]. intros x q Hx. by apply elem_of_nil in Hx. Qed.

Lemma up_life_inv f :
  f ∈ [plugin_prep_fn; plugin_regr_fn; plugin_gather_fn; plugin_alert_up_fn; plugin_alert_down_fn] →
  life_inv some_meta (up_plugin None None f) empty_world [].
Proof. intros Hf. split; [apply empty_list_ok|done|done| |done]. simpl task. set_solver. Qed.

Lemma up_call_ok : call_ok up_call empty_world.
Proof.
  split; [by exists 9%positive|done|intros ? ?; constructor|apply open_senders_usable].
Qed.

Lemma up_regr_clean f : regr_clean some_meta (up_plugin None None f).
Proof. split; [solve_clean..|done]. Qed.

Lemma plugin_life_safe_witness :
  (∃ ls, life_inv some_meta (up_plugin None None plugin_prep_fn) empty_world ls)
  ∧ (∃ z p' w', plugin_task (λ _, []) some_meta up_task (up_plugin None None plugin_prep_fn) empty_world
      = Ok (z, p', w') ∧ (z = 0 ∨ z = -1)
      ∧ (∃ t t', Some plugin_prep_fn = Some t ∧ task (r p') = Some t' ∧ edge t t')
      ∧ (Some plugin_prep_fn ∉ Some <$> [plugin_prep_fn; plugin_regr_fn] → tid p' = 42))
  ∧ ∀ te', needs_memory (up_plugin None None plugin_prep_fn) empty_world → re_mem (te_call te') = None →
      plugin_task (λ _, []) some_meta te' (up_plugin None None plugin_prep_fn) empty_world = Ub NullDeref.
Proof.
  apply (plugin_life_safe (λ _, []) some_meta up_gather (up_plugin None None plugin_prep_fn)
    empty_world [] (up_plugin None None plugin_prep_fn) empty_world up_task).
  - apply up_life_inv. by left.
  - reflexivity.
  - apply reach_refl.
  - split; [apply up_call_ok|apply up_regr_clean|exact I|intros n ->|..]; vm_compute; reflexivity.
Defined.

Lemma registration_turn_witness :
  let p := up_plugin None None plugin_regr_fn in
  value (regr_text some_meta p 42) (regr_json some_meta p 42)
  ∧ ∃ p' w', plugin_regr (λ _, []) some_meta up_call p empty_world = Ok (0, p', w')
    ∧ life_inv some_meta p' w' []
    ∧ (task (r p') = Some plugin_gather_fn ∧ tid p' = 42 ∧ oob p' = None
       ∧ w_res w' = <[res_name 42 := res_file (λ _, []) p]> ∅).
Proof.
  apply (registration_turn (λ _, []) some_meta up_call (up_plugin None None plugin_regr_fn)
    empty_world []).
  - apply up_life_inv. right. by left.
  - reflexivity.
  - apply up_call_ok.
  - apply up_regr_clean.
  - vm_compute. reflexivity.
Defined.

Lemma registration_patch_as_new_witness :
  let p := up_plugin None None plugin_regr_fn in
  ∃ k k' k'', regr_fill some_meta p (zeroed REGISTER) = Ok k
    ∧ regr_patch (set_tid 43 p) k = Ok k'
    ∧ regr_fill some_meta (set_tid 43 p) (zeroed REGISTER) = Ok k''
    ∧ holds k (regr_text some_meta p 42) ∧ holds k' (regr_text some_meta p 43)
    ∧ holds k'' (regr_text some_meta p 43)
    ∧ rollback_point k' = rollback_point k'' ∧ size k' = size k.
Proof.
  apply (registration_patch_as_new some_meta (up_plugin None None plugin_regr_fn) 43).
  vm_compute. reflexivity.
Defined.

Lemma alert_turn_sends_witness :
  let p := up_plugin None None plugin_alert_up_fn in
  value (alert_text some_meta p "up") (alert_json some_meta p "up")
  ∧ ∃ p' w', plugin_alert some_meta up_call "up" p empty_world = Ok (0, p', w')
    ∧ life_inv some_meta p' w' [] ∧ tid p' = 42
    ∧ task (r p') = Some plugin_gather_fn.
Proof.
  apply (alert_turn_sends some_meta up_call (up_plugin None None plugin_alert_up_fn) empty_world []
    plugin_alert_up_fn "up").
  - apply up_life_inv. set_solver.
  - reflexivity.
  - reflexivity.
  - apply up_call_ok.
  - solve_clean.
  - vm_compute. reflexivity.
Defined.

Lemma plugin_init_starts_witness :
  ∃ p', plugin_init (Pthread 0 0 0 0) (Some (up_plugin None None plugin_regr_fn)) = (0, Some p')
    ∧ life_inv some_meta p' empty_world [] ∧ task (r p') = Some plugin_prep_fn ∧ tid p' = 0
    ∧ working p' = None ∧ oob p' = None.
Proof.
  eexists. split; [reflexivity|].
  apply (plugin_init_starts some_meta (Pthread 0 0 0 0) (up_plugin None None plugin_regr_fn)).
  - apply empty_list_ok.
  - reflexivity.
Defined.
