(* ===== verification/HandoffTurn.v ===== *)
(** The threads of [Handoff] and the sequential model: what [get_packet] of Storage
    and [plugin_gather] of Plugin do in one step, a thread does as moves of its
    own; so every turn of a plugin takes place among the other threads, and what
    it hands over is the JSON document of its samples. *)
From Stdlib Require Import ZArith Ascii Lia.
From stdpp Require Import base list strings numbers gmap sets.
From S2P Require Import Prelude.
From S2P Require Import Json.
From S2P Require Import Packet.
From S2P Require Import Sender.
From S2P Require Import Routine.
From S2P Require Import Storage.
From S2P Require Import Plugin.
From S2P Require Import Handoff.
From S2P Require Import HandoffList.
Import Handoff.

Local Open Scope Z_scope.

(** A thread at [pc] can get to [pc'] by moves of its own, handing over [bs],
    among any other threads, whatever they have done. *)
Definition solo (pc : plug_pc) (s : shm) (pc' : plug_pc) (s' : shm) (bs : list body) : Prop :=
  ∃ ms, ∀ i ts sp ha ac, ts !! i = Some pc →
    hrun (Plug i <$> ms) (Config ts sp s ha ac) = Ok (Config (<[i := pc']> ts) sp s' (bs ++ ha) ac).

Lemma solo_refl pc s : solo pc s pc s [].
Proof. exists []. intros i ts sp ha ac Hi. cbn. by rewrite list_insert_id. Qed.

Lemma solo_step m pc s pc1 s1 pc' s' bs1 bs :
  pstep m pc s = Ok (Some (pc1, s1, bs1)) → solo pc1 s1 pc' s' bs → solo pc s pc' s' (bs ++ bs1).
Proof.
  intros Hs [ms H]. exists (m :: ms). intros i ts sp ha ac Hi. cbn. rewrite Hi, Hs. cbn [rbind].
  rewrite H by (apply list_lookup_insert_eq; by eapply lookup_lt_Some).
  by rewrite list_insert_insert_eq, <- app_assoc.
Qed.

(** A step that hands nothing over. *)
Lemma solo_quiet m pc s pc1 s1 pc' s' bs :
  pstep m pc s = Ok (Some (pc1, s1, [])) → solo pc1 s1 pc' s' bs → solo pc s pc' s' bs.
Proof. intros Hs H. rewrite <- (app_nil_r bs). by eapply solo_step. Qed.

(** [upd] of a cell that is there. *)
Lemma upd_cell h f a p g : h !! a = Some p → upd a g (Shm h f) = Ok (Shm (<[a := g p]> h) f).
Proof. intros Ha. unfold upd. cbn. by rewrite (deref_Some _ _ _ Ha). Qed.

(** ** Getting a packet *)

Lemma reset_alone f a fs : ∀ h p, h !! a = Some p →
  solo (Reset a fs) (Shm h f) (Hold a) (Shm (<[a := foldl (λ p f, reset f p) p fs]> h) f) [].
Proof.
  induction fs as [|x fs IH]; intros h p Ha; cbn [foldl].
  - rewrite insert_id by done. eapply (solo_quiet Go); [done|apply solo_refl].
  - eapply (solo_quiet Go); [cbn; by rewrite (upd_cell _ _ _ _ _ Ha)|].
    pose proof (IH (<[a := reset x p]> h) (reset x p) (lookup_insert_eq _ _ _)) as H.
    by rewrite insert_insert_eq in H.
Qed.

Lemma scan_alone f fuel : ∀ h l x, get_reused fuel METRIC h l = Ok x →
  match x with
  | Some (a, h') => solo (Scan l) (Shm h f) (Hold a) (Shm h' f) []
  | None => solo (Scan l) (Shm h f) Alloc (Shm h f) []
  end.
Proof.
  induction fuel as [|fuel IH]; intros h [a|] x H; cbn [get_reused] in H; try done;
    try (injection H as <-; eapply (solo_quiet Go); [done|apply solo_refl]).
  inv_ok H. apply deref_inv in E. unfold packet_change_state in H.
  case_bool_decide as Hd; cbn in H.
  - injection H as <-. eapply (solo_quiet Go).
    { cbn. rewrite (deref_Some _ _ _ E). cbn. unfold packet_change_state. by rewrite bool_decide_true. }
    pose proof (reset_alone f a reset_fields (<[a := set_state EMPTY v]> h) _ (lookup_insert_eq _ _ _)) as H.
    by rewrite insert_insert_eq, reset_recycle in H.
  - specialize (IH h (next v) x H).
    assert (∀ pc' s', solo (Scan (next v)) (Shm h f) pc' s' [] → solo (Scan (Some a)) (Shm h f) pc' s' []) as Hgo.
    { intros pc' s' Hs. eapply (solo_quiet Go).
      { cbn. rewrite (deref_Some _ _ _ E). cbn. unfold packet_change_state. by rewrite bool_decide_false. }
      eapply (solo_quiet Go); [|exact Hs]. cbn. by rewrite (deref_Some _ _ _ E). }
    destruct x as [[b h']|]; by apply Hgo.
Qed.

(** The insertion, from the block that [malloc] returned to the packet on the list. *)
Lemma insert_alone_cell h f b hd head :
  h !! b = None → f = Some hd → h !! hd = Some head → spin head = 0 →
  solo Alloc (Shm h f) (Hold b)
    (Shm (<[hd := set_spin 0 head]> (<[b := set_next (Some hd) (zeroed METRIC)]> h)) (Some b)) [].
Proof.
  intros Hb -> Hh Hs. assert (b ≠ hd) as Hne by (intros ->; congruence).
  eapply (solo_quiet (Malloc b)); [cbn; by rewrite decide_True|].
  eapply (solo_quiet Go); [done|]. eapply (solo_quiet Go); [done|].
  eapply (solo_quiet Go).
  { cbn. rewrite (deref_Some _ hd head) by (by rewrite lookup_insert_ne). cbn. rewrite Hs. cbn.
    by rewrite (upd_cell _ _ hd head) by (by rewrite lookup_insert_ne). }
  eapply (solo_quiet Go).
  { cbn. by rewrite (upd_cell _ _ b (zeroed METRIC)) by (rewrite lookup_insert_ne by done; apply lookup_insert_eq). }
  eapply (solo_quiet Go); [done|].
  eapply (solo_quiet Go).
  { cbn. by rewrite (upd_cell _ _ hd (set_spin 1 head)) by (rewrite lookup_insert_ne by done; apply lookup_insert_eq). }
  cbn [first mem]. match goal with |- solo _ (Shm ?m _) _ (Shm ?m' _) _ => assert (m = m') as -> end; [|apply solo_refl].
  apply map_eq. intros x. destruct (decide (x = hd)) as [->|Hx]; [by rewrite !lookup_insert_eq|].
  rewrite !(lookup_insert_ne _ hd x) by done. destruct (decide (x = b)) as [->|Hxb]; [by rewrite !lookup_insert_eq|].
  by rewrite !(lookup_insert_ne _ b x), (lookup_insert_ne _ hd x), (lookup_insert_ne _ b x) by done.
Qed.

(** A thread that no one disturbs does what the sequential [get_packet] does: it
    gets the same packet, and leaves the same list and the same packets. *)
Theorem get_packet_alone b s a st' :
  mem s !! b = None → get_packet (Some b) METRIC (Store (mem s) (first s)) = Ok (Some a, st') →
  solo Idle s (Hold a) (Shm (cells st') (packets st')) [].
Proof.
  intros Hb H. destruct s as [h f]. cbn [mem first] in *. unfold get_packet in H. cbn [cells packets] in H. inv_ok H.
  eapply (solo_quiet Go); [done|]. cbn [first]. pose proof (scan_alone f _ _ _ _ E) as Hscan.
  destruct v as [[x h']|].
  { injection H as <- <-. exact Hscan. }
  assert (∀ pc' s', solo Alloc (Shm h f) pc' s' [] → solo (Scan f) (Shm h f) pc' s' []) as Hgo.
  { intros pc' s' [ms' H2]. destruct Hscan as [ms H1]. exists (ms ++ ms'). intros i ts sp ha ac Hi.
    rewrite fmap_app, run_app, H1 by done. cbn [rbind]. rewrite H2; [by rewrite list_insert_insert_eq|].
    apply list_lookup_insert_eq. by eapply lookup_lt_Some. }
  apply Hgo. destruct f as [hd|]; cbn in H.
  - inv_ok H. apply deref_inv in E0. destruct (spin v =? 0) eqn:Es; [|done]. cbn in H. injection H as <- <-.
    apply insert_alone_cell; try done. lia.
  - injection H as <- <-. eapply (solo_quiet (Malloc b)); [cbn; by rewrite decide_True|].
    eapply (solo_quiet Go); [done|]. eapply (solo_quiet Go); [done|]. apply solo_refl.
Qed.

(** ** A turn of a plugin *)

(** Filling a packet may take its state from EMPTY to BEGIN and to WROTE. *)
Definition state_rises (s s' : packet_state) : Prop :=
  s' = s ∨ s = EMPTY ∧ s' = BEGIN ∨ s = BEGIN ∧ s' = WROTE ∨ s = EMPTY ∧ s' = WROTE.

Lemma mark_alone h f a k s s' :
  s = EMPTY ∧ s' = BEGIN ∨ s = BEGIN ∧ s' = WROTE →
  solo (Hold a) (Shm (<[a := set_state s k]> h) f) (Hold a) (Shm (<[a := set_state s' k]> h) f) [].
Proof.
  intros Hs. eapply (solo_quiet Mark); [|apply solo_refl]. cbn. rewrite (deref_Some _ a (set_state s k)) by apply lookup_insert_eq.
  cbn [rbind state set_state]. destruct Hs as [[-> ->]|[-> ->]]; cbn [state set_state];
    rewrite (upd_cell _ _ a _ _ (lookup_insert_eq _ _ _)); cbn; by rewrite insert_insert_eq.
Qed.

Lemma solo_trans pc s pc1 s1 pc' s' bs : solo pc s pc1 s1 [] → solo pc1 s1 pc' s' bs → solo pc s pc' s' bs.
Proof.
  intros [ms H1] [ms' H2]. exists (ms ++ ms'). intros i ts sp ha ac Hi.
  rewrite fmap_app, run_app, H1 by done. cbn [rbind]. rewrite H2; [by rewrite list_insert_insert_eq|].
  apply list_lookup_insert_eq. by eapply lookup_lt_Some.
Qed.

Lemma fill_alone h f a k k' :
  h !! a = Some k → same_cell k k' → NUL ∈ payload k' → state_rises (state k) (state k') →
  solo (Hold a) (Shm h f) (Hold a) (Shm (<[a := k']> h) f) [].
Proof.
  intros Ha Hc Hnul Hs. set (d := Filling (started k') (size k') (rollback_point k') (payload k')).
  assert (fill d k = set_state (state k) k') as Ef.
  { destruct k, k'. unfold same_cell in Hc. cbn in *. by destruct Hc as (-> & -> & -> & -> & ->). }
  assert (k' = set_state (state k') k') as Ek by (by destruct k').
  apply (solo_trans _ _ (Hold a) (Shm (<[a := set_state (state k) k']> h) f)).
  { eapply (solo_quiet (Fill d)); [|apply solo_refl]. cbn. rewrite decide_True by done.
    rewrite (upd_cell _ _ a k) by done. by rewrite Ef. }
  rewrite Ek at 2. destruct Hs as [-> |[[-> ->]|[[-> ->]|[-> ->]]]]; [apply solo_refl|apply mark_alone; auto..|].
  apply (solo_trans _ _ (Hold a) (Shm (<[a := set_state BEGIN k']> h) f)); apply mark_alone; auto.
Qed.

Lemma close_alone h f a k st :
  h !! a = Some k → st = (if bool_decide (state k = WROTE) then READY else DONE) →
  solo (Hold a) (Shm h f) Idle (Shm (<[a := set_state st k]> h) f) (if bool_decide (state k = WROTE) then [body_of k] else []).
Proof.
  intros Ha ->. case_bool_decide as Hd.
  - eapply (solo_step Close _ _ _ _ _ _ [body_of k] []); [|apply solo_refl].
    cbn. rewrite (deref_Some _ a k) by done. cbn. rewrite bool_decide_true by done. by rewrite (upd_cell _ _ a k).
  - eapply (solo_quiet Close); [|apply solo_refl].
    cbn. rewrite (deref_Some _ a k) by done. cbn. rewrite bool_decide_false by done. by rewrite (upd_cell _ _ a k).
Qed.

Lemma holds_nul k c : holds k c → NUL ∈ payload k.
Proof. intros (_ & _ & rest & ->). apply elem_of_app. right. by left. Qed.

Section turn.
Context {E M : Type} (meta : metadata) (f : gather_fn E M) `{!Gatherer f} `{!JsonGatherer f}.

(** The state of a packet that shows the samples [js]. *)
Definition state_of (js : list json) : packet_state := if decide (js = []) then BEGIN else WROTE.

Lemma sampled_rises p k env begin js js' :
  metric_inv meta p k js → sampled f p env begin js js' → state_rises (state k) (state_of js').
Proof.
  unfold state_of, state_rises. intros Hinv Hs.
  assert (js' = js ∨ ∃ j, js' = js ++ [j]) as Hjs.
  { unfold sampled in Hs. case_decide; [|by left]. destruct Hs as (kvs & _ & ->). right. by eexists. }
  destruct Hinv as [(-> & _ & ->)|(s & _ & _ & ->)].
  - destruct Hjs as [-> |[j ->]]; [by rewrite decide_True; auto|]. rewrite decide_False by done. auto.
  - destruct Hjs as [-> |[j ->]]; [by left|]. assert (js ++ [j] ≠ []) as Hne by (by destruct js).
    rewrite (decide_False (P := js ++ [j] = [])) by done. case_decide; auto.
Qed.

(** A turn of [plugin_gather] takes place among the other threads as moves of the
    plugin's own thread, and has the effect of the sequential turn: it fills the
    packet, and when the packet has expired gives it back, handing over the JSON
    document of its samples if there are any. *)
Theorem turn_among_threads p w a k js env mem begin now fst :
  gather p = f → working p = Some a → w_heap w !! a = Some k → metric_inv meta p k js →
  clean (license meta) → g_clean f env (module p) →
  size k + Z.of_nat (turn_need meta f p env begin) < PKTSZ →
  let late := 7000 <=? u64 (now - first_record k js begin) in
  ∃ p' k' js' bs, plugin_gather meta env mem begin now p w = Ok (0, p', set_cells (<[a := k']> (w_heap w)) w)
    ∧ sampled f p env begin js js'
    ∧ solo (Hold a) (Shm (w_heap w) fst) (if late then Idle else Hold a) (Shm (<[a := k']> (w_heap w)) fst) bs
    ∧ working p' = (if late then None else Some a)
    ∧ if late then js' = [] ∧ bs = [] ∨ ∃ c, bs = [(type k, c)] ∧ value c (document meta p js') else bs = [].
Proof.
  intros Hg Hw Hk Hinv Hl Hcl Hr late.
  destruct (plugin_gather_ok meta f p w a k js env mem begin now Hg Hw Hk Hinv Hl Hcl Hr)
    as (p' & k' & js' & Ep & [Hsam Hp Hc Hpk Hz]). fold late in Hp, Hpk.
  set (k1 := set_state (state_of js') k').
  assert (NUL ∈ payload k' ∧ state k' = (if late then if decide (js' = []) then DONE else READY else state_of js')) as [Hnul Hst].
  { destruct late; [unfold closed in Hpk; case_decide|].
    - destruct Hpk as (? & c & Hh). split; [by eapply holds_nul|done].
    - destruct Hpk as (? & c & Hh & _). split; [by eapply holds_nul|done].
    - destruct Hpk as ((s & Hh & _ & ?) & _). split; [by eapply holds_nul|done]. }
  assert (solo (Hold a) (Shm (w_heap w) fst) (Hold a) (Shm (<[a := k1]> (w_heap w)) fst) []) as Hfill.
  { apply (fill_alone _ _ a k); [done|by destruct k'|done|]. by eapply sampled_rises. }
  exists p', k', js', (if late then if decide (js' = []) then [] else [body_of k'] else []).
  split; [done|]. split; [done|]. split; [|split].
  - eapply solo_trans; [exact Hfill|]. destruct late.
    + pose proof (close_alone (<[a := k1]> (w_heap w)) fst a k1 (if decide (js' = []) then DONE else READY)
        (lookup_insert_eq _ _ _)) as Hcl'. rewrite insert_insert_eq in Hcl'.
      assert (set_state (if decide (js' = []) then DONE else READY) k1 = k') as Ek by (rewrite <- Hst; by destruct k').
      rewrite Ek in Hcl'. assert (body_of k1 = body_of k') as Eb by done. rewrite Eb in Hcl'.
      subst k1. unfold state_of in Hcl' |- *. cbn [state set_state] in Hcl'.
      destruct (decide (js' = [])); [rewrite bool_decide_false in Hcl' by done|rewrite bool_decide_true in Hcl' by done]; by apply Hcl'.
    + assert (k1 = k') as -> by (subst k1; rewrite <- Hst; by destruct k'). apply solo_refl.
  - rewrite Hp. by destruct late.
  - destruct late; [|done]. unfold closed in Hpk. case_decide as Hj; [by left|]. right.
    destruct Hpk as (_ & c & Hh & Hv). exists c. split; [|done]. unfold body_of.
    rewrite (holds_cstr _ _ Hh (value_no_nul _ _ Hv)). by destruct Hc as (_ & _ & -> & _).
Qed.
End turn.

(** ** Witnesses *)

Lemma get_packet_alone_witness :
  solo Idle (Shm {[1%positive := set_state DONE (zeroed METRIC)]} (Some 1%positive)) (Hold 1)
    (Shm {[1%positive := recycle METRIC (set_state EMPTY (set_state DONE (zeroed METRIC)))]} (Some 1%positive)) [].
Proof.
  pose (h := {[1%positive := set_state DONE (zeroed METRIC)]} : heap).
  assert (get_packet (Some 2%positive) METRIC (Store h (Some 1%positive))
    = Ok (Some 1%positive, Store (<[1%positive := recycle METRIC (set_state EMPTY (set_state DONE (zeroed METRIC)))]> h)
        (Some 1%positive))) as E.
  { unfold get_packet. cbn [cells packets get_reused]. rewrite (deref_Some _ 1 (set_state DONE (zeroed METRIC))); [reflexivity|].
    apply lookup_singleton_eq. }
  assert (h !! 2%positive = None) as Hb by (apply lookup_singleton_ne; discriminate).
  pose proof (get_packet_alone 2 (Shm h (Some 1%positive)) 1 _ Hb E) as H.
  cbn [cells packets] in H. unfold h in H. rewrite insert_singleton_eq in H. exact H.
Defined.

Lemma turn_among_threads_witness :
  ∃ p' k' js' bs,
    plugin_gather some_meta tt None 1000 9000 (up_plugin (Some 1%positive) None plugin_gather_fn) new_world
      = Ok (0, p', set_cells (<[1%positive := k']> (w_heap new_world)) new_world)
    ∧ sampled up_gather (up_plugin (Some 1%positive) None plugin_gather_fn) tt 1000 [] js'
    ∧ solo (Hold 1) (Shm (w_heap new_world) (Some 1%positive)) Idle
        (Shm (<[1%positive := k']> (w_heap new_world)) (Some 1%positive)) bs
    ∧ working p' = None
    ∧ (js' = [] ∧ bs = []
       ∨ ∃ c, bs = [(METRIC, c)] ∧ value c (document some_meta (up_plugin (Some 1%positive) None plugin_gather_fn) js')).
Proof.
  destruct (turn_among_threads some_meta up_gather (up_plugin (Some 1%positive) None plugin_gather_fn)
    new_world 1%positive (zeroed METRIC) [] tt None 1000 9000 (Some 1%positive)) as (p' & k' & js' & bs & H).
  - reflexivity.
  - reflexivity.
  - apply lookup_singleton_eq.
  - left. split; [reflexivity|]. split; [apply holds_begins, zeroed_holds|reflexivity].
  - solve_clean.
  - exact I.
  - vm_compute. reflexivity.
  - exists p', k', js', bs. exact H.
Defined.
