(* ===== verification/HandoffOwn.v ===== *)
(** A packet that a plugin has is its own: while the other threads of [Handoff] go on,
    only the moves of its plugin change it; so a turn of [plugin_gather] has the
    effect of the sequential turn in every interleaving. *)
From Stdlib Require Import ZArith Ascii Lia.
From stdpp Require Import base list strings numbers gmap sets.
From S2P Require Import Prelude.
From S2P Require Import Json.
From S2P Require Import Packet.
From S2P Require Import Sender.
From S2P Require Import Routine.
From S2P Require Import Storage.
From S2P Require Import Plugin.
From S2P Require Import Handoff.
From S2P Require Import HandoffList.
From S2P Require Import HandoffTurn.
Import Handoff.

Local Open Scope Z_scope.

(** * Packets that are held *)

(** A packet without its lock and its link, which belong to the list. *)
Definition own (p : packet_t) : packet_t := set_spin 0 (set_next None p).

(** What the moves of a plugin do to the packet it has. *)
Definition own_move (m : move) (p : packet_t) : packet_t :=
  match m with
  | Fill d => if decide (NUL ∈ f_payload d) then fill d p else p
  | Mark => match state p with EMPTY => set_state BEGIN p | BEGIN => set_state WROTE p | _ => p end
  | _ => p
  end.

Definition own_moves (ms : list move) (p : packet_t) : packet_t := foldl (λ p m, own_move m p) p ms.

(** The moves of thread [i]. *)
Fixpoint moves_of (i : nat) (l : list act) : list move :=
  match l with
  | [] => []
  | Plug j m :: l => if decide (i = j) then m :: moves_of i l else moves_of i l
  | Stor _ :: l => moves_of i l
  end.

Lemma own_eq p q :
  own p = own q →
  started p = started q ∧ type p = type q ∧ state p = state q ∧ response p = response q ∧ size p = size q
  ∧ rollback_point p = rollback_point q ∧ attempt p = attempt q ∧ payload p = payload q.
Proof. destruct p, q. unfold own. cbn. by intros [=]; subst. Qed.

Lemma own_move_own m p q : own p = own q → own (own_move m p) = own (own_move m q).
Proof.
  intros H. pose proof (own_eq p q H) as (_ & _ & Hs & _). destruct m as [| |d| |]; cbn [own_move]; try done.
  - case_decide; [|done]. destruct p, q. unfold own in *. cbn in *. by simplify_eq.
  - rewrite <- Hs. clear Hs. destruct (state p); destruct p, q; unfold own in *; cbn in *; by simplify_eq.
Qed.

Lemma own_moves_own ms p q : own p = own q → own (own_moves ms p) = own (own_moves ms q).
Proof. revert p q. induction ms as [|m ms IH]; intros p q H; [done|]. cbn. apply IH. by apply own_move_own. Qed.

(** ** What the other threads do to it *)

(** The packet at [a] is still there, but for its lock and its link. *)
Definition stays (h h' : heap) (a : loc) : Prop :=
  ∀ p, h !! a = Some p → ∃ p', h' !! a = Some p' ∧ own p' = own p.

Lemma stays_refl h a : stays h h a.
Proof. intros p Hp. by exists p. Qed.

Lemma stays_insert h a b p' :
  (∀ p, a = b → h !! a = Some p → own p' = own p) → stays h (<[b := p']> h) a.
Proof.
  intros H p Hp. destruct (decide (a = b)) as [<-|Hne].
  - exists p'. rewrite lookup_insert_eq. auto.
  - exists p. by rewrite lookup_insert_ne.
Qed.

Lemma stays_upd b g s s' a :
  upd b g s = Ok s' → (∀ p, a = b → mem s !! a = Some p → own (g p) = own p) → stays (mem s) (mem s') a.
Proof.
  unfold upd. intros H Hg. inv_ok H. injection H as <-. apply deref_inv in E. apply stays_insert.
  intros p -> Hp. simplify_eq. by apply Hg.
Qed.

(** A step of [upd] on the packet [b], which is not [a] or keeps it. *)
Ltac upd_stays :=
  repeat match goal with H : alone _ _ = Ok _ |- _ => apply alone_inv in H as (-> & H & ->) end;
  eapply stays_upd; [eassumption|]; intros ? ? ?; subst; first
    [ done | by exfalso; eauto
    | match goal with H : ∀ b Q, sending _ _ b Q → _ ≠ b |- _ => exfalso; eapply H; [eassumption|reflexivity] end ].

Lemma pstep_stays m pc s pc' s' bs a p :
  pstep m pc s = Ok (Some (pc', s', bs)) → mem s !! a = Some p → filled (state p) = true → holder pc ≠ Some a →
  stays (mem s) (mem s') a.
Proof.
  intros H Ha Hf Hh.
  destruct pc as [|[b|]|b|b fs| |b|b|b|b h'|b h'|b h'|b h'|b], m as [|x|d| |]; cbn in H, Hh; try (destruct fs as [|x' fs]);
    simplify_eq; try done; try apply stays_refl; try (inv_ok H); simplify_eq; try apply stays_refl.
  - apply deref_inv in E. unfold packet_change_state in H. case_bool_decide as Hd; cbn in H;
      [change (1 - 1 =? 0) with true in H|change (0 - 1 =? 0) with false in H]; cbv iota in H; simplify_eq;
      [|apply stays_refl]. apply stays_insert. intros q -> Hq. simplify_eq. by rewrite Hd in Hf.
  - upd_stays.
  - destruct (decide (mem s !! x = None)) as [Hb|]; simplify_eq. cbn. apply stays_insert. intros q -> Hq. congruence.
  - destruct (first s); simplify_eq; apply stays_refl.
  - destruct (spin v =? 0); [|done]. upd_stays.
  - upd_stays.
  - upd_stays.
  - case_decide; [|done]. upd_stays.
  - destruct (state v); try done; upd_stays.
  - case_bool_decide; [inv_ok H; simplify_eq|]; upd_stays.
Qed.

Lemma sending_not pub h a Q b p :
  sending pub h a Q → h !! b = Some p → filled (state p) = true → b ≠ a.
Proof. intros [_ (q & Hq & Hr & _)] Hb Hf ->. simplify_eq. by rewrite Hr in Hf. Qed.

Lemma sstep_stays pub r sp s sp' s' bs a p :
  spc_ok pub (mem s) sp → sstep r sp s = Ok (Some (sp', s', bs)) → mem s !! a = Some p → filled (state p) = true →
  stays (mem s) (mem s') a.
Proof.
  intros Hok H Ha Hf.
  assert (∀ b Q, sending pub (mem s) b Q → a ≠ b) as Hne by (intros b Q Hs; by eapply sending_not).
  destruct sp as [|[b|]|b|b|b|b ready|b sent|b sent|b|b]; cbn in H, Hok; simplify_eq; try apply stays_refl;
    try (inv_ok H); simplify_eq; try apply stays_refl.
  - upd_stays.
  - destruct (spin v =? 0); [|done]. upd_stays.
  - destruct Hok as [_ Hok]. destruct ready; upd_stays.
  - inv_ok H. simplify_eq. destruct (Ascii.eqb v0 NUL); apply stays_refl.
  - inv_ok H. destruct (r_ok r); simplify_eq; upd_stays.
  - upd_stays.
Qed.

(** ** One step, and many *)

Lemma step_other i x c c' pc :
  hstep x c = Ok c' → plugins c !! i = Some pc → (∀ m, x ≠ Plug i m) → plugins c' !! i = Some pc.
Proof.
  intros H Hpc Hne. destruct x as [j m|r]; cbn in H.
  - destruct (plugins c !! j) as [pc'|] eqn:Hj; [|by simplify_eq]. inv_ok H.
    destruct v as [[[pc'' s'] bs]|]; simplify_eq; [|done]. cbn. rewrite list_lookup_insert_ne; [done|].
    intros ->. by eapply Hne.
  - inv_ok H. by destruct v as [[[sp' s'] bs]|]; simplify_eq.
Qed.

Lemma step_stays pub i x c c' a :
  inv pub c → hstep x c = Ok c' → plugins c !! i = Some (Hold a) → (∀ m, x ≠ Plug i m) →
  stays (mem (memory c)) (mem (memory c')) a.
Proof.
  intros Hi H Hpc Hne. assert (a ∈ held (plugins c)) as Hin.
  { apply list_elem_of_omap. exists (Hold a). split; [by eapply list_elem_of_lookup_2|done]. }
  apply (held_in Hi) in Hin as (p & Hp & Hf). destruct x as [j m|r]; cbn in H.
  - destruct (plugins c !! j) as [pc'|] eqn:Hj; [|simplify_eq; apply stays_refl]. inv_ok H.
    destruct v as [[[pc'' s'] bs]|]; simplify_eq; [|apply stays_refl]. cbn.
    eapply pstep_stays; [done|done|done|]. intros Hh.
    assert (i = j) as ->; [|by eapply Hne]. by eapply (omap_nodup holder); [apply (held_nodup Hi)|..].
  - inv_ok H. destruct v as [[[sp' s'] bs]|]; simplify_eq; [|apply stays_refl]. cbn.
    eapply sstep_stays; [apply (v_storage _ _ Hi)|done|done|done].
Qed.

(** A move of the plugin itself. *)
Lemma step_own i m c c' a p :
  hstep (Plug i m) c = Ok c' → plugins c !! i = Some (Hold a) → m ≠ Close → mem (memory c) !! a = Some p →
  plugins c' !! i = Some (Hold a) ∧ mem (memory c') !! a = Some (own_move m p).
Proof.
  intros H Hpc Hm Hp. assert (i < length (plugins c))%nat as Hlt by (by eapply lookup_lt_Some).
  cbn in H. rewrite Hpc in H. inv_ok H. destruct m as [|b|d| |]; cbn [pstep] in E; simplify_eq; cbn [own_move]; try done.
  - case_decide; simplify_eq; [|done]. unfold alone, upd in E. rewrite (deref_Some _ _ _ Hp) in E. cbn [rbind] in E.
    simplify_eq. cbn. by rewrite list_lookup_insert_eq, lookup_insert_eq.
  - unfold alone, upd in E. rewrite (deref_Some _ _ _ Hp) in E. cbn [rbind] in E.
    destruct (state p); cbn [rbind] in E; simplify_eq; cbn; try done; by rewrite list_lookup_insert_eq, lookup_insert_eq.
Qed.

(** While a plugin has a packet, its moves, and nothing else, decide what is in it. *)
Lemma held_private i a l : ∀ pub c p,
  inv pub c → plugins c !! i = Some (Hold a) → mem (memory c) !! a = Some p → Close ∉ moves_of i l →
  ∃ pub' c' p', hrun l c = Ok c' ∧ inv pub' c' ∧ plugins c' !! i = Some (Hold a)
    ∧ mem (memory c') !! a = Some p' ∧ own p' = own (own_moves (moves_of i l) p).
Proof.
  induction l as [|x l IH]; intros pub c p Hi Hpc Hp Hcl; [by exists pub, c, p|].
  destruct (step_ok pub c x Hi) as (pub1 & c1 & Hs & _ & Hi1). cbn [hrun]. rewrite Hs. cbn [rbind].
  assert ((∀ m, x ≠ Plug i m) → moves_of i (x :: l) = moves_of i l) as Hother.
  { intros Hne. destruct x as [j m|r]; cbn; [|done]. rewrite decide_False; [done|]. intros ->. by eapply Hne. }
  assert ((∃ m, x = Plug i m) ∨ ∀ m, x ≠ Plug i m) as [[m ->]|Hx].
  { destruct x as [j m|r]; [|by right]. destruct (decide (i = j)) as [->|Hij]; [left; by exists m|right]. intros m' [=]. done. }
  - cbn [moves_of] in Hcl |- *. rewrite decide_True in Hcl |- * by done. apply not_elem_of_cons in Hcl as [Hm Hcl].
    destruct (step_own i m c c1 a p Hs Hpc) as [Hpc1 Hp1]; [by intros ->|done|].
    by apply (IH pub1 c1).
  - rewrite Hother in Hcl |- * by done.
    destruct (step_stays pub i x c c1 a Hi Hs Hpc Hx p Hp) as (p1 & Hp1 & Ho).
    destruct (IH pub1 c1 p1) as (pub' & c' & p' & Hr & Hi' & Hpc' & Hp' & Ho'); [done|by eapply step_other|done|done|].
    exists pub', c', p'. do 4 (split; [done|]). rewrite Ho'. by apply own_moves_own.
Qed.

(** * Turns *)

(** Filling a packet, as moves. *)
Lemma fill_moves k k' :
  same_cell k k' → NUL ∈ payload k' → state_rises (state k) (state k') → ∃ ms, (Close ∉ ms) ∧ own_moves ms k = k'.
Proof.
  intros Hc Hnul Hs. set (d := Filling (started k') (size k') (rollback_point k') (payload k')).
  assert (own_move (Fill d) k = set_state (state k) k') as Ef.
  { cbn [own_move]. rewrite decide_True by done. destruct k, k'. unfold same_cell in Hc. cbn in *.
    by destruct Hc as (-> & -> & -> & -> & ->). }
  assert (k' = set_state (state k') k') as Ek by (by destruct k').
  destruct Hs as [E|[[E1 E2]|[[E1 E2]|[E1 E2]]]].
  - exists [Fill d]. split; [set_solver|]. unfold own_moves. cbn [foldl]. by rewrite Ef, <- E.
  - exists [Fill d; Mark]. split; [set_solver|]. unfold own_moves. cbn [foldl]. rewrite Ef, E1. rewrite Ek at 2. by rewrite E2.
  - exists [Fill d; Mark]. split; [set_solver|]. unfold own_moves. cbn [foldl]. rewrite Ef, E1. rewrite Ek at 2. by rewrite E2.
  - exists [Fill d; Mark; Mark]. split; [set_solver|]. unfold own_moves. cbn [foldl]. rewrite Ef, E1. rewrite Ek at 2. by rewrite E2.
Qed.

(** Giving a packet away. *)
Lemma close_step i c a p :
  plugins c !! i = Some (Hold a) → mem (memory c) !! a = Some p →
  ∃ c', hstep (Plug i Close) c = Ok c' ∧ plugins c' !! i = Some Idle
    ∧ handed c' = (if bool_decide (state p = WROTE) then [body_of p] else []) ++ handed c.
Proof.
  intros Hpc Hp. assert (i < length (plugins c))%nat as Hlt by (by eapply lookup_lt_Some).
  cbn. rewrite Hpc. cbn [pstep]. rewrite (deref_Some _ _ _ Hp). cbn [rbind].
  unfold alone, upd. rewrite (deref_Some _ _ _ Hp). cbn [rbind].
  case_bool_decide; cbn; eexists; (split; [done|]); cbn; by rewrite list_lookup_insert_eq.
Qed.

Section turn.
Context {E M : Type} (meta : metadata) (f : gather_fn E M) `{!Gatherer f} `{!JsonGatherer f}.

Lemma header_after z m a (p : plugin_t E M) :
  header meta (set_working a (task_after z (set_module m p))) = header meta p.
Proof. unfold task_after. by repeat case_match. Qed.

Lemma samples_own (p p' : plugin_t E M) k q js :
  header meta p' = header meta p → own q = own k → samples meta p k js → metric_inv meta p' q js.
Proof.
  intros Hh Ho (s & Hk & Hel & Hst). apply own_eq in Ho as (_ & _ & Es & _ & Ez & _ & _ & Ep).
  right. exists s. rewrite Hh, Es. split; [by apply (holds_ext k)|done].
Qed.

(** A turn of [plugin_gather] in every interleaving: the thread makes the moves [ms]
    while the other plugins and the storage thread do whatever they do in between.
    Nothing goes wrong; if the packet has not expired, the thread still has it,
    filled as the sequential turn fills it, ready for the next turn; if it has,
    the thread hands over the JSON document of exactly its samples, or nothing if
    there are none. *)
Theorem turn_interleaved n l0 c i a p w k js env mem0 begin now :
  hrun l0 (hstart n) = Ok c → plugins c !! i = Some (Hold a) → w_heap w = mem (memory c) →
  mem (memory c) !! a = Some k → gather p = f → working p = Some a → metric_inv meta p k js →
  clean (license meta) → g_clean f env (module p) → size k + Z.of_nat (turn_need meta f p env begin) < PKTSZ →
  let late := 7000 <=? u64 (now - first_record k js begin) in
  ∃ ms p' k' js', plugin_gather meta env mem0 begin now p w = Ok (0, p', set_cells (<[a := k']> (w_heap w)) w)
    ∧ sampled f p env begin js js'
    ∧ ∀ l, moves_of i l = ms → ∃ c' q, hrun l c = Ok c' ∧ plugins c' !! i = Some (Hold a) ∧ mem (memory c') !! a = Some q
      ∧ if late then
          ∃ c'' bs, hstep (Plug i Close) c' = Ok c'' ∧ plugins c'' !! i = Some Idle ∧ handed c'' = bs ++ handed c'
            ∧ (js' = [] ∧ bs = [] ∨ ∃ t, bs = [(type k, t)] ∧ value t (document meta p js'))
        else own q = own k' ∧ metric_inv meta p' q js'.
Proof.
  intros Hrun Hpc Hw Hk Hg Hwk Hinv Hl Hcl Hr late. destruct (reach_inv n l0 c Hrun) as [pub Hi].
  destruct (plugin_gather_ok meta f p w a k js env mem0 begin now Hg Hwk ltac:(by rewrite Hw) Hinv Hl Hcl Hr)
    as (p' & k' & js' & Ep & [Hsam Hp' Hc Hpk _]). fold late in Hp', Hpk.
  set (k1 := set_state (state_of js') k').
  assert (NUL ∈ payload k' ∧ (late = false → state k' = state_of js')) as [Hnul Hst].
  { destruct late; [unfold closed in Hpk; case_decide; [destruct Hpk as (_ & x & Hh)|destruct Hpk as (_ & x & Hh & _)]|
      destruct Hpk as ((x & Hh & _ & ?) & _)]; by split; [by eapply holds_nul|]. }
  destruct (fill_moves k k1) as (ms & Hms & Ems); [by destruct k'|done|by eapply sampled_rises|].
  exists ms, p', k', js'. split; [done|]. split; [done|]. intros l El.
  destruct (held_private i a l pub c k Hi Hpc Hk) as (pub' & c' & q & Hr' & Hi' & Hpc' & Hq & Ho); [by rewrite El|].
  rewrite El, Ems in Ho. exists c', q. do 3 (split; [done|]). destruct late.
  - destruct (close_step i c' a q Hpc' Hq) as (c'' & Hcs & Hidle & Hhand). eexists c'', _. do 3 (split; [done|]).
    apply own_eq in Ho as (_ & Et & Es & _ & _ & _ & _ & Eb). subst k1. cbn [state set_state type payload] in *.
    unfold closed in Hpk. unfold state_of in Es. rewrite Es. case_decide as Hj; [left; by rewrite bool_decide_false|right].
    rewrite bool_decide_true by done. destruct Hpk as (_ & t & Hh & Hv). exists t. split; [|done].
    unfold body_of. rewrite Et, Eb, (holds_cstr _ _ Hh (value_no_nul _ _ Hv)). by destruct Hc as (_ & _ & -> & _).
  - assert (k1 = k') as Ek by (subst k1; rewrite <- Hst by done; by destruct k'). rewrite Ek in Ho.
    split; [done|]. destruct Hpk as [Hsamp _]. eapply samples_own; [|done|done]. rewrite Hp'. apply header_after.
Qed.
End turn.

(** ** Witnesses *)

(** Two plugins; the first has got a packet. *)
Definition first_held : config :=
  Config [Hold 1; Idle] SIdle (Shm {[1%positive := zeroed METRIC]} (Some 1%positive)) [] [].

Lemma turn_interleaved_witness :
  ∃ ms p' k' js',
    plugin_gather some_meta tt None 1000 9000 (up_plugin (Some 1%positive) None plugin_gather_fn) new_world
      = Ok (0, p', set_cells (<[1%positive := k']> (w_heap new_world)) new_world)
    ∧ sampled up_gather (up_plugin (Some 1%positive) None plugin_gather_fn) tt 1000 [] js'
    ∧ ∀ l, moves_of 0 l = ms → ∃ c' q, hrun l first_held = Ok c' ∧ plugins c' !! 0%nat = Some (Hold 1)
      ∧ mem (memory c') !! 1%positive = Some q
      ∧ ∃ c'' bs, hstep (Plug 0 Close) c' = Ok c'' ∧ plugins c'' !! 0%nat = Some Idle ∧ handed c'' = bs ++ handed c'
          ∧ (js' = [] ∧ bs = []
             ∨ ∃ t, bs = [(METRIC, t)] ∧ value t (document some_meta (up_plugin (Some 1%positive) None plugin_gather_fn) js')).
Proof.
  refine (turn_interleaved some_meta up_gather 2 (Plug 0 <$> [Go; Go; Malloc 1; Go; Go]) first_held 0 1%positive
    (up_plugin (Some 1%positive) None plugin_gather_fn) new_world (zeroed METRIC) [] tt None 1000 9000 _ _ _ _ _ _ _ _ _ _).
  - reflexivity.
  - reflexivity.
  - reflexivity.
  - apply lookup_singleton_eq.
  - reflexivity.
  - reflexivity.
  - left. split; [reflexivity|]. split; [apply holds_begins, zeroed_holds|reflexivity].
  - solve_clean.
  - exact I.
  - vm_compute. reflexivity.
Defined.
