(* ===== verification/HandoffRun.v ===== *)
(** From samples to the server among threads: a plugin that has got a packet fills it
    in several turns of [plugin_gather], in every interleaving with the other
    plugins and the storage thread, and hands it over; the composition of Plugin,
    HandoffOwn and Handoff. *)
From Stdlib Require Import ZArith Ascii Lia.
From stdpp Require Import base list strings numbers gmap sets.
From S2P Require Import Prelude.
From S2P Require Import Json.
From S2P Require Import Packet.
From S2P Require Import Sender.
From S2P Require Import Routine.
From S2P Require Import Storage.
From S2P Require Import Plugin.
From S2P Require Import Handoff.
From S2P Require Import HandoffList.
From S2P Require Import HandoffTurn.
From S2P Require Import HandoffOwn.
Import Handoff.

Local Open Scope Z_scope.

(** ** What was handed over stays handed over *)

Lemma step_handed x c c' : hstep x c = Ok c' → ∃ bs, handed c' = bs ++ handed c.
Proof.
  destruct x as [i m|r]; cbn.
  - destruct (plugins c !! i) as [pc|]; [|intros [= <-]; by exists []]. intros H. inv_ok H.
    destruct v as [[[pc' s'] bs]|]; injection H as <-; [by exists bs|by exists []].
  - intros H. inv_ok H. destruct v as [[[sp' s'] bs]|]; injection H as <-; by exists [].
Qed.

Lemma run_handed l : ∀ c c', hrun l c = Ok c' → ∃ bs, handed c' = bs ++ handed c.
Proof.
  induction l as [|x l IH]; intros c c' H; cbn in H; [injection H as <-; by exists []|]. inv_ok H.
  destruct (step_handed x c v E) as [bs1 E1]. destruct (IH v c' H) as [bs2 E2].
  exists (bs2 ++ bs1). by rewrite E2, E1, app_assoc.
Qed.

(** A body that was handed over has been accepted or waits. *)
Lemma handed_kept pub c b l c' :
  inv pub c → b ∈ handed c → hrun l c = Ok c' → b ∈ accepted c' ∨ b ∈ waiting c'.
Proof.
  intros Hi Hb Hr. destruct (hrun_ok l pub c Hi) as (pub' & c1 & E1 & Hi'). rewrite Hr in E1. injection E1 as <-.
  destruct (run_handed l c c' Hr) as [bs Eb]. apply elem_of_app. rewrite <- (v_log _ _ Hi'), Eb. apply elem_of_app. by right.
Qed.

(** ** Turns as moves *)

(** The moves [ms] take the packet [k] to [k'] and do not give it away. *)
Definition fills (ms : list move) (k k' : packet_t) : Prop := (Close ∉ ms) ∧ own_moves ms k = k'.

Section run.
Context {E M : Type} (meta : metadata) (f : gather_fn E M) `{!Gatherer f} `{!JsonGatherer f}.

(** C4. From samples to the server, among threads.  A plugin that has a packet delivers in
    the turns [ts ++ [tl]], the packet expiring in the last of them.  The turns come
    to the packet [k'], and its thread can write it in moves of its own.  However
    these are split up, and whatever the other plugins and the storage thread do in
    between, nothing goes wrong, and what is handed over is the JSON document of
    the samples, one per turn, in order; from then on the server has accepted it or
    it is in a packet in memory that is READY (and not necessarily on the list). *)
Theorem session_interleaved n l0 c i a p w k ts tl b :
  hrun l0 (hstart n) = Ok c → plugins c !! i = Some (Hold a) → w_heap w = mem (memory c) → mem (memory c) !! a = Some k →
  gather p = f → clean (license meta) → working p = Some a → metric_inv meta p k [] →
  Forall (good_turn meta f p (first_begin ts tl) b false) ts → good_turn meta f p (first_begin ts tl) b true tl →
  size k + Z.of_nat (S (length ts) * b) < PKTSZ →
  ∃ p' k' kvss t, run_turns meta (ts ++ [tl]) p w = Ok (p', set_cells (<[a := k']> (w_heap w)) w)
    ∧ reports f (ts ++ [tl]) (module p) (module p') kvss
    ∧ value t (document meta p (zip_with sample_json (tn_begin <$> (ts ++ [tl])) kvss))
    ∧ (∃ ms, fills ms k (set_state WROTE k'))
    ∧ ∀ l, fills (moves_of i l) k (set_state WROTE k') →
      ∃ c1 c2, hrun l c = Ok c1 ∧ hstep (Plug i Close) c1 = Ok c2 ∧ plugins c2 !! i = Some Idle
        ∧ handed c2 = (type k, t) :: handed c1
        ∧ ∀ l' c3, hrun l' c2 = Ok c3 → (type k, t) ∈ accepted c3 ∨ (type k, t) ∈ waiting c3.
Proof.
  intros Hrun Hpc Hw Hk Hg Hl Hwk Hinv Hts Htl Hr. destruct (reach_inv n l0 c Hrun) as [pub Hi].
  destruct (run_collect meta f ts tl p w a k b Hg Hl Hwk ltac:(by rewrite Hw) Hinv Hts Htl Hr)
    as (m & k' & kvss & Er & Hc & Hrep & Hcl).
  set (js := zip_with _ _ _) in *. assert (js ≠ []) as Hjs.
  { subst js. intros En%(f_equal length). apply reports_length in Hrep.
    rewrite length_zip_with, length_fmap, Hrep, Nat.min_id, length_app in En. simpl in En. lia. }
  unfold closed in Hcl. rewrite decide_False in Hcl by done. destruct Hcl as (_ & t & Hh & Hv).
  eexists _, k', kvss, t. split; [exact Er|]. split; [exact Hrep|]. split; [done|]. split.
  { apply fill_moves; [by destruct k'|by eapply holds_nul|]. cbn. unfold state_rises.
    destruct Hinv as [(-> & _)|(s & _ & _ & ->)]; [auto|]. rewrite decide_True by done. auto. }
  intros l [Hms Ems].
  destruct (held_private i a l pub c k Hi Hpc Hk Hms) as (pub1 & c1 & q & Hr1 & Hi1 & Hpc1 & Hq & Ho).
  rewrite Ems in Ho. apply own_eq in Ho as (_ & Et & Es & _ & _ & _ & _ & Eb). cbn in Et, Es, Eb.
  destruct (close_step i c1 a q Hpc1 Hq) as (c2 & Hs2 & Hidle & Hhand).
  rewrite Es, bool_decide_true in Hhand by done.
  assert (body_of q = (type k, t)) as Ebody.
  { unfold body_of. rewrite Et, Eb, (holds_cstr _ _ Hh (value_no_nul _ _ Hv)). by destruct Hc as (_ & _ & -> & _). }
  rewrite Ebody in Hhand. exists c1, c2. do 4 (split; [done|]).
  intros l' c3 H3. destruct (step_ok pub1 c1 (Plug i Close) Hi1) as (pub2 & c2' & E2 & _ & Hi2).
  rewrite Hs2 in E2. injection E2 as <-. eapply (handed_kept pub2 c2); [done| |exact H3]. rewrite Hhand. by left.
Qed.
End run.

(** ** Witnesses *)

Lemma session_interleaved_witness :
  ∃ p' k' kvss t,
    run_turns some_meta [turn1; Turn tt None 2000 8000] (up_plugin (Some 1%positive) None plugin_gather_fn) new_world
      = Ok (p', set_cells (<[1%positive := k']> (w_heap new_world)) new_world)
    ∧ reports up_gather [turn1; Turn tt None 2000 8000] tt (module p') kvss
    ∧ value t (document some_meta (up_plugin (Some 1%positive) None plugin_gather_fn)
        (zip_with sample_json [1000; 2000] kvss))
    ∧ (∃ ms, fills ms (zeroed METRIC) (set_state WROTE k'))
    ∧ ∀ l, fills (moves_of 0 l) (zeroed METRIC) (set_state WROTE k') →
      ∃ c1 c2, hrun l first_held = Ok c1 ∧ hstep (Plug 0 Close) c1 = Ok c2 ∧ plugins c2 !! 0%nat = Some Idle
        ∧ handed c2 = (METRIC, t) :: handed c1
        ∧ ∀ l' c3, hrun l' c2 = Ok c3 → (METRIC, t) ∈ accepted c3 ∨ (METRIC, t) ∈ waiting c3.
Proof.
  refine (session_interleaved some_meta up_gather 2 (Plug 0 <$> [Go; Go; Malloc 1; Go; Go]) first_held 0 1%positive
    (up_plugin (Some 1%positive) None plugin_gather_fn) new_world (zeroed METRIC) [turn1] (Turn tt None 2000 8000) 200
    _ _ _ _ _ _ _ _ _ _ _).
  - reflexivity.
  - reflexivity.
  - reflexivity.
  - apply lookup_singleton_eq.
  - reflexivity.
  - solve_clean.
  - reflexivity.
  - left. split; [reflexivity|]. split; [apply holds_begins, zeroed_holds|reflexivity].
  - constructor; [|constructor]. split; [reflexivity|intros; exact I|intros []; vm_compute; lia|reflexivity].
  - split; [reflexivity|intros; exact I|intros []; vm_compute; lia|reflexivity].
  - vm_compute. reflexivity.
Defined.
