(* ===== verification/Cancel.v ===== *)
(** A gathering that is cancelled: what [routine_restart] (src/routine.c) leaves of
    the metric packet (src/plugin.c, src/packet.h) when the worker it cancels is in
    the gathering function, where the calls that wait are, and what the turns of
    the next worker make of it. *)
From Stdlib Require Import ZArith Ascii Lia.
From stdpp Require Import base list strings numbers gmap.
From S2P Require Import Prelude.
From S2P Require Import Clib.
From S2P Require Import Json.
From S2P Require Import Rfc.
From S2P Require Import Packet.
From S2P Require Import Sender.
From S2P Require Import Routine.
From S2P Require Import Storage.
From S2P Require Import Plugin.

Local Open Scope Z_scope.

(** * Cancelled turns *)

Section Cancel.
Context {E M : Type} (meta : metadata).

(** [plugin_gather] and [packet_gather] up to the call of the gathering function:
    the size that [packet_gather] remembers, and the packet. *)
Definition enter_gather (begin : Z) (k : packet_t) : res (Z * packet_t) :=
  let k := if bool_decide (state k = BEGIN) then set_started begin k else k in
  let k := packet_transaction k in
  do k <- (if bool_decide (state k = WROTE) then packet_append k "," [] else Ok k);
  do k <- packet_append k "{'timestamp':%llu," [AInt begin];
  let rollback := size k in
  do last <- payload_at k (size k - 1);
  do k <- packet_append k "%s'%s':{" [AStr (if Ascii.eqb last "}"%char then lit "," else []); AStr (lit "values")];
  Ok (rollback, k).

(** The rest of the turn, with what the gathering function returned. *)
Definition leave_gather (rollback : Z) (r : Z * M * packet_t) (p : plugin_t E M) : res (plugin_t E M * packet_t) :=
  let '(z, m, k) := r in
  do g <-
    (if negb (z =? 0) then do k <- payload_set (set_size rollback k) rollback NUL; Ok (z, m, k)
     else do k <- packet_append k "}" []; Ok (0, m, k));
  let '(z, m, k) := g in
  let p := set_module m p in
  if z =? ENONE then
    do k <- packet_append k "}" [];
    let k := if bool_decide (state k = BEGIN) then set_state WROTE k else k in
    Ok (p, packet_commit k)
  else if z =? ENODATA then
    do k <- packet_rollback k; Ok (p, k)
  else if z =? EPLUGUP then
    do k <- packet_rollback k; Ok (goto plugin_alert_up_fn p, k)
  else if z =? EPLUGDOWN then
    do k <- packet_rollback k; Ok (goto plugin_alert_down_fn p, k)
  else Ok (p, k).

(** A sample is these two around the call. *)
Lemma gather_sample_split env begin (p : plugin_t E M) k :
  gather_sample env begin p k
  = (do x <- enter_gather begin k; do r <- gather p env (module p) x.2; leave_gather x.1 r p).
Proof.
  unfold gather_sample, enter_gather. set (k0 := packet_transaction _).
  destruct (if bool_decide (state k0 = WROTE) then packet_append k0 "," [] else Ok k0) as [k1| |]; [|done|done]. cbn [rbind].
  destruct (packet_append k1 "{'timestamp':%llu," [AInt begin]) as [k2| |]; [|done|done]. cbn [rbind].
  unfold packet_gather. destruct (payload_at k2 (size k2 - 1)) as [last| |]; [|done|done]. cbn [rbind].
  destruct (packet_append k2 "%s'%s':{" _) as [k3| |]; [|done|done]. cbn [rbind fst snd].
  destruct (gather p env (module p) k3) as [[[z m] k4]| |]; [|done|done]. cbn [rbind]. unfold leave_gather.
  destruct (negb (z =? 0)); [destruct (payload_set _ _ _)|destruct (packet_append k4 "}" [])]; done.
Qed.

(** The packet when the turn that began at [begin] is cancelled, after the gathering
    function has appended [t]. *)
Definition cancelled_turn (begin : Z) (t : bytes) (p : plugin_t E M) (k : packet_t) : res packet_t :=
  do k <- gather_open meta p k;
  do x <- enter_gather begin k;
  append_bytes x.2 t.

(** The space it takes. *)
Definition cancel_need (begin : Z) (t : bytes) (p : plugin_t E M) : nat :=
  length (header meta p) + length (lit ",{'timestamp':,'values':{") + length (dec (begin mod 2 ^ 64)) + length t.

(** A packet in which a sample was left off: braces of it are open.  [fresh]: no
    sample was committed. *)
Definition torn (p : plugin_t E M) (k : packet_t) (fresh : bool) : Prop :=
  ∃ s d, holds k (header meta p ++ s) ∧ no_nul s ∧ 0 < d ∧ opens d s ∧ state k = (if fresh then BEGIN else WROTE).

(** A packet that will be sent and is not JSON. *)
Definition garbage (k : packet_t) : Prop := state k = READY ∧ ¬ json_text (cstr (payload k)).

(** The text up to the call of the gathering function. *)
Lemma enter_gather_ok (p : plugin_t E M) k s js begin :
  holds k (header meta p ++ s) → state k = (if decide (js = []) then BEGIN else WROTE) →
  size k + Z.of_nat (length (lit ",{'timestamp':,'values':{") + length (dec (begin mod 2 ^ 64))) < PKTSZ →
  ∃ rb k', enter_gather begin k = Ok (rb, k') ∧ state k' = state k ∧ same_cell k k'
    ∧ started k' = (if decide (js = []) then begin else started k)
    ∧ holds k' (header meta p ++ s ++ comma js ++ lit "{'timestamp':" ++ dec (begin mod 2 ^ 64) ++ lit ",'values':{").
Proof.
  intros Hh Hst Hr. unfold enter_gather. pose proof Hh as (_ & Hs & _).
  destruct (sample_begin_ok meta p k s js begin Hh Hst) as (Hh0 & Hst0 & Hc0 & Hs0 & Hb0 & _).
  set (k0 := packet_transaction _) in *. clearbody k0. rewrite <- rbind_assoc.
  destruct (sample_open_ok meta p k0 s js begin) as (k1 & -> & Hm1 & Hh1);
    [done|by rewrite Hst0|rewrite Hs0; simpl in *; lia|]. cbn [rbind].
  destruct (sample_head_shape meta p s js begin) as (c' & Ec1 & Hlc1).
  set (c1 := (header meta p ++ s) ++ _) in *.
  rewrite (holds_last k1 c' ","%char) by (by rewrite <- Ec1). cbn [rbind].
  destruct (packet_append_ok k1 c1 "%s'%s':{" [AStr []; AStr (lit "values")] (lit "'values':{") (holds_begins _ _ Hh1))
    as (k2 & E2 & Hm2 & Hh2).
  { by fmt_eval. }
  { unfold fits. change (length (lit "'values':{")) with 10%nat.
    change (length (lit ",{'timestamp':,'values':{")) with (length (lit ",{'timestamp':,") + 10)%nat in Hr. lia. }
  change (if Ascii.eqb "," "}" then lit "," else []) with (@nil ascii). rewrite E2. cbn [rbind]. eexists _, k2. split; [done|]. split; [by rewrite Hm2, Hm1|].
  split; [transitivity k0; [done|]; transitivity k1; by apply same_meta_cell|].
  split; [by rewrite Hm2, Hm1|]. subst c1. rewrite <- !app_assoc in Hh2. exact Hh2.
Qed.

Lemma cancelled_turn_torn (p : plugin_t E M) k js begin t d :
  metric_inv meta p k js → no_nul t → opens d t → 0 ≤ d → size k + Z.of_nat (cancel_need begin t p) < PKTSZ →
  ∃ k0, cancelled_turn begin t p k = Ok k0 ∧ torn p k0 (bool_decide (js = [])) ∧ same_cell k k0
    ∧ started k0 = first_record k js begin ∧ size k0 ≤ size k + Z.of_nat (cancel_need begin t p).
Proof.
  intros Hinv Hnt Ht Hd Hr. unfold cancelled_turn, cancel_need in *.
  destruct (gather_open_ok meta p k js (length (lit ",{'timestamp':,'values':{") + length (dec (begin mod 2 ^ 64)) + length t) Hinv)
    as (k1 & -> & (s & Hh1 & Hel & Hst1) & Hc1 & Hb1 & Hz1); [lia|]. cbn [rbind].
  destruct (enter_gather_ok p k1 s js begin Hh1 Hst1) as (rb & k2 & -> & Hst2 & Hc2 & Hb2 & Hh2); [lia|]. cbn [rbind snd].
  set (x := comma js ++ _) in Hh2. pose proof Hh1 as (_ & Hs1 & _).
  assert (Z.of_nat (length x) ≤ Z.of_nat (length (lit ",{'timestamp':,'values':{") + length (dec (begin mod 2 ^ 64)))) as Hlx.
  { subst x. pose proof (length_comma js). rewrite !length_app. simpl. lia. }
  destruct (append_bytes_ok k2 _ t (holds_begins _ _ Hh2)) as (k3 & -> & Hm3 & Hh3).
  { unfold fits. rewrite app_assoc, length_app. lia. }
  exists k3. split; [done|]. split; [|split; [|split]].
  - exists (s ++ x ++ t), (0 + (2 + d)). split; [by rewrite <- !app_assoc in Hh3|]. split; [|split; [lia|split]].
    + apply no_nul_app. split; [by eapply (proj1 (proj2 json_no_nul))|]. apply no_nul_app. split; [|done]. subst x. unfold comma.
      assert (no_nul (dec (begin mod 2 ^ 64))) as Hdn by (apply dec_no_nul, tid_mod_nonneg).
      repeat (apply no_nul_app; split); try done; [case_decide; by repeat constructor|by repeat constructor..].
    + apply opens_app; [by eapply elements_opens|]. apply opens_app; [|done]. subst x.
      change 2 with (0 + (1 + (0 + 1))). apply opens_app; [unfold comma; by case_decide|]. apply opens_app; [done|].
      apply opens_app; [|done]. apply opens_flat, dec_flat, tid_mod_nonneg.
    + rewrite Hm3. cbn. rewrite Hst2, Hst1. by case_decide; [rewrite bool_decide_true|rewrite bool_decide_false].
  - transitivity k1; [done|]. transitivity k2; [done|]. by apply same_meta_cell.
  - rewrite Hm3. cbn. rewrite Hb2, Hb1. unfold first_record. by case_decide.
  - destruct Hh3 as (_ & -> & _). rewrite !app_assoc, !length_app in *. lia.
Qed.

(** ** The turns that follow *)

Context (f : gather_fn E M) `{!Gatherer f} `{!JsonGatherer f}.

Lemma header_opens (p : plugin_t E M) : clean (license meta) → opens 1 (header meta p).
Proof.
  intros Hl. unfold header.
  replace (lit "{'license':'" ++ _) with
    (lit "{'license':" ++ quoted (license meta) ++ lit ",'tid':" ++ dec (tid p mod 2 ^ 64) ++ lit ",'metrics':[")
    by (unfold quoted; by rewrite <- app_comm_cons, <- !app_assoc).
  change 1 with (1 + (0 + (0 + (0 + 0)))).
  apply opens_app; [done|]. apply opens_app; [by apply opens_quoted|]. apply opens_app; [done|].
  apply opens_app; [|done]. apply opens_flat, dec_flat, tid_mod_nonneg.
Qed.

Lemma header_no_nul (p : plugin_t E M) : clean (license meta) → no_nul (header meta p).
Proof.
  intros Hl. pose proof (value_no_nul _ _ (document_value meta p [] [] Hl e_nil)) as H.
  by apply no_nul_app in H as [H _].
Qed.

(** The text of a torn packet, closed, is not JSON. *)
Lemma torn_closed (p : plugin_t E M) k s d :
  clean (license meta) → no_nul s → opens d s → 0 < d → state k = READY → holds k ((header meta p ++ s) ++ lit "]}") → garbage k.
Proof.
  intros Hl Hn Ho Hd Hst Hh. split; [done|].
  assert (no_nul ((header meta p ++ s) ++ lit "]}")) as Hnul.
  { apply no_nul_app. split; [apply no_nul_app; split; [by apply header_no_nul|done]|by repeat constructor]. }
  rewrite (holds_cstr _ _ Hh Hnul). apply (opens_not_json (1 + d + -1)); [|lia].
  apply opens_app; [|done]. apply opens_app; [by apply header_opens|done].
Qed.

(** A turn of the next worker in which the plugin delivers adds its sample behind the
    open braces; closing the packet does not close them. *)
Lemma torn_turn p w a k fresh first b late t :
  gather p = f → clean (license meta) → working p = Some a → w_heap w !! a = Some k → torn p k fresh →
  first = (if fresh then tn_begin t else started k) → good_turn meta f p first b late t → size k + Z.of_nat b < PKTSZ →
  ∃ k', plugin_gather meta (tn_env t) (tn_mem t) (tn_begin t) (tn_now t) p w
      = Ok (0, set_working (if late then None else Some a) (set_module (g_module f (tn_env t) (module p)) p),
            set_cells (<[a := k']> (w_heap w)) w)
    ∧ size k' ≤ size k + Z.of_nat b
    ∧ if late then garbage k' else torn p k' false ∧ started k' = first.
Proof.
  intros Hg Hl Hw Hk (s & d & Hh & Hn & Hd & Ho & Hst) Hf [Hcode Hclean Hneed Htime] Hr.
  assert (turn_need meta f p (tn_env t) (tn_begin t) ≤ b)%nat as Hnb
    by (specialize (Hneed (module p)); by destruct p).
  unfold plugin_gather, turn_need in *. rewrite Hw. cbn [rbind]. rewrite Hw, (deref_Some _ _ _ Hk). cbn [rbind].
  unfold gather_open. rewrite bool_decide_false by (rewrite Hst; by destruct fresh). cbn [rbind].
  set (js := if fresh then [] else [JInt 0]).
  assert (∀ A (x y : A), (if decide (js = []) then x else y) = if fresh then x else y) as Hjs
    by (intros; subst js; destruct fresh; [by rewrite decide_True|by rewrite decide_False]).
  destruct (gather_sample_text meta f p k s js (tn_begin t) (tn_env t) Hg Hh) as (k1 & -> & Hc1 & Hb1 & Hz1 & Ht1);
    [by rewrite Hjs|done|lia|]. cbn [rbind fst snd].
  rewrite Hcode in Ht1 |- *. rewrite decide_True in Ht1 by done. destruct Ht1 as [Hh1 Hst1].
  destruct (g_members (tn_env t) (module p) (Hclean _) (Hcode _)) as [kvs Hkvs].
  pose proof (sample_value (tn_begin t) _ _ Hkvs) as Hv. set (y := comma js ++ sample_text _ _) in Hh1.
  assert (opens 0 y ∧ no_nul y) as [Hoy Hny].
  { subst y. split.
    - apply (opens_app 0 0); [unfold comma; by case_decide|by apply value_opens in Hv].
    - apply no_nul_app. split; [unfold comma; case_decide; by repeat constructor|by apply value_no_nul in Hv]. }
  cbn [task_after Z.eqb EPLUGUP EPLUGDOWN]. set (p2 := set_module _ p).
  change (header meta p) with (header meta p2) in Hh1.
  destruct (gather_close_text p2 k1 _ (tn_now t) Hh1) as (k2 & -> & Hc2 & Hz2 & Ht2); [lia|]. cbn [rbind fst snd].
  rewrite packet_expired_spec, Hb1, Hjs, <- Hf, Htime in Ht2 |- *. exists k2.
  split; [|split; [lia|]].
  - destruct late; [done|]. subst p2. by destruct p; simpl in Hw; subst.
  - destruct late; [|].
    + rewrite bool_decide_true in Ht2 by done. destruct Ht2 as [Hst2 Hh2].
      apply (torn_closed p k2 (s ++ y) d); [done|by apply no_nul_app|by apply opens_app_0|done|done|done].
    + subst k2. split; [|by rewrite Hb1, Hjs]. exists (s ++ y), d.
      split; [done|]. split; [by apply no_nul_app|]. split; [done|]. split; [by apply opens_app_0|done].
Qed.

(** The instant from which the packet expires. *)
Definition torn_first (fresh : bool) (k : packet_t) (ts : list (@turn E)) (tl : @turn E) : Z :=
  if fresh then first_begin ts tl else started k.

(** Any number of such turns, the packet expiring in the last. *)
Lemma torn_run ts : ∀ p w a k fresh b tl,
  gather p = f → clean (license meta) → working p = Some a → w_heap w !! a = Some k → torn p k fresh →
  let first := torn_first fresh k ts tl in
  Forall (good_turn meta f p first b false) ts → good_turn meta f p first b true tl →
  size k + Z.of_nat (S (length ts) * b) < PKTSZ →
  ∃ m k', run_turns meta (ts ++ [tl]) p w = Ok (set_working None (set_module m p), set_cells (<[a := k']> (w_heap w)) w)
    ∧ garbage k'.
Proof.
  induction ts as [|t ts IH]; intros p w a k fresh b tl Hg Hl Hw Hk Ht first Hts Htl Hr.
  - destruct (torn_turn p w a k fresh first b true tl Hg Hl Hw Hk Ht) as (k' & E' & _ & Hgar);
      [by destruct fresh|done|lia|]. cbn [app run_turns]. rewrite E'. cbn [rbind fst snd]. by eexists _, k'.
  - inversion_clear Hts as [|? ? Ht0 Hts'].
    destruct (torn_turn p w a k fresh first b false t Hg Hl Hw Hk Ht) as (k1 & E1 & Hz1 & Ht1 & Hb1);
      [by destruct fresh|done|simpl in Hr; lia|]. rewrite <- Hw in E1.
    set (p1 := set_module (g_module f (tn_env t) (module p)) p) in *.
    destruct (IH p1 (set_cells (<[a := k1]> (w_heap w)) w) a k1 false b tl) as (m & k' & E2 & Hgar);
      [done|done|done|apply lookup_insert_eq|done| | |simpl in Hr; lia|].
    { unfold torn_first. rewrite Hb1. eapply List.Forall_impl; [|exact Hts']. intros t'. apply good_turn_module. }
    { unfold torn_first. rewrite Hb1. by apply good_turn_module. }
    rewrite set_cells_twice in E2. exists m, k'. split; [|done].
    cbn [app run_turns]. rewrite E1. cbn [rbind fst snd]. replace (set_working (working p) p1) with p1 by (by destruct p).
    exact E2.
Qed.

(** C12. A gathering that is cancelled ruins its packet.  The worker is cancelled in the
    gathering function, after it has appended [t], outside of a string and without
    closing a brace it did not open; the text of the sample it had begun stays behind
    the rollback point of the next turn.  However many turns [ts ++ [tl]] of the next
    worker gather well and have room, the packet that is then handed to the storage
    routine is not JSON, by the whole grammar of RFC 8259, and its samples are lost. *)
Theorem cancelled_turn_ruins_packet ts tl p w a k js begin t d b :
  gather p = f → clean (license meta) → working p = Some a → w_heap w !! a = Some k → metric_inv meta p k js →
  no_nul t → opens d t → 0 ≤ d → size k + Z.of_nat (cancel_need begin t p + S (length ts) * b) < PKTSZ →
  let first := torn_first (bool_decide (js = [])) k ts tl in
  Forall (good_turn meta f p first b false) ts → good_turn meta f p first b true tl →
  ∃ k0 p' w' k', cancelled_turn begin t p k = Ok k0
    ∧ run_turns meta (ts ++ [tl]) p (set_cells (<[a := k0]> (w_heap w)) w) = Ok (p', w')
    ∧ working p' = None ∧ w_heap w' !! a = Some k'
    ∧ state k' = READY ∧ ¬ json_text (cstr (payload k')).
Proof.
  intros Hg Hl Hw Hk Hinv Hn Ho Hd Hr first Hts Htl.
  destruct (cancelled_turn_torn p k js begin t d Hinv Hn Ho Hd) as (k0 & E0 & Ht & _ & Hb & Hz); [lia|].
  assert (torn_first (bool_decide (js = [])) k0 ts tl = first) as Ef.
  { subst first. unfold torn_first, first_record in *. rewrite Hb. case_bool_decide; [done|]. by rewrite decide_False. }
  destruct (torn_run ts p (set_cells (<[a := k0]> (w_heap w)) w) a k0 (bool_decide (js = [])) b tl Hg Hl Hw)
    as (m & k' & E1 & Hgar); [apply lookup_insert_eq|done|by rewrite Ef|by rewrite Ef|lia|].
  eexists k0, _, _, k'. split; [done|]. split; [exact E1|]. split; [done|]. split; [apply lookup_insert_eq|exact Hgar].
Qed.
End Cancel.

(** ** Witnesses *)

Lemma cancelled_turn_ruins_packet_witness :
  ∃ k0 p' w' k', cancelled_turn some_meta 1000 [] (up_plugin (Some 1%positive) None plugin_gather_fn) (zeroed METRIC) = Ok k0
    ∧ run_turns some_meta [Turn tt None 2000 9500] (up_plugin (Some 1%positive) None plugin_gather_fn)
        (set_cells (<[1%positive := k0]> (w_heap new_world)) new_world) = Ok (p', w')
    ∧ working p' = None ∧ w_heap w' !! 1%positive = Some k'
    ∧ state k' = READY ∧ ¬ json_text (cstr (payload k')).
Proof.
  apply (cancelled_turn_ruins_packet some_meta up_gather [] (Turn tt None 2000 9500)
    (up_plugin (Some 1%positive) None plugin_gather_fn) new_world 1%positive (zeroed METRIC) [] 1000 [] 0 200).
  - reflexivity.
  - solve_clean.
  - reflexivity.
  - apply lookup_singleton_eq.
  - left. split; [reflexivity|]. split; [apply holds_begins, zeroed_holds|reflexivity].
  - constructor.
  - reflexivity.
  - lia.
  - vm_compute. reflexivity.
  - constructor.
  - split; [reflexivity|intros; exact I|intros []; vm_compute; lia|reflexivity].
Defined.
