(* ===== verification/Os.v ===== *)
(** The plugin for Linux hosts (src/plugins/os.c): five gathering functions over
    the texts of /proc and of ps, which [popen], [fopen] and [statvfs] hand in,
    and the function that calls them.  Each is an instance of the classes of
    Packet.v. *)
From Stdlib Require Import ZArith Ascii Lia SpecFloat.
From stdpp Require Import base list strings numbers.
From S2P Require Import Prelude.
From S2P Require Import Clib.
From S2P Require Import Scan.
From S2P Require Import Json.
From S2P Require Import Packet.
From S2P Require Import Report.
From S2P Require Import Parts.
From S2P Require Import Util.
From S2P Require Import Routine.
From S2P Require Import Plugin.

Local Open Scope Z_scope.

(** * The outside world *)

(** What the plugin reads of [struct statvfs]. *)
Record statvfs_t := Vfs {
  f_blocks : Z;
  f_frsize : Z;
  f_bfree : Z;
  f_bsize : Z;
  f_bavail : Z
}.

(** What a command prints, what a file holds, what [statvfs] says of a path; the
    number tells the rounds of a loop apart, in which the same call may get
    another answer.  [None]: the call failed. *)
Record os_env := OsEnv {
  popen : nat → bytes → option bytes;
  fopen : nat → bytes → option bytes;
  statvfs : nat → bytes → option statvfs_t
}.

Definition BPKB : Z := 1024.

(** * CPU *)

Definition CPU_CMD : bytes :=
  sh "awk '$1~/^cpu$/{tot=$2+$3+$4+$5;print$2/tot,$4/tot,$5/tot}' /proc/stat".

(** [fscanf(pipe, "%f%f%f", ...) == 3] *)
Definition cpu_scan (s : bytes) : option (float * float * float) :=
  '(cpu_user, s) ← scan_f s;
  '(cpu_sys, s) ← scan_f s;
  '(cpu_idle, s) ← scan_f s;
  Some (cpu_user, cpu_sys, cpu_idle).

(** No output is printed when the scan fails, but this is no error. *)
Definition cpu_script (x : option (float * float * float)) : script :=
  match x with
  | Some (cpu_user, cpu_sys, cpu_idle) =>
      [("'user':%.2f,'sys':%.2f,'idle':%.2f", [AFlt cpu_user; AFlt cpu_sys; AFlt cpu_idle])]
  | None => []
  end.

Definition cpu_read (e : os_env) : res (option (option (float * float * float))) :=
  Ok (cpu_scan <$> popen e 0 CPU_CMD).

Definition _os_gather_cpu : gather_fn os_env unit := report cpu_read cpu_script.

(** * Disks *)

Definition MOUNTS_CMD : bytes := sh "awk '$1~`^/dev/`{print$1,$2}' /proc/mounts".

(** An element of the array [dev]; [d_stat] holds those of r, rkb, rt, w, wkb,
    wt and weight that were stored, in this order. *)
Record dev_t := Dev {
  d_name : bytes;
  d_num : Z;
  d_mount : bytes;
  d_tot : Z;
  d_free : Z;
  d_avail : Z;
  d_stat : list Z
}.

(** [fscanf(pipe, "/dev/%128[^0-9]%hu%128s\n", ...)]: name, number, mount point
    and the text left over, when it returns 3. *)
Definition mount_scan (k : nat) (s : bytes) : res (option (bytes * Z * bytes * bytes)) :=
  match scan_lit (sh "/dev/") s ≫= scan_set 128 (λ c, negb (is_digit c)) with
  | None => Ok None
  | Some (name, s) =>
      do _ <- store_str k 128 name;
      match '(num, s) ← scan_hu s; '(mount, s) ← scan_str 128 s; Some (num, mount, s) with
      | None => Ok None
      | Some (num, mount, s) =>
          do _ <- store_str k 128 mount;
          Ok (Some (name, num, mount, skip_space s))
      end
  end.

(** [snprintf(cmd, BFSZ, ...)] *)
Definition cmd_of (s : bytes) : bytes := take (Z.to_nat (BFSZ - 1)) s.

Definition sector_path (name : bytes) : bytes :=
  cmd_of (sh "/sys/block/" ++ name ++ sh "/queue/logical_block_size").

Definition diskstat_cmd (name : bytes) (num : Z) : bytes :=
  cmd_of (sh "awk '$3~`" ++ name ++ dec num ++ sh "`{print $4,$6,$7,$8,$10,$11,$14}' /proc/diskstats").

(** [io_tot] and the numbers of a device: all seven, the transfers in kB, or as
    many as were read. *)
Definition diskstat (sec_size io_tot : Z) (s : bytes) : list Z * Z :=
  match scan_some 7 s with
  | [r; rkb; rt; w; wkb; wt; weight] =>
      ([r; u64 (rkb * sec_size) / BPKB; rt; w; u64 (wkb * sec_size) / BPKB; wt; weight],
       u64 (io_tot + u64 (r + w)))
  | vs => (vs, io_tot)
  end.

(** The body of the loop: the element [dev[k]], or [None] for [continue]. *)
Definition disk_round (e : os_env) (t : nat) (io_tot : Z) (name : bytes) (num : Z) (mount : bytes)
    : option (dev_t * Z) :=
  vfs ← statvfs e t mount;
  sub ← fopen e t (sector_path name);
  '(sec_size, _) ← scan_llu sub;
  sub ← popen e t (diskstat_cmd name num);
  let '(stat, io_tot) := diskstat sec_size io_tot sub in
  Some (Dev name num mount
          (u64 (f_blocks vfs * f_frsize vfs) / BPKB)
          (u64 (f_bfree vfs * f_bsize vfs) / BPKB)
          (u64 (f_bavail vfs * f_bsize vfs) / BPKB) stat, io_tot).

(** The loop: [t] rounds done, [devs] the elements so far. *)
Fixpoint disk_loop (fuel : nat) (e : os_env) (t : nat) (s : bytes) (devs : list dev_t) (io_tot : Z)
    : res (list dev_t * Z) :=
  match fuel with
  | O => Spins
  | S fuel =>
      do r <- mount_scan (length devs) s;
      match r with
      | None => Ok (devs, io_tot)
      | Some (name, num, mount, s) =>
          match disk_round e t io_tot name num mount with
          | None => disk_loop fuel e (S t) s devs io_tot
          | Some (d, io_tot) => disk_loop fuel e (S t) s (devs ++ [d]) io_tot
          end
      end
  end.

Definition stat (i : nat) (d : dev_t) : Z := nth i (d_stat d) 0.

Definition disk_script (x : list dev_t * Z) : script :=
  let '(devs, io_tot) := x in
  say "'name':[" ++ each "%s'%s%hu(%s)'" (λ d, [AStr (d_name d); AInt (d_num d); AStr (d_mount d)]) devs
  ++ say "],'tot':[" ++ each "%s%llu" (λ d, [AInt (d_tot d)]) devs
  ++ say "],'free':[" ++ each "%s%llu" (λ d, [AInt (d_free d)]) devs
  ++ say "],'avail':[" ++ each "%s%llu" (λ d, [AInt (d_avail d)]) devs
  ++ say "],'r':[" ++ each "%s%llu" (λ d, [AInt (stat 0 d)]) devs
  ++ say "],'rsec':[" ++ each "%s%llu" (λ d, [AInt (stat 1 d)]) devs
  ++ say "],'rt':[" ++ each "%s%llu" (λ d, [AInt (stat 2 d)]) devs
  ++ say "],'w':[" ++ each "%s%llu" (λ d, [AInt (stat 3 d)]) devs
  ++ say "],'wsec':[" ++ each "%s%llu" (λ d, [AInt (stat 4 d)]) devs
  ++ say "],'wt':[" ++ each "%s%llu" (λ d, [AInt (stat 5 d)]) devs
  ++ say "],'weight':[" ++ each "%s%llu" (λ d, [AInt (stat 6 d)]) devs
  ++ [("],'io_tot':%llu", [AInt io_tot])].

(** What there is to print; printing a field that was never stored is
    undefined. *)
Definition disk_read (e : os_env) : res (option (list dev_t * Z)) :=
  match popen e 0 MOUNTS_CMD with
  | None => Ok None
  | Some s =>
      do x <- disk_loop (S (length s)) e 1 s [] 0;
      if decide (x.1 = []) then Ok None
      else if forallb (λ d, Nat.eqb (length (d_stat d)) 7) x.1 then Ok (Some x)
      else Ub Uninit
  end.

Definition _os_gather_disk : gather_fn os_env unit := report disk_read disk_script.

(** * Processes *)

Definition TOP_CPU_CMD : bytes :=
  sh "ps -eo comm,pcpu --no-headers | awk '{c[$1]+=1;cpu[$1]+=$2} END{for(i in c)if(cpu[i]>0)print i,cpu[i]}' | sort -grk2,2 | head -n 10".

Definition TOP_MEM_CMD : bytes :=
  sh "ps -eo comm,pmem --no-headers | awk '{c[$1]+=1;mem[$1]+=$2} END{for(i in c)if(mem[i]>0)print i,mem[i]}' | sort -grk2,2 | head -n 10".

Definition PROC_CMD : bytes :=
  sh "ps -eo comm,user,pcpu,pmem --no-headers | awk '{c[$1` `$2]+=1;cpu[$1` `$2]+=$3;mem[$1` `$2]+=$4} END{for(i in c)if(cpu[i]>0||mem[i]>0)print i,c[i],cpu[i],mem[i]}' | sort -gr -k5,5 -k4,4 | head -n 10".

(** [while(fscanf(pipe, "%128s%f\n", proc[k].name, &proc[k].cpu) == 2) k++;] *)
Fixpoint top_loop (fuel : nat) (s : bytes) (top : list (bytes * float)) : res (list (bytes * float)) :=
  match fuel with
  | O => Spins
  | S fuel =>
      match scan_str 128 s with
      | None => Ok top
      | Some (name, s) =>
          do _ <- store_str (length top) 10 name;
          match scan_f s with
          | None => Ok top
          | Some (x, s) => top_loop fuel (skip_space s) (top ++ [(name, x)])
          end
      end
  end.

Record proc_t := Proc {
  p_name : bytes;
  p_user : bytes;
  p_count : Z;
  p_cpu : float;
  p_mem : float
}.

(** [while(fscanf(pipe, "%128s%128s%lu%f%f", ...) == 5) k++;] *)
Fixpoint proc_loop (fuel : nat) (s : bytes) (procs : list proc_t) : res (list proc_t) :=
  match fuel with
  | O => Spins
  | S fuel =>
      match scan_str 128 s with
      | None => Ok procs
      | Some (name, s) =>
          do _ <- store_str (length procs) 10 name;
          match scan_str 128 s with
          | None => Ok procs
          | Some (user, s) =>
              do _ <- store_str (length procs) 10 user;
              match '(count, s) ← scan_llu s; '(cpu, s) ← scan_f s; '(mem, s) ← scan_f s;
                    Some (count, cpu, mem, s) with
              | None => Ok procs
              | Some (count, cpu, mem, s) =>
                  proc_loop fuel s (procs ++ [Proc name user count cpu mem])
              end
          end
      end
  end.

(** The comma in front of a section: [payload[size-1]=='{'?"":","]. *)
Definition section_sep (p : packet_t) : res bytes :=
  do last <- payload_at p (size p - 1);
  Ok (if Ascii.eqb last "{"%char then [] else lit ",").

Definition cpu_top_script (top : list (bytes * float)) : script :=
  say "'cpu_top10':{'name':[" ++ each "%s'%s'" (λ x, [AStr x.1]) top
  ++ say "],'cpu':[" ++ each "%s%.1f" (λ x, [AFlt x.2]) top ++ say "]}".

Definition mem_top_script (sep : bytes) (top : list (bytes * float)) : script :=
  [("%s'mem_top10':{'name':[", [AStr sep])] ++ each "%s'%s'" (λ x, [AStr x.1]) top
  ++ say "],'mem':[" ++ each "%s%.1f" (λ x, [AFlt x.2]) top ++ say "]}".

Definition proc_script (sep : bytes) (procs : list proc_t) : script :=
  [("%s'list':{'name':[", [AStr sep])] ++ each "%s'%s'" (λ x, [AStr (p_name x)]) procs
  ++ say "],'user':[" ++ each "%s'%s'" (λ x, [AStr (p_user x)]) procs
  ++ say "],'count':[" ++ each "%s%lu" (λ x, [AInt (p_count x)]) procs
  ++ say "],'cpu':[" ++ each "%s%.1f" (λ x, [AFlt (p_cpu x)]) procs
  ++ say "],'mem':[" ++ each "%s%.1f" (λ x, [AFlt (p_mem x)]) procs ++ say "]}".

(** A section, unless there is nothing to print: the [if(k > 0)] blocks for memory
    and for the list. *)
Definition proc_section {A} (error : Z) (p : packet_t) (xs : list A) (say : bytes → script)
    : res (Z * packet_t) :=
  if decide (xs = []) then Ok (error, p)
  else
    do sep <- section_sep p;
    do p <- run p (say sep);
    Ok (ENONE, p).

Definition _os_gather_proc : gather_fn os_env unit := λ e m p,
  let error := ENODATA in
  match popen e 0 TOP_CPU_CMD with
  | None => Ok (error, m, p)
  | Some s =>
      do top <- top_loop (S (length s)) s [];
      do r <- (if decide (top = []) then Ok (error, p)
               else do p <- run p (cpu_top_script top); Ok (ENONE, p));
      let '(error, p) := r in
      match popen e 0 TOP_MEM_CMD with
      | None => Ok (error, m, p)
      | Some s =>
          do top <- top_loop (S (length s)) s [];
          do r <- proc_section error p top (λ sep, mem_top_script sep top);
          let '(error, p) := r in
          match popen e 0 PROC_CMD with
          | None => Ok (error, m, p)
          | Some s =>
              do procs <- proc_loop (S (length s)) s [];
              do r <- proc_section error p procs (λ sep, proc_script sep procs);
              let '(error, p) := r in
              Ok (error, m, p)
          end
      end
  end.

(** * Memory *)

Definition MEM_CMD : bytes :=
  sh "awk '/^Mem[TF]|^Cached|Active:|Inactive:|Vmalloc[TU]/{print$2}' /proc/meminfo".

Definition memory_script (vs : list Z) : script :=
  match vs with
  | [total; free; cached; active; inactive; v_total; v_used] =>
      [("'total':%llu,'free':%llu,'cached':%llu,'user':%llu,'sys':%llu,'virtual':%.2lf",
        [AInt total; AInt free; AInt cached; AInt (u64 (active + inactive));
         AInt (u64 (u64 (u64 (total - free) - active) - inactive));
         AFlt (f64_div (f64_of_Z v_used) (f64_of_Z v_total))])]
  | _ => []
  end.

Definition memory_read (e : os_env) : res (option (list Z)) :=
  Ok (s ← popen e 0 MEM_CMD; fst <$> scan_llus 7 s).

Definition _os_gather_memory : gather_fn os_env unit := report memory_read memory_script.

(** * Network *)

Definition NET_CMD : bytes :=
  sh "awk '{print$1,$2,$3,$4,$10,$11,$12}' /proc/net/dev | tail -n +3".

Record net_t := Net {
  n_name : bytes;
  i_byte : Z; i_pckt : Z; i_err : Z;
  o_byte : Z; o_pckt : Z; o_err : Z
}.

(** The loop: [fscanf(pipe, "%128[^:]:", name) == 1], then six numbers or [break]. *)
Fixpoint net_loop (fuel : nat) (s : bytes) (ifs : list net_t) (i_tot o_tot : Z)
    : res (list net_t * Z * Z) :=
  match fuel with
  | O => Spins
  | S fuel =>
      match scan_set 128 (λ c, negb (Ascii.eqb c ":"%char)) s with
      | None => Ok (ifs, i_tot, o_tot)
      | Some (name, s) =>
          do _ <- store_str (length ifs) 128 name;
          match scan_llus 6 (default s (scan_char ":"%char s)) with
          | Some ([ib; ip; ie; ob; op; oe], s) =>
              net_loop fuel (skip_space s) (ifs ++ [Net name ib ip ie ob op oe])
                (u64 (i_tot + ib)) (u64 (o_tot + ob))
          | _ => Ok (ifs, i_tot, o_tot)
          end
      end
  end.

Definition net_script (x : list net_t * Z * Z) : script :=
  let '(ifs, i_tot, o_tot) := x in
  say "'name':[" ++ each "%s'%s'" (λ x, [AStr (n_name x)]) ifs
  ++ say "],'i_byte':[" ++ each "%s%llu" (λ x, [AInt (i_byte x)]) ifs
  ++ say "],'o_byte':[" ++ each "%s%llu" (λ x, [AInt (o_byte x)]) ifs
  ++ say "],'i_pckt':[" ++ each "%s%llu" (λ x, [AInt (i_pckt x)]) ifs
  ++ say "],'o_pckt':[" ++ each "%s%llu" (λ x, [AInt (o_pckt x)]) ifs
  ++ say "],'i_err':[" ++ each "%s%llu" (λ x, [AInt (i_err x)]) ifs
  ++ say "],'o_err':[" ++ each "%s%llu" (λ x, [AInt (o_err x)]) ifs
  ++ [("],'i_tot':%llu,'o_tot':%llu", [AInt i_tot; AInt o_tot])].

Definition net_read (e : os_env) : res (option (list net_t * Z * Z)) :=
  match popen e 0 NET_CMD with
  | None => Ok None
  | Some s =>
      do x <- net_loop (S (length s)) s [] 0 0;
      if decide (x.1.1 = []) then Ok None else Ok (Some x)
  end.

Definition _os_gather_network : gather_fn os_env unit := report net_read net_script.

(** * The plugin *)

(** The five operands of [&] in [os_gather]. *)
Inductive os_part := Cpu | Disk | Proc_ | Mem | Net_.

Definition part_tag (x : os_part) : string :=
  match x with Cpu => "cpu" | Disk => "disk" | Proc_ => "proc" | Mem => "mem" | Net_ => "net" end.

Definition part_fn (x : os_part) : gather_fn os_env unit :=
  match x with
  | Cpu => _os_gather_cpu
  | Disk => _os_gather_disk
  | Proc_ => _os_gather_proc
  | Mem => _os_gather_memory
  | Net_ => _os_gather_network
  end.

Definition os_parts : list os_part := [Cpu; Disk; Proc_; Mem; Net_].

(** [os_gather]: C does not fix the order in which the operands of [&] are
    evaluated, so [order] is some permutation of [os_parts].  The unit of the
    conjunction is -1. *)
Definition os_gather (order : list os_part) : gather_fn os_env unit :=
  gather_parts part_tag part_fn (-1) order.

Definition os_module_cmp (m1 : bytes) (m2 : unit) (size : Z) : Z := 0.

(** [load_os_module] on the plugin [p]; the function [fini] it clears is never
    called.  -1 for NULL. *)
Definition load_os_module (order : list os_part) (p : option (plugin_t os_env unit))
    : Z * option (plugin_t os_env unit) :=
  match p with
  | None => (-1, None)
  | Some p =>
      (0, Some (Plugin (set_tick OS_TICK (r p)) (tid p) None (lit "linux_ubuntu_1.0")
                  (working p) (oob p) None (os_gather order) os_module_cmp 0 tt))
  end.

(** Loading sets no task. *)
Lemma load_os_keeps_task order p z p' : load_os_module order (Some p) = (z, Some p') → task (r p') = task (r p).
Proof. by intros [= _ <-]. Qed.

(** * What the functions report

    For each function: what its readings have to be like, the fields it prints
    and the members they denote. *)

Definition cpu_good (x : option (float * float * float)) : Prop :=
  match x with
  | Some (u, y, i) => f_plain u = true ∧ f_plain y = true ∧ f_plain i = true
  | None => True
  end.

Definition cpu_fields (x : option (float * float * float)) : list (bytes * bytes) :=
  match x with
  | Some (u, y, i) => [(lit "user", fixed 2 u); (lit "sys", fixed 2 y); (lit "idle", fixed 2 i)]
  | None => []
  end.

Definition cpu_members (x : option (float * float * float)) : list (bytes * json) :=
  match x with
  | Some (u, y, i) =>
      [(lit "user", JDec (units 2 u) 2); (lit "sys", JDec (units 2 y) 2); (lit "idle", JDec (units 2 i) 2)]
  | None => []
  end.

Lemma cpu_prints x : cpu_good x → prints (cpu_script x) (fields_text (cpu_fields x)).
Proof. destruct x as [[[u y] i]|]; intros _; [|constructor]. unfold cpu_script, cpu_fields. solve_prints. Qed.

Lemma cpu_json x : cpu_good x → Forall2 field (cpu_fields x) (cpu_members x).
Proof.
  destruct x as [[[u y] i]|]; [|by constructor]. intros (Hu & Hy & Hi). unfold cpu_fields, cpu_members.
  solve_fields; apply fixed_value; first [done|lia].
Qed.

#[export] Instance cpu_gatherer : Gatherer _os_gather_cpu :=
  report_gatherer cpu_read cpu_script cpu_good cpu_fields cpu_prints.
#[export] Instance cpu_json_gatherer : JsonGatherer _os_gather_cpu := report_json _ _ _ _ _ _ cpu_json.

(** ** Disks *)

Definition dev_label (d : dev_t) : bytes := d_name d ++ dec (d_num d) ++ lit "(" ++ d_mount d ++ lit ")".

Record dev_good (d : dev_t) : Prop := {
  dg_name : clean (d_name d);
  dg_num : 0 ≤ d_num d < 2 ^ 16;
  dg_mount : clean (d_mount d);
  dg_tot : is_u64 (d_tot d);
  dg_free : is_u64 (d_free d);
  dg_avail : is_u64 (d_avail d);
  dg_stat : Forall is_u64 (d_stat d)
}.

Definition disk_good (x : list dev_t * Z) : Prop := Forall dev_good x.1 ∧ is_u64 x.2.

Definition disk_fields (x : list dev_t * Z) : list (bytes * bytes) :=
  let '(devs, io_tot) := x in
  [(lit "name", strs dev_label devs);
   (lit "tot", nums d_tot devs); (lit "free", nums d_free devs); (lit "avail", nums d_avail devs);
   (lit "r", nums (stat 0) devs); (lit "rsec", nums (stat 1) devs); (lit "rt", nums (stat 2) devs);
   (lit "w", nums (stat 3) devs); (lit "wsec", nums (stat 4) devs); (lit "wt", nums (stat 5) devs);
   (lit "weight", nums (stat 6) devs); (lit "io_tot", dec io_tot)].

(** The members of an array per field. *)
Definition jstrs {A} (f : A → bytes) (xs : list A) : json := JArr ((λ x, JStr (f x)) <$> xs).
Definition jnums {A} (f : A → Z) (xs : list A) : json := JArr ((λ x, JInt (f x)) <$> xs).
Definition jfixs {A} (f : A → float) (xs : list A) : json := JArr ((λ x, JDec (units 1 (f x)) 1) <$> xs).

Definition disk_members (x : list dev_t * Z) : list (bytes * json) :=
  let '(devs, io_tot) := x in
  [(lit "name", jstrs dev_label devs);
   (lit "tot", jnums d_tot devs); (lit "free", jnums d_free devs); (lit "avail", jnums d_avail devs);
   (lit "r", jnums (stat 0) devs); (lit "rsec", jnums (stat 1) devs); (lit "rt", jnums (stat 2) devs);
   (lit "w", jnums (stat 3) devs); (lit "wsec", jnums (stat 4) devs); (lit "wt", jnums (stat 5) devs);
   (lit "weight", jnums (stat 6) devs); (lit "io_tot", JInt io_tot)].

Lemma clean_app s t : clean s → clean t → clean (s ++ t).
Proof. intros. by apply Forall_app. Qed.

Lemma dec_clean n : 0 ≤ n → clean (dec n).
Proof.
  intros H. eapply list.Forall_impl; [by apply dec_digits|]. intros c. unfold is_digit, plain.
  intros [H1 H2]%andb_true_iff. apply Z.leb_le in H1, H2. rewrite (proj2 (Z.leb_le _ _)) by lia.
  destruct (Ascii.eqb_spec c DQ) as [->|]; [by vm_compute in H1|].
  destruct (Ascii.eqb_spec c "092"%char) as [->|]; [by vm_compute in H2|]. done.
Qed.

Lemma label_clean d : dev_good d → clean (dev_label d).
Proof.
  intros H. unfold dev_label. repeat apply clean_app; try apply H; try solve_clean.
  apply dec_clean, H.
Qed.

Lemma stat_u64 i d : dev_good d → is_u64 (stat i d).
Proof.
  intros H. unfold stat. destruct (decide (i < length (d_stat d))%nat) as [Hi|Hi].
  - apply (proj1 (List.Forall_forall _ _) (dg_stat _ H)). by apply nth_In.
  - rewrite nth_overflow by lia. by vm_compute.
Qed.

Lemma prints_labels devs :
  Forall dev_good devs →
  prints (each "%s'%s%hu(%s)'" (λ d, [AStr (d_name d); AInt (d_num d); AStr (d_mount d)]) devs)
         (elements_text ((λ d, quoted (dev_label d)) <$> devs)).
Proof.
  intros H. apply prints_each. intros d s Hd. apply (proj1 (list.Forall_forall _ _) H) in Hd.
  fmt_eval. rewrite Z.mod_small by apply Hd. unfold quoted, dev_label.
  rewrite <- !app_assoc. reflexivity.
Qed.

Lemma dev_Forall {P : dev_t → Prop} devs : Forall dev_good devs → (∀ d, dev_good d → P d) → Forall P devs.
Proof. intros H HP. by eapply list.Forall_impl. Qed.

Lemma disk_prints x : disk_good x → prints (disk_script x) (fields_text (disk_fields x)).
Proof.
  destruct x as [devs io_tot]. intros [H Hio]. cbn [fst snd] in *.
  assert (∀ i, Forall (λ d, is_u64 (stat i d)) devs) by (intros i; apply (dev_Forall _ H); intros; by apply stat_u64).
  assert (Forall (λ d, is_u64 (d_tot d)) devs) by (apply (dev_Forall _ H); by intros d []).
  assert (Forall (λ d, is_u64 (d_free d)) devs) by (apply (dev_Forall _ H); by intros d []).
  assert (Forall (λ d, is_u64 (d_avail d)) devs) by (apply (dev_Forall _ H); by intros d []).
  unfold disk_script. eapply prints_eq; [|].
  { repeat first [prints_step|by apply prints_labels]; done. }
  unfold disk_fields. text_eq.
Qed.

Lemma disk_json x : disk_good x → Forall2 field (disk_fields x) (disk_members x).
Proof.
  destruct x as [devs io_tot]. intros [H Hio]. cbn [fst snd] in *. unfold disk_fields, disk_members.
  solve_fields;
    first [apply strs_value, (dev_Forall _ H); intros; by apply label_clean
          |apply nums_value, (dev_Forall _ H); intros d Hd; first [by apply stat_u64|apply Hd]
          |apply dec_value, Hio].
Qed.

#[export] Instance disk_gatherer : Gatherer _os_gather_disk :=
  report_gatherer disk_read disk_script disk_good disk_fields disk_prints.
#[export] Instance disk_json_gatherer : JsonGatherer _os_gather_disk := report_json _ _ _ _ _ _ disk_json.

(** ** Memory *)

Definition memory_ratio (v_total v_used : Z) : float := f64_div (f64_of_Z v_used) (f64_of_Z v_total).

Definition memory_good (vs : list Z) : Prop :=
  match vs with
  | [total; free; cached; active; inactive; v_total; v_used] =>
      Forall is_u64 vs ∧ f_plain (memory_ratio v_total v_used) = true
  | _ => False
  end.

Definition memory_fields (vs : list Z) : list (bytes * bytes) :=
  match vs with
  | [total; free; cached; active; inactive; v_total; v_used] =>
      [(lit "total", dec total); (lit "free", dec free); (lit "cached", dec cached);
       (lit "user", dec (u64 (active + inactive)));
       (lit "sys", dec (u64 (total - free - active - inactive)));
       (lit "virtual", fixed 2 (memory_ratio v_total v_used))]
  | _ => []
  end.

Definition memory_members (vs : list Z) : list (bytes * json) :=
  match vs with
  | [total; free; cached; active; inactive; v_total; v_used] =>
      [(lit "total", JInt total); (lit "free", JInt free); (lit "cached", JInt cached);
       (lit "user", JInt (u64 (active + inactive)));
       (lit "sys", JInt (u64 (total - free - active - inactive)));
       (lit "virtual", JDec (units 2 (memory_ratio v_total v_used)) 2)]
  | _ => []
  end.

(** The differences are taken modulo 2^64. *)
Lemma u64_sub a b c : u64 (u64 (u64 a - b) - c) = u64 (a - b - c).
Proof.
  unfold u64. rewrite Zminus_mod_idemp_l. replace (_ - b - c) with (a mod 2 ^ 64 - (b + c)) by lia.
  rewrite Zminus_mod_idemp_l. f_equal. lia.
Qed.

(** [list7 vs] takes a list of seven apart. *)
Ltac list7 vs := do 7 (destruct vs as [|? vs]; try done); destruct vs; try done.

Lemma memory_prints vs : memory_good vs → prints (memory_script vs) (fields_text (memory_fields vs)).
Proof.
  list7 vs. intros [H _]. rewrite !list.Forall_cons in H. destruct H as (H1 & H2 & H3 & H4 & H5 & H6 & H7 & _).
  unfold memory_script, memory_fields. rewrite u64_sub. eapply prints_eq; [repeat prints_step|].
  change (?z mod 2 ^ 64) with (u64 z). rewrite !u64_idem. text_eq.
Qed.

Lemma memory_json vs : memory_good vs → Forall2 field (memory_fields vs) (memory_members vs).
Proof.
  list7 vs. intros [H Hf]. rewrite !list.Forall_cons in H. destruct H as (H1 & H2 & H3 & H4 & H5 & H6 & H7 & _).
  unfold memory_fields, memory_members. solve_fields;
    first [apply fixed_value; [done|lia]|apply dec_value, u64_range|apply dec_value; match goal with H : is_u64 ?z |- 0 ≤ ?z => apply H end].
Qed.

#[export] Instance memory_gatherer : Gatherer _os_gather_memory :=
  report_gatherer memory_read memory_script memory_good memory_fields memory_prints.
#[export] Instance memory_json_gatherer : JsonGatherer _os_gather_memory := report_json _ _ _ _ _ _ memory_json.

(** ** Network *)

Record net_good (x : net_t) : Prop := {
  ng_name : clean (n_name x);
  ng_i_byte : is_u64 (i_byte x);
  ng_i_pckt : is_u64 (i_pckt x);
  ng_i_err : is_u64 (i_err x);
  ng_o_byte : is_u64 (o_byte x);
  ng_o_pckt : is_u64 (o_pckt x);
  ng_o_err : is_u64 (o_err x)
}.

Definition nets_good (x : list net_t * Z * Z) : Prop :=
  Forall net_good x.1.1 ∧ is_u64 x.1.2 ∧ is_u64 x.2.

Definition net_fields (x : list net_t * Z * Z) : list (bytes * bytes) :=
  let '(ifs, i_tot, o_tot) := x in
  [(lit "name", strs n_name ifs); (lit "i_byte", nums i_byte ifs); (lit "o_byte", nums o_byte ifs);
   (lit "i_pckt", nums i_pckt ifs); (lit "o_pckt", nums o_pckt ifs);
   (lit "i_err", nums i_err ifs); (lit "o_err", nums o_err ifs);
   (lit "i_tot", dec i_tot); (lit "o_tot", dec o_tot)].

Definition net_members (x : list net_t * Z * Z) : list (bytes * json) :=
  let '(ifs, i_tot, o_tot) := x in
  [(lit "name", jstrs n_name ifs); (lit "i_byte", jnums i_byte ifs); (lit "o_byte", jnums o_byte ifs);
   (lit "i_pckt", jnums i_pckt ifs); (lit "o_pckt", jnums o_pckt ifs);
   (lit "i_err", jnums i_err ifs); (lit "o_err", jnums o_err ifs);
   (lit "i_tot", JInt i_tot); (lit "o_tot", JInt o_tot)].

Lemma net_prints x : nets_good x → prints (net_script x) (fields_text (net_fields x)).
Proof.
  destruct x as [[ifs i_tot] o_tot]. intros (H & Hi & Ho). cbn [fst snd] in *.
  unfold net_script, net_fields. eapply prints_eq.
  { repeat prints_step; (eapply list.Forall_impl; [exact H|]); by intros x []. }
  text_eq.
Qed.

Lemma net_json x : nets_good x → Forall2 field (net_fields x) (net_members x).
Proof.
  destruct x as [[ifs i_tot] o_tot]. intros (H & Hi & Ho). cbn [fst snd] in *.
  unfold net_fields, net_members. solve_fields;
    first [apply dec_value; first [apply Hi|apply Ho]
          |(first [apply strs_value|apply nums_value]); (eapply list.Forall_impl; [exact H|]); by intros x []].
Qed.

#[export] Instance net_gatherer : Gatherer _os_gather_network :=
  report_gatherer net_read net_script nets_good net_fields net_prints.
#[export] Instance net_json_gatherer : JsonGatherer _os_gather_network := report_json _ _ _ _ _ _ net_json.

(** ** Processes *)

Definition top_good (top : list (bytes * float)) : Prop :=
  Forall (λ x, clean x.1 ∧ f_plain x.2 = true) top.

Definition top_fields (key : string) (top : list (bytes * float)) : list (bytes * bytes) :=
  [(lit "name", strs fst top); (lit key, fixs snd top)].

Definition top_members (key : string) (top : list (bytes * float)) : list (bytes * json) :=
  [(lit "name", jstrs fst top); (lit key, jfixs snd top)].

Lemma top_json key top :
  clean (lit key) → top_good top → Forall2 field (top_fields key top) (top_members key top).
Proof.
  intros Hk H. unfold top_fields, top_members.
  repeat apply Forall2_cons_2; [|split; [done|split; [done|]]|constructor].
  - split; [solve_clean|]. split; [done|]. apply strs_value. eapply list.Forall_impl; [exact H|]. by intros x [].
  - apply fixs_value. eapply list.Forall_impl; [exact H|]. by intros x [].
Qed.

Record proc_good (x : proc_t) : Prop := {
  pg_name : clean (p_name x);
  pg_user : clean (p_user x);
  pg_count : is_u64 (p_count x);
  pg_cpu : f_plain (p_cpu x) = true;
  pg_mem : f_plain (p_mem x) = true
}.

Definition list_fields (xs : list proc_t) : list (bytes * bytes) :=
  [(lit "name", strs p_name xs); (lit "user", strs p_user xs); (lit "count", nums p_count xs);
   (lit "cpu", fixs p_cpu xs); (lit "mem", fixs p_mem xs)].

Definition list_members (xs : list proc_t) : list (bytes * json) :=
  [(lit "name", jstrs p_name xs); (lit "user", jstrs p_user xs); (lit "count", jnums p_count xs);
   (lit "cpu", jfixs p_cpu xs); (lit "mem", jfixs p_mem xs)].

Lemma list_json xs : Forall proc_good xs → Forall2 field (list_fields xs) (list_members xs).
Proof.
  intros H. unfold list_fields, list_members. solve_fields;
    (first [apply strs_value|apply nums_value|apply fixs_value]);
    (eapply list.Forall_impl; [exact H|]); by intros x [].
Qed.

(** What is printed for a section that may be empty. *)
Definition sect {A} (tag : string) (fields : list A → list (bytes * bytes)) (xs : list A)
    : list (bytes * bytes) :=
  if decide (xs = []) then [] else [(lit tag, obj_text (fields xs))].

(** The separator in front of the next section behind the sections [l]. *)
Definition sect_sep (l : list (bytes * bytes)) : bytes := if decide (l = []) then [] else lit ",".

Definition sect_code (l : list (bytes * bytes)) : Z := if decide (l = []) then ENODATA else ENONE.

Lemma cpu_top_prints top :
  prints (cpu_top_script top) (field_text (lit "cpu_top10", obj_text (top_fields "cpu" top))).
Proof. unfold cpu_top_script, top_fields. solve_prints. Qed.

Lemma mem_top_prints sep top :
  prints (mem_top_script sep top) (sep ++ field_text (lit "mem_top10", obj_text (top_fields "mem" top))).
Proof. unfold mem_top_script, top_fields. solve_prints. Qed.

Lemma proc_prints sep xs :
  Forall proc_good xs → prints (proc_script sep xs) (sep ++ field_text (lit "list", obj_text (list_fields xs))).
Proof.
  intros H. assert (Forall (λ x, is_u64 (p_count x)) xs).
  { eapply list.Forall_impl; [exact H|]. by intros x []. }
  unfold proc_script, list_fields. solve_prints.
Qed.

Definition of_ok {A} (r : res (list A)) : list A :=
  match r with
  | Ok l => l
  | _ => []
  end.

Definition top_of (s : bytes) : list (bytes * float) := of_ok (top_loop (S (length s)) s []).
Definition procs_of (s : bytes) : list proc_t := of_ok (proc_loop (S (length s)) s []).

(** The sections, in order; a command that cannot be run ends the list. *)
Definition proc_fields (e : os_env) : list (bytes * bytes) :=
  match popen e 0 TOP_CPU_CMD with
  | None => []
  | Some s =>
      sect "cpu_top10" (top_fields "cpu") (top_of s)
      ++ match popen e 0 TOP_MEM_CMD with
         | None => []
         | Some s =>
             sect "mem_top10" (top_fields "mem") (top_of s)
             ++ match popen e 0 PROC_CMD with
                | None => []
                | Some s => sect "list" list_fields (procs_of s)
                end
         end
  end.

Definition proc_clean (e : os_env) (_ : unit) : Prop :=
  (∀ s, popen e 0 TOP_CPU_CMD = Some s ∨ popen e 0 TOP_MEM_CMD = Some s →
    ∃ top, top_loop (S (length s)) s [] = Ok top ∧ top_good top)
  ∧ (∀ s, popen e 0 PROC_CMD = Some s →
      ∃ procs, proc_loop (S (length s)) s [] = Ok procs ∧ Forall proc_good procs).

(** The sections so far end with a brace. *)
Definition braced (l : list (bytes * bytes)) : Prop :=
  Forall (λ x, list.last x.2 = Some "}"%char) l.

Lemma fields_text_last l : braced l → l ≠ [] → list.last (fields_text l) = Some "}"%char.
Proof.
  intros Hb Hl. destruct (exists_last Hl) as (l' & x & ->). rewrite fields_text_snoc.
  apply Forall_app in Hb as [_ Hx]. apply list.Forall_cons in Hx as [Hx _].
  unfold field_text. rewrite !app_assoc, last_app_cons. rewrite last_cons, Hx. done.
Qed.

Lemma section_sep_ok p c l :
  holds p (c ++ fields_text l) → opened c → braced l → section_sep p = Ok (sect_sep l).
Proof.
  intros Hh Ho Hb. unfold section_sep, sect_sep.
  assert (c ++ fields_text l ≠ []) as Hne by (intros [-> _]%app_eq_nil; done).
  destruct (exists_last Hne) as (c' & x & E). rewrite E in Hh. rewrite (holds_last p c' x Hh). cbn [rbind].
  apply (f_equal list.last) in E. rewrite last_snoc, last_app in E. case_decide as Hl.
  - subst l. cbn in E. unfold opened in Ho. rewrite Ho in E. by injection E as <-.
  - rewrite (fields_text_last l Hb Hl) in E. by injection E as <-.
Qed.

Lemma sect_cases {A} tag (fields : list A → list (bytes * bytes)) xs :
  sect tag fields xs = [] ∧ xs = []
  ∨ sect tag fields xs = [(lit tag, obj_text (fields xs))] ∧ xs ≠ [].
Proof. unfold sect. case_decide; auto. Qed.

Lemma sect_braced {A} tag (fields : list A → list (bytes * bytes)) xs : braced (sect tag fields xs).
Proof.
  destruct (sect_cases tag fields xs) as [[-> _]|[-> _]]; [constructor|]. apply Forall_cons_2; [|constructor].
  unfold obj_text. simpl. by rewrite app_comm_cons, last_snoc.
Qed.

Lemma fields_text_add l x : fields_text (l ++ [x]) = fields_text l ++ sect_sep l ++ field_text x.
Proof. apply fields_text_snoc. Qed.

(** A section is added to those before it. *)
Lemma section_ok {A} p c l tag fields (xs : list A) say :
  holds p (c ++ fields_text l) → opened c → braced l →
  prints (say (sect_sep l)) (sect_sep l ++ field_text (lit tag, obj_text (fields xs))) →
  fits c (length (fields_text (l ++ sect tag fields xs))) →
  ∃ p', proc_section (sect_code l) p xs say = Ok (sect_code (l ++ sect tag fields xs), p')
        ∧ same_meta p p' ∧ holds p' (c ++ fields_text (l ++ sect tag fields xs)).
Proof.
  intros Hh Ho Hb Hp Hf. unfold proc_section.
  destruct (sect_cases tag fields xs) as [[E ->]|[E Hxs]]; rewrite E in *.
  { exists p. by rewrite app_nil_r. }
  rewrite decide_False by done. rewrite (section_sep_ok p c l Hh Ho Hb). cbn [rbind].
  rewrite fields_text_add in *.
  destruct (run_ok (say (sect_sep l)) _ p (c ++ fields_text l) Hp Hh) as (p' & -> & Hm & Hh').
  { unfold fits in *. rewrite !length_app in *. lia. }
  exists p'. cbn [rbind]. unfold sect_code. rewrite (decide_False (P := l ++ [_] = [])) by by destruct l.
  split; [done|]. split; [done|]. by rewrite app_assoc.
Qed.

Lemma cpu_section_ok p c top :
  holds p c → fits c (length (fields_text (sect "cpu_top10" (top_fields "cpu") top))) →
  ∃ p', (if decide (top = []) then Ok (ENODATA, p)
         else do p <- run p (cpu_top_script top); Ok (ENONE, p))
        = Ok (sect_code (sect "cpu_top10" (top_fields "cpu") top), p')
        ∧ same_meta p p' ∧ holds p' (c ++ fields_text (sect "cpu_top10" (top_fields "cpu") top)).
Proof.
  intros Hh Hf. unfold sect in *. case_decide.
  { exists p. by rewrite app_nil_r. }
  unfold fields_text in *. cbn [fmap list_fmap mjoin list_join] in *. rewrite app_nil_r in *.
  destruct (run_ok _ _ p c (cpu_top_prints top) Hh Hf) as (p' & -> & Hm & Hh').
  by exists p'.
Qed.

Lemma proc_run e p c :
  proc_clean e tt → holds p c → opened c → fits c (length (fields_text (proc_fields e))) →
  ∃ p', _os_gather_proc e tt p = Ok (sect_code (proc_fields e), tt, p') ∧ same_meta p p'
        ∧ holds p' (c ++ fields_text (proc_fields e)).
Proof.
  intros [Ht Hl] Hh Ho. unfold _os_gather_proc, proc_fields, top_of, procs_of.
  destruct (popen e 0 TOP_CPU_CMD) as [s1|] eqn:E1.
  2:{ intros _. exists p. by rewrite app_nil_r. }
  destruct (Ht s1) as (top1 & -> & _); [by left|]. cbn [rbind of_ok].
  set (l1 := sect "cpu_top10" (top_fields "cpu") top1). intros Hf.
  destruct (cpu_section_ok p c top1 Hh) as (p1 & -> & Hm1 & Hh1); [by apply fits_fields in Hf|].
  fold l1 in Hh1 |- *. cbn [rbind].
  destruct (popen e 0 TOP_MEM_CMD) as [s2|] eqn:E2.
  2:{ rewrite app_nil_r. by exists p1. }
  destruct (Ht s2) as (top2 & E & _); [by right|]. rewrite E in *. cbn [rbind of_ok] in *.
  rewrite app_assoc in Hf |- *.
  destruct (section_ok p1 c l1 "mem_top10" (top_fields "mem") top2 (λ sep, mem_top_script sep top2))
    as (p2 & -> & Hm2 & Hh2); [done|done|apply sect_braced|apply mem_top_prints|by apply fits_fields in Hf|].
  set (l2 := l1 ++ sect "mem_top10" _ top2) in *. cbn [rbind].
  assert (braced l2) by (apply Forall_app; split; apply sect_braced).
  assert (same_meta p p2) by (by rewrite Hm1).
  destruct (popen e 0 PROC_CMD) as [s3|] eqn:E3.
  2:{ rewrite app_nil_r. by exists p2. }
  destruct (Hl s3) as (procs & E' & Hp); [done|]. rewrite E' in *. cbn [rbind of_ok] in *.
  destruct (section_ok p2 c l2 "list" list_fields procs (λ sep, proc_script sep procs))
    as (p3 & -> & Hm3 & Hh3); [done|done|done|by apply proc_prints|done|].
  cbn [rbind]. exists p3. split; [done|]. split; [by etransitivity|done].
Qed.

#[export] Instance proc_gatherer : Gatherer _os_gather_proc.
Proof.
  apply (fields_gatherer _ proc_clean (λ e _, sect_code (proc_fields e)) (λ e _, proc_fields e)).
  - intros e [] p c. apply proc_run.
  - intros. unfold sect_code. by case_decide.
Defined.

Definition jsect {A} (tag : string) (members : list A → list (bytes * json)) (xs : list A)
    : list (bytes * json) :=
  if decide (xs = []) then [] else [(lit tag, JObj (members xs))].

Definition proc_members (e : os_env) : list (bytes * json) :=
  match popen e 0 TOP_CPU_CMD with
  | None => []
  | Some s =>
      jsect "cpu_top10" (top_members "cpu") (top_of s)
      ++ match popen e 0 TOP_MEM_CMD with
         | None => []
         | Some s =>
             jsect "mem_top10" (top_members "mem") (top_of s)
             ++ match popen e 0 PROC_CMD with
                | None => []
                | Some s => jsect "list" list_members (procs_of s)
                end
         end
  end.

Lemma sect_json {A} tag (fields : list A → _) members xs :
  clean (lit tag) → Forall2 field (fields xs) (members xs) →
  Forall2 field (sect tag fields xs) (jsect tag members xs).
Proof.
  intros Ht H. unfold sect, jsect. case_decide; [constructor|].
  apply Forall2_cons_2; [|constructor]. split; [done|]. split; [done|]. by apply obj_value.
Qed.

Lemma proc_json e : proc_clean e tt → Forall2 field (proc_fields e) (proc_members e).
Proof.
  intros [Ht Hl]. unfold proc_fields, proc_members, top_of, procs_of.
  destruct (popen e 0 TOP_CPU_CMD) as [s1|] eqn:E1; [|constructor].
  destruct (Ht s1) as (top1 & -> & H1); [by left|]. apply Forall2_app.
  { apply sect_json; [solve_clean|]. apply top_json; [solve_clean|done]. }
  destruct (popen e 0 TOP_MEM_CMD) as [s2|] eqn:E2; [|constructor].
  destruct (Ht s2) as (top2 & -> & H2); [by right|]. apply Forall2_app.
  { apply sect_json; [solve_clean|]. apply top_json; [solve_clean|done]. }
  destruct (popen e 0 PROC_CMD) as [s3|] eqn:E3; [|constructor].
  destruct (Hl s3) as (procs & -> & H3); [done|]. apply sect_json; [solve_clean|]. by apply list_json.
Qed.

#[export] Instance proc_json_gatherer : JsonGatherer _os_gather_proc.
Proof.
  split. intros e [] Hcl _. exists (proc_members e). by apply fields_members, proc_json.
Qed.

(** ** All five *)

#[export] Instance part_gatherer x : Gatherer (part_fn x).
Proof. destruct x; apply _. Defined.

(** The members a part prints. *)
Definition part_members (e : os_env) (_ : unit) (x : os_part) : list (bytes * json) :=
  match x with
  | Cpu => read_members (cpu_read e) cpu_members
  | Disk => read_members (disk_read e) disk_members
  | Proc_ => proc_members e
  | Mem => read_members (memory_read e) memory_members
  | Net_ => read_members (net_read e) net_members
  end.

(** The operands of [&] are 0 and 1, nothing changes the (empty) module. *)
#[export] Instance os_parts_laws : Parts part_tag part_fn part_members.
Proof.
  split.
  - intros []; solve_clean.
  - by intros [] e [].
  - intros x e m; destruct x; cbn; unfold read_code, sect_code; first [case_match; by auto|case_decide; by auto].
  - intros [] e []; [exact (report_members _ _ _ _ e cpu_json)|exact (report_members _ _ _ _ e disk_json)| |
      exact (report_members _ _ _ _ e memory_json)|exact (report_members _ _ _ _ e net_json)].
    intros H. by apply fields_members, proc_json.
Qed.

Definition os_clean (e : os_env) : Prop := ∀ x, g_clean (part_fn x) e tt.

(** The parts that have data, in the order of the calls. *)
Definition os_members (e : os_env) (order : list os_part) : list (bytes * json) :=
  parts_members part_tag part_fn part_members e tt order.

Abbreviation OsOrder := (Ordering os_parts).

Lemma os_gather_ok order `{!OsOrder order} e p c :
  os_clean e → holds p c → opened c → fits c (parts_need part_tag part_fn e tt os_parts) →
  ∃ p', os_gather order e tt p = Ok (parts_code part_fn e tt os_parts, tt, p') ∧ same_meta p p'
        ∧ holds p' (c ++ parts_text part_tag part_fn e tt order).
Proof. intros. by apply (gather_parts_order part_tag part_fn part_members os_parts). Qed.

#[export] Program Instance os_gatherer order `{!OsOrder order} : Gatherer (os_gather order) := {|
  g_clean := λ e _, os_clean e;
  g_code := λ e _, parts_code part_fn e tt os_parts;
  g_module := λ _ m, m;
  g_text := λ e _, parts_text part_tag part_fn e tt order;
  g_need := λ e _, parts_need part_tag part_fn e tt os_parts
|}.
Next Obligation.
  intros order Hord e [] p c Hcl Hh Ho Hf. destruct (os_gather_ok order e p c) as (p' & E & Hm & Hh'); [done..|].
  exists p'. split; [done|]. split; [done|]. case_decide; [done|]. by eapply keeps_app, holds_keeps.
Qed.
Next Obligation. intros. by apply parts_text_length. Qed.
Next Obligation. intros. apply parts_code_range. Qed.

#[export] Instance os_json order `{!OsOrder order} : JsonGatherer (os_gather order).
Proof.
  split. intros e [] Hcl _. exists (os_members e order).
  by apply (parts_text_members part_tag part_fn part_members).
Qed.
