(* ===== verification/OsReport.v ===== *)
(** What the plugin for Linux hosts reports: the tables of the kernel are read
    back exactly, the five functions make one object whatever the order of their
    calls, and every loop ends. *)
From Stdlib Require Import ZArith Ascii Lia SpecFloat.
From stdpp Require Import base list strings numbers.
From S2P Require Import Prelude.
From S2P Require Import Clib.
From S2P Require Import Scan.
From S2P Require Import Json.
From S2P Require Import Packet.
From S2P Require Import Report.
From S2P Require Import Parts.
From S2P Require Import Plugin.
From S2P Require Import Os.

Local Open Scope Z_scope.

(** * The table of network interfaces *)

(** A line of the table: the name, a colon, six numbers. *)
Definition net_line (x : net_t) : bytes :=
  n_name x ++ ":"%char :: nums_line [i_byte x; i_pckt x; i_err x; o_byte x; o_pckt x; o_err x] ++ [NL].

Definition net_table (ifs : list net_t) : bytes := mjoin (net_line <$> ifs).

(** A name an interface can have. *)
Record net_name (w : bytes) : Prop := {
  nn_word : word w;
  nn_colon : Forall (λ c, Ascii.eqb c ":"%char = false) w;
  nn_short : Z.of_nat (length w) < BFSZ
}.

Definition net_row (x : net_t) : Prop := net_good x ∧ net_name (n_name x).

Lemma net_table_head ifs c : Forall net_row ifs → head (net_table ifs) = Some c → is_space c = false.
Proof.
  destruct 1 as [|x ifs [_ [[Hne Hw] _ _]] _]; [done|].
  change (net_table (x :: ifs)) with (net_line x ++ net_table ifs). unfold net_line.
  destruct Hw as [|d w Hd _]; [done|]. by intros [= <-].
Qed.

Definition add_byte (f : net_t → Z) (acc : Z) (x : net_t) : Z := u64 (acc + f x).

(** One line of the table is one round of the loop. *)
Lemma net_loop_line fuel x ifs done i_tot o_tot :
  net_row x → Forall net_row ifs → (length done < 128)%nat →
  net_loop (S fuel) (net_table (x :: ifs)) done i_tot o_tot
  = net_loop fuel (net_table ifs) (done ++ [x]) (add_byte i_byte i_tot x) (add_byte o_byte o_tot x).
Proof.
  intros [[] [[Hne Hw] Hc Hl]] Hifs Hd. cbn [net_loop].
  change (net_table (x :: ifs)) with (net_line x ++ net_table ifs). unfold net_line.
  rewrite <- app_assoc. rewrite scan_set_app; [| |by intros c [= <-]|unfold BFSZ in Hl; lia|done].
  2:{ eapply list.Forall_impl; [exact Hc|]. by intros c ->. }
  rewrite store_str_ok by done. cbn [rbind scan_char app].
  change (Ascii.eqb ":" ":") with true. cbn [from_option id].
  rewrite <- app_assoc. change 6%nat with (length [i_byte x; i_pckt x; i_err x; o_byte x; o_pckt x; o_err x]).
  rewrite scan_llus_line; [|by repeat first [apply Forall_nil_2|apply Forall_cons_2]|by intros c [= <-]].
  cbn [app skip_space]. change (is_space NL) with true. cbv iota.
  rewrite skip_space_id by (intros; by eapply net_table_head). by destruct x.
Qed.

Lemma net_loop_table ifs done i_tot o_tot fuel :
  Forall net_row ifs → (length done + length ifs ≤ 128)%nat → (length ifs < fuel)%nat →
  net_loop fuel (net_table ifs) done i_tot o_tot
  = Ok (done ++ ifs, foldl (add_byte i_byte) i_tot ifs, foldl (add_byte o_byte) o_tot ifs).
Proof.
  intros H. revert done i_tot o_tot fuel. induction H as [|x ifs Hx Hifs IH]; intros done i_tot o_tot fuel Hl Hf;
    (destruct fuel as [|fuel]; [simpl in *; lia|]); cbn [length] in *.
  { by rewrite app_nil_r. }
  rewrite net_loop_line by (done || lia). rewrite IH by (rewrite ?length_app; simpl; lia).
  by rewrite <- app_assoc.
Qed.

Lemma net_table_length ifs : (length ifs ≤ length (net_table ifs))%nat.
Proof.
  induction ifs as [|x ifs IH]; [done|].
  change (net_table (x :: ifs)) with (net_line x ++ net_table ifs). rewrite length_app.
  unfold net_line. rewrite length_app. simpl. lia.
Qed.

(** The sum over the table, modulo 2^64. *)
Definition total (f : net_t → Z) (ifs : list net_t) : Z := u64 (foldr (λ x a, f x + a) 0 ifs).

Lemma add_bytes_total f ifs acc :
  foldl (add_byte f) (u64 acc) ifs = u64 (acc + foldr (λ x a, f x + a) 0 ifs).
Proof.
  revert acc. induction ifs as [|x ifs IH]; intros acc; cbn [foldl foldr]; [by rewrite Z.add_0_r|].
  unfold add_byte at 2. assert (u64 (u64 acc + f x) = u64 (acc + f x)) as ->.
  { unfold u64. by rewrite Zplus_mod_idemp_l. }
  rewrite IH. f_equal. lia.
Qed.

Lemma net_read_table e ifs :
  popen e 0 NET_CMD = Some (net_table ifs) → ifs ≠ [] → (length ifs ≤ 128)%nat → Forall net_row ifs →
  net_read e = Ok (Some (ifs, total i_byte ifs, total o_byte ifs)).
Proof.
  intros E Hne Hl H. unfold net_read. rewrite E.
  rewrite net_loop_table; [|done|done|pose proof (net_table_length ifs); lia].
  cbn [rbind fst app]. rewrite decide_False by done. do 3 f_equal; [f_equal|];
    apply (add_bytes_total _ ifs 0).
Qed.

(** C23. The network function reports exactly the table of the kernel: a line per
    interface, up to 128 of them, becomes an element of each array, in order, and
    the totals are the sums modulo 2^64. *)
Theorem network_reports e ifs p c :
  popen e 0 NET_CMD = Some (net_table ifs) → ifs ≠ [] → (length ifs ≤ 128)%nat → Forall net_row ifs →
  holds p c → opened c → fits c (g_need _os_gather_network e tt) →
  ∃ p' s, _os_gather_network e tt p = Ok (ENONE, tt, p') ∧ same_meta p p' ∧ holds p' (c ++ s)
    ∧ members s
        [(lit "name", jstrs n_name ifs);
         (lit "i_byte", jnums i_byte ifs); (lit "o_byte", jnums o_byte ifs);
         (lit "i_pckt", jnums i_pckt ifs); (lit "o_pckt", jnums o_pckt ifs);
         (lit "i_err", jnums i_err ifs); (lit "o_err", jnums o_err ifs);
         (lit "i_tot", JInt (total i_byte ifs)); (lit "o_tot", JInt (total o_byte ifs))].
Proof.
  intros E Hne Hl H Hh Ho Hf. pose proof (net_read_table e ifs E Hne Hl H) as Er.
  assert (nets_good (ifs, total i_byte ifs, total o_byte ifs)) as Hg.
  { split; [|split; apply u64_range]. eapply list.Forall_impl; [exact H|]. by intros x []. }
  exact (report_ok _ _ _ _ _ e _ p c net_prints net_json Er Hg Hh Hf).
Qed.

(** * The table of mounts *)

(** A mounted partition with all the system says about it; [k_stat] are the seven
    numbers of /proc/diskstats. *)
Record disk_row := DiskRow {
  k_name : bytes;
  k_num : Z;
  k_mount : bytes;
  k_vfs : statvfs_t;
  k_sector : Z;
  k_stat : list Z
}.

Definition mount_line (x : disk_row) : bytes :=
  sh "/dev/" ++ k_name x ++ dec (k_num x) ++ " "%char :: k_mount x ++ [NL].

Definition mount_table (rows : list disk_row) : bytes := mjoin (mount_line <$> rows).

(** A partition [<name without digits><number>]. *)
Record mount_row (x : disk_row) : Prop := {
  mr_name : k_name x ≠ [];
  mr_letters : Forall (λ c, is_digit c = false) (k_name x);
  mr_short : Z.of_nat (length (k_name x)) < BFSZ;
  mr_clean : clean (k_name x);
  mr_num : 0 ≤ k_num x < 2 ^ 16;
  mr_mount : word (k_mount x);
  mr_mount_short : Z.of_nat (length (k_mount x)) < BFSZ;
  mr_mount_clean : clean (k_mount x);
  mr_sector : is_u64 (k_sector x);
  mr_stat : Forall is_u64 (k_stat x) ∧ length (k_stat x) = 7%nat
}.

(** What the calls of round [t] are answered. *)
Record answers (e : os_env) (t : nat) (x : disk_row) : Prop := {
  an_vfs : statvfs e t (k_mount x) = Some (k_vfs x);
  an_sector : fopen e t (sector_path (k_name x)) = Some (dec (k_sector x) ++ [NL]);
  an_stat : popen e t (diskstat_cmd (k_name x) (k_num x)) = Some (listed " "%char (k_stat x))
}.

Definition kb (blocks bytes_each : Z) : Z := u64 (blocks * bytes_each) / BPKB.

(** The element of [dev] for a row, the transfers converted from sectors to kB. *)
Definition dev_of (x : disk_row) : dev_t :=
  Dev (k_name x) (k_num x) (k_mount x)
    (kb (f_blocks (k_vfs x)) (f_frsize (k_vfs x)))
    (kb (f_bfree (k_vfs x)) (f_bsize (k_vfs x)))
    (kb (f_bavail (k_vfs x)) (f_bsize (k_vfs x)))
    (match k_stat x with
     | [r; rs; rt; w; ws; wt; weight] => [r; kb rs (k_sector x); rt; w; kb ws (k_sector x); wt; weight]
     | vs => vs
     end).

Definition row_stat (i : nat) (x : disk_row) : Z := nth i (k_stat x) 0.

Definition io_of (x : disk_row) : Z := row_stat 0 x + row_stat 3 x.

Definition add_io (acc : Z) (x : disk_row) : Z := u64 (acc + u64 (io_of x)).

Lemma mount_table_head rows c : head (mount_table rows) = Some c → is_space c = false.
Proof. destruct rows as [|x rows]; [done|]. by intros [= <-]. Qed.

Lemma scan_lit_app l r : scan_lit l (l ++ r) = Some r.
Proof. induction l as [|c l IH]; [done|]. simpl. by rewrite Ascii.eqb_refl. Qed.

Lemma dec_head n c r : 0 ≤ n → head (dec n ++ r) = Some c → is_digit c = true.
Proof.
  intros Hn. pose proof (ds_nonempty _ _ (dec_ok n Hn)). destruct (dec_digits n Hn) as [|d ds Hd _]; [done|].
  by intros [= <-].
Qed.

Lemma scan_hu_dec v r :
  0 ≤ v < 2 ^ 16 → (∀ c, head r = Some c → is_digit c = false) → scan_hu (dec v ++ r) = Some (v, r).
Proof.
  intros Hv Hr. unfold scan_hu. rewrite scan_llu_dec; [|unfold is_u64; lia|done].
  cbn. unfold u16. by rewrite Z.mod_small.
Qed.

Lemma mount_scan_line k x rows :
  (k < 128)%nat → mount_row x →
  mount_scan k (mount_table (x :: rows)) = Ok (Some (k_name x, k_num x, k_mount x, mount_table rows)).
Proof.
  intros Hk []. unfold mount_scan. change (mount_table (x :: rows)) with (mount_line x ++ mount_table rows).
  unfold mount_line. rewrite <- !app_assoc, <- app_comm_cons, <- !app_assoc, scan_lit_app. cbn [mbind option_bind].
  rewrite scan_set_app; [| | |unfold BFSZ in *; lia|done].
  2:{ eapply list.Forall_impl; [exact mr_letters0|]. by intros c ->. }
  2:{ intros c Hc%dec_head; [by rewrite Hc|lia]. }
  rewrite store_str_ok by done. cbn [rbind].
  rewrite scan_hu_dec; [|done|by intros c [= <-]]. cbn [mbind option_bind].
  rewrite scan_str_word; [|done|unfold BFSZ in *; lia|by intros c [= <-]]. cbn [mbind option_bind].
  rewrite store_str_ok by done. cbn [rbind app skip_space]. change (is_space NL) with true. cbv iota.
  by rewrite skip_space_id by apply mount_table_head.
Qed.

Lemma disk_round_row e t io x :
  answers e t x → mount_row x →
  disk_round e t io (k_name x) (k_num x) (k_mount x) = Some (dev_of x, add_io io x).
Proof.
  intros [E1 E2 E3] []. unfold disk_round. rewrite E1. cbn [mbind option_bind]. rewrite E2. cbn [mbind option_bind].
  rewrite scan_llu_dec; [|done|by intros c [= <-]]. cbn [mbind option_bind]. rewrite E3. cbn [mbind option_bind].
  destruct mr_stat0 as [Hs Hl]. unfold diskstat, add_io, io_of, row_stat, dev_of, kb.
  rewrite (scan_llus_some 7 _ (k_stat x) [NL]).
  - destruct x as [? ? ? ? ? vs]. cbn [d_stat k_stat] in *. list7 vs.
  - rewrite <- Hl. by apply scan_llus_listed.
Qed.

Lemma disk_loop_table e rows t devs io fuel :
  (∀ i x, rows !! i = Some x → answers e (t + i) x) → Forall mount_row rows →
  (length devs + length rows ≤ 128)%nat → (length rows < fuel)%nat →
  disk_loop fuel e t (mount_table rows) devs io = Ok (devs ++ (dev_of <$> rows), foldl add_io io rows).
Proof.
  revert t devs io fuel. induction rows as [|x rows IH]; intros t devs io fuel Ha Hr Hl Hf;
    (destruct fuel as [|fuel]; [simpl in *; lia|]); cbn [length] in *.
  { simpl. by rewrite app_nil_r. }
  apply list.Forall_cons in Hr as [Hx Hr]. cbn [disk_loop]. rewrite mount_scan_line by (done || lia).
  cbn [rbind]. rewrite disk_round_row; [|rewrite <- (Nat.add_0_r t); by apply Ha|done].
  rewrite IH; [by rewrite fmap_cons, <- app_assoc| |done|rewrite length_app; simpl; lia|lia].
  intros i y Hy. replace (S t + i)%nat with (t + S i)%nat by lia. by apply Ha.
Qed.

Lemma kb_u64 a b : is_u64 (kb a b).
Proof.
  unfold kb, BPKB, is_u64. pose proof (u64_range (a * b)) as [H1 H2]. split; [apply Z.div_pos; lia|].
  eapply Z.le_lt_trans; [|exact H2]. apply Z.div_le_upper_bound; lia.
Qed.

Lemma dev_of_good x : mount_row x → dev_good (dev_of x).
Proof.
  intros []. destruct x as [? ? ? ? ? vs]. split; try done; try apply kb_u64.
  destruct mr_stat0 as [Hs Hl]. unfold dev_of. cbn [d_stat k_stat k_sector] in *. list7 vs.
  rewrite !list.Forall_cons in Hs. destruct Hs as (? & ? & ? & ? & ? & ? & ? & _).
  repeat first [apply Forall_nil_2|apply Forall_cons_2]; first [done|apply kb_u64].
Qed.

Lemma dev_of_seven rows :
  Forall mount_row rows → forallb (λ d, Nat.eqb (length (d_stat d)) 7) (dev_of <$> rows) = true.
Proof.
  intros H. apply List.forallb_forall. intros d Hd. apply list_elem_of_In, list_elem_of_fmap in Hd as (x & -> & Hx).
  apply (proj1 (list.Forall_forall _ _) H) in Hx as []. destruct mr_stat0 as [_ Hl].
  destruct x as [? ? ? ? ? vs]. cbn [k_stat] in *. unfold dev_of. cbn [d_stat k_stat]. list7 vs.
Qed.

Lemma mount_table_length rows : (length rows ≤ length (mount_table rows))%nat.
Proof.
  induction rows as [|x rows IH]; [done|].
  change (mount_table (x :: rows)) with (mount_line x ++ mount_table rows). rewrite length_app.
  unfold mount_line. rewrite length_app. change (length (sh "/dev/")) with 5%nat. simpl. lia.
Qed.

Definition io_total (rows : list disk_row) : Z := u64 (foldr (λ x a, io_of x + a) 0 rows).

Lemma add_io_total rows acc :
  foldl add_io (u64 acc) rows = u64 (acc + foldr (λ x a, io_of x + a) 0 rows).
Proof.
  revert acc. induction rows as [|x rows IH]; intros acc; cbn [foldl foldr]; [by rewrite Z.add_0_r|].
  unfold add_io at 2. assert (u64 (u64 acc + u64 (io_of x)) = u64 (acc + io_of x)) as ->.
  { unfold u64. by rewrite <- Zplus_mod. }
  rewrite IH. f_equal. lia.
Qed.

Lemma disk_read_table e rows :
  popen e 0 MOUNTS_CMD = Some (mount_table rows) → (∀ i x, rows !! i = Some x → answers e (S i) x) →
  rows ≠ [] → (length rows ≤ 128)%nat → Forall mount_row rows →
  disk_read e = Ok (Some (dev_of <$> rows, io_total rows)).
Proof.
  intros E Ha Hne Hl H. unfold disk_read. rewrite E.
  rewrite (disk_loop_table e rows); [|done|done|done|pose proof (mount_table_length rows); lia].
  cbn [rbind fst app]. rewrite decide_False by (by destruct rows). rewrite dev_of_seven by done.
  do 3 f_equal. apply (add_io_total rows 0).
Qed.

Lemma jnums_rows f g rows :
  Forall mount_row rows → (∀ x, mount_row x → f (dev_of x) = g x) →
  jnums f (dev_of <$> rows) = jnums g rows.
Proof.
  intros H Hfg. unfold jnums. rewrite <- list_fmap_compose. f_equal. apply list_fmap_ext.
  intros i x Hx. cbn. f_equal. apply Hfg. by eapply Forall_lookup_1.
Qed.

Lemma dev_of_stat i x :
  mount_row x →
  stat i (dev_of x) = if decide (i = 1 ∨ i = 4)%nat then kb (row_stat i x) (k_sector x) else row_stat i x.
Proof.
  intros []. destruct mr_stat0 as [_ Hl]. destruct x as [? ? ? ? ? vs]. unfold stat, dev_of, row_stat.
  cbn [d_stat k_stat k_sector] in *. list7 vs. by do 7 (destruct i as [|i]; [done|]).
Qed.

(** The members in terms of the rows. *)
Definition row_members (rows : list disk_row) : list (bytes * json) :=
  [(lit "name", jstrs (λ x, k_name x ++ dec (k_num x) ++ lit "(" ++ k_mount x ++ lit ")") rows);
   (lit "tot", jnums (λ x, kb (f_blocks (k_vfs x)) (f_frsize (k_vfs x))) rows);
   (lit "free", jnums (λ x, kb (f_bfree (k_vfs x)) (f_bsize (k_vfs x))) rows);
   (lit "avail", jnums (λ x, kb (f_bavail (k_vfs x)) (f_bsize (k_vfs x))) rows);
   (lit "r", jnums (row_stat 0) rows);
   (lit "rsec", jnums (λ x, kb (row_stat 1 x) (k_sector x)) rows);
   (lit "rt", jnums (row_stat 2) rows); (lit "w", jnums (row_stat 3) rows);
   (lit "wsec", jnums (λ x, kb (row_stat 4 x) (k_sector x)) rows);
   (lit "wt", jnums (row_stat 5) rows); (lit "weight", jnums (row_stat 6) rows);
   (lit "io_tot", JInt (io_total rows))].

Lemma disk_members_rows rows :
  Forall mount_row rows → disk_members (dev_of <$> rows, io_total rows) = row_members rows.
Proof.
  intros H. unfold disk_members, row_members.
  rewrite !(jnums_rows (stat _) _ rows H (dev_of_stat _)), !(jnums_rows _ _ rows H (λ _ _, eq_refl)).
  unfold jstrs. by rewrite <- list_fmap_compose.
Qed.

(** The disk function reports every mounted partition with what the system says
    about it: sizes and transfers in kB (modulo 2^64 before the division), and
    the total of its operations. *)
Theorem disk_reports e rows p c :
  popen e 0 MOUNTS_CMD = Some (mount_table rows) → (∀ i x, rows !! i = Some x → answers e (S i) x) →
  rows ≠ [] → (length rows ≤ 128)%nat → Forall mount_row rows →
  holds p c → opened c → fits c (g_need _os_gather_disk e tt) →
  ∃ p' s, _os_gather_disk e tt p = Ok (ENONE, tt, p') ∧ same_meta p p' ∧ holds p' (c ++ s)
    ∧ members s (row_members rows).
Proof.
  intros E Ha Hne Hl H Hh Ho Hf. pose proof (disk_read_table e rows E Ha Hne Hl H) as Er.
  assert (disk_good (dev_of <$> rows, io_total rows)) as Hg.
  { split; [|apply u64_range]. apply list.Forall_fmap. eapply list.Forall_impl; [exact H|]. apply dev_of_good. }
  rewrite <- (disk_members_rows rows H).
  exact (report_ok _ _ _ _ _ e _ p c disk_prints disk_json Er Hg Hh Hf).
Qed.

(** * Every loop ends *)

Lemma mount_scan_ends k s : ends (mount_scan k s).
Proof.
  unfold mount_scan. destruct (scan_lit _ s ≫= _) as [[name s1]|]; [|done].
  apply ends_bind; [auto with ends|]. intros _ _. case_match; [|done]. repeat case_match.
  apply ends_bind; auto with ends.
Qed.

(** A line that was read is not there to be read again. *)
Lemma mount_scan_shorter k s name num mount r :
  mount_scan k s = Ok (Some (name, num, mount, r)) → (length r < length s)%nat.
Proof.
  unfold mount_scan. destruct (scan_lit _ s) as [s0|] eqn:E0; [|done]. cbn [mbind option_bind].
  destruct (scan_set _ _ s0) as [[nm s1]|] eqn:E1; [|done].
  destruct (store_str k 128 nm); [|done..]. cbn [rbind].
  destruct (scan_hu s1) as [[n s2]|] eqn:E2; [|done]. cbn [mbind option_bind].
  destruct (scan_str 128 s2) as [[mt s3]|] eqn:E3; [|done]. cbn [mbind option_bind].
  destruct (store_str k 128 mt); [|done..]. intros [= <- <- <- <-].
  apply scan_lit_length in E0. apply scan_set_length in E1. apply scan_str_length in E3.
  unfold scan_hu in E2. destruct (scan_llu s1) as [[v s2']|] eqn:E; [|done]. cbn in E2.
  injection E2 as _ <-. apply scan_llu_length in E. pose proof (skip_space_length s3). lia.
Qed.

Lemma disk_loop_ends fuel e t s devs io : (length s < fuel)%nat → ends (disk_loop fuel e t s devs io).
Proof.
  revert t s devs io. induction fuel as [|fuel IH]; intros t s devs io Hf; [lia|].
  apply ends_bind; [apply mount_scan_ends|]. intros [[[[name num] mount] r]|] E; [|done].
  apply mount_scan_shorter in E. repeat case_match; apply IH; lia.
Qed.

Lemma top_loop_ends fuel s top : (length s < fuel)%nat → ends (top_loop fuel s top).
Proof.
  revert s top. induction fuel as [|fuel IH]; intros s top Hf; [lia|]. cbn [top_loop].
  destruct (scan_str 128 s) as [[name s1]|] eqn:E1; [|done]. apply ends_bind; [auto with ends|]. intros _ _.
  destruct (scan_f s1) as [[x s2]|] eqn:E2; [|done].
  apply scan_str_length in E1. apply scan_f_length in E2. pose proof (skip_space_length s2). apply IH. lia.
Qed.

Lemma proc_loop_ends fuel s procs : (length s < fuel)%nat → ends (proc_loop fuel s procs).
Proof.
  revert s procs. induction fuel as [|fuel IH]; intros s procs Hf; [lia|]. cbn [proc_loop].
  destruct (scan_str 128 s) as [[name s1]|] eqn:E1; [|done]. apply ends_bind; [auto with ends|]. intros _ _.
  destruct (scan_str 128 s1) as [[user s2]|] eqn:E2; [|done]. apply ends_bind; [auto with ends|]. intros _ _.
  destruct (scan_llu s2) as [[n s3]|] eqn:E3; [|done]. cbn [mbind option_bind].
  destruct (scan_f s3) as [[x s4]|] eqn:E4; [|done]. cbn [mbind option_bind].
  destruct (scan_f s4) as [[y s5]|] eqn:E5; [|done]. cbn [mbind option_bind].
  apply scan_str_length in E1, E2. apply scan_llu_length in E3. apply scan_f_length in E4, E5. apply IH. lia.
Qed.

Lemma net_loop_ends fuel s ifs i o : (length s < fuel)%nat → ends (net_loop fuel s ifs i o).
Proof.
  revert s ifs i o. induction fuel as [|fuel IH]; intros s ifs i o Hf; [lia|]. cbn [net_loop].
  destruct (scan_set _ _ s) as [[name s1]|] eqn:E1; [|done]. apply ends_bind; [auto with ends|]. intros _ _.
  assert (length (default s1 (scan_char ":"%char s1)) ≤ length s1)%nat as Hd.
  { destruct (scan_char _ s1) eqn:E; [by eapply scan_char_length|done]. }
  destruct (scan_llus 6 _) as [[vs s2]|] eqn:E2; [|done].
  apply scan_set_length in E1. apply scan_llus_length in E2. pose proof (skip_space_length s2).
  repeat (case_match; try done). apply IH. lia.
Qed.

Lemma section_ends {A} z p (xs : list A) say : ends (proc_section z p xs say).
Proof.
  unfold proc_section. case_decide; [done|]. apply ends_bind; [|intros sep _; apply ends_bind; auto with ends].
  unfold section_sep. apply ends_bind; auto with ends.
Qed.

#[export] Hint Resolve section_ends top_loop_ends proc_loop_ends : ends.

Lemma proc_ends e m p : ends (_os_gather_proc e m p).
Proof.
  unfold _os_gather_proc. case_match; [|done]. apply ends_bind; [auto with ends|]. intros top _.
  apply ends_bind; [case_decide; [done|apply ends_bind; auto with ends]|]. intros [z q] _.
  case_match; [|done]. apply ends_bind; [auto with ends|]. intros top' _.
  apply ends_bind; [auto with ends|]. intros [z' q'] _.
  case_match; [|done]. apply ends_bind; [auto with ends|]. intros procs _.
  apply ends_bind; [auto with ends|]. by intros [z'' q''] _.
Qed.

Lemma part_ends x e m p : ends (part_fn x e m p).
Proof.
  destruct x; [by apply report_ends|apply report_ends|apply proc_ends|by apply report_ends|apply report_ends].
  - unfold disk_read. case_match; [|done]. apply ends_bind; [apply disk_loop_ends; lia|].
    intros a _. by repeat case_match.
  - unfold net_read. case_match; [|done]. apply ends_bind; [apply net_loop_ends; lia|].
    intros a _. by case_decide.
Qed.

(** C27. Whatever the commands print and the packet holds, in whatever order the
    five functions are called: gathering always comes to an end, since every
    round of a loop consumes input. *)
Theorem os_gather_terminates order e m p : os_gather order e m p ≠ Spins.
Proof.
  unfold os_gather. apply gather_parts_ends. intros. apply part_ends.
Qed.

(** * The whole sample *)

(** C22. [os_gather] in any order of evaluation: it returns ENODATA exactly when no
    part has data, and otherwise appends one object member per part that has,
    in the order of the calls.  Two orders give the same members up to a
    permutation. *)
Theorem os_gather_reports order e p c :
  order ≡ₚ os_parts → os_clean e → holds p c → opened c → fits c (parts_need part_tag part_fn e tt os_parts) →
  ∃ p' s kvs, os_gather order e tt p
      = Ok (if forallb (λ x, g_code (part_fn x) e tt =? ENODATA) os_parts then ENODATA else ENONE, tt, p')
    ∧ same_meta p p' ∧ holds p' (c ++ s) ∧ members s kvs
    ∧ kvs = omap (λ x, if decide (g_code (part_fn x) e tt = ENONE)
                       then Some (lit (part_tag x), JObj (part_members e tt x)) else None) order
    ∧ kvs ≡ₚ os_members e os_parts.
Proof.
  intros Hord Hcl Hh Ho Hf. assert (OsOrder order) by done.
  destruct (os_gather_ok order e p c) as (p' & E & Hm & Hh'); [done..|].
  exists p', (parts_text part_tag part_fn e tt order), (os_members e order). split; [done|]. split; [done|]. split; [done|].
  split; [by apply (parts_text_members part_tag part_fn part_members)|].
  split; [done|]. unfold os_members, parts_members. by rewrite Hord.
Qed.

(** ** A host *)

Definition lo : net_t := Net (lit "lo") 59971938 12500 0 59971938 12500 0.
Definition sda1 : disk_row :=
  DiskRow (lit "sda") 1 (lit "/") (Vfs 1000000 4096 500000 4096 400000) 512 [10; 2048; 3; 20; 4096; 5; 6].

(** Its answers; every other command prints nothing. *)
Definition host : os_env := {|
  popen := λ _ cmd,
    Some (if decide (cmd = CPU_CMD) then lit "0.01 0.02 0.97" ++ [NL]
          else if decide (cmd = MOUNTS_CMD) then mount_table [sda1]
          else if decide (cmd = diskstat_cmd (lit "sda") 1) then listed " "%char (k_stat sda1)
          else if decide (cmd = TOP_CPU_CMD) then lit "Xorg 0.9" ++ NL :: lit "bash 0.5" ++ [NL]
          else if decide (cmd = PROC_CMD) then lit "Xorg root 1 0.9 1.5" ++ [NL]
          else if decide (cmd = MEM_CMD) then listed NL [2048; 88; 1136; 901; 641; 34359738367; 6880]
          else if decide (cmd = NET_CMD) then net_table [lo]
          else []);
  fopen := λ _ path,
    if decide (path = sector_path (lit "sda")) then Some (dec 512 ++ [NL]) else None;
  statvfs := λ _ _, Some (k_vfs sda1)
|}.

Lemma lo_row : net_row lo.
Proof.
  split; [split; first [solve_clean|unfold is_u64; cbn; lia]|].
  split; [|solve_clean|by vm_compute]. split; [done|solve_clean].
Qed.

Lemma sda1_row : mount_row sda1.
Proof.
  split; first [solve_clean|by vm_compute].
Qed.

Lemma network_reports_witness :
  ∃ p p' s, _os_gather_network host tt p = Ok (ENONE, tt, p') ∧ holds p' (lit "{" ++ s)
    ∧ members s
        [(lit "name", jstrs n_name [lo]);
         (lit "i_byte", jnums i_byte [lo]); (lit "o_byte", jnums o_byte [lo]);
         (lit "i_pckt", jnums i_pckt [lo]); (lit "o_pckt", jnums o_pckt [lo]);
         (lit "i_err", jnums i_err [lo]); (lit "o_err", jnums o_err [lo]);
         (lit "i_tot", JInt (total i_byte [lo])); (lit "o_tot", JInt (total o_byte [lo]))].
Proof.
  destruct (opened_packet (g_need _os_gather_network host tt)) as (p & _ & Hh & Ho & Hf); [by vm_compute|].
  destruct (network_reports host [lo] p (lit "{")) as (p' & s & E & _ & Hh' & Hs);
    [by vm_compute|done|simpl; lia|apply Forall_cons_2; [apply lo_row|apply Forall_nil_2]|done|done|done|].
  exists p, p', s. exact (conj E (conj Hh' Hs)).
Defined.

Lemma disk_reports_witness :
  ∃ p p' s, _os_gather_disk host tt p = Ok (ENONE, tt, p') ∧ holds p' (lit "{" ++ s)
    ∧ members s (row_members [sda1]).
Proof.
  destruct (opened_packet (g_need _os_gather_disk host tt)) as (p & _ & Hh & Ho & Hf); [by vm_compute|].
  destruct (disk_reports host [sda1] p (lit "{")) as (p' & s & E & _ & Hh' & Hs);
    [by vm_compute| |done|simpl; lia|apply Forall_cons_2; [apply sda1_row|apply Forall_nil_2]|done|done|done|].
  { intros [|i] x [= <-]. by split; vm_compute. }
  exists p, p', s. exact (conj E (conj Hh' Hs)).
Defined.

Lemma host_clean : os_clean host.
Proof.
  intros x. assert (∀ A (read : os_env → res (option A)) good a, read host = Ok (Some a) → good a → read_clean read good host tt) as H.
  { intros A read good a E Ha. unfold read_clean. by rewrite E. }
  destruct x.
  - eapply H; [by vm_compute|]. by vm_compute.
  - eapply H; [by apply (disk_read_table host [sda1]); [by vm_compute|intros [|i] x [= <-]; by split; vm_compute|done|simpl; lia|
      apply Forall_cons_2; [apply sda1_row|apply Forall_nil_2]]|].
    split; [|apply u64_range]. apply Forall_cons_2; [apply dev_of_good, sda1_row|apply Forall_nil_2].
  - split.
    + intros s [E|E]; vm_compute in E; injection E as <-; (eexists; split; [by vm_compute|]);
        repeat first [apply Forall_nil_2|apply Forall_cons_2]; (split; [solve_clean|by vm_compute]).
    + intros s E. vm_compute in E. injection E as <-. eexists. split; [by vm_compute|].
      apply Forall_cons_2; [|apply Forall_nil_2]. split; first [solve_clean|by vm_compute].
  - eapply H; [by vm_compute|]. split; [|by vm_compute].
    repeat first [apply Forall_nil_2|apply Forall_cons_2]; by vm_compute.
  - eapply H; [by apply (net_read_table host [lo]); [by vm_compute|done|simpl; lia|apply Forall_cons_2; [apply lo_row|apply Forall_nil_2]]|].
    split; [|split; apply u64_range]. apply Forall_cons_2; [apply lo_row|apply Forall_nil_2].
Qed.

Lemma os_gather_reports_witness :
  ∃ p p' s kvs, os_gather [Net_; Mem; Proc_; Disk; Cpu] host tt p = Ok (ENONE, tt, p')
    ∧ holds p' (lit "{" ++ s) ∧ members s kvs ∧ kvs ≡ₚ os_members host os_parts.
Proof.
  destruct (opened_packet (parts_need part_tag part_fn host tt os_parts)) as (p & _ & Hh & Ho & Hf); [by vm_compute|].
  destruct (os_gather_reports [Net_; Mem; Proc_; Disk; Cpu] host p (lit "{"))
    as (p' & s & kvs & E & _ & Hh' & Hs & _ & Hp); [|apply host_clean|exact Hh|exact Ho|exact Hf|].
  { exact (Permutation_sym (Permutation_rev os_parts)). }
  exists p, p', s, kvs.
  assert ((if forallb (λ x, g_code (part_fn x) host tt =? ENODATA) os_parts then ENODATA else ENONE) = ENONE) as Ez
    by (by vm_compute).
  rewrite Ez in E. exact (conj E (conj Hh' (conj Hs Hp))).
Defined.

(** * Single functions *)

(** The memory function: with the seven numbers of the kernel, one per line,
    it reports what is in use by programs and by the system.  When the parts do
    not exceed the whole, no difference wraps. *)
Theorem memory_reports e total free cached active inactive system v_total v_used p c :
  total = free + active + inactive + system → 0 ≤ system → is_u64 total →
  Forall is_u64 [free; cached; active; inactive; v_total; v_used] →
  f_plain (memory_ratio v_total v_used) = true →
  popen e 0 MEM_CMD = Some (listed NL [total; free; cached; active; inactive; v_total; v_used]) →
  holds p c → opened c → fits c (g_need _os_gather_memory e tt) →
  ∃ p' s, _os_gather_memory e tt p = Ok (ENONE, tt, p') ∧ same_meta p p' ∧ holds p' (c ++ s)
    ∧ members s
        [(lit "total", JInt total); (lit "free", JInt free); (lit "cached", JInt cached);
         (lit "user", JInt (active + inactive)); (lit "sys", JInt system);
         (lit "virtual", JDec (units 2 (memory_ratio v_total v_used)) 2)].
Proof.
  intros Ht Hs Htu Hu Hr E Hh Ho Hf. set (vs := [total; free; cached; active; inactive; v_total; v_used]) in *.
  assert (Forall is_u64 vs) as Hvs by (by apply Forall_cons_2).
  assert (memory_read e = Ok (Some vs)) as Er.
  { unfold memory_read. rewrite E. cbn [mbind option_bind].
    change 7%nat with (length vs). by rewrite (scan_llus_listed NL vs). }
  assert (memory_good vs) as Hg by done.
  destruct (report_ok _ _ _ _ _ e _ p c memory_prints memory_json Er Hg Hh Hf) as (p' & s & E' & Hm & Hh' & Hj).
  exists p', s. split; [exact E'|]. split; [exact Hm|]. split; [exact Hh'|].
  unfold memory_members, vs in Hj. rewrite !list.Forall_cons in Hu. unfold is_u64 in Hu, Htu.
  rewrite !u64_small in Hj by (unfold is_u64; lia).
  by replace (total - free - active - inactive) with system in Hj by lia.
Qed.

Lemma memory_reports_witness :
  ∃ p p' s, _os_gather_memory host tt p = Ok (ENONE, tt, p') ∧ holds p' (lit "{" ++ s)
    ∧ members s
        [(lit "total", JInt 2048); (lit "free", JInt 88); (lit "cached", JInt 1136);
         (lit "user", JInt 1542); (lit "sys", JInt 418);
         (lit "virtual", JDec (units 2 (memory_ratio 34359738367 6880)) 2)].
Proof.
  destruct (opened_packet (g_need _os_gather_memory host tt)) as (p & _ & Hh & Ho & Hf); [by vm_compute|].
  destruct (memory_reports host 2048 88 1136 901 641 418 34359738367 6880 p (lit "{"))
    as (p' & s & E & _ & Hh' & Hs);
    [lia|lia|unfold is_u64; lia| |by vm_compute|by vm_compute|exact Hh|exact Ho|exact Hf|].
  { repeat first [apply Forall_nil_2|apply Forall_cons_2]; unfold is_u64; lia. }
  exists p, p', s. exact (conj E (conj Hh' Hs)).
Defined.

Lemma disk_loop_skip fuel e t s devs io name num mount r :
  mount_scan (length devs) s = Ok (Some (name, num, mount, r)) → disk_round e t io name num mount = None →
  disk_loop (S fuel) e t s devs io = disk_loop fuel e (S t) r devs io.
Proof. intros E1 E2. cbn [disk_loop]. rewrite E1. cbn [rbind]. by rewrite E2. Qed.

Lemma disk_loop_stop fuel e t s devs io :
  mount_scan (length devs) s = Ok None → disk_loop (S fuel) e t s devs io = Ok (devs, io).
Proof. intros E. cbn [disk_loop]. by rewrite E. Qed.

(** A name with a digit inside, as NVMe disks have, ends the reading of the
    mounts: whatever else is mounted, no disk is reported. *)
Theorem disk_nvme_hides_disks e rest p :
  popen e 0 MOUNTS_CMD = Some (lit "/dev/nvme0n1p1 /boot" ++ NL :: rest) →
  statvfs e 1 (lit "n1p1") = None →
  _os_gather_disk e tt p = Ok (ENODATA, tt, p).
Proof.
  intros E Hv. unfold _os_gather_disk, report, disk_read. rewrite E.
  assert (∃ n, length (lit "/dev/nvme0n1p1 /boot" ++ NL :: rest) = S n) as [n ->] by (by eexists).
  rewrite (disk_loop_skip _ _ _ _ _ _ (lit "nvme") 0 (lit "n1p1") (lit "/boot" ++ NL :: rest));
    [|by vm_compute|unfold disk_round; by rewrite Hv].
  rewrite disk_loop_stop by (by vm_compute). done.
Qed.

(** A host with an NVMe disk next to the partition that is reported above. *)
Definition nvme_host : os_env := {|
  popen := λ t cmd,
    if decide (cmd = MOUNTS_CMD) then Some (lit "/dev/nvme0n1p1 /boot" ++ NL :: mount_table [sda1])
    else popen host t cmd;
  fopen := fopen host;
  statvfs := λ _ m, if decide (m = lit "/") then Some (k_vfs sda1) else None
|}.

Lemma disk_nvme_hides_disks_witness :
  _os_gather_disk nvme_host tt (zeroed METRIC) = Ok (ENODATA, tt, zeroed METRIC).
Proof.
  apply (disk_nvme_hides_disks nvme_host (mount_table [sda1])); by vm_compute.
Defined.
