(* ===== verification/Sparser.v ===== *)
(** src/sparser.c: the reader of plugin.conf, a state machine over its lines. *)
From Stdlib Require Import ZArith Ascii Lia.
From stdpp Require Import base list strings numbers.
From S2P Require Import Prelude.
From S2P Require Import Clib.
From S2P Require Import Scan.

Local Open Scope Z_scope.

(** The size of a line buffer ([BFSZ]), of [argv] and of the array of plugins. *)
Definition LINESZ : Z := 128.
Definition ARGV_ROWS : nat := 10.
Definition MAX_PLUGINS : nat := 5.

(** [sscanf(line, "%c%s", &first, remain)]: what is stored, if anything is. *)
Definition scan_line (line : bytes) : option (ascii * option bytes) :=
  match cstr line with
  | [] => None
  | first :: s =>
      let w := take_word (skip_space s) in
      Some (first, if decide (w = []) then None else Some w)
  end.

(** The end of the file has been hit reading the line [l], with [r] left. *)
Definition hit_eof (l r : bytes) : bool :=
  bool_decide (r = []) && negb (bool_decide (list.last l = Some NL))
  && (Z.of_nat (length l) <? LINESZ - 1).

(** [skip_until]; a stream has no read errors.  Every line takes a byte at least,
    so the length of the rest is fuel enough ([skip_go_ends]); a loop that runs out
    of it does not end. *)
Fixpoint skip_go (fuel : nat) (c : ascii) (s : bytes) : res (Z * bytes) :=
  match fuel with
  | O => Spins
  | S fuel =>
      match fgets LINESZ s with
      | None => Ok (2, s)
      | Some (l, r) =>
          if bool_decide (head l = Some c) then Ok (if hit_eof l r then 2 else 0, r)
          else skip_go fuel c r
      end
  end.

Definition skip_until (c : ascii) (s : bytes) : res (Z * bytes) := skip_go (S (length s)) c s.

Inductive status := NONE | PLUG | NAME | VAL.

#[global] Instance status_eq_dec : EqDecision status.
Proof. solve_decision. Defined.

Section Sparser.
Context {P : Type}.

(** Whether the library of a type can be opened and has its two symbols; and what
    comes of a new plugin of a type with its arguments: [malloc], [plugin_init]
    and the [load] function of the library. *)
Variable loadable : bytes → bool.
Variable make : bytes → list bytes → res (option P).

Record pstate := PState {
  p_status : status;
  p_type : bytes;
  p_argv : list bytes;
  p_plugins : list P;
  p_rest : bytes
}.

Definition to_status (x : status) (s : pstate) : pstate :=
  PState x (p_type s) (p_argv s) (p_plugins s) (p_rest s).

(** [skip_until(conf, '>')] and its error cases; [None] is [return -1]. *)
Definition skip_section (s : pstate) : res (option pstate) :=
  do x <- skip_until ">"%char (p_rest s);
  let '(code, rest) := x in
  Ok (if code =? 1 then None
      else Some (PState NONE (p_type s) (p_argv s) (p_plugins s) rest)).

Definition push_arg (remain : option bytes) (s : pstate) : res (option pstate) :=
  do w <- of_opt Uninit remain;
  if decide (ARGV_ROWS ≤ length (p_argv s))%nat then Ub OutOfBounds
  else Ok (Some (PState VAL (p_type s) (p_argv s ++ [w]) (p_plugins s) (p_rest s))).

(** The case ['<'] *)
Definition open_section (remain : option bytes) (s : pstate) : res (option pstate) :=
  if decide (p_status s ≠ NONE) then Ok None
  else
    do w <- of_opt Uninit remain;
    let s := PState PLUG w [] (p_plugins s) (p_rest s) in
    if loadable w then Ok (Some s) else skip_section s.

(** The case ['-'] *)
Definition dash (remain : option bytes) (s : pstate) : res (option pstate) :=
  match p_status s with
  | PLUG =>
      do w <- of_opt Uninit remain;
      if decide (take 3 w = lit "OFF") then skip_section s
      else if decide (take 2 w = lit "ON") then Ok (Some s)
      else Ok None
  | NAME | VAL => push_arg remain s
  | NONE => Ok None
  end.

(** The case ['>'] *)
Definition close_section (s : pstate) : res (option pstate) :=
  if decide (p_status s = VAL ∨ p_status s = PLUG) then
    let s := to_status NONE s in
    do p <- make (p_type s) (p_argv s);
    match p with
    | None => Ok (Some s)
    | Some p =>
        if decide (MAX_PLUGINS ≤ length (p_plugins s))%nat then Ub OutOfBounds
        else Ok (Some (PState NONE (p_type s) (p_argv s) (p_plugins s ++ [p]) (p_rest s)))
    end
  else Ok None.

(** The body of the loop for one line. *)
Definition parse_line (line : bytes) (s : pstate) : res (option pstate) :=
  do x <- of_opt Uninit (scan_line line);
  let '(first, remain) := x in
  if decide (first = NL) then Ok (Some s)
  else if decide (first = "#"%char) then Ok (Some s)
  else if decide (first = "<"%char) then open_section remain s
  else if decide (first = "-"%char) then dash remain s
  else if decide (first = "!"%char) then
    Ok (if decide (p_status s ≠ PLUG) then None else Some (to_status NAME s))
  else if decide (first = ">"%char) then close_section s
  else Ok None.

Fixpoint parse_go (fuel : nat) (s : pstate) : res (Z * list P) :=
  match fuel with
  | O => Spins
  | S fuel =>
      match fgets LINESZ (p_rest s) with
      | None => Ok (Z.of_nat (length (p_plugins s)), p_plugins s)
      | Some (line, rest) =>
          do s' <- parse_line line (PState (p_status s) (p_type s) (p_argv s) (p_plugins s) rest);
          match s' with
          | None => Ok (-1, p_plugins s)
          | Some s' => parse_go fuel s'
          end
      end
  end.

(** [sparse] on the contents of the file, if it can be opened: the number it
    returns and the plugins it has put into the array. *)
Definition sparse (conf : option bytes) : res (Z * list P) :=
  match conf with
  | None => Ok (-1, [])
  | Some s => parse_go (S (length s)) (PState NONE [] [] [] s)
  end.

(** * Termination *)

Definition at_rest (s : pstate) (r : bytes) : pstate :=
  PState (p_status s) (p_type s) (p_argv s) (p_plugins s) r.

(** [skip_until] ends, and never puts anything back. *)
Lemma skip_go_ends c fuel : ∀ s,
  (length s < fuel)%nat → ∃ z r, skip_go fuel c s = Ok (z, r) ∧ (length r ≤ length s)%nat.
Proof.
  induction fuel as [|fuel IH]; intros s Hf; cbn [skip_go]; [lia|].
  destruct (fgets LINESZ s) as [[l r]|] eqn:E; [|by exists 2, s].
  apply fgets_spec in E as (_ & _ & Hl); [|done]. case_bool_decide; [eexists _, r; split; [done|lia]|].
  destruct (IH r) as (z & r' & -> & Hr); [lia|]. exists z, r'. split; [done|lia].
Qed.

Lemma skip_section_ends s :
  ∃ o, skip_section s = Ok o ∧ ∀ s', o = Some s' → (length (p_rest s') ≤ length (p_rest s))%nat.
Proof.
  unfold skip_section, skip_until.
  destruct (skip_go_ends ">"%char (S (length (p_rest s))) (p_rest s)) as (z & r & -> & Hr); [lia|]. cbn [rbind].
  eexists. split; [done|]. destruct (z =? 1); [done|]. by intros s' [= <-].
Qed.

Lemma skip_section_rest s s' : skip_section s = Ok (Some s') → (length (p_rest s') ≤ length (p_rest s))%nat.
Proof. destruct (skip_section_ends s) as (o & -> & H). intros [= ->]. by apply H. Qed.

Lemma skip_section_spins s : skip_section s ≠ Spins.
Proof. by destruct (skip_section_ends s) as (o & -> & _). Qed.

(** A line never puts anything back. *)
Lemma parse_line_rest line s s' :
  parse_line line s = Ok (Some s') → (length (p_rest s') ≤ length (p_rest s))%nat.
Proof.
  unfold parse_line, open_section, dash, push_arg, close_section. intros H. inv_ok H.
  destruct v as [first remain].
  repeat first
    [ case_decide | apply skip_section_rest in H | progress simplify_eq | inv_ok H
    | match type of H with context [match ?x with _ => _ end] => destruct x eqn:? end ]; simpl in *; try done; try lia.
Qed.

(** Nothing in a line waits, unless the making of a plugin does. *)
Lemma parse_line_spins line s :
  (∀ t a, make t a ≠ Spins) → parse_line line s ≠ Spins.
Proof.
  intros Hm. pose proof skip_section_spins as Hk.
  unfold parse_line, open_section, dash, push_arg, close_section, of_opt.
  destruct (scan_line line) as [[first remain]|]; simpl; [|done].
  repeat case_decide; try done; destruct remain; try done; simpl; try done;
    try (destruct (p_status s); simpl; repeat case_decide; by auto);
    try (repeat case_decide; simpl; done); try (case_match; by auto).
  all: specialize (Hm (p_type s) (p_argv s)); destruct (make _ _) as [[q|]| |]; simpl; try done;
    by repeat case_decide.
Qed.

(** The fuel of [parse_go], the length of the rest and one more, is enough. *)
Lemma parse_go_spins fuel : ∀ s,
  (∀ t a, make t a ≠ Spins) → (length (p_rest s) < fuel)%nat → parse_go fuel s ≠ Spins.
Proof.
  induction fuel as [|fuel IH]; intros s Hm Hf; [lia|]. simpl.
  destruct (fgets LINESZ (p_rest s)) as [[l r]|] eqn:E; [|done].
  apply fgets_spec in E as (_ & _ & Hl); [|done].
  pose proof (parse_line_spins l (at_rest s r) Hm) as Hp. fold (at_rest s r).
  destruct (parse_line l (at_rest s r)) as [[s'|]| |] eqn:Ep; simpl; try done.
  apply parse_line_rest in Ep. simpl in Ep. apply IH; [done|lia].
Qed.

Lemma parse_go_more fuel : ∀ s fuel',
  parse_go fuel s ≠ Spins → (fuel ≤ fuel')%nat → parse_go fuel' s = parse_go fuel s.
Proof.
  induction fuel as [|fuel IH]; intros s fuel' H Hf; [done|].
  destruct fuel' as [|fuel']; [lia|]. simpl in *.
  destruct (fgets LINESZ (p_rest s)) as [[l r]|]; [|done].
  destruct (parse_line l _) as [[s'|]| |]; simpl in *; try done. apply IH; [done|lia].
Qed.

(** ** The plugins in the array *)

Lemma skip_section_plugins s s' : skip_section s = Ok (Some s') → p_plugins s' = p_plugins s.
Proof. unfold skip_section. intros H. inv_ok H. destruct v as [z r]. destruct (z =? 1); [done|]. by injection H as <-. Qed.

(** What holds of every plugin that is made holds of every plugin in the array. *)
Lemma parse_line_plugins (Q : P → Prop) line s s' :
  (∀ t a p, make t a = Ok (Some p) → Q p) → Forall Q (p_plugins s) →
  parse_line line s = Ok (Some s') → Forall Q (p_plugins s').
Proof.
  intros Hq Hs H. unfold parse_line, open_section, dash, push_arg, close_section in H. inv_ok H.
  destruct v as [first remain].
  repeat first
    [ case_decide | apply skip_section_plugins in H | progress simplify_eq | inv_ok H
    | match type of H with context [match ?x with _ => _ end] => destruct x eqn:? end ]; simpl in *; try done;
    rewrite ?H; try done.
  apply Forall_app. split; [done|]. apply Forall_cons_2; [by eauto|apply Forall_nil_2].
Qed.

Lemma parse_go_plugins (Q : P → Prop) fuel : ∀ s n ps,
  (∀ t a p, make t a = Ok (Some p) → Q p) → Forall Q (p_plugins s) →
  parse_go fuel s = Ok (n, ps) → Forall Q ps.
Proof.
  induction fuel as [|fuel IH]; intros s n ps Hq Hs H; [done|]. cbn [parse_go] in H.
  destruct (fgets LINESZ (p_rest s)) as [[l r]|]; [|by injection H as _ <-]. inv_ok H.
  destruct v as [s'|]; [|by injection H as _ <-]. eapply IH; [done| |done]. by eapply (parse_line_plugins Q); [| |exact E].
Qed.

Lemma sparse_plugins (Q : P → Prop) conf n ps :
  (∀ t a p, make t a = Ok (Some p) → Q p) → sparse conf = Ok (n, ps) → Forall Q ps.
Proof.
  intros Hq. destruct conf as [s|]; cbn [sparse].
  - apply (parse_go_plugins Q); [done|apply Forall_nil_2].
  - intros [= _ <-]. apply Forall_nil_2.
Qed.

(** [runs s v]: from the state [s] the parser ends with [v]. *)
Definition runs (s : pstate) (v : Z * list P) : Prop := ∃ fuel, parse_go fuel s = Ok v.

Lemma runs_enough s v :
  (∀ t a, make t a ≠ Spins) → runs s v → parse_go (S (length (p_rest s))) s = Ok v.
Proof.
  intros Hm [fuel H]. pose proof (parse_go_spins (S (length (p_rest s))) s Hm ltac:(lia)) as Hs.
  rewrite <- H. destruct (decide (fuel ≤ S (length (p_rest s)))%nat).
  - apply parse_go_more; [by rewrite H|done].
  - symmetry. apply parse_go_more; [done|lia].
Qed.

(** * Reading a configuration that was written *)

(** A line of a file: no newline, no NUL, and short enough for the buffer. *)
Record good_line (l : bytes) : Prop := {
  gl_char : Forall (λ c, c ≠ NL ∧ c ≠ NUL) l;
  gl_length : Z.of_nat (length l) < LINESZ - 1
}.

(** A word: what [%s] reads in one piece. *)
Definition word (w : bytes) : Prop := w ≠ [] ∧ Forall (λ c, is_space c = false ∧ c ≠ NUL) w.

(** A comment or an empty line. *)
Definition noise (l : bytes) : Prop := good_line l ∧ (l = [] ∨ head l = Some "#"%char).

Lemma read_line_nl l n r :
  Forall (λ c, c ≠ NL ∧ c ≠ NUL) l → (length l < n)%nat →
  read_line n ((l ++ [NL]) ++ r) = (l ++ [NL], r).
Proof.
  intros H. revert n. induction H as [|c l [Hc _] _ IH]; intros [|n] Hn; simpl in *; try lia; [done|].
  destruct (Ascii.eqb_spec c "010"%char); [done|]. rewrite IH by lia. done.
Qed.

Lemma fgets_line l r : good_line l → fgets LINESZ ((l ++ [NL]) ++ r) = Some (l ++ [NL], r).
Proof.
  intros [H Hl]. unfold fgets. destruct ((l ++ [NL]) ++ r) eqn:E; [by destruct l|].
  rewrite <- E. f_equal. apply read_line_nl; [done|]. unfold LINESZ in *. lia.
Qed.

Lemma runs_line l r s s' v :
  good_line l → p_rest s = (l ++ [NL]) ++ r → parse_line (l ++ [NL]) (at_rest s r) = Ok (Some s') →
  runs s' v → runs s v.
Proof.
  intros Hl Hr Hp [fuel H]. exists (S fuel). simpl. rewrite Hr, fgets_line by done.
  fold (at_rest s r). by rewrite Hp.
Qed.

(** Lines with their newlines. *)
Definition unlines (ls : list bytes) : bytes := mjoin ((λ l, l ++ [NL]) <$> ls).

Lemma unlines_cons l ls r : unlines (l :: ls) ++ r = (l ++ [NL]) ++ unlines ls ++ r.
Proof. unfold unlines. cbn [fmap list_fmap mjoin list_join]. by rewrite <- app_assoc. Qed.

Lemma unlines_app ls1 ls2 : unlines (ls1 ++ ls2) = unlines ls1 ++ unlines ls2.
Proof. unfold unlines. rewrite fmap_app. apply join_app. Qed.

Lemma scan_noise l : noise l → ∃ x c, scan_line (l ++ [NL]) = Some (c, x) ∧ (c = NL ∨ c = "#"%char).
Proof.
  intros [[Hc _] [->|Hh]]; [by eexists _, _; split; [done|left]|].
  destruct l as [|c l]; [done|]. injection Hh as ->. eexists _, _. split; [done|by right].
Qed.

Lemma parse_noise l s : noise l → parse_line (l ++ [NL]) s = Ok (Some s).
Proof.
  intros Hn. destruct (scan_noise l Hn) as (x & c & E & Hc). unfold parse_line. rewrite E. simpl.
  destruct Hc as [-> | ->]; [by rewrite decide_True|]. by rewrite decide_False, decide_True.
Qed.

Lemma runs_noise N r s v :
  Forall noise N → p_rest s = unlines N ++ r → runs (at_rest s r) v → runs s v.
Proof.
  intros HN. revert s. induction HN as [|l N Hl _ IH]; intros s Hr H.
  { simpl in Hr. by destruct s; simpl in *; subst. }
  rewrite unlines_cons in Hr. eapply runs_line; [by apply Hl|exact Hr|by apply parse_noise|].
  by apply IH.
Qed.

(** ** The lines of a section *)

Lemma word_no_nul w : word w → no_nul w.
Proof. intros [_ H]. eapply List.Forall_impl; [|exact H]. by intros c []. Qed.

Lemma take_word_nl w : word w → take_word (w ++ [NL]) = w.
Proof.
  intros [_ H]. induction H as [|c w [Hc _] _ IH]; [done|]. simpl. by rewrite Hc, IH.
Qed.

Lemma skip_space_word w r : word w → skip_space (w ++ r) = w ++ r.
Proof. intros [Hn H]. destruct H as [|c w [Hc _] _]; [done|]. simpl. by rewrite Hc. Qed.

(** [%c%s] on a character and a word, with a space between them or not. *)
Lemma scan_word c (sp : bool) w :
  c ≠ NUL → word w →
  scan_line ((c :: (if sp then [" "%char] else []) ++ w) ++ [NL]) = Some (c, Some w).
Proof.
  intros Hc Hw. assert (no_nul (((if sp then [" "%char] else []) ++ w) ++ [NL])) as Hn.
  { apply no_nul_app. split; [|by repeat constructor]. apply no_nul_app.
    split; [destruct sp; by repeat constructor|by apply word_no_nul]. }
  unfold scan_line. simpl. destruct (Ascii.eqb_spec c NUL) as [|_]; [done|].
  rewrite <- (app_nil_r (_ ++ [NL])), cstr_app, app_nil_r by done.
  assert (skip_space (((if sp then [" "%char] else []) ++ w) ++ [NL]) = w ++ [NL]) as ->.
  { destruct sp; simpl; by apply skip_space_word. }
  rewrite take_word_nl by done. rewrite decide_False; [done|apply Hw].
Qed.

Lemma good_cons c l : c ≠ NL → c ≠ NUL → Forall (λ c, c ≠ NL ∧ c ≠ NUL) l →
  Z.of_nat (length l) < LINESZ - 2 → good_line (c :: l).
Proof. intros. split; [by constructor|]. simpl. lia. Qed.

Lemma word_chars w : word w → Forall (λ c, c ≠ NL ∧ c ≠ NUL) w.
Proof. intros [_ H]. eapply List.Forall_impl; [|exact H]. by intros c [Hc ?]; split; [intros ->|]. Qed.

(** A word that fits a line with two characters in front. *)
Definition short (w : bytes) : Prop := word w ∧ Z.of_nat (length w) < LINESZ - 3.

Lemma good_word_line c (sp : bool) w :
  c ≠ NL → c ≠ NUL → short w → good_line (c :: (if sp then [" "%char] else []) ++ w).
Proof.
  intros H1 H2 [Hw Hl]. apply good_cons; [done|done| |rewrite length_app; destruct sp; simpl; lia].
  apply Forall_app. split; [destruct sp; by repeat constructor|by apply word_chars].
Qed.

(** A section of the file: its type, whether it is on, and its arguments. *)
Record section := Section_ { s_type : bytes; s_on : bool; s_args : list bytes }.

Definition open_line (x : section) : bytes := "<"%char :: s_type x.
Definition status_line (x : section) : bytes := lit (if s_on x then "- ON" else "- OFF").
Definition name_line : bytes := lit "!TARGET".
Definition arg_line (w : bytes) : bytes := "-"%char :: " "%char :: w.
Definition close_line : bytes := lit ">".

Definition arg_lines (args : list bytes) : list bytes :=
  match args with [] => [] | _ => name_line :: (arg_line <$> args) end.

(** Comments and empty lines [N] in front of every line. *)
Definition noisy (N : list bytes) (ls : list bytes) : list bytes := ls ≫= λ l, N ++ [l].

Definition section_lines (x : section) : list bytes :=
  open_line x :: status_line x :: arg_lines (s_args x) ++ [close_line].

Record good_section (x : section) : Prop := {
  gs_type : short (s_type x);
  gs_args : Forall short (s_args x);
  gs_count : (length (s_args x) ≤ ARGV_ROWS)%nat
}.

(** The file. *)
Definition render (N : list bytes) (cfg : list section) : bytes :=
  unlines (noisy N (cfg ≫= section_lines) ++ N).

(** The plugins a configuration asks for. *)
Fixpoint wanted (cfg : list section) : res (list P) :=
  match cfg with
  | [] => Ok []
  | x :: cfg =>
      if s_on x && loadable (s_type x) then
        do p <- make (s_type x) (s_args x);
        do ps <- wanted cfg;
        Ok (option_list p ++ ps)
      else wanted cfg
  end.

Lemma runs_step N l ls r s s' v :
  Forall noise N → good_line l → p_rest s = unlines (noisy N (l :: ls)) ++ r →
  parse_line (l ++ [NL]) (at_rest s (unlines (noisy N ls) ++ r)) = Ok (Some s') →
  runs s' v → runs s v.
Proof.
  intros HN Hl Hr Hp H.
  assert (p_rest s = unlines N ++ (l ++ [NL]) ++ unlines (noisy N ls) ++ r) as Hr'.
  { rewrite Hr. unfold noisy. cbn [mbind list_bind]. rewrite !unlines_app, <- !app_assoc. f_equal.
    by rewrite unlines_cons, <- app_assoc. }
  apply (runs_noise N _ s v HN Hr').
  apply (runs_line l (unlines (noisy N ls) ++ r) _ s' v); [done|done|by destruct s|done].
Qed.

(** ** Skipping *)

Definition inner (l : bytes) : Prop := good_line l ∧ head l ≠ Some ">"%char.

Lemma skip_lines ls r : ∀ fuel,
  Forall inner ls → (length ls < fuel)%nat →
  skip_go fuel ">"%char (unlines ls ++ (close_line ++ [NL]) ++ r) = Ok (0, r).
Proof.
  induction ls as [|l ls IH]; intros [|fuel] H Hf; simpl in Hf; try lia.
  - cbn [skip_go]. change (unlines [] ++ ?x) with x. rewrite (fgets_line close_line r); [by destruct r|].
    split; [by repeat constructor|done].
  - inversion_clear H as [|? ? [Hg Hh] Hls]. cbn [skip_go]. rewrite unlines_cons, fgets_line by done.
    rewrite bool_decide_false; [apply IH; [done|lia]|]. by destruct l.
Qed.

Lemma length_unlines ls : (length ls ≤ length (unlines ls))%nat.
Proof.
  induction ls as [|l ls IH]; [done|].
  rewrite <- (app_nil_r (unlines _)), unlines_cons, app_nil_r, !length_app. simpl. lia.
Qed.

Lemma noise_inner l : noise l → inner l.
Proof. intros [Hg [->|Hh]]; split; try done. by rewrite Hh. Qed.

Lemma noisy_inner N ls : Forall noise N → Forall inner ls → Forall inner (noisy N ls).
Proof.
  intros HN H. induction H as [|l ls Hl _ IH]; [constructor|]. unfold noisy. cbn [mbind list_bind].
  apply Forall_app. split; [|done]. apply Forall_app. split; [|by constructor].
  eapply List.Forall_impl; [|exact HN]. apply noise_inner.
Qed.

Lemma noisy_app N ls1 ls2 : noisy N (ls1 ++ ls2) = noisy N ls1 ++ noisy N ls2.
Proof. apply bind_app. Qed.

(** The rest of a section is skipped to behind its last line. *)
Lemma skip_rest N ls r s :
  Forall noise N → Forall inner ls → p_rest s = unlines (noisy N (ls ++ [close_line])) ++ r →
  skip_section s = Ok (Some (PState NONE (p_type s) (p_argv s) (p_plugins s) r)).
Proof.
  intros HN Hls Hr. unfold skip_section, skip_until.
  assert (p_rest s = unlines (noisy N ls ++ N) ++ (close_line ++ [NL]) ++ r) as Hr'.
  { rewrite Hr, noisy_app. unfold noisy at 2. cbn [mbind list_bind]. rewrite app_nil_r, app_assoc.
    rewrite (unlines_app _ [close_line]), <- app_assoc. by rewrite unlines_cons. }
  rewrite Hr', skip_lines; [done| |].
  - apply Forall_app. split; [by apply noisy_inner|].
    eapply List.Forall_impl; [|exact HN]. apply noise_inner.
  - rewrite (length_app (unlines _)). pose proof (length_unlines (noisy N ls ++ N)). lia.
Qed.

Lemma inner_arg_lines args : Forall short args → Forall inner (arg_lines args).
Proof.
  intros H. destruct H as [|w args Hw H]; [constructor|]. constructor.
  { split; [|done]. split; [by repeat constructor|done]. }
  assert (∀ w, short w → inner (arg_line w)) as Ha.
  { intros x Hx. split; [|done]. by apply (good_word_line "-"%char true). }
  apply Forall_fmap. constructor; [by apply Ha|]. eapply List.Forall_impl; [|exact H]. exact Ha.
Qed.

Lemma inner_status x : inner (status_line x).
Proof. unfold status_line. destruct (s_on x); (split; [split; [by repeat constructor|done]|done]). Qed.

(** ** One section *)

Lemma open_line_ok x s :
  short (s_type x) → p_status s = NONE →
  parse_line (open_line x ++ [NL]) s
  = (let s' := PState PLUG (s_type x) [] (p_plugins s) (p_rest s) in
     if loadable (s_type x) then Ok (Some s') else skip_section s').
Proof.
  intros [Hw _] Hs. unfold parse_line.
  assert (scan_line (open_line x ++ [NL]) = Some ("<"%char, Some (s_type x))) as ->
    by (by apply (scan_word "<"%char false)).
  cbn [of_opt rbind]. rewrite !(decide_False (P := "<"%char = _)), decide_True by done. unfold open_section.
  rewrite decide_False by (rewrite Hs; intros H; by apply H). done.
Qed.

Lemma status_line_ok x s :
  p_status s = PLUG →
  parse_line (status_line x ++ [NL]) s = (if s_on x then Ok (Some s) else skip_section s).
Proof.
  intros Hs. unfold parse_line, status_line.
  assert (scan_line (lit (if s_on x then "- ON" else "- OFF") ++ [NL])
    = Some ("-"%char, Some (lit (if s_on x then "ON" else "OFF")))) as -> by (by destruct (s_on x)).
  cbn [of_opt rbind]. rewrite !(decide_False (P := "-"%char = _)), decide_True by done.
  unfold dash. rewrite Hs. cbn [of_opt rbind]. by destruct (s_on x).
Qed.

Lemma name_line_ok s :
  p_status s = PLUG → parse_line (name_line ++ [NL]) s = Ok (Some (to_status NAME s)).
Proof.
  intros Hs. unfold parse_line.
  assert (scan_line (name_line ++ [NL]) = Some ("!"%char, Some (lit "TARGET"))) as -> by done.
  cbn [of_opt rbind]. rewrite !(decide_False (P := "!"%char = _)), decide_True by done.
  rewrite decide_False; [done|]. rewrite Hs. intros H. by apply H.
Qed.

Lemma arg_line_ok w s :
  short w → p_status s = NAME ∨ p_status s = VAL → (length (p_argv s) < ARGV_ROWS)%nat →
  parse_line (arg_line w ++ [NL]) s
  = Ok (Some (PState VAL (p_type s) (p_argv s ++ [w]) (p_plugins s) (p_rest s))).
Proof.
  intros [Hw _] Hs Hl. unfold parse_line.
  assert (scan_line (arg_line w ++ [NL]) = Some ("-"%char, Some w)) as ->
    by (by apply (scan_word "-"%char true)).
  cbn [of_opt rbind].
  rewrite !(decide_False (P := "-"%char = _)), decide_True by done. unfold dash, push_arg.
  destruct Hs as [-> | ->]; cbn [of_opt rbind]; by rewrite decide_False by lia.
Qed.

Lemma close_line_ok s :
  p_status s = VAL ∨ p_status s = PLUG →
  parse_line (close_line ++ [NL]) s = close_section s.
Proof. done. Qed.

(** The arguments are collected in order. *)
Lemma runs_args N ws ls r v : ∀ s,
  Forall noise N → Forall short ws → p_status s = NAME ∨ p_status s = VAL → ws ≠ [] →
  (length (p_argv s) + length ws ≤ ARGV_ROWS)%nat →
  p_rest s = unlines (noisy N ((arg_line <$> ws) ++ ls)) ++ r →
  runs (PState VAL (p_type s) (p_argv s ++ ws) (p_plugins s) (unlines (noisy N ls) ++ r)) v →
  runs s v.
Proof.
  intros s HN Hws. revert s. induction Hws as [|w ws Hw _ IH]; intros s Hs Hne Hl Hr H; [done|].
  simpl in Hl, Hr. eapply (runs_step N (arg_line w)); [done| |exact Hr|by apply arg_line_ok; [| |simpl; lia]|].
  { by apply (good_word_line "-"%char true). }
  simpl. destruct ws as [|w' ws]; [done|]. apply IH; simpl.
  - by right.
  - done.
  - rewrite length_app. simpl in *. lia.
  - done.
  - by rewrite <- app_assoc.
Qed.

(** The end of a section makes its plugin. *)
Lemma runs_close N t a ps r st p v :
  Forall noise N → st = VAL ∨ st = PLUG → make t a = Ok p →
  (length (ps ++ option_list p) ≤ MAX_PLUGINS)%nat →
  runs (PState NONE t a (ps ++ option_list p) r) v →
  runs (PState st t a ps (unlines (noisy N [close_line]) ++ r)) v.
Proof.
  intros HN Hs Hm Hl H.
  assert (parse_line (close_line ++ [NL]) (PState st t a ps (unlines (noisy N []) ++ r))
    = Ok (Some (PState NONE t a (ps ++ option_list p) r))) as Hp.
  { change (unlines (noisy N []) ++ r) with r. rewrite close_line_ok by done. unfold close_section.
    rewrite decide_True by done. simpl. rewrite Hm. simpl.
    destruct p as [p|]; simpl in *; [|by rewrite app_nil_r].
    rewrite decide_False; [done|]. rewrite length_app in Hl. simpl in Hl. lia. }
  eapply (runs_step N close_line []); [done|split; [by repeat constructor|done]|done|exact Hp|exact H].
Qed.

(** A section that is on and can be loaded. *)
Lemma runs_on N x t a ps r p v :
  Forall noise N → good_section x → s_on x = true → loadable (s_type x) = true →
  make (s_type x) (s_args x) = Ok p → (length (ps ++ option_list p) ≤ MAX_PLUGINS)%nat →
  runs (PState NONE (s_type x) (s_args x) (ps ++ option_list p) r) v →
  runs (PState NONE t a ps (unlines (noisy N (section_lines x)) ++ r)) v.
Proof.
  intros HN [Hty Har Hct] Hon Hld Hm Hl H. unfold section_lines.
  eapply (runs_step N (open_line x)); [done|by apply (good_word_line "<"%char false)|done| |].
  { rewrite open_line_ok by done. by rewrite Hld. }
  eapply (runs_step N (status_line x)); [done|by apply inner_status|done| |].
  { rewrite status_line_ok by done. by rewrite Hon. }
  simpl. destruct (s_args x) as [|w ws] eqn:Ea.
  { eapply runs_close; [done|by right|done|done|done]. }
  cbn [arg_lines app].
  eapply (runs_step N name_line); [done|split; [by repeat constructor|done]|done|by apply name_line_ok|].
  eapply (runs_args N (w :: ws) [close_line] r v); [done|done|by left|done|done|done|].
  simpl. eapply runs_close; [done|by left|done|done|done].
Qed.

(** A section that is off, or cannot be loaded. *)
Lemma runs_off N x t a ps r v :
  Forall noise N → good_section x → s_on x && loadable (s_type x) = false →
  runs (PState NONE (s_type x) [] ps r) v →
  runs (PState NONE t a ps (unlines (noisy N (section_lines x)) ++ r)) v.
Proof.
  intros HN [Hty Har Hct] Hoff H. unfold section_lines.
  destruct (loadable (s_type x)) eqn:Hld.
  - eapply (runs_step N (open_line x)); [done|by apply (good_word_line "<"%char false)|done| |].
    { rewrite open_line_ok by done. by rewrite Hld. }
    eapply (runs_step N (status_line x)); [done|by apply inner_status|done| |exact H].
    rewrite status_line_ok by done. rewrite andb_true_r in Hoff. rewrite Hoff.
    by erewrite (skip_rest N (arg_lines (s_args x)) r) by (done || by apply inner_arg_lines).
  - eapply (runs_step N (open_line x)); [done|by apply (good_word_line "<"%char false)|done| |exact H].
    rewrite open_line_ok by done. rewrite Hld.
    erewrite (skip_rest N (status_line x :: arg_lines (s_args x)) r); [done|done| |done].
    constructor; [apply inner_status|by apply inner_arg_lines].
Qed.

Lemma runs_config N cfg : ∀ t a ps qs,
  Forall noise N → Forall good_section cfg → wanted cfg = Ok qs →
  (length (ps ++ qs) ≤ MAX_PLUGINS)%nat →
  runs (PState NONE t a ps (render N cfg)) (Z.of_nat (length (ps ++ qs)), ps ++ qs).
Proof.
  intros t a ps qs HN Hg. revert t a ps qs. induction Hg as [|x cfg Hx _ IH]; intros t a ps qs Hw Hl.
  - injection Hw as <-. rewrite app_nil_r. unfold render. simpl.
    eapply (runs_noise N []); [done|by rewrite app_nil_r|]. by exists 1%nat.
  - assert (render N (x :: cfg) = unlines (noisy N (section_lines x)) ++ render N cfg) as ->.
    { unfold render. cbn [mbind list_bind]. by rewrite noisy_app, <- app_assoc, unlines_app. }
    simpl in Hw. destruct (s_on x && loadable (s_type x)) eqn:Eo.
    + inv_ok Hw. inv_ok Hw. injection Hw as <-. apply andb_prop in Eo as [Hon Hld].
      rewrite app_assoc in *.
      eapply runs_on; try done; [|by apply IH]. rewrite length_app in Hl. lia.
    + apply runs_off; [done..|]. by apply IH.
Qed.

(** C34. The parser terminates on every file: whatever the bytes, it returns a
    number or does something undefined, and never loops. *)
Theorem sparse_terminates conf :
  (∀ t a, make t a ≠ Spins) → sparse conf ≠ Spins.
Proof.
  intros Hm. destruct conf as [s|]; [|done]. apply parse_go_spins; [done|simpl; lia].
Qed.

(** C18. What is written is read: for a configuration of sections, with comments
    and empty lines in front of every line, [sparse] returns the number of
    plugins it makes and leaves them in the array in the order of the sections;
    a section that is off, or whose library cannot be loaded, is passed over. *)
Theorem sparse_render N cfg qs :
  (∀ t a, make t a ≠ Spins) → Forall noise N → Forall good_section cfg →
  wanted cfg = Ok qs → (length qs ≤ MAX_PLUGINS)%nat →
  sparse (Some (render N cfg)) = Ok (Z.of_nat (length qs), qs).
Proof.
  intros Hm HN Hg Hw Hl.
  apply (runs_enough (PState NONE [] [] [] (render N cfg)) _ Hm).
  exact (runs_config N cfg [] [] [] qs HN Hg Hw Hl).
Qed.

End Sparser.

(** * Concrete files *)

(** Plugins as their type and arguments; every library can be loaded. *)
Definition any_type : bytes → bool := λ _, true.
Definition as_asked (t : bytes) (a : list bytes) : res (option (bytes * list bytes)) := Ok (Some (t, a)).

Lemma sparse_terminates_witness : sparse any_type as_asked (Some (lit "<os")) ≠ Spins.
Proof. by apply sparse_terminates. Defined.

Definition two_sections : list section :=
  [Section_ (lit "os") true []; Section_ (lit "jvm") false [];
   Section_ (lit "mysql") true [lit "localhost/3306/root/snyo"]].

Ltac solve_short := apply (bool_decide_unpack _); vm_compute; exact I.

#[local] Instance word_dec w : Decision (word w).
Proof. unfold word. apply _. Defined.
#[local] Instance short_dec w : Decision (short w).
Proof. unfold short. apply _. Defined.

Lemma sparse_render_witness :
  sparse any_type as_asked (Some (render [lit "# a comment"; []] two_sections))
  = Ok (2, [(lit "os", []); (lit "mysql", [lit "localhost/3306/root/snyo"])]).
Proof.
  apply (sparse_render any_type as_asked [lit "# a comment"; []] two_sections
    [(lit "os", []); (lit "mysql", [lit "localhost/3306/root/snyo"])]).
  - done.
  - apply Forall_cons_2; [split; [split; [by repeat constructor|done]|by right]|].
    apply Forall_cons_2; [split; [split; [constructor|done]|by left]|apply Forall_nil_2].
  - apply Forall_cons_2; [split; [solve_short|apply Forall_nil_2|unfold ARGV_ROWS; simpl; lia]|].
    apply Forall_cons_2; [split; [solve_short|apply Forall_nil_2|unfold ARGV_ROWS; simpl; lia]|].
    apply Forall_cons_2; [|apply Forall_nil_2].
    split; [solve_short|apply Forall_cons_2; [solve_short|apply Forall_nil_2]|].
    unfold ARGV_ROWS. simpl. lia.
  - reflexivity.
  - simpl. unfold MAX_PLUGINS. lia.
Defined.

(** The file the program is shipped with, cfg/plugin.conf. *)
Definition plugin_conf : bytes := lit "######
# OS #
######

# ON/OFF
# os
<os
- ON
>


#######
# JVM #
#######

# ON/OFF
# jvm
<jvm
- OFF
>


#########
# MySQL #
#########

<mysql
- ON

# DB information
!TARGET
- localhost/3306/root/snyo

>
".

(** The configuration the program is shipped with turns on two plugins: the
    operating system's, and MySQL's with one argument. *)
Theorem shipped_configuration :
  sparse any_type as_asked (Some plugin_conf)
  = Ok (2, [(lit "os", []); (lit "mysql", [lit "localhost/3306/root/snyo"])]).
Proof. by vm_compute. Qed.

(** The array of plugins has five entries and the parser does not count: a
    sixth section that is on is written behind its end; so is an eleventh
    argument of a section. *)
Theorem sparse_overruns :
  sparse any_type as_asked (Some (render [] (replicate 6 (Section_ (lit "os") true [])))) = Ub OutOfBounds
  ∧ sparse any_type as_asked (Some (render [] [Section_ (lit "os") true (replicate 11 (lit "x"))]))
    = Ub OutOfBounds.
Proof. by vm_compute. Qed.
