(* ===== verification/Metadata.v ===== *)
(** src/metadata.c: what the agent knows about its host, read from files and
    system calls at the start. *)
From Stdlib Require Import ZArith Ascii Lia.
From stdpp Require Import base list strings numbers.
From S2P Require Import Prelude.
From S2P Require Import Clib.
From S2P Require Import Scan.
From S2P Require Import Packet.
From S2P Require Import Plugin.
From S2P Require Import Sparser.

Local Open Scope Z_scope.

(** * The environment *)

(** What the calls of this file return: the output of the pipe, the host name
    with the result of [gethostname], the address, the files that are read (with
    their contents if they can be opened), whether the files that are written
    can be opened, the clock and the process id. *)
Record meta_env := MetaEnv {
  me_os : option bytes;
  me_host : Z * bytes;
  me_ip : option bytes;
  me_aid : option bytes;
  me_aid_write : bool;
  me_license : option bytes;
  me_pid_write : bool;
  me_pid : Z;
  me_now : nat → Z
}.

(** The globals, and the files [.aid] and [.pid] if they have been written. *)
Record meta_state := MetaState {
  m_meta : metadata; m_aid_file : option bytes; m_pid_file : option bytes
}.

Definition with_meta (f : metadata → metadata) (s : meta_state) : meta_state :=
  MetaState (f (m_meta s)) (m_aid_file s) (m_pid_file s).

Definition set_os v m := Metadata (license m) (aid m) (agent_type m) v (host m) (aip m).
Definition set_host v m := Metadata (license m) (aid m) (agent_type m) (os m) v (aip m).
Definition set_aip v m := Metadata (license m) (aid m) (agent_type m) (os m) (host m) v.
Definition set_agent_type v m := Metadata (license m) (aid m) v (os m) (host m) (aip m).
Definition set_aid v m := Metadata (license m) v (agent_type m) (os m) (host m) (aip m).
Definition set_license v m := Metadata v (aid m) (agent_type m) (os m) (host m) (aip m).

(** [%50[^\n]] stores up to fifty characters and a terminator in [os[50]]. *)
Definition get_os (e : meta_env) (s : meta_state) : res (Z * meta_state) :=
  match me_os e with
  | None => Ok (-1, s)
  | Some out =>
      let w := take 50 (fst (span (λ c, negb (Ascii.eqb c NL)) out)) in
      if decide (w = []) then Ok (-1, s)
      else if decide (50 ≤ length w)%nat then Ub OutOfBounds
      else Ok (0, with_meta (set_os (cstr w)) s)
  end.

Definition get_host (e : meta_env) (s : meta_state) : res (Z * meta_state) :=
  Ok (fst (me_host e), with_meta (set_host (snd (me_host e))) s).

Definition get_ip (e : meta_env) (s : meta_state) : res (Z * meta_state) :=
  match me_ip e with
  | None => Ok (-1, s)
  | Some addr => Ok (0, with_meta (set_aip (take 16 addr)) s)
  end.

Definition get_type (s : meta_state) : res (Z * meta_state) :=
  Ok (0, with_meta (set_agent_type (lit "ubuntu_1.0")) s).

Definition get_aid (e : meta_env) (s : meta_state) : res (Z * meta_state) :=
  match me_aid e ≫= scan_llu with
  | Some (v, _) => Ok (0, with_meta (set_aid v) s)
  | None =>
      let v := new_id (me_now e) 0 in
      let s := with_meta (set_aid v) s in
      if negb (me_aid_write e) then Ok (-1, s)
      else Ok (0, MetaState (m_meta s) (Some (dec v ++ [NL])) (m_pid_file s))
  end.

(** [%[^:]:%*[:^\t^ ]%s]: a name of up to 999 characters, a colon, one or more
    of colon, caret, tab and space, and a word of up to 98 characters. *)
Definition scan_license (s : bytes) : res (option bytes) :=
  let '(name, s) := span (λ c, negb (Ascii.eqb c ":"%char)) s in
  if decide (name = []) then Ok None
  else if decide (1000 ≤ length name)%nat then Ub OutOfBounds
  else match s with
  | _ :: s =>
      let '(gap, s) := span (λ c, bool_decide (c ∈ [":"%char; "^"%char; "009"%char; " "%char])) s in
      if decide (gap = []) then Ok None
      else
        let w := take_word (skip_space s) in
        if decide (w = []) then Ok None
        else if decide (99 ≤ length w)%nat then Ub OutOfBounds
        else Ok (Some (cstr w))
  | [] => Ok None
  end.

Definition get_license (e : meta_env) (s : meta_state) : res (Z * meta_state) :=
  match me_license e with
  | None => Ok (-1, s)
  | Some content =>
      do w <- scan_license content;
      match w with
      | None => Ok (-1, s)
      | Some w => Ok (0, with_meta (set_license w) s)
      end
  end.

Definition get_pid (e : meta_env) (s : meta_state) : res (Z * meta_state) :=
  if negb (me_pid_write e) then Ok (-1, s)
  else Ok (0, MetaState (m_meta s) (m_aid_file s) (Some (dec (me_pid e)))).

(** The chain of [||]: the first failure ends it. *)
Fixpoint all_of (fs : list (meta_state → res (Z * meta_state))) (s : meta_state)
    : res (Z * meta_state) :=
  match fs with
  | [] => Ok (0, s)
  | f :: fs =>
      do x <- f s;
      if fst x <? 0 then Ok (-1, snd x) else all_of fs (snd x)
  end.

Definition meta_init (e : meta_env) (s : meta_state) : res (Z * meta_state) :=
  all_of [get_os e; get_host e; get_ip e; get_type; get_aid e; get_license e; get_pid e] s.

(** * Properties *)

(** The agent keeps its id: one that finds no [.aid] file makes an id and
    writes it, and an agent started with that file reads the same id. *)
Theorem aid_persists e e' s s' f s1 :
  me_aid e ≫= scan_llu = None → get_aid e s = Ok (0, s') → m_aid_file s' = Some f →
  me_aid e' = Some f →
  ∃ s1', get_aid e' s1 = Ok (0, s1') ∧ aid (m_meta s1') = aid (m_meta s').
Proof.
  intros Hn Hg Hf He'. unfold get_aid in *. rewrite Hn in Hg.
  destruct (me_aid_write e); [|done]. simpl in Hg. injection Hg as <-. simpl in *.
  injection Hf as <-. rewrite He'. simpl.
  rewrite scan_llu_dec; [by eexists|apply u64_range|by intros c [= <-]].
Qed.

(** The license file: of a line [name: key] the key is read, whatever the
    name; without a space behind the colon the file is refused. *)
Theorem license_read name key r :
  Forall (λ c, c ≠ ":"%char) name → name ≠ [] → (length name < 1000)%nat →
  word key → (length key < 99)%nat → head key ∉ Some <$> [":"%char; "^"%char] →
  scan_license (name ++ lit ": " ++ key ++ NL :: r) = Ok (Some key)
  ∧ scan_license (name ++ lit ":" ++ key ++ NL :: r) = Ok None.
Proof.
  intros Hn Hne Hl Hw Hk Hh. unfold scan_license.
  assert (∀ t, span (λ c, negb (Ascii.eqb c ":"%char)) (name ++ ":"%char :: t) = (name, ":"%char :: t)) as Hs.
  { intros t. apply span_app; [|by intros c [= <-]].
    eapply List.Forall_impl; [|exact Hn]. intros c Hc. by destruct (Ascii.eqb_spec c ":"%char). }
  assert (∃ c k, key = c :: k ∧ is_space c = false ∧ c ≠ ":"%char ∧ c ≠ "^"%char) as (c & k & Ek & Hc1 & Hc2).
  { destruct Hw as [Hwn Hw]. destruct Hw as [|c k [Hc _] _]; [done|]. exists c, k.
    split; [done|]. split; [done|]. split; intros ->; apply Hh; [by left|by right; left]. }
  assert (bool_decide (c ∈ [":"%char; "^"%char; "009"%char; " "%char]) = false) as Hcg.
  { apply bool_decide_false. intros Hin. destruct Hc2.
    repeat (apply elem_of_cons in Hin as [->|Hin]; [done|]). by apply elem_of_nil in Hin. }
  split.
  - change (lit ": " ++ ?x) with (":"%char :: [" "%char] ++ x). rewrite Hs.
    rewrite decide_False, decide_False by (done || lia).
    rewrite span_app; [|by repeat constructor|by intros d; rewrite Ek; intros [= <-]].
    rewrite decide_False by done. rewrite skip_space_word by done.
    replace (take_word (key ++ NL :: r)) with key.
    + rewrite decide_False, decide_False by (apply Hw || lia).
      rewrite <- (app_nil_r key) at 1. rewrite cstr_app by (by apply word_no_nul). by rewrite app_nil_r.
    + clear -Hw. destruct Hw as [_ Hw]. induction Hw as [|c w [Hc _] _ IH]; [done|]. simpl.
      by rewrite Hc, <- IH.
  - change (lit ":" ++ ?x) with (":"%char :: [] ++ x). rewrite Hs.
    rewrite decide_False, decide_False by (done || lia).
    by rewrite span_app; [|constructor|by intros d; rewrite Ek; intros [= <-]].
Qed.

(** [os] has fifty characters and the scan stores fifty-one: a system whose
    name has fifty characters or more overruns it, a shorter one is read whole. *)
Theorem os_name_overrun e s name r :
  me_os e = Some (name ++ NL :: r) → name ≠ [] → Forall (λ c, c ≠ NL ∧ c ≠ NUL) name →
  get_os e s = if decide (50 ≤ length name)%nat then Ub OutOfBounds
               else Ok (0, with_meta (set_os name) s).
Proof.
  intros He Hne Hn. unfold get_os. rewrite He, span_app.
  2: { eapply List.Forall_impl; [|exact Hn]. intros c [Hc _]. by destruct (Ascii.eqb_spec c NL). }
  2: { by intros c [= <-]. }
  simpl fst. rewrite decide_False by (by destruct name).
  rewrite length_take. case_decide; case_decide; try lia; [done|].
  rewrite take_ge by lia. do 4 f_equal.
  rewrite <- (app_nil_r name) at 1. rewrite cstr_app, app_nil_r; [done|].
  eapply List.Forall_impl; [|exact Hn]. by intros c [_ ?].
Qed.

(** * Witnesses *)

Definition no_meta : meta_state := MetaState (Metadata [] 0 [] [] [] []) None None.

Definition some_env (aid_file : option bytes) : meta_env :=
  MetaEnv (Some (lit "Ubuntu 16.04.1 LTS" ++ [NL])) (0, lit "host") (Some (lit "10.0.0.1")) aid_file true
    (Some (lit "license: 6d9efa001fec4a15acc3746fc96eb8bf" ++ [NL])) true 4242 (λ i, 1480000000000 + Z.of_nat i).

Lemma aid_persists_witness :
  ∃ s' f s1', get_aid (some_env None) no_meta = Ok (0, s') ∧ m_aid_file s' = Some f
    ∧ get_aid (some_env (Some f)) no_meta = Ok (0, s1') ∧ aid (m_meta s1') = aid (m_meta s').
Proof.
  eexists _, _.
  destruct (aid_persists (some_env None)
    (some_env (Some (dec (new_id (me_now (some_env None)) 0) ++ [NL]))) no_meta
    (MetaState (set_aid (new_id (me_now (some_env None)) 0) (m_meta no_meta))
       (Some (dec (new_id (me_now (some_env None)) 0) ++ [NL])) None)
    (dec (new_id (me_now (some_env None)) 0) ++ [NL]) no_meta) as (s1' & H1 & H2);
    [reflexivity|reflexivity|reflexivity|reflexivity|].
  exists s1'. split; [reflexivity|]. split; [reflexivity|]. split; [exact H1|exact H2].
Defined.

Lemma license_read_witness :
  scan_license (lit "license" ++ lit ": " ++ lit "6d9e" ++ NL :: []) = Ok (Some (lit "6d9e"))
  ∧ scan_license (lit "license" ++ lit ":" ++ lit "6d9e" ++ NL :: []) = Ok None.
Proof.
  apply (license_read (lit "license") (lit "6d9e") []).
  - apply (bool_decide_unpack _). vm_compute. exact I.
  - done.
  - simpl. lia.
  - split; [done|]. apply (bool_decide_unpack _). vm_compute. exact I.
  - simpl. lia.
  - intros H. repeat (apply elem_of_cons in H as [H|H]; [done|]). by apply elem_of_nil in H.
Defined.

Lemma os_name_overrun_witness :
  get_os (some_env None) no_meta = Ok (0, with_meta (set_os (lit "Ubuntu 16.04.1 LTS")) no_meta).
Proof.
  apply (os_name_overrun (some_env None) no_meta (lit "Ubuntu 16.04.1 LTS") []).
  - reflexivity.
  - done.
  - apply (bool_decide_unpack _). vm_compute. exact I.
Defined.
