(* ===== verification/Handshake.v ===== *)
(** src/routine.c: the handshake between the thread of a routine and the thread
    that starts and pings it, as interleavings of atomic steps over two mutexes
    and two condition variables.  A mutex is the lock word of a default POSIX
    mutex on Linux, which records no owner: unlocking clears it, whoever locked
    it.  [pthread_cond_timedwait] in [routine_sync] is called by a thread that
    need not hold [pong_me]; it clears the word all the same.  The condition
    [ping] may wake up spuriously, the condition [pong] wakes up by a signal or
    by its timeout. *)
From Stdlib Require Import ZArith Lia.
From stdpp Require Import base list relations numbers.
From S2P Require Import Prelude.

Module Threads.

(** The worker, at the next statement of [routine_main]. *)
Inductive wpc :=
| W_lock_pong | W_lock_ping | W_signal | W_unlock_pong
| W_test
| W_wait | W_blocked | W_woken
| W_lock_pong2 | W_signal2 | W_unlock_pong2
| W_task | W_due
| W_exit.

(** The pinging thread: outside, in [routine_ping], in [routine_sync] (of a start
    or of a ping), in the rest of [routine_start]; it comes back to [P_idle] with
    a result. *)
Inductive ppc :=
| P_idle (ret : Z)
| P_signal | P_unlock
| P_wait (starting : bool) | P_blocked (starting : bool) | P_woken (starting : bool) (ret : Z)
| P_start_lock | P_start_unlock.

Record state := State {
  ping_me : bool;
  pong_me : bool;
  alive : bool;
  worker : wpc;
  pinger : ppc;
  (** history: signals of [ping] sent, runs of the task begun, and wake-ups of
      the worker nobody asked for *)
  sent : nat;
  runs : nat;
  spurious : nat
}.

Definition at_worker (w : wpc) (s : state) : state :=
  State (ping_me s) (pong_me s) (alive s) w (pinger s) (sent s) (runs s) (spurious s).
Definition at_pinger (p : ppc) (s : state) : state :=
  State (ping_me s) (pong_me s) (alive s) (worker s) p (sent s) (runs s) (spurious s).
Definition with_ping (b : bool) (s : state) : state :=
  State b (pong_me s) (alive s) (worker s) (pinger s) (sent s) (runs s) (spurious s).
Definition with_pong (b : bool) (s : state) : state :=
  State (ping_me s) b (alive s) (worker s) (pinger s) (sent s) (runs s) (spurious s).

(** [pthread_cond_signal(&r->pong)]: the pinging thread, if it waits. *)
Definition signal_pong (s : state) : state :=
  match pinger s with
  | P_blocked b => at_pinger (P_woken b 0) s
  | _ => s
  end.

(** [pthread_cond_signal(&r->ping)]: the worker, if it waits. *)
Definition signal_ping (s : state) : state :=
  match worker s with
  | W_blocked => at_worker W_woken s
  | _ => s
  end.

Definition count_sent (s : state) : state :=
  State (ping_me s) (pong_me s) (alive s) (worker s) (pinger s) (S (sent s)) (runs s) (spurious s).
Definition count_run (s : state) : state :=
  State (ping_me s) (pong_me s) (alive s) (worker s) (pinger s) (sent s) (S (runs s)) (spurious s).
Definition count_spurious (s : state) : state :=
  State (ping_me s) (pong_me s) (alive s) (worker s) (pinger s) (sent s) (runs s) (S (spurious s)).

(** [routine_main].  The condition [ping] can wake the worker without a signal; the
    wait for [pong] of the pinging thread wakes by a signal or by its time-out only. *)
Inductive worker_step : state → state → Prop :=
| ws_lock_pong s : worker s = W_lock_pong → pong_me s = false →
    worker_step s (at_worker W_lock_ping (with_pong true s))
| ws_lock_ping s : worker s = W_lock_ping → ping_me s = false →
    worker_step s (at_worker W_signal (with_ping true s))
| ws_signal s : worker s = W_signal →
    worker_step s (at_worker W_unlock_pong (signal_pong s))
| ws_unlock_pong s : worker s = W_unlock_pong →
    worker_step s (at_worker W_test (with_pong false s))
| ws_test s : worker s = W_test →
    worker_step s (at_worker (if alive s then W_wait else W_exit) s)
| ws_wait s : worker s = W_wait →
    worker_step s (at_worker W_blocked (with_ping false s))
| ws_spurious s : worker s = W_blocked →
    worker_step s (at_worker W_woken (count_spurious s))
| ws_woken s : worker s = W_woken → ping_me s = false →
    worker_step s (at_worker W_lock_pong2 (with_ping true s))
| ws_lock_pong2 s : worker s = W_lock_pong2 → pong_me s = false →
    worker_step s (at_worker W_signal2 (with_pong true s))
| ws_signal2 s : worker s = W_signal2 →
    worker_step s (at_worker W_unlock_pong2 (signal_pong s))
| ws_unlock_pong2 s : worker s = W_unlock_pong2 →
    worker_step s (at_worker W_task (count_run (with_pong false s)))
| ws_task s : worker s = W_task → worker_step s (at_worker W_due s)
| ws_due s : worker s = W_due → worker_step s (at_worker W_test s).

(** [routine_ping], [routine_sync] and the end of [routine_start].  A timed lock
    with a timeout in the past is a try. *)
Inductive pinger_step : state → state → Prop :=
| ps_busy s z : pinger s = P_idle z → ping_me s = true →
    pinger_step s (at_pinger (P_idle (-1)) s)
| ps_lock s z : pinger s = P_idle z → ping_me s = false →
    pinger_step s (at_pinger P_signal (with_ping true s))
| ps_signal s : pinger s = P_signal →
    pinger_step s (at_pinger P_unlock (count_sent (signal_ping s)))
| ps_unlock s : pinger s = P_unlock →
    pinger_step s (at_pinger (P_wait false) (with_ping false s))
| ps_wait s b : pinger s = P_wait b →
    pinger_step s (at_pinger (P_blocked b) (with_pong false s))
| ps_timeout s b : pinger s = P_blocked b →
    pinger_step s (at_pinger (P_woken b (-1)) s)
| ps_synced s b z : pinger s = P_woken b z → pong_me s = false →
    pinger_step s
      (at_pinger (if b && (z =? 0)%Z then P_start_lock else P_idle z) (with_pong true s))
| ps_start_lock s : pinger s = P_start_lock → ping_me s = false →
    pinger_step s (at_pinger P_start_unlock (with_ping true s))
| ps_start_unlock s : pinger s = P_start_unlock →
    pinger_step s (at_pinger (P_idle 0) (with_ping false s)).

Definition step (s s' : state) : Prop := worker_step s s' ∨ pinger_step s s'.

(** [routine_start] has set [alive] and created the thread, and is about to wait. *)
Definition started : state := State false false true W_lock_pong (P_wait true) 0 0 0.

Definition reachable (s : state) : Prop := rtc step started s.

(** * Who holds what *)

(** The worker holds [ping_me] from the time it gets it to the time it waits. *)
Definition holds_ping (w : wpc) : bool :=
  match w with
  | W_lock_pong | W_lock_ping | W_blocked | W_woken => false
  | _ => true
  end.

Definition pinger_holds_ping (p : ppc) : bool :=
  match p with
  | P_signal | P_unlock | P_start_unlock => true
  | _ => false
  end.

(** The worker has announced itself. *)
Definition announced (w : wpc) : bool :=
  match w with
  | W_lock_pong | W_lock_ping | W_signal => false
  | _ => true
  end.

(** [routine_start] has been answered. *)
Definition answered (p : ppc) : bool :=
  match p with
  | P_woken true 0%Z | P_start_lock | P_start_unlock => true
  | _ => false
  end.

(** The pinging thread is still in [routine_start]. *)
Definition in_start (p : ppc) : bool :=
  match p with
  | P_wait true | P_blocked true | P_woken true _ | P_start_lock | P_start_unlock => true
  | _ => false
  end.

(** The worker is awake and has not yet begun its task. *)
Definition in_flight (w : wpc) : nat :=
  match w with
  | W_woken | W_lock_pong2 | W_signal2 | W_unlock_pong2 => 1
  | _ => 0
  end.

Record inv (s : state) : Prop := {
  i_ping : ping_me s = holds_ping (worker s) || pinger_holds_ping (pinger s);
  i_excl : holds_ping (worker s) && pinger_holds_ping (pinger s) = false;
  i_alive : alive s = true;
  i_start : answered (pinger s) = true → announced (worker s) = true;
  i_sent : in_start (pinger s) = true → sent s = 0;
  i_runs : runs s + in_flight (worker s) ≤ sent s + spurious s
}.

(** [crush] evaluates a step on a state whose program counters are known. *)
Ltac crush :=
  repeat match goal with
  | s : state |- _ => destruct s
  | H : _ = ?x |- _ => is_var x; subst x
  end; unfold signal_pong, signal_ping in *; simpl in *; simplify_eq; simpl in *;
  repeat match goal with
  | H : context [match ?x with _ => _ end] |- _ => is_var x; destruct x; simpl in *; simplify_eq
  | |- context [match ?x with _ => _ end] => is_var x; destruct x; simpl in *; simplify_eq
  end; try done; try lia.

Lemma inv_step s s' : inv s → step s s' → inv s'.
Proof. intros [H1 H2 H3 H4 H5 H6] [Hs|Hs]; destruct Hs; split; crush. Qed.

Lemma inv_started : inv started.
Proof. by split. Qed.

Lemma rtc_inv {A} (R : A → A → Prop) (P : A → Prop) x y :
  (∀ x y, P x → R x y → P y) → P x → rtc R x y → P y.
Proof. intros HP Hx H. induction H as [|x1 x2 x3 Hs _ IH]; [done|]. by eapply IH, HP. Qed.

Lemma reachable_inv s : reachable s → inv s.
Proof. apply rtc_inv, inv_started. apply inv_step. Qed.

(** * Calm runs

    Nobody wakes up without a reason, no wait times out, and the thread that
    starts the routine waits before the worker announces itself. *)

Definition calm (s s' : state) : Prop :=
  step s s' ∧ spurious s' = spurious s ∧ ∀ b, pinger s' ≠ P_woken b (-1).

Definition awaited : state := State false false true W_lock_pong (P_blocked true) 0 0 0.

Definition calmly (s : state) : Prop := rtc calm awaited s.

Definition holds_pong (w : wpc) : bool :=
  match w with
  | W_lock_ping | W_signal | W_unlock_pong | W_signal2 | W_unlock_pong2 => true
  | _ => false
  end.

(** Between two waits it is the pinging side that keeps [pong_me]. *)
Definition pinger_holds_pong (p : ppc) : bool :=
  match p with
  | P_blocked _ | P_woken _ _ => false
  | _ => true
  end.

(** Where the worker can be while the pinging thread is at a given statement. *)
Definition phase (p : ppc) (w : wpc) : bool :=
  match p, w with
  | P_blocked true, (W_lock_pong | W_lock_ping | W_signal) => true
  | P_woken true 0%Z, (W_unlock_pong | W_test | W_wait | W_blocked) => true
  | P_start_lock, (W_test | W_wait | W_blocked) => true
  | P_start_unlock, W_blocked => true
  | P_idle (0%Z | (-1)%Z), (W_test | W_wait | W_blocked | W_task | W_due) => true
  | P_signal, W_blocked => true
  | P_unlock, W_woken => true
  | P_wait false, (W_woken | W_lock_pong2) => true
  | P_blocked false, (W_woken | W_lock_pong2 | W_signal2) => true
  | P_woken false 0%Z, (W_unlock_pong2 | W_task | W_due | W_test | W_wait | W_blocked) => true
  | _, _ => false
  end.

Record calm_inv (s : state) : Prop := {
  ci_inv : inv s;
  ci_phase : phase (pinger s) (worker s) = true;
  ci_pong : pong_me s = holds_pong (worker s) || pinger_holds_pong (pinger s);
  ci_count : sent s = runs s + in_flight (worker s)
}.

Lemma calm_inv_step s s' : calm_inv s → calm s s' → calm_inv s'.
Proof.
  intros [Hi Hp Hq Hc] (Hs & Hsp & Ht). split; [by eapply inv_step|..];
    destruct Hi as [H1 H2 H3 _ _ _]; destruct Hs as [Hs|Hs]; destruct Hs; crush;
    try (by exfalso; eapply Ht); match goal with
    | p : ppc |- _ => destruct p; crush
    | w : wpc |- _ => destruct w; crush
    end.
Qed.

Lemma awaited_inv : calm_inv awaited.
Proof. by repeat split. Qed.

Lemma calmly_inv s : calmly s → calm_inv s.
Proof. apply rtc_inv, awaited_inv. apply calm_inv_step. Qed.

(** ** Executing a schedule *)

(** The step each thread makes next, if it is not blocked; wake-ups without a
    signal are not taken. *)
Definition worker_next (s : state) : option state :=
  match worker s with
  | W_lock_pong => if pong_me s then None else Some (at_worker W_lock_ping (with_pong true s))
  | W_lock_ping => if ping_me s then None else Some (at_worker W_signal (with_ping true s))
  | W_signal => Some (at_worker W_unlock_pong (signal_pong s))
  | W_unlock_pong => Some (at_worker W_test (with_pong false s))
  | W_test => Some (at_worker (if alive s then W_wait else W_exit) s)
  | W_wait => Some (at_worker W_blocked (with_ping false s))
  | W_woken => if ping_me s then None else Some (at_worker W_lock_pong2 (with_ping true s))
  | W_lock_pong2 => if pong_me s then None else Some (at_worker W_signal2 (with_pong true s))
  | W_signal2 => Some (at_worker W_unlock_pong2 (signal_pong s))
  | W_unlock_pong2 => Some (at_worker W_task (count_run (with_pong false s)))
  | W_task => Some (at_worker W_due s)
  | W_due => Some (at_worker W_test s)
  | W_blocked | W_exit => None
  end.

(** A ping that finds [ping_me] locked does not count as a step here. *)
Definition pinger_next (s : state) : option state :=
  match pinger s with
  | P_idle _ => if ping_me s then None else Some (at_pinger P_signal (with_ping true s))
  | P_signal => Some (at_pinger P_unlock (count_sent (signal_ping s)))
  | P_unlock => Some (at_pinger (P_wait false) (with_ping false s))
  | P_wait b => Some (at_pinger (P_blocked b) (with_pong false s))
  | P_blocked _ => None
  | P_woken b z =>
      if pong_me s then None
      else Some (at_pinger (if b && (z =? 0)%Z then P_start_lock else P_idle z) (with_pong true s))
  | P_start_lock => if ping_me s then None else Some (at_pinger P_start_unlock (with_ping true s))
  | P_start_unlock => Some (at_pinger (P_idle 0) (with_ping false s))
  end.

(** [true] is a step of the worker, [false] one of the pinging thread. *)
Definition turn_of (b : bool) (s : state) : option state :=
  if b then worker_next s else pinger_next s.

Fixpoint schedule (l : list bool) (s : state) : option state :=
  match l with
  | [] => Some s
  | b :: l => turn_of b s ≫= schedule l
  end.

Lemma worker_next_step s s' : worker_next s = Some s' → worker_step s s'.
Proof.
  unfold worker_next. destruct (worker s) eqn:Ew; intros Hs.
  - destruct (pong_me s) eqn:Em; simplify_eq. by apply ws_lock_pong.
  - destruct (ping_me s) eqn:Em; simplify_eq. by apply ws_lock_ping.
  - simplify_eq. by apply ws_signal.
  - simplify_eq. by apply ws_unlock_pong.
  - simplify_eq. by apply ws_test.
  - simplify_eq. by apply ws_wait.
  - done.
  - destruct (ping_me s) eqn:Em; simplify_eq. by apply ws_woken.
  - destruct (pong_me s) eqn:Em; simplify_eq. by apply ws_lock_pong2.
  - simplify_eq. by apply ws_signal2.
  - simplify_eq. by apply ws_unlock_pong2.
  - simplify_eq. by apply ws_task.
  - simplify_eq. by apply ws_due.
  - done.
Qed.

Lemma pinger_next_step s s' : pinger_next s = Some s' → pinger_step s s'.
Proof.
  unfold pinger_next. destruct (pinger s) as [z| | |b|b|b z| |] eqn:Ep; intros Hs.
  - destruct (ping_me s) eqn:Em; simplify_eq. by apply (ps_lock s z).
  - simplify_eq. by apply ps_signal.
  - simplify_eq. by apply ps_unlock.
  - simplify_eq. by apply ps_wait.
  - done.
  - destruct (pong_me s) eqn:Em; simplify_eq. by apply ps_synced.
  - destruct (ping_me s) eqn:Em; simplify_eq. by apply ps_start_lock.
  - simplify_eq. by apply ps_start_unlock.
Qed.

Lemma turn_of_calm b s s' :
  (∀ c, pinger s ≠ P_woken c (-1)) → turn_of b s = Some s' →
  calm s s' ∧ ∀ c, pinger s' ≠ P_woken c (-1).
Proof.
  intros Hq Hs. assert (spurious s' = spurious s ∧ ∀ c, pinger s' ≠ P_woken c (-1)) as [Hsp Hq'].
  { destruct b; simpl in Hs; unfold worker_next, pinger_next in Hs;
      [destruct (worker s)|destruct (pinger s) eqn:Ep]; repeat case_match; simplify_eq;
      unfold signal_pong, signal_ping; repeat case_match; simpl; try done;
      split; try done; intros c; simpl; try congruence; repeat case_match; congruence. }
  split; [|done]. split; [|done]. destruct b.
  - left. by apply worker_next_step.
  - right. by apply pinger_next_step.
Qed.

Lemma schedule_calm l : ∀ s s',
  (∀ c, pinger s ≠ P_woken c (-1)) → schedule l s = Some s' → rtc calm s s'.
Proof.
  induction l as [|b l IH]; intros s s' Hq Hs; simpl in Hs; [simplify_eq; done|].
  destruct (turn_of b s) as [s1|] eqn:Es; [|done]. simpl in Hs.
  destruct (turn_of_calm b s s1 Hq Es) as [Hc Hq1]. eapply rtc_l; [exact Hc|]. by apply IH.
Qed.

Lemma schedule_steps l s s' :
  (∀ c, pinger s ≠ P_woken c (-1)) → schedule l s = Some s' → rtc step s s'.
Proof.
  intros Hq Hs. apply (schedule_calm l s s' Hq) in Hs. apply (rtc_subrel calm); [|done].
  by intros ? ? [].
Qed.

Lemma calm_progress s : calm_inv s → is_Some (worker_next s) ∨ is_Some (pinger_next s).
Proof.
  intros [[H1 H2 _ _ _ _] Hp Hq _]. unfold worker_next, pinger_next.
  rewrite H1, Hq. clear H1 Hq. destruct (pinger s) as [z| | |[]|[]|[] z| |], (worker s); simpl in *;
    repeat case_match; simpl in *; simplify_eq; eauto.
Qed.

(** A wedged routine: the worker waits for [pong_me], which the pinging side
    keeps, and holds [ping_me], which every ping tries in vain. *)
Definition wedged (s : state) : Prop :=
  ping_me s = true ∧ pong_me s = true ∧ worker s = W_lock_pong2 ∧ ∃ z, pinger s = P_idle z.

Lemma wedged_step s s' : wedged s → step s s' → wedged s' ∧ runs s' = runs s ∧ sent s' = sent s.
Proof.
  intros (H1 & H2 & H3 & z & H4) [Hs|Hs]; destruct Hs; try congruence.
  split; [|done]. repeat split; try done. by eexists.
Qed.

(** * Properties *)

(** C9. A routine whose worker is anywhere between waking up and waiting again,
    in its task above all, cannot be pinged: in every interleaving the mutex is
    locked, no ping is half-way, and [routine_ping] returns -1 having changed
    nothing. *)
Theorem busy_worker_not_pinged s s' z :
  reachable s → holds_ping (worker s) = true → pinger s = P_idle z → pinger_step s s' →
  s' = at_pinger (P_idle (-1)) s.
Proof.
  intros Hr Hw Hp Hs. destruct (reachable_inv s Hr) as [H1 _ _ _ _ _].
  rewrite Hw in H1. simpl in H1. destruct Hs; congruence.
Qed.

(** [routine_start] returns 0 only once its worker waits for a ping. *)
Theorem start_waits_for_worker s :
  reachable s → pinger s = P_start_unlock →
  worker s = W_blocked ∨ (worker s = W_woken ∧ (0 < spurious s)%nat).
Proof.
  intros Hr Hp. destruct (reachable_inv s Hr) as [_ H2 _ H4 H5 H6].
  rewrite Hp in *. specialize (H4 eq_refl). specialize (H5 eq_refl).
  destruct (worker s); simpl in *; try done; [by left|right]. split; [done|lia].
Qed.

(** C8. In a calm run every ping the pinging thread gets through is answered by
    exactly one run of the task: the pings sent are the runs begun and the one
    under way; and the two threads never block each other, one of them can
    always get further. *)
Theorem ping_runs_task_once s :
  calmly s →
  sent s = runs s + in_flight (worker s)
  ∧ (pinger s = P_signal → worker s = W_blocked)
  ∧ (is_Some (worker_next s) ∨ is_Some (pinger_next s)).
Proof.
  intros Hr. pose proof (calmly_inv s Hr) as Hi.
  split; [apply Hi|]. split; [|by apply calm_progress].
  intros Hp. pose proof (ci_phase s Hi) as Hph. rewrite Hp in Hph. by destruct (worker s).
Qed.

(** A start and a ping, up to the task. *)
Definition start_schedule : list bool :=
  [true; true; true; true; true; true; false; false; false].
Definition ping_schedule : list bool :=
  [false; false; false; false; true; true; true; true; false].
Definition waiting : state := State false true true W_blocked (P_idle 0) 0 0 0.
Definition gathering : state := State true true true W_task (P_idle 0) 1 1 0.

Lemma waiting_calmly : calmly waiting.
Proof. by apply (schedule_calm start_schedule). Qed.

Lemma gathering_calmly : calmly gathering.
Proof. by apply (schedule_calm (start_schedule ++ ping_schedule)). Qed.

Lemma calmly_reachable s : calmly s → reachable s.
Proof.
  intros H. eapply rtc_l; [right; by eapply ps_wait|]. apply (rtc_subrel calm); [|done].
  by intros ? ? [].
Qed.

Lemma busy_worker_not_pinged_witness :
  ∃ s', pinger_step gathering s' ∧ s' = at_pinger (P_idle (-1)) gathering.
Proof.
  eexists. split; [by apply (ps_busy gathering 0)|].
  apply (busy_worker_not_pinged gathering (at_pinger (P_idle (-1)) gathering) 0).
  - apply calmly_reachable, gathering_calmly.
  - reflexivity.
  - reflexivity.
  - by apply (ps_busy gathering 0).
Defined.

Definition starting : state := State true true true W_blocked P_start_unlock 0 0 0.

Lemma start_waits_for_worker_witness :
  worker starting = W_blocked ∨ (worker starting = W_woken ∧ (0 < spurious starting)%nat).
Proof.
  apply start_waits_for_worker; [|reflexivity].
  apply calmly_reachable. by apply (schedule_calm [true; true; true; true; true; true; false; false]).
Defined.

Lemma ping_runs_task_once_witness :
  sent gathering = runs gathering + in_flight (worker gathering)
  ∧ (pinger gathering = P_signal → worker gathering = W_blocked)
  ∧ (is_Some (worker_next gathering) ∨ is_Some (pinger_next gathering)).
Proof. apply ping_runs_task_once, gathering_calmly. Defined.

(** C32. One wake-up without a ping, which POSIX allows, can wedge a routine for
    good: the worker waits for [pong_me], which the last [routine_sync] left
    locked, while it holds [ping_me], so every later ping fails; short of a restart
    the task never runs again. *)
Theorem spurious_wakeup_wedges :
  ∃ s, reachable s ∧ spurious s = 1 ∧ ∀ s', rtc step s s' → wedged s' ∧ runs s' = runs s.
Proof.
  exists (State true true true W_lock_pong2 (P_idle 0) 0 0 1). split; [|split; [done|]].
  - unfold reachable. transitivity waiting; [apply calmly_reachable, waiting_calmly|].
    eapply rtc_l; [left; by eapply ws_spurious|].
    by apply (schedule_steps [true]).
  - intros s' Hs. set (s0 := State _ _ _ _ _ _ _ _) in *.
    apply (rtc_inv step (λ s, wedged s ∧ runs s = runs s0) s0 s'); [| |done].
    + intros x y [Hx Ex] Hxy. destruct (wedged_step x y Hx Hxy) as (? & -> & _). done.
    + split; [|done]. repeat split. by eexists.
Qed.

End Threads.
