(* ===== verification/Restart.v ===== *)
(** src/routine.c: [routine_stop] and [routine_restart], over the threads of
    Handshake.  [pthread_cancel] only asks a thread to end: it goes on until a
    cancellation point, which are the calls of its task (reading, popen, posting)
    and [pthread_cond_wait], but not [pthread_mutex_lock].  A thread that ends in
    [pthread_cond_wait] has got the mutex back before.  [routine_stop] does not
    wait for it: it unlocks both mutexes, and [routine_start] creates the next
    thread. *)
From Stdlib Require Import ZArith Lia.
From stdpp Require Import base list relations numbers.
From S2P Require Import Prelude Handshake.

Module Restart.
Import Threads.

(** The thread that restarts, at the next statement of [routine_stop] and of the
    first part of [routine_start]; [R_none] outside. *)
Inductive rpc :=
| R_none
| R_dead | R_cancel | R_unlock_ping | R_unlock_pong
| R_alive | R_create.

(** The current worker and the pinging thread, and the workers that were cancelled
    and have not ended yet. *)
Record rstate := RState { base : state; olds : list wpc; stage : rpc }.

Definition with_alive (b : bool) (s : state) : state :=
  State (ping_me s) (pong_me s) b (worker s) (pinger s) (sent s) (runs s) (spurious s).

(** [pthread_create]: a new worker; the history is that of the new worker. *)
Definition create (s : state) : state :=
  State (ping_me s) (pong_me s) (alive s) W_lock_pong (P_wait true) 0 0 0.

Inductive rstep : rstate → rstate → Prop :=
| r_worker s s' o st : worker_step s s' → rstep (RState s o st) (RState s' o st)
| r_pinger s s' o : pinger_step s s' → rstep (RState s o R_none) (RState s' o R_none)
(** [routine_restart] *)
| r_restart s o z : pinger s = P_idle z → rstep (RState s o R_none) (RState s o R_dead)
| r_dead s o : rstep (RState s o R_dead) (RState (with_alive false s) o R_cancel)
| r_cancel s o :
    rstep (RState s o R_cancel) (RState (at_worker W_exit s) (worker s :: o) R_unlock_ping)
| r_unlock_ping s o :
    rstep (RState s o R_unlock_ping) (RState (with_ping false s) o R_unlock_pong)
| r_unlock_pong s o :
    rstep (RState s o R_unlock_pong) (RState (with_pong false s) o R_alive)
| r_alive s o : rstep (RState s o R_alive) (RState (with_alive true s) o R_create)
| r_create s o : rstep (RState s o R_create) (RState (create s) o R_none)
(** A cancelled worker goes on, ends in its task, or ends in its wait. *)
| r_old s o st i pc s' :
    o !! i = Some pc → pc ≠ W_blocked → worker_step (at_worker pc s) s' →
    rstep (RState s o st) (RState (at_worker (worker s) s') (<[i := worker s']> o) st)
| r_end_task s o st i :
    o !! i = Some W_task → rstep (RState s o st) (RState s (delete i o) st)
| r_end_wait s o st i :
    o !! i = Some W_blocked → ping_me s = false →
    rstep (RState s o st) (RState (with_ping true s) (delete i o) st).

(** A restart of a worker that is in its task. *)
Definition restarting (s : state) : rstate := RState s [] R_dead.

(** The cancellation acts in the task: a cancelled worker makes no other step. *)
Definition prompt (x y : rstate) : Prop := rstep x y ∧ Forall (λ pc, pc = W_task) (olds y).

(** What is known at each statement of a prompt restart. *)
Definition between (x : rstate) : Prop :=
  Forall (λ pc, pc = W_task) (olds x) ∧
  match stage x with
  | R_none => reachable (base x)
  | R_dead | R_cancel => True
  | R_unlock_ping => worker (base x) = W_exit
  | R_unlock_pong => worker (base x) = W_exit ∧ ping_me (base x) = false
  | R_alive => worker (base x) = W_exit ∧ ping_me (base x) = false ∧ pong_me (base x) = false
  | R_create =>
      worker (base x) = W_exit ∧ ping_me (base x) = false ∧ pong_me (base x) = false ∧
      alive (base x) = true
  end.

Lemma exit_worker s s' : worker s = W_exit → ¬ worker_step s s'.
Proof. intros H Hs. destruct Hs; congruence. Qed.

Lemma create_started s :
  ping_me s = false → pong_me s = false → alive s = true → create s = started.
Proof. destruct s. simpl. by intros -> -> ->. Qed.

Lemma task_step s s' : worker_step (at_worker W_task s) s' → worker s' = W_due.
Proof. intros H. inversion H; simpl in *; simplify_eq; done. Qed.

Lemma between_step x y : between x → prompt x y → between y.
Proof.
  intros [Ho Hb] [Hs Hy]. split; [done|].
  destruct Hs as [s s' o st Hw|s s' o Hp|s o z Hz|s o|s o|s o|s o|s o|s o|
    s o st i pc s' Hi Hne Hw|s o st i Hi|s o st i Hi Hp]; simpl in *; try done; try tauto.
  - destruct st; try done; try (exfalso; by eapply exit_worker, Hw; tauto).
    eapply rtc_r; [exact Hb|]. by left.
  - eapply rtc_r; [exact Hb|]. by right.
  - destruct Hb as (_ & Hp & Hq & Ha). rewrite create_started by done. apply rtc_refl.
  - rewrite (Forall_lookup_1 _ _ _ _ Ho Hi) in Hw. apply task_step in Hw.
    assert (Hl : <[i := worker s']> o !! i = Some (worker s')).
    { rewrite list_lookup_insert_eq; [done|by eapply lookup_lt_Some]. }
    pose proof (Forall_lookup_1 _ _ _ _ Hy Hl) as Hc. simpl in Hc. congruence.
  - by pose proof (Forall_lookup_1 _ _ _ _ Ho Hi).
Qed.

(** ** Restarting, step by step *)

(** The steps of the base go on under a restart that is over. *)
Lemma base_steps s s' o :
  rtc step s s' → rtc rstep (RState s o R_none) (RState s' o R_none).
Proof.
  induction 1 as [|s s1 s' [H|H] _ IH]; [apply rtc_refl|..].
  - eapply rtc_l; [by apply r_worker|done].
  - eapply rtc_l; [by apply r_pinger|done].
Qed.

Lemma base_steps_prompt s s' :
  rtc step s s' → rtc prompt (RState s [] R_none) (RState s' [] R_none).
Proof.
  induction 1 as [|s s1 s' [H|H] _ IH]; [apply rtc_refl|..];
    (eapply rtc_l; [split; [first [by apply r_worker|by apply r_pinger]|apply Forall_nil_2]|done]).
Qed.

(** What [routine_stop] leaves, before the thread is created. *)
Definition stopped (s : state) : state :=
  with_alive true (with_pong false (with_ping false (at_worker W_exit (with_alive false s)))).

(** The statements of [routine_stop] and [routine_start] up to the new thread. *)
Lemma stop_start s o :
  rtc rstep (RState s o R_dead) (RState started (worker s :: o) R_none).
Proof.
  eapply rtc_l; [apply r_dead|]. eapply rtc_l; [apply r_cancel|].
  eapply rtc_l; [apply r_unlock_ping|]. eapply rtc_l; [apply r_unlock_pong|].
  eapply rtc_l; [apply r_alive|]. apply rtc_once. exact (r_create (stopped s) (worker s :: o)).
Qed.

Lemma stop_start_prompt s :
  worker s = W_task → rtc prompt (restarting s) (RState started [] R_none).
Proof.
  intros Hw. assert (Ho : Forall (λ pc, pc = W_task) [worker s]).
  { apply Forall_cons_2; [done|apply Forall_nil_2]. }
  eapply rtc_l; [split; [apply r_dead|apply Forall_nil_2]|].
  eapply rtc_l; [split; [apply r_cancel|exact Ho]|].
  eapply rtc_l; [split; [by eapply (r_end_task _ _ _ 0); simpl; rewrite Hw|apply Forall_nil_2]|].
  eapply rtc_l; [split; [apply r_unlock_ping|apply Forall_nil_2]|].
  eapply rtc_l; [split; [apply r_unlock_pong|apply Forall_nil_2]|].
  eapply rtc_l; [split; [apply r_alive|apply Forall_nil_2]|].
  apply rtc_once. split; [exact (r_create (stopped s) [])|apply Forall_nil_2].
Qed.

Lemma started_waiting : rtc step started waiting.
Proof. apply calmly_reachable, waiting_calmly. Qed.
Lemma started_gathering : rtc step started gathering.
Proof. apply calmly_reachable, gathering_calmly. Qed.

(** ** Properties *)

(** C10. A restart whose cancellation acts in the task recovers the routine: whatever
    the interleaving, once the restart is over the new worker and the pinging
    thread are in a state that a freshly started routine can be in; and the new
    worker can get to wait for pings with no thread left behind. *)
Theorem restart_recovers s :
  worker s = W_task →
  (∀ x, rtc prompt (restarting s) x → stage x = R_none → reachable (base x)) ∧
  rtc prompt (restarting s) (RState waiting [] R_none).
Proof.
  intros Hw. split.
  - intros x Hx Hst. assert (Hb : between x).
    { apply (rtc_inv prompt between (restarting s)); [apply between_step| |done].
      split; [apply Forall_nil_2|done]. }
    destruct Hb as [_ Hb]. by rewrite Hst in Hb.
  - etrans; [by apply stop_start_prompt|]. apply base_steps_prompt, started_waiting.
Qed.

(** C11. A restart does not wait for the thread it cancels: from every state in which
    the worker is in its task, the next worker can come to run the task as well,
    at the same time. *)
Theorem restart_runs_two_tasks s :
  worker s = W_task →
  ∃ x, rtc rstep (restarting s) x ∧ worker (base x) = W_task ∧ olds x = [W_task].
Proof.
  intros Hw. exists (RState gathering [W_task] R_none). split; [|done].
  etrans; [apply (stop_start s [])|]. rewrite Hw. apply base_steps, started_gathering.
Qed.

Lemma restart_recovers_witness :
  worker gathering = W_task ∧ rtc prompt (restarting gathering) (RState waiting [] R_none).
Proof. exact (conj eq_refl (proj2 (restart_recovers gathering eq_refl))). Defined.

Lemma restart_runs_two_tasks_witness :
  worker gathering = W_task ∧
  ∃ x, rtc rstep (restarting gathering) x ∧ worker (base x) = W_task ∧ olds x = [W_task].
Proof. exact (conj eq_refl (restart_runs_two_tasks gathering eq_refl)). Defined.
End Restart.
