(* ===== verification/Scheduler.v ===== *)
(** src/scheduler.c and the loop of src/agent.c that drives it: who is pinged
    when, and who is restarted. *)
From Stdlib Require Import ZArith Ascii Lia SpecFloat.
From stdpp Require Import base list strings numbers gmap relations.
From S2P Require Import Prelude.
From S2P Require Import Clib.
From S2P Require Import Packet.
From S2P Require Import Routine.
From S2P Require Import Plugin.
From S2P Require Import Handshake.

Local Open Scope Z_scope.

Definition scheduler_init (pt : pthread_results) (sch : option routine_t) : Z * option routine_t :=
  match routine_init pt sch with
  | (z, Some r) =>
      if z <? 0 then (-1, Some r)
      else
        let r := set_tag (Some "scheduler"%string) r in
        let r := set_tick SCHEDULER_TICK r in
        let r := set_task (Some scheduler_main_fn) r in
        (0, Some r)
  | (_, None) => (-1, None)
  end.

(** [scheduler_fini] *)
Definition scheduler_fini (pt : pthread_results) (join : Z) : unit :=
  let _ := routine_fini pt join in tt.

(** What the scheduler and the main loop do to a routine. *)
Inductive action := Ping (i : nat) | Restart (i : nat).

(** [routine_restart], as far as the record goes. *)
Definition routine_restart_record (r : routine_t) : routine_t :=
  routine_start_record (routine_stop_record r).

Section Scheduler.
Context {E M : Type}.

(** The clock at the test of each plugin, and the result of each ping. *)
Variables (now : nat → Z) (ping : nat → Z).

(** The loop of [scheduler_main] from plugin [i] on. *)
Fixpoint scheduler_loop (i : nat) (ps : list (option (plugin_t E M)))
    : list action * list (option (plugin_t E M)) :=
  match ps with
  | [] => ([], [])
  | None :: _ => ([], ps)
  | Some p :: ps =>
      let '(acts, p) :=
        if routine_alive (r p) && routine_overdue (now i) (r p) then
          if (ping i <? 0) && plugin_gather_phase p
          then ([Ping i; Restart i], set_r (routine_restart_record (r p)) p)
          else ([Ping i], p)
        else ([], p) in
      let '(acts', ps') := scheduler_loop (S i) ps in
      (acts ++ acts', Some p :: ps')
  end.

(** [scheduler_main] on the first [pluginc] entries of the array. *)
Definition scheduler_main (pluginc : Z) (plugins : list (option (plugin_t E M)))
    : Z * list action * list (option (plugin_t E M)) :=
  let n := Z.to_nat pluginc in
  let '(acts, ps) := scheduler_loop 0 (take n plugins) in
  (0, acts, ps ++ drop n plugins).

End Scheduler.

(** * The main loop *)

(** The clock at the two tests and the result of the ping of the scheduler. *)
Record loop_env := LoopEnv { le_now_sch : Z; le_now_st : Z; le_ping_sch : Z }.

Inductive main_action := PingScheduler | RestartScheduler | PingStorage | Pause (t : float).

(** One round of [while(routine_alive(&sch) && routine_alive(&st))]; [None] when
    the loop ends. *)
Definition main_round (e : loop_env) (sch st : routine_t)
    : option (list main_action * routine_t * routine_t) :=
  if routine_alive sch && routine_alive st then
    let '(a1, sch) :=
      if routine_overdue (le_now_sch e) sch then
        if le_ping_sch e <? 0 then ([PingScheduler; RestartScheduler], routine_restart_record sch)
        else ([PingScheduler], sch)
      else ([], sch) in
    let a2 := if routine_overdue (le_now_st e) st then [PingStorage] else [] in
    Some (a1 ++ a2 ++ [Pause (f32_of_f64 (f64_lit 7 100))], sch, st)
  else None.

(** The rounds of the loop, and what it leaves when it ends. *)
Fixpoint main_rounds (es : list loop_env) (sch st : routine_t)
    : list main_action * option (routine_t * routine_t) :=
  match es with
  | [] => ([], Some (sch, st))
  | e :: es =>
      match main_round e sch st with
      | None => ([], None)
      | Some (a, sch, st) => let '(a', o) := main_rounds es sch st in (a ++ a', o)
      end
  end.

(** * A routine in time *)

(** The threads of a routine together with its record and the clock: [routine_main]
    reads the clock when it has answered the ping, calls the task, and sets [due]
    when the task has returned. *)
Module Timed.

Record timed := State {
  th : Threads.state;
  rec : routine_t;
  clock : Z;
  begin : Z;       (* the local variable of [routine_main] *)
  ended : nat      (* history: turns that have ended *)
}.

Inductive tstep : timed → timed → Prop :=
| t_clock s t : clock s ≤ t → tstep s (State (th s) (rec s) t (begin s) (ended s))
| t_pinger s h : Threads.pinger_step (th s) h → tstep s (State h (rec s) (clock s) (begin s) (ended s))
| t_worker s h :
    Threads.worker_step (th s) h →
    Threads.worker (th s) ≠ Threads.W_unlock_pong2 → Threads.worker (th s) ≠ Threads.W_due →
    tstep s (State h (rec s) (clock s) (begin s) (ended s))
(** [epoch_t begin = epoch_time();] *)
| t_begin s h :
    Threads.worker_step (th s) h → Threads.worker (th s) = Threads.W_unlock_pong2 →
    tstep s (State h (rec s) (clock s) (clock s) (ended s))
(** In [r->task(r)]: a task may change the task pointer, [tick] and [delay]. *)
| t_task s r' :
    Threads.worker (th s) = Threads.W_task → due r' = due (rec s) → alive r' = alive (rec s) →
    tstep s (State (th s) r' (clock s) (begin s) (ended s))
(** [r->due = begin + (epoch_t)(r->tick*MSPS);] *)
| t_due s h d :
    Threads.worker_step (th s) h → Threads.worker (th s) = Threads.W_due →
    next_due (begin s) (rec s) = Some d →
    tstep s (State h (set_due d (rec s)) (clock s) (begin s) (S (ended s))).

(** [routine_start] has set [alive] and [due], at the time [t]. *)
Definition tstart (r0 : routine_t) (t : Z) : timed := State Threads.started (routine_start_record r0) t 0 0.

Definition in_task (w : Threads.wpc) : bool :=
  match w with Threads.W_task | Threads.W_due => true | _ => false end.

(** Every turn that was begun has ended, but the one under way. *)
Definition counted (s : timed) : Prop :=
  Threads.runs (th s) = (ended s + if in_task (Threads.worker (th s)) then 1 else 0)%nat.

Lemma pinger_keeps h h' :
  Threads.pinger_step h h' →
  Threads.runs h' = Threads.runs h ∧ in_task (Threads.worker h') = in_task (Threads.worker h).
Proof.
  destruct 1 as [| |h| | | | | |]; try done. unfold Threads.signal_ping. by destruct (Threads.worker h) eqn:E; simpl; rewrite ?E.
Qed.

Lemma worker_keeps h h' :
  Threads.worker_step h h' → Threads.worker h ≠ Threads.W_unlock_pong2 → Threads.worker h ≠ Threads.W_due →
  Threads.runs h' = Threads.runs h ∧ in_task (Threads.worker h') = in_task (Threads.worker h).
Proof.
  destruct 1 as [h E|h E|h E|h E|h E|h E|h E|h E|h E|h E|h E|h E|h E]; intros H1 H2; try done;
    unfold Threads.signal_pong; repeat case_match; simpl; by rewrite ?E.
Qed.

Lemma counted_step s s' : counted s → tstep s s' → counted s'.
Proof.
  unfold counted. intros Hc. destruct 1 as [s t Ht|s h Hs|s h Hs H1 H2|s h Hs H1|s r' Hw Hd Ha|s h d Hs H1 Hd]; cbn [th ended] in *; try done.
  - by apply pinger_keeps in Hs as [-> ->].
  - by apply worker_keeps in Hs as [-> ->].
  - destruct Hs; try congruence. simpl. rewrite Hc, H1. simpl. lia.
  - destruct Hs; try congruence. simpl. rewrite Hc, H1. simpl. lia.
Qed.

Lemma tstep_threads s s' : tstep s s' → rtc Threads.step (th s) (th s').
Proof.
  destruct 1; simpl; try done; apply rtc_once; by (left + right).
Qed.

Lemma run_counted r0 t s : rtc tstep (tstart r0 t) s → counted s.
Proof. by apply (Threads.rtc_inv tstep counted); [apply counted_step|]. Qed.

Lemma run_threads s s' : rtc tstep s s' → rtc Threads.step (th s) (th s').
Proof. induction 1 as [|x y z Hs _ IH]; [done|]. etrans; [by apply tstep_threads|done]. Qed.

Lemma run_alive s s' : rtc tstep s s' → alive (rec s') = alive (rec s).
Proof. induction 1 as [|x y z Hs _ IH]; [done|]. rewrite IH. by destruct Hs. Qed.

(** The clock goes forward, and [due] moves only where a turn ends. *)
Lemma run_due s s' :
  rtc tstep s s' → clock s ≤ clock s' ∧ (ended s ≤ ended s')%nat ∧ (ended s' = ended s → due (rec s') = due (rec s)).
Proof.
  induction 1 as [s|x y z Hs _ (H1 & H2 & H3)]; [done|].
  destruct Hs as [s t Ht|s h Hs|s h Hs|s h Hs|s r' Hw Hd Ha|s h d Hs]; simpl in *;
    (split; [lia|split; [lia|intros E]]); rewrite ?H3 by lia; try done. lia.
Qed.

(** A routine that was overdue while its worker waited is overdue for as long as the
    next turn takes. *)
Lemma still_overdue r0 t a b :
  rtc tstep (tstart r0 t) a → rtc tstep a b → in_task (Threads.worker (th a)) = false →
  routine_overdue (clock a) (rec a) = true → Threads.worker (th b) = Threads.W_task →
  Threads.runs (th b) = S (Threads.runs (th a)) → routine_overdue (clock b) (rec b) = true.
Proof.
  intros Ha Hb Hw Ho Ht Hr. pose proof (run_counted _ _ _ Ha) as Ca.
  assert (counted b) as Cb by (by apply (run_counted r0 t); etrans).
  destruct (run_due a b Hb) as (Hc & _ & Hd). unfold counted in *. rewrite Hw in Ca. rewrite Ht in Cb. simpl in Cb.
  unfold routine_overdue in *. apply Z.leb_le in Ho. apply Z.leb_le. rewrite Hd by lia. lia.
Qed.

(** ** Executing a schedule *)

(** [inl t] waits until the clock shows [t]; the worker's and the pinger's steps
    as in [Threads.schedule]. *)
Definition tnext (x : Z + bool) (s : timed) : option timed :=
  match x with
  | inl t => if clock s <=? t then Some (State (th s) (rec s) t (begin s) (ended s)) else None
  | inr b =>
      h ← Threads.turn_of b (th s);
      if b then
        match Threads.worker (th s) with
        | Threads.W_unlock_pong2 => Some (State h (rec s) (clock s) (clock s) (ended s))
        | Threads.W_due =>
            d ← next_due (begin s) (rec s);
            Some (State h (set_due d (rec s)) (clock s) (begin s) (S (ended s)))
        | _ => Some (State h (rec s) (clock s) (begin s) (ended s))
        end
      else Some (State h (rec s) (clock s) (begin s) (ended s))
  end.

Fixpoint tschedule (l : list (Z + bool)) (s : timed) : option timed :=
  match l with
  | [] => Some s
  | x :: l => tnext x s ≫= tschedule l
  end.

Lemma tnext_step x s s' : tnext x s = Some s' → tstep s s'.
Proof.
  destruct x as [t|[]]; cbn [tnext].
  - destruct (Z.leb_spec (clock s) t); [|done]. intros [= <-]. by apply t_clock.
  - intros (h & E%Threads.worker_next_step & H)%bind_Some.
    destruct (Threads.worker (th s)) eqn:Ew; try (injection H as <-; apply t_worker; congruence).
    + injection H as <-. by apply t_begin.
    + apply bind_Some in H as (d & Hd & [= <-]). by apply t_due.
  - intros (h & E%Threads.pinger_next_step & [= <-])%bind_Some. by apply t_pinger.
Qed.

Lemma tschedule_run l : ∀ s s', tschedule l s = Some s' → rtc tstep s s'.
Proof.
  induction l as [|x l IH]; intros s s'; cbn [tschedule]; [by intros [= <-]|].
  intros (s1 & H1%tnext_step & H2)%bind_Some. eapply rtc_l; [done|by apply IH].
Qed.
End Timed.

(** * Properties *)

Section Spec.
Context {E M : Type}.
Implicit Types p : plugin_t E M.
Implicit Types ps : list (option (plugin_t E M)).
Variables (now : nat → Z) (ping : nat → Z).

Definition due_now (i : nat) (p : plugin_t E M) : bool :=
  routine_alive (r p) && routine_overdue (now i) (r p).

Definition stuck (i : nat) (p : plugin_t E M) : bool :=
  due_now i p && (ping i <? 0) && plugin_gather_phase p.

(** What the turn does to plugin [i], if it gets there. *)
Definition plugin_acts (i : nat) (p : plugin_t E M) : list action :=
  (if due_now i p then [Ping i] else []) ++ (if stuck i p then [Restart i] else []).

Definition after_turn (i : nat) (p : plugin_t E M) : plugin_t E M :=
  if stuck i p then set_r (routine_restart_record (r p)) p else p.

(** The entries in front of the first NULL. *)
Fixpoint present (ps : list (option (plugin_t E M))) : list (plugin_t E M) :=
  match ps with
  | Some p :: ps => p :: present ps
  | _ => []
  end.

Lemma scheduler_loop_ok ps : ∀ i,
  scheduler_loop now ping i ps
  = (mjoin (imap (λ j p, plugin_acts (i + j) p) (present ps)),
     imap (λ j p, Some (after_turn (i + j) p)) (present ps) ++ drop (length (present ps)) ps).
Proof.
  induction ps as [|[p|] ps IH]; intros i; [done| |done]. cbn [scheduler_loop present imap].
  rewrite IH. fold (due_now i p).
  assert (∀ (A : Type) (g : nat → plugin_t E M → A),
    imap (λ j p, g (S i + j)%nat p) (present ps)
    = imap ((λ j p, g (i + j)%nat p) ∘ S) (present ps)) as Hsh.
  { intros A g. apply imap_ext. intros j q _. simpl. f_equal. lia. }
  rewrite (Hsh _ (λ n p, plugin_acts n p)), (Hsh _ (λ n p, Some (after_turn n p))).
  cbn [length drop mjoin list_join app]. rewrite Nat.add_0_r.
  generalize (imap ((λ j p, plugin_acts (i + j)%nat p) ∘ S) (present ps)) as acts.
  generalize (imap ((λ j p, Some (after_turn (i + j)%nat p)) ∘ S) (present ps)) as rest.
  intros rest acts.
  unfold plugin_acts, after_turn, stuck.
  by destruct (due_now i p), (ping i <? 0), (plugin_gather_phase p).
Qed.

(** One turn of the scheduler: it pings exactly the plugins in front of the
    first NULL that are alive and overdue, in order, and restarts exactly those
    of them that are gathering and could not be pinged; all the others, and the
    array behind the first NULL, are left alone. *)
Theorem scheduler_main_spec pluginc plugins :
  let ps := present (take (Z.to_nat pluginc) plugins) in
  ∃ acts plugins', scheduler_main now ping pluginc plugins = (0, acts, plugins')
    ∧ acts = mjoin (imap plugin_acts ps)
    ∧ plugins' = imap (λ i p, Some (after_turn i p)) ps ++ drop (length ps) plugins.
Proof.
  intros ps. unfold scheduler_main. rewrite scheduler_loop_ok. fold ps. eexists _, _.
  split; [done|]. split; [done|]. rewrite <- app_assoc. f_equal.
  assert (length ps ≤ length (take (Z.to_nat pluginc) plugins))%nat as Hl.
  { subst ps. generalize (take (Z.to_nat pluginc) plugins). intros l.
    induction l as [|[p|] l IH]; simpl; lia. }
  rewrite <- drop_app_le by done. by rewrite take_drop.
Qed.

(** The result of a ping of a routine whose threads are in the state [hs]: if
    the ping returns at once, it is what it returns. *)
Definition ping_outcome (hs : Threads.state) (z : Z) : Prop :=
  ∃ hs', Threads.pinger_step hs hs' ∧ ∀ z', Threads.pinger hs' = Threads.P_idle z' → z = z'.


End Spec.

(** The main loop never ends by itself: the only thing it does to the two
    routines it watches is to restart the scheduler, which leaves it alive.  The
    code that finalizes them is not reached. *)
Theorem main_loop_never_ends es sch st :
  routine_alive sch = true → routine_alive st = true →
  ∃ acts sch', main_rounds es sch st = (acts, Some (sch', st)) ∧ routine_alive sch' = true.
Proof.
  revert sch. induction es as [|e es IH]; intros sch Hs Ht; simpl; [by eauto|].
  unfold main_round. rewrite Hs, Ht. simpl.
  set (x := if routine_overdue (le_now_sch e) sch then _ else _).
  assert (routine_alive x.2 = true) as Hx by (subst x; repeat case_match; done).
  destruct x as [a1 sch1]. simpl in Hx.
  destruct (IH sch1 Hx Ht) as (acts & sch' & -> & Ha). by eexists _, sch'.
Qed.

(** * Witnesses *)

(** A routine that is started at 100, pinged at 4000 and still in its task at 9000. *)
Definition slow_start : list (Z + bool) := inr false :: (inr <$> Threads.start_schedule) ++ [inl 4000].
Definition slow_turn : list (Z + bool) := (inr <$> Threads.ping_schedule) ++ [inl 9000].

Definition slow_plugin : plugin_t unit unit := up_plugin None None plugin_gather_fn.

Definition slow_a : Timed.timed := Timed.State Threads.waiting (routine_start_record (r slow_plugin)) 4000 0 0.
Definition slow_b : Timed.timed := Timed.State Threads.gathering (routine_start_record (r slow_plugin)) 9000 4000 0.


Lemma main_loop_never_ends_witness :
  ∃ acts sch', main_rounds [LoopEnv 10 10 (-1); LoopEnv 20 20 0] idle_routine idle_routine
      = (acts, Some (sch', idle_routine)) ∧ routine_alive sch' = true.
Proof. by apply main_loop_never_ends. Defined.
