(* ===== verification/Agent.v ===== *)
(** src/agent.c: the start of the agent (its preconditions, the identities it
    restores from [res/]) and its main loop. *)
From Stdlib Require Import ZArith Ascii Lia SpecFloat.
From stdpp Require Import base list strings numbers gmap.
From S2P Require Import Prelude.
From S2P Require Import Clib.
From S2P Require Import Json.
From S2P Require Import Packet.
From S2P Require Import Sender.
From S2P Require Import Routine.
From S2P Require Import Storage.
From S2P Require Import Plugin.
From S2P Require Import Life.

Local Open Scope Z_scope.

(** * Restoring identities *)

(** The [int] that [fread] makes of four bytes. *)
Definition of_le32 (s : bytes) : Z :=
  match s with
  | [a; b; c; d] =>
      let u := code a + 256 * (code b + 256 * (code c + 256 * code d)) in
      if u <? 2 ^ 31 then u else u - 2 ^ 32
  | _ => 0
  end.

Definition len (s : bytes) : Z := Z.of_nat (length s).

(** [fread(&size, 1, sizeof(size), fp)], on the rest of the file. *)
Definition read_int (s : bytes) : option (Z * bytes) :=
  if len s <? 4 then None else Some (of_le32 (take 4 s), drop 4 s).

(** How many bytes [fread(_, 1, size, fp)] reads: a negative size is a huge one. *)
Definition reads (size : Z) (s : bytes) : Z :=
  if (size <? 0) || (len s <? size) then len s else size.

(** The type, the module and its size in a file of [res/].  [malloc] tells for
    which sizes memory is available. *)
Definition read_res (malloc : Z → bool) (content : bytes) : res (option (bytes * bytes * Z)) :=
  match read_int content with
  | None => Ok None
  | Some (size, s) =>
      let n := reads size s in
      if BFSZ <? n then Ub OutOfBounds
      else if negb (n =? size) then Ok None
      else if BFSZ <=? size then Ub OutOfBounds
      else
        let type := cstr (take (Z.to_nat size) s) in
        match read_int (drop (Z.to_nat size) s) with
        | None => Ok None
        | Some (size, s) =>
            let n := reads size s in
            if negb (malloc size) && (0 <? n) then Ub NullDeref
            else if negb (n =? size) then Ok None
            else Ok (Some (type, take (Z.to_nat size) s, size))
        end
  end.

(** The id in a file name. *)
Definition parse_id (name : bytes) : Z :=
  fold_left (λ id c, u64 (id * 10 + schar c - 48)) name 0.

Section Restore.
Context {E M : Type}.
Implicit Types p : plugin_t E M.
Implicit Types ps : list (plugin_t E M).

Definition matches (type module : bytes) (size : Z) (p : plugin_t E M) : bool :=
  bool_decide (ptype p = type) && (cmp p module (Plugin.module p) size =? 0).

(** The loop over the plugins, with its break. *)
Fixpoint assign (type module : bytes) (size id : Z) (ps : list (plugin_t E M)) : list (plugin_t E M) :=
  match ps with
  | [] => []
  | p :: ps =>
      if matches type module size p then set_tid id p :: ps
      else p :: assign type module size id ps
  end.

(** One directory entry, its inode number and its name. *)
Definition restore_entry (malloc : Z → bool) (entry : Z * bytes)
    (s : list (plugin_t E M) * gmap bytes bytes) : res (list (plugin_t E M) * gmap bytes bytes) :=
  let '(ino, name) := entry in
  let '(ps, files) := s in
  if (ino =? 0) || bool_decide (name = lit ".") || bool_decide (name = lit "..") then Ok s
  else
    let plugin_id := take (Z.to_nat (BFSZ - 1)) (lit "res/" ++ name) in
    match files !! plugin_id with
    | None => Ok s
    | Some content =>
        do r <- read_res malloc content;
        match r with
        | None => Ok s
        | Some (type, module, size) =>
            Ok (assign type module size (parse_id name) ps, delete plugin_id files)
        end
    end.

Fixpoint restore_all (malloc : Z → bool) (entries : list (Z * bytes))
    (s : list (plugin_t E M) * gmap bytes bytes) : res (list (plugin_t E M) * gmap bytes bytes) :=
  match entries with
  | [] => Ok s
  | x :: entries => do s <- restore_entry malloc x s; restore_all malloc entries s
  end.

(** The block of [main]; [dir] is the listing of [res], if it can be opened. *)
Definition restore (malloc : Z → bool) (dir : option (list (Z * bytes)))
    (s : list (plugin_t E M) * gmap bytes bytes) : res (list (plugin_t E M) * gmap bytes bytes) :=
  match dir with
  | None => Ok s
  | Some entries => restore_all malloc entries s
  end.

End Restore.

(** ** Round trips *)

Lemma code_ascii z : 0 ≤ z < 256 → code (ascii_of_N (Z.to_N z)) = z.
Proof. intros H. unfold code. rewrite N_ascii_embedding by lia. lia. Qed.

Lemma of_le32_le32 z : 0 ≤ z < 2 ^ 31 → of_le32 (le32 z) = z.
Proof.
  intros H. unfold le32. cbn [fmap list_fmap of_le32].
  change 255 with (Z.ones 8). rewrite !Z.land_ones, !Z.shiftr_div_pow2 by lia.
  rewrite !code_ascii by (apply Z.mod_pos_bound; lia).
  change (2 ^ (8 * 0)) with 1. change (2 ^ (8 * 1)) with 256. change (2 ^ (8 * 2)) with 65536.
  change (2 ^ (8 * 3)) with 16777216. change (2 ^ 8) with 256.
  replace (_ + _) with z; [by rewrite (proj2 (Z.ltb_lt _ _)) by lia|].
  change (2 ^ 31) with 2147483648 in H. Z.to_euclidean_division_equations. lia.
Qed.

Lemma length_le32 z : length (le32 z) = 4%nat.
Proof. done. Qed.

Lemma read_int_le32 z s : 0 ≤ z < 2 ^ 31 → read_int (le32 z ++ s) = Some (z, s).
Proof.
  intros H. unfold read_int, len. rewrite length_app, length_le32.
  rewrite (proj2 (Z.ltb_ge _ _)) by lia.
  rewrite (take_app_length' (le32 z)), (drop_app_length' (le32 z)) by done.
  by rewrite of_le32_le32.
Qed.

Lemma reads_app z s t : z = len s → reads z (s ++ t) = z.
Proof.
  intros ->. unfold reads, len. rewrite length_app.
  by rewrite (proj2 (Z.ltb_ge _ _)), (proj2 (Z.ltb_ge _ (Z.of_nat (length s)))) by lia.
Qed.

Lemma parse_id_dec id : is_u64 id → parse_id (dec id) = id.
Proof.
  intros H. assert (Forall (λ c, is_digit c = true) (dec id)) as Hd by (apply dec_digits, H).
  assert (∀ l a, Forall (λ c, is_digit c = true) l →
    fold_left (λ i c, u64 (i * 10 + schar c - 48)) l (u64 a)
    = u64 (fold_left (λ a c, a * 10 + digit_val c) l a)) as Hf.
  { clear. induction l as [|c l IH]; intros a Hl; [done|]. inversion_clear Hl as [|? ? Hc Hl'].
    cbn [fold_left]. rewrite <- IH by done. f_equal. unfold is_digit in Hc.
    apply andb_prop in Hc as [_ Hc%Z.leb_le]. unfold schar, digit_val.
    rewrite (proj2 (Z.ltb_lt _ _)) by lia. rewrite <- !Z.add_sub_assoc. apply u64_step. }
  unfold parse_id. change 0 with (u64 0) at 1. rewrite Hf by done. fold (undec (dec id)).
  rewrite undec_dec by apply H. by apply u64_small.
Qed.

(** Restoring an id leaves the routine of a plugin alone. *)
Lemma assign_r {E M} type module size id (ps : list (plugin_t E M)) :
  r <$> assign type module size id ps = r <$> ps.
Proof. induction ps as [|p ps IH]; [done|]. cbn [assign]. case_match; cbn; [done|by f_equal]. Qed.

Lemma restore_r {E M} malloc dir (ps : list (plugin_t E M)) files s' :
  restore malloc dir (ps, files) = Ok s' → r <$> s'.1 = r <$> ps.
Proof.
  destruct dir as [es|]; cbn [restore]; [|by intros [= <-]]. revert ps files.
  induction es as [|[ino name] es IH]; intros ps files; cbn [restore_all]; [by intros [= <-]|]. intros H. inv_ok H.
  destruct v as [ps1 files1]. rewrite (IH _ _ H). clear IH H. unfold restore_entry in E0.
  destruct (_ || _); [by injection E0 as -> ->|].
  destruct (files !! _); [|by injection E0 as -> ->]. inv_ok E0.
  destruct v as [[[t m] z]|]; injection E0 as <- _; [apply assign_r|done].
Qed.

Section Saved.
Context {E M : Type}.
Implicit Types p o n : plugin_t E M.
Implicit Types ps os : list (plugin_t E M).
Variable image : M → bytes.

(** What a plugin must be like for its file to be read back. *)
Record savable (p : plugin_t E M) : Prop := {
  sv_id : is_u64 (tid p);
  sv_type : no_nul (ptype p);
  sv_type_length : len (ptype p) < BFSZ;
  sv_size : module_size p = len (image (module p));
  sv_int : module_size p < 2 ^ 31
}.

(** The file is read back as it was written. *)
Lemma read_res_file malloc p :
  savable p → malloc (module_size p) = true →
  read_res malloc (res_file image p) = Ok (Some (ptype p, image (module p), module_size p)).
Proof.
  intros [Hid Hty Hl Hs Hi] Hm. unfold read_res, res_file. fold (len (ptype p)).
  assert (0 ≤ len (ptype p) ∧ 0 ≤ module_size p) as [H0 H1] by (rewrite Hs; unfold len; lia).
  unfold BFSZ in *. rewrite read_int_le32 by lia. rewrite reads_app by done.
  rewrite (proj2 (Z.ltb_ge _ _)) by lia. rewrite Z.eqb_refl. cbn [negb].
  rewrite (proj2 (Z.leb_gt _ _)) by lia.
  rewrite drop_app_length', take_app_length' by (unfold len; lia).
  rewrite read_int_le32 by done.
  rewrite take_ge by (rewrite Hs; unfold len; lia).
  rewrite <- (app_nil_r (image _)), reads_app, app_nil_r by done. rewrite Hm, Z.eqb_refl. cbn [negb andb].
  rewrite take_ge by (rewrite Hs; unfold len; lia).
  do 4 f_equal. rewrite <- (app_nil_r (ptype p)) at 1. rewrite cstr_app by done. apply app_nil_r.
Qed.

(** The name of a plugin's file. *)
Lemma res_name_dec id : is_u64 id → res_name id = lit "res/" ++ dec id.
Proof.
  intros H. unfold res_name. apply take_ge. rewrite length_app. pose proof (dec_u64_length id H).
  change (length (lit "res/")) with 4%nat. unfold BFSZ. lia.
Qed.

Lemma res_name_inj id id' : is_u64 id → is_u64 id' → res_name id = res_name id' → id = id'.
Proof.
  intros H H' Ep. rewrite !res_name_dec in Ep by done. apply app_inv_head in Ep.
  rewrite <- (undec_dec id), <- (undec_dec id') by (apply H || apply H'). by rewrite Ep.
Qed.

Lemma dec_not_dots id : is_u64 id → dec id ≠ lit "." ∧ dec id ≠ lit "..".
Proof.
  intros [H _]. pose proof (dec_digits id H) as Hd.
  split; intros Ep; rewrite Ep in Hd; by inversion Hd.
Qed.

(** The plugin [n] is the one that [o] was before the restart. *)
Definition same_module (o n : plugin_t E M) : bool :=
  matches (ptype o) (image (module o)) (module_size o) n.

Definition renamed (o n : plugin_t E M) : plugin_t E M :=
  if same_module o n then set_tid (tid o) n else n.

Lemma restore_entry_ok malloc ino o ps files :
  savable o → malloc (module_size o) = true → ino ≠ 0 →
  files !! res_name (tid o) = Some (res_file image o) →
  restore_entry malloc (ino, dec (tid o)) (ps, files)
  = Ok (assign (ptype o) (image (module o)) (module_size o) (tid o) ps,
        delete (res_name (tid o)) files).
Proof.
  intros Hs Hm Hi Hf. pose proof (sv_id _ Hs) as Hid. unfold restore_entry.
  destruct (dec_not_dots _ Hid) as [H1 H2].
  rewrite (proj2 (Z.eqb_neq _ _)), !bool_decide_false by done. cbn [orb].
  fold (res_name (tid o)). rewrite Hf, (read_res_file _ _ Hs Hm). cbn [rbind].
  by rewrite parse_id_dec.
Qed.

(** At most one of the plugins is the one [o] was. *)
Definition unique_in (o : plugin_t E M) (ps : list (plugin_t E M)) : Prop :=
  ∀ i j n n', ps !! i = Some n → ps !! j = Some n' →
    same_module o n = true → same_module o n' = true → i = j.

Lemma assign_renames o ps :
  unique_in o ps →
  assign (ptype o) (image (module o)) (module_size o) (tid o) ps = renamed o <$> ps.
Proof.
  induction ps as [|n ps IH]; intros Hu; [done|]. simpl. unfold renamed at 1.
  destruct (same_module o n) eqn:En; unfold same_module in En; rewrite En.
  - f_equal. clear IH. symmetry. rewrite <- (list_fmap_id ps) at 2. apply list_fmap_ext.
    intros i n' Hn'. unfold renamed. destruct (same_module o n') eqn:En'; [|done].
    by specialize (Hu 0%nat (S i) n n' eq_refl Hn' En En').
  - f_equal. apply IH. intros i j m m' Hi Hj Hm Hm'.
    by specialize (Hu (S i) (S j) m m' Hi Hj Hm Hm') as [= ->].
Qed.

Lemma same_module_renamed o o' n : same_module o (renamed o' n) = same_module o n.
Proof. unfold renamed. by destruct (same_module o' n). Qed.

Lemma unique_renamed o o' ps : unique_in o ps → unique_in o (renamed o' <$> ps).
Proof.
  intros Hu i j n n'. rewrite !list_lookup_fmap, !fmap_Some.
  intros (m & Hm & ->) (m' & Hm' & ->). rewrite !same_module_renamed. by apply Hu.
Qed.

(** All the plugins of before, one after the other. *)
Definition renamed_all (os : list (plugin_t E M)) (n : plugin_t E M) : plugin_t E M :=
  foldl (λ n o, renamed o n) n os.

(** What [readdir] gives of a [res/] with the files of [os], in their order in the
    directory: the entries of the directory itself and of its parent, which are
    always there, and entries without an inode come anywhere in between. *)
Inductive listing : list (Z * bytes) → list (plugin_t E M) → Prop :=
| ls_nil : listing [] []
| ls_here ino es os : listing es os → listing ((ino, lit ".") :: es) os
| ls_parent ino es os : listing es os → listing ((ino, lit "..") :: es) os
| ls_unused name es os : listing es os → listing ((0, name) :: es) os
| ls_file ino o es os : ino ≠ 0 → listing es os → listing ((ino, dec (tid o)) :: es) (o :: os).

(** The entries that are not files change nothing, whatever [files] has under
    their names. *)
Lemma restore_entry_skips (malloc : Z → bool) (ino : Z) (name : bytes) (s : list (plugin_t E M) * gmap bytes bytes) :
  ino = 0 ∨ name = lit "." ∨ name = lit ".." → restore_entry malloc (ino, name) s = Ok s.
Proof. destruct s. intros [->|[->| ->]]; cbn; [done|..]; by rewrite ?orb_true_r. Qed.

Lemma restore_all_ok malloc es os : listing es os → ∀ ps files,
  Forall savable os → (∀ z, malloc z = true) → NoDup (tid <$> os) →
  (∀ o, o ∈ os → files !! res_name (tid o) = Some (res_file image o)) →
  (∀ o, o ∈ os → unique_in o ps) →
  restore_all malloc es (ps, files)
  = Ok (renamed_all os <$> ps, foldl (λ f o, delete (res_name (tid o)) f) files os).
Proof.
  induction 1 as [|ino es os _ IH|ino es os _ IH|name es os _ IH|ino o es os Hi _ IH];
    intros ps files Hs Hm Hn Hf Hu; cbn [restore_all foldl].
  - by rewrite (list_fmap_id ps : (renamed_all [] <$> ps) = ps).
  - rewrite restore_entry_skips by auto. by apply IH.
  - rewrite restore_entry_skips by auto. by apply IH.
  - rewrite restore_entry_skips by auto. by apply IH.
  - inversion_clear Hs as [|? ? Ho Hos]. inversion_clear Hn as [|? ? Hno Hnos].
    rewrite restore_entry_ok by (done || apply Hf; by left). cbn [rbind].
    rewrite assign_renames by (apply Hu; by left). rewrite IH; [|done..| |].
    + by rewrite <- list_fmap_compose.
    + intros o' Ho'. rewrite lookup_delete_ne; [apply Hf; by right|]. intros En.
      apply res_name_inj in En; [|apply Ho|by eapply sv_id, Forall_forall].
      apply Hno. rewrite En. by apply list_elem_of_fmap_2.
    + intros o' Ho'. apply unique_renamed, Hu. by right.
Qed.

(** In the end a plugin has its own id or that of one it matches. *)
Lemma renamed_all_id os : ∀ n, ∃ t, renamed_all os n = set_tid t n
  ∧ ((t = tid n ∧ ∀ o, o ∈ os → same_module o n = false)
     ∨ ∃ o, o ∈ os ∧ same_module o n = true ∧ t = tid o).
Proof.
  induction os as [|o os IH]; intros n; cbn [renamed_all foldl].
  { exists (tid n). split; [by destruct n|]. left. split; [done|]. by intros o ?%elem_of_nil. }
  destruct (IH (renamed o n)) as (t & Et & Ht). fold (renamed_all os (renamed o n)). rewrite Et.
  exists t. split; [unfold renamed; by destruct (same_module o n)|].
  destruct Ht as [[-> Hno]|(o' & Ho' & Hm & ->)].
  - destruct (same_module o n) eqn:En.
    + right. exists o. split; [by left|]. split; [done|]. unfold renamed. by rewrite En.
    + left. split; [unfold renamed; by rewrite En|]. intros o' [->|Ho']%elem_of_cons; [done|].
      rewrite <- (same_module_renamed o' o). by apply Hno.
  - right. exists o'. rewrite same_module_renamed in Hm. split; [by right|done].
Qed.

(** The files of [os] taken away. *)
Definition removed (os : list (plugin_t E M)) (files : gmap bytes bytes) : gmap bytes bytes :=
  foldl (λ f o, delete (res_name (tid o)) f) files os.

Lemma removed_None os : ∀ files k, files !! k = None → removed os files !! k = None.
Proof.
  induction os as [|o os IH]; intros files k Hk; [done|].
  apply IH. by apply lookup_delete_None; right.
Qed.

Lemma removed_in os : ∀ files o, o ∈ os → removed os files !! res_name (tid o) = None.
Proof.
  induction os as [|o1 os IH]; intros files o Ho; [by apply elem_of_nil in Ho|].
  apply elem_of_cons in Ho as [->|Ho].
  - apply (removed_None os (delete (res_name (tid o1)) files)), lookup_delete_eq.
  - by apply (IH (delete (res_name (tid o1)) files)).
Qed.

Lemma removed_other os : ∀ files f, (∀ o, o ∈ os → f ≠ res_name (tid o)) → removed os files !! f = files !! f.
Proof.
  induction os as [|o os IH]; intros files f Hf; [done|]. cbn.
  fold (removed os (delete (res_name (tid o)) files)). rewrite IH by (intros o' Ho'; apply Hf; by right).
  apply lookup_delete_ne. intros En. by apply (Hf o); [left|].
Qed.

(** C17. Identities survive a restart.  The files that the plugins [os] left in
    [res/] when they were registered, listed in any order and among the entries
    that every directory has, give every plugin of the new process that is the
    same target (same type, and its [cmp] says the same module) the id it had; a
    plugin that was not there keeps none, and the files are consumed. *)
Theorem restart_keeps_ids malloc es os ps files :
  listing es os → Forall savable os → (∀ z, malloc z = true) → NoDup (tid <$> os) →
  (∀ o, o ∈ os → files !! res_name (tid o) = Some (res_file image o)) →
  (∀ o, o ∈ os → unique_in o ps) →
  ∃ ps' files', restore malloc (Some es) (ps, files) = Ok (ps', files')
    ∧ (∀ i o n, ps !! i = Some n → o ∈ os → same_module o n = true →
       (∀ o', o' ∈ os → same_module o' n = true → tid o' = tid o) →
       ps' !! i = Some (set_tid (tid o) n))
    ∧ (∀ i n, ps !! i = Some n → (∀ o, o ∈ os → same_module o n = false) → ps' !! i = Some n)
    ∧ (∀ o, o ∈ os → files' !! res_name (tid o) = None)
    ∧ (∀ f, (∀ o, o ∈ os → f ≠ res_name (tid o)) → files' !! f = files !! f).
Proof.
  intros Hd Hs Hm Hn Hf Hu. exists (renamed_all os <$> ps), (removed os files).
  split; [by apply restore_all_ok|]. split; [|split; [|split]].
  - intros i o n Hp Ho Hmt Hone. rewrite list_lookup_fmap, Hp. simpl. f_equal.
    destruct (renamed_all_id os n) as (t & -> & [[_ Hno]|(o' & Ho' & Hm' & ->)]).
    + by rewrite Hno in Hmt.
    + by rewrite (Hone o').
  - intros i n Hp Hno. rewrite list_lookup_fmap, Hp. simpl. f_equal.
    destruct (renamed_all_id os n) as (t & -> & [[-> _]|(o' & Ho' & Hm' & _)]).
    + by destruct n.
    + by rewrite (Hno o') in Hm'.
  - intros o Ho. by apply removed_in.
  - intros f Hne. by apply removed_other.
Qed.

End Saved.

(** A plugin under two ids, the image of its module one byte. *)
Definition old_up (id : Z) : plugin_t unit unit :=
  set_tid id (Plugin idle_routine 0 None (lit "up") None None None up_gather
    (λ m _ _, if decide (m = [NUL]) then 0 else 1) 1 tt).

Lemma restart_keeps_ids_witness :
  ∃ ps' files', restore (λ _, true) (Some [(7, lit "."); (1, dec 1234567890123); (0, lit "1"); (2, lit "..")])
      ([old_up 0], {[res_name 1234567890123 := res_file (λ _, [NUL]) (old_up 1234567890123)]})
      = Ok (ps', files')
    ∧ ps' !! 0%nat = Some (old_up 1234567890123)
    ∧ files' !! res_name 1234567890123 = None.
Proof.
  destruct (restart_keeps_ids (λ _, [NUL]) (λ _, true)
    [(7, lit "."); (1, dec 1234567890123); (0, lit "1"); (2, lit "..")] [old_up 1234567890123] [old_up 0]
    {[res_name 1234567890123 := res_file (λ _, [NUL]) (old_up 1234567890123)]})
    as (ps' & files' & E & H1 & _ & H3 & _).
  - apply ls_here, (ls_file 1 (old_up 1234567890123)), ls_unused, ls_parent, ls_nil. done.
  - constructor; [|constructor]. split; [split; by vm_compute|apply (bool_decide_unpack _); vm_compute; exact I|..];
      by vm_compute.
  - done.
  - apply NoDup_singleton.
  - intros o ->%list_elem_of_singleton. apply lookup_singleton_eq.
  - intros o _ [|i] [|j] n n' Hi Hj _ _; simplify_eq; done.
  - exists ps', files'. split; [exact E|]. split; [|by apply (H3 (old_up 1234567890123)); left].
    apply (H1 0%nat (old_up 1234567890123) (old_up 0)); [done|by left|by vm_compute|].
    by intros o' ->%list_elem_of_singleton.
Defined.
