(* ===== verification/Mysql.v ===== *)
(** The plugin for MySQL servers (src/plugins/mysql.c): its module, how it finds
    out that its server went away or came back, and the gathering functions over
    the rows the server answers queries with.  libmysqlclient is outside: what its
    calls return is an argument. *)
From Stdlib Require Import ZArith Ascii Lia SpecFloat.
From stdpp Require Import base list strings numbers.
From S2P Require Import Prelude.
From S2P Require Import Clib.
From S2P Require Import Scan.
From S2P Require Import Json.
From S2P Require Import Packet.
From S2P Require Import Report.
From S2P Require Import Parts.
From S2P Require Import Routine.
From S2P Require Import Plugin.
From S2P Require Import Agent.

Local Open Scope Z_scope.

(** * The module *)

(** A pointer to a connection: never written, NULL, or to a live one. *)
Inductive handle := Wild | Null | Live (l : loc).

(** The strings are buffers of [BFSZ] bytes. *)
Record mysql_module_t := MysqlModule {
  on : Z;
  my_host : bytes;
  my_user : bytes;
  my_pass : bytes;
  my_port : Z;
  mysql : handle;
  my_tid : Z
}.

Definition set_on v m := MysqlModule v (my_host m) (my_user m) (my_pass m) (my_port m) (mysql m) (my_tid m).
Definition set_mysql v m := MysqlModule (on m) (my_host m) (my_user m) (my_pass m) (my_port m) v (my_tid m).
Definition set_my_tid v m := MysqlModule (on m) (my_host m) (my_user m) (my_pass m) (my_port m) (mysql m) v.

(** A row: a column may be NULL. *)
Abbreviation row := (list (option bytes)).

(** What the client library returns: [mysql_init], [mysql_options],
    [mysql_real_connect], [mysql_thread_id], [mysql_ping], and the rows of a
    query, if it gives any ([mysql_query] and [mysql_store_result]). *)
Record mysql_env := MysqlEnv {
  my_init : option loc;
  my_options : Z;
  my_connect : bool;
  my_thread_id : Z;
  my_ping : Z;
  my_query : bytes → option (list row)
}.

(** [sscanf(argv, "%128[^/]/%u/%128[^/]/%128[^/]\n", ...)]: the three strings and the
    port when it returns 4.  [m] is the allocated block. *)
Definition not_slash (c : ascii) : bool := negb (Ascii.eqb c "/"%char).

Definition store_buf (w b : bytes) : res bytes :=
  if BFSZ <=? Z.of_nat (length w) then Ub OutOfBounds else Ok (write_at b 0 (w ++ [NUL])).

Definition scan_address (s : bytes) (m : mysql_module_t) : res (option mysql_module_t) :=
  match scan_set 128 not_slash s with
  | None => Ok None
  | Some (w, s) =>
      do host <- store_buf w (my_host m);
      match '(n, s) ← scan_char "/"%char s ≫= scan_llu; s ← scan_char "/"%char s;
            '(w, s) ← scan_set 128 not_slash s; Some (u32 n, w, s) with
      | None => Ok None
      | Some (port, w, s) =>
          do user <- store_buf w (my_user m);
          match scan_char "/"%char s ≫= scan_set 128 not_slash with
          | None => Ok None
          | Some (w, _) =>
              do pass <- store_buf w (my_pass m);
              Ok (Some (MysqlModule (on m) host user pass port (mysql m) (my_tid m)))
          end
      end
  end.

Definition MODULE_SIZE : Z := 408.

(** [mysql_module_cmp]: [m1] is the block of a module of [size] bytes, as it was
    saved; the members at their offsets, the bit-field taking one byte. *)
Definition mysql_module_cmp (m1 : bytes) (m2 : mysql_module_t) (size : Z) : Z :=
  if (size =? MODULE_SIZE)
     && bool_decide (cstr (drop 1 m1) = cstr (my_host m2))
     && bool_decide (cstr (drop 129 m1) = cstr (my_user m2))
     && bool_decide (cstr (drop 257 m1) = cstr (my_pass m2))
     && (u32 (of_le32 (take 4 (drop 388 m1))) =? my_port m2)
  then 0 else 1.

Definition mysql_prep (e : mysql_env) (m : mysql_module_t) : Z * mysql_module_t :=
  match my_init e with
  | None => (-1, set_mysql Null m)
  | Some l =>
      let m := set_mysql (Live l) m in
      if (my_options e <? 0) || negb (my_connect e) then (-1, m)
      else (0, set_my_tid (my_thread_id e) (set_on 1 m))
  end.

(** [mysql_fini] on a module, which it frees: whether it closes the connection. *)
Definition mysql_fini (m : option mysql_module_t) : res (Z * bool) :=
  match m with
  | None => Ok (-1, false)
  | Some m =>
      match mysql m with
      | Wild => Ub Uninit
      | Null => Ok (0, false)
      | Live _ => Ok (0, true)
      end
  end.

(** * Rows *)

Definition query_result (e : mysql_env) (query : bytes) : option (list row) := my_query e query.

(** [row[i]] as a string. *)
Definition col (r : row) (i : nat) : res bytes :=
  match r !! i with
  | Some (Some s) => Ok s
  | Some None => Ub NullDeref
  | None => Ub OutOfBounds
  end.

(** [row[0]+n] *)
Definition offset (n : nat) (s : bytes) : res bytes :=
  if (length s <? n)%nat then Ub OutOfBounds else Ok (drop n s).

(** The loop that prints names and values, with a comma in between. *)
Fixpoint status_rows (n : nat) (comma : bool) (rows : list row) (p : packet_t) : res (bool * packet_t) :=
  match rows with
  | [] => Ok (comma, p)
  | r :: rows =>
      do a <- col r 0;
      do k <- offset n a;
      do v <- col r 1;
      do p <- packet_append p "%s'%s':%s" [AStr (if comma then lit "," else []); AStr k; AStr v];
      status_rows n true rows p
  end.

(** A query whose rows are printed that way, if there is a result. *)
Definition status_query (n : nat) (result : option (list row)) (error : Z) (comma : bool) (p : packet_t)
    : res (Z * bool * packet_t) :=
  match result with
  | None => Ok (error, comma, p)
  | Some rows => do x <- status_rows n comma rows p; Ok (ENONE, x.1, x.2)
  end.

(** * Statements *)

Definition CRUD_QUERY : bytes :=
  sh "show global status where variable_name in ('com_select','com_insert','com_update','com_delete');".

Definition DDL_QUERY : bytes :=
  sh "select 'alter' name, sum(variable_value) value from information_schema.global_status where variable_name like 'com_alter%' union all select 'create' name, sum(variable_value) value from information_schema.global_status where variable_name like 'com_create%' union all select 'drop' name, sum(variable_value) value from information_schema.global_status where variable_name like 'com_drop%';".

Definition _mysql_gather_crud : gather_fn mysql_env mysql_module_t := λ e m p,
  do r <- status_query 4 (query_result e CRUD_QUERY) ENODATA false p;
  let '(error, comma, p) := r in
  do r <- status_query 0 (query_result e DDL_QUERY) error comma p;
  let '(error, comma, p) := r in
  Ok (error, m, p).

(** * Slow queries *)

Definition SLOW_STATUS_QUERY : bytes := sh "show global status where variable_name in ('slow_queries');".

Definition SLOW_LOG_QUERY : bytes :=
  sh "select user_host,ifnull(sql_text, ''),TIME_TO_SEC(query_time),concat(UNIX_TIMESTAMP(start_time),'000'),rows_sent,rows_examined from mysql.slow_log where start_time>=now()-interval 30 minute and sql_text not like '%%#exem_moc#%%' limit 100;".

(** [sscanf(row[i], "%s", x[k].f)] and [sscanf(row[i], "%lu", &x[k].f)] for an array
    of [BFSZ] elements: what is stored, if anything is. *)
Definition get_word (k : nat) (r : row) (i : nat) : res (option bytes) :=
  do s <- col r i;
  match scan_str (length s) s with
  | None => Ok None
  | Some (w, _) => do _ <- store_str k 128 w; Ok (Some w)
  end.

Definition get_num (k : nat) (r : row) (i : nat) : res (option Z) :=
  do s <- col r i;
  match scan_llu s with
  | None => Ok None
  | Some (v, _) => do _ <- store_str k 128 []; Ok (Some v)
  end.

(** An element of an array that has [length xs] elements written to it. *)
Definition at_index {A} (xs : list A) (k : nat) : res A :=
  if (128 <=? k)%nat then Ub OutOfBounds else of_opt Uninit (xs !! k).

Record slow_t := Slow {
  s_user : option bytes;
  s_sql_text : option bytes;
  s_query_time : option Z;
  s_start_time : option Z;
  s_rows_sent : option Z;
  s_rows_examined : option Z
}.

Definition slow_row (k : nat) (r : row) : res slow_t :=
  do user <- get_word k r 0;
  do sql_text <- get_word k r 1;
  do query_time <- get_num k r 2;
  do start_time <- get_num k r 3;
  do rows_sent <- get_num k r 4;
  do rows_examined <- get_num k r 5;
  Ok (Slow user sql_text query_time start_time rows_sent rows_examined).

(** The rows of a result stored from element [length xs] on. *)
Fixpoint fetch_rows {A} (get : nat → row → res A) (rows : list row) (xs : list A) : res (list A) :=
  match rows with
  | [] => Ok xs
  | r :: rows => do x <- get (length xs) r; fetch_rows get rows (xs ++ [x])
  end.

(** A loop that prints a field of one and the same element [k] times. *)
Definition again {A} (k : nat) (fmt : string) (a : A → arg) (x : option A) : res script :=
  do x <- of_opt Uninit x;
  Ok (each fmt (λ x, [a x]) (replicate k x)).

(** Every loop over [i] prints element [k] of the array, the one behind those
    that were stored. *)
Definition slow_script (xs : list slow_t) : res script :=
  let k := length xs in
  do x <- at_index xs k;
  do user <- again k "%s'%s'" AStr (s_user x);
  do sql <- again k "%s'%s'" AStr (s_sql_text x);
  do query_time <- again k "%s%llu" AInt (s_query_time x);
  do start_time <- again k "%s%llu" AInt (s_start_time x);
  do rows_sent <- again k "%s%lu" AInt (s_rows_sent x);
  do rows_examined <- again k "%s%lu" AInt (s_rows_examined x);
  Ok (say ",'user':[" ++ user ++ say "],'sql':[" ++ sql ++ say "],'query_time':[" ++ query_time
      ++ say "],'start_time':[" ++ start_time ++ say "],'rows_sent':[" ++ rows_sent
      ++ say "],'rows_examined':[" ++ rows_examined ++ say "]").

(** The first query prints each row's value under the same name. *)
Fixpoint slow_status (rows : list row) (p : packet_t) : res packet_t :=
  match rows with
  | [] => Ok p
  | r :: rows =>
      do v <- col r 1;
      do p <- packet_append p "'slow_queries':%s" [AStr v];
      slow_status rows p
  end.

Definition _mysql_gather_query : gather_fn mysql_env mysql_module_t := λ e m p,
  do r <- match query_result e SLOW_STATUS_QUERY with
          | Some rows => do p <- slow_status rows p; Ok (ENONE, p)
          | None => Ok (ENODATA, p)
          end;
  let '(error, p) := r in
  match query_result e SLOW_LOG_QUERY with
  | None => Ok (error, m, p)
  | Some rows =>
      do xs <- fetch_rows slow_row rows [];
      if decide (xs = []) then Ok (error, m, p)
      else
        do l <- slow_script xs;
        do p <- run p l;
        Ok (error, m, p)
  end.

(** * InnoDB *)

Definition POOL_QUERY : bytes := sh "show global variables where variable_name in ('innodb_buffer_pool_size');".

Definition INNODB_QUERY : bytes :=
  sh "show global status where variable_name in ('innodb_buffer_pool_pages_dirty','innodb_buffer_pool_pages_free','innodb_buffer_pool_pages_data','innodb_buffer_pool_read_requests','innodb_buffer_pool_reads','innodb_buffer_pool_write_requests','innodb_pages_created','innodb_pages_read','innodb_pages_written');".

Definition ENGINE_QUERY : bytes := sh "show engine innodb status;".

(** Two calls per row, the name from its [n]th character on. *)
Fixpoint innodb_rows (n : nat) (fmt : string) (rows : list row) (p : packet_t) : res packet_t :=
  match rows with
  | [] => Ok p
  | r :: rows =>
      do a <- col r 0;
      do k <- offset n a;
      do p <- packet_append p fmt [AStr k];
      do v <- col r 1;
      do p <- packet_append p "%s" [AStr v];
      innodb_rows n fmt rows p
  end.

(** Words of a format: white space in it matches any white space. *)
Fixpoint scan_words (l : list string) (s : bytes) : option bytes :=
  match l with
  | [] => Some s
  | w :: l => scan_lit (lit w) (skip_space s) ≫= scan_words l
  end.

(** [sscanf(s, "Ibuf: size %llu, free list len %llu, seg size %llu", ...) == 3] where
    [s] starts with [Ibuf]. *)
Definition scan_ibuf (s : bytes) : option (Z * Z * Z) :=
  '(used, s) ← scan_words ["Ibuf:"; "size"] s ≫= scan_llu;
  '(free, s) ← (scan_lit (lit ",") s ≫= scan_words ["free"; "list"; "len"]) ≫= scan_llu;
  '(total, s) ← (scan_lit (lit ",") s ≫= scan_words ["seg"; "size"]) ≫= scan_llu;
  Some (used, free, total).

Definition ibuf_script (x : Z * Z * Z) : script :=
  let '(used, free, total) := x in
  [(",'cell_count':%llu", [AInt total]); (",'free_cells':%llu", [AInt free]); (",'used_cells':%llu", [AInt used])].

(** The loop over the positions of the text. *)
Fixpoint ibuf_loop (error : Z) (s : bytes) (p : packet_t) : res (Z * packet_t) :=
  match s with
  | [] => Ok (error, p)
  | _ :: s' =>
      match (if bool_decide (take 4 s = lit "Ibuf") then scan_ibuf s else None) with
      | None => ibuf_loop error s' p
      | Some x => do p <- run p (ibuf_script x); ibuf_loop ENONE s' p
      end
  end.

Definition _mysql_gather_innodb : gather_fn mysql_env mysql_module_t := λ e m p,
  do r <- match query_result e POOL_QUERY with
          | Some rows => do p <- innodb_rows 14 "'%s':" rows p; Ok (ENONE, p)
          | None => Ok (ENODATA, p)
          end;
  let '(error, p) := r in
  do r <- match query_result e INNODB_QUERY with
          | Some rows => do p <- innodb_rows 7 ",'%s':" rows p; Ok (ENONE, p)
          | None => Ok (error, p)
          end;
  let '(error, p) := r in
  match query_result e ENGINE_QUERY with
  | None => Ok (error, m, p)
  | Some rows =>
      do r <- of_opt NullDeref (head rows);
      do s <- col r 2;
      do r <- ibuf_loop error s p;
      Ok (r.1, m, r.2)
  end.

(** * Threads *)

Definition THREADS_QUERY : bytes :=
  sh "show global status where variable_name in ('connections','threads_connected','threads_running');".

Definition PROCESSLIST_QUERY : bytes :=
  sh "select a.id,ifnull(b.thread_id,''),ifnull(a.info,''),ifnull(a.user,''),ifnull(a.host,''),ifnull(a.db,''),a.time,ifnull(round(c.timer_wait/1000000000000,3),''),ifnull(c.event_id,''),ifnull(c.event_name,''),a.command,a.state from information_schema.processlist a left join performance_schema.threads b on a.id=b.processlist_id left join performance_schema.events_waits_current c on b.thread_id=c.thread_id where 1=1 and (a.info is null or a.info not like '%#exem_moc#%')".

Record thread_t := Thread {
  t_id : option Z;
  t_thread_id : option Z;
  t_info : option bytes;
  t_user : option bytes;
  t_host : option bytes;
  t_db : option bytes;
  t_time : option Z;
  t_timer_wait : option Z;
  t_event_id : option Z;
  t_event_name : option bytes;
  t_command : option bytes;
  t_state : option bytes
}.

Definition thread_row (k : nat) (r : row) : res thread_t :=
  do id <- get_num k r 0;
  do thread_id <- get_num k r 1;
  do info <- get_word k r 2;
  do user <- get_word k r 3;
  do host <- get_word k r 4;
  do db <- get_word k r 5;
  do time <- get_num k r 6;
  do timer_wait <- get_num k r 7;
  do event_id <- get_num k r 8;
  do event_name <- get_word k r 9;
  do command <- get_word k r 10;
  do state <- get_word k r 11;
  Ok (Thread id thread_id info user host db time timer_wait event_id event_name command state).

(** As for the slow queries: element [k] again and again. *)
Definition thread_script (comma : bool) (xs : list thread_t) : res script :=
  let k := length xs in
  do x <- at_index xs k;
  do id <- again k "%s'%lu'" AInt (t_id x);
  do thread_id <- again k "%s'%lu'" AInt (t_thread_id x);
  do info <- again k "%s'%s'" AStr (t_info x);
  do user <- again k "%s'%s'" AStr (t_user x);
  do host <- again k "%s'%s'" AStr (t_host x);
  do db <- again k "%s'%s'" AStr (t_db x);
  do time <- again k "%s'%llu'" AInt (t_time x);
  do timer_wait <- again k "%s'%llu'" AInt (t_timer_wait x);
  do event_id <- again k "%s'%lu'" AInt (t_event_id x);
  do event_name <- again k "%s'%s'" AStr (t_event_name x);
  do command <- again k "%s'%s'" AStr (t_command x);
  do state <- again k "%s'%s'" AStr (t_state x);
  Ok ([("%s'id':[", [AStr (if comma then lit "," else [])])] ++ id
      ++ say "],'thread_id':[" ++ thread_id ++ say "],'info':[" ++ info ++ say "],'user':[" ++ user
      ++ say "],'host':[" ++ host ++ say "],'db':[" ++ db ++ say "],'time':[" ++ time
      ++ say "],'timer_wait':[" ++ timer_wait ++ say "],'event_id':[" ++ event_id
      ++ say "],'event_name':[" ++ event_name ++ say "],'command':[" ++ command
      ++ say "],'state':[" ++ state ++ say "]").

Definition _mysql_gather_thread : gather_fn mysql_env mysql_module_t := λ e m p,
  do r <- status_query 0 (query_result e THREADS_QUERY) ENODATA false p;
  let '(error, comma, p) := r in
  match query_result e PROCESSLIST_QUERY with
  | None => Ok (error, m, p)
  | Some rows =>
      do xs <- fetch_rows thread_row rows [];
      if decide (xs = []) then Ok (error, m, p)
      else
        do l <- thread_script comma xs;
        do p <- run p l;
        Ok (error, m, p)
  end.

Definition _mysql_gather_replica : gather_fn mysql_env mysql_module_t := λ _ m p, Ok (ENODATA, m, p).

(** * The plugin *)

Inductive mysql_part := Crud | Query | Innodb | Threads_ | Replica.

Definition my_tag (x : mysql_part) : string :=
  match x with
  | Crud => "curd" | Query => "query" | Innodb => "innodb" | Threads_ => "thread" | Replica => "replica"
  end.

Definition my_fn (x : mysql_part) : gather_fn mysql_env mysql_module_t :=
  match x with
  | Crud => _mysql_gather_crud
  | Query => _mysql_gather_query
  | Innodb => _mysql_gather_innodb
  | Threads_ => _mysql_gather_thread
  | Replica => _mysql_gather_replica
  end.

Definition mysql_parts : list mysql_part := [Crud; Query; Innodb; Threads_; Replica].

(** [mysql_gather]; [order] is the order in which the operands of [&] are
    evaluated. *)
Definition mysql_gather (order : list mysql_part) : gather_fn mysql_env mysql_module_t := λ e m p,
  match mysql m with
  | Wild => Ub Uninit
  | Null => Ub NullDeref
  | Live _ =>
      if negb (my_ping e =? 0) then
        if on m =? 1 then Ok (EPLUGDOWN, set_on 0 m, p) else Ok (ENODATA, m, p)
      else if negb (my_tid m =? my_thread_id e) then
        Ok (EPLUGUP, set_on 1 (set_my_tid (my_thread_id e) m), p)
      else gather_parts my_tag my_fn (-1) order e m p
  end.

(** [load_mysql_module]: [mem] is the block [malloc] returns, [arg] the first
    argument of the section.  The plugin was cleared before. *)
Definition load_mysql_module (order : list mysql_part) (mem : option mysql_module_t) (argc : Z) (arg : bytes)
    (p : option (plugin_t mysql_env mysql_module_t)) : res (Z * option (plugin_t mysql_env mysql_module_t)) :=
  match p with
  | None => Ok (-1, None)
  | Some p =>
      if negb (argc =? 1) then Ok (-1, Some p)
      else match mem with
      | None => Ok (-1, Some p)
      | Some m =>
          do found <- scan_address arg m;
          match found with
          | None => Ok (-1, Some p)
          | Some m =>
              let m := set_on 1 m in
              let host := cstr (my_host m) in
              let remote := negb (bool_decide (host = lit "localhost" ∨ host = lit "127.0.0.1")) in
              Ok (0, Some (Plugin (set_tick MYSQL_TICK (r p)) (tid p)
                             (if remote then Some host else tip p) (lit "mysql_ubuntu_1.0")
                             (working p) (oob p) (Some mysql_prep) (mysql_gather order) mysql_module_cmp
                             MODULE_SIZE m))
          end
      end
  end.

(** * What the functions report *)

(** A decimal number as the server prints it. *)
Definition number (v : bytes) : Prop := Forall (λ c, is_digit c = true) v ∧ v = dec (undec v).

#[global] Instance number_dec v : Decision (number v).
Proof. unfold number. apply _. Defined.

Lemma number_value v : number v → value v (JInt (undec v)).
Proof. intros [Hd E]. rewrite E at 1. apply dec_value. by apply undec_nonneg. Qed.

(** A row with a name, of which the first [n] characters are dropped, and a number. *)
Definition row_good (n : nat) (r : row) : Prop :=
  match r with
  | [Some k; Some v] => (n ≤ length k)%nat ∧ clean (drop n k) ∧ number v
  | _ => False
  end.

Definition row_field (n : nat) (r : row) : bytes * bytes :=
  match r with
  | [Some k; Some v] => (drop n k, v)
  | _ => ([], [])
  end.

Definition row_member (n : nat) (r : row) : bytes * json :=
  let '(k, v) := row_field n r in (k, JInt (undec v)).

Lemma row_inv n r :
  row_good n r → ∃ k v, r = [Some k; Some v] ∧ (n ≤ length k)%nat ∧ clean (drop n k) ∧ number v.
Proof. destruct r as [|[k|] [|[v|] [|]]]; try done. intros H. by exists k, v. Qed.

Lemma rows_json n rows :
  Forall (row_good n) rows → Forall2 field (row_field n <$> rows) (row_member n <$> rows).
Proof.
  intros H. apply Forall2_fmap_2, Forall_Forall2_diag. eapply list.Forall_impl; [exact H|].
  intros r (k & v & -> & _ & Hk & Hv)%row_inv. split; [done|]. split; [done|]. by apply number_value.
Qed.

(** Whether a comma is needed behind the fields [l]. *)
Definition some_fields (l : list (bytes * bytes)) : bool := negb (bool_decide (l = [])).

Lemma fields_text_next l x :
  fields_text (l ++ [x]) = fields_text l ++ (if some_fields l then lit "," else []) ++ field_text x.
Proof. rewrite fields_text_snoc. unfold some_fields. by case_decide; case_bool_decide. Qed.

Lemma status_rows_ok n rows l p c :
  holds p (c ++ fields_text l) → Forall (row_good n) rows →
  fits c (length (fields_text (l ++ (row_field n <$> rows)))) →
  ∃ p', status_rows n (some_fields l) rows p = Ok (some_fields (l ++ (row_field n <$> rows)), p')
        ∧ same_meta p p' ∧ holds p' (c ++ fields_text (l ++ (row_field n <$> rows))).
Proof.
  intros Hh H. revert l p Hh. induction H as [|r rows Hr _ IH]; intros l p Hh Hf.
  { exists p. cbn [fmap list_fmap]. by rewrite app_nil_r. }
  apply row_inv in Hr as (k & v & -> & Hn & Hk & Hv). cbn [status_rows fmap list_fmap row_field] in *.
  change (col _ 0) with (Ok k). change (col _ 1) with (Ok v). cbn [rbind].
  unfold offset. rewrite (proj2 (Nat.ltb_ge _ _)) by done. cbn [rbind].
  rewrite cons_middle, app_assoc in Hf |- *. pose proof (fits_fields _ _ _ Hf) as Hf'.
  rewrite fields_text_next in Hf'.
  destruct (packet_append_ok p (c ++ fields_text l) "%s'%s':%s"
      [AStr (if some_fields l then lit "," else []); AStr (drop n k); AStr v]
      ((if some_fields l then lit "," else []) ++ field_text (drop n k, v)))
    as (p1 & -> & Hm1 & Hh1).
  { by apply holds_begins. }
  { fmt_eval. unfold field_text, quoted. cbn [fst snd].
    rewrite app_nil_r. repeat (rewrite <- ?app_comm_cons; rewrite <- ?app_assoc). reflexivity. }
  { unfold fits in *. rewrite !length_app in *. lia. }
  cbn [rbind]. rewrite <- app_assoc, <- fields_text_next in Hh1.
  destruct (IH (l ++ [(drop n k, v)]) p1 Hh1 Hf) as (p2 & E & Hm2 & Hh2).
  unfold some_fields at 1 in E. rewrite bool_decide_false in E by (by destruct l). cbn [negb] in E.
  exists p2. rewrite E. split; [done|]. split; [by rewrite Hm1|done].
Qed.

(** ** Statements and threads *)

Definition result_good (n : nat) (result : option (list row)) : Prop :=
  Forall (row_good n) (default [] result).

Definition result_fields (n : nat) (result : option (list row)) : list (bytes * bytes) :=
  row_field n <$> default [] result.

Definition result_members (n : nat) (result : option (list row)) : list (bytes * json) :=
  row_member n <$> default [] result.

(** ENONE once a query has had a result. *)
Definition after (error : Z) (result : option (list row)) : Z :=
  match result with Some _ => ENONE | None => error end.

Lemma status_query_ok n result error l p c :
  holds p (c ++ fields_text l) → result_good n result →
  fits c (length (fields_text (l ++ result_fields n result))) →
  ∃ p', status_query n result error (some_fields l) p
        = Ok (after error result, some_fields (l ++ result_fields n result), p')
        ∧ same_meta p p' ∧ holds p' (c ++ fields_text (l ++ result_fields n result)).
Proof.
  intros Hh Hg Hf. unfold status_query, result_fields in *. destruct result as [rows|]; cbn [default] in *.
  - destruct (status_rows_ok n rows l p c) as (p' & -> & Hm & Hh'); [done..|]. by exists p'.
  - exists p. cbn [fmap list_fmap]. by rewrite app_nil_r.
Qed.

Definition crud_fields (e : mysql_env) (_ : mysql_module_t) : list (bytes * bytes) :=
  result_fields 4 (query_result e CRUD_QUERY) ++ result_fields 0 (query_result e DDL_QUERY).

Definition crud_clean (e : mysql_env) (_ : mysql_module_t) : Prop :=
  result_good 4 (query_result e CRUD_QUERY) ∧ result_good 0 (query_result e DDL_QUERY).

Definition crud_code (e : mysql_env) (_ : mysql_module_t) : Z :=
  after (after ENODATA (query_result e CRUD_QUERY)) (query_result e DDL_QUERY).

Lemma after_range error result : 0 ≤ error ≤ 1 → 0 ≤ after error result ≤ 1.
Proof. destruct result; cbn; unfold ENONE; lia. Qed.

#[export] Instance crud_gatherer : Gatherer _mysql_gather_crud.
Proof.
  apply (fields_gatherer _ crud_clean crud_code crud_fields).
  - intros e m p c [H1 H2] Hh _ Hf. unfold _mysql_gather_crud, crud_fields, crud_code in *.
    destruct (status_query_ok 4 (query_result e CRUD_QUERY) ENODATA [] p c) as (p1 & E1 & Hm1 & Hh1);
      [by rewrite app_nil_r|done|by apply fits_fields in Hf|].
    change (some_fields []) with false in E1. rewrite E1. cbn [rbind]. cbn [app] in *.
    destruct (status_query_ok 0 (query_result e DDL_QUERY) (after ENODATA (query_result e CRUD_QUERY))
        (result_fields 4 (query_result e CRUD_QUERY)) p1 c) as (p2 & -> & Hm2 & Hh2); [done..|].
    exists p2. split; [done|]. split; [by rewrite Hm1|done].
  - intros e m. unfold crud_code.
    pose proof (after_range (after ENODATA (query_result e CRUD_QUERY)) (query_result e DDL_QUERY)
      (after_range ENODATA (query_result e CRUD_QUERY) ltac:(unfold ENODATA; lia))). lia.
Defined.

Definition crud_members (e : mysql_env) : list (bytes * json) :=
  result_members 4 (query_result e CRUD_QUERY) ++ result_members 0 (query_result e DDL_QUERY).

Lemma crud_json e m : crud_clean e m → members (fields_text (crud_fields e m)) (crud_members e).
Proof. intros [H1 H2]. apply fields_members, Forall2_app; by apply rows_json. Qed.

(** No thread may be listed: printing them is undefined (see [threads_undefined]). *)
Definition no_rows (result : option (list row)) : Prop := default [] result = [].

Definition thread_fields (e : mysql_env) (_ : mysql_module_t) : list (bytes * bytes) :=
  result_fields 0 (query_result e THREADS_QUERY).

Definition thread_clean (e : mysql_env) (_ : mysql_module_t) : Prop :=
  result_good 0 (query_result e THREADS_QUERY) ∧ no_rows (query_result e PROCESSLIST_QUERY).

#[export] Instance thread_gatherer : Gatherer _mysql_gather_thread.
Proof.
  apply (fields_gatherer _ thread_clean (λ e _, after ENODATA (query_result e THREADS_QUERY)) thread_fields).
  - intros e m p c [H1 H2] Hh _ Hf. unfold _mysql_gather_thread, thread_fields in *.
    destruct (status_query_ok 0 (query_result e THREADS_QUERY) ENODATA [] p c) as (p1 & E1 & Hm1 & Hh1);
      [by rewrite app_nil_r|done..|].
    change (some_fields []) with false in E1. rewrite E1. cbn [rbind]. cbn [app] in *. exists p1.
    unfold no_rows in H2. destruct (query_result e PROCESSLIST_QUERY) as [rows|]; [|done].
    cbn in H2. by rewrite H2.
  - intros e m. pose proof (after_range ENODATA (query_result e THREADS_QUERY) ltac:(unfold ENODATA; lia)). lia.
Defined.

Lemma thread_json e m :
  thread_clean e m →
  members (fields_text (thread_fields e m)) (result_members 0 (query_result e THREADS_QUERY)).
Proof. intros [H1 _]. by apply fields_members, rows_json. Qed.

(** ** Slow queries *)

(** The status gives one number at most, and no query may be listed. *)
Definition slow_rows (rows : list row) : Prop :=
  match rows with
  | [] => True
  | [[_; Some v]] => number v
  | _ => False
  end.

Definition slow_values (result : option (list row)) : list bytes :=
  match result with
  | Some [[_; Some v]] => [v]
  | _ => []
  end.

Definition query_fields (e : mysql_env) (_ : mysql_module_t) : list (bytes * bytes) :=
  pair (lit "slow_queries") <$> slow_values (query_result e SLOW_STATUS_QUERY).

Definition query_clean (e : mysql_env) (_ : mysql_module_t) : Prop :=
  slow_rows (default [] (query_result e SLOW_STATUS_QUERY)) ∧ no_rows (query_result e SLOW_LOG_QUERY).

Lemma slow_status_ok rows p c :
  holds p c → slow_rows rows →
  fits c (length (fields_text (pair (lit "slow_queries") <$> slow_values (Some rows)))) →
  ∃ p', slow_status rows p = Ok p' ∧ same_meta p p'
        ∧ holds p' (c ++ fields_text (pair (lit "slow_queries") <$> slow_values (Some rows))).
Proof.
  intros Hh Hr Hf. destruct rows as [|[|a [|[v|] [|]]] [|]]; try done.
  { exists p. cbn. by rewrite app_nil_r. }
  cbn [slow_values fmap list_fmap] in *. cbn [slow_status]. change (col _ 1) with (Ok v). cbn [rbind].
  destruct (packet_append_ok p c "'slow_queries':%s" [AStr v] (fields_text [(lit "slow_queries", v)]))
    as (p1 & -> & Hm1 & Hh1); [by apply holds_begins| |done|by exists p1].
  by fmt_eval.
Qed.

#[export] Instance query_gatherer : Gatherer _mysql_gather_query.
Proof.
  apply (fields_gatherer _ query_clean (λ e _, after ENODATA (query_result e SLOW_STATUS_QUERY)) query_fields).
  - intros e m p c [H1 H2] Hh _ Hf. unfold _mysql_gather_query, query_fields in *.
    assert (∃ p', match query_result e SLOW_STATUS_QUERY with
                  | Some rows => do p <- slow_status rows p; Ok (ENONE, p)
                  | None => Ok (ENODATA, p)
                  end = Ok (after ENODATA (query_result e SLOW_STATUS_QUERY), p') ∧ same_meta p p'
              ∧ holds p' (c ++ fields_text (pair (lit "slow_queries") <$> slow_values (query_result e SLOW_STATUS_QUERY))))
      as (p1 & -> & Hm1 & Hh1).
    { destruct (query_result e SLOW_STATUS_QUERY) as [rows|]; [|exists p; cbn; by rewrite app_nil_r].
      destruct (slow_status_ok rows p c Hh H1 Hf) as (p1 & -> & Hm1 & Hh1). by exists p1. }
    cbn [rbind]. exists p1. unfold no_rows in H2.
    destruct (query_result e SLOW_LOG_QUERY) as [rows|]; [|done]. cbn in H2. by rewrite H2.
  - intros e m. pose proof (after_range ENODATA (query_result e SLOW_STATUS_QUERY) ltac:(unfold ENODATA; lia)). lia.
Defined.

Definition query_members (e : mysql_env) : list (bytes * json) :=
  (λ v, (lit "slow_queries", JInt (undec v))) <$> slow_values (query_result e SLOW_STATUS_QUERY).

Lemma query_json e m : query_clean e m → members (fields_text (query_fields e m)) (query_members e).
Proof.
  intros [H1 _]. apply fields_members. unfold query_fields, query_members.
  destruct (query_result e SLOW_STATUS_QUERY) as [rows|]; [|constructor]. cbn in H1.
  destruct rows as [|[|a [|[v|] [|]]] [|]]; try done. cbn. apply Forall2_cons_2; [|constructor].
  split; [solve_clean|]. split; [done|]. by apply number_value.
Qed.

(** ** InnoDB *)

(** One field behind others, in the two calls of the code. *)
Lemma innodb_rows_ok n fmt rows l p c :
  (∀ k, format fmt [AStr k] = Some (lit "," ++ quoted k ++ lit ":")) → l ≠ [] →
  holds p (c ++ fields_text l) → Forall (row_good n) rows →
  fits c (length (fields_text (l ++ (row_field n <$> rows)))) →
  ∃ p', innodb_rows n fmt rows p = Ok p' ∧ same_meta p p'
        ∧ holds p' (c ++ fields_text (l ++ (row_field n <$> rows))).
Proof.
  intros Hfmt Hl Hh H. revert l p Hl Hh. induction H as [|r rows Hr _ IH]; intros l p Hl Hh Hf.
  { exists p. cbn [fmap list_fmap]. by rewrite app_nil_r. }
  apply row_inv in Hr as (k & v & -> & Hn & Hk & Hv). cbn [innodb_rows fmap list_fmap row_field] in *.
  change (col _ 0) with (Ok k). change (col _ 1) with (Ok v). cbn [rbind].
  unfold offset. rewrite (proj2 (Nat.ltb_ge _ _)) by done. cbn [rbind].
  rewrite cons_middle, app_assoc in Hf |- *. pose proof (fits_fields _ _ _ Hf) as Hf'.
  rewrite fields_text_next in Hf'. unfold some_fields in Hf'. rewrite bool_decide_false in Hf' by done.
  cbn [negb] in Hf'. unfold field_text in Hf'. cbn [fst snd] in Hf'.
  destruct (packet_append_ok p (c ++ fields_text l) fmt [AStr (drop n k)] _ ltac:(by apply holds_begins) (Hfmt _))
    as (p1 & -> & Hm1 & Hh1).
  { unfold fits in *. rewrite !length_app in *. cbn [length] in *. change (length (lit ":")) with 1%nat. lia. }
  cbn [rbind].
  destruct (packet_append_ok p1 ((c ++ fields_text l) ++ lit "," ++ quoted (drop n k) ++ lit ":") "%s" [AStr v] v)
    as (p2 & -> & Hm2 & Hh2).
  { by apply holds_begins. }
  { fmt_eval. by rewrite app_nil_r. }
  { unfold fits in *. rewrite !length_app in *. cbn [length] in *. change (length (lit ":")) with 1%nat. lia. }
  cbn [rbind]. destruct (IH (l ++ [(drop n k, v)]) p2) as (p3 & -> & Hm3 & Hh3); [by destruct l| |done|].
  { rewrite fields_text_next. unfold some_fields. rewrite bool_decide_false by done. cbn [negb].
    unfold field_text. cbn [fst snd]. rewrite <- !app_assoc in Hh2. exact Hh2. }
  exists p3. split; [done|]. split; [by rewrite Hm1, Hm2|done].
Qed.

(** The first field. *)
Lemma innodb_first_ok n r p c :
  holds p c → row_good n r → fits c (length (fields_text [row_field n r])) →
  ∃ p', innodb_rows n "'%s':" [r] p = Ok p' ∧ same_meta p p' ∧ holds p' (c ++ fields_text [row_field n r]).
Proof.
  intros Hh (k & v & -> & Hn & Hk & Hv)%row_inv Hf. cbn [innodb_rows row_field] in *.
  change (col _ 0) with (Ok k). change (col _ 1) with (Ok v). cbn [rbind].
  unfold offset. rewrite (proj2 (Nat.ltb_ge _ _)) by done. cbn [rbind].
  assert (fields_text [(drop n k, v)] = (quoted (drop n k) ++ lit ":") ++ v) as Et.
  { unfold fields_text, field_text. cbn. by rewrite app_nil_r, <- !app_assoc. }
  rewrite Et in *. unfold fits in Hf. rewrite length_app in Hf.
  destruct (packet_append_ok p c "'%s':" [AStr (drop n k)] (quoted (drop n k) ++ lit ":"))
    as (p1 & -> & Hm1 & Hh1); [by apply holds_begins| |unfold fits; lia|].
  { fmt_eval. unfold quoted. rewrite <- ?app_comm_cons, <- !app_assoc. reflexivity. }
  cbn [rbind]. destruct (packet_append_ok p1 (c ++ quoted (drop n k) ++ lit ":") "%s" [AStr v] v)
    as (p2 & -> & Hm2 & Hh2); [by apply holds_begins| |unfold fits; rewrite length_app; lia|].
  { fmt_eval. by rewrite app_nil_r. }
  exists p2. split; [done|]. split; [by rewrite Hm1|]. by rewrite app_assoc.
Qed.

(** What the engine's status says of the insert buffer, at every place it does. *)
Fixpoint ibufs (s : bytes) : list (Z * Z * Z) :=
  match s with
  | [] => []
  | _ :: s' =>
      match (if bool_decide (take 4 s = lit "Ibuf") then scan_ibuf s else None) with
      | None => ibufs s'
      | Some x => x :: ibufs s'
      end
  end.

Definition ibuf_fields (x : Z * Z * Z) : list (bytes * bytes) :=
  let '(used, free, total) := x in
  [(lit "cell_count", dec total); (lit "free_cells", dec free); (lit "used_cells", dec used)].

Definition ibuf_members (x : Z * Z * Z) : list (bytes * json) :=
  let '(used, free, total) := x in
  [(lit "cell_count", JInt total); (lit "free_cells", JInt free); (lit "used_cells", JInt used)].

Definition ibuf_u64 (x : Z * Z * Z) : Prop := is_u64 x.1.1 ∧ is_u64 x.1.2 ∧ is_u64 x.2.

Lemma scan_ibuf_u64 s x : scan_ibuf s = Some x → ibuf_u64 x.
Proof.
  unfold scan_ibuf. destruct (scan_words _ s ≫= scan_llu) as [[u s1]|] eqn:E1; [|done]. cbn [mbind option_bind].
  destruct ((scan_lit (lit ",") s1 ≫= _) ≫= scan_llu) as [[f s2]|] eqn:E2; [|done]. cbn [mbind option_bind].
  destruct ((scan_lit (lit ",") s2 ≫= _) ≫= scan_llu) as [[t s3]|] eqn:E3; [|done]. cbn [mbind option_bind].
  intros [= <-]. apply bind_Some in E1 as (? & _ & E1). apply bind_Some in E2 as (? & _ & E2).
  apply bind_Some in E3 as (? & _ & E3). split; [|split]; cbn; by eapply scan_llu_range.
Qed.

Lemma ibufs_u64 s : Forall ibuf_u64 (ibufs s).
Proof.
  induction s as [|c s IH]; [constructor|]. cbn [ibufs]. repeat case_match; try done.
  apply Forall_cons_2; [|done]. by eapply scan_ibuf_u64.
Qed.

Lemma ibuf_prints l x :
  l ≠ [] → ibuf_u64 x → ∃ t, prints (ibuf_script x) t ∧ fields_text (l ++ ibuf_fields x) = fields_text l ++ t.
Proof.
  destruct x as [[u f] t]. intros Hl (H1 & H2 & H3). cbn [fst snd] in *.
  exists (lit ",'cell_count':" ++ dec t ++ lit ",'free_cells':" ++ dec f ++ lit ",'used_cells':" ++ dec u). split.
  - unfold ibuf_script. eapply prints_eq.
    { repeat (eapply prints_cons; [fmt_eval; reflexivity|]). apply prints_nil. }
    change (?z mod 2 ^ 64) with (u64 z). rewrite !u64_small by done. rewrite !app_nil_r, <- !app_assoc. reflexivity.
  - destruct l as [|y l]; [done|]. unfold ibuf_fields, fields_text, field_text. cbn [app].
    rewrite !fmap_app, !join_app. cbn [fmap list_fmap mjoin list_join fst snd]. unfold quoted. rewrite !app_nil_r.
    repeat (rewrite <- ?app_comm_cons; rewrite <- ?app_assoc). reflexivity.
Qed.

Definition found (error : Z) (l : list (Z * Z * Z)) : Z := if decide (l = []) then error else ENONE.

Lemma ibuf_loop_ok s error l p c :
  l ≠ [] → holds p (c ++ fields_text l) →
  fits c (length (fields_text (l ++ mjoin (ibuf_fields <$> ibufs s)))) →
  ∃ p', ibuf_loop error s p = Ok (found error (ibufs s), p') ∧ same_meta p p'
        ∧ holds p' (c ++ fields_text (l ++ mjoin (ibuf_fields <$> ibufs s))).
Proof.
  revert error l p. induction s as [|a s IH]; intros error l p Hl Hh Hf.
  { exists p. cbn. by rewrite app_nil_r. }
  cbn [ibuf_loop ibufs] in *. pose proof (ibufs_u64 (a :: s)) as Hu. cbn [ibufs] in Hu.
  destruct (if bool_decide (take 4 (a :: s) = lit "Ibuf") then scan_ibuf (a :: s) else None) as [x|]; [|by apply IH].
  apply list.Forall_cons in Hu as [Hx _]. destruct (ibuf_prints l x Hl Hx) as (t & Ht & Et).
  rewrite fmap_cons in *. change (mjoin (?a :: ?b)) with (a ++ mjoin b) in *. rewrite app_assoc in *.
  pose proof (fits_fields _ _ _ Hf) as Hf'. rewrite Et in Hf'.
  destruct (run_ok _ t p (c ++ fields_text l) Ht Hh) as (p1 & -> & Hm1 & Hh1).
  { unfold fits in *. rewrite !length_app in *. lia. }
  rewrite <- app_assoc, <- Et in Hh1. cbn [rbind].
  destruct (IH ENONE (l ++ ibuf_fields x) p1) as (p2 & -> & Hm2 & Hh2); [by destruct l|done|done|].
  exists p2. split; [|split; [by rewrite Hm1|done]]. unfold found. by case_decide.
Qed.

(** The text of the engine's status. *)
Definition engine_text (result : option (list row)) : bytes :=
  match result with
  | Some ((_ :: _ :: Some s :: _) :: _) => s
  | _ => []
  end.

Definition engine_good (result : option (list row)) : Prop :=
  match result with
  | None | Some ((_ :: _ :: Some _ :: _) :: _) => True
  | _ => False
  end.

(** The first query has to give its one row when the others give any: their
    fields start with a comma. *)
Definition innodb_clean (e : mysql_env) (_ : mysql_module_t) : Prop :=
  match query_result e POOL_QUERY with
  | Some [r] =>
      row_good 14 r ∧ result_good 7 (query_result e INNODB_QUERY) ∧ engine_good (query_result e ENGINE_QUERY)
  | None => query_result e INNODB_QUERY = None ∧ query_result e ENGINE_QUERY = None
  | _ => False
  end.

Definition innodb_fields (e : mysql_env) (_ : mysql_module_t) : list (bytes * bytes) :=
  result_fields 14 (query_result e POOL_QUERY) ++ result_fields 7 (query_result e INNODB_QUERY)
  ++ mjoin (ibuf_fields <$> ibufs (engine_text (query_result e ENGINE_QUERY))).

Definition innodb_members (e : mysql_env) : list (bytes * json) :=
  result_members 14 (query_result e POOL_QUERY) ++ result_members 7 (query_result e INNODB_QUERY)
  ++ mjoin (ibuf_members <$> ibufs (engine_text (query_result e ENGINE_QUERY))).

Lemma innodb_result_ok result error l p c :
  l ≠ [] → holds p (c ++ fields_text l) → result_good 7 result →
  fits c (length (fields_text (l ++ result_fields 7 result))) →
  ∃ p', match result with
        | Some rows => do p <- innodb_rows 7 ",'%s':" rows p; Ok (ENONE, p)
        | None => Ok (error, p)
        end = Ok (after error result, p')
        ∧ same_meta p p' ∧ holds p' (c ++ fields_text (l ++ result_fields 7 result)).
Proof.
  intros Hl Hh Hr Hf. destruct result as [rows|].
  - destruct (innodb_rows_ok 7 ",'%s':" rows l p c) as (p' & -> & Hm & Hh'); [|done..|by exists p'].
    intros k. fmt_eval. unfold quoted. rewrite <- ?app_comm_cons, <- !app_assoc. reflexivity.
  - exists p. cbn. by rewrite app_nil_r.
Qed.

Lemma innodb_run e m p c :
  innodb_clean e m → holds p c → fits c (length (fields_text (innodb_fields e m))) →
  ∃ p', _mysql_gather_innodb e m p = Ok (after ENODATA (query_result e POOL_QUERY), m, p') ∧ same_meta p p'
        ∧ holds p' (c ++ fields_text (innodb_fields e m)).
Proof.
  unfold innodb_clean, innodb_fields, _mysql_gather_innodb. intros Hcl Hh Hf.
  destruct (query_result e POOL_QUERY) as [rows|].
  2:{ destruct Hcl as [-> ->]. exists p. cbn. by rewrite app_nil_r. }
  destruct rows as [|r [|? ?]]; [done| |done]. destruct Hcl as (Hr & Hi & He).
  change (result_fields 14 (Some [r])) with [row_field 14 r] in *.
  destruct (innodb_first_ok 14 r p c) as (p1 & -> & Hm1 & Hh1); [done|done|by apply fits_fields in Hf|].
  cbn [rbind]. rewrite app_assoc in Hf |- *.
  destruct (innodb_result_ok (query_result e INNODB_QUERY) ENONE [row_field 14 r] p1 c)
    as (p2 & -> & Hm2 & Hh2); [done|done|done|by apply fits_fields in Hf|]. cbn [rbind].
  replace (after ENONE (query_result e INNODB_QUERY)) with ENONE by (by destruct (query_result e INNODB_QUERY)).
  destruct (query_result e ENGINE_QUERY) as [[|[|? [|? [|[s|] ?]]] ?]|]; try done.
  - cbn [head of_opt rbind]. change (col _ 2) with (Ok s). cbn [rbind engine_text] in *.
    destruct (ibuf_loop_ok s ENONE ([row_field 14 r] ++ result_fields 7 (query_result e INNODB_QUERY)) p2 c)
      as (p3 & -> & Hm3 & Hh3); [done..|].
    exists p3. cbn [rbind fst snd]. split; [unfold found; by case_decide|]. split; [by rewrite Hm1, Hm2|done].
  - exists p2. split; [done|]. split; [by rewrite Hm1|]. cbn [engine_text ibufs fmap list_fmap mjoin list_join].
    by rewrite app_nil_r.
Qed.

#[export] Instance innodb_gatherer : Gatherer _mysql_gather_innodb.
Proof.
  apply (fields_gatherer _ innodb_clean (λ e _, after ENODATA (query_result e POOL_QUERY)) innodb_fields).
  - intros. by apply innodb_run.
  - intros e m. pose proof (after_range ENODATA (query_result e POOL_QUERY) ltac:(unfold ENODATA; lia)). lia.
Defined.

Lemma ibuf_json x : ibuf_u64 x → Forall2 field (ibuf_fields x) (ibuf_members x).
Proof.
  destruct x as [[u f] t]. intros (H1 & H2 & H3). unfold ibuf_fields, ibuf_members.
  solve_fields; apply dec_value; first [apply H1|apply H2|apply H3].
Qed.

Lemma ibufs_json l : Forall ibuf_u64 l → Forall2 field (mjoin (ibuf_fields <$> l)) (mjoin (ibuf_members <$> l)).
Proof.
  induction 1 as [|x l Hx _ IH]; [constructor|]. rewrite !fmap_cons.
  change (mjoin (?a :: ?b)) with (a ++ mjoin b). apply Forall2_app; [by apply ibuf_json|done].
Qed.

Lemma innodb_json e m : innodb_clean e m → members (fields_text (innodb_fields e m)) (innodb_members e).
Proof.
  intros H. apply fields_members. unfold innodb_clean, innodb_fields, innodb_members in *.
  assert (result_good 14 (query_result e POOL_QUERY) ∧ result_good 7 (query_result e INNODB_QUERY)) as [H1 H2].
  { destruct (query_result e POOL_QUERY) as [[|r [|? ?]]|]; [done| |done|].
    - destruct H as (Hr & Hi & _). split; [apply Forall_cons_2; [done|apply Forall_nil_2]|done].
    - destruct H as [-> _]. split; apply Forall_nil_2. }
  repeat apply Forall2_app; [by apply rows_json..|apply ibufs_json, ibufs_u64].
Qed.

(** ** All five *)

#[export] Instance replica_gatherer : Gatherer _mysql_gather_replica.
Proof.
  apply (fields_gatherer _ (λ _ _, True) (λ _ _, ENODATA) (λ _ _, [])).
  - intros e m p c _ Hh _ _. exists p. cbn. by rewrite app_nil_r.
  - done.
Defined.

#[export] Instance my_gatherer x : Gatherer (my_fn x).
Proof. destruct x; apply _. Defined.

Definition my_members (e : mysql_env) (_ : mysql_module_t) (x : mysql_part) : list (bytes * json) :=
  match x with
  | Crud => crud_members e
  | Query => query_members e
  | Innodb => innodb_members e
  | Threads_ => result_members 0 (query_result e THREADS_QUERY)
  | Replica => []
  end.

Lemma after_cases error result :
  error = ENONE ∨ error = ENODATA → after error result = ENONE ∨ after error result = ENODATA.
Proof. destruct result; auto. Qed.

#[export] Instance mysql_parts_laws : Parts my_tag my_fn my_members.
Proof.
  split.
  - intros []; solve_clean.
  - by intros [].
  - intros x e m. destruct x; [|apply after_cases; by right..|by right].
    apply after_cases, after_cases. by right.
  - intros x e m. destruct x; [apply crud_json|apply query_json|apply innodb_json|apply thread_json|].
    intros _. constructor.
Qed.

Abbreviation MysqlOrder := (Ordering mysql_parts).

(** The connection is there and the rows are good when they are asked for. *)
Definition mysql_clean (e : mysql_env) (m : mysql_module_t) : Prop :=
  (∃ l, mysql m = Live l)
  ∧ (my_ping e = 0 → my_tid m = my_thread_id e → ∀ x, g_clean (my_fn x) e m).

Definition mysql_code (e : mysql_env) (m : mysql_module_t) : Z :=
  if negb (my_ping e =? 0) then if on m =? 1 then EPLUGDOWN else ENODATA
  else if negb (my_tid m =? my_thread_id e) then EPLUGUP
  else parts_code my_fn e m mysql_parts.

Definition mysql_after (e : mysql_env) (m : mysql_module_t) : mysql_module_t :=
  if negb (my_ping e =? 0) then if on m =? 1 then set_on 0 m else m
  else if negb (my_tid m =? my_thread_id e) then set_on 1 (set_my_tid (my_thread_id e) m)
  else m.

Lemma mysql_gather_ok order `{!MysqlOrder order} e m p c :
  mysql_clean e m → holds p c → opened c → fits c (parts_need my_tag my_fn e m mysql_parts) →
  ∃ p', mysql_gather order e m p = Ok (mysql_code e m, mysql_after e m, p') ∧ same_meta p p'
        ∧ holds p' (c ++ if decide (my_ping e = 0 ∧ my_tid m = my_thread_id e)
                         then parts_text my_tag my_fn e m order else []).
Proof.
  intros [[l El] Hcl] Hh Ho Hf. unfold mysql_gather, mysql_code, mysql_after. rewrite El.
  destruct (Z.eqb_spec (my_ping e) 0) as [Hp|Hp]; cbn [negb].
  2:{ exists p. rewrite decide_False by tauto. rewrite app_nil_r. by destruct (on m =? 1). }
  destruct (Z.eqb_spec (my_tid m) (my_thread_id e)) as [Ht|Ht]; cbn [negb].
  2:{ exists p. rewrite decide_False by tauto. by rewrite app_nil_r. }
  rewrite decide_True by done.
  specialize (Hcl Hp Ht). by apply (gather_parts_order my_tag my_fn my_members mysql_parts order e m p c).
Qed.

#[export] Program Instance mysql_gatherer order `{!MysqlOrder order} : Gatherer (mysql_gather order) := {|
  g_clean := mysql_clean;
  g_code := mysql_code;
  g_module := mysql_after;
  g_text := λ e m, if decide (my_ping e = 0 ∧ my_tid m = my_thread_id e)
                   then parts_text my_tag my_fn e m order else [];
  g_need := λ e m, parts_need my_tag my_fn e m mysql_parts
|}.
Next Obligation.
  intros order Hord e m p c Hcl Hh Ho Hf. destruct (mysql_gather_ok order e m p c) as (p' & E & Hm & Hh'); [done..|].
  exists p'. split; [done|]. split; [done|].
  destruct (decide (mysql_code e m = 0)); [done|]. by eapply keeps_app, holds_keeps.
Qed.
Next Obligation. intros. cbv beta. case_decide; [by apply parts_text_length|simpl; lia]. Qed.
Next Obligation.
  intros. unfold mysql_code. pose proof (parts_code_range my_fn e m mysql_parts).
  repeat case_match; unfold EPLUGDOWN, EPLUGUP, ENODATA; lia.
Qed.

#[export] Instance mysql_json order `{!MysqlOrder order} : JsonGatherer (mysql_gather order).
Proof.
  split. intros e m [_ Hcl] _. cbn. case_decide as Hd; [|exists []; constructor].
  exists (parts_members my_tag my_fn my_members e m order).
  destruct Hd as [H1 H2]. exact (parts_text_members my_tag my_fn my_members e m order (Hcl H1 H2)).
Qed.
