(* ===== verification/MysqlReport.v ===== *)
(** What the plugin for MySQL servers does: which alerts it raises over a run of
    turns, what a sample holds, how its configuration is read and recognized
    again, and which answers of the server it cannot cope with. *)
From Stdlib Require Import ZArith Ascii Lia SpecFloat.
From stdpp Require Import base list strings numbers.
From S2P Require Import Prelude.
From S2P Require Import Clib.
From S2P Require Import Scan.
From S2P Require Import Json.
From S2P Require Import Packet.
From S2P Require Import Report.
From S2P Require Import Parts.
From S2P Require Import Routine.
From S2P Require Import Plugin.
From S2P Require Import Agent.
From S2P Require Import Mysql.

Local Open Scope Z_scope.

(** * Answers the plugin cannot cope with *)

Lemma fetch_rows_length {A} (get : nat → row → res A) rows xs ys :
  fetch_rows get rows xs = Ok ys → length ys = (length xs + length rows)%nat.
Proof.
  revert xs. induction rows as [|r rows IH]; intros xs; cbn [fetch_rows]; [intros [= <-]; simpl; lia|].
  intros H. inv_ok H. apply IH in H. rewrite length_app in H. simpl in *. lia.
Qed.

(** The element behind the stored ones is never one of them. *)
Lemma at_index_undefined {A} (xs : list A) x : at_index xs (length xs) ≠ Ok x.
Proof. unfold at_index. case_match; [done|]. by rewrite lookup_ge_None_2. Qed.

Lemma col_ends r i : ends (col r i).
Proof. unfold col. by repeat case_match. Qed.

Lemma get_word_ends k r i : ends (get_word k r i).
Proof.
  apply ends_bind; [apply col_ends|]. intros s _. repeat case_match; try done. apply ends_bind; auto with ends.
Qed.

Lemma get_num_ends k r i : ends (get_num k r i).
Proof.
  apply ends_bind; [apply col_ends|]. intros s _. repeat case_match; try done. apply ends_bind; auto with ends.
Qed.

#[local] Hint Resolve col_ends get_word_ends get_num_ends : ends.

Ltac ends_all := repeat (apply ends_bind; [by auto with ends|intros ? _]); by auto with ends.

Lemma fetch_rows_ends {A} (get : nat → row → res A) rows xs :
  (∀ k r, ends (get k r)) → ends (fetch_rows get rows xs).
Proof.
  intros Hg. revert xs. induction rows as [|r rows IH]; intros xs; [done|]. apply ends_bind; [apply Hg|auto].
Qed.

Lemma slow_row_ends k r : ends (slow_row k r).
Proof. unfold slow_row. ends_all. Qed.

Lemma thread_row_ends k r : ends (thread_row k r).
Proof. unfold thread_row. ends_all. Qed.

Lemma at_index_ends {A} (xs : list A) k : ends (at_index xs k).
Proof. unfold at_index. case_match; [done|apply ends_opt]. Qed.

Lemma slow_status_ends rows p : ends (slow_status rows p).
Proof. revert p. induction rows as [|r rows IH]; intros p; [done|]. cbn [slow_status]. ends_all. Qed.

Lemma status_rows_ends n b rows p : ends (status_rows n b rows p).
Proof.
  revert b p. induction rows as [|r rows IH]; intros b p; [done|]. cbn [status_rows].
  apply ends_bind; [auto with ends|]. intros a _. apply ends_bind; [unfold offset; by case_match|]. intros k _. ends_all.
Qed.

Lemma status_query_ends n result z b p : ends (status_query n result z b p).
Proof. destruct result; [|done]. apply ends_bind; [apply status_rows_ends|done]. Qed.

Lemma slow_script_undefined xs : ∃ why, slow_script xs = Ub why.
Proof.
  unfold slow_script. destruct (ends_undefined (at_index xs (length xs))) as [w ->];
    [apply at_index_ends|apply at_index_undefined|by exists w].
Qed.

Lemma thread_script_undefined b xs : ∃ why, thread_script b xs = Ub why.
Proof.
  unfold thread_script. destruct (ends_undefined (at_index xs (length xs))) as [w ->];
    [apply at_index_ends|apply at_index_undefined|by exists w].
Qed.

(** The functions for slow queries and for threads print the array element
    behind the last one they filled: as soon as the server lists one slow query,
    or one thread, the call is undefined. *)
Theorem listed_rows_undefined e m p r rows :
  (query_result e SLOW_LOG_QUERY = Some (r :: rows) → ∃ why, _mysql_gather_query e m p = Ub why)
  ∧ (query_result e PROCESSLIST_QUERY = Some (r :: rows) → ∃ why, _mysql_gather_thread e m p = Ub why).
Proof.
  split; intros E; apply ends_undefined.
  - unfold _mysql_gather_query. apply ends_bind.
    { case_match; [|done]. apply ends_bind; [apply slow_status_ends|done]. }
    intros [z q] _. rewrite E. apply ends_bind; [apply fetch_rows_ends, slow_row_ends|]. intros xs _.
    case_decide; [done|]. by destruct (slow_script_undefined xs) as [w ->].
  - intros a H. unfold _mysql_gather_query in H. inv_ok H. destruct v as [z q]. rewrite E in H. inv_ok H.
    rewrite decide_False in H by (apply fetch_rows_length in E1; by intros ->).
    destruct (slow_script_undefined v) as [w Ew]. by rewrite Ew in H.
  - unfold _mysql_gather_thread. apply ends_bind; [apply status_query_ends|].
    intros [[z b] q] _. rewrite E. apply ends_bind; [apply fetch_rows_ends, thread_row_ends|]. intros xs _.
    case_decide; [done|]. by destruct (thread_script_undefined b xs) as [w ->].
  - intros a H. unfold _mysql_gather_thread in H. inv_ok H. destruct v as [[z b] q]. rewrite E in H. inv_ok H.
    rewrite decide_False in H by (apply fetch_rows_length in E1; by intros ->).
    destruct (thread_script_undefined b v) as [w Ew]. by rewrite Ew in H.
Qed.

(** * A turn *)

Lemma status_query_code n result z b p r :
  status_query n result z b p = Ok r → r.1.1 = after z result.
Proof. destruct result; cbn; [|by intros [= <-]]. intros H. inv_ok H. by injection H as <-. Qed.

Lemma ibuf_loop_code z s p r : ibuf_loop z s p = Ok r → r.1 = z ∨ r.1 = ENONE.
Proof.
  revert z p. induction s as [|c s IH]; intros z p; cbn [ibuf_loop]; [intros [= <-]; by left|].
  case_match; [|apply IH]. intros Hr. inv_ok Hr. right. by destruct (IH _ _ Hr).
Qed.

(** Whatever the rows are: a function that returns leaves the module alone and says
    whether there was data. *)
Lemma part_code x e m p z m' q : my_fn x e m p = Ok (z, m', q) → m' = m ∧ (z = ENONE ∨ z = ENODATA).
Proof.
  destruct x; cbn [my_fn]; intros H.
  - unfold _mysql_gather_crud in H. inv_ok H. destruct v as [[z1 b1] p1]. inv_ok H. destruct v as [[z2 b2] p2].
    apply status_query_code in E, E0. cbn in E, E0. subst. injection H as <- <- <-. split; [done|].
    apply after_cases, after_cases. by right.
  - unfold _mysql_gather_query in H. inv_ok H. destruct v as [z1 p1].
    assert (z1 = ENONE ∨ z1 = ENODATA) as Hz.
    { destruct (query_result e SLOW_STATUS_QUERY); [inv_ok E|]; injection E as <- <-; auto. }
    destruct (query_result e SLOW_LOG_QUERY); [|by injection H as <- <- <-]. inv_ok H.
    case_decide; [by injection H as <- <- <-|]. inv_ok H. inv_ok H. by injection H as <- <- <-.
  - unfold _mysql_gather_innodb in H. inv_ok H. destruct v as [z1 p1]. inv_ok H. destruct v as [z2 p2].
    assert (z2 = ENONE ∨ z2 = ENODATA) as Hz.
    { destruct (query_result e POOL_QUERY), (query_result e INNODB_QUERY); repeat (inv_ok E || inv_ok E0); simplify_eq; auto. }
    destruct (query_result e ENGINE_QUERY); [|by injection H as <- <- <-]. inv_ok H. inv_ok H. inv_ok H.
    apply ibuf_loop_code in E3. injection H as <- <- <-. split; [done|]. destruct E3 as [-> | ->]; auto.
  - unfold _mysql_gather_thread in H. inv_ok H. destruct v as [[z1 b1] p1]. apply status_query_code in E. cbn in E. subst.
    assert (after ENODATA (query_result e THREADS_QUERY) = ENONE ∨ after ENODATA (query_result e THREADS_QUERY) = ENODATA)
      by (apply after_cases; by right).
    destruct (query_result e PROCESSLIST_QUERY); [|by injection H as <- <- <-]. inv_ok H.
    case_decide; [by injection H as <- <- <-|]. inv_ok H. inv_ok H. by injection H as <- <- <-.
  - injection H as <- <- <-. auto.
Qed.
Lemma innodb_rows_ends n fmt rows p : ends (innodb_rows n fmt rows p).
Proof.
  revert p. induction rows as [|r rows IH]; intros p; [done|]. cbn [innodb_rows].
  apply ends_bind; [auto with ends|]. intros a _. apply ends_bind; [unfold offset; by case_match|]. intros k _. ends_all.
Qed.

Lemma ibuf_loop_ends z s p : ends (ibuf_loop z s p).
Proof.
  revert z p. induction s as [|c s IH]; intros z p; [done|]. cbn [ibuf_loop]. case_match; [|apply IH]. ends_all.
Qed.

#[local] Hint Resolve status_query_ends slow_status_ends innodb_rows_ends ibuf_loop_ends fetch_rows_ends
  slow_row_ends thread_row_ends at_index_ends : ends.

Lemma mysql_part_ends x e m p : ends (my_fn x e m p).
Proof.
  destruct x; cbn [my_fn].
  - unfold _mysql_gather_crud. apply ends_bind; [auto with ends|]. intros [[z b] q] _.
    apply ends_bind; [auto with ends|]. by intros [[z' b'] q'] _.
  - unfold _mysql_gather_query. apply ends_bind; [case_match; [ends_all|done]|]. intros [z q] _.
    case_match; [|done]. apply ends_bind; [auto with ends|]. intros xs _. case_decide; [done|].
    by destruct (slow_script_undefined xs) as [w ->].
  - unfold _mysql_gather_innodb. apply ends_bind; [case_match; [ends_all|done]|]. intros [z q] _.
    apply ends_bind; [case_match; [ends_all|done]|]. intros [z' q'] _. case_match; [|done].
    apply ends_bind; [apply ends_opt|]. intros r _. ends_all.
  - unfold _mysql_gather_thread. apply ends_bind; [auto with ends|]. intros [[z b] q] _.
    case_match; [|done]. apply ends_bind; [auto with ends|]. intros xs _. case_decide; [done|].
    by destruct (thread_script_undefined b xs) as [w ->].
  - done.
Qed.

(** The server lists a slow query or a process. *)
Definition listed (e : mysql_env) : Prop :=
  ¬ (no_rows (query_result e SLOW_LOG_QUERY) ∧ no_rows (query_result e PROCESSLIST_QUERY)).

#[global] Instance listed_dec e : Decision (listed e).
Proof. unfold listed, no_rows. apply _. Defined.

(** What the answers to the other queries have to be for a sample to be JSON. *)
Definition status_good (e : mysql_env) (m : mysql_module_t) : Prop :=
  crud_clean e m ∧ slow_rows (default [] (query_result e SLOW_STATUS_QUERY)) ∧ innodb_clean e m
  ∧ result_good 0 (query_result e THREADS_QUERY).

Lemma status_good_clean e m : status_good e m → ¬ listed e → ∀ x, g_clean (my_fn x) e m.
Proof.
  intros (Hc & Hs & Hi & Ht) Hl. apply dec_stable in Hl as [Hq Hp]. by intros []; cbn.
Qed.

Lemma listed_undefined order `{!MysqlOrder order} acc e m p :
  listed e → ∃ why, gather_parts my_tag my_fn acc order e m p = Ub why.
Proof.
  intros Hl. apply ends_undefined; [apply gather_parts_ends; intros; apply mysql_part_ends|].
  intros [[z m'] q] H. apply gather_parts_Ok in H as (_ & Hall & _); [|intros ??????; by eapply part_code].
  assert (∀ x, x ∈ order) as Hin by (intros x; rewrite (ordering : order ≡ₚ mysql_parts); destruct x; unfold mysql_parts; rewrite !elem_of_cons; tauto).
  apply Hl. split; unfold no_rows.
  - destruct (Hall Query (Hin _)) as (p1 & y & E). destruct (query_result e SLOW_LOG_QUERY) as [[|r rows]|] eqn:Er; [done| |done].
    destruct (proj1 (listed_rows_undefined e m p1 r rows) Er) as [w Ew]. cbn in E. congruence.
  - destruct (Hall Threads_ (Hin _)) as (p1 & y & E). destruct (query_result e PROCESSLIST_QUERY) as [[|r rows]|] eqn:Er; [done| |done].
    destruct (proj2 (listed_rows_undefined e m p1 r rows) Er) as [w Ew]. cbn in E. congruence.
Qed.


(** * Alerts over a run *)

(** Successive turns, on a packet each, the module going through them. *)
Fixpoint gather_turns (order : list mysql_part) (turns : list (mysql_env * packet_t)) (m : mysql_module_t)
    : res (list Z) :=
  match turns with
  | [] => Ok []
  | (e, p) :: turns =>
      do r <- mysql_gather order e m p;
      do zs <- gather_turns order turns r.1.2;
      Ok (r.1.1 :: zs)
  end.

(** What a turn that returns does to [on]. *)
Lemma mysql_gather_on order `{!MysqlOrder order} e m p z m' q :
  mysql_gather order e m p = Ok (z, m', q) →
  z = EPLUGDOWN ∧ on m = 1 ∧ on m' = 0 ∨ z = EPLUGUP ∨ (z = ENONE ∨ z = ENODATA) ∧ on m' = on m.
Proof.
  unfold mysql_gather. destruct (mysql m); [done|done|]. destruct (negb (my_ping e =? 0)).
  { destruct (Z.eqb_spec (on m) 1); intros [= <- <- <-]; auto. }
  destruct (negb (my_tid m =? my_thread_id e)); [intros [= <- <- <-]; auto|]. intros H.
  apply gather_parts_Ok in H as (-> & _ & Hz); [|intros ??????; by eapply part_code].
  right. right. split; [|done]. apply Hz. right. split; [done|]. intros ->.
  by pose proof (proj1 (Permutation_nil_l _) (ordering : [] ≡ₚ mysql_parts)).
Qed.

(** Off until the server is reported to be back. *)
Lemma down_needs_up order `{!MysqlOrder order} turns m zs j :
  on m = 0 → gather_turns order turns m = Ok zs → zs !! j = Some EPLUGDOWN →
  ∃ k, (k < j)%nat ∧ zs !! k = Some EPLUGUP.
Proof.
  revert m zs j. induction turns as [|[e p] turns IH]; intros m zs j Ho H; cbn [gather_turns] in H; [by injection H as <-|].
  inv_ok H. destruct v as [[z m'] q]. inv_ok H. injection H as <-. cbn [fst snd] in *.
  apply (mysql_gather_on order) in E as [(-> & E & _)|[->|[Hz E]]].
  - by rewrite Ho in E.
  - destruct j as [|j]; [done|]. intros _. exists 0%nat. split; [lia|done].
  - rewrite Ho in E. destruct j as [|j]; [intros [= ->]; by destruct Hz|]. intros Hj.
    destruct (IH m' v j E E0 Hj) as (k & Hk & Ek). exists (S k). split; [lia|done].
Qed.

(** C25. Over any run of turns that is defined, whatever the server answers and
    whatever the packets hold, the alerts alternate: between two reports that the
    server went away there is one that it came back. *)
Theorem alerts_alternate order turns m zs i j :
  order ≡ₚ mysql_parts → gather_turns order turns m = Ok zs →
  zs !! i = Some EPLUGDOWN → zs !! j = Some EPLUGDOWN → (i < j)%nat →
  ∃ k, (i < k < j)%nat ∧ zs !! k = Some EPLUGUP.
Proof.
  intros Hord. assert (MysqlOrder order) as Hmo by done. revert m zs i j.
  induction turns as [|[e p] turns IH]; intros m zs i j H; cbn [gather_turns] in H; [by injection H as <-|].
  inv_ok H. destruct v as [[z m'] q]. inv_ok H. injection H as <-. cbn [fst snd] in *.
  destruct i as [|i], j as [|j]; cbn [lookup list_lookup]; [lia| |lia|].
  - intros [= ->] Ej _. apply (mysql_gather_on order) in E as [(_ & _ & Ho)|[?|[[?|?] _]]]; [|done..].
    destruct (down_needs_up order turns m' v j Ho E0 Ej) as (k & Hk & Ek). exists (S k). split; [lia|done].
  - intros Ei Ej Hij. destruct (IH _ _ i j E0 Ei Ej ltac:(lia)) as (k & Hk & Ek). exists (S k). split; [lia|done].
Qed.

(** A connection that comes back under the thread id it had is not noticed: the
    plugin stays off and the next failure is not reported. *)
Theorem same_id_hides_outage order e1 e2 e3 m l p1 p2 p3 :
  order ≡ₚ mysql_parts → mysql m = Live l → on m = 1 →
  my_ping e1 ≠ 0 → my_ping e2 = 0 → my_thread_id e2 = my_tid m → my_ping e3 ≠ 0 →
  (∀ x, g_clean (my_fn x) e2 (set_on 0 m)) → holds p2 (lit "{") →
  fits (lit "{") (parts_need my_tag my_fn e2 (set_on 0 m) mysql_parts) →
  ∃ m1 z q2, mysql_gather order e1 m p1 = Ok (EPLUGDOWN, m1, p1)
    ∧ mysql_gather order e2 m1 p2 = Ok (z, m1, q2) ∧ (z = ENONE ∨ z = ENODATA)
    ∧ mysql_gather order e3 m1 p3 = Ok (ENODATA, m1, p3).
Proof.
  intros Hord El Hon H1 H2 Ht H3 Hcl Hh Hf. assert (MysqlOrder order) by done.
  destruct (mysql_gather_ok order e2 (set_on 0 m) p2 (lit "{")) as (q2 & E & _); [|done..|].
  { split; [by exists l|done]. }
  unfold mysql_code, mysql_after in E. cbn [my_tid set_on] in E.
  rewrite H2, Ht, !Z.eqb_refl in E. cbn [negb] in E.
  exists (set_on 0 m), (parts_code my_fn e2 (set_on 0 m) mysql_parts), q2.
  unfold mysql_gather at 1 3. cbn [mysql set_on].
  rewrite El, (proj2 (Z.eqb_neq _ _) H1), (proj2 (Z.eqb_neq _ _) H3), Hon. cbn.
  split; [done|]. split; [exact E|]. split; [|done]. unfold parts_code. case_match; auto.
Qed.

(** * The module *)

(** The block of a module in memory: a pointer is its address. *)
Definition le64 (z : Z) : bytes := le32 z ++ le32 (Z.shiftr z 32).

Definition address (h : handle) : Z := match h with Live l => Zpos l | _ => 0 end.

(** The bit-field is the first byte of the block; [pad] is what is in the three
    bytes before the port. *)
Definition mysql_image (pad : bytes) (m : mysql_module_t) : bytes :=
  take 1 (le32 (on m)) ++ my_host m ++ my_user m ++ my_pass m ++ pad ++ le32 (my_port m)
  ++ le64 (address (mysql m)) ++ le64 (my_tid m).

(** A buffer holds a terminated string. *)
Definition buffer (b : bytes) : Prop := Z.of_nat (length b) = BFSZ ∧ NUL ∈ b.

Record module_wf (m : mysql_module_t) : Prop := {
  mw_host : buffer (my_host m);
  mw_user : buffer (my_user m);
  mw_pass : buffer (my_pass m);
  mw_port : 0 ≤ my_port m < 2 ^ 32
}.

Lemma cstr_buffer b t : NUL ∈ b → cstr (b ++ t) = cstr b.
Proof.
  induction b as [|c b IH]; intros H; [by apply elem_of_nil in H|]. simpl.
  destruct (Ascii.eqb_spec c NUL); [done|]. apply elem_of_cons in H as [?|H]; [congruence|]. by rewrite IH.
Qed.

Lemma u32_of_le32 z : 0 ≤ z < 2 ^ 32 → u32 (of_le32 (le32 z)) = z.
Proof.
  intros H. unfold le32. cbn [fmap list_fmap of_le32].
  change 255 with (Z.ones 8). rewrite !Z.land_ones, !Z.shiftr_div_pow2 by lia.
  rewrite !code_ascii by (apply Z.mod_pos_bound; lia).
  change (2 ^ (8 * 0)) with 1. change (2 ^ (8 * 1)) with 256. change (2 ^ (8 * 2)) with 65536.
  change (2 ^ (8 * 3)) with 16777216. change (2 ^ 8) with 256.
  match goal with |- u32 (if ?a <? _ then _ else _) = _ => replace a with z end.
  - unfold u32. change (2 ^ 31) with 2147483648. destruct (Z.ltb_spec z 2147483648); [by apply Z.mod_small|].
    rewrite <- (Z.mod_add _ 1) by lia. rewrite Z.mod_small; lia.
  - change (2 ^ 32) with 4294967296 in H. Z.to_euclidean_division_equations. lia.
Qed.

(** The members at their offsets. *)
Lemma image_drop (a b : bytes) n : length a = n → drop n (a ++ b) = b.
Proof. intros <-. apply drop_app_length. Qed.

Lemma mysql_image_members pad m :
  module_wf m → length pad = 3%nat →
  cstr (drop 1 (mysql_image pad m)) = cstr (my_host m) ∧ cstr (drop 129 (mysql_image pad m)) = cstr (my_user m)
  ∧ cstr (drop 257 (mysql_image pad m)) = cstr (my_pass m) ∧ take 4 (drop 388 (mysql_image pad m)) = le32 (my_port m).
Proof.
  intros [[Lh Hh] [Lu Hu] [Lp Hp] _] Hpad. unfold BFSZ in *. unfold mysql_image. set (b0 := take 1 (le32 (on m))).
  assert (length b0 = 1%nat) as L0 by done.
  rewrite (image_drop b0) by done. rewrite cstr_buffer by done.
  rewrite (app_assoc b0). rewrite (image_drop (b0 ++ my_host m)) by (rewrite length_app; lia).
  rewrite cstr_buffer by done. rewrite (app_assoc (b0 ++ my_host m)).
  rewrite (image_drop ((b0 ++ my_host m) ++ my_user m)) by (rewrite !length_app; lia).
  rewrite cstr_buffer by done. rewrite (app_assoc ((b0 ++ my_host m) ++ my_user m)).
  rewrite (app_assoc (((b0 ++ my_host m) ++ my_user m) ++ my_pass m)).
  rewrite (image_drop ((((b0 ++ my_host m) ++ my_user m) ++ my_pass m) ++ pad)) by (rewrite !length_app; lia).
  done.
Qed.

(** A module saved before a restart is recognized by the plugin of the same
    server: same host, user, password and port, whatever its connection and the
    rest of its buffers were. *)
Theorem module_recognized pad m m' :
  module_wf m → length pad = 3%nat →
  mysql_module_cmp (mysql_image pad m) m' (Z.of_nat (length (mysql_image pad m))) = 0
  ↔ cstr (my_host m) = cstr (my_host m') ∧ cstr (my_user m) = cstr (my_user m')
    ∧ cstr (my_pass m) = cstr (my_pass m') ∧ my_port m = my_port m'.
Proof.
  intros Hw Hpad. destruct (mysql_image_members pad m Hw Hpad) as (E1 & E2 & E3 & E4). unfold mysql_module_cmp.
  rewrite E1, E2, E3, E4, u32_of_le32 by apply Hw.
  rewrite (proj2 (Z.eqb_eq _ MODULE_SIZE)).
  2:{ destruct Hw as [[Lh _] [Lu _] [Lp _] _]. unfold mysql_image, le64, MODULE_SIZE, BFSZ in *.
      rewrite !length_app, length_take, !length_le32. lia. }
  repeat case_bool_decide; destruct (Z.eqb_spec (my_port m) (my_port m')); cbn [andb];
    (split; intros H'; [first [discriminate|tauto]|destruct H' as (? & ? & ? & ?); first [reflexivity|contradiction]]).
Qed.

(** * The configuration *)

Definition no_slash (w : bytes) : Prop := w ≠ [] ∧ Forall (λ c, not_slash c = true) w.

Definition mysql_arg (host : bytes) (port : Z) (user pass : bytes) : bytes :=
  host ++ lit "/" ++ dec port ++ lit "/" ++ user ++ lit "/" ++ pass.

Lemma store_buf_ok w b :
  Z.of_nat (length w) < BFSZ → no_nul w → ∃ b', store_buf w b = Ok b' ∧ cstr b' = w.
Proof.
  intros Hw Hn. unfold store_buf. rewrite (proj2 (Z.leb_gt _ _)) by done. eexists. split; [done|].
  unfold write_at. cbn [take app]. rewrite <- app_assoc. by apply cstr_nul.
Qed.

(** C26. A section whose argument is host/port/user/password loads the plugin for
    that server: the module holds them, and the address is sent with the
    registration unless the server is on this host. *)
Theorem load_mysql_reads order mem host port user pass p :
  no_slash host → no_slash user → no_slash pass → no_nul (host ++ user ++ pass) → 0 ≤ port < 2 ^ 32 →
  Z.of_nat (length host) < BFSZ → Z.of_nat (length user) < BFSZ → Z.of_nat (length pass) < BFSZ →
  ∃ p', load_mysql_module order (Some mem) 1 (mysql_arg host port user pass) (Some p) = Ok (0, Some p')
    ∧ cstr (my_host (module p')) = host ∧ cstr (my_user (module p')) = user
    ∧ cstr (my_pass (module p')) = pass ∧ my_port (module p') = port ∧ on (module p') = 1
    ∧ tip p' = (if decide (host = lit "localhost" ∨ host = lit "127.0.0.1") then tip p else Some host)
    ∧ prep p' = Some mysql_prep ∧ gather p' = mysql_gather order ∧ tick (r p') = MYSQL_TICK.
Proof.
  intros [Hh1 Hh2] [Hu1 Hu2] [Hp1 Hp2] Hn Hport Lh Lu Lp. unfold BFSZ in *.
  apply no_nul_app in Hn as [Nh Hn]. apply no_nul_app in Hn as [Nu Np].
  unfold load_mysql_module, scan_address, mysql_arg. cbn [Z.eqb negb]. change (1 =? 1) with true. cbn [negb].
  rewrite scan_set_app; [|done|by intros c [= <-]|lia|done].
  destruct (store_buf_ok host (my_host mem) Lh Nh) as (bh & -> & Ch). cbn [rbind].
  change (scan_char "/"%char (lit "/" ++ ?s)) with (Some s). cbn [mbind option_bind].
  rewrite scan_llu_dec; [|unfold is_u64; lia|by intros c [= <-]]. cbn [mbind option_bind].
  change (scan_char "/"%char (lit "/" ++ ?s)) with (Some s). cbn [mbind option_bind].
  rewrite scan_set_app; [|done|by intros c [= <-]|lia|done]. cbn [mbind option_bind].
  destruct (store_buf_ok user (my_user mem) Lu Nu) as (bu & -> & Cu). cbn [rbind].
  change (scan_char "/"%char (lit "/" ++ ?s)) with (Some s). cbn [mbind option_bind].
  rewrite <- (app_nil_r pass), scan_set_app; [|done|done|lia|done].
  destruct (store_buf_ok pass (my_pass mem) Lp Np) as (bp & -> & Cp). cbn [rbind].
  eexists. split; [done|]. cbn. rewrite Ch, Cu, Cp, app_nil_r.
  split; [done|]. split; [done|]. split; [done|]. split; [unfold u32; by apply Z.mod_small|]. split; [done|].
  split; [|done]. by case_bool_decide; case_decide.
Qed.

(** Loading sets no task. *)
Lemma load_mysql_keeps_task order mem argc arg p z p' :
  load_mysql_module order mem argc arg (Some p) = Ok (z, Some p') → task (r p') = task (r p).
Proof.
  unfold load_mysql_module. destruct (negb _); [by intros [= _ <-]|]. destruct mem; [|by intros [= _ <-]]. intros H.
  inv_ok H. by destruct v as [m'|]; injection H as _ <-.
Qed.

(** * A text that is no JSON *)

Lemma members_head s kvs : members s kvs → s = [] ∨ head s = Some DQ.
Proof.
  induction 1 as [|k s j Hk Hv|s kvs k t j Hs IH Hne Hk Hv]; [by left|by right|]. right.
  destruct IH as [->|Hh]; [by destruct Hne; apply (members_nil_iff _ _ Hs)|]. destruct s; [done|exact Hh].
Qed.

(** When the first InnoDB query fails and a later one does not, what is printed
    starts with a comma: the packet is no JSON text any more. *)
Theorem innodb_without_pool e m p c r :
  query_result e POOL_QUERY = None → query_result e INNODB_QUERY = Some [r] →
  query_result e ENGINE_QUERY = None → row_good 7 r → holds p c → fits c (S (length (fields_text [row_field 7 r]))) →
  ∃ p' s, _mysql_gather_innodb e m p = Ok (ENONE, m, p') ∧ holds p' (c ++ s) ∧ ∀ kvs, ¬ members s kvs.
Proof.
  intros E1 E2 E3 (k & v & -> & Hn & Hk & Hv)%row_inv Hh Hf. unfold _mysql_gather_innodb. rewrite E1, E2, E3.
  cbn [rbind innodb_rows row_field] in *. change (col _ 0) with (Ok k). change (col _ 1) with (Ok v). cbn [rbind].
  unfold offset. rewrite (proj2 (Nat.ltb_ge _ _)) by done. cbn [rbind].
  assert (fields_text [(drop 7 k, v)] = (quoted (drop 7 k) ++ lit ":") ++ v) as Et.
  { unfold fields_text, field_text. cbn. by rewrite app_nil_r, <- !app_assoc. }
  rewrite Et in Hf. unfold fits in Hf. rewrite length_app in Hf.
  destruct (packet_append_ok p c ",'%s':" [AStr (drop 7 k)] (","%char :: quoted (drop 7 k) ++ lit ":"))
    as (p1 & -> & Hm1 & Hh1); [by apply holds_begins| |unfold fits; cbn [length]; lia|].
  { fmt_eval. unfold quoted. rewrite <- ?app_comm_cons, <- !app_assoc. reflexivity. }
  cbn [rbind]. destruct (packet_append_ok p1 (c ++ ","%char :: quoted (drop 7 k) ++ lit ":") "%s" [AStr v] v)
    as (p2 & -> & Hm2 & Hh2); [by apply holds_begins| |unfold fits; rewrite length_app; cbn [length]; lia|].
  { fmt_eval. by rewrite app_nil_r. }
  exists p2, (","%char :: (quoted (drop 7 k) ++ lit ":") ++ v). split; [done|].
  split; [by rewrite <- app_assoc in Hh2|]. by intros kvs [?|?]%members_head.
Qed.

(** * A server *)

Definition module1 : mysql_module_t :=
  MysqlModule 1 (lit "db1" ++ replicate 125 NUL) (lit "root" ++ replicate 124 NUL) (lit "pw" ++ replicate 126 NUL)
    3306 (Live 1%positive) 17.

Definition pair_row (k : string) (n : Z) : row := [Some (lit k); Some (dec n)].

Definition db (ping thread_id : Z) : mysql_env := {|
  my_init := Some 1%positive;
  my_options := 0;
  my_connect := true;
  my_thread_id := thread_id;
  my_ping := ping;
  my_query := λ q,
    Some (if decide (q = CRUD_QUERY) then [pair_row "Com_select" 12; pair_row "Com_insert" 3]
          else if decide (q = SLOW_STATUS_QUERY) then [pair_row "Slow_queries" 2]
          else if decide (q = POOL_QUERY) then [pair_row "innodb_buffer_pool_size" 134217728]
          else if decide (q = INNODB_QUERY) then [pair_row "Innodb_pages_read" 7]
          else if decide (q = ENGINE_QUERY)
          then [[Some (lit "InnoDB"); Some []; Some (lit "- Ibuf: size 1, free list len 0, seg size 2, 0 merges")]]
          else if decide (q = THREADS_QUERY) then [pair_row "Threads_running" 1]
          else [])
|}.

Lemma db_parts_clean ping thread_id m x : g_clean (my_fn x) (db ping thread_id) m.
Proof.
  destruct x; [split|split|split; [|split]|split|done];
    repeat first [apply Forall_nil_2|apply Forall_cons_2];
    first [by vm_compute|split; [cbn; lia|split; solve_clean]|solve_clean].
Qed.

Lemma db_clean ping thread_id m : mysql m = Live 1%positive → mysql_clean (db ping thread_id) m.
Proof. intros E. split; [by exists 1%positive|]. intros _ _ x. apply db_parts_clean. Qed.

(** A server that lists a thread. *)
Definition busy_db : mysql_env :=
  MysqlEnv (Some 1%positive) 0 true 17 0 (λ q,
    if decide (q = PROCESSLIST_QUERY) then Some [Some ∘ lit <$> ["1"; "2"; "x"; "root"; "h"; "d"; "0"; "0"; "1"; "e"; "Query"; "s"]]
    else None).


(** The server goes, stays away, comes back under a new id, goes again. *)
Definition outages (p : packet_t) : list (mysql_env * packet_t) :=
  [(db 1 17, p); (db 1 17, p); (db 0 18, p); (db 1 18, p)].

Lemma alerts_alternate_witness :
  gather_turns mysql_parts (outages (zeroed METRIC)) module1 = Ok [EPLUGDOWN; ENODATA; EPLUGUP; EPLUGDOWN]
    ∧ ∃ k, (0 < k < 3)%nat ∧ [EPLUGDOWN; ENODATA; EPLUGUP; EPLUGDOWN] !! k = Some EPLUGUP.
Proof.
  assert (gather_turns mysql_parts (outages (zeroed METRIC)) module1 = Ok [EPLUGDOWN; ENODATA; EPLUGUP; EPLUGDOWN])
    as E by reflexivity.
  split; [exact E|].
  apply (alerts_alternate mysql_parts (outages (zeroed METRIC)) module1 _ 0 3); [reflexivity|exact E|reflexivity|reflexivity|lia].
Defined.

Lemma same_id_hides_outage_witness :
  ∃ p m1 z q2, mysql_gather mysql_parts (db 1 17) module1 p = Ok (EPLUGDOWN, m1, p)
    ∧ mysql_gather mysql_parts (db 0 17) m1 p = Ok (z, m1, q2) ∧ (z = ENONE ∨ z = ENODATA)
    ∧ mysql_gather mysql_parts (db 1 17) m1 p = Ok (ENODATA, m1, p).
Proof.
  destruct (opened_packet (parts_need my_tag my_fn (db 0 17) (set_on 0 module1) mysql_parts)) as (p & _ & Hh & Ho & Hf);
    [by vm_compute|].
  exists p. apply (same_id_hides_outage mysql_parts (db 1 17) (db 0 17) (db 1 17) module1 1%positive p p p);
    [reflexivity|reflexivity|reflexivity|discriminate|reflexivity|reflexivity|discriminate|
     intros; apply db_parts_clean|exact Hh|exact Hf].
Defined.

Lemma module1_wf : module_wf module1.
Proof.
  split; [..|cbn; lia]; (split; [reflexivity|]); apply elem_of_app; right; left.
Qed.

Lemma module_recognized_witness :
  mysql_module_cmp (mysql_image (lit "xyz") module1) (set_mysql Wild module1)
    (Z.of_nat (length (mysql_image (lit "xyz") module1))) = 0.
Proof. apply (module_recognized (lit "xyz") module1 (set_mysql Wild module1) module1_wf eq_refl). by repeat split. Defined.

Definition fresh_plugin : plugin_t mysql_env mysql_module_t :=
  Plugin idle_routine 0 None [] None None None (mysql_gather mysql_parts) mysql_module_cmp 0 module1.

Lemma load_mysql_reads_witness :
  ∃ p', load_mysql_module mysql_parts (Some module1) 1 (lit "db2.local/3306/root/secret") (Some fresh_plugin)
        = Ok (0, Some p')
    ∧ cstr (my_host (module p')) = lit "db2.local" ∧ my_port (module p') = 3306
    ∧ tip p' = Some (lit "db2.local").
Proof.
  destruct (load_mysql_reads mysql_parts module1 (lit "db2.local") 3306 (lit "root") (lit "secret") fresh_plugin)
    as (p' & E & H1 & _ & _ & H2 & _ & H3 & _);
    [split; [discriminate|solve_clean]..|solve_clean|lia|reflexivity|reflexivity|reflexivity|].
  rewrite decide_False in H3 by (intros [?|?]; discriminate).
  exists p'. exact (conj E (conj H1 (conj H2 H3))).
Defined.

Lemma listed_rows_undefined_witness :
  (∃ why, _mysql_gather_thread busy_db module1 (zeroed METRIC) = Ub why)
  ∧ _mysql_gather_thread busy_db module1 (zeroed METRIC) = Ub Uninit.
Proof.
  split; [|reflexivity].
  apply (listed_rows_undefined busy_db module1 (zeroed METRIC)
    (Some ∘ lit <$> ["1"; "2"; "x"; "root"; "h"; "d"; "0"; "0"; "1"; "e"; "Query"; "s"]) []). reflexivity.
Defined.

(** A server that does not say how large its buffer pool is. *)
Definition no_pool_db : mysql_env :=
  MysqlEnv (Some 1%positive) 0 true 17 0 (λ q,
    if decide (q = INNODB_QUERY) then Some [pair_row "Innodb_pages_read" 7] else None).

Lemma innodb_without_pool_witness :
  ∃ p p' s, _mysql_gather_innodb no_pool_db module1 p = Ok (ENONE, module1, p') ∧ holds p' (lit "{" ++ s)
    ∧ ∀ kvs, ¬ members s kvs.
Proof.
  destruct (opened_packet 40) as (p & _ & Hh & _ & Hf); [by vm_compute|].
  destruct (innodb_without_pool no_pool_db module1 p (lit "{") (pair_row "Innodb_pages_read" 7))
    as (p' & s & E & Hh' & H); [reflexivity|reflexivity|reflexivity| |exact Hh|by vm_compute|].
  { split; [solve_clean|split; solve_clean]. }
  exists p, p', s. exact (conj E (conj Hh' H)).
Defined.
