(* ===== verification/Mstring.v ===== *)
(** src/inc/mysql/m_string.h: the two inline functions on strings.
    [skip_trailing_space] skips the spaces at the end of a string, a word at a
    time where the string is long enough. *)
From Stdlib Require Import ZArith Ascii Lia.
From stdpp Require Import base list strings numbers.
From S2P Require Import Prelude.
From S2P Require Import Clib.

Local Open Scope Z_scope.

(** Linear arithmetic with quotients and remainders. *)
Ltac divlia := Z.to_euclidean_division_equations; lia.

(** * Memory *)

(** A string [s] that lies at the address [at_]. *)
Record region := Region { at_ : Z; text : bytes }.

Definition SIZEOF_INT : Z := 4.
Definition SPACE_INT : Z := 0x20202020.

(** [*(uchar * ) p] *)
Definition byte_at (m : region) (p : Z) : res Z :=
  if p <? at_ m then Ub OutOfBounds
  else do c <- of_opt OutOfBounds (text m !! Z.to_nat (p - at_ m)); Ok (code c).

(** [*(unsigned * ) p]: an aligned word, in the byte order of the machine. *)
Definition word_at (big : bool) (m : region) (p : Z) : res Z :=
  if negb (p mod SIZEOF_INT =? 0) then Ub OutOfBounds
  else
    do b0 <- byte_at m p; do b1 <- byte_at m (p + 1);
    do b2 <- byte_at m (p + 2); do b3 <- byte_at m (p + 3);
    Ok (if big then ((b0 * 256 + b1) * 256 + b2) * 256 + b3 else b0 + 256 * (b1 + 256 * (b2 + 256 * b3))).

(** [while(end > stop && test) end -= k;] *)
Fixpoint skip_down (fuel : nat) (k : Z) (test : Z → res bool) (stop end_ : Z) : res Z :=
  if stop <? end_ then
    match fuel with
    | O => Spins
    | S fuel => do b <- test end_; if b then skip_down fuel k test stop (end_ - k) else Ok end_
    end
  else Ok end_.

(** [end[-1] == 0x20] and [((unsigned * )end)[-1] == SPACE_INT] *)
Definition space_before (m : region) (end_ : Z) : res bool :=
  do c <- byte_at m (end_ - 1); Ok (c =? 0x20).
Definition spaces_before (big : bool) (m : region) (end_ : Z) : res bool :=
  do w <- word_at big m (end_ - SIZEOF_INT); Ok (w =? SPACE_INT).

(** * The functions *)

(** [DBUG_ASSERT]: an assertion in a debug build, nothing in the others. *)
Definition dbug_assert (dbug test : bool) : res unit := if dbug && negb test then Ub Aborted else Ok tt.

Definition skip_trailing_space (dbug big : bool) (m : region) (ptr len : Z) : res Z :=
  let end_ := ptr + len in
  let steps e stop := Z.to_nat (e - stop) in
  do end_ <-
    (if 20 <? len then
       let end_words := u64 end_ / SIZEOF_INT * SIZEOF_INT in
       let start_words := u64 (u64 ptr + SIZEOF_INT - 1) / SIZEOF_INT * SIZEOF_INT in
       do _ <- dbug_assert dbug (SIZEOF_INT <=? u64 ptr);
       if ptr <? end_words then
         do end_ <- skip_down (steps end_ end_words) 1 (space_before m) end_words end_;
         do sp <- space_before m end_;
         if sp && (start_words <? end_words) then
           skip_down (steps end_ start_words) SIZEOF_INT (spaces_before big m) start_words end_
         else Ok end_
       else Ok end_
     else Ok end_);
  skip_down (steps end_ ptr) 1 (space_before m) ptr end_.

(** A pair of a string and its length. *)
Record LEX_STRING := LexString { str : bytes; lex_length : Z }.

(** [lex_string_set]; [c_str] is the memory from the pointer on. *)
Definition lex_string_set (c_str : bytes) : LEX_STRING :=
  LexString c_str (Z.of_nat (length (cstr c_str))).

(** * What they compute *)

(** The reference: the string without the spaces at its end. *)
Fixpoint rstrip (s : bytes) : bytes :=
  match s with
  | [] => []
  | c :: s =>
      match rstrip s with
      | [] => if Ascii.eqb c " "%char then [] else [c]
      | s' => c :: s'
      end
  end.

(** Only spaces from [n] on. *)
Definition blank_from (s : bytes) (n : nat) : Prop := Forall (λ c, c = " "%char) (drop n s).

Lemma rstrip_blank s : Forall (λ c, c = " "%char) s → rstrip s = [].
Proof. induction 1 as [|c s -> _ IH]; [done|]. cbn. by rewrite IH. Qed.

Lemma rstrip_split s n c :
  s !! n = Some c → c ≠ " "%char → blank_from s (S n) → length (rstrip s) = S n.
Proof.
  revert n. induction s as [|d s IH]; intros n Hc Hne Hb; [done|]. destruct n as [|n]; cbn in *.
  - injection Hc as ->. rewrite (rstrip_blank s) by done. destruct (Ascii.eqb_spec c " "%char); [done|done].
  - specialize (IH n Hc Hne Hb). destruct (rstrip s) as [|e s']; [done|]. cbn in *. lia.
Qed.

Lemma code_space c : (code c =? 0x20) = true ↔ c = " "%char.
Proof.
  rewrite Z.eqb_eq. split; [|by intros ->]. intros H. rewrite <- (ascii_N_embedding c). unfold code in H.
  replace (N_of_ascii c) with 32%N by lia. done.
Qed.

Lemma code_range c : 0 ≤ code c < 256.
Proof. unfold code. pose proof (N_ascii_bounded c). lia. Qed.

Section region.
Context (big : bool) (m : region).
Abbreviation s := (text m).
Abbreviation ptr := (at_ m).

Lemma byte_at_in p :
  ptr ≤ p < ptr + Z.of_nat (length s) → ∃ c, s !! Z.to_nat (p - ptr) = Some c ∧ byte_at m p = Ok (code c).
Proof.
  intros H. destruct (lookup_lt_is_Some_2 s (Z.to_nat (p - ptr))) as [c Hc]; [lia|]. exists c. split; [done|].
  unfold byte_at. destruct (Z.ltb_spec p ptr); [lia|]. by rewrite Hc.
Qed.

Lemma space_before_in e :
  ptr < e ≤ ptr + Z.of_nat (length s) →
  ∃ c, s !! Z.to_nat (e - 1 - ptr) = Some c ∧ space_before m e = Ok (bool_decide (c = " "%char)).
Proof.
  intros H. destruct (byte_at_in (e - 1)) as (c & Hc & E); [lia|]. exists c. split; [done|].
  unfold space_before. rewrite E. cbn. f_equal. apply eq_true_iff_eq. by rewrite code_space, bool_decide_eq_true.
Qed.

(** A word is a word of spaces when its four bytes are spaces, in either byte order. *)
Lemma word_spaces b0 b1 b2 b3 :
  0 ≤ b0 < 256 → 0 ≤ b1 < 256 → 0 ≤ b2 < 256 → 0 ≤ b3 < 256 →
  ((if big then ((b0 * 256 + b1) * 256 + b2) * 256 + b3 else b0 + 256 * (b1 + 256 * (b2 + 256 * b3))) =? SPACE_INT) = true
  ↔ (b0 = 32 ∧ b1 = 32 ∧ b2 = 32 ∧ b3 = 32).
Proof. intros. rewrite Z.eqb_eq. unfold SPACE_INT. destruct big; lia. Qed.

Lemma spaces_before_in e :
  e mod 4 = 0 → ptr + 4 ≤ e ≤ ptr + Z.of_nat (length s) →
  ∃ b, spaces_before big m e = Ok b
     ∧ (b = true → ∀ j c, (Z.to_nat (e - 4 - ptr) ≤ j < Z.to_nat (e - ptr))%nat → s !! j = Some c → c = " "%char).
Proof.
  intros Ha H. unfold spaces_before, word_at, SIZEOF_INT.
  replace ((e - 4) mod 4 =? 0) with true by (symmetry; apply Z.eqb_eq; divlia). cbn [negb].
  destruct (byte_at_in (e - 4)) as (c0 & H0 & ->); [lia|]. destruct (byte_at_in (e - 4 + 1)) as (c1 & H1 & ->); [lia|].
  destruct (byte_at_in (e - 4 + 2)) as (c2 & H2 & ->); [lia|]. destruct (byte_at_in (e - 4 + 3)) as (c3 & H3 & ->); [lia|].
  cbn [rbind]. eexists. split; [done|]. rewrite word_spaces by apply code_range.
  intros (E0 & E1 & E2 & E3) j c Hj Hc.
  assert (∀ d, code d = 32 → d = " "%char) as Hsp by (intros d Hd; by apply code_space, Z.eqb_eq).
  assert (j = Z.to_nat (e - 4 - ptr) ∨ j = Z.to_nat (e - 4 + 1 - ptr) ∨ j = Z.to_nat (e - 4 + 2 - ptr)
    ∨ j = Z.to_nat (e - 4 + 3 - ptr)) as [-> |[-> |[-> | ->]]] by lia; simplify_eq; auto.
Qed.

(** [trail e]: the string from the address [e] on is blank. *)
Definition trail (e : Z) : Prop :=
  ptr ≤ e ≤ ptr + Z.of_nat (length s) ∧ ∀ j c, (Z.to_nat (e - ptr) ≤ j)%nat → s !! j = Some c → c = " "%char.

Lemma trail_step e : ptr < e → trail e → space_before m e = Ok true → trail (e - 1).
Proof.
  intros He [Hr Ht] Hb. destruct (space_before_in e) as (c & Hc & E); [lia|]. rewrite E in Hb. injection Hb as Hb.
  apply bool_decide_eq_true in Hb as ->. split; [lia|]. intros j d Hj Hd.
  destruct (decide (j = Z.to_nat (e - 1 - ptr))) as [->|Hne]; [congruence|]. apply (Ht j d); [lia|done].
Qed.

(** A loop that skips single spaces down to [stop]. *)
Lemma skip_bytes fuel stop e :
  (Z.to_nat (e - stop) ≤ fuel)%nat → ptr ≤ stop → stop ≤ e → trail e →
  ∃ e', skip_down fuel 1 (space_before m) stop e = Ok e' ∧ stop ≤ e' ∧ trail e'
        ∧ (stop < e' → space_before m e' = Ok false).
Proof.
  revert e. induction fuel as [|fuel IH]; intros e Hf Hs He Ht; cbn [skip_down];
    (destruct (Z.ltb_spec stop e); [|exists e; split; [done|]; split; [lia|]; split; [done|lia]]); [lia|].
  destruct (space_before_in e) as (c & Hc & E); [destruct Ht; lia|]. rewrite E. cbn [rbind].
  destruct (bool_decide (c = " "%char)) eqn:Eb.
  - apply IH; [lia|done|lia|]. apply trail_step; [lia|done|by rewrite E].
  - exists e. split; [done|]. split; [lia|]. split; [done|]. by rewrite E.
Qed.

(** A loop that skips words of spaces. *)
Lemma skip_words fuel stop e :
  (Z.to_nat (e - stop) ≤ fuel)%nat → ptr ≤ stop → stop ≤ e → e mod 4 = 0 → stop mod 4 = 0 → trail e →
  ∃ e', skip_down fuel 4 (spaces_before big m) stop e = Ok e' ∧ stop ≤ e' ∧ trail e'.
Proof.
  revert e. induction fuel as [|fuel IH]; intros e Hf Hs He Ha Has Ht; cbn [skip_down];
    (destruct (Z.ltb_spec stop e); [|exists e; split; [done|]; split; [lia|done]]); [lia|].
  pose proof Ht as [Hr Hb]. destruct (spaces_before_in e) as (b & E & Hw); [done|divlia|]. rewrite E. cbn [rbind].
  destruct b; [|exists e; split; [done|]; split; [lia|done]].
  apply IH; [lia|done|divlia|divlia|done|]. split; [divlia|]. intros j c Hj Hc.
  destruct (decide (Z.to_nat (e - ptr) ≤ j)%nat); [by eapply Hb|]. apply (Hw eq_refl j c); [lia|done].
Qed.

(** Where a blank end that cannot be longer begins. *)
Lemma trail_rstrip e : trail e → (ptr < e → space_before m e = Ok false) → e = ptr + Z.of_nat (length (rstrip s)).
Proof.
  intros [Hr Ht] Hstop. destruct (decide (ptr < e)) as [Hlt|Hge].
  - specialize (Hstop Hlt). destruct (space_before_in e) as (c & Hc & E); [lia|]. rewrite E in Hstop.
    injection Hstop as Hne%bool_decide_eq_false. rewrite (rstrip_split s _ c Hc Hne); [lia|].
    apply list.Forall_forall. intros d Hd. apply list_elem_of_lookup in Hd as [j Hj]. rewrite lookup_drop in Hj.
    apply (Ht _ d) in Hj; [done|lia].
  - rewrite (rstrip_blank s); [cbn; lia|]. apply list.Forall_forall. intros d [j Hj]%list_elem_of_lookup.
    apply (Ht j); [lia|done].
Qed.
End region.

Lemma round_down z : 0 ≤ z → z - 3 ≤ z / 4 * 4 ≤ z ∧ (z / 4 * 4) mod 4 = 0.
Proof. intros. split; [divlia|]. by rewrite Z.mod_mul. Qed.



(** The length [lex_string_set] stores is that of the string, whatever follows it. *)
Lemma lex_string_set_length s t : no_nul s → lex_length (lex_string_set (s ++ NUL :: t)) = Z.of_nat (length s).
Proof. intros H. cbn. by rewrite cstr_nul. Qed.
