(* ===== verification/Korr.v ===== *)
(** src/inc/mysql/my_global.h: numbers in memory.  The macros that store and read
    numbers in the machine-independent format (low byte first), for IA-32 and for
    other machines, and those for the format of the machine. *)
From Stdlib Require Import ZArith Ascii Lia.
From stdpp Require Import base list strings numbers.
From S2P Require Import Prelude.
From S2P Require Import Clib.
From S2P Require Import Mstring.

Local Open Scope Z_scope.

(** * C integers *)

(** Casts to the types of the header; a signed one is in two's complement. *)
Definition wrap (bits z : Z) : Z := z mod 2 ^ bits.
Definition swrap (bits z : Z) : Z :=
  let u := z mod 2 ^ bits in if u <? 2 ^ (bits - 1) then u else u - 2 ^ bits.

Abbreviation uint16 := (wrap 16).
Abbreviation uint32 := (wrap 32).
Abbreviation ulonglong := (wrap 64).
Abbreviation int16 := (swrap 16).
Abbreviation int32 := (swrap 32).
Abbreviation longlong := (swrap 64).

(** [(uchar) z] as a byte of memory, and [(uchar) (A)[i]]. *)
Definition chr (z : Z) : ascii := ascii_of_N (Z.to_N (z mod 256)).
Definition byte (A : bytes) (i : nat) : res Z := do c <- of_opt OutOfBounds (A !! i); Ok (code c).

(** [T[i] = (uchar) z] for the memory from [T] on. *)
Definition poke (T : bytes) (i : nat) (z : Z) : res bytes :=
  if decide (i < length T)%nat then Ok (<[i := chr z]> T) else Ub OutOfBounds.

(** The bytes [T[0] .. T[n-1]], stored in order. *)
Fixpoint pokes (T : bytes) (l : list (nat * Z)) : res bytes :=
  match l with
  | [] => Ok T
  | (i, z) :: l => do T <- poke T i z; pokes T l
  end.

(** * The machine-independent format, other machines *)

Module Generic.

(** [<<] of an unsigned number, and [x + (y << 8) + ..] at a width. *)
Definition sint2korr (A : bytes) : res Z :=
  do b0 <- byte A 0; do b1 <- byte A 1; Ok (int16 (b0 + Z.shiftl b1 8)).

Definition sint3korr (A : bytes) : res Z :=
  do b2 <- byte A 2; do b1 <- byte A 1; do b0 <- byte A 0;
  let low := Z.lor (Z.lor (uint32 (Z.shiftl b2 16)) (uint32 (Z.shiftl b1 8))) b0 in
  Ok (int32 (if negb (Z.land b2 128 =? 0) then Z.lor (uint32 (Z.shiftl 255 24)) low else low)).

Definition sint4korr (A : bytes) : res Z :=
  do b0 <- byte A 0; do b1 <- byte A 1; do b2 <- byte A 2; do b3 <- byte A 3;
  Ok (int32 (b0 + Z.shiftl b1 8 + Z.shiftl b2 16 + int32 (Z.shiftl b3 24))).

Definition uint2korr (A : bytes) : res Z :=
  do b0 <- byte A 0; do b1 <- byte A 1; Ok (uint16 (b0 + Z.shiftl b1 8)).

Definition uint3korr (A : bytes) : res Z :=
  do b0 <- byte A 0; do b1 <- byte A 1; do b2 <- byte A 2;
  Ok (uint32 (b0 + uint32 (Z.shiftl b1 8) + uint32 (Z.shiftl b2 16))).

(** The sum of four bytes that [uint4korr] and the wider ones have in common. *)
Definition low4 (b0 b1 b2 b3 : Z) : Z :=
  uint32 (b0 + uint32 (Z.shiftl b1 8) + uint32 (Z.shiftl b2 16) + uint32 (Z.shiftl b3 24)).

Definition uint4korr (A : bytes) : res Z :=
  do b0 <- byte A 0; do b1 <- byte A 1; do b2 <- byte A 2; do b3 <- byte A 3; Ok (low4 b0 b1 b2 b3).

Definition uint5korr (A : bytes) : res Z :=
  do b0 <- byte A 0; do b1 <- byte A 1; do b2 <- byte A 2; do b3 <- byte A 3; do b4 <- byte A 4;
  Ok (ulonglong (ulonglong (low4 b0 b1 b2 b3) + ulonglong (Z.shiftl b4 32))).

Definition uint6korr (A : bytes) : res Z :=
  do b0 <- byte A 0; do b1 <- byte A 1; do b2 <- byte A 2; do b3 <- byte A 3; do b4 <- byte A 4; do b5 <- byte A 5;
  Ok (ulonglong (ulonglong (low4 b0 b1 b2 b3) + ulonglong (Z.shiftl b4 32) + ulonglong (Z.shiftl b5 40))).

Definition uint8korr (A : bytes) : res Z :=
  do b0 <- byte A 0; do b1 <- byte A 1; do b2 <- byte A 2; do b3 <- byte A 3;
  do b4 <- byte A 4; do b5 <- byte A 5; do b6 <- byte A 6; do b7 <- byte A 7;
  Ok (ulonglong (ulonglong (low4 b0 b1 b2 b3) + ulonglong (Z.shiftl (low4 b4 b5 b6 b7) 32))).

Definition sint8korr (A : bytes) : res Z := do u <- uint8korr A; Ok (longlong u).

Definition int2store (T : bytes) (A : Z) : res bytes :=
  let def_temp := uint32 A in pokes T [(0%nat, def_temp); (1%nat, Z.shiftr def_temp 8)].

Definition int3store (T : bytes) (A : Z) : res bytes :=
  pokes T [(0%nat, A); (1%nat, Z.shiftr A 8); (2%nat, Z.shiftr A 16)].

Definition int4store (T : bytes) (A : Z) : res bytes :=
  pokes T [(0%nat, A); (1%nat, Z.shiftr A 8); (2%nat, Z.shiftr A 16); (3%nat, Z.shiftr A 24)].

Definition int5store (T : bytes) (A : Z) : res bytes :=
  pokes T [(0%nat, A); (1%nat, Z.shiftr A 8); (2%nat, Z.shiftr A 16); (3%nat, Z.shiftr A 24); (4%nat, Z.shiftr A 32)].

Definition int6store (T : bytes) (A : Z) : res bytes :=
  pokes T [(0%nat, A); (1%nat, Z.shiftr A 8); (2%nat, Z.shiftr A 16); (3%nat, Z.shiftr A 24); (4%nat, Z.shiftr A 32);
           (5%nat, Z.shiftr A 40)].

(** [int4store((T),def_temp); int4store((T+4),def_temp2)] *)
Definition int8store (T : bytes) (A : Z) : res bytes :=
  let def_temp := uint32 A in
  let def_temp2 := uint32 (Z.shiftr A 32) in
  do T1 <- int4store T def_temp; do T2 <- int4store (drop 4 T1) def_temp2; Ok (take 4 T1 ++ T2).

End Generic.

(** * The machine-independent format, IA-32 *)

(** [n] bytes as a number, low byte first, and back. *)
Fixpoint le_value (l : bytes) : Z :=
  match l with [] => 0 | c :: l => code c + 256 * le_value l end.
Fixpoint le_bytes (n : nat) (z : Z) : bytes :=
  match n with O => [] | S n => chr z :: le_bytes n (z / 256) end.

(** [*((T * ) A)] for a type of [n] bytes on a machine that stores numbers low byte
    first, and [*((T * ) T) = z]. *)
Definition load_le (n : nat) (A : bytes) : res Z :=
  if decide (n ≤ length A)%nat then Ok (le_value (take n A)) else Ub OutOfBounds.
Definition store_le (n : nat) (T : bytes) (z : Z) : res bytes :=
  if decide (n ≤ length T)%nat then Ok (le_bytes n z ++ drop n T) else Ub OutOfBounds.

Module Ia32.

Definition sint2korr_ia32 (A : bytes) : res Z := do w <- load_le 2 A; Ok (int16 w).
Definition sint3korr_ia32 (A : bytes) : res Z := Generic.sint3korr A.
Definition sint4korr_ia32 (A : bytes) : res Z := do w <- load_le 4 A; Ok (int32 w).
Definition uint2korr_ia32 (A : bytes) : res Z := load_le 2 A.

(** [(long) ( *((unsigned int * ) (A)) & 0xFFFFFF)], in builds without HAVE_purify; with
    it the three bytes are read one by one, as in [Generic.uint3korr]. *)
Definition uint3korr_ia32 (A : bytes) : res Z := do w <- load_le 4 A; Ok (int32 (Z.land w 0xFFFFFF)).
Definition uint4korr_ia32 (A : bytes) : res Z := load_le 4 A.
Definition uint5korr_ia32 (A : bytes) : res Z := Generic.uint5korr A.
Definition uint6korr_ia32 (A : bytes) : res Z := Generic.uint6korr A.
Definition uint8korr_ia32 (A : bytes) : res Z := load_le 8 A.
Definition sint8korr_ia32 (A : bytes) : res Z := do w <- load_le 8 A; Ok (longlong w).
Definition int2store_ia32 (T : bytes) (A : Z) : res bytes := store_le 2 T (uint16 A).

(** [*(T+1)=(uchar) (((uint) (A) >> 8))] *)
Definition int3store_ia32 (T : bytes) (A : Z) : res bytes :=
  pokes T [(0%nat, A); (1%nat, Z.shiftr (uint32 A) 8); (2%nat, Z.shiftr A 16)].
Definition int4store_ia32 (T : bytes) (A : Z) : res bytes := store_le 4 T (int32 A).
Definition int5store_ia32 (T : bytes) (A : Z) : res bytes := Generic.int5store T A.
Definition int6store_ia32 (T : bytes) (A : Z) : res bytes := Generic.int6store T A.
Definition int8store_ia32 (T : bytes) (A : Z) : res bytes := store_le 8 T (ulonglong A).

End Ia32.

(** The widths of the format, and the macros by width; [ia32] selects the family. *)
Inductive width := W2 | W3 | W4 | W5 | W6 | W8.

Definition size_of (w : width) : nat :=
  match w with W2 => 2 | W3 => 3 | W4 => 4 | W5 => 5 | W6 => 6 | W8 => 8 end.

Definition ukorr (ia32 : bool) (w : width) : bytes → res Z :=
  match w with
  | W2 => if ia32 then Ia32.uint2korr_ia32 else Generic.uint2korr
  | W3 => if ia32 then Ia32.uint3korr_ia32 else Generic.uint3korr
  | W4 => if ia32 then Ia32.uint4korr_ia32 else Generic.uint4korr
  | W5 => if ia32 then Ia32.uint5korr_ia32 else Generic.uint5korr
  | W6 => if ia32 then Ia32.uint6korr_ia32 else Generic.uint6korr
  | W8 => if ia32 then Ia32.uint8korr_ia32 else Generic.uint8korr
  end.

(** There is no signed reading of five and six bytes. *)
Definition skorr (ia32 : bool) (w : width) : option (bytes → res Z) :=
  match w with
  | W2 => Some (if ia32 then Ia32.sint2korr_ia32 else Generic.sint2korr)
  | W3 => Some (if ia32 then Ia32.sint3korr_ia32 else Generic.sint3korr)
  | W4 => Some (if ia32 then Ia32.sint4korr_ia32 else Generic.sint4korr)
  | W8 => Some (if ia32 then Ia32.sint8korr_ia32 else Generic.sint8korr)
  | _ => None
  end.

Definition istore (ia32 : bool) (w : width) : bytes → Z → res bytes :=
  match w with
  | W2 => if ia32 then Ia32.int2store_ia32 else Generic.int2store
  | W3 => if ia32 then Ia32.int3store_ia32 else Generic.int3store
  | W4 => if ia32 then Ia32.int4store_ia32 else Generic.int4store
  | W5 => if ia32 then Ia32.int5store_ia32 else Generic.int5store
  | W6 => if ia32 then Ia32.int6store_ia32 else Generic.int6store
  | W8 => if ia32 then Ia32.int8store_ia32 else Generic.int8store
  end.

(** How many bytes a reading accesses: on IA-32 [uint3korr] loads a word. *)
Definition bytes_read (ia32 : bool) (w : width) : nat :=
  match w with W3 => if ia32 then 4 else 3 | _ => size_of w end.

(** * Lemmas *)

Lemma code_chr z : code (chr z) = z mod 256.
Proof.
  unfold code, chr. pose proof (Z.mod_pos_bound z 256). rewrite N_ascii_embedding by lia. lia.
Qed.

Lemma chr_code c : chr (code c) = c.
Proof.
  unfold chr. rewrite Z.mod_small by apply code_range. unfold code. by rewrite N2Z.id, ascii_N_embedding.
Qed.

Lemma chr_ext a b : a mod 256 = b mod 256 → chr a = chr b.
Proof. unfold chr. by intros ->. Qed.

Lemma le_value_range l : 0 ≤ le_value l < 2 ^ (8 * Z.of_nat (length l)).
Proof.
  induction l as [|c l IH]; cbn [le_value length]; [lia|]. pose proof (code_range c).
  rewrite Nat2Z.inj_succ, Z.mul_succ_r, Z.pow_add_r by lia. change (2 ^ 8) with 256. lia.
Qed.

Lemma length_le_bytes n z : length (le_bytes n z) = n.
Proof. revert z. induction n; intros; cbn; congruence. Qed.

Lemma le_value_bytes n z : le_value (le_bytes n z) = z mod 2 ^ (8 * Z.of_nat n).
Proof.
  revert z. induction n as [|n IH]; intros z; cbn [le_value le_bytes]; [by rewrite Z.mod_1_r|].
  assert (0 < 2 ^ (8 * Z.of_nat n)) by (apply Z.pow_pos_nonneg; lia).
  rewrite code_chr, IH. replace (8 * Z.of_nat (S n)) with (8 + 8 * Z.of_nat n) by lia.
  rewrite Z.pow_add_r by lia. change (2 ^ 8) with 256. by rewrite Z.rem_mul_r by lia.
Qed.

Lemma le_bytes_value l : le_bytes (length l) (le_value l) = l.
Proof.
  induction l as [|c l IH]; cbn [length le_bytes le_value]; [done|]. pose proof (code_range c). f_equal.
  - rewrite <- (chr_code c) at 2. apply chr_ext. by rewrite Z.mul_comm, Z.mod_add by lia.
  - rewrite Z.mul_comm, Z.div_add, Z.div_small by lia. by rewrite Z.add_0_l.
Qed.

Lemma le_bytes_wrap n z k : 8 * Z.of_nat n ≤ k → le_bytes n (wrap k z) = le_bytes n z.
Proof.
  intros Hk. rewrite <- (le_bytes_value (le_bytes n (wrap k z))), <- (le_bytes_value (le_bytes n z)).
  rewrite !length_le_bytes, !le_value_bytes. f_equal. unfold wrap.
  assert (0 < 2 ^ (8 * Z.of_nat n)) by (apply Z.pow_pos_nonneg; lia).
  assert (0 < 2 ^ (k - 8 * Z.of_nat n)) by (apply Z.pow_pos_nonneg; lia).
  replace k with (8 * Z.of_nat n + (k - 8 * Z.of_nat n)) at 1 by lia. rewrite Z.pow_add_r by lia.
  rewrite Z.rem_mul_r by lia. rewrite (Z.mul_comm (2 ^ (8 * Z.of_nat n))), Z.mod_add by lia. by rewrite Z.mod_mod by lia.
Qed.

Lemma le_bytes_swrap n z k : 0 < k → 8 * Z.of_nat n ≤ k → le_bytes n (swrap k z) = le_bytes n z.
Proof.
  intros H0 Hk. rewrite <- (le_bytes_wrap n (swrap k z) k), <- (le_bytes_wrap n z k) by done. f_equal.
  assert (0 < 2 ^ k) by (apply Z.pow_pos_nonneg; lia). unfold wrap, swrap. destruct (_ <? _); [by rewrite Z.mod_mod by lia|].
  rewrite <- (Z.mod_add _ 1 (2 ^ k)) by lia. rewrite <- (Z.mod_mod z (2 ^ k)) at 2 by lia. f_equal. lia.
Qed.

Lemma swrap_wrap k z : 0 < k → swrap k (wrap k z) = swrap k z.
Proof. intros. unfold swrap, wrap. assert (0 < 2 ^ k) by (apply Z.pow_pos_nonneg; lia). by rewrite Z.mod_mod by lia. Qed.

(** [Z.shiftl] and [wrap] of numbers that fit, as products and sums. *)
Lemma shl_mul b k : 0 ≤ k → Z.shiftl b k = b * 2 ^ k.
Proof. apply Z.shiftl_mul_pow2. Qed.

Lemma wrap_small n z : 0 ≤ z < 2 ^ n → wrap n z = z.
Proof. apply Z.mod_small. Qed.

Lemma wrap_byte b k n : 0 ≤ b < 256 → 0 ≤ k → k + 8 ≤ n → wrap n (Z.shiftl b k) = b * 2 ^ k.
Proof.
  intros Hb Hk Hn. rewrite shl_mul by done. apply wrap_small. split; [lia|].
  apply Z.lt_le_trans with (256 * 2 ^ k); [apply Z.mul_lt_mono_pos_r; lia|].
  change 256 with (2 ^ 8). rewrite <- Z.pow_add_r by lia. apply Z.pow_le_mono_r; lia.
Qed.

Ltac powers := change (2 ^ 8) with 256 in *; change (2 ^ 16) with 65536 in *; change (2 ^ 24) with 16777216 in *;
  change (2 ^ 32) with 4294967296 in *; change (2 ^ 40) with 1099511627776 in *; change (2 ^ 64) with 18446744073709551616 in *.

(** Innermost casts first. *)
Ltac unwrap := repeat match goal with
  | |- context [wrap ?n ?z] =>
      lazymatch z with context [wrap _ _] => fail | _ => rewrite (wrap_small n z) by (powers; lia) end
  end.

Ltac shifts := rewrite ?wrap_byte by lia; rewrite ?shl_mul by lia; powers; unwrap.

Lemma low4_sum b0 b1 b2 b3 :
  0 ≤ b0 < 256 → 0 ≤ b1 < 256 → 0 ≤ b2 < 256 → 0 ≤ b3 < 256 →
  Generic.low4 b0 b1 b2 b3 = b0 + 256 * (b1 + 256 * (b2 + 256 * b3)).
Proof. intros. unfold Generic.low4. shifts. lia. Qed.

(** [|] of numbers that have no bit in common. *)
Lemma lor_add x y k : 0 ≤ k → 0 ≤ x < 2 ^ k → Z.lor (y * 2 ^ k) x = y * 2 ^ k + x.
Proof.
  intros Hk Hx. rewrite <- Z.lxor_lor, Z.add_nocarry_lxor; [done| |]; apply Z.bits_inj'; intros n Hn;
    rewrite Z.land_spec, Z.bits_0, Z.mul_pow2_bits by lia; (destruct (Z.ltb_spec n k) as [Hlt|];
    [by rewrite (Z.testbit_neg_r y) by lia|]); rewrite <- (Z.mod_small x (2 ^ k)) by done;
    rewrite Z.mod_pow2_bits_high by lia; apply andb_false_r.
Qed.

(** The sign bit of a byte. *)
Lemma sign_bit b : 0 ≤ b < 256 → negb (Z.land b 128 =? 0) = (128 <=? b).
Proof.
  intros Hb. assert (forallb (λ b, Bool.eqb (negb (Z.land b 128 =? 0)) (128 <=? b)) (seqZ 0 256) = true) as H by by vm_compute.
  rewrite forallb_forall in H. specialize (H b). apply Bool.eqb_prop, H. apply list_elem_of_In, elem_of_seqZ. lia.
Qed.

(** Open the first [n] bytes of a buffer that has them. *)
Ltac open_bytes A n H :=
  match n with
  | O => idtac
  | S ?n => let c := fresh "c" in destruct A as [|c A]; [cbn in H; lia|]; pose proof (code_range c); open_bytes A n H
  end.

Ltac read_bytes := unfold byte; cbn [lookup list_lookup of_opt rbind firstn]; rewrite ?take_0; cbn [le_value].

Lemma load_ok n A : (n ≤ length A)%nat → load_le n A = Ok (le_value (take n A)).
Proof. intros H. unfold load_le. by rewrite decide_True. Qed.

Lemma generic_ukorr w A : (size_of w ≤ length A)%nat → ukorr false w A = Ok (le_value (take (size_of w) A)).
Proof.
  intros H. destruct w; cbn [size_of] in *; cbn [ukorr].
  - open_bytes A 2%nat H. unfold Generic.uint2korr. read_bytes. f_equal. shifts. lia.
  - open_bytes A 3%nat H. unfold Generic.uint3korr. read_bytes. f_equal. shifts. lia.
  - open_bytes A 4%nat H. unfold Generic.uint4korr. read_bytes. f_equal. rewrite low4_sum by done. lia.
  - open_bytes A 5%nat H. unfold Generic.uint5korr. read_bytes. f_equal. rewrite low4_sum by done. shifts. lia.
  - open_bytes A 6%nat H. unfold Generic.uint6korr. read_bytes. f_equal. rewrite low4_sum by done. shifts. lia.
  - open_bytes A 8%nat H. unfold Generic.uint8korr. read_bytes. f_equal. rewrite !low4_sum by done. shifts. lia.
Qed.

(** What the readings return, on both kinds of machine. *)
Lemma ukorr_ok ia w A :
  (bytes_read ia w ≤ length A)%nat → ukorr ia w A = Ok (le_value (take (size_of w) A)).
Proof.
  intros H. destruct ia; [|apply generic_ukorr; by destruct w].
  destruct w; cbn [bytes_read size_of ukorr] in *; try (by apply load_ok);
    [|by apply (generic_ukorr W5)|by apply (generic_ukorr W6)].
  unfold Ia32.uint3korr_ia32. rewrite load_ok by done. cbn [rbind]. f_equal. change 0xFFFFFF with (Z.ones 24).
  rewrite Z.land_ones by lia. open_bytes A 4%nat H. cbn [firstn]. rewrite ?take_0. cbn [le_value].
  rewrite <- (Z.mod_unique (code c + 256 * (code c0 + 256 * (code c1 + 256 * (code c2 + 256 * 0)))) (2 ^ 24) (code c2)
    (code c + 256 * (code c0 + 256 * (code c1 + 256 * 0)))) by (powers; lia).
  unfold swrap. rewrite Z.mod_small by (powers; lia). change (2 ^ (32 - 1)) with 2147483648.
  destruct (Z.ltb_spec (code c + 256 * (code c0 + 256 * (code c1 + 256 * 0))) 2147483648); [done|lia].
Qed.

Lemma generic_sint3 A : (3 ≤ length A)%nat → Generic.sint3korr A = Ok (swrap 24 (le_value (take 3 A))).
Proof.
  intros H. open_bytes A 3%nat H. unfold Generic.sint3korr. read_bytes. f_equal.
  rewrite sign_bit, !wrap_byte by lia.
  rewrite (lor_add (code c0 * 2 ^ 8) (code c1) 16) by (powers; lia).
  replace (code c1 * 2 ^ 16 + code c0 * 2 ^ 8) with ((code c1 * 256 + code c0) * 2 ^ 8) by (powers; lia).
  rewrite (lor_add (code c) _ 8) by (powers; lia).
  rewrite (lor_add _ 255 24) by (powers; lia). unfold swrap. powers.
  change (2 ^ (32 - 1)) with 2147483648. change (2 ^ (24 - 1)) with 8388608.
  rewrite (Z.mod_small _ 16777216) by lia.
  destruct (Z.leb_spec 128 (code c1)).
  - rewrite Z.mod_small by lia. destruct (Z.ltb_spec (255 * 16777216 + ((code c1 * 256 + code c0) * 256 + code c)) 2147483648);
      destruct (Z.ltb_spec (code c + 256 * (code c0 + 256 * (code c1 + 256 * 0))) 8388608); lia.
  - rewrite Z.mod_small by lia. destruct (Z.ltb_spec ((code c1 * 256 + code c0) * 256 + code c) 2147483648);
      destruct (Z.ltb_spec (code c + 256 * (code c0 + 256 * (code c1 + 256 * 0))) 8388608); lia.
Qed.

Lemma swrap_add k a b : 0 < k → swrap k (a + swrap k b) = swrap k (a + b).
Proof.
  intros Hk. unfold swrap at 1 3. assert (0 < 2 ^ k) by (apply Z.pow_pos_nonneg; lia).
  assert ((a + swrap k b) mod 2 ^ k = (a + b) mod 2 ^ k) as ->; [|done].
  rewrite <- (Z.add_mod_idemp_r a b), <- (Z.add_mod_idemp_r a (swrap k b)) by lia. do 2 f_equal. unfold swrap.
  destruct (_ <? _); [by rewrite Z.mod_mod by lia|]. rewrite <- (Z.mod_add _ 1) by lia.
  rewrite <- (Z.mod_mod b (2 ^ k)) at 2 by lia. f_equal. lia.
Qed.

Lemma skorr_ok ia w f A :
  skorr ia w = Some f → (size_of w ≤ length A)%nat →
  f A = Ok (swrap (8 * Z.of_nat (size_of w)) (le_value (take (size_of w) A))).
Proof.
  intros Hf H. destruct w; cbn [skorr size_of] in *; simplify_eq; destruct ia;
    try (by apply generic_sint3); unfold Ia32.sint2korr_ia32, Ia32.sint4korr_ia32, Ia32.sint8korr_ia32;
    try (rewrite load_ok by done; done).
  - open_bytes A 2%nat H. unfold Generic.sint2korr. read_bytes. rewrite shl_mul by lia. do 2 f_equal. powers. lia.
  - open_bytes A 4%nat H. unfold Generic.sint4korr. read_bytes. rewrite !shl_mul, swrap_add by lia. do 2 f_equal. powers. lia.
  - unfold Generic.sint8korr. pose proof (generic_ukorr W8 A H) as E. cbn [ukorr size_of] in E. by rewrite E.
Qed.

(** ** Stores *)

Lemma poke_ok T i z : (i < length T)%nat → poke T i z = Ok (<[i := chr z]> T).
Proof. intros H. unfold poke. by rewrite decide_True. Qed.

Lemma le_bytes_app n m z : le_bytes (n + m) z = le_bytes n z ++ le_bytes m (z / 2 ^ (8 * Z.of_nat n)).
Proof.
  revert z. induction n as [|n IH]; intros z; [by rewrite Z.div_1_r|]. cbn [le_bytes Nat.add app]. f_equal. rewrite IH.
  do 2 f_equal. assert (0 < 2 ^ (8 * Z.of_nat n)) by (apply Z.pow_pos_nonneg; lia).
  rewrite Z.div_div by lia. f_equal. replace (8 * Z.of_nat (S n)) with (8 + 8 * Z.of_nat n) by lia.
  by rewrite Z.pow_add_r by lia.
Qed.

(** The bytes that a sequence of shifts stores. *)
Lemma shifts_le z n : (λ k, chr (Z.shiftr z (8 * Z.of_nat k))) <$> seq 0 n = le_bytes n z.
Proof.
  assert (∀ i, (λ k, chr (Z.shiftr z (8 * Z.of_nat k))) <$> seq i n = le_bytes n (Z.shiftr z (8 * Z.of_nat i))) as H.
  { induction n as [|n IH]; intros i; [done|]. cbn [seq fmap list_fmap le_bytes]. f_equal.
    etransitivity; [apply IH|]. f_equal. rewrite !Z.shiftr_div_pow2 by lia.
    assert (0 < 2 ^ (8 * Z.of_nat i)) by (apply Z.pow_pos_nonneg; lia). rewrite Z.div_div by lia. f_equal.
    replace (8 * Z.of_nat (S i)) with (8 * Z.of_nat i + 8) by lia. by rewrite Z.pow_add_r by lia. }
  apply (H 0%nat).
Qed.

Ltac do_pokes := cbn [pokes]; repeat (rewrite poke_ok by (cbn; lia); cbn [rbind insert list_insert alter]).

Lemma generic_store w T z :
  (size_of w ≤ length T)%nat → istore false w T z = Ok (le_bytes (size_of w) z ++ drop (size_of w) T).
Proof.
  intros H. destruct w; cbn [size_of istore] in *.
  - rewrite <- (le_bytes_wrap 2 z 32) by lia. open_bytes T 2%nat H. unfold Generic.int2store. do_pokes. by rewrite <- shifts_le.
  - open_bytes T 3%nat H. unfold Generic.int3store. do_pokes. by rewrite <- shifts_le.
  - open_bytes T 4%nat H. unfold Generic.int4store. do_pokes. by rewrite <- shifts_le.
  - open_bytes T 5%nat H. unfold Generic.int5store. do_pokes. by rewrite <- shifts_le.
  - open_bytes T 6%nat H. unfold Generic.int6store. do_pokes. by rewrite <- shifts_le.
  - change 8%nat with (4 + 4)%nat. rewrite le_bytes_app. rewrite <- (le_bytes_wrap 4 z 32), <- (le_bytes_wrap 4 (z / _) 32) by lia.
    rewrite <- Z.shiftr_div_pow2 by lia. change (8 * Z.of_nat 4) with 32.
    open_bytes T 8%nat H. unfold Generic.int8store, Generic.int4store. do_pokes. cbn [skipn]. do_pokes.
    by rewrite <- !shifts_le.
Qed.

(** What the stores do, on both kinds of machine. *)
Lemma istore_ok ia w T z :
  (size_of w ≤ length T)%nat → istore ia w T z = Ok (le_bytes (size_of w) z ++ drop (size_of w) T).
Proof.
  intros H. destruct ia; [|by apply generic_store]. destruct w; cbn [size_of istore] in *;
    try (by apply (generic_store W5)); try (by apply (generic_store W6));
    unfold Ia32.int2store_ia32, Ia32.int4store_ia32, Ia32.int8store_ia32, store_le; try rewrite decide_True by done.
  - by rewrite (le_bytes_wrap 2 z 16) by lia.
  - pose proof (le_bytes_wrap 2 z 32 ltac:(lia)) as E. rewrite <- !shifts_le in E. injection E as _ E.
    open_bytes T 3%nat H. unfold Ia32.int3store_ia32. do_pokes. rewrite <- shifts_le. change (8 * Z.of_nat 1) with 8 in E. by rewrite E.
  - by rewrite (le_bytes_swrap 4 z 32) by lia.
  - by rewrite (le_bytes_wrap 8 z 64) by lia.
Qed.

(** C37. The format does not depend on the machine: a number that is stored by one family
    of macros is read back by the other, modulo the width, as an unsigned number
    and as a signed one, and the store changes nothing behind it.  (On IA-32
    [uint3korr] needs a fourth byte to be there.) *)
Theorem korr_portable ia ib w T z :
  (size_of w ≤ length T)%nat → (bytes_read ib w ≤ length T)%nat →
  ∃ T', istore ia w T z = Ok T' ∧ drop (size_of w) T' = drop (size_of w) T ∧ length T' = length T
    ∧ ukorr ib w T' = Ok (z mod 2 ^ (8 * Z.of_nat (size_of w)))
    ∧ (∀ f, skorr ib w = Some f → f T' = Ok (swrap (8 * Z.of_nat (size_of w)) z)).
Proof.
  intros Hw Hr. exists (le_bytes (size_of w) z ++ drop (size_of w) T).
  assert (length (le_bytes (size_of w) z ++ drop (size_of w) T) = length T) as El.
  { rewrite length_app, length_le_bytes, length_drop. lia. }
  assert (take (size_of w) (le_bytes (size_of w) z ++ drop (size_of w) T) = le_bytes (size_of w) z) as Et.
  { by rewrite take_app_length' by (by rewrite length_le_bytes). }
  split; [by apply istore_ok|]. split; [by rewrite drop_app_length' by (by rewrite length_le_bytes)|]. split; [done|]. split.
  - rewrite ukorr_ok by lia. by rewrite Et, le_value_bytes.
  - intros f Hf. rewrite (skorr_ok ib w f _ Hf) by lia. rewrite Et, le_value_bytes.
    f_equal. change (z mod ?m) with (wrap (8 * Z.of_nat (size_of w)) z). rewrite swrap_wrap; [done|]. by destruct w.
Qed.

(** What was read and is stored again is what was there. *)
Lemma store_read ia ib w T z :
  (bytes_read ib w ≤ length T)%nat → (size_of w ≤ length T)%nat → ukorr ib w T = Ok z → istore ia w T z = Ok T.
Proof.
  intros Hr Hw H. rewrite ukorr_ok in H by done. injection H as <-. rewrite istore_ok by done. f_equal.
  rewrite <- (take_drop (size_of w) T) at 3. f_equal.
  rewrite <- (le_bytes_value (take (size_of w) T)) at 2. by rewrite length_take, Nat.min_l by lia.
Qed.

(** [uint3korr] of IA-32 reads a byte too many: at the end of a buffer it is undefined
    where the other machines read the number. *)
Lemma uint3korr_reads_four c0 c1 c2 :
  Ia32.uint3korr_ia32 [c0; c1; c2] = Ub OutOfBounds ∧ Generic.uint3korr [c0; c1; c2] = Ok (le_value [c0; c1; c2]).
Proof. split; [done|]. by apply (generic_ukorr W3). Qed.

(** * The format of the machine *)

(** Bytes as a number, high byte first: how a big-endian machine stores it. *)
Definition be_value (l : bytes) : Z := le_value (rev l).

(** The bytes [T[i] = from[j]] for the pairs [(i, j)], in order: the macros that
    move the bytes of a number one by one. *)
Fixpoint moves (T from : bytes) (l : list (nat * nat)) : res bytes :=
  match l with
  | [] => Ok T
  | (i, j) :: l => do b <- byte from j; do T <- poke T i b; moves T from l
  end.

(** [memcpy(T, from, n)] *)
Definition memcpy (T from : bytes) (n : nat) : res bytes :=
  if decide (n ≤ length T ∧ n ≤ length from)%nat then Ok (take n from ++ drop n T) else Ub OutOfBounds.

(** A [float] or [double] is given by the bytes that represent it. *)
Definition local4 : bytes := replicate 4 NUL.
Definition local8 : bytes := replicate 8 NUL.

Module BigEndian.

Definition ushortget_be (M : bytes) : res Z :=
  do b1 <- byte M 1; do b0 <- byte M 0; Ok (uint16 (b1 + Z.shiftl b0 8)).
Definition shortget_be (M : bytes) : res Z :=
  do b1 <- byte M 1; do b0 <- byte M 0; Ok (int16 (b1 + Z.shiftl b0 8)).
Definition longget_be (M : bytes) : res Z :=
  do t <- moves local4 M [(0, 0); (1, 1); (2, 2); (3, 3)]%nat; Ok (int32 (be_value t)).
Definition ulongget_be (M : bytes) : res Z :=
  do t <- moves local4 M [(0, 0); (1, 1); (2, 2); (3, 3)]%nat; Ok (be_value t).
Definition shortstore_be (T : bytes) (A : Z) : res bytes :=
  let def_temp := uint32 A in pokes T [(1%nat, def_temp); (0%nat, Z.shiftr def_temp 8)].
Definition longstore_be (T : bytes) (A : Z) : res bytes :=
  pokes T [(3%nat, A); (2%nat, Z.shiftr A 8); (1%nat, Z.shiftr A 16); (0%nat, Z.shiftr A 24)].

(** Numbers in the machine-independent format, from the big-endian [rep]. *)
Definition float4store_be (T rep : bytes) : res bytes := moves T rep [(0, 3); (1, 2); (2, 1); (3, 0)]%nat.
Definition float4get_be (M : bytes) : res bytes := moves local4 M [(0, 3); (1, 2); (2, 1); (3, 0)]%nat.
Definition float8store_be (T rep : bytes) : res bytes :=
  moves T rep [(0, 7); (1, 6); (2, 5); (3, 4); (4, 3); (5, 2); (6, 1); (7, 0)]%nat.
Definition float8get_be (M : bytes) : res bytes :=
  moves local8 M [(0, 7); (1, 6); (2, 5); (3, 4); (4, 3); (5, 2); (6, 1); (7, 0)]%nat.
Definition doublestore_be (T rep : bytes) : res bytes := memcpy T rep 8.
Definition doubleget_be (M : bytes) : res bytes := memcpy local8 M 8.
Definition floatstore_be (T rep : bytes) : res bytes := memcpy T rep 4.
Definition floatget_be (M : bytes) : res bytes := memcpy local4 M 4.
Definition longlongstore_be (T rep : bytes) : res bytes := memcpy T rep 8.
Definition longlongget_be (M : bytes) : res bytes := memcpy local8 M 8.

End BigEndian.

(** Little-endian machines; [swapped] ones keep the words of a double high word first. *)
Module LittleEndian.

Definition ushortget (M : bytes) : res Z := Generic.uint2korr M.
Definition shortget (M : bytes) : res Z := Generic.sint2korr M.
Definition longget (M : bytes) : res Z := Generic.sint4korr M.
Definition ulongget (M : bytes) : res Z := Generic.uint4korr M.
Definition shortstore (T : bytes) (V : Z) : res bytes := Generic.int2store T V.
Definition longstore (T : bytes) (V : Z) : res bytes := Generic.int4store T V.
Definition float4get (M : bytes) : res bytes := memcpy local4 M 4.
Definition float4store (T rep : bytes) : res bytes := memcpy T rep 4.
Definition doublestore (swapped : bool) (T rep : bytes) : res bytes :=
  if swapped then moves T rep [(0, 4); (1, 5); (2, 6); (3, 7); (4, 0); (5, 1); (6, 2); (7, 3)]%nat else memcpy T rep 8.
Definition doubleget (swapped : bool) (M : bytes) : res bytes :=
  if swapped then moves local8 M [(0, 4); (1, 5); (2, 6); (3, 7); (4, 0); (5, 1); (6, 2); (7, 3)]%nat else memcpy local8 M 8.
Definition float8get (swapped : bool) (M : bytes) : res bytes := doubleget swapped M.
Definition float8store (swapped : bool) (T rep : bytes) : res bytes := doublestore swapped T rep.
Definition floatstore (T rep : bytes) : res bytes := memcpy T rep 4.
Definition floatget (M : bytes) : res bytes := memcpy local4 M 4.
Definition longlongstore (T rep : bytes) : res bytes := memcpy T rep 8.
Definition longlongget (M : bytes) : res bytes := memcpy local8 M 8.

End LittleEndian.

(** IA-32 moves a double as the two words of [doubleget_union]. *)
Module Ia32Float.

Definition doubleget_ia32 (M : bytes) : res bytes :=
  do m0 <- load_le 4 M; do m1 <- load_le 4 (drop 4 M); Ok (le_bytes 4 m0 ++ le_bytes 4 m1).
Definition doublestore_ia32 (T rep : bytes) : res bytes :=
  do m0 <- load_le 4 rep; do T <- store_le 4 T m0;
  do m1 <- load_le 4 (drop 4 rep); do T1 <- store_le 4 (drop 4 T) m1; Ok (take 4 T ++ T1).
Definition float4get_ia32 (M : bytes) : res bytes := do w <- load_le 4 M; Ok (le_bytes 4 w).
Definition float4store_ia32 (V rep : bytes) : res bytes := memcpy V rep 4.
Definition float8get_ia32 (M : bytes) : res bytes := doubleget_ia32 M.
Definition float8store_ia32 (V rep : bytes) : res bytes := doublestore_ia32 V rep.
Definition floatstore_ia32 (T rep : bytes) : res bytes := memcpy T rep 4.
Definition floatget_ia32 (M : bytes) : res bytes := memcpy local4 M 4.

End Ia32Float.

(** The machines that the macros tell apart, how each represents the [double] or the
    [float] with the bytes [l], low byte first, and its macros. *)
Inductive machine := MIa32 | MBig | MLittle (swapped : bool).

Definition double_rep (m : machine) (l : bytes) : bytes :=
  match m with
  | MBig => rev l
  | MLittle true => drop 4 l ++ take 4 l
  | _ => l
  end.
Definition float_rep (m : machine) (l : bytes) : bytes := match m with MBig => rev l | _ => l end.

Definition f8store (m : machine) : bytes → bytes → res bytes :=
  match m with
  | MIa32 => Ia32Float.float8store_ia32 | MBig => BigEndian.float8store_be | MLittle sw => LittleEndian.float8store sw
  end.
Definition f8get (m : machine) : bytes → res bytes :=
  match m with
  | MIa32 => Ia32Float.float8get_ia32 | MBig => BigEndian.float8get_be | MLittle sw => LittleEndian.float8get sw
  end.
Definition f4store (m : machine) : bytes → bytes → res bytes :=
  match m with
  | MIa32 => Ia32Float.float4store_ia32 | MBig => BigEndian.float4store_be | MLittle _ => LittleEndian.float4store
  end.
Definition f4get (m : machine) : bytes → res bytes :=
  match m with
  | MIa32 => Ia32Float.float4get_ia32 | MBig => BigEndian.float4get_be | MLittle _ => LittleEndian.float4get
  end.

(** [int4net]: a number in network byte order, high byte first. *)
Definition int4net (A : bytes) : res Z :=
  do b3 <- byte A 3; do b2 <- byte A 2; do b1 <- byte A 1; do b0 <- byte A 0;
  Ok (int32 (Z.lor (Z.lor (Z.lor b3 (uint32 (Z.shiftl b2 8))) (uint32 (Z.shiftl b1 16))) (uint32 (Z.shiftl b0 24)))).

(** ** Round trips *)

Ltac do_moves := cbn [moves]; repeat (unfold byte at 1; cbn [lookup list_lookup of_opt rbind];
  rewrite poke_ok by (cbn; lia); cbn [rbind insert list_insert alter]); rewrite ?chr_code.

Tactic Notation "open_list" ident(l) integer(n) ident(H) := do n (destruct l as [|? l]; [cbn in H; lia|]).

Lemma le_bytes_four c0 c1 c2 c3 : le_bytes 4 (le_value [c0; c1; c2; c3]) = [c0; c1; c2; c3].
Proof. exact (le_bytes_value [c0; c1; c2; c3]). Qed.

(** What is stored of a [double] or a [float] is its bytes, low byte first, and what is
    behind it stays; every machine reads its representation of the number back. *)
Lemma f8store_ok m l T : length l = 8%nat → (8 ≤ length T)%nat → f8store m T (double_rep m l) = Ok (l ++ drop 8 T).
Proof.
  intros Hl Ht. open_list l 8 Hl. destruct l; [|done]. open_list T 8 Ht.
  destruct m as [| |[]]; cbn [f8store double_rep rev app take drop].
  - unfold Ia32Float.float8store_ia32, Ia32Float.doublestore_ia32, load_le, store_le.
    repeat (rewrite decide_True by (cbn; lia); cbn [rbind take drop app]). by rewrite ?take_0, !le_bytes_four.
  - unfold BigEndian.float8store_be. do_moves. done.
  - unfold LittleEndian.float8store, LittleEndian.doublestore. rewrite ?take_0. cbn [app]. do_moves. done.
  - unfold LittleEndian.float8store, LittleEndian.doublestore, memcpy. rewrite decide_True by (cbn; lia). done.
Qed.

Lemma f8get_ok m l T : length l = 8%nat → f8get m (l ++ T) = Ok (double_rep m l).
Proof.
  intros Hl. open_list l 8 Hl. destruct l; [|done].
  destruct m as [| |[]]; cbn [f8get double_rep rev app take drop].
  - unfold Ia32Float.float8get_ia32, Ia32Float.doubleget_ia32, load_le.
    repeat (rewrite decide_True by (cbn; lia); cbn [rbind take drop app]). by rewrite ?take_0, !le_bytes_four.
  - unfold BigEndian.float8get_be, local8. cbn [replicate]. do_moves. done.
  - unfold LittleEndian.float8get, LittleEndian.doubleget, local8. cbn [replicate]. do_moves. done.
  - unfold LittleEndian.float8get, LittleEndian.doubleget, memcpy, local8. rewrite decide_True by (cbn; lia). cbn. by rewrite ?take_0.
Qed.

Lemma f4store_ok m l T : length l = 4%nat → (4 ≤ length T)%nat → f4store m T (float_rep m l) = Ok (l ++ drop 4 T).
Proof.
  intros Hl Ht. open_list l 4 Hl. destruct l; [|done]. open_list T 4 Ht.
  destruct m as [| |sw]; cbn [f4store float_rep rev app].
  1,3: unfold Ia32Float.float4store_ia32, LittleEndian.float4store, memcpy; rewrite decide_True by (cbn; lia); done.
  unfold BigEndian.float4store_be. do_moves. done.
Qed.

Lemma f4get_ok m l T : length l = 4%nat → f4get m (l ++ T) = Ok (float_rep m l).
Proof.
  intros Hl. open_list l 4 Hl. destruct l; [|done]. destruct m as [| |sw]; cbn [f4get float_rep rev app].
  - unfold Ia32Float.float4get_ia32, load_le. rewrite decide_True by (cbn; lia). cbn [rbind take]. by rewrite ?take_0, le_bytes_four.
  - unfold BigEndian.float4get_be, local4. cbn [replicate]. do_moves. done.
  - unfold LittleEndian.float4get, memcpy, local4. rewrite decide_True by (cbn; lia). cbn. by rewrite ?take_0.
Qed.

(** Floating point numbers are portable: whichever machine stores a number, every
    machine reads back its own representation of the same number. *)
Lemma floats_portable a b l T :
  (length l = 8%nat → (8 ≤ length T)%nat → ∃ T', f8store a T (double_rep a l) = Ok T' ∧ f8get b T' = Ok (double_rep b l))
  ∧ (length l = 4%nat → (4 ≤ length T)%nat → ∃ T', f4store a T (float_rep a l) = Ok T' ∧ f4get b T' = Ok (float_rep b l)).
Proof.
  split; intros Hl Ht; eexists; (split; [by first [apply f8store_ok|apply f4store_ok]|by first [apply f8get_ok|apply f4get_ok]]).
Qed.

(** On a big-endian machine a number that is stored is read back, and a stored
    [long] is in network byte order. *)
Lemma big_short T z :
  (2 ≤ length T)%nat →
  ∃ T', BigEndian.shortstore_be T z = Ok T' ∧ BigEndian.shortget_be T' = Ok (swrap 16 z) ∧ BigEndian.ushortget_be T' = Ok (wrap 16 z).
Proof.
  intros Ht. do 2 (destruct T as [|? T]; [cbn in Ht; lia|]). eexists. split; [unfold BigEndian.shortstore_be; do_pokes; done|].
  pose proof (le_value_bytes 2 (uint32 z)) as E. rewrite le_bytes_wrap in E by lia.
  pose proof (le_value_bytes 2 z) as E2. rewrite <- (le_bytes_wrap 2 z 32), <- shifts_le in E2 by lia.
  cbn [seq fmap list_fmap le_value] in E2. change (8 * Z.of_nat 0) with 0 in E2. change (8 * Z.of_nat 1) with 8 in E2.
  rewrite Z.shiftr_0_r in E2. change (8 * Z.of_nat 2) with 16 in E2.
  assert (code (chr (uint32 z)) + Z.shiftl (code (chr (Z.shiftr (uint32 z) 8))) 8 = wrap 16 z) as Es.
  { unfold wrap at 3. rewrite <- E2, shl_mul by lia. powers. lia. }
  split; unfold BigEndian.shortget_be, BigEndian.ushortget_be, byte; cbn [lookup list_lookup of_opt rbind]; rewrite Es; f_equal.
  - by apply swrap_wrap.
  - unfold wrap. by rewrite Z.mod_mod by lia.
Qed.

Lemma int4net_ok A : (4 ≤ length A)%nat → int4net A = Ok (swrap 32 (be_value (take 4 A))).
Proof.
  intros H. open_bytes A 4%nat H. unfold int4net. read_bytes. do 2 f_equal. rewrite !wrap_byte by lia.
  rewrite (Z.lor_comm (code c2)), (lor_add (code c2) (code c1) 8) by (powers; lia).
  rewrite (Z.lor_comm (_ + _)), (lor_add (code c1 * 2 ^ 8 + code c2) (code c0) 16) by (powers; lia).
  rewrite (Z.lor_comm (_ + _)), (lor_add _ (code c) 24) by (powers; lia).
  unfold be_value. cbn [rev app le_value]. powers. lia.
Qed.

Lemma big_long T z :
  (4 ≤ length T)%nat →
  ∃ T', BigEndian.longstore_be T z = Ok T' ∧ BigEndian.longget_be T' = Ok (swrap 32 z)
     ∧ BigEndian.ulongget_be T' = Ok (wrap 32 z) ∧ int4net T' = Ok (swrap 32 z).
Proof.
  intros Ht. do 4 (destruct T as [|? T]; [cbn in Ht; lia|]). eexists. split; [unfold BigEndian.longstore_be; do_pokes; done|].
  pose proof (le_value_bytes 4 z) as E. rewrite <- shifts_le in E.
  assert (∀ l, rev l = (λ k, chr (Z.shiftr z (8 * Z.of_nat k))) <$> seq 0 4 → be_value l = wrap 32 z) as Hb.
  { intros l Hl. unfold be_value. rewrite Hl, E. done. }
  unfold BigEndian.longget_be, BigEndian.ulongget_be, local4. cbn [replicate]. do_moves.
  rewrite int4net_ok by (cbn; lia). cbn [firstn]. rewrite take_0. rewrite !Hb by done.
  by rewrite swrap_wrap.
Qed.

(** ** Witnesses *)

Lemma korr_portable_witness :
  ∃ T', istore false W3 (lit "abcd") (-2) = Ok T' ∧ drop 3 T' = lit "d" ∧ length T' = 4%nat
    ∧ ukorr true W3 T' = Ok 16777214 ∧ Ia32.sint3korr_ia32 T' = Ok (-2).
Proof.
  destruct (korr_portable false true W3 (lit "abcd") (-2)) as (T' & E & Hd & Hl & Hu & Hs);
    [vm_compute; lia|vm_compute; lia|].
  exists T'. split; [exact E|]. split; [exact Hd|]. split; [exact Hl|]. split; [exact Hu|]. exact (Hs _ eq_refl).
Defined.
