(* ===== verification/IoCache.v ===== *)
(** src/inc/mysql/my_sys.h: the macros of IO_CACHE, which read and write a file
    through a buffer and call a function of the library only when the buffer does
    not do.  That the functions are those of the library is what the classes
    [CacheReader] and [CacheWriter] state; the macros are proved against them. *)
From Stdlib Require Import ZArith Ascii Lia.
From stdpp Require Import base list strings numbers.
From S2P Require Import Prelude.
From S2P Require Import Clib.
From S2P Require Import Mstring.
From S2P Require Import Korr.

Local Open Scope Z_scope.

(** * The cache *)

Inductive cache_type :=
| TYPE_NOT_SET | READ_CACHE | WRITE_CACHE | SEQ_READ_APPEND | READ_FIFO | READ_NET | WRITE_NET.

#[global] Instance cache_type_eq_dec : EqDecision cache_type.
Proof. solve_decision. Defined.

(** The fields of [st_io_cache] that the macros use.  [arena] is the memory of the
    buffers; the pointers are offsets in it, and [buffer] is NULL when there is
    none.  [current_pos] and [current_end] point to the write positions in a
    WRITE_CACHE and to the read positions in all others. *)
Record IO_CACHE := IoCache {
  pos_in_file : Z;
  end_of_file : Z;
  read_pos : nat;
  read_end : nat;
  buffer : option nat;
  request_pos : nat;
  write_pos : nat;
  write_end : nat;
  ctype : cache_type;
  arena : bytes
}.

Definition set_read_pos v c := IoCache (pos_in_file c) (end_of_file c) v (read_end c) (buffer c) (request_pos c) (write_pos c) (write_end c) (ctype c) (arena c).
Definition set_read_end v c := IoCache (pos_in_file c) (end_of_file c) (read_pos c) v (buffer c) (request_pos c) (write_pos c) (write_end c) (ctype c) (arena c).
Definition set_buffer v c := IoCache (pos_in_file c) (end_of_file c) (read_pos c) (read_end c) v (request_pos c) (write_pos c) (write_end c) (ctype c) (arena c).
Definition set_write_pos v c := IoCache (pos_in_file c) (end_of_file c) (read_pos c) (read_end c) (buffer c) (request_pos c) v (write_end c) (ctype c) (arena c).
Definition set_arena v c := IoCache (pos_in_file c) (end_of_file c) (read_pos c) (read_end c) (buffer c) (request_pos c) (write_pos c) (write_end c) (ctype c) v.

Definition current_pos (c : IO_CACHE) : nat := if decide (ctype c = WRITE_CACHE) then write_pos c else read_pos c.
Definition current_end (c : IO_CACHE) : nat := if decide (ctype c = WRITE_CACHE) then write_end c else read_end c.

Definition my_b_EOF : Z := -2147483648.

(** [memcpy] out of the arena and into it. *)
Definition copy_out (c : IO_CACHE) (p n : nat) : res bytes :=
  if decide (p + n ≤ length (arena c))%nat then Ok (take n (drop p (arena c))) else Ub OutOfBounds.
Definition copy_in (c : IO_CACHE) (p : nat) (d : bytes) : res IO_CACHE :=
  if decide (p + length d ≤ length (arena c))%nat then Ok (set_arena (write_at (arena c) p d) c) else Ub OutOfBounds.

(** * The macros *)

Section macros.
Context {W : Type}.

(** The functions the macros fall back on: they get the cache, the count or the
    data, and the rest of the world, and return an [int]. *)
Variable read_function : IO_CACHE → nat → W → res (Z * bytes * IO_CACHE * W).
Variable write_function : IO_CACHE → bytes → W → res (Z * IO_CACHE * W).
Variable _my_b_get : IO_CACHE → W → res (Z * IO_CACHE * W).
Variable _my_b_write : IO_CACHE → bytes → W → res (Z * IO_CACHE * W).

Definition my_b_clear (c : IO_CACHE) : IO_CACHE := set_buffer None c.
Definition my_b_inited (c : IO_CACHE) : option nat := buffer c.

(** [my_b_read]: the result and what was copied to [Buffer]. *)
Definition my_b_read (c : IO_CACHE) (count : nat) (w : W) : res (Z * bytes * IO_CACHE * W) :=
  if decide (read_pos c + count ≤ read_end c)%nat then
    do d <- copy_out c (read_pos c) count;
    Ok (0, d, set_read_pos (read_pos c + count)%nat c, w)
  else read_function c count w.

Definition my_b_write (c : IO_CACHE) (d : bytes) (w : W) : res (Z * IO_CACHE * W) :=
  if decide (write_pos c + length d ≤ write_end c)%nat then
    do c' <- copy_in c (write_pos c) d;
    Ok (0, set_write_pos (write_pos c + length d)%nat c', w)
  else write_function c d w.

Definition my_b_get (c : IO_CACHE) (w : W) : res (Z * IO_CACHE * W) :=
  if decide (read_pos c ≠ read_end c) then
    let c := set_read_pos (S (read_pos c)) c in
    do b <- byte (arena c) (read_pos c - 1); Ok (b, c, w)
  else _my_b_get c w.

(** [( *(info)->write_pos++)=(chr)] *)
Definition put_byte (c : IO_CACHE) (ch : ascii) : res IO_CACHE :=
  do c' <- copy_in c (write_pos c) [ch]; Ok (set_write_pos (S (write_pos c)) c').

Definition my_b_write_byte (c : IO_CACHE) (ch : ascii) (w : W) : res (IO_CACHE * W) :=
  if decide (write_pos c < write_end c)%nat then do c <- put_byte c ch; Ok (c, w)
  else
    do x <- _my_b_write c [] w;
    let '(_, c, w) := x in
    do c <- put_byte c ch; Ok (c, w).

Definition my_b_fill_cache (c : IO_CACHE) (w : W) : res (Z * bytes * IO_CACHE * W) :=
  read_function (set_read_end (read_pos c) c) 0 w.

Definition my_b_tell (c : IO_CACHE) : Z :=
  u64 (pos_in_file c + u64 (Z.of_nat (current_pos c) - Z.of_nat (request_pos c))).

Definition my_b_get_buffer_start (c : IO_CACHE) : nat := request_pos c.
Definition my_b_get_bytes_in_buffer (c : IO_CACHE) : Z :=
  Z.of_nat (read_end c) - Z.of_nat (my_b_get_buffer_start c).
Definition my_b_get_pos_in_file (c : IO_CACHE) : Z := pos_in_file c.
Definition my_b_bytes_in_cache (c : IO_CACHE) : Z :=
  u64 (Z.of_nat (current_end c) - Z.of_nat (current_pos c)).

(** * Reading *)

(** A cache that is being read. *)
Record readable (c : IO_CACHE) : Prop := {
  rd_order : (request_pos c ≤ read_pos c ≤ read_end c)%nat;
  rd_arena : (read_end c ≤ length (arena c))%nat;
  rd_small : Z.of_nat (length (arena c)) < 2 ^ 64;
  rd_type : ctype c = READ_CACHE;
  rd_off : 0 ≤ pos_in_file c
}.

(** What is in the buffer and has not been read. *)
Definition buffered (c : IO_CACHE) : bytes := take (read_end c - read_pos c) (drop (read_pos c) (arena c)).

(** What the library promises of the functions that read: [ahead] is what the file
    has behind the buffer, on which the macros' own change of [read_pos] has no
    effect.  A call for bytes that are there returns 0, the bytes, and a cache that
    goes on behind them; [_my_b_get] returns the next byte, or my_b_EOF. *)
Class CacheReader := {
  ahead : IO_CACHE → W → bytes;
  ahead_pos c w p : ahead (set_read_pos p c) w = ahead c w;
  unread c w : bytes := buffered c ++ ahead c w;
  read_function_ok c w n :
    readable c → (read_end c < read_pos c + n)%nat → (n ≤ length (unread c w))%nat →
    ∃ c' w', read_function c n w = Ok (0, take n (unread c w), c', w') ∧ readable c'
      ∧ unread c' w' = drop n (unread c w) ∧ my_b_tell c' = u64 (my_b_tell c + Z.of_nat n);
  read_function_short c w n :
    readable c → (length (unread c w) < n)%nat →
    ∃ r d c' w', read_function c n w = Ok (r, d, c', w') ∧ r ≠ 0;
  my_b_get_ok c w b rest :
    readable c → read_pos c = read_end c → unread c w = b :: rest →
    ∃ c' w', _my_b_get c w = Ok (code b, c', w') ∧ readable c'
      ∧ unread c' w' = rest ∧ my_b_tell c' = u64 (my_b_tell c + 1);
  my_b_get_eof c w :
    readable c → read_pos c = read_end c → unread c w = [] → ∃ c' w', _my_b_get c w = Ok (my_b_EOF, c', w')
}.

Lemma length_buffered c : readable c → length (buffered c) = (read_end c - read_pos c)%nat.
Proof. intros [Ho Ha _ _ _]. unfold buffered. rewrite length_take, length_drop. lia. Qed.

Lemma tell_advance c n :
  readable c → (read_pos c + n ≤ read_end c)%nat →
  my_b_tell (set_read_pos (read_pos c + n)%nat c) = u64 (my_b_tell c + Z.of_nat n).
Proof.
  intros [Ho Ha Hs Ht _] Hn. unfold my_b_tell, current_pos. cbn. rewrite !decide_False by (by rewrite Ht).
  rewrite (u64_small (_ - _)), (u64_small (Z.of_nat (read_pos c) - _)) by (unfold is_u64; lia).
  unfold u64. rewrite Zplus_mod_idemp_l. f_equal. lia.
Qed.

Lemma buffered_advance c n :
  readable c → (read_pos c + n ≤ read_end c)%nat →
  buffered (set_read_pos (read_pos c + n)%nat c) = drop n (buffered c).
Proof.
  intros [Ho Ha _ _ _] Hn. unfold buffered. cbn. rewrite skipn_firstn_comm, drop_drop. f_equal; lia.
Qed.

Lemma readable_advance c n :
  readable c → (read_pos c + n ≤ read_end c)%nat → readable (set_read_pos (read_pos c + n)%nat c).
Proof. intros [Ho Ha Hs Ht Hp] Hn. split; cbn; try done. lia. Qed.

Section reader.
Context {HR : CacheReader}.

Lemma unread_advance c w n :
  readable c → (read_pos c + n ≤ read_end c)%nat →
  unread (set_read_pos (read_pos c + n)%nat c) w = drop n (unread c w).
Proof.
  intros Hr Hn. unfold unread. rewrite ahead_pos, buffered_advance by done.
  rewrite drop_app_le; [done|]. rewrite length_buffered by done. lia.
Qed.

(** A read through the cache, wherever it falls. *)
Lemma my_b_read_ok c w n :
  readable c → (n ≤ length (unread c w))%nat →
  ∃ c' w', my_b_read c n w = Ok (0, take n (unread c w), c', w') ∧ readable c'
    ∧ unread c' w' = drop n (unread c w) ∧ my_b_tell c' = u64 (my_b_tell c + Z.of_nat n).
Proof.
  intros Hr Hn. unfold my_b_read. case_decide as Hf; [|apply read_function_ok; [done|lia|done]].
  pose proof Hr as [Ho Ha _ _ _]. unfold copy_out. rewrite decide_True by lia. cbn [rbind].
  do 2 eexists. split; [|split; [by apply readable_advance|split; [by apply unread_advance|by apply tell_advance]]].
  do 4 f_equal. unfold unread. rewrite take_app_le by (rewrite length_buffered by done; lia).
  unfold buffered. rewrite take_take. f_equal. lia.
Qed.

Lemma my_b_get_next c w b rest :
  readable c → unread c w = b :: rest →
  ∃ c' w', my_b_get c w = Ok (code b, c', w') ∧ readable c' ∧ unread c' w' = rest ∧ my_b_tell c' = u64 (my_b_tell c + 1).
Proof.
  intros Hr Hu. unfold my_b_get. case_decide as Hp; [|apply my_b_get_ok; [done|by destruct (decide (read_pos c = read_end c))|done]].
  pose proof Hr as [Ho Ha _ _ _]. assert (read_pos c + 1 ≤ read_end c)%nat as H1 by lia.
  replace (S (read_pos c)) with (read_pos c + 1)%nat by lia. cbn [arena set_read_pos read_pos].
  replace (read_pos c + 1 - 1)%nat with (read_pos c) by lia.
  assert (arena c !! read_pos c = Some b) as Hb.
  { assert (unread c w !! 0%nat = Some b) as Hz by (by rewrite Hu). unfold unread in Hz.
    rewrite lookup_app_l in Hz by (rewrite length_buffered by done; lia). unfold buffered in Hz.
    rewrite lookup_take_lt, lookup_drop in Hz by lia. by rewrite Nat.add_0_r in Hz. }
  unfold byte. rewrite Hb. cbn [of_opt rbind]. do 2 eexists. split; [done|].
  split; [by apply readable_advance|]. split; [|by apply (tell_advance c 1)]. rewrite unread_advance, Hu by done. done.
Qed.

(** A program that reads: calls of [my_b_read] and [my_b_get]. *)
Inductive rop := Rd (n : nat) | Get.

Definition rop_len (o : rop) : nat := match o with Rd n => n | Get => 1 end.

(** What it gets: the bytes, or the value of the byte. *)
Inductive got := Bytes (r : Z) (d : bytes) | Value (v : Z).

Fixpoint reads_run (os : list rop) (c : IO_CACHE) (w : W) : res (list got * IO_CACHE * W) :=
  match os with
  | [] => Ok ([], c, w)
  | Rd n :: os =>
      do x <- my_b_read c n w; let '(r, d, c, w) := x in
      do y <- reads_run os c w; let '(gs, c, w) := y in Ok (Bytes r d :: gs, c, w)
  | Get :: os =>
      do x <- my_b_get c w; let '(v, c, w) := x in
      do y <- reads_run os c w; let '(gs, c, w) := y in Ok (Value v :: gs, c, w)
  end.

(** The same program on a plain list of bytes. *)
Fixpoint reads_spec (os : list rop) (l : bytes) : list got :=
  match os with
  | [] => []
  | Rd n :: os => Bytes 0 (take n l) :: reads_spec os (drop n l)
  | Get :: os => match l with [] => [] | b :: l => Value (code b) :: reads_spec os l end
  end.

Lemma u64_add_add a n m : u64 (u64 (a + n) + m) = u64 (a + (n + m)).
Proof. unfold u64. rewrite Zplus_mod_idemp_l. f_equal. lia. Qed.

(** C35. Reading through the cache is reading the file: whatever calls of [my_b_read] and
    [my_b_get] a program makes, and wherever they fall in the buffer, it gets the
    bytes of the file in order, each once, and [my_b_tell] is where it is. *)
Theorem cache_reads_stream os c w :
  readable c → (sum_list (rop_len <$> os) ≤ length (unread c w))%nat →
  ∃ c' w', reads_run os c w = Ok (reads_spec os (unread c w), c', w') ∧ readable c'
    ∧ unread c' w' = drop (sum_list (rop_len <$> os)) (unread c w)
    ∧ my_b_tell c' = u64 (my_b_tell c + Z.of_nat (sum_list (rop_len <$> os))).
Proof.
  revert c w. induction os as [|[n|] os IH]; intros c w Hr Hn; cbn in Hn.
  - exists c, w. do 2 (split; [done|]). split; [done|]. unfold my_b_tell. rewrite Z.add_0_r. symmetry. apply u64_idem.
  - destruct (my_b_read_ok c w n Hr) as (c1 & w1 & E1 & Hr1 & Hu1 & Ht1); [lia|].
    destruct (IH c1 w1 Hr1) as (c2 & w2 & E2 & Hr2 & Hu2 & Ht2); [rewrite Hu1, length_drop; lia|].
    exists c2, w2. cbn [reads_run reads_spec]. rewrite E1. cbn [rbind]. rewrite E2, Hu1. cbn [rbind]. split; [done|]. split; [done|].
    split; [rewrite Hu2, Hu1, drop_drop; done|]. rewrite Ht2, Ht1, u64_add_add. do 2 f_equal. cbn. lia.
  - destruct (unread c w) as [|b rest] eqn:Hu; [cbn in Hn; lia|].
    destruct (my_b_get_next c w b rest Hr Hu) as (c1 & w1 & E1 & Hr1 & Hu1 & Ht1).
    destruct (IH c1 w1 Hr1) as (c2 & w2 & E2 & Hr2 & Hu2 & Ht2); [rewrite Hu1; cbn in Hn; lia|].
    exists c2, w2. cbn [reads_run reads_spec]. rewrite E1. cbn [rbind]. rewrite E2, Hu1. cbn [rbind]. split; [done|]. split; [done|].
    split; [by rewrite Hu2, Hu1|]. rewrite Ht2, Ht1, u64_add_add. do 2 f_equal. cbn. lia.
Qed.

(** At the end of the file. *)
Lemma my_b_get_at_end c w : readable c → unread c w = [] → ∃ c' w', my_b_get c w = Ok (my_b_EOF, c', w').
Proof.
  intros Hr Hu. unfold my_b_get. assert (read_pos c = read_end c) as Hp.
  { pose proof (length_buffered c Hr) as Hl. unfold unread in Hu. apply app_nil in Hu as [Hb _]. rewrite Hb in Hl.
    pose proof (rd_order c Hr). cbn in Hl. lia. }
  rewrite decide_False by (by intros H). by apply my_b_get_eof.
Qed.
End reader.

(** * Writing *)

(** A cache that is being written. *)
Record writable (c : IO_CACHE) : Prop := {
  wr_order : (request_pos c ≤ write_pos c ≤ write_end c)%nat;
  wr_arena : (write_end c ≤ length (arena c))%nat;
  wr_small : Z.of_nat (length (arena c)) < 2 ^ 64;
  wr_type : ctype c = WRITE_CACHE;
  wr_off : 0 ≤ pos_in_file c
}.

(** What has been written to the buffer and is not in the file. *)
Definition pending (c : IO_CACHE) : bytes := take (write_pos c - request_pos c) (drop (request_pos c) (arena c)).

(** What the library promises of the functions that write.  They return, with 0
    or with an error; an error may leave anything.  With 0, data that does not fit
    has been appended to what was written before, and [_my_b_write] without data
    has made room in a full buffer. *)
Class CacheWriter := {
  flushed : IO_CACHE → W → bytes;
  flushed_local c w p a : flushed (set_write_pos p (set_arena a c)) w = flushed c w;
  written c w : bytes := flushed c w ++ pending c;
  write_function_ok c w d :
    writable c → (write_end c < write_pos c + length d)%nat →
    ∃ z c' w', write_function c d w = Ok (z, c', w')
      ∧ (z = 0 → writable c' ∧ written c' w' = written c w ++ d
                 ∧ my_b_tell c' = u64 (my_b_tell c + Z.of_nat (length d)));
  my_b_write_room c w :
    writable c → write_pos c = write_end c →
    ∃ z c' w', _my_b_write c [] w = Ok (z, c', w')
      ∧ (z = 0 → writable c' ∧ (write_pos c' < write_end c')%nat
                 ∧ written c' w' = written c w ∧ my_b_tell c' = my_b_tell c)
}.

(** Copying data behind what is pending. *)
Lemma pending_copy c d :
  writable c → (write_pos c + length d ≤ write_end c)%nat →
  ∃ c', copy_in c (write_pos c) d = Ok c'
    ∧ let c'' := set_write_pos (write_pos c + length d)%nat c' in
      writable c'' ∧ pending c'' = pending c ++ d ∧ my_b_tell c'' = u64 (my_b_tell c + Z.of_nat (length d))
      ∧ c'' = set_write_pos (write_pos c + length d)%nat (set_arena (arena c'') c).
Proof.
  intros [Ho Ha Hs Ht Hp] Hf. unfold copy_in. rewrite decide_True by lia. eexists. split; [done|]. cbn zeta. split; [|split; [|split]].
  - split; cbn; try done; [lia|rewrite length_write_at by lia; lia|by rewrite length_write_at by lia].
  - unfold pending, write_at. cbn. rewrite drop_app_le by (rewrite length_take; lia).
    rewrite take_app_ge by (rewrite length_drop, length_take; lia). rewrite skipn_firstn_comm. f_equal.
    rewrite length_take, length_drop. apply take_app_length'. lia.
  - unfold my_b_tell, current_pos. cbn. rewrite !decide_True by done.
    rewrite (u64_small (_ - _)), (u64_small (Z.of_nat (write_pos c) - _)) by (unfold is_u64; lia).
    unfold u64. rewrite Zplus_mod_idemp_l. f_equal. lia.
  - done.
Qed.

Section writer.
Context {HW : CacheWriter}.

(** A write returns, and what it returns says whether the data was written. *)
Lemma my_b_write_ok c w d :
  writable c →
  ∃ z c' w', my_b_write c d w = Ok (z, c', w')
    ∧ (z = 0 → writable c' ∧ written c' w' = written c w ++ d
               ∧ my_b_tell c' = u64 (my_b_tell c + Z.of_nat (length d))).
Proof.
  intros Hw. unfold my_b_write. case_decide as Hf; [|apply write_function_ok; [done|lia]].
  destruct (pending_copy c d Hw Hf) as (c' & -> & Hw' & Hp & Ht & Hc). cbn [rbind]. do 3 eexists.
  split; [done|]. intros _. split; [done|]. split; [|done]. unfold written. by rewrite Hp, Hc, flushed_local, app_assoc.
Qed.

Lemma put_byte_ok c w ch :
  writable c → (write_pos c < write_end c)%nat →
  ∃ c', put_byte c ch = Ok c' ∧ writable c' ∧ written c' w = written c w ++ [ch] ∧ my_b_tell c' = u64 (my_b_tell c + 1).
Proof.
  intros Hw Hf. destruct (pending_copy c [ch] Hw) as (c' & E & Hw' & Hp & Ht & Hc); [cbn; lia|].
  cbn [length] in *. unfold put_byte. rewrite E. cbn [rbind].
  replace (S (write_pos c)) with (write_pos c + 1)%nat by lia. eexists. split; [done|]. split; [done|]. split; [|done].
  unfold written. by rewrite Hp, Hc, flushed_local, app_assoc.
Qed.

(** The flush that [my_b_write_byte] makes in a full buffer fails. *)
Definition flush_fails (c : IO_CACHE) (w : W) : Prop :=
  write_pos c = write_end c ∧ ∃ z c' w', _my_b_write c [] w = Ok (z, c', w') ∧ z ≠ 0.

Lemma my_b_write_byte_ok c w ch :
  writable c →
  flush_fails c w ∨ ∃ c' w', my_b_write_byte c ch w = Ok (c', w') ∧ writable c'
    ∧ written c' w' = written c w ++ [ch] ∧ my_b_tell c' = u64 (my_b_tell c + 1).
Proof.
  intros Hw. unfold my_b_write_byte, flush_fails. case_decide as Hf.
  - right. destruct (put_byte_ok c w ch Hw Hf) as (c' & -> & Hc). cbn [rbind]. by exists c', w.
  - assert (write_pos c = write_end c) as He by (pose proof (wr_order c Hw); lia).
    destruct (my_b_write_room c w Hw He) as (z & c1 & w1 & E & Hz).
    destruct (decide (z = 0)) as [->|Hne]; [|left; split; [done|by exists z, c1, w1]].
    destruct (Hz eq_refl) as (Hw1 & Hr1 & Hu1 & Ht1). right. rewrite E.
    cbn [rbind]. destruct (put_byte_ok c1 w1 ch Hw1 Hr1) as (c' & -> & Hw' & Hu' & Ht'). cbn [rbind]. exists c', w1.
    split; [done|]. split; [done|]. by rewrite Hu', Hu1, Ht', Ht1.
Qed.

(** A program that writes: calls of [my_b_write] and [my_b_write_byte]. *)
Inductive wop := Wr (d : bytes) | WrByte (ch : ascii).

Definition wop_data (o : wop) : bytes := match o with Wr d => d | WrByte ch => [ch] end.

Fixpoint writes_run (os : list wop) (c : IO_CACHE) (w : W) : res (IO_CACHE * W) :=
  match os with
  | [] => Ok (c, w)
  | Wr d :: os => do x <- my_b_write c d w; let '(r, c, w) := x in if r =? 0 then writes_run os c w else Ok (c, w)
  | WrByte ch :: os => do x <- my_b_write_byte c ch w; let '(c, w) := x in writes_run os c w
  end.

(** An operation whose call of the library fails; [my_b_write] returns the error. *)
Definition wop_fails (o : wop) (c : IO_CACHE) (w : W) : Prop :=
  match o with
  | Wr d => ∃ z c' w', my_b_write c d w = Ok (z, c', w') ∧ z ≠ 0
  | WrByte _ => flush_fails c w
  end.

(** C36. Writing through the cache is writing the file, up to the first call of the
    library that fails: of any calls of [my_b_write] and [my_b_write_byte], the
    first [n] have been made, after which the file and the buffer together hold
    what was there and the data of these calls in order, and [my_b_tell] is where
    it ends; and if there is a next call, it is one for which the library returns
    an error.  [my_b_write] returns the error, [my_b_write_byte] drops it. *)
Theorem cache_writes_stream os c w :
  writable c →
  ∃ n c' w', writes_run (take n os) c w = Ok (c', w') ∧ writable c'
    ∧ written c' w' = written c w ++ concat (wop_data <$> take n os)
    ∧ my_b_tell c' = u64 (my_b_tell c + Z.of_nat (length (concat (wop_data <$> take n os))))
    ∧ match os !! n with Some o => wop_fails o c' w' | None => True end.
Proof.
  assert (∀ c, my_b_tell c = u64 (my_b_tell c + 0)) as H0.
  { intros c'. unfold my_b_tell. rewrite Z.add_0_r. symmetry. apply u64_idem. }
  revert c w. induction os as [|o os IH]; intros c w Hw.
  { exists 0%nat, c, w. do 2 (split; [done|]). split; [by rewrite app_nil_r|]. by split; [apply H0|]. }
  assert (wop_fails o c w ∨ ∃ c1 w1, (∀ l, writes_run (o :: l) c w = writes_run l c1 w1) ∧ writable c1
    ∧ written c1 w1 = written c w ++ wop_data o ∧ my_b_tell c1 = u64 (my_b_tell c + Z.of_nat (length (wop_data o))))
    as [Hf|(c1 & w1 & E1 & Hw1 & Hu1 & Ht1)].
  { destruct o as [d|ch].
    - destruct (my_b_write_ok c w d Hw) as (z & c1 & w1 & E1 & Hz). destruct (decide (z = 0)) as [->|Hne]; [|left; by do 3 eexists].
      right. exists c1, w1. split; [intros l; cbn [writes_run]; by rewrite E1|]. by apply Hz.
    - destruct (my_b_write_byte_ok c w ch Hw) as [Hf|(c1 & w1 & E1 & H1)]; [by left|].
      right. exists c1, w1. split; [intros l; cbn [writes_run]; by rewrite E1|done]. }
  - exists 0%nat, c, w. do 2 (split; [done|]). split; [by rewrite app_nil_r|]. by split; [apply H0|].
  - destruct (IH c1 w1 Hw1) as (n & c2 & w2 & E2 & Hw2 & Hu2 & Ht2 & Hn). exists (S n), c2, w2. cbn [take].
    rewrite E1. split; [done|]. split; [done|]. rewrite fmap_cons. cbn [concat].
    split; [by rewrite Hu2, Hu1, <- app_assoc|]. split; [|done].
    rewrite Ht2, Ht1, u64_add_add, length_app. do 2 f_equal. lia.
Qed.
End writer.

(** [my_b_write_byte] does not look at what the flush returned: when it fails and
    leaves the buffer full, the byte is stored behind the buffer. *)
Lemma my_b_write_byte_overruns c ch w r w' :
  write_pos c = write_end c → write_end c = length (arena c) → _my_b_write c [] w = Ok (r, c, w') →
  my_b_write_byte c ch w = Ub OutOfBounds.
Proof.
  intros Hp He Hf. unfold my_b_write_byte. rewrite decide_False by lia. rewrite Hf. cbn [rbind].
  unfold put_byte, copy_in. rewrite decide_False by (cbn; lia). done.
Qed.
End macros.

(** * A library *)

(** Functions that keep the promises, on a file that is a list of bytes, with a
    buffer of [blk] bytes at the start of the arena. *)
Section library.
Context (blk cap : nat).

Definition file_offset (c : IO_CACHE) : nat := Z.to_nat (pos_in_file c) + (read_end c - request_pos c).

(** A cache whose buffer holds what the file has at [off]. *)
Definition refilled (c : IO_CACHE) (off : nat) (w : bytes) : IO_CACHE :=
  let d := take blk (drop off w) in
  IoCache (Z.of_nat off) (end_of_file c) 0 (length d) (buffer c) 0 (write_pos c) (write_end c) (ctype c)
    (d ++ replicate (blk - length d) NUL).

Definition lib_read (c : IO_CACHE) (n : nat) (w : bytes) : res (Z * bytes * IO_CACHE * bytes) :=
  let have := buffered c in
  let need := (n - length have)%nat in
  let d := have ++ take need (drop (file_offset c) w) in
  Ok (if decide (length d = n) then 0 else 1, d, refilled c (file_offset c + need) w, w).

Definition lib_get (c : IO_CACHE) (w : bytes) : res (Z * IO_CACHE * bytes) :=
  match drop (file_offset c) w with
  | [] => Ok (my_b_EOF, c, w)
  | b :: _ => Ok (code b, refilled c (S (file_offset c)) w, w)
  end.

(** The pending data and [d] go to the file, and the buffer is empty; unless the
    device is full. *)
Definition lib_write (c : IO_CACHE) (d w : bytes) : res (Z * IO_CACHE * bytes) :=
  if decide (cap < length (w ++ pending c ++ d))%nat then Ok (-1, c, w)
  else Ok (0, IoCache (pos_in_file c + Z.of_nat (length (pending c) + length d)) (end_of_file c) (read_pos c) (read_end c)
           (buffer c) 0 0 blk (ctype c) (replicate blk NUL), w ++ pending c ++ d).

Hypothesis (Hblk : (0 < blk)%nat) (Hsmall : Z.of_nat blk < 2 ^ 64).

Lemma refilled_readable c off w : readable c → readable (refilled c off w).
Proof.
  intros [_ _ _ Ht _]. unfold refilled. split; cbn; try done; try lia;
    rewrite ?length_app, ?length_replicate, ?length_take, ?length_drop; lia.
Qed.

Lemma refilled_unread c off w :
  buffered (refilled c off w) ++ drop (file_offset (refilled c off w)) w = drop off w.
Proof.
  unfold refilled, buffered, file_offset. cbn. rewrite !Nat.sub_0_r, Nat2Z.id, drop_0, take_app_length.
  rewrite length_take. destruct (decide (blk ≤ length (drop off w))%nat) as [Hle|Hgt].
  - rewrite Nat.min_l by done. rewrite <- drop_drop. apply take_drop.
  - rewrite Nat.min_r by lia. rewrite take_ge by lia. rewrite (drop_ge w (off + _)) by (rewrite length_drop in *; lia). apply app_nil_r.
Qed.

Lemma refilled_tell c n off w :
  readable c → Z.of_nat off = pos_in_file c + Z.of_nat (read_pos c - request_pos c) + Z.of_nat n →
  my_b_tell (refilled c off w) = u64 (my_b_tell c + Z.of_nat n).
Proof.
  intros [Ho Ha Hs Ht _] Hoff. unfold my_b_tell, current_pos, refilled. cbn. rewrite !decide_False by (by rewrite Ht).
  rewrite (u64_small (_ - _)), (u64_small (Z.of_nat (read_pos c) - _)) by (unfold is_u64; lia).
  unfold u64. rewrite Zplus_mod_idemp_l. f_equal. lia.
Qed.

#[export] Program Instance lib_reader : CacheReader lib_read lib_get := {| ahead c w := drop (file_offset c) w |}.
Next Obligation. done. Qed.
Next Obligation.
  intros c w n Hr Hn Hl. pose proof Hr as [Ho Ha Hs Ht Hp]. pose proof (length_buffered c Hr) as Hb.
  unfold lib_read. cbv beta in Hl. rewrite length_app, length_drop in Hl. do 2 eexists. split; [|split; [by apply refilled_readable|split]].
  - rewrite decide_True by (rewrite length_app, length_take, length_drop; lia). do 3 f_equal.
    rewrite take_app_ge by lia. done.
  - rewrite refilled_unread, drop_app_ge by lia. rewrite drop_drop. done.
  - apply refilled_tell; [done|]. unfold file_offset. lia.
Qed.
Next Obligation.
  intros c w n Hr Hl. pose proof (length_buffered c Hr) as Hb. cbv beta in Hl. rewrite length_app, length_drop in Hl.
  do 4 eexists. split; [done|]. rewrite decide_False by (rewrite length_app, length_take, length_drop; lia). done.
Qed.
Next Obligation.
  intros c w b rest Hr Hp Hu. cbv beta in Hu. pose proof Hr as [Ho Ha Hs Ht Ho']. pose proof (length_buffered c Hr) as Hb.
  assert (buffered c = []) as Hn by (apply nil_length_inv; lia). rewrite Hn in Hu. cbn in Hu.
  unfold lib_get. rewrite Hu. do 2 eexists. split; [done|]. split; [by apply refilled_readable|]. split.
  - rewrite refilled_unread. replace (S (file_offset c)) with (file_offset c + 1)%nat by lia. rewrite <- drop_drop, Hu. done.
  - apply (refilled_tell c 1); [done|]. unfold file_offset. lia.
Qed.
Next Obligation.
  intros c w Hr Hp Hu. cbv beta in Hu. apply app_nil in Hu as [_ Hu]. unfold lib_get. rewrite Hu. by do 2 eexists.
Qed.

Lemma lib_write_ok c d w :
  writable c →
  ∃ z c' w', lib_write c d w = Ok (z, c', w') ∧ (z = 0 → writable c' ∧ (write_pos c' < write_end c')%nat
    ∧ w' ++ pending c' = (w ++ pending c) ++ d ∧ my_b_tell c' = u64 (my_b_tell c + Z.of_nat (length d))).
Proof.
  intros [Ho Ha Hs Ht Hp]. unfold lib_write. case_decide; [by exists (-1), c, w|].
  do 3 eexists. split; [done|]. intros _. split; [|split; [done|split]].
  - split; cbn; try done; rewrite ?length_replicate; lia.
  - unfold pending at 2. cbn. rewrite app_nil_r. by rewrite <- app_assoc.
  - assert (length (pending c) = (write_pos c - request_pos c)%nat) as El.
    { unfold pending. rewrite length_take, length_drop. lia. }
    unfold my_b_tell, current_pos. cbn. rewrite !decide_True by done. rewrite El.
    rewrite (u64_small (_ - _)) by (unfold is_u64; lia). unfold u64.
    rewrite Zplus_mod_idemp_l, (Z.mod_small (_ - Z.of_nat (request_pos c))) by lia. f_equal. lia.
Qed.

#[export] Program Instance lib_writer : CacheWriter lib_write lib_write := {| flushed _ w := w |}.
Next Obligation. done. Qed.
Next Obligation.
  intros c w d Hw _. destruct (lib_write_ok c d w Hw) as (z & c' & w' & E & Hz). exists z, c', w'. split; [done|].
  intros ->. by destruct (Hz eq_refl) as (? & _ & ? & ?).
Qed.
Next Obligation.
  intros c w Hw _. destruct (lib_write_ok c [] w Hw) as (z & c' & w' & E & Hz). exists z, c', w'. split; [done|].
  intros ->. destruct (Hz eq_refl) as (? & ? & H & Ht).
  rewrite app_nil_r in H. do 3 (split; [done|]). rewrite Ht, Z.add_0_r. unfold my_b_tell. apply u64_idem.
Qed.
End library.

(** ** Witnesses *)

(** A cache of four bytes on a file of eleven, nothing read yet. *)
Definition new_reader : IO_CACHE := IoCache 0 11 0 0 (Some 0%nat) 0 0 0 READ_CACHE (replicate 4 NUL).
Definition new_writer : IO_CACHE := IoCache 0 0 0 0 (Some 0%nat) 0 0 4 WRITE_CACHE (replicate 4 NUL).
Definition some_file : bytes := lit "hello world".

Lemma cache_reads_stream_witness :
  ∃ c' w', reads_run (lib_read 4) (lib_get 4) [Rd 3; Get; Get; Rd 5] new_reader some_file
      = Ok ([Bytes 0 (lit "hel"); Value (code "l"%char); Value (code "o"%char); Bytes 0 (lit " worl")], c', w')
    ∧ my_b_tell c' = 10.
Proof.
  destruct (cache_reads_stream (HR := lib_reader 4 ltac:(lia) ltac:(lia)) (lib_read 4) (lib_get 4)
    [Rd 3; Get; Get; Rd 5] new_reader some_file) as (c' & w' & E & _ & _ & Ht);
    [split; cbn; try lia; reflexivity|vm_compute; lia|].
  exists c', w'. split; [exact E|exact Ht].
Defined.

(** On a device of eight bytes: some calls are made, and the next fails. *)
Lemma cache_writes_stream_witness :
  ∃ n c' w', writes_run (lib_write 4 8) (lib_write 4 8)
      (take n [Wr (lit "ab"); WrByte "c"; WrByte "d"; WrByte "e"; Wr (lit "fghij")]) new_writer [] = Ok (c', w')
    ∧ w' ++ pending c' = concat (wop_data <$> take n [Wr (lit "ab"); WrByte "c"; WrByte "d"; WrByte "e"; Wr (lit "fghij")])
    ∧ match [Wr (lit "ab"); WrByte "c"; WrByte "d"; WrByte "e"; Wr (lit "fghij")] !! n with
      | Some o => wop_fails (lib_write 4 8) (lib_write 4 8) o c' w'
      | None => True
      end.
Proof.
  destruct (cache_writes_stream (HW := lib_writer 4 8 ltac:(lia) ltac:(lia)) (lib_write 4 8) (lib_write 4 8)
    [Wr (lit "ab"); WrByte "c"; WrByte "d"; WrByte "e"; Wr (lit "fghij")] new_writer []) as (n & c' & w' & E & _ & Hw & _ & Hn);
    [split; cbn; try lia; reflexivity|].
  exists n, c', w'. split; [exact E|]. split; [exact Hw|exact Hn].
Defined.
