(* ===== verification/Timing.v ===== *)
(** src/inc/mysql/my_pthread.h: absolute times for [pthread_cond_timedwait], their
    comparison, and counters that several threads change. *)
From Stdlib Require Import ZArith Lia.
From stdpp Require Import base list numbers.
From S2P Require Import Prelude.
From S2P Require Import Mstring.
From S2P Require Import Korr.

Local Open Scope Z_scope.

(** * Deadlines *)

Record timespec := Timespec { tv_sec : Z; tv_nsec : Z }.

(** [systime] is what [my_getsystime()] returns, in units of 100 ns; [NSEC] is an
    [unsigned long long]. *)
Definition set_timespec_nsec (systime NSEC : Z) : timespec :=
  let now := ulonglong (systime + NSEC / 100) in
  Timespec (longlong (now / 10000000)) (longlong (now mod 10000000 * 100 + NSEC mod 100)).

Definition set_timespec (systime SEC : Z) : timespec :=
  set_timespec_nsec systime (ulonglong (SEC * 1000000000)).

(** The variant for systems whose [timespec] has fields [ts_sec] and [ts_nsec]:
    [now] is what [time(0)] returns. *)
Definition ts_set_timespec (now SEC : Z) : timespec := Timespec (longlong (now + SEC)) 0.

Definition cmp_timespec (a b : timespec) : Z :=
  if (tv_sec b <? tv_sec a) || ((tv_sec a =? tv_sec b) && (tv_nsec b <? tv_nsec a)) then 1
  else if (tv_sec a <? tv_sec b) || ((tv_sec a =? tv_sec b) && (tv_nsec a <? tv_nsec b)) then -1
  else 0.

(** Windows: a time in units of 100 ns and the longest wait in ms. *)
Record win_timespec := WinTimespec { i64 : Z; max_timeout_msec : Z }.

(** [ft] is what [GetSystemTimeAsFileTime] stores. *)
Definition win_set_timespec (ft SEC : Z) : win_timespec :=
  WinTimespec (longlong (ft + SEC * 10000000)) (int32 (SEC * 1000)).
Definition win_set_timespec_nsec (ft NSEC : Z) : win_timespec :=
  WinTimespec (longlong (ft + NSEC ÷ 100)) (int32 (NSEC ÷ 1000000)).
Definition win_cmp_timespec (a b : win_timespec) : Z :=
  if i64 b <? i64 a then 1 else if i64 a <? i64 b then -1 else 0.

(** The instant, in nanoseconds. *)
Definition instant (t : timespec) : Z := tv_sec t * 1000000000 + tv_nsec t.

(** What [pthread_cond_timedwait] accepts. *)
Definition valid_timespec (t : timespec) : Prop := 0 ≤ tv_nsec t < 1000000000.

Lemma swrap_small k z : 0 < k → 0 ≤ z < 2 ^ (k - 1) → swrap k z = z.
Proof.
  intros Hk Hz. unfold swrap. assert (2 ^ k = 2 * 2 ^ (k - 1)) as Hp.
  { rewrite <- Z.pow_succ_r by lia. f_equal. lia. }
  rewrite Z.mod_small by lia. by destruct (Z.ltb_spec z (2 ^ (k - 1))); [|lia].
Qed.

Lemma deadline_fields systime n :
  0 ≤ systime → 0 ≤ n < 2 ^ 64 →
  let d := set_timespec_nsec systime n in
  valid_timespec d ∧ tv_sec d = ulonglong (systime + n / 100) / 10000000
  ∧ tv_nsec d = ulonglong (systime + n / 100) mod 10000000 * 100 + n mod 100.
Proof.
  intros Hs Hn. assert (0 ≤ ulonglong (systime + n / 100) < 2 ^ 64) as Hnow by (apply Z.mod_pos_bound; lia).
  unfold valid_timespec, set_timespec_nsec. cbn [tv_sec tv_nsec]. set (now := ulonglong _) in *.
  assert (0 ≤ now / 10000000 < 2 ^ 63) by (split; [apply Z.div_pos; lia|apply Z.div_lt_upper_bound; lia]).
  pose proof (Z.mod_pos_bound now 10000000). pose proof (Z.mod_pos_bound n 100).
  rewrite !swrap_small by (change (2 ^ (64 - 1)) with 9223372036854775808 in *; lia). lia.
Qed.

Lemma deadline_instant systime n :
  0 ≤ systime → 0 ≤ n < 2 ^ 64 → systime + n / 100 < 2 ^ 64 → instant (set_timespec_nsec systime n) = systime * 100 + n.
Proof.
  intros Hs Hn Hfit. destruct (deadline_fields systime n Hs Hn) as (_ & Es & En). unfold instant. rewrite Es, En.
  rewrite wrap_small by (split; [apply Z.add_nonneg_nonneg; [done|apply Z.div_pos; lia]|done]).
  pose proof (Z.div_mod (systime + n / 100) 10000000). pose proof (Z.div_mod n 100). lia.
Qed.

(** [cmp_timespec] orders valid times by their instants. *)
Lemma cmp_instant d t :
  valid_timespec d → valid_timespec t → cmp_timespec d t = Z.sgn (instant d - instant t).
Proof.
  unfold valid_timespec, cmp_timespec, instant. intros Hd Ht.
  destruct (Z.ltb_spec (tv_sec t) (tv_sec d)); cbn [orb]; [rewrite Z.sgn_pos by lia; done|].
  destruct (Z.eqb_spec (tv_sec d) (tv_sec t)) as [E|E]; cbn [andb].
  - destruct (Z.ltb_spec (tv_nsec t) (tv_nsec d)); [rewrite Z.sgn_pos by lia; done|].
    destruct (Z.ltb_spec (tv_sec d) (tv_sec t)); [lia|]. cbn [orb].
    destruct (Z.ltb_spec (tv_nsec d) (tv_nsec t)); [rewrite Z.sgn_neg by lia; done|].
    replace (tv_sec d * 1000000000 + tv_nsec d - _) with 0 by lia. done.
  - destruct (Z.ltb_spec (tv_sec d) (tv_sec t)); [|lia]. cbn [orb]. rewrite Z.sgn_neg by lia. done.
Qed.

(** C39. The deadlines of [set_timespec_nsec]: always valid for a timed wait, and, as
    long as the sum fits, exactly [NSEC] nanoseconds after the time of the
    system; compared with any valid time they are later, equal or earlier as
    their instants are. *)
Theorem deadline_exact systime n :
  0 ≤ systime → 0 ≤ n < 2 ^ 64 →
  valid_timespec (set_timespec_nsec systime n)
  ∧ (systime + n / 100 < 2 ^ 64 → instant (set_timespec_nsec systime n) = systime * 100 + n)
  ∧ ∀ t, valid_timespec t →
      cmp_timespec (set_timespec_nsec systime n) t = Z.sgn (instant (set_timespec_nsec systime n) - instant t).
Proof.
  intros Hs Hn. destruct (deadline_fields systime n Hs Hn) as (Hv & _).
  split; [done|]. split; [by apply deadline_instant|]. intros t. by apply cmp_instant.
Qed.

Lemma deadline_exact_witness :
  valid_timespec (set_timespec_nsec 17000000001234567 2500000099)
  ∧ instant (set_timespec_nsec 17000000001234567 2500000099) = 1700000000123456700 + 2500000099
  ∧ cmp_timespec (set_timespec_nsec 17000000001234567 2500000099) (Timespec 1700000002 623456798) = 1.
Proof.
  destruct (deadline_exact 17000000001234567 2500000099) as (Hv & He & Hc); [lia|lia|].
  split; [exact Hv|]. split; [rewrite He; [reflexivity|vm_compute; reflexivity]|].
  rewrite Hc; [vm_compute; reflexivity|vm_compute; split; [discriminate|reflexivity]].
Defined.

(** [set_timespec] waits whole seconds. *)
Lemma set_timespec_seconds systime s :
  0 ≤ systime < 2 ^ 62 → 0 ≤ s < 2 ^ 34 → instant (set_timespec systime s) = systime * 100 + s * 1000000000.
Proof.
  intros Ht Hs. unfold set_timespec. rewrite wrap_small by lia.
  apply deadline_instant; [lia|lia|].
  assert (s * 1000000000 / 100 = s * 10000000) as -> by (replace (s * 1000000000) with (s * 10000000 * 100) by lia; apply Z.div_mul; lia).
  lia.
Qed.

(** On Windows the longest wait is kept in a [long] of 32 bits: it is exact up to
    2147483 seconds, and a wait of one second more is none at all. *)
Lemma win_timeout ft s : 0 ≤ s ≤ 2147483 → max_timeout_msec (win_set_timespec ft s) = s * 1000.
Proof. intros Hs. cbn. apply swrap_small; [lia|]. change (2 ^ (32 - 1)) with 2147483648. lia. Qed.

Lemma win_timeout_wraps ft : max_timeout_msec (win_set_timespec ft 2147484) < 0.
Proof. cbn [win_set_timespec max_timeout_msec]. vm_compute. done. Qed.

(** * Counters *)

Module Counter.

(** How a counter is changed: [thread_safe_add] and the like take a lock;
    [statistic_add] and the like do not, unless the build has SAFE_STATISTICS. *)
Inductive kind := Thread_safe | Statistic.

Definition locked (SAFE_STATISTICS : bool) (k : kind) : bool :=
  match k with Thread_safe => true | Statistic => SAFE_STATISTICS end.

(** The four operations, by what they add to the counter. *)
Inductive op := Increment | Decrement | Add (C : Z) | Sub (C : Z).

Definition delta (o : op) : Z := match o with Increment => 1 | Decrement => -1 | Add C => C | Sub C => - C end.

(** Where a thread is: [V += C] is a load and a store. *)
Inductive cpc := CLock | CLoad | CStore (v : Z) | CUnlock | CDone.

#[global] Instance cpc_eq_dec : EqDecision cpc.
Proof. solve_decision. Defined.

(** The counter, an [unsigned long], and who has the lock. *)
Record counter := CounterSt { V : Z; L : option nat }.

Definition cstep (lk : bool) (i : nat) (o : op) (pc : cpc) (s : counter) : option (cpc * counter) :=
  match pc with
  | CLock =>
      if lk then match L s with None => Some (CLoad, CounterSt (V s) (Some i)) | Some _ => None end
      else Some (CLoad, s)
  | CLoad => Some (CStore (V s), s)
  | CStore v => Some (CUnlock, CounterSt (u64 (v + delta o)) (L s))
  | CUnlock => Some (CDone, if lk then CounterSt (V s) None else s)
  | CDone => None
  end.

Fixpoint crun (lk : bool) (who : list nat) (ts : list (op * cpc)) (s : counter) : list (op * cpc) * counter :=
  match who with
  | [] => (ts, s)
  | i :: who =>
      match ts !! i with
      | Some (o, pc) =>
          match cstep lk i o pc s with
          | Some (pc, s) => crun lk who (<[i := (o, pc)]> ts) s
          | None => crun lk who ts s
          end
      | None => crun lk who ts s
      end
  end.

(** Threads that have stored their sum. *)
Definition stored (pc : cpc) : bool := match pc with CUnlock | CDone => true | _ => false end.
Definition critical (pc : cpc) : bool := match pc with CLoad | CStore _ | CUnlock => true | _ => false end.

Definition contribution (t : op * cpc) : Z := if stored t.2 then delta t.1 else 0.
Definition total (ts : list (op * cpc)) : Z := foldr Z.add 0 (contribution <$> ts).

(** The lock is with the thread that changes the counter, which has seen its last value. *)
Record cinv (v0 : Z) (ts : list (op * cpc)) (s : counter) : Prop := {
  ci_value : V s = u64 (v0 + total ts);
  ci_lock : ∀ i o pc, ts !! i = Some (o, pc) → critical pc = true → L s = Some i;
  ci_seen : ∀ i o v, ts !! i = Some (o, CStore v) → v = V s
}.

Lemma total_insert (ts : list (op * cpc)) (i : nat) o pc pc' :
  ts !! i = Some (o, pc) → total (<[i := (o, pc')]> ts) = total ts - contribution (o, pc) + contribution (o, pc').
Proof.
  revert i. induction ts as [|t ts IH]; intros [|i] H; [done..| |].
  - injection H as ->. unfold total. cbn. lia.
  - change (contribution t + total (<[i := (o, pc')]> ts) = contribution t + total ts - contribution (o, pc) + contribution (o, pc')).
    rewrite (IH i H). lia.
Qed.

Lemma cstep_inv v0 ts s i o pc pc' s' :
  cinv v0 ts s → ts !! i = Some (o, pc) → cstep true i o pc s = Some (pc', s') →
  cinv v0 (<[i := (o, pc')]> ts) s'.
Proof.
  intros [Hv Hl Hs] Hi Hstep. assert (i < length ts)%nat as Hlt by (by eapply lookup_lt_Some).
  assert (∀ j x, <[i := (o, pc')]> ts !! j = Some x → (j = i ∧ x = (o, pc')) ∨ (j ≠ i ∧ ts !! j = Some x)) as Hlook.
  { intros j x Hj. destruct (decide (j = i)) as [->|Hne].
    - rewrite list_lookup_insert_eq in Hj by done. left. by simplify_eq.
    - rewrite list_lookup_insert_ne in Hj by done. by right. }
  assert (∀ j q pj, j ≠ i → ts !! j = Some (q, pj) → critical pj = true → critical pc = true → False) as Hex.
  { intros j q pj Hne Hj Hc Hc'. pose proof (Hl j q pj Hj Hc). pose proof (Hl i o pc Hi Hc'). congruence. }
  destruct pc; cbn in Hstep; [destruct (L s) eqn:HL; [done|]|..]; simplify_eq; split; cbn [V L];
    rewrite ?(total_insert ts i o _ _ Hi); cbn [contribution stored fst snd];
    try (intros j q pj Hj; apply Hlook in Hj as [[-> Hx]|[Hne Hj]]; simplify_eq; cbn [critical] in *); try done;
    try (by eauto); try (intros; exfalso; by eapply (Hex j)).
  - by rewrite Hv, Z.sub_0_r, Z.add_0_r.
  - intros Hc. pose proof (Hl j q pj Hj Hc). congruence.
  - by rewrite Hv, Z.sub_0_r, Z.add_0_r.
  - rewrite (Hs i o v Hi), Hv. unfold u64. rewrite Zplus_mod_idemp_l. f_equal. lia.
  - rewrite Hv. f_equal. lia.
Qed.

Lemma crun_inv who v0 ts s : cinv v0 ts s → let '(ts', s') := crun true who ts s in cinv v0 ts' s' ∧ ts'.*1 = ts.*1.
Proof.
  revert ts s. induction who as [|i who IH]; intros ts s Hi; [done|]. cbn [crun].
  destruct (ts !! i) as [[o pc]|] eqn:Et; [|by apply IH]. destruct (cstep true i o pc s) as [[pc' s']|] eqn:Es; [|by apply IH].
  specialize (IH _ _ (cstep_inv v0 ts s i o pc pc' s' Hi Et Es)). destruct (crun true who _ s') as [ts' s''].
  destruct IH as [Hi' E]. split; [done|]. rewrite E, list_fmap_insert. apply list_insert_id.
  by rewrite list_lookup_fmap, Et.
Qed.

Lemma total_done ts : Forall (λ t, t.2 = CDone) ts → total ts = foldr Z.add 0 (delta <$> ts.*1).
Proof.
  induction 1 as [|[o pc] ts Ht _ IH]; [done|]. cbn in Ht. subst pc. unfold total in *. cbn. by rewrite IH.
Qed.

(** Counters that are changed under their lock are exact: whatever threads increment,
    decrement, add and subtract, and however their accesses interleave, when they
    have all finished the counter is what it was and the sum of the changes,
    modulo its width.  That holds of [thread_safe_add] and the like, and of
    [statistic_add] and the like in builds with SAFE_STATISTICS. *)
Theorem counters_exact safe k who os v0 ts' s' :
  locked safe k = true → is_u64 v0 →
  crun (locked safe k) who ((λ o, (o, CLock)) <$> os) (CounterSt v0 None) = (ts', s') →
  Forall (λ t, t.2 = CDone) ts' → V s' = u64 (v0 + foldr Z.add 0 (delta <$> os)).
Proof.
  intros Hlk Hv Hrun Hdone. rewrite Hlk in Hrun.
  assert (total ((λ o, (o, CLock)) <$> os) = 0) as H0.
  { clear. induction os as [|o os IH]; [done|]. change (0 + total ((λ o, (o, CLock)) <$> os) = 0). lia. }
  assert (cinv v0 ((λ o, (o, CLock)) <$> os) (CounterSt v0 None)) as Hi.
  { split; cbn [V L].
    - by rewrite H0, Z.add_0_r, u64_small.
    - intros i o pc H Hc. rewrite list_lookup_fmap in H. destruct (os !! i) in H; cbn in H; by simplify_eq.
    - intros i o v H. rewrite list_lookup_fmap in H. destruct (os !! i) in H; cbn in H; by simplify_eq. }
  pose proof (crun_inv who v0 _ _ Hi) as Hr. rewrite Hrun in Hr. destruct Hr as [[Hval _ _] Hops].
  rewrite Hval, (total_done ts' Hdone), Hops. do 3 f_equal. by rewrite <- !list_fmap_compose.
Qed.

Definition turns3 : list nat := [0; 1; 0; 2; 0; 1; 0; 1; 1; 1; 1; 2; 2; 2; 2]%nat.

Lemma counters_exact_witness :
  V (crun true turns3 ((λ o, (o, CLock)) <$> [Increment; Add 5; Sub 2]) (CounterSt 7 None)).2 = 11.
Proof.
  destruct (crun true turns3 ((λ o, (o, CLock)) <$> [Increment; Add 5; Sub 2]) (CounterSt 7 None)) as [ts' s'] eqn:E.
  assert (Forall (λ t, t.2 = CDone) ts') as Hd.
  { vm_compute in E. injection E as <- _. repeat (apply Forall_cons_2; [reflexivity|]). apply Forall_nil_2. }
  exact (counters_exact false Thread_safe turns3 [Increment; Add 5; Sub 2] 7 ts' s' eq_refl ltac:(unfold is_u64; lia) E Hd).
Defined.

(** Without SAFE_STATISTICS an increment can get lost. *)
Lemma statistic_loses :
  V (crun (locked false Statistic) [0; 0; 1; 1; 0; 0; 1; 1]%nat ((λ o, (o, CLock)) <$> [Increment; Increment]) (CounterSt 0 None)).2 = 1.
Proof. done. Qed.
End Counter.
