(* ===== verification/Headers.v ===== *)
(** The small macros and inline functions of the vendored headers that compute
    something: alignment and rounding (my_global.h), character classes and
    contractions (m_ctype.h), decimals (decimal.h), column types (mysql.h,
    mysql_com.h), lists and buffers of zlog (zc_arraylist.h, buf.h). *)
From Stdlib Require Import ZArith Ascii Lia.
From stdpp Require Import base list strings numbers.
From S2P Require Import Prelude.
From S2P Require Import Clib.
From S2P Require Import Mstring.
From S2P Require Import Korr.

Local Open Scope Z_scope.

(** * my_global.h *)

Definition MY_ALIGN (A L : Z) : Z := Z.land (A + L - 1) (Z.lnot (L - 1)).
Definition ALIGN_SIZE (A : Z) : Z := MY_ALIGN A 8.

Definition test_all_bits (a b : Z) : bool := Z.land a b =? b.

(** The mask of [MY_ALIGN] rounds up to a multiple of [2^k]. *)
Lemma my_align_round A k : 0 ≤ k → MY_ALIGN A (2 ^ k) = (A + 2 ^ k - 1) / 2 ^ k * 2 ^ k.
Proof.
  intros Hk. unfold MY_ALIGN. replace (2 ^ k - 1) with (Z.ones k) by (rewrite Z.ones_equiv; lia).
  rewrite <- Z.ldiff_land, Z.ldiff_ones_r by done. by rewrite Z.shiftl_mul_pow2, Z.shiftr_div_pow2 by done.
Qed.

(** It is the least multiple that is not smaller. *)
Lemma my_align_least A k m :
  0 ≤ k → A ≤ m * 2 ^ k → A ≤ MY_ALIGN A (2 ^ k) ≤ m * 2 ^ k ∧ MY_ALIGN A (2 ^ k) mod 2 ^ k = 0.
Proof.
  intros Hk Hm. rewrite my_align_round by done. assert (0 < 2 ^ k) as Hp by (apply Z.pow_pos_nonneg; lia).
  split; [|by apply Z.mod_mul; lia].
  pose proof (Z.div_mod (A + 2 ^ k - 1) (2 ^ k) ltac:(lia)). pose proof (Z.mod_pos_bound (A + 2 ^ k - 1) (2 ^ k) Hp).
  split; [nia|]. apply Z.mul_le_mono_nonneg_r; [lia|]. apply Z.lt_succ_r, Z.div_lt_upper_bound; lia.
Qed.

Lemma test_all_bits_spec a b : test_all_bits a b = true ↔ ∀ i, Z.testbit b i = true → Z.testbit a i = true.
Proof.
  unfold test_all_bits. rewrite Z.eqb_eq. split.
  - intros E i Hi. rewrite <- E, Z.land_spec in Hi. by apply andb_prop in Hi as [? _].
  - intros H. apply Z.bits_inj'. intros i _. rewrite Z.land_spec. specialize (H i).
    destruct (Z.testbit b i); [by rewrite H|by rewrite andb_false_r].
Qed.

(** ** Rounding *)

(** A finite double as a dyadic number, [num / 2^scale]. *)
Record dyadic := Dyadic { num : Z; scale : Z }.

(** Doubles with a fraction have it in the 53 bits of their significand. *)
Definition is_double (x : dyadic) : Prop := scale x = 0 ∨ 0 < scale x ∧ Z.abs (num x) < 2 ^ 53.

(** [modf]: the integral part, and the numerator of the fraction. *)
Definition modf (x : dyadic) : Z * Z := (num x ÷ 2 ^ scale x, Z.rem (num x) (2 ^ scale x)).

Definition MAX_EXACT_INTEGER : Z := 2 ^ 53 - 1.

(** [rint] of platforms that do not have it; the integer it returns. *)
Definition rint (x : dyadic) : Z :=
  let '(i, f) := modf x in
  let one := 2 ^ scale x in
  if 0 <? num x then
    i + b2z ((one <? 2 * f) || ((2 * f =? one) && (i <=? MAX_EXACT_INTEGER) && negb (Z.rem i 2 =? 0)))
  else
    i - b2z ((2 * f <? - one) || ((2 * f =? - one) && (- MAX_EXACT_INTEGER <=? i) && negb (Z.rem i 2 =? 0))).

(** The nearest integer, the even one of two. *)
Definition nearest_even (x : dyadic) (z : Z) : Prop :=
  2 * Z.abs (num x - z * 2 ^ scale x) ≤ 2 ^ scale x
  ∧ (2 * Z.abs (num x - z * 2 ^ scale x) = 2 ^ scale x → Z.even z = true).

Lemma rem2_even i : negb (Z.rem i 2 =? 0) = Z.odd i.
Proof.
  rewrite <- Z.negb_even. f_equal. apply eq_true_iff_eq. rewrite Z.eqb_eq, Z.even_spec, Z.rem_divide by lia.
  unfold Z.divide, Z.Even. split; intros [m ->]; exists m; lia.
Qed.

Lemma even_pred_succ i : Z.odd i = true → Z.even (i + 1) = true ∧ Z.even (i - 1) = true.
Proof. intros H. rewrite Z.add_1_r, Z.even_succ, Z.sub_1_r, Z.even_pred. done. Qed.

(** [rint] rounds to the nearest integer and ties to the even one, for every finite
    double. *)
Theorem rint_nearest_even x : 0 ≤ scale x → is_double x → nearest_even x (rint x).
Proof.
  intros Hk Hd. unfold rint, modf. set (one := 2 ^ scale x) in *.
  assert (0 < one) as Hone by (apply Z.pow_pos_nonneg; lia).
  pose proof (Z.quot_rem (num x) one ltac:(lia)) as Hqr. set (i := num x ÷ one) in *. set (f := Z.rem (num x) one) in *.
  assert (Z.abs f < one) as Hf by (subst f; pose proof (Z.rem_bound_abs (num x) one ltac:(lia)); lia).
  assert (f ≠ 0 → Z.abs i ≤ MAX_EXACT_INTEGER) as Hexact.
  { intros Hf0. destruct Hd as [Hs|[Hs Hn]].
    - exfalso. subst f one. rewrite Hs in Hf0. change (2 ^ 0) with 1 in Hf0. by rewrite Z.rem_1_r in Hf0.
    - unfold MAX_EXACT_INTEGER. nia. }
  unfold nearest_even. fold one. rewrite !rem2_even.
  destruct (Z.ltb_spec 0 (num x)) as [Hpos|Hneg].
  - assert (0 ≤ f) as Hf0 by (subst f; apply Z.rem_nonneg; lia).
    destruct (Z.ltb_spec one (2 * f)); cbn [orb b2z]; [split; [nia|nia]|].
    destruct (Z.eqb_spec (2 * f) one) as [Ht|]; cbn [andb b2z]; [|split; [nia|nia]].
    replace (i <=? MAX_EXACT_INTEGER) with true by (symmetry; apply Z.leb_le; lia). cbn [andb].
    destruct (Z.odd i) eqn:Ho; cbn [b2z].
    + split; [nia|]. intros _. by apply even_pred_succ.
    + split; [nia|]. intros _. by rewrite Z.add_0_r, <- Z.negb_odd, Ho.
  - assert (f ≤ 0) as Hf0 by (subst f; apply Z.rem_nonpos; lia).
    destruct (Z.ltb_spec (2 * f) (- one)); cbn [orb b2z]; [split; [nia|nia]|].
    destruct (Z.eqb_spec (2 * f) (- one)) as [Ht|]; cbn [andb b2z]; [|split; [nia|nia]].
    replace (- MAX_EXACT_INTEGER <=? i) with true by (symmetry; apply Z.leb_le; lia). cbn [andb].
    destruct (Z.odd i) eqn:Ho; cbn [b2z].
    + split; [nia|]. intros _. by apply even_pred_succ.
    + split; [nia|]. intros _. by rewrite Z.sub_0_r, <- Z.negb_odd, Ho.
Qed.

Lemma rint_nearest_even_witness :
  nearest_even (Dyadic 5 1) 2 ∧ nearest_even (Dyadic (-7) 1) (-4) ∧ nearest_even (Dyadic 11 2) 3.
Proof.
  split; [exact (rint_nearest_even (Dyadic 5 1) ltac:(vm_compute; discriminate) ltac:(right; vm_compute; split; reflexivity))|].
  split; [exact (rint_nearest_even (Dyadic (-7) 1) ltac:(vm_compute; discriminate) ltac:(right; vm_compute; split; reflexivity))|].
  exact (rint_nearest_even (Dyadic 11 2) ltac:(vm_compute; discriminate) ltac:(right; vm_compute; split; reflexivity)).
Defined.

(** * m_ctype.h *)

Module Ctype.

Definition _MY_U : Z := 1.
Definition _MY_L : Z := 2.
Definition _MY_NMR : Z := 4.
Definition _MY_SPC : Z := 8.
Definition _MY_PNT : Z := 16.
Definition _MY_CTR : Z := 32.
Definition _MY_B : Z := 64.
Definition _MY_X : Z := 128.

(** The tables of a character set that the macros use: [ctype] has an entry for EOF
    in front of those of the 256 characters; [contractions] may be missing. *)
Record CHARSET_INFO := Charset {
  ctype_table : list Z;
  to_lower : list Z;
  to_upper : list Z;
  contractions : option (list Z)
}.

(** [((s)->ctype+1)[(uchar) (c)] & mask] *)
Definition char_class (s : CHARSET_INFO) (c mask : Z) : res Z :=
  do t <- of_opt OutOfBounds (ctype_table s !! S (Z.to_nat (wrap 8 c))); Ok (Z.land t mask).

Definition my_isalpha s c := char_class s c (Z.lor _MY_U _MY_L).
Definition my_isupper s c := char_class s c _MY_U.
Definition my_islower s c := char_class s c _MY_L.
Definition my_isdigit s c := char_class s c _MY_NMR.
Definition my_isxdigit s c := char_class s c _MY_X.
Definition my_isalnum s c := char_class s c (Z.lor (Z.lor _MY_U _MY_L) _MY_NMR).
Definition my_isspace s c := char_class s c _MY_SPC.
Definition my_ispunct s c := char_class s c _MY_PNT.
Definition my_isprint s c := char_class s c (Z.lor (Z.lor (Z.lor (Z.lor _MY_PNT _MY_U) _MY_L) _MY_NMR) _MY_B).
Definition my_isgraph s c := char_class s c (Z.lor (Z.lor (Z.lor _MY_PNT _MY_U) _MY_L) _MY_NMR).
Definition my_iscntrl s c := char_class s c _MY_CTR.

(** [my_isalnum(s,c) || (c) == '_'] *)
Definition my_isvar (s : CHARSET_INFO) (c : Z) : res bool :=
  do t <- my_isalnum s c; Ok (negb (t =? 0) || (c =? 95)).
Definition my_isvar_start (s : CHARSET_INFO) (c : Z) : res bool :=
  do t <- my_isalpha s c; Ok (negb (t =? 0) || (c =? 95)).

(** [(char) ((s)->to_upper[(uchar) (c)])] *)
Definition my_toupper (s : CHARSET_INFO) (c : Z) : res Z :=
  do t <- of_opt OutOfBounds (to_upper s !! Z.to_nat (wrap 8 c)); Ok (swrap 8 t).
Definition my_tolower (s : CHARSET_INFO) (c : Z) : res Z :=
  do t <- of_opt OutOfBounds (to_lower s !! Z.to_nat (wrap 8 c)); Ok (swrap 8 t).

Definition my_isascii (c : Z) : bool := Z.land c (Z.lnot 127) =? 0.
Definition my_toascii (c : Z) : Z := Z.land c 127.

(** A character set whose tables have the sizes the macros rely on: 257, 256 and 256. *)
Definition tables_sized (s : CHARSET_INFO) : Prop :=
  length (ctype_table s) = 257%nat ∧ length (to_upper s) = 256%nat ∧ length (to_lower s) = 256%nat.

Lemma char_class_ok s c mask : tables_sized s → ∃ t, char_class s c mask = Ok (Z.land t mask)
  ∧ ∀ m, char_class s c m = Ok (Z.land t m).
Proof.
  intros (Hl & _). unfold char_class. assert (0 ≤ wrap 8 c < 256) as Hc by (apply Z.mod_pos_bound; lia).
  destruct (lookup_lt_is_Some_2 (ctype_table s) (S (Z.to_nat (wrap 8 c)))) as [t Ht]; [lia|].
  exists t. rewrite Ht. done.
Qed.

(** Every class is read inside the table, for every [char] value, negative ones
    included; a character is alphanumeric when it is a letter or a digit, and has a
    graphic when it is alphanumeric or punctuation. *)
Lemma classes_combine s c :
  tables_sized s →
  ∃ al di an pu gr, my_isalpha s c = Ok al ∧ my_isdigit s c = Ok di ∧ my_isalnum s c = Ok an
    ∧ my_ispunct s c = Ok pu ∧ my_isgraph s c = Ok gr
    ∧ (an ≠ 0 ↔ al ≠ 0 ∨ di ≠ 0) ∧ (gr ≠ 0 ↔ an ≠ 0 ∨ pu ≠ 0).
Proof.
  intros Hs. destruct (char_class_ok s c 0 Hs) as (t & _ & Ht). do 5 eexists.
  unfold my_isalpha, my_isdigit, my_isalnum, my_ispunct, my_isgraph. rewrite !Ht. do 5 (split; [done|]).
  assert (∀ a b, Z.land t (Z.lor a b) ≠ 0 ↔ Z.land t a ≠ 0 ∨ Z.land t b ≠ 0) as Hor.
  { intros a b. rewrite Z.land_lor_distr_r. rewrite Z.lor_eq_0_iff. destruct (decide (Z.land t a = 0)); tauto. }
  rewrite !Hor. tauto.
Qed.

Lemma my_isascii_spec c : my_isascii c = true ↔ 0 ≤ c < 128.
Proof.
  unfold my_isascii. rewrite Z.eqb_eq. change 127 with (Z.ones 7). rewrite <- Z.ldiff_land, Z.ldiff_ones_r by lia.
  rewrite Z.shiftl_mul_pow2, Z.shiftr_div_pow2 by lia. split.
  - intros H. assert (c / 2 ^ 7 = 0) as E by lia. apply Z.div_small_iff in E; lia.
  - intros H. by rewrite Z.div_small.
Qed.

Definition my_cs_have_contractions (cs : CHARSET_INFO) : bool := bool_decide (is_Some (contractions cs)).

(** [((const char * ) cs->contractions)[0x40 * 0x40 * 2 + (wc & 0xFF)]]: the flags lie
    behind the 0x40 * 0x40 weights of two bytes. *)
Definition contraction_flag (cs : CHARSET_INFO) (wc : Z) : res Z :=
  do l <- of_opt NullDeref (contractions cs);
  of_opt OutOfBounds (l !! Z.to_nat (0x40 * 0x40 * 2 + Z.land wc 0xFF)).

Definition my_cs_can_be_contraction_head (cs : CHARSET_INFO) (wc : Z) : res Z := contraction_flag cs wc.
Definition my_cs_can_be_contraction_tail (cs : CHARSET_INFO) (wc : Z) : res Z := contraction_flag cs wc.

(** The index of [&cs->contractions[(wc1 - 0x40) * 0x40 + wc2 - 0x40]]. *)
Definition my_cs_contraction2_weight (wc1 wc2 : Z) : Z := (wc1 - 0x40) * 0x40 + wc2 - 0x40.

(** For letters 0x40 to 0x7F the weights are in front of the flags, each pair of
    letters has its own, and the flags are in a table of 0x40 * 0x40 * 2 + 256. *)
Lemma contraction_tables wc1 wc2 :
  0x40 ≤ wc1 < 0x80 → 0x40 ≤ wc2 < 0x80 →
  0 ≤ my_cs_contraction2_weight wc1 wc2 < 0x40 * 0x40
  ∧ ∀ v1 v2, 0x40 ≤ v1 < 0x80 → 0x40 ≤ v2 < 0x80 →
      my_cs_contraction2_weight v1 v2 = my_cs_contraction2_weight wc1 wc2 → v1 = wc1 ∧ v2 = wc2.
Proof. unfold my_cs_contraction2_weight. intros H1 H2. split; [lia|]. intros v1 v2 Hv1 Hv2. lia. Qed.

Lemma contraction_flag_ok cs l wc :
  contractions cs = Some l → length l = Z.to_nat (0x40 * 0x40 * 2 + 256) → ∃ v, contraction_flag cs wc = Ok v.
Proof.
  intros Hc Hl. unfold contraction_flag. rewrite Hc. cbn [of_opt rbind].
  assert (0 ≤ Z.land wc 0xFF < 256) as Hw by (change 0xFF with (Z.ones 8); rewrite Z.land_ones by lia; apply Z.mod_pos_bound; lia).
  destruct (lookup_lt_is_Some_2 l (Z.to_nat (0x40 * 0x40 * 2 + Z.land wc 0xFF))) as [v Hv]; [lia|].
  exists v. by rewrite Hv.
Qed.
End Ctype.

(** * decimal.h *)

Module Decimal.

(** [buf] holds nine digits per element. *)
Record decimal_t := DecimalT { intg : Z; frac : Z; dlen : Z; sign : bool; buf : list Z }.

Definition decimal_make_zero (d : decimal_t) : res decimal_t :=
  match buf d with
  | [] => Ub OutOfBounds
  | _ :: l => Ok (DecimalT 1 0 (dlen d) false (0 :: l))
  end.

Definition decimal_string_size (d : decimal_t) : Z :=
  (if intg d =? 0 then 1 else intg d) + frac d + b2z (0 <? frac d) + 2.

Definition decimal_neg (d : decimal_t) : decimal_t := DecimalT (intg d) (frac d) (dlen d) (negb (sign d)) (buf d).

(** The text of a decimal: a sign, the digits before the point (one zero if there
    are none), and the digits after it behind a point. *)
Definition decimal_text (d : decimal_t) (before after : bytes) : bytes :=
  (if sign d then ["-"%char] else []) ++ (if decide (before = []) then ["0"%char] else before)
  ++ (if decide (after = []) then [] else "."%char :: after).

(** The size is enough for the text and its terminator, and exact for a negative one. *)
Lemma decimal_string_size_enough d before after :
  intg d = Z.of_nat (length before) → frac d = Z.of_nat (length after) →
  Z.of_nat (length (decimal_text d before after)) + 1 = decimal_string_size d - b2z (negb (sign d)).
Proof.
  intros Hi Hf. unfold decimal_text, decimal_string_size. rewrite Hi, Hf, !length_app.
  destruct (Z.eqb_spec (Z.of_nat (length before)) 0) as [Hb|Hb], (Z.ltb_spec 0 (Z.of_nat (length after))) as [Ha|Ha],
    (decide (before = [])) as [Eb|Eb], (decide (after = [])) as [Ea|Ea]; destruct (sign d);
    try (by destruct before); try (by destruct after); subst; cbn [length b2z negb] in *; lia.
Qed.
End Decimal.

(** * mysql.h and mysql_com.h *)

Module Field.

Inductive enum_field_types :=
| MYSQL_TYPE_DECIMAL | MYSQL_TYPE_TINY | MYSQL_TYPE_SHORT | MYSQL_TYPE_LONG | MYSQL_TYPE_FLOAT | MYSQL_TYPE_DOUBLE
| MYSQL_TYPE_NULL | MYSQL_TYPE_TIMESTAMP | MYSQL_TYPE_LONGLONG | MYSQL_TYPE_INT24 | MYSQL_TYPE_DATE | MYSQL_TYPE_TIME
| MYSQL_TYPE_DATETIME | MYSQL_TYPE_YEAR | MYSQL_TYPE_NEWDATE | MYSQL_TYPE_VARCHAR | MYSQL_TYPE_BIT
| MYSQL_TYPE_NEWDECIMAL | MYSQL_TYPE_ENUM | MYSQL_TYPE_SET | MYSQL_TYPE_TINY_BLOB | MYSQL_TYPE_MEDIUM_BLOB
| MYSQL_TYPE_LONG_BLOB | MYSQL_TYPE_BLOB | MYSQL_TYPE_VAR_STRING | MYSQL_TYPE_STRING | MYSQL_TYPE_GEOMETRY.

#[global] Instance enum_field_types_eq_dec : EqDecision enum_field_types.
Proof. solve_decision. Defined.

Definition enum_value (t : enum_field_types) : Z :=
  match t with
  | MYSQL_TYPE_DECIMAL => 0 | MYSQL_TYPE_TINY => 1 | MYSQL_TYPE_SHORT => 2 | MYSQL_TYPE_LONG => 3
  | MYSQL_TYPE_FLOAT => 4 | MYSQL_TYPE_DOUBLE => 5 | MYSQL_TYPE_NULL => 6 | MYSQL_TYPE_TIMESTAMP => 7
  | MYSQL_TYPE_LONGLONG => 8 | MYSQL_TYPE_INT24 => 9 | MYSQL_TYPE_DATE => 10 | MYSQL_TYPE_TIME => 11
  | MYSQL_TYPE_DATETIME => 12 | MYSQL_TYPE_YEAR => 13 | MYSQL_TYPE_NEWDATE => 14 | MYSQL_TYPE_VARCHAR => 15
  | MYSQL_TYPE_BIT => 16 | MYSQL_TYPE_NEWDECIMAL => 246 | MYSQL_TYPE_ENUM => 247 | MYSQL_TYPE_SET => 248
  | MYSQL_TYPE_TINY_BLOB => 249 | MYSQL_TYPE_MEDIUM_BLOB => 250 | MYSQL_TYPE_LONG_BLOB => 251
  | MYSQL_TYPE_BLOB => 252 | MYSQL_TYPE_VAR_STRING => 253 | MYSQL_TYPE_STRING => 254 | MYSQL_TYPE_GEOMETRY => 255
  end.

Definition IS_PRI_KEY (n : Z) : Z := Z.land n 2.
Definition IS_NOT_NULL (n : Z) : Z := Z.land n 1.
Definition IS_BLOB (n : Z) : Z := Z.land n 16.

Definition IS_NUM (t : enum_field_types) : bool :=
  ((enum_value t <=? enum_value MYSQL_TYPE_INT24) && negb (enum_value t =? enum_value MYSQL_TYPE_TIMESTAMP))
  || (enum_value t =? enum_value MYSQL_TYPE_YEAR) || (enum_value t =? enum_value MYSQL_TYPE_NEWDECIMAL).

Definition IS_LONGDATA (t : enum_field_types) : bool :=
  (enum_value MYSQL_TYPE_TINY_BLOB <=? enum_value t) && (enum_value t <=? enum_value MYSQL_TYPE_STRING).

(** The types whose values are written without quotes, and those sent in pieces: no
    type is both. *)
Lemma field_classes t :
  (IS_NUM t = true ↔ t ∈ [MYSQL_TYPE_DECIMAL; MYSQL_TYPE_TINY; MYSQL_TYPE_SHORT; MYSQL_TYPE_LONG; MYSQL_TYPE_FLOAT;
     MYSQL_TYPE_DOUBLE; MYSQL_TYPE_NULL; MYSQL_TYPE_LONGLONG; MYSQL_TYPE_INT24; MYSQL_TYPE_YEAR; MYSQL_TYPE_NEWDECIMAL])
  ∧ (IS_LONGDATA t = true ↔ t ∈ [MYSQL_TYPE_TINY_BLOB; MYSQL_TYPE_MEDIUM_BLOB; MYSQL_TYPE_LONG_BLOB; MYSQL_TYPE_BLOB;
     MYSQL_TYPE_VAR_STRING; MYSQL_TYPE_STRING]).
Proof.
  split; rewrite <- (bool_decide_eq_true (t ∈ _)); destruct t; (split; intros H; [vm_compute in H |- *; congruence|vm_compute in H |- *; congruence]).
Qed.
End Field.

(** * zc_arraylist.h and buf.h *)

Module Zlog.

(** [array] is the memory of [size] pointers. *)
Record zc_arraylist_t := Arraylist { array : list (option positive); alen : Z }.

Definition elem_at (l : zc_arraylist_t) (i : Z) : res (option positive) :=
  if i <? 0 then Ub OutOfBounds else of_opt OutOfBounds (array l !! Z.to_nat i).

Definition zc_arraylist_len (l : zc_arraylist_t) : Z := alen l.

Definition zc_arraylist_get (l : zc_arraylist_t) (i : Z) : res (option positive) :=
  if alen l <=? i then Ok None else elem_at l i.

(** [zc_arraylist_foreach]: the body gets each element; the first element is read
    before the length is looked at. *)
Fixpoint foreach_from {S : Type} (fuel : nat) (l : zc_arraylist_t) (i : Z) (body : option positive → S → res S) (s : S)
    : res S :=
  if i <? alen l then
    match fuel with
    | O => Spins
    | Datatypes.S fuel => do u <- elem_at l i; do s <- body u s; foreach_from fuel l (i + 1) body s
    end
  else Ok s.

Definition zc_arraylist_foreach {S : Type} (l : zc_arraylist_t) (body : option positive → S → res S) (s : S) : res S :=
  do _ <- elem_at l 0; foreach_from (Z.to_nat (alen l)) l 0 body s.

(** A list as zc_arraylist_new makes it: room for at least one element. *)
Definition sound (l : zc_arraylist_t) : Prop := (0 < length (array l))%nat ∧ 0 ≤ alen l ≤ Z.of_nat (length (array l)).

Fixpoint fold_body {S : Type} (us : list (option positive)) (body : option positive → S → res S) (s : S) : res S :=
  match us with [] => Ok s | u :: us => do s <- body u s; fold_body us body s end.

Lemma foreach_from_ok {S : Type} (body : option positive → S → res S) l fuel i s :
  0 ≤ i → (Z.to_nat (alen l - i) ≤ fuel)%nat → alen l ≤ Z.of_nat (length (array l)) →
  foreach_from fuel l i body s = fold_body (drop (Z.to_nat i) (take (Z.to_nat (alen l)) (array l))) body s.
Proof.
  revert i s. induction fuel as [|fuel IH]; intros i s Hi Hf Hl; cbn [foreach_from].
  - destruct (Z.ltb_spec i (alen l)); [lia|]. rewrite drop_ge; [done|]. rewrite length_take. lia.
  - destruct (Z.ltb_spec i (alen l)) as [Hlt|]; [|rewrite drop_ge; [done|rewrite length_take; lia]].
    unfold elem_at. destruct (Z.ltb_spec i 0); [lia|].
    destruct (lookup_lt_is_Some_2 (array l) (Z.to_nat i)) as [u Hu]; [lia|]. rewrite Hu. cbn [of_opt rbind].
    rewrite (drop_S (take _ _) u (Z.to_nat i)) by (rewrite lookup_take_lt; [done|lia]). cbn [fold_body].
    destruct (body u s) as [s'| |]; cbn [rbind]; [|done|done]. rewrite IH by lia.
    by replace (Z.to_nat (i + 1)) with (Datatypes.S (Z.to_nat i)) by lia.
Qed.

(** The loop visits the elements of the list, in order, and ends. *)
Lemma foreach_visits {S : Type} (body : option positive → S → res S) l s :
  sound l → zc_arraylist_foreach l body s = fold_body (take (Z.to_nat (alen l)) (array l)) body s.
Proof.
  intros [H0 Hl]. unfold zc_arraylist_foreach, elem_at at 1. cbn [Z.ltb Z.compare].
  destruct (lookup_lt_is_Some_2 (array l) (Z.to_nat 0)) as [u ->]; [lia|]. cbn [of_opt rbind].
  by rewrite foreach_from_ok by lia.
Qed.

(** A list without room for an element makes the loop undefined, though it has
    nothing to visit. *)
Lemma foreach_no_room {S : Type} (body : option positive → S → res S) s :
  zc_arraylist_foreach (Arraylist [] 0) body s = Ub OutOfBounds.
Proof. done. Qed.

(** The buffer that messages are formatted in: [start], [tail] and [end] as offsets. *)
Record zlog_buf_t := Buf { store_ : bytes; tail : nat }.

Definition zlog_buf_restart (b : zlog_buf_t) : zlog_buf_t := Buf (store_ b) 0.
Definition zlog_buf_len (b : zlog_buf_t) : Z := Z.of_nat (tail b).
Definition zlog_buf_str (b : zlog_buf_t) : bytes := store_ b.
Definition zlog_buf_seal (b : zlog_buf_t) : res zlog_buf_t :=
  if decide (tail b < length (store_ b))%nat then Ok (Buf (<[tail b := NUL]> (store_ b)) (tail b)) else Ub OutOfBounds.

(** A sealed buffer is the C string of what it holds. *)
Lemma buf_seal_str b b' :
  zlog_buf_seal b = Ok b' → no_nul (take (tail b) (store_ b)) → cstr (zlog_buf_str b') = take (tail b) (store_ b).
Proof.
  unfold zlog_buf_seal. case_decide as H; [|done]. intros [= <-] Hn. cbn. rewrite insert_take_drop by done. by apply cstr_nul.
Qed.
End Zlog.
