(* ===== verification/ErrTables.v ===== *)
(** The error tables of the MySQL headers, row by row: the codes of
    mysqld_error.h and errmsg.h, the names and messages of mysqld_ername.h and
    the SQL states of sql_state.h.  In a message [~] stands for a double quote
    and [^] for a newline (neither is a character of a message); [message]
    gives the bytes of the C string. *)
From Stdlib Require Import ZArith Ascii String.
From stdpp Require Import base list strings.
From S2P Require Import Prelude.

Local Open Scope Z_scope.

(** A row of mysqld_ername.h. *)
Record er_row := ErRow { er_name : string; er_code : Z; er_text : string }.

(** A row of sql_state.h: the macro, its ODBC state and its JDBC state. *)
Record state_row := StateRow { state_er : string; odbc_state : string; jdbc_state : string }.

Definition unescape (c : ascii) : ascii :=
  if Ascii.eqb c "~" then ascii_of_nat 34 else if Ascii.eqb c "^" then ascii_of_nat 10 else c.

Fixpoint message (s : string) : string :=
  match s with EmptyString => EmptyString | String c s => String (unescape c) (message s) end.

(** * mysqld_error.h *)

Definition ER_ERROR_FIRST : Z := 1000.
Definition ER_ERROR_LAST : Z := 1727.

Definition er_codes_1 : list (string * Z) := [
  ("ER_HASHCHK", 1000);
  ("ER_NISAMCHK", 1001);
  ("ER_NO", 1002);
  ("ER_YES", 1003);
  ("ER_CANT_CREATE_FILE", 1004);
  ("ER_CANT_CREATE_TABLE", 1005);
  ("ER_CANT_CREATE_DB", 1006);
  ("ER_DB_CREATE_EXISTS", 1007);
  ("ER_DB_DROP_EXISTS", 1008);
  ("ER_DB_DROP_DELETE", 1009);
  ("ER_DB_DROP_RMDIR", 1010);
  ("ER_CANT_DELETE_FILE", 1011);
  ("ER_CANT_FIND_SYSTEM_REC", 1012);
  ("ER_CANT_GET_STAT", 1013);
  ("ER_CANT_GET_WD", 1014);
  ("ER_CANT_LOCK", 1015);
  ("ER_CANT_OPEN_FILE", 1016);
  ("ER_FILE_NOT_FOUND", 1017);
  ("ER_CANT_READ_DIR", 1018);
  ("ER_CANT_SET_WD", 1019);
  ("ER_CHECKREAD", 1020);
  ("ER_DISK_FULL", 1021);
  ("ER_DUP_KEY", 1022);
  ("ER_ERROR_ON_CLOSE", 1023);
  ("ER_ERROR_ON_READ", 1024);
  ("ER_ERROR_ON_RENAME", 1025);
  ("ER_ERROR_ON_WRITE", 1026);
  ("ER_FILE_USED", 1027);
  ("ER_FILSORT_ABORT", 1028);
  ("ER_FORM_NOT_FOUND", 1029);
  ("ER_GET_ERRNO", 1030);
  ("ER_ILLEGAL_HA", 1031);
  ("ER_KEY_NOT_FOUND", 1032);
  ("ER_NOT_FORM_FILE", 1033);
  ("ER_NOT_KEYFILE", 1034);
  ("ER_OLD_KEYFILE", 1035);
  ("ER_OPEN_AS_READONLY", 1036);
  ("ER_OUTOFMEMORY", 1037);
  ("ER_OUT_OF_SORTMEMORY", 1038);
  ("ER_UNEXPECTED_EOF", 1039);
  ("ER_CON_COUNT_ERROR", 1040);
  ("ER_OUT_OF_RESOURCES", 1041);
  ("ER_BAD_HOST_ERROR", 1042);
  ("ER_HANDSHAKE_ERROR", 1043);
  ("ER_DBACCESS_DENIED_ERROR", 1044);
  ("ER_ACCESS_DENIED_ERROR", 1045);
  ("ER_NO_DB_ERROR", 1046);
  ("ER_UNKNOWN_COM_ERROR", 1047);
  ("ER_BAD_NULL_ERROR", 1048);
  ("ER_BAD_DB_ERROR", 1049);
  ("ER_TABLE_EXISTS_ERROR", 1050);
  ("ER_BAD_TABLE_ERROR", 1051);
  ("ER_NON_UNIQ_ERROR", 1052);
  ("ER_SERVER_SHUTDOWN", 1053);
  ("ER_BAD_FIELD_ERROR", 1054);
  ("ER_WRONG_FIELD_WITH_GROUP", 1055);
  ("ER_WRONG_GROUP_FIELD", 1056);
  ("ER_WRONG_SUM_SELECT", 1057);
  ("ER_WRONG_VALUE_COUNT", 1058);
  ("ER_TOO_LONG_IDENT", 1059);
  ("ER_DUP_FIELDNAME", 1060);
  ("ER_DUP_KEYNAME", 1061);
  ("ER_DUP_ENTRY", 1062);
  ("ER_WRONG_FIELD_SPEC", 1063);
  ("ER_PARSE_ERROR", 1064);
  ("ER_EMPTY_QUERY", 1065);
  ("ER_NONUNIQ_TABLE", 1066);
  ("ER_INVALID_DEFAULT", 1067);
  ("ER_MULTIPLE_PRI_KEY", 1068);
  ("ER_TOO_MANY_KEYS", 1069);
  ("ER_TOO_MANY_KEY_PARTS", 1070);
  ("ER_TOO_LONG_KEY", 1071);
  ("ER_KEY_COLUMN_DOES_NOT_EXITS", 1072);
  ("ER_BLOB_USED_AS_KEY", 1073);
  ("ER_TOO_BIG_FIELDLENGTH", 1074);
  ("ER_WRONG_AUTO_KEY", 1075);
  ("ER_READY", 1076);
  ("ER_NORMAL_SHUTDOWN", 1077);
  ("ER_GOT_SIGNAL", 1078);
  ("ER_SHUTDOWN_COMPLETE", 1079);
  ("ER_FORCING_CLOSE", 1080);
  ("ER_IPSOCK_ERROR", 1081);
  ("ER_NO_SUCH_INDEX", 1082);
  ("ER_WRONG_FIELD_TERMINATORS", 1083);
  ("ER_BLOBS_AND_NO_TERMINATED", 1084);
  ("ER_TEXTFILE_NOT_READABLE", 1085);
  ("ER_FILE_EXISTS_ERROR", 1086);
  ("ER_LOAD_INFO", 1087);
  ("ER_ALTER_INFO", 1088);
  ("ER_WRONG_SUB_KEY", 1089);
  ("ER_CANT_REMOVE_ALL_FIELDS", 1090);
  ("ER_CANT_DROP_FIELD_OR_KEY", 1091);
  ("ER_INSERT_INFO", 1092);
  ("ER_UPDATE_TABLE_USED", 1093);
  ("ER_NO_SUCH_THREAD", 1094);
  ("ER_KILL_DENIED_ERROR", 1095);
  ("ER_NO_TABLES_USED", 1096);
  ("ER_TOO_BIG_SET", 1097);
  ("ER_NO_UNIQUE_LOGFILE", 1098);
  ("ER_TABLE_NOT_LOCKED_FOR_WRITE", 1099);
  ("ER_TABLE_NOT_LOCKED", 1100);
  ("ER_BLOB_CANT_HAVE_DEFAULT", 1101);
  ("ER_WRONG_DB_NAME", 1102);
  ("ER_WRONG_TABLE_NAME", 1103);
  ("ER_TOO_BIG_SELECT", 1104);
  ("ER_UNKNOWN_ERROR", 1105);
  ("ER_UNKNOWN_PROCEDURE", 1106);
  ("ER_WRONG_PARAMCOUNT_TO_PROCEDURE", 1107);
  ("ER_WRONG_PARAMETERS_TO_PROCEDURE", 1108);
  ("ER_UNKNOWN_TABLE", 1109);
  ("ER_FIELD_SPECIFIED_TWICE", 1110);
  ("ER_INVALID_GROUP_FUNC_USE", 1111);
  ("ER_UNSUPPORTED_EXTENSION", 1112);
  ("ER_TABLE_MUST_HAVE_COLUMNS", 1113);
  ("ER_RECORD_FILE_FULL", 1114);
  ("ER_UNKNOWN_CHARACTER_SET", 1115);
  ("ER_TOO_MANY_TABLES", 1116);
  ("ER_TOO_MANY_FIELDS", 1117);
  ("ER_TOO_BIG_ROWSIZE", 1118);
  ("ER_STACK_OVERRUN", 1119);
  ("ER_WRONG_OUTER_JOIN", 1120);
  ("ER_NULL_COLUMN_IN_INDEX", 1121);
  ("ER_CANT_FIND_UDF", 1122);
  ("ER_CANT_INITIALIZE_UDF", 1123);
  ("ER_UDF_NO_PATHS", 1124);
  ("ER_UDF_EXISTS", 1125);
  ("ER_CANT_OPEN_LIBRARY", 1126);
  ("ER_CANT_FIND_DL_ENTRY", 1127);
  ("ER_FUNCTION_NOT_DEFINED", 1128);
  ("ER_HOST_IS_BLOCKED", 1129);
  ("ER_HOST_NOT_PRIVILEGED", 1130);
  ("ER_PASSWORD_ANONYMOUS_USER", 1131);
  ("ER_PASSWORD_NOT_ALLOWED", 1132);
  ("ER_PASSWORD_NO_MATCH", 1133);
  ("ER_UPDATE_INFO", 1134);
  ("ER_CANT_CREATE_THREAD", 1135);
  ("ER_WRONG_VALUE_COUNT_ON_ROW", 1136);
  ("ER_CANT_REOPEN_TABLE", 1137);
  ("ER_INVALID_USE_OF_NULL", 1138);
  ("ER_REGEXP_ERROR", 1139);
  ("ER_MIX_OF_GROUP_FUNC_AND_FIELDS", 1140);
  ("ER_NONEXISTING_GRANT", 1141);
  ("ER_TABLEACCESS_DENIED_ERROR", 1142);
  ("ER_COLUMNACCESS_DENIED_ERROR", 1143);
  ("ER_ILLEGAL_GRANT_FOR_TABLE", 1144);
  ("ER_GRANT_WRONG_HOST_OR_USER", 1145)].

Definition er_codes_2 : list (string * Z) := [
  ("ER_NO_SUCH_TABLE", 1146);
  ("ER_NONEXISTING_TABLE_GRANT", 1147);
  ("ER_NOT_ALLOWED_COMMAND", 1148);
  ("ER_SYNTAX_ERROR", 1149);
  ("ER_DELAYED_CANT_CHANGE_LOCK", 1150);
  ("ER_TOO_MANY_DELAYED_THREADS", 1151);
  ("ER_ABORTING_CONNECTION", 1152);
  ("ER_NET_PACKET_TOO_LARGE", 1153);
  ("ER_NET_READ_ERROR_FROM_PIPE", 1154);
  ("ER_NET_FCNTL_ERROR", 1155);
  ("ER_NET_PACKETS_OUT_OF_ORDER", 1156);
  ("ER_NET_UNCOMPRESS_ERROR", 1157);
  ("ER_NET_READ_ERROR", 1158);
  ("ER_NET_READ_INTERRUPTED", 1159);
  ("ER_NET_ERROR_ON_WRITE", 1160);
  ("ER_NET_WRITE_INTERRUPTED", 1161);
  ("ER_TOO_LONG_STRING", 1162);
  ("ER_TABLE_CANT_HANDLE_BLOB", 1163);
  ("ER_TABLE_CANT_HANDLE_AUTO_INCREMENT", 1164);
  ("ER_DELAYED_INSERT_TABLE_LOCKED", 1165);
  ("ER_WRONG_COLUMN_NAME", 1166);
  ("ER_WRONG_KEY_COLUMN", 1167);
  ("ER_WRONG_MRG_TABLE", 1168);
  ("ER_DUP_UNIQUE", 1169);
  ("ER_BLOB_KEY_WITHOUT_LENGTH", 1170);
  ("ER_PRIMARY_CANT_HAVE_NULL", 1171);
  ("ER_TOO_MANY_ROWS", 1172);
  ("ER_REQUIRES_PRIMARY_KEY", 1173);
  ("ER_NO_RAID_COMPILED", 1174);
  ("ER_UPDATE_WITHOUT_KEY_IN_SAFE_MODE", 1175);
  ("ER_KEY_DOES_NOT_EXITS", 1176);
  ("ER_CHECK_NO_SUCH_TABLE", 1177);
  ("ER_CHECK_NOT_IMPLEMENTED", 1178);
  ("ER_CANT_DO_THIS_DURING_AN_TRANSACTION", 1179);
  ("ER_ERROR_DURING_COMMIT", 1180);
  ("ER_ERROR_DURING_ROLLBACK", 1181);
  ("ER_ERROR_DURING_FLUSH_LOGS", 1182);
  ("ER_ERROR_DURING_CHECKPOINT", 1183);
  ("ER_NEW_ABORTING_CONNECTION", 1184);
  ("ER_DUMP_NOT_IMPLEMENTED", 1185);
  ("ER_FLUSH_MASTER_BINLOG_CLOSED", 1186);
  ("ER_INDEX_REBUILD", 1187);
  ("ER_MASTER", 1188);
  ("ER_MASTER_NET_READ", 1189);
  ("ER_MASTER_NET_WRITE", 1190);
  ("ER_FT_MATCHING_KEY_NOT_FOUND", 1191);
  ("ER_LOCK_OR_ACTIVE_TRANSACTION", 1192);
  ("ER_UNKNOWN_SYSTEM_VARIABLE", 1193);
  ("ER_CRASHED_ON_USAGE", 1194);
  ("ER_CRASHED_ON_REPAIR", 1195);
  ("ER_WARNING_NOT_COMPLETE_ROLLBACK", 1196);
  ("ER_TRANS_CACHE_FULL", 1197);
  ("ER_SLAVE_MUST_STOP", 1198);
  ("ER_SLAVE_NOT_RUNNING", 1199);
  ("ER_BAD_SLAVE", 1200);
  ("ER_MASTER_INFO", 1201);
  ("ER_SLAVE_THREAD", 1202);
  ("ER_TOO_MANY_USER_CONNECTIONS", 1203);
  ("ER_SET_CONSTANTS_ONLY", 1204);
  ("ER_LOCK_WAIT_TIMEOUT", 1205);
  ("ER_LOCK_TABLE_FULL", 1206);
  ("ER_READ_ONLY_TRANSACTION", 1207);
  ("ER_DROP_DB_WITH_READ_LOCK", 1208);
  ("ER_CREATE_DB_WITH_READ_LOCK", 1209);
  ("ER_WRONG_ARGUMENTS", 1210);
  ("ER_NO_PERMISSION_TO_CREATE_USER", 1211);
  ("ER_UNION_TABLES_IN_DIFFERENT_DIR", 1212);
  ("ER_LOCK_DEADLOCK", 1213);
  ("ER_TABLE_CANT_HANDLE_FT", 1214);
  ("ER_CANNOT_ADD_FOREIGN", 1215);
  ("ER_NO_REFERENCED_ROW", 1216);
  ("ER_ROW_IS_REFERENCED", 1217);
  ("ER_CONNECT_TO_MASTER", 1218);
  ("ER_QUERY_ON_MASTER", 1219);
  ("ER_ERROR_WHEN_EXECUTING_COMMAND", 1220);
  ("ER_WRONG_USAGE", 1221);
  ("ER_WRONG_NUMBER_OF_COLUMNS_IN_SELECT", 1222);
  ("ER_CANT_UPDATE_WITH_READLOCK", 1223);
  ("ER_MIXING_NOT_ALLOWED", 1224);
  ("ER_DUP_ARGUMENT", 1225);
  ("ER_USER_LIMIT_REACHED", 1226);
  ("ER_SPECIFIC_ACCESS_DENIED_ERROR", 1227);
  ("ER_LOCAL_VARIABLE", 1228);
  ("ER_GLOBAL_VARIABLE", 1229);
  ("ER_NO_DEFAULT", 1230);
  ("ER_WRONG_VALUE_FOR_VAR", 1231);
  ("ER_WRONG_TYPE_FOR_VAR", 1232);
  ("ER_VAR_CANT_BE_READ", 1233);
  ("ER_CANT_USE_OPTION_HERE", 1234);
  ("ER_NOT_SUPPORTED_YET", 1235);
  ("ER_MASTER_FATAL_ERROR_READING_BINLOG", 1236);
  ("ER_SLAVE_IGNORED_TABLE", 1237);
  ("ER_INCORRECT_GLOBAL_LOCAL_VAR", 1238);
  ("ER_WRONG_FK_DEF", 1239);
  ("ER_KEY_REF_DO_NOT_MATCH_TABLE_REF", 1240);
  ("ER_OPERAND_COLUMNS", 1241);
  ("ER_SUBQUERY_NO_1_ROW", 1242);
  ("ER_UNKNOWN_STMT_HANDLER", 1243);
  ("ER_CORRUPT_HELP_DB", 1244);
  ("ER_CYCLIC_REFERENCE", 1245);
  ("ER_AUTO_CONVERT", 1246);
  ("ER_ILLEGAL_REFERENCE", 1247);
  ("ER_DERIVED_MUST_HAVE_ALIAS", 1248);
  ("ER_SELECT_REDUCED", 1249);
  ("ER_TABLENAME_NOT_ALLOWED_HERE", 1250);
  ("ER_NOT_SUPPORTED_AUTH_MODE", 1251);
  ("ER_SPATIAL_CANT_HAVE_NULL", 1252);
  ("ER_COLLATION_CHARSET_MISMATCH", 1253);
  ("ER_SLAVE_WAS_RUNNING", 1254);
  ("ER_SLAVE_WAS_NOT_RUNNING", 1255);
  ("ER_TOO_BIG_FOR_UNCOMPRESS", 1256);
  ("ER_ZLIB_Z_MEM_ERROR", 1257);
  ("ER_ZLIB_Z_BUF_ERROR", 1258);
  ("ER_ZLIB_Z_DATA_ERROR", 1259);
  ("ER_CUT_VALUE_GROUP_CONCAT", 1260);
  ("ER_WARN_TOO_FEW_RECORDS", 1261);
  ("ER_WARN_TOO_MANY_RECORDS", 1262);
  ("ER_WARN_NULL_TO_NOTNULL", 1263);
  ("ER_WARN_DATA_OUT_OF_RANGE", 1264);
  ("WARN_DATA_TRUNCATED", 1265);
  ("ER_WARN_USING_OTHER_HANDLER", 1266);
  ("ER_CANT_AGGREGATE_2COLLATIONS", 1267);
  ("ER_DROP_USER", 1268);
  ("ER_REVOKE_GRANTS", 1269);
  ("ER_CANT_AGGREGATE_3COLLATIONS", 1270);
  ("ER_CANT_AGGREGATE_NCOLLATIONS", 1271);
  ("ER_VARIABLE_IS_NOT_STRUCT", 1272);
  ("ER_UNKNOWN_COLLATION", 1273);
  ("ER_SLAVE_IGNORED_SSL_PARAMS", 1274);
  ("ER_SERVER_IS_IN_SECURE_AUTH_MODE", 1275);
  ("ER_WARN_FIELD_RESOLVED", 1276);
  ("ER_BAD_SLAVE_UNTIL_COND", 1277);
  ("ER_MISSING_SKIP_SLAVE", 1278);
  ("ER_UNTIL_COND_IGNORED", 1279);
  ("ER_WRONG_NAME_FOR_INDEX", 1280);
  ("ER_WRONG_NAME_FOR_CATALOG", 1281);
  ("ER_WARN_QC_RESIZE", 1282);
  ("ER_BAD_FT_COLUMN", 1283);
  ("ER_UNKNOWN_KEY_CACHE", 1284);
  ("ER_WARN_HOSTNAME_WONT_WORK", 1285);
  ("ER_UNKNOWN_STORAGE_ENGINE", 1286);
  ("ER_WARN_DEPRECATED_SYNTAX", 1287);
  ("ER_NON_UPDATABLE_TABLE", 1288);
  ("ER_FEATURE_DISABLED", 1289);
  ("ER_OPTION_PREVENTS_STATEMENT", 1290);
  ("ER_DUPLICATED_VALUE_IN_TYPE", 1291)].

Definition er_codes_3 : list (string * Z) := [
  ("ER_TRUNCATED_WRONG_VALUE", 1292);
  ("ER_TOO_MUCH_AUTO_TIMESTAMP_COLS", 1293);
  ("ER_INVALID_ON_UPDATE", 1294);
  ("ER_UNSUPPORTED_PS", 1295);
  ("ER_GET_ERRMSG", 1296);
  ("ER_GET_TEMPORARY_ERRMSG", 1297);
  ("ER_UNKNOWN_TIME_ZONE", 1298);
  ("ER_WARN_INVALID_TIMESTAMP", 1299);
  ("ER_INVALID_CHARACTER_STRING", 1300);
  ("ER_WARN_ALLOWED_PACKET_OVERFLOWED", 1301);
  ("ER_CONFLICTING_DECLARATIONS", 1302);
  ("ER_SP_NO_RECURSIVE_CREATE", 1303);
  ("ER_SP_ALREADY_EXISTS", 1304);
  ("ER_SP_DOES_NOT_EXIST", 1305);
  ("ER_SP_DROP_FAILED", 1306);
  ("ER_SP_STORE_FAILED", 1307);
  ("ER_SP_LILABEL_MISMATCH", 1308);
  ("ER_SP_LABEL_REDEFINE", 1309);
  ("ER_SP_LABEL_MISMATCH", 1310);
  ("ER_SP_UNINIT_VAR", 1311);
  ("ER_SP_BADSELECT", 1312);
  ("ER_SP_BADRETURN", 1313);
  ("ER_SP_BADSTATEMENT", 1314);
  ("ER_UPDATE_LOG_DEPRECATED_IGNORED", 1315);
  ("ER_UPDATE_LOG_DEPRECATED_TRANSLATED", 1316);
  ("ER_QUERY_INTERRUPTED", 1317);
  ("ER_SP_WRONG_NO_OF_ARGS", 1318);
  ("ER_SP_COND_MISMATCH", 1319);
  ("ER_SP_NORETURN", 1320);
  ("ER_SP_NORETURNEND", 1321);
  ("ER_SP_BAD_CURSOR_QUERY", 1322);
  ("ER_SP_BAD_CURSOR_SELECT", 1323);
  ("ER_SP_CURSOR_MISMATCH", 1324);
  ("ER_SP_CURSOR_ALREADY_OPEN", 1325);
  ("ER_SP_CURSOR_NOT_OPEN", 1326);
  ("ER_SP_UNDECLARED_VAR", 1327);
  ("ER_SP_WRONG_NO_OF_FETCH_ARGS", 1328);
  ("ER_SP_FETCH_NO_DATA", 1329);
  ("ER_SP_DUP_PARAM", 1330);
  ("ER_SP_DUP_VAR", 1331);
  ("ER_SP_DUP_COND", 1332);
  ("ER_SP_DUP_CURS", 1333);
  ("ER_SP_CANT_ALTER", 1334);
  ("ER_SP_SUBSELECT_NYI", 1335);
  ("ER_STMT_NOT_ALLOWED_IN_SF_OR_TRG", 1336);
  ("ER_SP_VARCOND_AFTER_CURSHNDLR", 1337);
  ("ER_SP_CURSOR_AFTER_HANDLER", 1338);
  ("ER_SP_CASE_NOT_FOUND", 1339);
  ("ER_FPARSER_TOO_BIG_FILE", 1340);
  ("ER_FPARSER_BAD_HEADER", 1341);
  ("ER_FPARSER_EOF_IN_COMMENT", 1342);
  ("ER_FPARSER_ERROR_IN_PARAMETER", 1343);
  ("ER_FPARSER_EOF_IN_UNKNOWN_PARAMETER", 1344);
  ("ER_VIEW_NO_EXPLAIN", 1345);
  ("ER_FRM_UNKNOWN_TYPE", 1346);
  ("ER_WRONG_OBJECT", 1347);
  ("ER_NONUPDATEABLE_COLUMN", 1348);
  ("ER_VIEW_SELECT_DERIVED", 1349);
  ("ER_VIEW_SELECT_CLAUSE", 1350);
  ("ER_VIEW_SELECT_VARIABLE", 1351);
  ("ER_VIEW_SELECT_TMPTABLE", 1352);
  ("ER_VIEW_WRONG_LIST", 1353);
  ("ER_WARN_VIEW_MERGE", 1354);
  ("ER_WARN_VIEW_WITHOUT_KEY", 1355);
  ("ER_VIEW_INVALID", 1356);
  ("ER_SP_NO_DROP_SP", 1357);
  ("ER_SP_GOTO_IN_HNDLR", 1358);
  ("ER_TRG_ALREADY_EXISTS", 1359);
  ("ER_TRG_DOES_NOT_EXIST", 1360);
  ("ER_TRG_ON_VIEW_OR_TEMP_TABLE", 1361);
  ("ER_TRG_CANT_CHANGE_ROW", 1362);
  ("ER_TRG_NO_SUCH_ROW_IN_TRG", 1363);
  ("ER_NO_DEFAULT_FOR_FIELD", 1364);
  ("ER_DIVISION_BY_ZERO", 1365);
  ("ER_TRUNCATED_WRONG_VALUE_FOR_FIELD", 1366);
  ("ER_ILLEGAL_VALUE_FOR_TYPE", 1367);
  ("ER_VIEW_NONUPD_CHECK", 1368);
  ("ER_VIEW_CHECK_FAILED", 1369);
  ("ER_PROCACCESS_DENIED_ERROR", 1370);
  ("ER_RELAY_LOG_FAIL", 1371);
  ("ER_PASSWD_LENGTH", 1372);
  ("ER_UNKNOWN_TARGET_BINLOG", 1373);
  ("ER_IO_ERR_LOG_INDEX_READ", 1374);
  ("ER_BINLOG_PURGE_PROHIBITED", 1375);
  ("ER_FSEEK_FAIL", 1376);
  ("ER_BINLOG_PURGE_FATAL_ERR", 1377);
  ("ER_LOG_IN_USE", 1378);
  ("ER_LOG_PURGE_UNKNOWN_ERR", 1379);
  ("ER_RELAY_LOG_INIT", 1380);
  ("ER_NO_BINARY_LOGGING", 1381);
  ("ER_RESERVED_SYNTAX", 1382);
  ("ER_WSAS_FAILED", 1383);
  ("ER_DIFF_GROUPS_PROC", 1384);
  ("ER_NO_GROUP_FOR_PROC", 1385);
  ("ER_ORDER_WITH_PROC", 1386);
  ("ER_LOGGING_PROHIBIT_CHANGING_OF", 1387);
  ("ER_NO_FILE_MAPPING", 1388);
  ("ER_WRONG_MAGIC", 1389);
  ("ER_PS_MANY_PARAM", 1390);
  ("ER_KEY_PART_0", 1391);
  ("ER_VIEW_CHECKSUM", 1392);
  ("ER_VIEW_MULTIUPDATE", 1393);
  ("ER_VIEW_NO_INSERT_FIELD_LIST", 1394);
  ("ER_VIEW_DELETE_MERGE_VIEW", 1395);
  ("ER_CANNOT_USER", 1396);
  ("ER_XAER_NOTA", 1397);
  ("ER_XAER_INVAL", 1398);
  ("ER_XAER_RMFAIL", 1399);
  ("ER_XAER_OUTSIDE", 1400);
  ("ER_XAER_RMERR", 1401);
  ("ER_XA_RBROLLBACK", 1402);
  ("ER_NONEXISTING_PROC_GRANT", 1403);
  ("ER_PROC_AUTO_GRANT_FAIL", 1404);
  ("ER_PROC_AUTO_REVOKE_FAIL", 1405);
  ("ER_DATA_TOO_LONG", 1406);
  ("ER_SP_BAD_SQLSTATE", 1407);
  ("ER_STARTUP", 1408);
  ("ER_LOAD_FROM_FIXED_SIZE_ROWS_TO_VAR", 1409);
  ("ER_CANT_CREATE_USER_WITH_GRANT", 1410);
  ("ER_WRONG_VALUE_FOR_TYPE", 1411);
  ("ER_TABLE_DEF_CHANGED", 1412);
  ("ER_SP_DUP_HANDLER", 1413);
  ("ER_SP_NOT_VAR_ARG", 1414);
  ("ER_SP_NO_RETSET", 1415);
  ("ER_CANT_CREATE_GEOMETRY_OBJECT", 1416);
  ("ER_FAILED_ROUTINE_BREAK_BINLOG", 1417);
  ("ER_BINLOG_UNSAFE_ROUTINE", 1418);
  ("ER_BINLOG_CREATE_ROUTINE_NEED_SUPER", 1419);
  ("ER_EXEC_STMT_WITH_OPEN_CURSOR", 1420);
  ("ER_STMT_HAS_NO_OPEN_CURSOR", 1421);
  ("ER_COMMIT_NOT_ALLOWED_IN_SF_OR_TRG", 1422);
  ("ER_NO_DEFAULT_FOR_VIEW_FIELD", 1423);
  ("ER_SP_NO_RECURSION", 1424);
  ("ER_TOO_BIG_SCALE", 1425);
  ("ER_TOO_BIG_PRECISION", 1426);
  ("ER_M_BIGGER_THAN_D", 1427);
  ("ER_WRONG_LOCK_OF_SYSTEM_TABLE", 1428);
  ("ER_CONNECT_TO_FOREIGN_DATA_SOURCE", 1429);
  ("ER_QUERY_ON_FOREIGN_DATA_SOURCE", 1430);
  ("ER_FOREIGN_DATA_SOURCE_DOESNT_EXIST", 1431);
  ("ER_FOREIGN_DATA_STRING_INVALID_CANT_CREATE", 1432);
  ("ER_FOREIGN_DATA_STRING_INVALID", 1433);
  ("ER_CANT_CREATE_FEDERATED_TABLE", 1434);
  ("ER_TRG_IN_WRONG_SCHEMA", 1435);
  ("ER_STACK_OVERRUN_NEED_MORE", 1436);
  ("ER_TOO_LONG_BODY", 1437)].

Definition er_codes_4 : list (string * Z) := [
  ("ER_WARN_CANT_DROP_DEFAULT_KEYCACHE", 1438);
  ("ER_TOO_BIG_DISPLAYWIDTH", 1439);
  ("ER_XAER_DUPID", 1440);
  ("ER_DATETIME_FUNCTION_OVERFLOW", 1441);
  ("ER_CANT_UPDATE_USED_TABLE_IN_SF_OR_TRG", 1442);
  ("ER_VIEW_PREVENT_UPDATE", 1443);
  ("ER_PS_NO_RECURSION", 1444);
  ("ER_SP_CANT_SET_AUTOCOMMIT", 1445);
  ("ER_MALFORMED_DEFINER", 1446);
  ("ER_VIEW_FRM_NO_USER", 1447);
  ("ER_VIEW_OTHER_USER", 1448);
  ("ER_NO_SUCH_USER", 1449);
  ("ER_FORBID_SCHEMA_CHANGE", 1450);
  ("ER_ROW_IS_REFERENCED_2", 1451);
  ("ER_NO_REFERENCED_ROW_2", 1452);
  ("ER_SP_BAD_VAR_SHADOW", 1453);
  ("ER_TRG_NO_DEFINER", 1454);
  ("ER_OLD_FILE_FORMAT", 1455);
  ("ER_SP_RECURSION_LIMIT", 1456);
  ("ER_SP_PROC_TABLE_CORRUPT", 1457);
  ("ER_SP_WRONG_NAME", 1458);
  ("ER_TABLE_NEEDS_UPGRADE", 1459);
  ("ER_SP_NO_AGGREGATE", 1460);
  ("ER_MAX_PREPARED_STMT_COUNT_REACHED", 1461);
  ("ER_VIEW_RECURSIVE", 1462);
  ("ER_NON_GROUPING_FIELD_USED", 1463);
  ("ER_TABLE_CANT_HANDLE_SPKEYS", 1464);
  ("ER_NO_TRIGGERS_ON_SYSTEM_SCHEMA", 1465);
  ("ER_REMOVED_SPACES", 1466);
  ("ER_AUTOINC_READ_FAILED", 1467);
  ("ER_USERNAME", 1468);
  ("ER_HOSTNAME", 1469);
  ("ER_WRONG_STRING_LENGTH", 1470);
  ("ER_NON_INSERTABLE_TABLE", 1471);
  ("ER_ADMIN_WRONG_MRG_TABLE", 1472);
  ("ER_TOO_HIGH_LEVEL_OF_NESTING_FOR_SELECT", 1473);
  ("ER_NAME_BECOMES_EMPTY", 1474);
  ("ER_AMBIGUOUS_FIELD_TERM", 1475);
  ("ER_FOREIGN_SERVER_EXISTS", 1476);
  ("ER_FOREIGN_SERVER_DOESNT_EXIST", 1477);
  ("ER_ILLEGAL_HA_CREATE_OPTION", 1478);
  ("ER_PARTITION_REQUIRES_VALUES_ERROR", 1479);
  ("ER_PARTITION_WRONG_VALUES_ERROR", 1480);
  ("ER_PARTITION_MAXVALUE_ERROR", 1481);
  ("ER_PARTITION_SUBPARTITION_ERROR", 1482);
  ("ER_PARTITION_SUBPART_MIX_ERROR", 1483);
  ("ER_PARTITION_WRONG_NO_PART_ERROR", 1484);
  ("ER_PARTITION_WRONG_NO_SUBPART_ERROR", 1485);
  ("ER_WRONG_EXPR_IN_PARTITION_FUNC_ERROR", 1486);
  ("ER_NO_CONST_EXPR_IN_RANGE_OR_LIST_ERROR", 1487);
  ("ER_FIELD_NOT_FOUND_PART_ERROR", 1488);
  ("ER_LIST_OF_FIELDS_ONLY_IN_HASH_ERROR", 1489);
  ("ER_INCONSISTENT_PARTITION_INFO_ERROR", 1490);
  ("ER_PARTITION_FUNC_NOT_ALLOWED_ERROR", 1491);
  ("ER_PARTITIONS_MUST_BE_DEFINED_ERROR", 1492);
  ("ER_RANGE_NOT_INCREASING_ERROR", 1493);
  ("ER_INCONSISTENT_TYPE_OF_FUNCTIONS_ERROR", 1494);
  ("ER_MULTIPLE_DEF_CONST_IN_LIST_PART_ERROR", 1495);
  ("ER_PARTITION_ENTRY_ERROR", 1496);
  ("ER_MIX_HANDLER_ERROR", 1497);
  ("ER_PARTITION_NOT_DEFINED_ERROR", 1498);
  ("ER_TOO_MANY_PARTITIONS_ERROR", 1499);
  ("ER_SUBPARTITION_ERROR", 1500);
  ("ER_CANT_CREATE_HANDLER_FILE", 1501);
  ("ER_BLOB_FIELD_IN_PART_FUNC_ERROR", 1502);
  ("ER_UNIQUE_KEY_NEED_ALL_FIELDS_IN_PF", 1503);
  ("ER_NO_PARTS_ERROR", 1504);
  ("ER_PARTITION_MGMT_ON_NONPARTITIONED", 1505);
  ("ER_FOREIGN_KEY_ON_PARTITIONED", 1506);
  ("ER_DROP_PARTITION_NON_EXISTENT", 1507);
  ("ER_DROP_LAST_PARTITION", 1508);
  ("ER_COALESCE_ONLY_ON_HASH_PARTITION", 1509);
  ("ER_REORG_HASH_ONLY_ON_SAME_NO", 1510);
  ("ER_REORG_NO_PARAM_ERROR", 1511);
  ("ER_ONLY_ON_RANGE_LIST_PARTITION", 1512);
  ("ER_ADD_PARTITION_SUBPART_ERROR", 1513);
  ("ER_ADD_PARTITION_NO_NEW_PARTITION", 1514);
  ("ER_COALESCE_PARTITION_NO_PARTITION", 1515);
  ("ER_REORG_PARTITION_NOT_EXIST", 1516);
  ("ER_SAME_NAME_PARTITION", 1517);
  ("ER_NO_BINLOG_ERROR", 1518);
  ("ER_CONSECUTIVE_REORG_PARTITIONS", 1519);
  ("ER_REORG_OUTSIDE_RANGE", 1520);
  ("ER_PARTITION_FUNCTION_FAILURE", 1521);
  ("ER_PART_STATE_ERROR", 1522);
  ("ER_LIMITED_PART_RANGE", 1523);
  ("ER_PLUGIN_IS_NOT_LOADED", 1524);
  ("ER_WRONG_VALUE", 1525);
  ("ER_NO_PARTITION_FOR_GIVEN_VALUE", 1526);
  ("ER_FILEGROUP_OPTION_ONLY_ONCE", 1527);
  ("ER_CREATE_FILEGROUP_FAILED", 1528);
  ("ER_DROP_FILEGROUP_FAILED", 1529);
  ("ER_TABLESPACE_AUTO_EXTEND_ERROR", 1530);
  ("ER_WRONG_SIZE_NUMBER", 1531);
  ("ER_SIZE_OVERFLOW_ERROR", 1532);
  ("ER_ALTER_FILEGROUP_FAILED", 1533);
  ("ER_BINLOG_ROW_LOGGING_FAILED", 1534);
  ("ER_BINLOG_ROW_WRONG_TABLE_DEF", 1535);
  ("ER_BINLOG_ROW_RBR_TO_SBR", 1536);
  ("ER_EVENT_ALREADY_EXISTS", 1537);
  ("ER_EVENT_STORE_FAILED", 1538);
  ("ER_EVENT_DOES_NOT_EXIST", 1539);
  ("ER_EVENT_CANT_ALTER", 1540);
  ("ER_EVENT_DROP_FAILED", 1541);
  ("ER_EVENT_INTERVAL_NOT_POSITIVE_OR_TOO_BIG", 1542);
  ("ER_EVENT_ENDS_BEFORE_STARTS", 1543);
  ("ER_EVENT_EXEC_TIME_IN_THE_PAST", 1544);
  ("ER_EVENT_OPEN_TABLE_FAILED", 1545);
  ("ER_EVENT_NEITHER_M_EXPR_NOR_M_AT", 1546);
  ("ER_COL_COUNT_DOESNT_MATCH_CORRUPTED", 1547);
  ("ER_CANNOT_LOAD_FROM_TABLE", 1548);
  ("ER_EVENT_CANNOT_DELETE", 1549);
  ("ER_EVENT_COMPILE_ERROR", 1550);
  ("ER_EVENT_SAME_NAME", 1551);
  ("ER_EVENT_DATA_TOO_LONG", 1552);
  ("ER_DROP_INDEX_FK", 1553);
  ("ER_WARN_DEPRECATED_SYNTAX_WITH_VER", 1554);
  ("ER_CANT_WRITE_LOCK_LOG_TABLE", 1555);
  ("ER_CANT_LOCK_LOG_TABLE", 1556);
  ("ER_FOREIGN_DUPLICATE_KEY", 1557);
  ("ER_COL_COUNT_DOESNT_MATCH_PLEASE_UPDATE", 1558);
  ("ER_TEMP_TABLE_PREVENTS_SWITCH_OUT_OF_RBR", 1559);
  ("ER_STORED_FUNCTION_PREVENTS_SWITCH_BINLOG_FORMAT", 1560);
  ("ER_NDB_CANT_SWITCH_BINLOG_FORMAT", 1561);
  ("ER_PARTITION_NO_TEMPORARY", 1562);
  ("ER_PARTITION_CONST_DOMAIN_ERROR", 1563);
  ("ER_PARTITION_FUNCTION_IS_NOT_ALLOWED", 1564);
  ("ER_DDL_LOG_ERROR", 1565);
  ("ER_NULL_IN_VALUES_LESS_THAN", 1566);
  ("ER_WRONG_PARTITION_NAME", 1567);
  ("ER_CANT_CHANGE_TX_ISOLATION", 1568);
  ("ER_DUP_ENTRY_AUTOINCREMENT_CASE", 1569);
  ("ER_EVENT_MODIFY_QUEUE_ERROR", 1570);
  ("ER_EVENT_SET_VAR_ERROR", 1571);
  ("ER_PARTITION_MERGE_ERROR", 1572);
  ("ER_CANT_ACTIVATE_LOG", 1573);
  ("ER_RBR_NOT_AVAILABLE", 1574);
  ("ER_BASE64_DECODE_ERROR", 1575);
  ("ER_EVENT_RECURSION_FORBIDDEN", 1576);
  ("ER_EVENTS_DB_ERROR", 1577);
  ("ER_ONLY_INTEGERS_ALLOWED", 1578);
  ("ER_UNSUPORTED_LOG_ENGINE", 1579);
  ("ER_BAD_LOG_STATEMENT", 1580);
  ("ER_CANT_RENAME_LOG_TABLE", 1581);
  ("ER_WRONG_PARAMCOUNT_TO_NATIVE_FCT", 1582);
  ("ER_WRONG_PARAMETERS_TO_NATIVE_FCT", 1583)].

Definition er_codes_5 : list (string * Z) := [
  ("ER_WRONG_PARAMETERS_TO_STORED_FCT", 1584);
  ("ER_NATIVE_FCT_NAME_COLLISION", 1585);
  ("ER_DUP_ENTRY_WITH_KEY_NAME", 1586);
  ("ER_BINLOG_PURGE_EMFILE", 1587);
  ("ER_EVENT_CANNOT_CREATE_IN_THE_PAST", 1588);
  ("ER_EVENT_CANNOT_ALTER_IN_THE_PAST", 1589);
  ("ER_SLAVE_INCIDENT", 1590);
  ("ER_NO_PARTITION_FOR_GIVEN_VALUE_SILENT", 1591);
  ("ER_BINLOG_UNSAFE_STATEMENT", 1592);
  ("ER_SLAVE_FATAL_ERROR", 1593);
  ("ER_SLAVE_RELAY_LOG_READ_FAILURE", 1594);
  ("ER_SLAVE_RELAY_LOG_WRITE_FAILURE", 1595);
  ("ER_SLAVE_CREATE_EVENT_FAILURE", 1596);
  ("ER_SLAVE_MASTER_COM_FAILURE", 1597);
  ("ER_BINLOG_LOGGING_IMPOSSIBLE", 1598);
  ("ER_VIEW_NO_CREATION_CTX", 1599);
  ("ER_VIEW_INVALID_CREATION_CTX", 1600);
  ("ER_SR_INVALID_CREATION_CTX", 1601);
  ("ER_TRG_CORRUPTED_FILE", 1602);
  ("ER_TRG_NO_CREATION_CTX", 1603);
  ("ER_TRG_INVALID_CREATION_CTX", 1604);
  ("ER_EVENT_INVALID_CREATION_CTX", 1605);
  ("ER_TRG_CANT_OPEN_TABLE", 1606);
  ("ER_CANT_CREATE_SROUTINE", 1607);
  ("ER_NEVER_USED", 1608);
  ("ER_NO_FORMAT_DESCRIPTION_EVENT_BEFORE_BINLOG_STATEMENT", 1609);
  ("ER_SLAVE_CORRUPT_EVENT", 1610);
  ("ER_LOAD_DATA_INVALID_COLUMN", 1611);
  ("ER_LOG_PURGE_NO_FILE", 1612);
  ("ER_XA_RBTIMEOUT", 1613);
  ("ER_XA_RBDEADLOCK", 1614);
  ("ER_NEED_REPREPARE", 1615);
  ("ER_DELAYED_NOT_SUPPORTED", 1616);
  ("WARN_NO_MASTER_INFO", 1617);
  ("WARN_OPTION_IGNORED", 1618);
  ("WARN_PLUGIN_DELETE_BUILTIN", 1619);
  ("WARN_PLUGIN_BUSY", 1620);
  ("ER_VARIABLE_IS_READONLY", 1621);
  ("ER_WARN_ENGINE_TRANSACTION_ROLLBACK", 1622);
  ("ER_SLAVE_HEARTBEAT_FAILURE", 1623);
  ("ER_SLAVE_HEARTBEAT_VALUE_OUT_OF_RANGE", 1624);
  ("ER_NDB_REPLICATION_SCHEMA_ERROR", 1625);
  ("ER_CONFLICT_FN_PARSE_ERROR", 1626);
  ("ER_EXCEPTIONS_WRITE_ERROR", 1627);
  ("ER_TOO_LONG_TABLE_COMMENT", 1628);
  ("ER_TOO_LONG_FIELD_COMMENT", 1629);
  ("ER_FUNC_INEXISTENT_NAME_COLLISION", 1630);
  ("ER_DATABASE_NAME", 1631);
  ("ER_TABLE_NAME", 1632);
  ("ER_PARTITION_NAME", 1633);
  ("ER_SUBPARTITION_NAME", 1634);
  ("ER_TEMPORARY_NAME", 1635);
  ("ER_RENAMED_NAME", 1636);
  ("ER_TOO_MANY_CONCURRENT_TRXS", 1637);
  ("WARN_NON_ASCII_SEPARATOR_NOT_IMPLEMENTED", 1638);
  ("ER_DEBUG_SYNC_TIMEOUT", 1639);
  ("ER_DEBUG_SYNC_HIT_LIMIT", 1640);
  ("ER_DUP_SIGNAL_SET", 1641);
  ("ER_SIGNAL_WARN", 1642);
  ("ER_SIGNAL_NOT_FOUND", 1643);
  ("ER_SIGNAL_EXCEPTION", 1644);
  ("ER_RESIGNAL_WITHOUT_ACTIVE_HANDLER", 1645);
  ("ER_SIGNAL_BAD_CONDITION_TYPE", 1646);
  ("WARN_COND_ITEM_TRUNCATED", 1647);
  ("ER_COND_ITEM_TOO_LONG", 1648);
  ("ER_UNKNOWN_LOCALE", 1649);
  ("ER_SLAVE_IGNORE_SERVER_IDS", 1650);
  ("ER_QUERY_CACHE_DISABLED", 1651);
  ("ER_SAME_NAME_PARTITION_FIELD", 1652);
  ("ER_PARTITION_COLUMN_LIST_ERROR", 1653);
  ("ER_WRONG_TYPE_COLUMN_VALUE_ERROR", 1654);
  ("ER_TOO_MANY_PARTITION_FUNC_FIELDS_ERROR", 1655);
  ("ER_MAXVALUE_IN_VALUES_IN", 1656);
  ("ER_TOO_MANY_VALUES_ERROR", 1657);
  ("ER_ROW_SINGLE_PARTITION_FIELD_ERROR", 1658);
  ("ER_FIELD_TYPE_NOT_ALLOWED_AS_PARTITION_FIELD", 1659);
  ("ER_PARTITION_FIELDS_TOO_LONG", 1660);
  ("ER_BINLOG_ROW_ENGINE_AND_STMT_ENGINE", 1661);
  ("ER_BINLOG_ROW_MODE_AND_STMT_ENGINE", 1662);
  ("ER_BINLOG_UNSAFE_AND_STMT_ENGINE", 1663);
  ("ER_BINLOG_ROW_INJECTION_AND_STMT_ENGINE", 1664);
  ("ER_BINLOG_STMT_MODE_AND_ROW_ENGINE", 1665);
  ("ER_BINLOG_ROW_INJECTION_AND_STMT_MODE", 1666);
  ("ER_BINLOG_MULTIPLE_ENGINES_AND_SELF_LOGGING_ENGINE", 1667);
  ("ER_BINLOG_UNSAFE_LIMIT", 1668);
  ("ER_BINLOG_UNSAFE_INSERT_DELAYED", 1669);
  ("ER_BINLOG_UNSAFE_SYSTEM_TABLE", 1670);
  ("ER_BINLOG_UNSAFE_AUTOINC_COLUMNS", 1671);
  ("ER_BINLOG_UNSAFE_UDF", 1672);
  ("ER_BINLOG_UNSAFE_SYSTEM_VARIABLE", 1673);
  ("ER_BINLOG_UNSAFE_SYSTEM_FUNCTION", 1674);
  ("ER_BINLOG_UNSAFE_NONTRANS_AFTER_TRANS", 1675);
  ("ER_MESSAGE_AND_STATEMENT", 1676);
  ("ER_SLAVE_CONVERSION_FAILED", 1677);
  ("ER_SLAVE_CANT_CREATE_CONVERSION", 1678);
  ("ER_INSIDE_TRANSACTION_PREVENTS_SWITCH_BINLOG_FORMAT", 1679);
  ("ER_PATH_LENGTH", 1680);
  ("ER_WARN_DEPRECATED_SYNTAX_NO_REPLACEMENT", 1681);
  ("ER_WRONG_NATIVE_TABLE_STRUCTURE", 1682);
  ("ER_WRONG_PERFSCHEMA_USAGE", 1683);
  ("ER_WARN_I_S_SKIPPED_TABLE", 1684);
  ("ER_INSIDE_TRANSACTION_PREVENTS_SWITCH_BINLOG_DIRECT", 1685);
  ("ER_STORED_FUNCTION_PREVENTS_SWITCH_BINLOG_DIRECT", 1686);
  ("ER_SPATIAL_MUST_HAVE_GEOM_COL", 1687);
  ("ER_TOO_LONG_INDEX_COMMENT", 1688);
  ("ER_LOCK_ABORTED", 1689);
  ("ER_DATA_OUT_OF_RANGE", 1690);
  ("ER_WRONG_SPVAR_TYPE_IN_LIMIT", 1691);
  ("ER_BINLOG_UNSAFE_MULTIPLE_ENGINES_AND_SELF_LOGGING_ENGINE", 1692);
  ("ER_BINLOG_UNSAFE_MIXED_STATEMENT", 1693);
  ("ER_INSIDE_TRANSACTION_PREVENTS_SWITCH_SQL_LOG_BIN", 1694);
  ("ER_STORED_FUNCTION_PREVENTS_SWITCH_SQL_LOG_BIN", 1695);
  ("ER_FAILED_READ_FROM_PAR_FILE", 1696);
  ("ER_VALUES_IS_NOT_INT_TYPE_ERROR", 1697);
  ("ER_ACCESS_DENIED_NO_PASSWORD_ERROR", 1698);
  ("ER_SET_PASSWORD_AUTH_PLUGIN", 1699);
  ("ER_GRANT_PLUGIN_USER_EXISTS", 1700);
  ("ER_TRUNCATE_ILLEGAL_FK", 1701);
  ("ER_PLUGIN_IS_PERMANENT", 1702);
  ("ER_SLAVE_HEARTBEAT_VALUE_OUT_OF_RANGE_MIN", 1703);
  ("ER_SLAVE_HEARTBEAT_VALUE_OUT_OF_RANGE_MAX", 1704);
  ("ER_STMT_CACHE_FULL", 1705);
  ("ER_MULTI_UPDATE_KEY_CONFLICT", 1706);
  ("ER_TABLE_NEEDS_REBUILD", 1707);
  ("WARN_OPTION_BELOW_LIMIT", 1708);
  ("ER_INDEX_COLUMN_TOO_LONG", 1709);
  ("ER_ERROR_IN_TRIGGER_BODY", 1710);
  ("ER_ERROR_IN_UNKNOWN_TRIGGER_BODY", 1711);
  ("ER_INDEX_CORRUPT", 1712);
  ("ER_UNDO_RECORD_TOO_BIG", 1713);
  ("ER_BINLOG_UNSAFE_INSERT_IGNORE_SELECT", 1714);
  ("ER_BINLOG_UNSAFE_INSERT_SELECT_UPDATE", 1715);
  ("ER_BINLOG_UNSAFE_REPLACE_SELECT", 1716);
  ("ER_BINLOG_UNSAFE_CREATE_IGNORE_SELECT", 1717);
  ("ER_BINLOG_UNSAFE_CREATE_REPLACE_SELECT", 1718);
  ("ER_BINLOG_UNSAFE_UPDATE_IGNORE", 1719);
  ("ER_PLUGIN_NO_UNINSTALL", 1720);
  ("ER_PLUGIN_NO_INSTALL", 1721);
  ("ER_BINLOG_UNSAFE_WRITE_AUTOINC_SELECT", 1722);
  ("ER_BINLOG_UNSAFE_CREATE_SELECT_AUTOINC", 1723);
  ("ER_BINLOG_UNSAFE_INSERT_TWO_KEYS", 1724);
  ("ER_TABLE_IN_FK_CHECK", 1725);
  ("ER_UNSUPPORTED_ENGINE", 1726);
  ("ER_BINLOG_UNSAFE_AUTOINC_NOT_FIRST", 1727)].

Definition er_codes : list (string * Z) := er_codes_1 ++ er_codes_2 ++ er_codes_3 ++ er_codes_4 ++ er_codes_5.

(** * mysqld_ername.h *)

Definition er_rows_1 : list er_row := [
  ErRow "ER_HASHCHK" 1000 "hashchk";
  ErRow "ER_NISAMCHK" 1001 "isamchk";
  ErRow "ER_NO" 1002 "NO";
  ErRow "ER_YES" 1003 "YES";
  ErRow "ER_CANT_CREATE_FILE" 1004 "Can't create file '%-.200s' (errno: %d)";
  ErRow "ER_CANT_CREATE_TABLE" 1005 "Can't create table '%-.200s' (errno: %d)";
  ErRow "ER_CANT_CREATE_DB" 1006 "Can't create database '%-.192s' (errno: %d)";
  ErRow "ER_DB_CREATE_EXISTS" 1007 "Can't create database '%-.192s'; database exists";
  ErRow "ER_DB_DROP_EXISTS" 1008 "Can't drop database '%-.192s'; database doesn't exist";
  ErRow "ER_DB_DROP_DELETE" 1009 "Error dropping database (can't delete '%-.192s', errno: %d)";
  ErRow "ER_DB_DROP_RMDIR" 1010 "Error dropping database (can't rmdir '%-.192s', errno: %d)";
  ErRow "ER_CANT_DELETE_FILE" 1011 "Error on delete of '%-.192s' (errno: %d)";
  ErRow "ER_CANT_FIND_SYSTEM_REC" 1012 "Can't read record in system table";
  ErRow "ER_CANT_GET_STAT" 1013 "Can't get status of '%-.200s' (errno: %d)";
  ErRow "ER_CANT_GET_WD" 1014 "Can't get working directory (errno: %d)";
  ErRow "ER_CANT_LOCK" 1015 "Can't lock file (errno: %d)";
  ErRow "ER_CANT_OPEN_FILE" 1016 "Can't open file: '%-.200s' (errno: %d)";
  ErRow "ER_FILE_NOT_FOUND" 1017 "Can't find file: '%-.200s' (errno: %d)";
  ErRow "ER_CANT_READ_DIR" 1018 "Can't read dir of '%-.192s' (errno: %d)";
  ErRow "ER_CANT_SET_WD" 1019 "Can't change dir to '%-.192s' (errno: %d)";
  ErRow "ER_CHECKREAD" 1020 "Record has changed since last read in table '%-.192s'";
  ErRow "ER_DISK_FULL" 1021 "Disk full (%s); waiting for someone to free some space...";
  ErRow "ER_DUP_KEY" 1022 "Can't write; duplicate key in table '%-.192s'";
  ErRow "ER_ERROR_ON_CLOSE" 1023 "Error on close of '%-.192s' (errno: %d)";
  ErRow "ER_ERROR_ON_READ" 1024 "Error reading file '%-.200s' (errno: %d)";
  ErRow "ER_ERROR_ON_RENAME" 1025 "Error on rename of '%-.210s' to '%-.210s' (errno: %d)";
  ErRow "ER_ERROR_ON_WRITE" 1026 "Error writing file '%-.200s' (errno: %d)";
  ErRow "ER_FILE_USED" 1027 "'%-.192s' is locked against change";
  ErRow "ER_FILSORT_ABORT" 1028 "Sort aborted";
  ErRow "ER_FORM_NOT_FOUND" 1029 "View '%-.192s' doesn't exist for '%-.192s'";
  ErRow "ER_GET_ERRNO" 1030 "Got error %d from storage engine";
  ErRow "ER_ILLEGAL_HA" 1031 "Table storage engine for '%-.192s' doesn't have this option";
  ErRow "ER_KEY_NOT_FOUND" 1032 "Can't find record in '%-.192s'";
  ErRow "ER_NOT_FORM_FILE" 1033 "Incorrect information in file: '%-.200s'";
  ErRow "ER_NOT_KEYFILE" 1034 "Incorrect key file for table '%-.200s'; try to repair it";
  ErRow "ER_OLD_KEYFILE" 1035 "Old key file for table '%-.192s'; repair it!";
  ErRow "ER_OPEN_AS_READONLY" 1036 "Table '%-.192s' is read only";
  ErRow "ER_OUTOFMEMORY" 1037 "Out of memory; restart server and try again (needed %d bytes)";
  ErRow "ER_OUT_OF_SORTMEMORY" 1038 "Out of sort memory, consider increasing server sort buffer size";
  ErRow "ER_UNEXPECTED_EOF" 1039 "Unexpected EOF found when reading file '%-.192s' (errno: %d)";
  ErRow "ER_CON_COUNT_ERROR" 1040 "Too many connections";
  ErRow "ER_OUT_OF_RESOURCES" 1041 "Out of memory; check if mysqld or some other process uses all available memory; if not, you may have to use 'ulimit' to allow mysqld to use more memory or you can add more swap space";
  ErRow "ER_BAD_HOST_ERROR" 1042 "Can't get hostname for your address";
  ErRow "ER_HANDSHAKE_ERROR" 1043 "Bad handshake";
  ErRow "ER_DBACCESS_DENIED_ERROR" 1044 "Access denied for user '%-.48s'@'%-.64s' to database '%-.192s'";
  ErRow "ER_ACCESS_DENIED_ERROR" 1045 "Access denied for user '%-.48s'@'%-.64s' (using password: %s)";
  ErRow "ER_NO_DB_ERROR" 1046 "No database selected";
  ErRow "ER_UNKNOWN_COM_ERROR" 1047 "Unknown command";
  ErRow "ER_BAD_NULL_ERROR" 1048 "Column '%-.192s' cannot be null";
  ErRow "ER_BAD_DB_ERROR" 1049 "Unknown database '%-.192s'";
  ErRow "ER_TABLE_EXISTS_ERROR" 1050 "Table '%-.192s' already exists";
  ErRow "ER_BAD_TABLE_ERROR" 1051 "Unknown table '%-.100s'";
  ErRow "ER_NON_UNIQ_ERROR" 1052 "Column '%-.192s' in %-.192s is ambiguous";
  ErRow "ER_SERVER_SHUTDOWN" 1053 "Server shutdown in progress";
  ErRow "ER_BAD_FIELD_ERROR" 1054 "Unknown column '%-.192s' in '%-.192s'";
  ErRow "ER_WRONG_FIELD_WITH_GROUP" 1055 "'%-.192s' isn't in GROUP BY";
  ErRow "ER_WRONG_GROUP_FIELD" 1056 "Can't group on '%-.192s'";
  ErRow "ER_WRONG_SUM_SELECT" 1057 "Statement has sum functions and columns in same statement";
  ErRow "ER_WRONG_VALUE_COUNT" 1058 "Column count doesn't match value count";
  ErRow "ER_TOO_LONG_IDENT" 1059 "Identifier name '%-.100s' is too long";
  ErRow "ER_DUP_FIELDNAME" 1060 "Duplicate column name '%-.192s'";
  ErRow "ER_DUP_KEYNAME" 1061 "Duplicate key name '%-.192s'";
  ErRow "ER_DUP_ENTRY" 1062 "Duplicate entry '%-.192s' for key %d";
  ErRow "ER_WRONG_FIELD_SPEC" 1063 "Incorrect column specifier for column '%-.192s'";
  ErRow "ER_PARSE_ERROR" 1064 "%s near '%-.80s' at line %d";
  ErRow "ER_EMPTY_QUERY" 1065 "Query was empty";
  ErRow "ER_NONUNIQ_TABLE" 1066 "Not unique table/alias: '%-.192s'";
  ErRow "ER_INVALID_DEFAULT" 1067 "Invalid default value for '%-.192s'";
  ErRow "ER_MULTIPLE_PRI_KEY" 1068 "Multiple primary key defined";
  ErRow "ER_TOO_MANY_KEYS" 1069 "Too many keys specified; max %d keys allowed";
  ErRow "ER_TOO_MANY_KEY_PARTS" 1070 "Too many key parts specified; max %d parts allowed";
  ErRow "ER_TOO_LONG_KEY" 1071 "Specified key was too long; max key length is %d bytes";
  ErRow "ER_KEY_COLUMN_DOES_NOT_EXITS" 1072 "Key column '%-.192s' doesn't exist in table";
  ErRow "ER_BLOB_USED_AS_KEY" 1073 "BLOB column '%-.192s' can't be used in key specification with the used table type";
  ErRow "ER_TOO_BIG_FIELDLENGTH" 1074 "Column length too big for column '%-.192s' (max = %lu); use BLOB or TEXT instead";
  ErRow "ER_WRONG_AUTO_KEY" 1075 "Incorrect table definition; there can be only one auto column and it must be defined as a key";
  ErRow "ER_READY" 1076 "%s: ready for connections.^Version: '%s'  socket: '%s'  port: %d";
  ErRow "ER_NORMAL_SHUTDOWN" 1077 "%s: Normal shutdown^";
  ErRow "ER_GOT_SIGNAL" 1078 "%s: Got signal %d. Aborting!^";
  ErRow "ER_SHUTDOWN_COMPLETE" 1079 "%s: Shutdown complete^";
  ErRow "ER_FORCING_CLOSE" 1080 "%s: Forcing close of thread %ld  user: '%-.48s'^";
  ErRow "ER_IPSOCK_ERROR" 1081 "Can't create IP socket";
  ErRow "ER_NO_SUCH_INDEX" 1082 "Table '%-.192s' has no index like the one used in CREATE INDEX; recreate the table";
  ErRow "ER_WRONG_FIELD_TERMINATORS" 1083 "Field separator argument is not what is expected; check the manual";
  ErRow "ER_BLOBS_AND_NO_TERMINATED" 1084 "You can't use fixed rowlength with BLOBs; please use 'fields terminated by'";
  ErRow "ER_TEXTFILE_NOT_READABLE" 1085 "The file '%-.128s' must be in the database directory or be readable by all";
  ErRow "ER_FILE_EXISTS_ERROR" 1086 "File '%-.200s' already exists";
  ErRow "ER_LOAD_INFO" 1087 "Records: %ld  Deleted: %ld  Skipped: %ld  Warnings: %ld";
  ErRow "ER_ALTER_INFO" 1088 "Records: %ld  Duplicates: %ld";
  ErRow "ER_WRONG_SUB_KEY" 1089 "Incorrect prefix key; the used key part isn't a string, the used length is longer than the key part, or the storage engine doesn't support unique prefix keys";
  ErRow "ER_CANT_REMOVE_ALL_FIELDS" 1090 "You can't delete all columns with ALTER TABLE; use DROP TABLE instead";
  ErRow "ER_CANT_DROP_FIELD_OR_KEY" 1091 "Can't DROP '%-.192s'; check that column/key exists";
  ErRow "ER_INSERT_INFO" 1092 "Records: %ld  Duplicates: %ld  Warnings: %ld";
  ErRow "ER_UPDATE_TABLE_USED" 1093 "You can't specify target table '%-.192s' for update in FROM clause";
  ErRow "ER_NO_SUCH_THREAD" 1094 "Unknown thread id: %lu";
  ErRow "ER_KILL_DENIED_ERROR" 1095 "You are not owner of thread %lu";
  ErRow "ER_NO_TABLES_USED" 1096 "No tables used";
  ErRow "ER_TOO_BIG_SET" 1097 "Too many strings for column %-.192s and SET";
  ErRow "ER_NO_UNIQUE_LOGFILE" 1098 "Can't generate a unique log-filename %-.200s.(1-999)^";
  ErRow "ER_TABLE_NOT_LOCKED_FOR_WRITE" 1099 "Table '%-.192s' was locked with a READ lock and can't be updated";
  ErRow "ER_TABLE_NOT_LOCKED" 1100 "Table '%-.192s' was not locked with LOCK TABLES";
  ErRow "ER_BLOB_CANT_HAVE_DEFAULT" 1101 "BLOB/TEXT column '%-.192s' can't have a default value";
  ErRow "ER_WRONG_DB_NAME" 1102 "Incorrect database name '%-.100s'";
  ErRow "ER_WRONG_TABLE_NAME" 1103 "Incorrect table name '%-.100s'";
  ErRow "ER_TOO_BIG_SELECT" 1104 "The SELECT would examine more than MAX_JOIN_SIZE rows; check your WHERE and use SET SQL_BIG_SELECTS=1 or SET MAX_JOIN_SIZE=# if the SELECT is okay";
  ErRow "ER_UNKNOWN_ERROR" 1105 "Unknown error";
  ErRow "ER_UNKNOWN_PROCEDURE" 1106 "Unknown procedure '%-.192s'";
  ErRow "ER_WRONG_PARAMCOUNT_TO_PROCEDURE" 1107 "Incorrect parameter count to procedure '%-.192s'";
  ErRow "ER_WRONG_PARAMETERS_TO_PROCEDURE" 1108 "Incorrect parameters to procedure '%-.192s'";
  ErRow "ER_UNKNOWN_TABLE" 1109 "Unknown table '%-.192s' in %-.32s";
  ErRow "ER_FIELD_SPECIFIED_TWICE" 1110 "Column '%-.192s' specified twice";
  ErRow "ER_INVALID_GROUP_FUNC_USE" 1111 "Invalid use of group function";
  ErRow "ER_UNSUPPORTED_EXTENSION" 1112 "Table '%-.192s' uses an extension that doesn't exist in this MySQL version";
  ErRow "ER_TABLE_MUST_HAVE_COLUMNS" 1113 "A table must have at least 1 column";
  ErRow "ER_RECORD_FILE_FULL" 1114 "The table '%-.192s' is full";
  ErRow "ER_UNKNOWN_CHARACTER_SET" 1115 "Unknown character set: '%-.64s'";
  ErRow "ER_TOO_MANY_TABLES" 1116 "Too many tables; MySQL can only use %d tables in a join";
  ErRow "ER_TOO_MANY_FIELDS" 1117 "Too many columns";
  ErRow "ER_TOO_BIG_ROWSIZE" 1118 "Row size too large. The maximum row size for the used table type, not counting BLOBs, is %ld. You have to change some columns to TEXT or BLOBs";
  ErRow "ER_STACK_OVERRUN" 1119 "Thread stack overrun:  Used: %ld of a %ld stack.  Use 'mysqld --thread_stack=#' to specify a bigger stack if needed";
  ErRow "ER_WRONG_OUTER_JOIN" 1120 "Cross dependency found in OUTER JOIN; examine your ON conditions";
  ErRow "ER_NULL_COLUMN_IN_INDEX" 1121 "Table handler doesn't support NULL in given index. Please change column '%-.192s' to be NOT NULL or use another handler";
  ErRow "ER_CANT_FIND_UDF" 1122 "Can't load function '%-.192s'";
  ErRow "ER_CANT_INITIALIZE_UDF" 1123 "Can't initialize function '%-.192s'; %-.80s";
  ErRow "ER_UDF_NO_PATHS" 1124 "No paths allowed for shared library";
  ErRow "ER_UDF_EXISTS" 1125 "Function '%-.192s' already exists";
  ErRow "ER_CANT_OPEN_LIBRARY" 1126 "Can't open shared library '%-.192s' (errno: %d %-.128s)";
  ErRow "ER_CANT_FIND_DL_ENTRY" 1127 "Can't find symbol '%-.128s' in library";
  ErRow "ER_FUNCTION_NOT_DEFINED" 1128 "Function '%-.192s' is not defined";
  ErRow "ER_HOST_IS_BLOCKED" 1129 "Host '%-.64s' is blocked because of many connection errors; unblock with 'mysqladmin flush-hosts'";
  ErRow "ER_HOST_NOT_PRIVILEGED" 1130 "Host '%-.64s' is not allowed to connect to this MySQL server";
  ErRow "ER_PASSWORD_ANONYMOUS_USER" 1131 "You are using MySQL as an anonymous user and anonymous users are not allowed to change passwords";
  ErRow "ER_PASSWORD_NOT_ALLOWED" 1132 "You must have privileges to update tables in the mysql database to be able to change passwords for others";
  ErRow "ER_PASSWORD_NO_MATCH" 1133 "Can't find any matching row in the user table";
  ErRow "ER_UPDATE_INFO" 1134 "Rows matched: %ld  Changed: %ld  Warnings: %ld";
  ErRow "ER_CANT_CREATE_THREAD" 1135 "Can't create a new thread (errno %d); if you are not out of available memory, you can consult the manual for a possible OS-dependent bug";
  ErRow "ER_WRONG_VALUE_COUNT_ON_ROW" 1136 "Column count doesn't match value count at row %ld";
  ErRow "ER_CANT_REOPEN_TABLE" 1137 "Can't reopen table: '%-.192s'";
  ErRow "ER_INVALID_USE_OF_NULL" 1138 "Invalid use of NULL value";
  ErRow "ER_REGEXP_ERROR" 1139 "Got error '%-.64s' from regexp";
  ErRow "ER_MIX_OF_GROUP_FUNC_AND_FIELDS" 1140 "Mixing of GROUP columns (MIN(),MAX(),COUNT(),...) with no GROUP columns is illegal if there is no GROUP BY clause";
  ErRow "ER_NONEXISTING_GRANT" 1141 "There is no such grant defined for user '%-.48s' on host '%-.64s'";
  ErRow "ER_TABLEACCESS_DENIED_ERROR" 1142 "%-.16s command denied to user '%-.48s'@'%-.64s' for table '%-.192s'";
  ErRow "ER_COLUMNACCESS_DENIED_ERROR" 1143 "%-.16s command denied to user '%-.48s'@'%-.64s' for column '%-.192s' in table '%-.192s'";
  ErRow "ER_ILLEGAL_GRANT_FOR_TABLE" 1144 "Illegal GRANT/REVOKE command; please consult the manual to see which privileges can be used";
  ErRow "ER_GRANT_WRONG_HOST_OR_USER" 1145 "The host or user argument to GRANT is too long"].

Definition er_rows_2 : list er_row := [
  ErRow "ER_NO_SUCH_TABLE" 1146 "Table '%-.192s.%-.192s' doesn't exist";
  ErRow "ER_NONEXISTING_TABLE_GRANT" 1147 "There is no such grant defined for user '%-.48s' on host '%-.64s' on table '%-.192s'";
  ErRow "ER_NOT_ALLOWED_COMMAND" 1148 "The used command is not allowed with this MySQL version";
  ErRow "ER_SYNTAX_ERROR" 1149 "You have an error in your SQL syntax; check the manual that corresponds to your MySQL server version for the right syntax to use";
  ErRow "ER_DELAYED_CANT_CHANGE_LOCK" 1150 "Delayed insert thread couldn't get requested lock for table %-.192s";
  ErRow "ER_TOO_MANY_DELAYED_THREADS" 1151 "Too many delayed threads in use";
  ErRow "ER_ABORTING_CONNECTION" 1152 "Aborted connection %ld to db: '%-.192s' user: '%-.48s' (%-.64s)";
  ErRow "ER_NET_PACKET_TOO_LARGE" 1153 "Got a packet bigger than 'max_allowed_packet' bytes";
  ErRow "ER_NET_READ_ERROR_FROM_PIPE" 1154 "Got a read error from the connection pipe";
  ErRow "ER_NET_FCNTL_ERROR" 1155 "Got an error from fcntl()";
  ErRow "ER_NET_PACKETS_OUT_OF_ORDER" 1156 "Got packets out of order";
  ErRow "ER_NET_UNCOMPRESS_ERROR" 1157 "Couldn't uncompress communication packet";
  ErRow "ER_NET_READ_ERROR" 1158 "Got an error reading communication packets";
  ErRow "ER_NET_READ_INTERRUPTED" 1159 "Got timeout reading communication packets";
  ErRow "ER_NET_ERROR_ON_WRITE" 1160 "Got an error writing communication packets";
  ErRow "ER_NET_WRITE_INTERRUPTED" 1161 "Got timeout writing communication packets";
  ErRow "ER_TOO_LONG_STRING" 1162 "Result string is longer than 'max_allowed_packet' bytes";
  ErRow "ER_TABLE_CANT_HANDLE_BLOB" 1163 "The used table type doesn't support BLOB/TEXT columns";
  ErRow "ER_TABLE_CANT_HANDLE_AUTO_INCREMENT" 1164 "The used table type doesn't support AUTO_INCREMENT columns";
  ErRow "ER_DELAYED_INSERT_TABLE_LOCKED" 1165 "INSERT DELAYED can't be used with table '%-.192s' because it is locked with LOCK TABLES";
  ErRow "ER_WRONG_COLUMN_NAME" 1166 "Incorrect column name '%-.100s'";
  ErRow "ER_WRONG_KEY_COLUMN" 1167 "The used storage engine can't index column '%-.192s'";
  ErRow "ER_WRONG_MRG_TABLE" 1168 "Unable to open underlying table which is differently defined or of non-MyISAM type or doesn't exist";
  ErRow "ER_DUP_UNIQUE" 1169 "Can't write, because of unique constraint, to table '%-.192s'";
  ErRow "ER_BLOB_KEY_WITHOUT_LENGTH" 1170 "BLOB/TEXT column '%-.192s' used in key specification without a key length";
  ErRow "ER_PRIMARY_CANT_HAVE_NULL" 1171 "All parts of a PRIMARY KEY must be NOT NULL; if you need NULL in a key, use UNIQUE instead";
  ErRow "ER_TOO_MANY_ROWS" 1172 "Result consisted of more than one row";
  ErRow "ER_REQUIRES_PRIMARY_KEY" 1173 "This table type requires a primary key";
  ErRow "ER_NO_RAID_COMPILED" 1174 "This version of MySQL is not compiled with RAID support";
  ErRow "ER_UPDATE_WITHOUT_KEY_IN_SAFE_MODE" 1175 "You are using safe update mode and you tried to update a table without a WHERE that uses a KEY column";
  ErRow "ER_KEY_DOES_NOT_EXITS" 1176 "Key '%-.192s' doesn't exist in table '%-.192s'";
  ErRow "ER_CHECK_NO_SUCH_TABLE" 1177 "Can't open table";
  ErRow "ER_CHECK_NOT_IMPLEMENTED" 1178 "The storage engine for the table doesn't support %s";
  ErRow "ER_CANT_DO_THIS_DURING_AN_TRANSACTION" 1179 "You are not allowed to execute this command in a transaction";
  ErRow "ER_ERROR_DURING_COMMIT" 1180 "Got error %d during COMMIT";
  ErRow "ER_ERROR_DURING_ROLLBACK" 1181 "Got error %d during ROLLBACK";
  ErRow "ER_ERROR_DURING_FLUSH_LOGS" 1182 "Got error %d during FLUSH_LOGS";
  ErRow "ER_ERROR_DURING_CHECKPOINT" 1183 "Got error %d during CHECKPOINT";
  ErRow "ER_NEW_ABORTING_CONNECTION" 1184 "Aborted connection %ld to db: '%-.192s' user: '%-.48s' host: '%-.64s' (%-.64s)";
  ErRow "ER_DUMP_NOT_IMPLEMENTED" 1185 "The storage engine for the table does not support binary table dump";
  ErRow "ER_FLUSH_MASTER_BINLOG_CLOSED" 1186 "Binlog closed, cannot RESET MASTER";
  ErRow "ER_INDEX_REBUILD" 1187 "Failed rebuilding the index of  dumped table '%-.192s'";
  ErRow "ER_MASTER" 1188 "Error from master: '%-.64s'";
  ErRow "ER_MASTER_NET_READ" 1189 "Net error reading from master";
  ErRow "ER_MASTER_NET_WRITE" 1190 "Net error writing to master";
  ErRow "ER_FT_MATCHING_KEY_NOT_FOUND" 1191 "Can't find FULLTEXT index matching the column list";
  ErRow "ER_LOCK_OR_ACTIVE_TRANSACTION" 1192 "Can't execute the given command because you have active locked tables or an active transaction";
  ErRow "ER_UNKNOWN_SYSTEM_VARIABLE" 1193 "Unknown system variable '%-.64s'";
  ErRow "ER_CRASHED_ON_USAGE" 1194 "Table '%-.192s' is marked as crashed and should be repaired";
  ErRow "ER_CRASHED_ON_REPAIR" 1195 "Table '%-.192s' is marked as crashed and last (automatic?) repair failed";
  ErRow "ER_WARNING_NOT_COMPLETE_ROLLBACK" 1196 "Some non-transactional changed tables couldn't be rolled back";
  ErRow "ER_TRANS_CACHE_FULL" 1197 "Multi-statement transaction required more than 'max_binlog_cache_size' bytes of storage; increase this mysqld variable and try again";
  ErRow "ER_SLAVE_MUST_STOP" 1198 "This operation cannot be performed with a running slave; run STOP SLAVE first";
  ErRow "ER_SLAVE_NOT_RUNNING" 1199 "This operation requires a running slave; configure slave and do START SLAVE";
  ErRow "ER_BAD_SLAVE" 1200 "The server is not configured as slave; fix in config file or with CHANGE MASTER TO";
  ErRow "ER_MASTER_INFO" 1201 "Could not initialize master info structure; more error messages can be found in the MySQL error log";
  ErRow "ER_SLAVE_THREAD" 1202 "Could not create slave thread; check system resources";
  ErRow "ER_TOO_MANY_USER_CONNECTIONS" 1203 "User %-.64s already has more than 'max_user_connections' active connections";
  ErRow "ER_SET_CONSTANTS_ONLY" 1204 "You may only use constant expressions with SET";
  ErRow "ER_LOCK_WAIT_TIMEOUT" 1205 "Lock wait timeout exceeded; try restarting transaction";
  ErRow "ER_LOCK_TABLE_FULL" 1206 "The total number of locks exceeds the lock table size";
  ErRow "ER_READ_ONLY_TRANSACTION" 1207 "Update locks cannot be acquired during a READ UNCOMMITTED transaction";
  ErRow "ER_DROP_DB_WITH_READ_LOCK" 1208 "DROP DATABASE not allowed while thread is holding global read lock";
  ErRow "ER_CREATE_DB_WITH_READ_LOCK" 1209 "CREATE DATABASE not allowed while thread is holding global read lock";
  ErRow "ER_WRONG_ARGUMENTS" 1210 "Incorrect arguments to %s";
  ErRow "ER_NO_PERMISSION_TO_CREATE_USER" 1211 "'%-.48s'@'%-.64s' is not allowed to create new users";
  ErRow "ER_UNION_TABLES_IN_DIFFERENT_DIR" 1212 "Incorrect table definition; all MERGE tables must be in the same database";
  ErRow "ER_LOCK_DEADLOCK" 1213 "Deadlock found when trying to get lock; try restarting transaction";
  ErRow "ER_TABLE_CANT_HANDLE_FT" 1214 "The used table type doesn't support FULLTEXT indexes";
  ErRow "ER_CANNOT_ADD_FOREIGN" 1215 "Cannot add foreign key constraint";
  ErRow "ER_NO_REFERENCED_ROW" 1216 "Cannot add or update a child row: a foreign key constraint fails";
  ErRow "ER_ROW_IS_REFERENCED" 1217 "Cannot delete or update a parent row: a foreign key constraint fails";
  ErRow "ER_CONNECT_TO_MASTER" 1218 "Error connecting to master: %-.128s";
  ErRow "ER_QUERY_ON_MASTER" 1219 "Error running query on master: %-.128s";
  ErRow "ER_ERROR_WHEN_EXECUTING_COMMAND" 1220 "Error when executing command %s: %-.128s";
  ErRow "ER_WRONG_USAGE" 1221 "Incorrect usage of %s and %s";
  ErRow "ER_WRONG_NUMBER_OF_COLUMNS_IN_SELECT" 1222 "The used SELECT statements have a different number of columns";
  ErRow "ER_CANT_UPDATE_WITH_READLOCK" 1223 "Can't execute the query because you have a conflicting read lock";
  ErRow "ER_MIXING_NOT_ALLOWED" 1224 "Mixing of transactional and non-transactional tables is disabled";
  ErRow "ER_DUP_ARGUMENT" 1225 "Option '%s' used twice in statement";
  ErRow "ER_USER_LIMIT_REACHED" 1226 "User '%-.64s' has exceeded the '%s' resource (current value: %ld)";
  ErRow "ER_SPECIFIC_ACCESS_DENIED_ERROR" 1227 "Access denied; you need (at least one of) the %-.128s privilege(s) for this operation";
  ErRow "ER_LOCAL_VARIABLE" 1228 "Variable '%-.64s' is a SESSION variable and can't be used with SET GLOBAL";
  ErRow "ER_GLOBAL_VARIABLE" 1229 "Variable '%-.64s' is a GLOBAL variable and should be set with SET GLOBAL";
  ErRow "ER_NO_DEFAULT" 1230 "Variable '%-.64s' doesn't have a default value";
  ErRow "ER_WRONG_VALUE_FOR_VAR" 1231 "Variable '%-.64s' can't be set to the value of '%-.200s'";
  ErRow "ER_WRONG_TYPE_FOR_VAR" 1232 "Incorrect argument type to variable '%-.64s'";
  ErRow "ER_VAR_CANT_BE_READ" 1233 "Variable '%-.64s' can only be set, not read";
  ErRow "ER_CANT_USE_OPTION_HERE" 1234 "Incorrect usage/placement of '%s'";
  ErRow "ER_NOT_SUPPORTED_YET" 1235 "This version of MySQL doesn't yet support '%s'";
  ErRow "ER_MASTER_FATAL_ERROR_READING_BINLOG" 1236 "Got fatal error %d from master when reading data from binary log: '%-.320s'";
  ErRow "ER_SLAVE_IGNORED_TABLE" 1237 "Slave SQL thread ignored the query because of replicate-*-table rules";
  ErRow "ER_INCORRECT_GLOBAL_LOCAL_VAR" 1238 "Variable '%-.192s' is a %s variable";
  ErRow "ER_WRONG_FK_DEF" 1239 "Incorrect foreign key definition for '%-.192s': %s";
  ErRow "ER_KEY_REF_DO_NOT_MATCH_TABLE_REF" 1240 "Key reference and table reference don't match";
  ErRow "ER_OPERAND_COLUMNS" 1241 "Operand should contain %d column(s)";
  ErRow "ER_SUBQUERY_NO_1_ROW" 1242 "Subquery returns more than 1 row";
  ErRow "ER_UNKNOWN_STMT_HANDLER" 1243 "Unknown prepared statement handler (%.*s) given to %s";
  ErRow "ER_CORRUPT_HELP_DB" 1244 "Help database is corrupt or does not exist";
  ErRow "ER_CYCLIC_REFERENCE" 1245 "Cyclic reference on subqueries";
  ErRow "ER_AUTO_CONVERT" 1246 "Converting column '%s' from %s to %s";
  ErRow "ER_ILLEGAL_REFERENCE" 1247 "Reference '%-.64s' not supported (%s)";
  ErRow "ER_DERIVED_MUST_HAVE_ALIAS" 1248 "Every derived table must have its own alias";
  ErRow "ER_SELECT_REDUCED" 1249 "Select %u was reduced during optimization";
  ErRow "ER_TABLENAME_NOT_ALLOWED_HERE" 1250 "Table '%-.192s' from one of the SELECTs cannot be used in %-.32s";
  ErRow "ER_NOT_SUPPORTED_AUTH_MODE" 1251 "Client does not support authentication protocol requested by server; consider upgrading MySQL client";
  ErRow "ER_SPATIAL_CANT_HAVE_NULL" 1252 "All parts of a SPATIAL index must be NOT NULL";
  ErRow "ER_COLLATION_CHARSET_MISMATCH" 1253 "COLLATION '%s' is not valid for CHARACTER SET '%s'";
  ErRow "ER_SLAVE_WAS_RUNNING" 1254 "Slave is already running";
  ErRow "ER_SLAVE_WAS_NOT_RUNNING" 1255 "Slave already has been stopped";
  ErRow "ER_TOO_BIG_FOR_UNCOMPRESS" 1256 "Uncompressed data size too large; the maximum size is %d (probably, length of uncompressed data was corrupted)";
  ErRow "ER_ZLIB_Z_MEM_ERROR" 1257 "ZLIB: Not enough memory";
  ErRow "ER_ZLIB_Z_BUF_ERROR" 1258 "ZLIB: Not enough room in the output buffer (probably, length of uncompressed data was corrupted)";
  ErRow "ER_ZLIB_Z_DATA_ERROR" 1259 "ZLIB: Input data corrupted";
  ErRow "ER_CUT_VALUE_GROUP_CONCAT" 1260 "Row %u was cut by GROUP_CONCAT()";
  ErRow "ER_WARN_TOO_FEW_RECORDS" 1261 "Row %ld doesn't contain data for all columns";
  ErRow "ER_WARN_TOO_MANY_RECORDS" 1262 "Row %ld was truncated; it contained more data than there were input columns";
  ErRow "ER_WARN_NULL_TO_NOTNULL" 1263 "Column set to default value; NULL supplied to NOT NULL column '%s' at row %ld";
  ErRow "ER_WARN_DATA_OUT_OF_RANGE" 1264 "Out of range value for column '%s' at row %ld";
  ErRow "WARN_DATA_TRUNCATED" 1265 "Data truncated for column '%s' at row %ld";
  ErRow "ER_WARN_USING_OTHER_HANDLER" 1266 "Using storage engine %s for table '%s'";
  ErRow "ER_CANT_AGGREGATE_2COLLATIONS" 1267 "Illegal mix of collations (%s,%s) and (%s,%s) for operation '%s'";
  ErRow "ER_DROP_USER" 1268 "Cannot drop one or more of the requested users";
  ErRow "ER_REVOKE_GRANTS" 1269 "Can't revoke all privileges for one or more of the requested users";
  ErRow "ER_CANT_AGGREGATE_3COLLATIONS" 1270 "Illegal mix of collations (%s,%s), (%s,%s), (%s,%s) for operation '%s'";
  ErRow "ER_CANT_AGGREGATE_NCOLLATIONS" 1271 "Illegal mix of collations for operation '%s'";
  ErRow "ER_VARIABLE_IS_NOT_STRUCT" 1272 "Variable '%-.64s' is not a variable component (can't be used as XXXX.variable_name)";
  ErRow "ER_UNKNOWN_COLLATION" 1273 "Unknown collation: '%-.64s'";
  ErRow "ER_SLAVE_IGNORED_SSL_PARAMS" 1274 "SSL parameters in CHANGE MASTER are ignored because this MySQL slave was compiled without SSL support; they can be used later if MySQL slave with SSL is started";
  ErRow "ER_SERVER_IS_IN_SECURE_AUTH_MODE" 1275 "Server is running in --secure-auth mode, but '%s'@'%s' has a password in the old format; please change the password to the new format";
  ErRow "ER_WARN_FIELD_RESOLVED" 1276 "Field or reference '%-.192s%s%-.192s%s%-.192s' of SELECT #%d was resolved in SELECT #%d";
  ErRow "ER_BAD_SLAVE_UNTIL_COND" 1277 "Incorrect parameter or combination of parameters for START SLAVE UNTIL";
  ErRow "ER_MISSING_SKIP_SLAVE" 1278 "It is recommended to use --skip-slave-start when doing step-by-step replication with START SLAVE UNTIL; otherwise, you will get problems if you get an unexpected slave's mysqld restart";
  ErRow "ER_UNTIL_COND_IGNORED" 1279 "SQL thread is not to be started so UNTIL options are ignored";
  ErRow "ER_WRONG_NAME_FOR_INDEX" 1280 "Incorrect index name '%-.100s'";
  ErRow "ER_WRONG_NAME_FOR_CATALOG" 1281 "Incorrect catalog name '%-.100s'";
  ErRow "ER_WARN_QC_RESIZE" 1282 "Query cache failed to set size %lu; new query cache size is %lu";
  ErRow "ER_BAD_FT_COLUMN" 1283 "Column '%-.192s' cannot be part of FULLTEXT index";
  ErRow "ER_UNKNOWN_KEY_CACHE" 1284 "Unknown key cache '%-.100s'";
  ErRow "ER_WARN_HOSTNAME_WONT_WORK" 1285 "MySQL is started in --skip-name-resolve mode; you must restart it without this switch for this grant to work";
  ErRow "ER_UNKNOWN_STORAGE_ENGINE" 1286 "Unknown storage engine '%s'";
  ErRow "ER_WARN_DEPRECATED_SYNTAX" 1287 "'%s' is deprecated and will be removed in a future release. Please use %s instead";
  ErRow "ER_NON_UPDATABLE_TABLE" 1288 "The target table %-.100s of the %s is not updatable";
  ErRow "ER_FEATURE_DISABLED" 1289 "The '%s' feature is disabled; you need MySQL built with '%s' to have it working";
  ErRow "ER_OPTION_PREVENTS_STATEMENT" 1290 "The MySQL server is running with the %s option so it cannot execute this statement";
  ErRow "ER_DUPLICATED_VALUE_IN_TYPE" 1291 "Column '%-.100s' has duplicated value '%-.64s' in %s"].

Definition er_rows_3 : list er_row := [
  ErRow "ER_TRUNCATED_WRONG_VALUE" 1292 "Truncated incorrect %-.32s value: '%-.128s'";
  ErRow "ER_TOO_MUCH_AUTO_TIMESTAMP_COLS" 1293 "Incorrect table definition; there can be only one TIMESTAMP column with CURRENT_TIMESTAMP in DEFAULT or ON UPDATE clause";
  ErRow "ER_INVALID_ON_UPDATE" 1294 "Invalid ON UPDATE clause for '%-.192s' column";
  ErRow "ER_UNSUPPORTED_PS" 1295 "This command is not supported in the prepared statement protocol yet";
  ErRow "ER_GET_ERRMSG" 1296 "Got error %d '%-.100s' from %s";
  ErRow "ER_GET_TEMPORARY_ERRMSG" 1297 "Got temporary error %d '%-.100s' from %s";
  ErRow "ER_UNKNOWN_TIME_ZONE" 1298 "Unknown or incorrect time zone: '%-.64s'";
  ErRow "ER_WARN_INVALID_TIMESTAMP" 1299 "Invalid TIMESTAMP value in column '%s' at row %ld";
  ErRow "ER_INVALID_CHARACTER_STRING" 1300 "Invalid %s character string: '%.64s'";
  ErRow "ER_WARN_ALLOWED_PACKET_OVERFLOWED" 1301 "Result of %s() was larger than max_allowed_packet (%ld) - truncated";
  ErRow "ER_CONFLICTING_DECLARATIONS" 1302 "Conflicting declarations: '%s%s' and '%s%s'";
  ErRow "ER_SP_NO_RECURSIVE_CREATE" 1303 "Can't create a %s from within another stored routine";
  ErRow "ER_SP_ALREADY_EXISTS" 1304 "%s %s already exists";
  ErRow "ER_SP_DOES_NOT_EXIST" 1305 "%s %s does not exist";
  ErRow "ER_SP_DROP_FAILED" 1306 "Failed to DROP %s %s";
  ErRow "ER_SP_STORE_FAILED" 1307 "Failed to CREATE %s %s";
  ErRow "ER_SP_LILABEL_MISMATCH" 1308 "%s with no matching label: %s";
  ErRow "ER_SP_LABEL_REDEFINE" 1309 "Redefining label %s";
  ErRow "ER_SP_LABEL_MISMATCH" 1310 "End-label %s without match";
  ErRow "ER_SP_UNINIT_VAR" 1311 "Referring to uninitialized variable %s";
  ErRow "ER_SP_BADSELECT" 1312 "PROCEDURE %s can't return a result set in the given context";
  ErRow "ER_SP_BADRETURN" 1313 "RETURN is only allowed in a FUNCTION";
  ErRow "ER_SP_BADSTATEMENT" 1314 "%s is not allowed in stored procedures";
  ErRow "ER_UPDATE_LOG_DEPRECATED_IGNORED" 1315 "The update log is deprecated and replaced by the binary log; SET SQL_LOG_UPDATE has been ignored. This option will be removed in MySQL 5.6.";
  ErRow "ER_UPDATE_LOG_DEPRECATED_TRANSLATED" 1316 "The update log is deprecated and replaced by the binary log; SET SQL_LOG_UPDATE has been translated to SET SQL_LOG_BIN. This option will be removed in MySQL 5.6.";
  ErRow "ER_QUERY_INTERRUPTED" 1317 "Query execution was interrupted";
  ErRow "ER_SP_WRONG_NO_OF_ARGS" 1318 "Incorrect number of arguments for %s %s; expected %u, got %u";
  ErRow "ER_SP_COND_MISMATCH" 1319 "Undefined CONDITION: %s";
  ErRow "ER_SP_NORETURN" 1320 "No RETURN found in FUNCTION %s";
  ErRow "ER_SP_NORETURNEND" 1321 "FUNCTION %s ended without RETURN";
  ErRow "ER_SP_BAD_CURSOR_QUERY" 1322 "Cursor statement must be a SELECT";
  ErRow "ER_SP_BAD_CURSOR_SELECT" 1323 "Cursor SELECT must not have INTO";
  ErRow "ER_SP_CURSOR_MISMATCH" 1324 "Undefined CURSOR: %s";
  ErRow "ER_SP_CURSOR_ALREADY_OPEN" 1325 "Cursor is already open";
  ErRow "ER_SP_CURSOR_NOT_OPEN" 1326 "Cursor is not open";
  ErRow "ER_SP_UNDECLARED_VAR" 1327 "Undeclared variable: %s";
  ErRow "ER_SP_WRONG_NO_OF_FETCH_ARGS" 1328 "Incorrect number of FETCH variables";
  ErRow "ER_SP_FETCH_NO_DATA" 1329 "No data - zero rows fetched, selected, or processed";
  ErRow "ER_SP_DUP_PARAM" 1330 "Duplicate parameter: %s";
  ErRow "ER_SP_DUP_VAR" 1331 "Duplicate variable: %s";
  ErRow "ER_SP_DUP_COND" 1332 "Duplicate condition: %s";
  ErRow "ER_SP_DUP_CURS" 1333 "Duplicate cursor: %s";
  ErRow "ER_SP_CANT_ALTER" 1334 "Failed to ALTER %s %s";
  ErRow "ER_SP_SUBSELECT_NYI" 1335 "Subquery value not supported";
  ErRow "ER_STMT_NOT_ALLOWED_IN_SF_OR_TRG" 1336 "%s is not allowed in stored function or trigger";
  ErRow "ER_SP_VARCOND_AFTER_CURSHNDLR" 1337 "Variable or condition declaration after cursor or handler declaration";
  ErRow "ER_SP_CURSOR_AFTER_HANDLER" 1338 "Cursor declaration after handler declaration";
  ErRow "ER_SP_CASE_NOT_FOUND" 1339 "Case not found for CASE statement";
  ErRow "ER_FPARSER_TOO_BIG_FILE" 1340 "Configuration file '%-.192s' is too big";
  ErRow "ER_FPARSER_BAD_HEADER" 1341 "Malformed file type header in file '%-.192s'";
  ErRow "ER_FPARSER_EOF_IN_COMMENT" 1342 "Unexpected end of file while parsing comment '%-.200s'";
  ErRow "ER_FPARSER_ERROR_IN_PARAMETER" 1343 "Error while parsing parameter '%-.192s' (line: '%-.192s')";
  ErRow "ER_FPARSER_EOF_IN_UNKNOWN_PARAMETER" 1344 "Unexpected end of file while skipping unknown parameter '%-.192s'";
  ErRow "ER_VIEW_NO_EXPLAIN" 1345 "EXPLAIN/SHOW can not be issued; lacking privileges for underlying table";
  ErRow "ER_FRM_UNKNOWN_TYPE" 1346 "File '%-.192s' has unknown type '%-.64s' in its header";
  ErRow "ER_WRONG_OBJECT" 1347 "'%-.192s.%-.192s' is not %s";
  ErRow "ER_NONUPDATEABLE_COLUMN" 1348 "Column '%-.192s' is not updatable";
  ErRow "ER_VIEW_SELECT_DERIVED" 1349 "View's SELECT contains a subquery in the FROM clause";
  ErRow "ER_VIEW_SELECT_CLAUSE" 1350 "View's SELECT contains a '%s' clause";
  ErRow "ER_VIEW_SELECT_VARIABLE" 1351 "View's SELECT contains a variable or parameter";
  ErRow "ER_VIEW_SELECT_TMPTABLE" 1352 "View's SELECT refers to a temporary table '%-.192s'";
  ErRow "ER_VIEW_WRONG_LIST" 1353 "View's SELECT and view's field list have different column counts";
  ErRow "ER_WARN_VIEW_MERGE" 1354 "View merge algorithm can't be used here for now (assumed undefined algorithm)";
  ErRow "ER_WARN_VIEW_WITHOUT_KEY" 1355 "View being updated does not have complete key of underlying table in it";
  ErRow "ER_VIEW_INVALID" 1356 "View '%-.192s.%-.192s' references invalid table(s) or column(s) or function(s) or definer/invoker of view lack rights to use them";
  ErRow "ER_SP_NO_DROP_SP" 1357 "Can't drop or alter a %s from within another stored routine";
  ErRow "ER_SP_GOTO_IN_HNDLR" 1358 "GOTO is not allowed in a stored procedure handler";
  ErRow "ER_TRG_ALREADY_EXISTS" 1359 "Trigger already exists";
  ErRow "ER_TRG_DOES_NOT_EXIST" 1360 "Trigger does not exist";
  ErRow "ER_TRG_ON_VIEW_OR_TEMP_TABLE" 1361 "Trigger's '%-.192s' is view or temporary table";
  ErRow "ER_TRG_CANT_CHANGE_ROW" 1362 "Updating of %s row is not allowed in %strigger";
  ErRow "ER_TRG_NO_SUCH_ROW_IN_TRG" 1363 "There is no %s row in %s trigger";
  ErRow "ER_NO_DEFAULT_FOR_FIELD" 1364 "Field '%-.192s' doesn't have a default value";
  ErRow "ER_DIVISION_BY_ZERO" 1365 "Division by 0";
  ErRow "ER_TRUNCATED_WRONG_VALUE_FOR_FIELD" 1366 "Incorrect %-.32s value: '%-.128s' for column '%.192s' at row %ld";
  ErRow "ER_ILLEGAL_VALUE_FOR_TYPE" 1367 "Illegal %s '%-.192s' value found during parsing";
  ErRow "ER_VIEW_NONUPD_CHECK" 1368 "CHECK OPTION on non-updatable view '%-.192s.%-.192s'";
  ErRow "ER_VIEW_CHECK_FAILED" 1369 "CHECK OPTION failed '%-.192s.%-.192s'";
  ErRow "ER_PROCACCESS_DENIED_ERROR" 1370 "%-.16s command denied to user '%-.48s'@'%-.64s' for routine '%-.192s'";
  ErRow "ER_RELAY_LOG_FAIL" 1371 "Failed purging old relay logs: %s";
  ErRow "ER_PASSWD_LENGTH" 1372 "Password hash should be a %d-digit hexadecimal number";
  ErRow "ER_UNKNOWN_TARGET_BINLOG" 1373 "Target log not found in binlog index";
  ErRow "ER_IO_ERR_LOG_INDEX_READ" 1374 "I/O error reading log index file";
  ErRow "ER_BINLOG_PURGE_PROHIBITED" 1375 "Server configuration does not permit binlog purge";
  ErRow "ER_FSEEK_FAIL" 1376 "Failed on fseek()";
  ErRow "ER_BINLOG_PURGE_FATAL_ERR" 1377 "Fatal error during log purge";
  ErRow "ER_LOG_IN_USE" 1378 "A purgeable log is in use, will not purge";
  ErRow "ER_LOG_PURGE_UNKNOWN_ERR" 1379 "Unknown error during log purge";
  ErRow "ER_RELAY_LOG_INIT" 1380 "Failed initializing relay log position: %s";
  ErRow "ER_NO_BINARY_LOGGING" 1381 "You are not using binary logging";
  ErRow "ER_RESERVED_SYNTAX" 1382 "The '%-.64s' syntax is reserved for purposes internal to the MySQL server";
  ErRow "ER_WSAS_FAILED" 1383 "WSAStartup Failed";
  ErRow "ER_DIFF_GROUPS_PROC" 1384 "Can't handle procedures with different groups yet";
  ErRow "ER_NO_GROUP_FOR_PROC" 1385 "Select must have a group with this procedure";
  ErRow "ER_ORDER_WITH_PROC" 1386 "Can't use ORDER clause with this procedure";
  ErRow "ER_LOGGING_PROHIBIT_CHANGING_OF" 1387 "Binary logging and replication forbid changing the global server %s";
  ErRow "ER_NO_FILE_MAPPING" 1388 "Can't map file: %-.200s, errno: %d";
  ErRow "ER_WRONG_MAGIC" 1389 "Wrong magic in %-.64s";
  ErRow "ER_PS_MANY_PARAM" 1390 "Prepared statement contains too many placeholders";
  ErRow "ER_KEY_PART_0" 1391 "Key part '%-.192s' length cannot be 0";
  ErRow "ER_VIEW_CHECKSUM" 1392 "View text checksum failed";
  ErRow "ER_VIEW_MULTIUPDATE" 1393 "Can not modify more than one base table through a join view '%-.192s.%-.192s'";
  ErRow "ER_VIEW_NO_INSERT_FIELD_LIST" 1394 "Can not insert into join view '%-.192s.%-.192s' without fields list";
  ErRow "ER_VIEW_DELETE_MERGE_VIEW" 1395 "Can not delete from join view '%-.192s.%-.192s'";
  ErRow "ER_CANNOT_USER" 1396 "Operation %s failed for %.256s";
  ErRow "ER_XAER_NOTA" 1397 "XAER_NOTA: Unknown XID";
  ErRow "ER_XAER_INVAL" 1398 "XAER_INVAL: Invalid arguments (or unsupported command)";
  ErRow "ER_XAER_RMFAIL" 1399 "XAER_RMFAIL: The command cannot be executed when global transaction is in the  %.64s state";
  ErRow "ER_XAER_OUTSIDE" 1400 "XAER_OUTSIDE: Some work is done outside global transaction";
  ErRow "ER_XAER_RMERR" 1401 "XAER_RMERR: Fatal error occurred in the transaction branch - check your data for consistency";
  ErRow "ER_XA_RBROLLBACK" 1402 "XA_RBROLLBACK: Transaction branch was rolled back";
  ErRow "ER_NONEXISTING_PROC_GRANT" 1403 "There is no such grant defined for user '%-.48s' on host '%-.64s' on routine '%-.192s'";
  ErRow "ER_PROC_AUTO_GRANT_FAIL" 1404 "Failed to grant EXECUTE and ALTER ROUTINE privileges";
  ErRow "ER_PROC_AUTO_REVOKE_FAIL" 1405 "Failed to revoke all privileges to dropped routine";
  ErRow "ER_DATA_TOO_LONG" 1406 "Data too long for column '%s' at row %ld";
  ErRow "ER_SP_BAD_SQLSTATE" 1407 "Bad SQLSTATE: '%s'";
  ErRow "ER_STARTUP" 1408 "%s: ready for connections.^Version: '%s'  socket: '%s'  port: %d  %s";
  ErRow "ER_LOAD_FROM_FIXED_SIZE_ROWS_TO_VAR" 1409 "Can't load value from file with fixed size rows to variable";
  ErRow "ER_CANT_CREATE_USER_WITH_GRANT" 1410 "You are not allowed to create a user with GRANT";
  ErRow "ER_WRONG_VALUE_FOR_TYPE" 1411 "Incorrect %-.32s value: '%-.128s' for function %-.32s";
  ErRow "ER_TABLE_DEF_CHANGED" 1412 "Table definition has changed, please retry transaction";
  ErRow "ER_SP_DUP_HANDLER" 1413 "Duplicate handler declared in the same block";
  ErRow "ER_SP_NOT_VAR_ARG" 1414 "OUT or INOUT argument %d for routine %s is not a variable or NEW pseudo-variable in BEFORE trigger";
  ErRow "ER_SP_NO_RETSET" 1415 "Not allowed to return a result set from a %s";
  ErRow "ER_CANT_CREATE_GEOMETRY_OBJECT" 1416 "Cannot get geometry object from data you send to the GEOMETRY field";
  ErRow "ER_FAILED_ROUTINE_BREAK_BINLOG" 1417 "A routine failed and has neither NO SQL nor READS SQL DATA in its declaration and binary logging is enabled; if non-transactional tables were updated, the binary log will miss their changes";
  ErRow "ER_BINLOG_UNSAFE_ROUTINE" 1418 "This function has none of DETERMINISTIC, NO SQL, or READS SQL DATA in its declaration and binary logging is enabled (you *might* want to use the less safe log_bin_trust_function_creators variable)";
  ErRow "ER_BINLOG_CREATE_ROUTINE_NEED_SUPER" 1419 "You do not have the SUPER privilege and binary logging is enabled (you *might* want to use the less safe log_bin_trust_function_creators variable)";
  ErRow "ER_EXEC_STMT_WITH_OPEN_CURSOR" 1420 "You can't execute a prepared statement which has an open cursor associated with it. Reset the statement to re-execute it.";
  ErRow "ER_STMT_HAS_NO_OPEN_CURSOR" 1421 "The statement (%lu) has no open cursor.";
  ErRow "ER_COMMIT_NOT_ALLOWED_IN_SF_OR_TRG" 1422 "Explicit or implicit commit is not allowed in stored function or trigger.";
  ErRow "ER_NO_DEFAULT_FOR_VIEW_FIELD" 1423 "Field of view '%-.192s.%-.192s' underlying table doesn't have a default value";
  ErRow "ER_SP_NO_RECURSION" 1424 "Recursive stored functions and triggers are not allowed.";
  ErRow "ER_TOO_BIG_SCALE" 1425 "Too big scale %d specified for column '%-.192s'. Maximum is %lu.";
  ErRow "ER_TOO_BIG_PRECISION" 1426 "Too big precision %d specified for column '%-.192s'. Maximum is %lu.";
  ErRow "ER_M_BIGGER_THAN_D" 1427 "For float(M,D), double(M,D) or decimal(M,D), M must be >= D (column '%-.192s').";
  ErRow "ER_WRONG_LOCK_OF_SYSTEM_TABLE" 1428 "You can't combine write-locking of system tables with other tables or lock types";
  ErRow "ER_CONNECT_TO_FOREIGN_DATA_SOURCE" 1429 "Unable to connect to foreign data source: %.64s";
  ErRow "ER_QUERY_ON_FOREIGN_DATA_SOURCE" 1430 "There was a problem processing the query on the foreign data source. Data source error: %-.64s";
  ErRow "ER_FOREIGN_DATA_SOURCE_DOESNT_EXIST" 1431 "The foreign data source you are trying to reference does not exist. Data source error:  %-.64s";
  ErRow "ER_FOREIGN_DATA_STRING_INVALID_CANT_CREATE" 1432 "Can't create federated table. The data source connection string '%-.64s' is not in the correct format";
  ErRow "ER_FOREIGN_DATA_STRING_INVALID" 1433 "The data source connection string '%-.64s' is not in the correct format";
  ErRow "ER_CANT_CREATE_FEDERATED_TABLE" 1434 "Can't create federated table. Foreign data src error:  %-.64s";
  ErRow "ER_TRG_IN_WRONG_SCHEMA" 1435 "Trigger in wrong schema";
  ErRow "ER_STACK_OVERRUN_NEED_MORE" 1436 "Thread stack overrun:  %ld bytes used of a %ld byte stack, and %ld bytes needed.  Use 'mysqld --thread_stack=#' to specify a bigger stack.";
  ErRow "ER_TOO_LONG_BODY" 1437 "Routine body for '%-.100s' is too long"].

Definition er_rows_4 : list er_row := [
  ErRow "ER_WARN_CANT_DROP_DEFAULT_KEYCACHE" 1438 "Cannot drop default keycache";
  ErRow "ER_TOO_BIG_DISPLAYWIDTH" 1439 "Display width out of range for column '%-.192s' (max = %lu)";
  ErRow "ER_XAER_DUPID" 1440 "XAER_DUPID: The XID already exists";
  ErRow "ER_DATETIME_FUNCTION_OVERFLOW" 1441 "Datetime function: %-.32s field overflow";
  ErRow "ER_CANT_UPDATE_USED_TABLE_IN_SF_OR_TRG" 1442 "Can't update table '%-.192s' in stored function/trigger because it is already used by statement which invoked this stored function/trigger.";
  ErRow "ER_VIEW_PREVENT_UPDATE" 1443 "The definition of table '%-.192s' prevents operation %.192s on table '%-.192s'.";
  ErRow "ER_PS_NO_RECURSION" 1444 "The prepared statement contains a stored routine call that refers to that same statement. It's not allowed to execute a prepared statement in such a recursive manner";
  ErRow "ER_SP_CANT_SET_AUTOCOMMIT" 1445 "Not allowed to set autocommit from a stored function or trigger";
  ErRow "ER_MALFORMED_DEFINER" 1446 "Definer is not fully qualified";
  ErRow "ER_VIEW_FRM_NO_USER" 1447 "View '%-.192s'.'%-.192s' has no definer information (old table format). Current user is used as definer. Please recreate the view!";
  ErRow "ER_VIEW_OTHER_USER" 1448 "You need the SUPER privilege for creation view with '%-.192s'@'%-.192s' definer";
  ErRow "ER_NO_SUCH_USER" 1449 "The user specified as a definer ('%-.64s'@'%-.64s') does not exist";
  ErRow "ER_FORBID_SCHEMA_CHANGE" 1450 "Changing schema from '%-.192s' to '%-.192s' is not allowed.";
  ErRow "ER_ROW_IS_REFERENCED_2" 1451 "Cannot delete or update a parent row: a foreign key constraint fails (%.192s)";
  ErRow "ER_NO_REFERENCED_ROW_2" 1452 "Cannot add or update a child row: a foreign key constraint fails (%.192s)";
  ErRow "ER_SP_BAD_VAR_SHADOW" 1453 "Variable '%-.64s' must be quoted with `...`, or renamed";
  ErRow "ER_TRG_NO_DEFINER" 1454 "No definer attribute for trigger '%-.192s'.'%-.192s'. The trigger will be activated under the authorization of the invoker, which may have insufficient privileges. Please recreate the trigger.";
  ErRow "ER_OLD_FILE_FORMAT" 1455 "'%-.192s' has an old format, you should re-create the '%s' object(s)";
  ErRow "ER_SP_RECURSION_LIMIT" 1456 "Recursive limit %d (as set by the max_sp_recursion_depth variable) was exceeded for routine %.192s";
  ErRow "ER_SP_PROC_TABLE_CORRUPT" 1457 "Failed to load routine %-.192s. The table mysql.proc is missing, corrupt, or contains bad data (internal code %d)";
  ErRow "ER_SP_WRONG_NAME" 1458 "Incorrect routine name '%-.192s'";
  ErRow "ER_TABLE_NEEDS_UPGRADE" 1459 "Table upgrade required. Please do ~REPAIR TABLE `%-.32s`~ or dump/reload to fix it!";
  ErRow "ER_SP_NO_AGGREGATE" 1460 "AGGREGATE is not supported for stored functions";
  ErRow "ER_MAX_PREPARED_STMT_COUNT_REACHED" 1461 "Can't create more than max_prepared_stmt_count statements (current value: %lu)";
  ErRow "ER_VIEW_RECURSIVE" 1462 "`%-.192s`.`%-.192s` contains view recursion";
  ErRow "ER_NON_GROUPING_FIELD_USED" 1463 "Non-grouping field '%-.192s' is used in %-.64s clause";
  ErRow "ER_TABLE_CANT_HANDLE_SPKEYS" 1464 "The used table type doesn't support SPATIAL indexes";
  ErRow "ER_NO_TRIGGERS_ON_SYSTEM_SCHEMA" 1465 "Triggers can not be created on system tables";
  ErRow "ER_REMOVED_SPACES" 1466 "Leading spaces are removed from name '%s'";
  ErRow "ER_AUTOINC_READ_FAILED" 1467 "Failed to read auto-increment value from storage engine";
  ErRow "ER_USERNAME" 1468 "user name";
  ErRow "ER_HOSTNAME" 1469 "host name";
  ErRow "ER_WRONG_STRING_LENGTH" 1470 "String '%-.70s' is too long for %s (should be no longer than %d)";
  ErRow "ER_NON_INSERTABLE_TABLE" 1471 "The target table %-.100s of the %s is not insertable-into";
  ErRow "ER_ADMIN_WRONG_MRG_TABLE" 1472 "Table '%-.64s' is differently defined or of non-MyISAM type or doesn't exist";
  ErRow "ER_TOO_HIGH_LEVEL_OF_NESTING_FOR_SELECT" 1473 "Too high level of nesting for select";
  ErRow "ER_NAME_BECOMES_EMPTY" 1474 "Name '%-.64s' has become ''";
  ErRow "ER_AMBIGUOUS_FIELD_TERM" 1475 "First character of the FIELDS TERMINATED string is ambiguous; please use non-optional and non-empty FIELDS ENCLOSED BY";
  ErRow "ER_FOREIGN_SERVER_EXISTS" 1476 "The foreign server, %s, you are trying to create already exists.";
  ErRow "ER_FOREIGN_SERVER_DOESNT_EXIST" 1477 "The foreign server name you are trying to reference does not exist. Data source error:  %-.64s";
  ErRow "ER_ILLEGAL_HA_CREATE_OPTION" 1478 "Table storage engine '%-.64s' does not support the create option '%.64s'";
  ErRow "ER_PARTITION_REQUIRES_VALUES_ERROR" 1479 "Syntax error: %-.64s PARTITIONING requires definition of VALUES %-.64s for each partition";
  ErRow "ER_PARTITION_WRONG_VALUES_ERROR" 1480 "Only %-.64s PARTITIONING can use VALUES %-.64s in partition definition";
  ErRow "ER_PARTITION_MAXVALUE_ERROR" 1481 "MAXVALUE can only be used in last partition definition";
  ErRow "ER_PARTITION_SUBPARTITION_ERROR" 1482 "Subpartitions can only be hash partitions and by key";
  ErRow "ER_PARTITION_SUBPART_MIX_ERROR" 1483 "Must define subpartitions on all partitions if on one partition";
  ErRow "ER_PARTITION_WRONG_NO_PART_ERROR" 1484 "Wrong number of partitions defined, mismatch with previous setting";
  ErRow "ER_PARTITION_WRONG_NO_SUBPART_ERROR" 1485 "Wrong number of subpartitions defined, mismatch with previous setting";
  ErRow "ER_WRONG_EXPR_IN_PARTITION_FUNC_ERROR" 1486 "Constant, random or timezone-dependent expressions in (sub)partitioning function are not allowed";
  ErRow "ER_NO_CONST_EXPR_IN_RANGE_OR_LIST_ERROR" 1487 "Expression in RANGE/LIST VALUES must be constant";
  ErRow "ER_FIELD_NOT_FOUND_PART_ERROR" 1488 "Field in list of fields for partition function not found in table";
  ErRow "ER_LIST_OF_FIELDS_ONLY_IN_HASH_ERROR" 1489 "List of fields is only allowed in KEY partitions";
  ErRow "ER_INCONSISTENT_PARTITION_INFO_ERROR" 1490 "The partition info in the frm file is not consistent with what can be written into the frm file";
  ErRow "ER_PARTITION_FUNC_NOT_ALLOWED_ERROR" 1491 "The %-.192s function returns the wrong type";
  ErRow "ER_PARTITIONS_MUST_BE_DEFINED_ERROR" 1492 "For %-.64s partitions each partition must be defined";
  ErRow "ER_RANGE_NOT_INCREASING_ERROR" 1493 "VALUES LESS THAN value must be strictly increasing for each partition";
  ErRow "ER_INCONSISTENT_TYPE_OF_FUNCTIONS_ERROR" 1494 "VALUES value must be of same type as partition function";
  ErRow "ER_MULTIPLE_DEF_CONST_IN_LIST_PART_ERROR" 1495 "Multiple definition of same constant in list partitioning";
  ErRow "ER_PARTITION_ENTRY_ERROR" 1496 "Partitioning can not be used stand-alone in query";
  ErRow "ER_MIX_HANDLER_ERROR" 1497 "The mix of handlers in the partitions is not allowed in this version of MySQL";
  ErRow "ER_PARTITION_NOT_DEFINED_ERROR" 1498 "For the partitioned engine it is necessary to define all %-.64s";
  ErRow "ER_TOO_MANY_PARTITIONS_ERROR" 1499 "Too many partitions (including subpartitions) were defined";
  ErRow "ER_SUBPARTITION_ERROR" 1500 "It is only possible to mix RANGE/LIST partitioning with HASH/KEY partitioning for subpartitioning";
  ErRow "ER_CANT_CREATE_HANDLER_FILE" 1501 "Failed to create specific handler file";
  ErRow "ER_BLOB_FIELD_IN_PART_FUNC_ERROR" 1502 "A BLOB field is not allowed in partition function";
  ErRow "ER_UNIQUE_KEY_NEED_ALL_FIELDS_IN_PF" 1503 "A %-.192s must include all columns in the table's partitioning function";
  ErRow "ER_NO_PARTS_ERROR" 1504 "Number of %-.64s = 0 is not an allowed value";
  ErRow "ER_PARTITION_MGMT_ON_NONPARTITIONED" 1505 "Partition management on a not partitioned table is not possible";
  ErRow "ER_FOREIGN_KEY_ON_PARTITIONED" 1506 "Foreign key clause is not yet supported in conjunction with partitioning";
  ErRow "ER_DROP_PARTITION_NON_EXISTENT" 1507 "Error in list of partitions to %-.64s";
  ErRow "ER_DROP_LAST_PARTITION" 1508 "Cannot remove all partitions, use DROP TABLE instead";
  ErRow "ER_COALESCE_ONLY_ON_HASH_PARTITION" 1509 "COALESCE PARTITION can only be used on HASH/KEY partitions";
  ErRow "ER_REORG_HASH_ONLY_ON_SAME_NO" 1510 "REORGANIZE PARTITION can only be used to reorganize partitions not to change their numbers";
  ErRow "ER_REORG_NO_PARAM_ERROR" 1511 "REORGANIZE PARTITION without parameters can only be used on auto-partitioned tables using HASH PARTITIONs";
  ErRow "ER_ONLY_ON_RANGE_LIST_PARTITION" 1512 "%-.64s PARTITION can only be used on RANGE/LIST partitions";
  ErRow "ER_ADD_PARTITION_SUBPART_ERROR" 1513 "Trying to Add partition(s) with wrong number of subpartitions";
  ErRow "ER_ADD_PARTITION_NO_NEW_PARTITION" 1514 "At least one partition must be added";
  ErRow "ER_COALESCE_PARTITION_NO_PARTITION" 1515 "At least one partition must be coalesced";
  ErRow "ER_REORG_PARTITION_NOT_EXIST" 1516 "More partitions to reorganize than there are partitions";
  ErRow "ER_SAME_NAME_PARTITION" 1517 "Duplicate partition name %-.192s";
  ErRow "ER_NO_BINLOG_ERROR" 1518 "It is not allowed to shut off binlog on this command";
  ErRow "ER_CONSECUTIVE_REORG_PARTITIONS" 1519 "When reorganizing a set of partitions they must be in consecutive order";
  ErRow "ER_REORG_OUTSIDE_RANGE" 1520 "Reorganize of range partitions cannot change total ranges except for last partition where it can extend the range";
  ErRow "ER_PARTITION_FUNCTION_FAILURE" 1521 "Partition function not supported in this version for this handler";
  ErRow "ER_PART_STATE_ERROR" 1522 "Partition state cannot be defined from CREATE/ALTER TABLE";
  ErRow "ER_LIMITED_PART_RANGE" 1523 "The %-.64s handler only supports 32 bit integers in VALUES";
  ErRow "ER_PLUGIN_IS_NOT_LOADED" 1524 "Plugin '%-.192s' is not loaded";
  ErRow "ER_WRONG_VALUE" 1525 "Incorrect %-.32s value: '%-.128s'";
  ErRow "ER_NO_PARTITION_FOR_GIVEN_VALUE" 1526 "Table has no partition for value %-.64s";
  ErRow "ER_FILEGROUP_OPTION_ONLY_ONCE" 1527 "It is not allowed to specify %s more than once";
  ErRow "ER_CREATE_FILEGROUP_FAILED" 1528 "Failed to create %s";
  ErRow "ER_DROP_FILEGROUP_FAILED" 1529 "Failed to drop %s";
  ErRow "ER_TABLESPACE_AUTO_EXTEND_ERROR" 1530 "The handler doesn't support autoextend of tablespaces";
  ErRow "ER_WRONG_SIZE_NUMBER" 1531 "A size parameter was incorrectly specified, either number or on the form 10M";
  ErRow "ER_SIZE_OVERFLOW_ERROR" 1532 "The size number was correct but we don't allow the digit part to be more than 2 billion";
  ErRow "ER_ALTER_FILEGROUP_FAILED" 1533 "Failed to alter: %s";
  ErRow "ER_BINLOG_ROW_LOGGING_FAILED" 1534 "Writing one row to the row-based binary log failed";
  ErRow "ER_BINLOG_ROW_WRONG_TABLE_DEF" 1535 "Table definition on master and slave does not match: %s";
  ErRow "ER_BINLOG_ROW_RBR_TO_SBR" 1536 "Slave running with --log-slave-updates must use row-based binary logging to be able to replicate row-based binary log events";
  ErRow "ER_EVENT_ALREADY_EXISTS" 1537 "Event '%-.192s' already exists";
  ErRow "ER_EVENT_STORE_FAILED" 1538 "Failed to store event %s. Error code %d from storage engine.";
  ErRow "ER_EVENT_DOES_NOT_EXIST" 1539 "Unknown event '%-.192s'";
  ErRow "ER_EVENT_CANT_ALTER" 1540 "Failed to alter event '%-.192s'";
  ErRow "ER_EVENT_DROP_FAILED" 1541 "Failed to drop %s";
  ErRow "ER_EVENT_INTERVAL_NOT_POSITIVE_OR_TOO_BIG" 1542 "INTERVAL is either not positive or too big";
  ErRow "ER_EVENT_ENDS_BEFORE_STARTS" 1543 "ENDS is either invalid or before STARTS";
  ErRow "ER_EVENT_EXEC_TIME_IN_THE_PAST" 1544 "Event execution time is in the past. Event has been disabled";
  ErRow "ER_EVENT_OPEN_TABLE_FAILED" 1545 "Failed to open mysql.event";
  ErRow "ER_EVENT_NEITHER_M_EXPR_NOR_M_AT" 1546 "No datetime expression provided";
  ErRow "ER_COL_COUNT_DOESNT_MATCH_CORRUPTED" 1547 "Column count of mysql.%s is wrong. Expected %d, found %d. The table is probably corrupted";
  ErRow "ER_CANNOT_LOAD_FROM_TABLE" 1548 "Cannot load from mysql.%s. The table is probably corrupted";
  ErRow "ER_EVENT_CANNOT_DELETE" 1549 "Failed to delete the event from mysql.event";
  ErRow "ER_EVENT_COMPILE_ERROR" 1550 "Error during compilation of event's body";
  ErRow "ER_EVENT_SAME_NAME" 1551 "Same old and new event name";
  ErRow "ER_EVENT_DATA_TOO_LONG" 1552 "Data for column '%s' too long";
  ErRow "ER_DROP_INDEX_FK" 1553 "Cannot drop index '%-.192s': needed in a foreign key constraint";
  ErRow "ER_WARN_DEPRECATED_SYNTAX_WITH_VER" 1554 "The syntax '%s' is deprecated and will be removed in MySQL %s. Please use %s instead";
  ErRow "ER_CANT_WRITE_LOCK_LOG_TABLE" 1555 "You can't write-lock a log table. Only read access is possible";
  ErRow "ER_CANT_LOCK_LOG_TABLE" 1556 "You can't use locks with log tables.";
  ErRow "ER_FOREIGN_DUPLICATE_KEY" 1557 "Upholding foreign key constraints for table '%.192s', entry '%-.192s', key %d would lead to a duplicate entry";
  ErRow "ER_COL_COUNT_DOESNT_MATCH_PLEASE_UPDATE" 1558 "Column count of mysql.%s is wrong. Expected %d, found %d. Created with MySQL %d, now running %d. Please use mysql_upgrade to fix this error.";
  ErRow "ER_TEMP_TABLE_PREVENTS_SWITCH_OUT_OF_RBR" 1559 "Cannot switch out of the row-based binary log format when the session has open temporary tables";
  ErRow "ER_STORED_FUNCTION_PREVENTS_SWITCH_BINLOG_FORMAT" 1560 "Cannot change the binary logging format inside a stored function or trigger";
  ErRow "ER_NDB_CANT_SWITCH_BINLOG_FORMAT" 1561 "The NDB cluster engine does not support changing the binlog format on the fly yet";
  ErRow "ER_PARTITION_NO_TEMPORARY" 1562 "Cannot create temporary table with partitions";
  ErRow "ER_PARTITION_CONST_DOMAIN_ERROR" 1563 "Partition constant is out of partition function domain";
  ErRow "ER_PARTITION_FUNCTION_IS_NOT_ALLOWED" 1564 "This partition function is not allowed";
  ErRow "ER_DDL_LOG_ERROR" 1565 "Error in DDL log";
  ErRow "ER_NULL_IN_VALUES_LESS_THAN" 1566 "Not allowed to use NULL value in VALUES LESS THAN";
  ErRow "ER_WRONG_PARTITION_NAME" 1567 "Incorrect partition name";
  ErRow "ER_CANT_CHANGE_TX_ISOLATION" 1568 "Transaction isolation level can't be changed while a transaction is in progress";
  ErRow "ER_DUP_ENTRY_AUTOINCREMENT_CASE" 1569 "ALTER TABLE causes auto_increment resequencing, resulting in duplicate entry '%-.192s' for key '%-.192s'";
  ErRow "ER_EVENT_MODIFY_QUEUE_ERROR" 1570 "Internal scheduler error %d";
  ErRow "ER_EVENT_SET_VAR_ERROR" 1571 "Error during starting/stopping of the scheduler. Error code %u";
  ErRow "ER_PARTITION_MERGE_ERROR" 1572 "Engine cannot be used in partitioned tables";
  ErRow "ER_CANT_ACTIVATE_LOG" 1573 "Cannot activate '%-.64s' log";
  ErRow "ER_RBR_NOT_AVAILABLE" 1574 "The server was not built with row-based replication";
  ErRow "ER_BASE64_DECODE_ERROR" 1575 "Decoding of base64 string failed";
  ErRow "ER_EVENT_RECURSION_FORBIDDEN" 1576 "Recursion of EVENT DDL statements is forbidden when body is present";
  ErRow "ER_EVENTS_DB_ERROR" 1577 "Cannot proceed because system tables used by Event Scheduler were found damaged at server start";
  ErRow "ER_ONLY_INTEGERS_ALLOWED" 1578 "Only integers allowed as number here";
  ErRow "ER_UNSUPORTED_LOG_ENGINE" 1579 "This storage engine cannot be used for log tables~";
  ErRow "ER_BAD_LOG_STATEMENT" 1580 "You cannot '%s' a log table if logging is enabled";
  ErRow "ER_CANT_RENAME_LOG_TABLE" 1581 "Cannot rename '%s'. When logging enabled, rename to/from log table must rename two tables: the log table to an archive table and another table back to '%s'";
  ErRow "ER_WRONG_PARAMCOUNT_TO_NATIVE_FCT" 1582 "Incorrect parameter count in the call to native function '%-.192s'";
  ErRow "ER_WRONG_PARAMETERS_TO_NATIVE_FCT" 1583 "Incorrect parameters in the call to native function '%-.192s'"].

Definition er_rows_5 : list er_row := [
  ErRow "ER_WRONG_PARAMETERS_TO_STORED_FCT" 1584 "Incorrect parameters in the call to stored function '%-.192s'";
  ErRow "ER_NATIVE_FCT_NAME_COLLISION" 1585 "This function '%-.192s' has the same name as a native function";
  ErRow "ER_DUP_ENTRY_WITH_KEY_NAME" 1586 "Duplicate entry '%-.64s' for key '%-.192s'";
  ErRow "ER_BINLOG_PURGE_EMFILE" 1587 "Too many files opened, please execute the command again";
  ErRow "ER_EVENT_CANNOT_CREATE_IN_THE_PAST" 1588 "Event execution time is in the past and ON COMPLETION NOT PRESERVE is set. The event was dropped immediately after creation.";
  ErRow "ER_EVENT_CANNOT_ALTER_IN_THE_PAST" 1589 "Event execution time is in the past and ON COMPLETION NOT PRESERVE is set. The event was dropped immediately after creation.";
  ErRow "ER_SLAVE_INCIDENT" 1590 "The incident %s occured on the master. Message: %-.64s";
  ErRow "ER_NO_PARTITION_FOR_GIVEN_VALUE_SILENT" 1591 "Table has no partition for some existing values";
  ErRow "ER_BINLOG_UNSAFE_STATEMENT" 1592 "Unsafe statement written to the binary log using statement format since BINLOG_FORMAT = STATEMENT. %s";
  ErRow "ER_SLAVE_FATAL_ERROR" 1593 "Fatal error: %s";
  ErRow "ER_SLAVE_RELAY_LOG_READ_FAILURE" 1594 "Relay log read failure: %s";
  ErRow "ER_SLAVE_RELAY_LOG_WRITE_FAILURE" 1595 "Relay log write failure: %s";
  ErRow "ER_SLAVE_CREATE_EVENT_FAILURE" 1596 "Failed to create %s";
  ErRow "ER_SLAVE_MASTER_COM_FAILURE" 1597 "Master command %s failed: %s";
  ErRow "ER_BINLOG_LOGGING_IMPOSSIBLE" 1598 "Binary logging not possible. Message: %s";
  ErRow "ER_VIEW_NO_CREATION_CTX" 1599 "View `%-.64s`.`%-.64s` has no creation context";
  ErRow "ER_VIEW_INVALID_CREATION_CTX" 1600 "Creation context of view `%-.64s`.`%-.64s' is invalid";
  ErRow "ER_SR_INVALID_CREATION_CTX" 1601 "Creation context of stored routine `%-.64s`.`%-.64s` is invalid";
  ErRow "ER_TRG_CORRUPTED_FILE" 1602 "Corrupted TRG file for table `%-.64s`.`%-.64s`";
  ErRow "ER_TRG_NO_CREATION_CTX" 1603 "Triggers for table `%-.64s`.`%-.64s` have no creation context";
  ErRow "ER_TRG_INVALID_CREATION_CTX" 1604 "Trigger creation context of table `%-.64s`.`%-.64s` is invalid";
  ErRow "ER_EVENT_INVALID_CREATION_CTX" 1605 "Creation context of event `%-.64s`.`%-.64s` is invalid";
  ErRow "ER_TRG_CANT_OPEN_TABLE" 1606 "Cannot open table for trigger `%-.64s`.`%-.64s`";
  ErRow "ER_CANT_CREATE_SROUTINE" 1607 "Cannot create stored routine `%-.64s`. Check warnings";
  ErRow "ER_NEVER_USED" 1608 "Ambiguous slave modes combination. %s";
  ErRow "ER_NO_FORMAT_DESCRIPTION_EVENT_BEFORE_BINLOG_STATEMENT" 1609 "The BINLOG statement of type `%s` was not preceded by a format description BINLOG statement.";
  ErRow "ER_SLAVE_CORRUPT_EVENT" 1610 "Corrupted replication event was detected";
  ErRow "ER_LOAD_DATA_INVALID_COLUMN" 1611 "Invalid column reference (%-.64s) in LOAD DATA";
  ErRow "ER_LOG_PURGE_NO_FILE" 1612 "Being purged log %s was not found";
  ErRow "ER_XA_RBTIMEOUT" 1613 "XA_RBTIMEOUT: Transaction branch was rolled back: took too long";
  ErRow "ER_XA_RBDEADLOCK" 1614 "XA_RBDEADLOCK: Transaction branch was rolled back: deadlock was detected";
  ErRow "ER_NEED_REPREPARE" 1615 "Prepared statement needs to be re-prepared";
  ErRow "ER_DELAYED_NOT_SUPPORTED" 1616 "DELAYED option not supported for table '%-.192s'";
  ErRow "WARN_NO_MASTER_INFO" 1617 "The master info structure does not exist";
  ErRow "WARN_OPTION_IGNORED" 1618 "<%-.64s> option ignored";
  ErRow "WARN_PLUGIN_DELETE_BUILTIN" 1619 "Built-in plugins cannot be deleted";
  ErRow "WARN_PLUGIN_BUSY" 1620 "Plugin is busy and will be uninstalled on shutdown";
  ErRow "ER_VARIABLE_IS_READONLY" 1621 "%s variable '%s' is read-only. Use SET %s to assign the value";
  ErRow "ER_WARN_ENGINE_TRANSACTION_ROLLBACK" 1622 "Storage engine %s does not support rollback for this statement. Transaction rolled back and must be restarted";
  ErRow "ER_SLAVE_HEARTBEAT_FAILURE" 1623 "Unexpected master's heartbeat data: %s";
  ErRow "ER_SLAVE_HEARTBEAT_VALUE_OUT_OF_RANGE" 1624 "The requested value for the heartbeat period is either negative or exceeds the maximum allowed (%s seconds).";
  ErRow "ER_NDB_REPLICATION_SCHEMA_ERROR" 1625 "Bad schema for mysql.ndb_replication table. Message: %-.64s";
  ErRow "ER_CONFLICT_FN_PARSE_ERROR" 1626 "Error in parsing conflict function. Message: %-.64s";
  ErRow "ER_EXCEPTIONS_WRITE_ERROR" 1627 "Write to exceptions table failed. Message: %-.128s~";
  ErRow "ER_TOO_LONG_TABLE_COMMENT" 1628 "Comment for table '%-.64s' is too long (max = %lu)";
  ErRow "ER_TOO_LONG_FIELD_COMMENT" 1629 "Comment for field '%-.64s' is too long (max = %lu)";
  ErRow "ER_FUNC_INEXISTENT_NAME_COLLISION" 1630 "FUNCTION %s does not exist. Check the 'Function Name Parsing and Resolution' section in the Reference Manual";
  ErRow "ER_DATABASE_NAME" 1631 "Database";
  ErRow "ER_TABLE_NAME" 1632 "Table";
  ErRow "ER_PARTITION_NAME" 1633 "Partition";
  ErRow "ER_SUBPARTITION_NAME" 1634 "Subpartition";
  ErRow "ER_TEMPORARY_NAME" 1635 "Temporary";
  ErRow "ER_RENAMED_NAME" 1636 "Renamed";
  ErRow "ER_TOO_MANY_CONCURRENT_TRXS" 1637 "Too many active concurrent transactions";
  ErRow "WARN_NON_ASCII_SEPARATOR_NOT_IMPLEMENTED" 1638 "Non-ASCII separator arguments are not fully supported";
  ErRow "ER_DEBUG_SYNC_TIMEOUT" 1639 "debug sync point wait timed out";
  ErRow "ER_DEBUG_SYNC_HIT_LIMIT" 1640 "debug sync point hit limit reached";
  ErRow "ER_DUP_SIGNAL_SET" 1641 "Duplicate condition information item '%s'";
  ErRow "ER_SIGNAL_WARN" 1642 "Unhandled user-defined warning condition";
  ErRow "ER_SIGNAL_NOT_FOUND" 1643 "Unhandled user-defined not found condition";
  ErRow "ER_SIGNAL_EXCEPTION" 1644 "Unhandled user-defined exception condition";
  ErRow "ER_RESIGNAL_WITHOUT_ACTIVE_HANDLER" 1645 "RESIGNAL when handler not active";
  ErRow "ER_SIGNAL_BAD_CONDITION_TYPE" 1646 "SIGNAL/RESIGNAL can only use a CONDITION defined with SQLSTATE";
  ErRow "WARN_COND_ITEM_TRUNCATED" 1647 "Data truncated for condition item '%s'";
  ErRow "ER_COND_ITEM_TOO_LONG" 1648 "Data too long for condition item '%s'";
  ErRow "ER_UNKNOWN_LOCALE" 1649 "Unknown locale: '%-.64s'";
  ErRow "ER_SLAVE_IGNORE_SERVER_IDS" 1650 "The requested server id %d clashes with the slave startup option --replicate-same-server-id";
  ErRow "ER_QUERY_CACHE_DISABLED" 1651 "Query cache is disabled; restart the server with query_cache_type=1 to enable it";
  ErRow "ER_SAME_NAME_PARTITION_FIELD" 1652 "Duplicate partition field name '%-.192s'";
  ErRow "ER_PARTITION_COLUMN_LIST_ERROR" 1653 "Inconsistency in usage of column lists for partitioning";
  ErRow "ER_WRONG_TYPE_COLUMN_VALUE_ERROR" 1654 "Partition column values of incorrect type";
  ErRow "ER_TOO_MANY_PARTITION_FUNC_FIELDS_ERROR" 1655 "Too many fields in '%-.192s'";
  ErRow "ER_MAXVALUE_IN_VALUES_IN" 1656 "Cannot use MAXVALUE as value in VALUES IN";
  ErRow "ER_TOO_MANY_VALUES_ERROR" 1657 "Cannot have more than one value for this type of %-.64s partitioning";
  ErRow "ER_ROW_SINGLE_PARTITION_FIELD_ERROR" 1658 "Row expressions in VALUES IN only allowed for multi-field column partitioning";
  ErRow "ER_FIELD_TYPE_NOT_ALLOWED_AS_PARTITION_FIELD" 1659 "Field '%-.192s' is of a not allowed type for this type of partitioning";
  ErRow "ER_PARTITION_FIELDS_TOO_LONG" 1660 "The total length of the partitioning fields is too large";
  ErRow "ER_BINLOG_ROW_ENGINE_AND_STMT_ENGINE" 1661 "Cannot execute statement: impossible to write to binary log since both row-incapable engines and statement-incapable engines are involved.";
  ErRow "ER_BINLOG_ROW_MODE_AND_STMT_ENGINE" 1662 "Cannot execute statement: impossible to write to binary log since BINLOG_FORMAT = ROW and at least one table uses a storage engine limited to statement-based logging.";
  ErRow "ER_BINLOG_UNSAFE_AND_STMT_ENGINE" 1663 "Cannot execute statement: impossible to write to binary log since statement is unsafe, storage engine is limited to statement-based logging, and BINLOG_FORMAT = MIXED. %s";
  ErRow "ER_BINLOG_ROW_INJECTION_AND_STMT_ENGINE" 1664 "Cannot execute statement: impossible to write to binary log since statement is in row format and at least one table uses a storage engine limited to statement-based logging.";
  ErRow "ER_BINLOG_STMT_MODE_AND_ROW_ENGINE" 1665 "Cannot execute statement: impossible to write to binary log since BINLOG_FORMAT = STATEMENT and at least one table uses a storage engine limited to row-based logging.%s";
  ErRow "ER_BINLOG_ROW_INJECTION_AND_STMT_MODE" 1666 "Cannot execute statement: impossible to write to binary log since statement is in row format and BINLOG_FORMAT = STATEMENT.";
  ErRow "ER_BINLOG_MULTIPLE_ENGINES_AND_SELF_LOGGING_ENGINE" 1667 "Cannot execute statement: impossible to write to binary log since more than one engine is involved and at least one engine is self-logging.";
  ErRow "ER_BINLOG_UNSAFE_LIMIT" 1668 "The statement is unsafe because it uses a LIMIT clause. This is unsafe because the set of rows included cannot be predicted.";
  ErRow "ER_BINLOG_UNSAFE_INSERT_DELAYED" 1669 "The statement is unsafe because it uses INSERT DELAYED. This is unsafe because the times when rows are inserted cannot be predicted.";
  ErRow "ER_BINLOG_UNSAFE_SYSTEM_TABLE" 1670 "The statement is unsafe because it uses the general log, slow query log, or performance_schema table(s). This is unsafe because system tables may differ on slaves.";
  ErRow "ER_BINLOG_UNSAFE_AUTOINC_COLUMNS" 1671 "Statement is unsafe because it invokes a trigger or a stored function that inserts into an AUTO_INCREMENT column. Inserted values cannot be logged correctly.";
  ErRow "ER_BINLOG_UNSAFE_UDF" 1672 "Statement is unsafe because it uses a UDF which may not return the same value on the slave.";
  ErRow "ER_BINLOG_UNSAFE_SYSTEM_VARIABLE" 1673 "Statement is unsafe because it uses a system variable that may have a different value on the slave.";
  ErRow "ER_BINLOG_UNSAFE_SYSTEM_FUNCTION" 1674 "Statement is unsafe because it uses a system function that may return a different value on the slave.";
  ErRow "ER_BINLOG_UNSAFE_NONTRANS_AFTER_TRANS" 1675 "Statement is unsafe because it accesses a non-transactional table after accessing a transactional table within the same transaction.";
  ErRow "ER_MESSAGE_AND_STATEMENT" 1676 "%s Statement: %s";
  ErRow "ER_SLAVE_CONVERSION_FAILED" 1677 "Column %d of table '%-.192s.%-.192s' cannot be converted from type '%-.32s' to type '%-.32s'";
  ErRow "ER_SLAVE_CANT_CREATE_CONVERSION" 1678 "Can't create conversion table for table '%-.192s.%-.192s'";
  ErRow "ER_INSIDE_TRANSACTION_PREVENTS_SWITCH_BINLOG_FORMAT" 1679 "Cannot modify @@session.binlog_format inside a transaction";
  ErRow "ER_PATH_LENGTH" 1680 "The path specified for %.64s is too long.";
  ErRow "ER_WARN_DEPRECATED_SYNTAX_NO_REPLACEMENT" 1681 "'%s' is deprecated and will be removed in a future release.";
  ErRow "ER_WRONG_NATIVE_TABLE_STRUCTURE" 1682 "Native table '%-.64s'.'%-.64s' has the wrong structure";
  ErRow "ER_WRONG_PERFSCHEMA_USAGE" 1683 "Invalid performance_schema usage.";
  ErRow "ER_WARN_I_S_SKIPPED_TABLE" 1684 "Table '%s'.'%s' was skipped since its definition is being modified by concurrent DDL statement";
  ErRow "ER_INSIDE_TRANSACTION_PREVENTS_SWITCH_BINLOG_DIRECT" 1685 "Cannot modify @@session.binlog_direct_non_transactional_updates inside a transaction";
  ErRow "ER_STORED_FUNCTION_PREVENTS_SWITCH_BINLOG_DIRECT" 1686 "Cannot change the binlog direct flag inside a stored function or trigger";
  ErRow "ER_SPATIAL_MUST_HAVE_GEOM_COL" 1687 "A SPATIAL index may only contain a geometrical type column";
  ErRow "ER_TOO_LONG_INDEX_COMMENT" 1688 "Comment for index '%-.64s' is too long (max = %lu)";
  ErRow "ER_LOCK_ABORTED" 1689 "Wait on a lock was aborted due to a pending exclusive lock";
  ErRow "ER_DATA_OUT_OF_RANGE" 1690 "%s value is out of range in '%s'";
  ErRow "ER_WRONG_SPVAR_TYPE_IN_LIMIT" 1691 "A variable of a non-integer based type in LIMIT clause";
  ErRow "ER_BINLOG_UNSAFE_MULTIPLE_ENGINES_AND_SELF_LOGGING_ENGINE" 1692 "Mixing self-logging and non-self-logging engines in a statement is unsafe.";
  ErRow "ER_BINLOG_UNSAFE_MIXED_STATEMENT" 1693 "Statement accesses nontransactional table as well as transactional or temporary table, and writes to any of them.";
  ErRow "ER_INSIDE_TRANSACTION_PREVENTS_SWITCH_SQL_LOG_BIN" 1694 "Cannot modify @@session.sql_log_bin inside a transaction";
  ErRow "ER_STORED_FUNCTION_PREVENTS_SWITCH_SQL_LOG_BIN" 1695 "Cannot change the sql_log_bin inside a stored function or trigger";
  ErRow "ER_FAILED_READ_FROM_PAR_FILE" 1696 "Failed to read from the .par file";
  ErRow "ER_VALUES_IS_NOT_INT_TYPE_ERROR" 1697 "VALUES value for partition '%-.64s' must have type INT";
  ErRow "ER_ACCESS_DENIED_NO_PASSWORD_ERROR" 1698 "Access denied for user '%-.48s'@'%-.64s'";
  ErRow "ER_SET_PASSWORD_AUTH_PLUGIN" 1699 "SET PASSWORD has no significance for users authenticating via plugins";
  ErRow "ER_GRANT_PLUGIN_USER_EXISTS" 1700 "GRANT with IDENTIFIED WITH is illegal because the user %-.*s already exists";
  ErRow "ER_TRUNCATE_ILLEGAL_FK" 1701 "Cannot truncate a table referenced in a foreign key constraint (%.192s)";
  ErRow "ER_PLUGIN_IS_PERMANENT" 1702 "Plugin '%s' is force_plus_permanent and can not be unloaded";
  ErRow "ER_SLAVE_HEARTBEAT_VALUE_OUT_OF_RANGE_MIN" 1703 "The requested value for the heartbeat period is less than 1 millisecond. The value is reset to 0, meaning that heartbeating will effectively be disabled.";
  ErRow "ER_SLAVE_HEARTBEAT_VALUE_OUT_OF_RANGE_MAX" 1704 "The requested value for the heartbeat period exceeds the value of `slave_net_timeout' seconds. A sensible value for the period should be less than the timeout.";
  ErRow "ER_STMT_CACHE_FULL" 1705 "Multi-row statements required more than 'max_binlog_stmt_cache_size' bytes of storage; increase this mysqld variable and try again";
  ErRow "ER_MULTI_UPDATE_KEY_CONFLICT" 1706 "Primary key/partition key update is not allowed since the table is updated both as '%-.192s' and '%-.192s'.";
  ErRow "ER_TABLE_NEEDS_REBUILD" 1707 "Table rebuild required. Please do ~ALTER TABLE `%-.32s` FORCE~ or dump/reload to fix it!";
  ErRow "WARN_OPTION_BELOW_LIMIT" 1708 "The value of '%s' should be no less than the value of '%s'";
  ErRow "ER_INDEX_COLUMN_TOO_LONG" 1709 "Index column size too large. The maximum column size is %lu bytes.";
  ErRow "ER_ERROR_IN_TRIGGER_BODY" 1710 "Trigger '%-.64s' has an error in its body: '%-.256s'";
  ErRow "ER_ERROR_IN_UNKNOWN_TRIGGER_BODY" 1711 "Unknown trigger has an error in its body: '%-.256s'";
  ErRow "ER_INDEX_CORRUPT" 1712 "Index %s is corrupted";
  ErRow "ER_UNDO_RECORD_TOO_BIG" 1713 "Undo log record is too big.";
  ErRow "ER_BINLOG_UNSAFE_INSERT_IGNORE_SELECT" 1714 "INSERT IGNORE... SELECT is unsafe because the order in which rows are retrieved by the SELECT determines which (if any) rows are ignored. This order cannot be predicted and may differ on master and the slave.";
  ErRow "ER_BINLOG_UNSAFE_INSERT_SELECT_UPDATE" 1715 "INSERT... SELECT... ON DUPLICATE KEY UPDATE is unsafe because the order in which rows are retrieved by the SELECT determines which (if any) rows are updated. This order cannot be predicted and may differ on master and the slave.";
  ErRow "ER_BINLOG_UNSAFE_REPLACE_SELECT" 1716 "REPLACE... SELECT is unsafe because the order in which rows are retrieved by the SELECT determines which (if any) rows are replaced. This order cannot be predicted and may differ on master and the slave.";
  ErRow "ER_BINLOG_UNSAFE_CREATE_IGNORE_SELECT" 1717 "CREATE... IGNORE SELECT is unsafe because the order in which rows are retrieved by the SELECT determines which (if any) rows are ignored. This order cannot be predicted and may differ on master and the slave.";
  ErRow "ER_BINLOG_UNSAFE_CREATE_REPLACE_SELECT" 1718 "CREATE... REPLACE SELECT is unsafe because the order in which rows are retrieved by the SELECT determines which (if any) rows are replaced. This order cannot be predicted and may differ on master and the slave.";
  ErRow "ER_BINLOG_UNSAFE_UPDATE_IGNORE" 1719 "UPDATE IGNORE is unsafe because the order in which rows are updated determines which (if any) rows are ignored. This order cannot be predicted and may differ on master and the slave.";
  ErRow "ER_PLUGIN_NO_UNINSTALL" 1720 "Plugin '%s' is marked as not dynamically uninstallable. You have to stop the server to uninstall it.";
  ErRow "ER_PLUGIN_NO_INSTALL" 1721 "Plugin '%s' is marked as not dynamically installable. You have to stop the server to install it.";
  ErRow "ER_BINLOG_UNSAFE_WRITE_AUTOINC_SELECT" 1722 "Statements writing to a table with an auto-increment column after selecting from another table are unsafe because the order in which rows are retrieved determines what (if any) rows will be written. This order cannot be predicted and may differ on master and the slave.";
  ErRow "ER_BINLOG_UNSAFE_CREATE_SELECT_AUTOINC" 1723 "CREATE TABLE... SELECT...  on a table with an auto-increment column is unsafe because the order in which rows are retrieved by the SELECT determines which (if any) rows are inserted. This order cannot be predicted and may differ on master and the slave.";
  ErRow "ER_BINLOG_UNSAFE_INSERT_TWO_KEYS" 1724 "INSERT... ON DUPLICATE KEY UPDATE  on a table with more than one UNIQUE KEY is unsafe";
  ErRow "ER_TABLE_IN_FK_CHECK" 1725 "Table is being used in foreign key check.";
  ErRow "ER_UNSUPPORTED_ENGINE" 1726 "Storage engine '%s' does not support system tables. [%s.%s]";
  ErRow "ER_BINLOG_UNSAFE_AUTOINC_NOT_FIRST" 1727 "INSERT into autoincrement field which is not the first part in the composed primary key is unsafe."].

Definition er_rows : list er_row := er_rows_1 ++ er_rows_2 ++ er_rows_3 ++ er_rows_4 ++ er_rows_5.

(** * sql_state.h *)

Definition sql_states_1 : list state_row := [
  StateRow "ER_DUP_KEY" "23000" "";
  StateRow "ER_OUTOFMEMORY" "HY001" "S1001";
  StateRow "ER_OUT_OF_SORTMEMORY" "HY001" "S1001";
  StateRow "ER_CON_COUNT_ERROR" "08004" "";
  StateRow "ER_BAD_HOST_ERROR" "08S01" "";
  StateRow "ER_HANDSHAKE_ERROR" "08S01" "";
  StateRow "ER_DBACCESS_DENIED_ERROR" "42000" "";
  StateRow "ER_ACCESS_DENIED_ERROR" "28000" "";
  StateRow "ER_NO_DB_ERROR" "3D000" "";
  StateRow "ER_UNKNOWN_COM_ERROR" "08S01" "";
  StateRow "ER_BAD_NULL_ERROR" "23000" "";
  StateRow "ER_BAD_DB_ERROR" "42000" "";
  StateRow "ER_TABLE_EXISTS_ERROR" "42S01" "";
  StateRow "ER_BAD_TABLE_ERROR" "42S02" "";
  StateRow "ER_NON_UNIQ_ERROR" "23000" "";
  StateRow "ER_SERVER_SHUTDOWN" "08S01" "";
  StateRow "ER_BAD_FIELD_ERROR" "42S22" "S0022";
  StateRow "ER_WRONG_FIELD_WITH_GROUP" "42000" "S1009";
  StateRow "ER_WRONG_GROUP_FIELD" "42000" "S1009";
  StateRow "ER_WRONG_SUM_SELECT" "42000" "S1009";
  StateRow "ER_WRONG_VALUE_COUNT" "21S01" "";
  StateRow "ER_TOO_LONG_IDENT" "42000" "S1009";
  StateRow "ER_DUP_FIELDNAME" "42S21" "S1009";
  StateRow "ER_DUP_KEYNAME" "42000" "S1009";
  StateRow "ER_DUP_ENTRY" "23000" "S1009";
  StateRow "ER_WRONG_FIELD_SPEC" "42000" "S1009";
  StateRow "ER_PARSE_ERROR" "42000" "s1009";
  StateRow "ER_EMPTY_QUERY" "42000" "";
  StateRow "ER_NONUNIQ_TABLE" "42000" "S1009";
  StateRow "ER_INVALID_DEFAULT" "42000" "S1009";
  StateRow "ER_MULTIPLE_PRI_KEY" "42000" "S1009";
  StateRow "ER_TOO_MANY_KEYS" "42000" "S1009";
  StateRow "ER_TOO_MANY_KEY_PARTS" "42000" "S1009";
  StateRow "ER_TOO_LONG_KEY" "42000" "S1009";
  StateRow "ER_KEY_COLUMN_DOES_NOT_EXITS" "42000" "S1009";
  StateRow "ER_BLOB_USED_AS_KEY" "42000" "S1009";
  StateRow "ER_TOO_BIG_FIELDLENGTH" "42000" "S1009";
  StateRow "ER_WRONG_AUTO_KEY" "42000" "S1009";
  StateRow "ER_FORCING_CLOSE" "08S01" "";
  StateRow "ER_IPSOCK_ERROR" "08S01" "";
  StateRow "ER_NO_SUCH_INDEX" "42S12" "S1009";
  StateRow "ER_WRONG_FIELD_TERMINATORS" "42000" "S1009";
  StateRow "ER_BLOBS_AND_NO_TERMINATED" "42000" "S1009";
  StateRow "ER_CANT_REMOVE_ALL_FIELDS" "42000" "";
  StateRow "ER_CANT_DROP_FIELD_OR_KEY" "42000" "";
  StateRow "ER_BLOB_CANT_HAVE_DEFAULT" "42000" "";
  StateRow "ER_WRONG_DB_NAME" "42000" "";
  StateRow "ER_WRONG_TABLE_NAME" "42000" "";
  StateRow "ER_TOO_BIG_SELECT" "42000" "";
  StateRow "ER_UNKNOWN_PROCEDURE" "42000" "";
  StateRow "ER_WRONG_PARAMCOUNT_TO_PROCEDURE" "42000" "";
  StateRow "ER_UNKNOWN_TABLE" "42S02" "";
  StateRow "ER_FIELD_SPECIFIED_TWICE" "42000" "";
  StateRow "ER_UNSUPPORTED_EXTENSION" "42000" "";
  StateRow "ER_TABLE_MUST_HAVE_COLUMNS" "42000" "";
  StateRow "ER_UNKNOWN_CHARACTER_SET" "42000" "";
  StateRow "ER_TOO_BIG_ROWSIZE" "42000" "";
  StateRow "ER_WRONG_OUTER_JOIN" "42000" "";
  StateRow "ER_NULL_COLUMN_IN_INDEX" "42000" "";
  StateRow "ER_PASSWORD_ANONYMOUS_USER" "42000" "";
  StateRow "ER_PASSWORD_NOT_ALLOWED" "42000" "";
  StateRow "ER_PASSWORD_NO_MATCH" "42000" "";
  StateRow "ER_WRONG_VALUE_COUNT_ON_ROW" "21S01" "";
  StateRow "ER_INVALID_USE_OF_NULL" "22004" "";
  StateRow "ER_REGEXP_ERROR" "42000" "";
  StateRow "ER_MIX_OF_GROUP_FUNC_AND_FIELDS" "42000" "";
  StateRow "ER_NONEXISTING_GRANT" "42000" "";
  StateRow "ER_TABLEACCESS_DENIED_ERROR" "42000" "";
  StateRow "ER_COLUMNACCESS_DENIED_ERROR" "42000" "";
  StateRow "ER_ILLEGAL_GRANT_FOR_TABLE" "42000" "";
  StateRow "ER_GRANT_WRONG_HOST_OR_USER" "42000" "";
  StateRow "ER_NO_SUCH_TABLE" "42S02" "";
  StateRow "ER_NONEXISTING_TABLE_GRANT" "42000" "";
  StateRow "ER_NOT_ALLOWED_COMMAND" "42000" "";
  StateRow "ER_SYNTAX_ERROR" "42000" "";
  StateRow "ER_ABORTING_CONNECTION" "08S01" "";
  StateRow "ER_NET_PACKET_TOO_LARGE" "08S01" "";
  StateRow "ER_NET_READ_ERROR_FROM_PIPE" "08S01" "";
  StateRow "ER_NET_FCNTL_ERROR" "08S01" "";
  StateRow "ER_NET_PACKETS_OUT_OF_ORDER" "08S01" "";
  StateRow "ER_NET_UNCOMPRESS_ERROR" "08S01" "";
  StateRow "ER_NET_READ_ERROR" "08S01" "";
  StateRow "ER_NET_READ_INTERRUPTED" "08S01" "";
  StateRow "ER_NET_ERROR_ON_WRITE" "08S01" "";
  StateRow "ER_NET_WRITE_INTERRUPTED" "08S01" "";
  StateRow "ER_TOO_LONG_STRING" "42000" "";
  StateRow "ER_TABLE_CANT_HANDLE_BLOB" "42000" "";
  StateRow "ER_TABLE_CANT_HANDLE_AUTO_INCREMENT" "42000" "";
  StateRow "ER_WRONG_COLUMN_NAME" "42000" "";
  StateRow "ER_WRONG_KEY_COLUMN" "42000" "";
  StateRow "ER_DUP_UNIQUE" "23000" "";
  StateRow "ER_BLOB_KEY_WITHOUT_LENGTH" "42000" "";
  StateRow "ER_PRIMARY_CANT_HAVE_NULL" "42000" "";
  StateRow "ER_TOO_MANY_ROWS" "42000" "";
  StateRow "ER_REQUIRES_PRIMARY_KEY" "42000" "";
  StateRow "ER_KEY_DOES_NOT_EXITS" "42000" "S1009";
  StateRow "ER_CHECK_NO_SUCH_TABLE" "42000" "";
  StateRow "ER_CHECK_NOT_IMPLEMENTED" "42000" "";
  StateRow "ER_CANT_DO_THIS_DURING_AN_TRANSACTION" "25000" "";
  StateRow "ER_NEW_ABORTING_CONNECTION" "08S01" "";
  StateRow "ER_MASTER_NET_READ" "08S01" "";
  StateRow "ER_MASTER_NET_WRITE" "08S01" "";
  StateRow "ER_TOO_MANY_USER_CONNECTIONS" "42000" "";
  StateRow "ER_READ_ONLY_TRANSACTION" "25000" "";
  StateRow "ER_NO_PERMISSION_TO_CREATE_USER" "42000" "";
  StateRow "ER_LOCK_DEADLOCK" "40001" "";
  StateRow "ER_NO_REFERENCED_ROW" "23000" "";
  StateRow "ER_ROW_IS_REFERENCED" "23000" "";
  StateRow "ER_CONNECT_TO_MASTER" "08S01" "";
  StateRow "ER_WRONG_NUMBER_OF_COLUMNS_IN_SELECT" "21000" ""].

Definition sql_states_2 : list state_row := [
  StateRow "ER_USER_LIMIT_REACHED" "42000" "";
  StateRow "ER_SPECIFIC_ACCESS_DENIED_ERROR" "42000" "";
  StateRow "ER_NO_DEFAULT" "42000" "";
  StateRow "ER_WRONG_VALUE_FOR_VAR" "42000" "";
  StateRow "ER_WRONG_TYPE_FOR_VAR" "42000" "";
  StateRow "ER_CANT_USE_OPTION_HERE" "42000" "";
  StateRow "ER_NOT_SUPPORTED_YET" "42000" "";
  StateRow "ER_WRONG_FK_DEF" "42000" "";
  StateRow "ER_OPERAND_COLUMNS" "21000" "";
  StateRow "ER_SUBQUERY_NO_1_ROW" "21000" "";
  StateRow "ER_ILLEGAL_REFERENCE" "42S22" "";
  StateRow "ER_DERIVED_MUST_HAVE_ALIAS" "42000" "";
  StateRow "ER_SELECT_REDUCED" "01000" "";
  StateRow "ER_TABLENAME_NOT_ALLOWED_HERE" "42000" "";
  StateRow "ER_NOT_SUPPORTED_AUTH_MODE" "08004" "";
  StateRow "ER_SPATIAL_CANT_HAVE_NULL" "42000" "";
  StateRow "ER_COLLATION_CHARSET_MISMATCH" "42000" "";
  StateRow "ER_WARN_TOO_FEW_RECORDS" "01000" "";
  StateRow "ER_WARN_TOO_MANY_RECORDS" "01000" "";
  StateRow "ER_WARN_NULL_TO_NOTNULL" "22004" "";
  StateRow "ER_WARN_DATA_OUT_OF_RANGE" "22003" "";
  StateRow "WARN_DATA_TRUNCATED" "01000" "";
  StateRow "ER_WRONG_NAME_FOR_INDEX" "42000" "";
  StateRow "ER_WRONG_NAME_FOR_CATALOG" "42000" "";
  StateRow "ER_UNKNOWN_STORAGE_ENGINE" "42000" "";
  StateRow "ER_TRUNCATED_WRONG_VALUE" "22007" "";
  StateRow "ER_SP_NO_RECURSIVE_CREATE" "2F003" "";
  StateRow "ER_SP_ALREADY_EXISTS" "42000" "";
  StateRow "ER_SP_DOES_NOT_EXIST" "42000" "";
  StateRow "ER_SP_LILABEL_MISMATCH" "42000" "";
  StateRow "ER_SP_LABEL_REDEFINE" "42000" "";
  StateRow "ER_SP_LABEL_MISMATCH" "42000" "";
  StateRow "ER_SP_UNINIT_VAR" "01000" "";
  StateRow "ER_SP_BADSELECT" "0A000" "";
  StateRow "ER_SP_BADRETURN" "42000" "";
  StateRow "ER_SP_BADSTATEMENT" "0A000" "";
  StateRow "ER_UPDATE_LOG_DEPRECATED_IGNORED" "42000" "";
  StateRow "ER_UPDATE_LOG_DEPRECATED_TRANSLATED" "42000" "";
  StateRow "ER_QUERY_INTERRUPTED" "70100" "";
  StateRow "ER_SP_WRONG_NO_OF_ARGS" "42000" "";
  StateRow "ER_SP_COND_MISMATCH" "42000" "";
  StateRow "ER_SP_NORETURN" "42000" "";
  StateRow "ER_SP_NORETURNEND" "2F005" "";
  StateRow "ER_SP_BAD_CURSOR_QUERY" "42000" "";
  StateRow "ER_SP_BAD_CURSOR_SELECT" "42000" "";
  StateRow "ER_SP_CURSOR_MISMATCH" "42000" "";
  StateRow "ER_SP_CURSOR_ALREADY_OPEN" "24000" "";
  StateRow "ER_SP_CURSOR_NOT_OPEN" "24000" "";
  StateRow "ER_SP_UNDECLARED_VAR" "42000" "";
  StateRow "ER_SP_FETCH_NO_DATA" "02000" "";
  StateRow "ER_SP_DUP_PARAM" "42000" "";
  StateRow "ER_SP_DUP_VAR" "42000" "";
  StateRow "ER_SP_DUP_COND" "42000" "";
  StateRow "ER_SP_DUP_CURS" "42000" "";
  StateRow "ER_SP_SUBSELECT_NYI" "0A000" "";
  StateRow "ER_STMT_NOT_ALLOWED_IN_SF_OR_TRG" "0A000" "";
  StateRow "ER_SP_VARCOND_AFTER_CURSHNDLR" "42000" "";
  StateRow "ER_SP_CURSOR_AFTER_HANDLER" "42000" "";
  StateRow "ER_SP_CASE_NOT_FOUND" "20000" "";
  StateRow "ER_DIVISION_BY_ZERO" "22012" "";
  StateRow "ER_ILLEGAL_VALUE_FOR_TYPE" "22007" "";
  StateRow "ER_PROCACCESS_DENIED_ERROR" "42000" "";
  StateRow "ER_XAER_NOTA" "XAE04" "";
  StateRow "ER_XAER_INVAL" "XAE05" "";
  StateRow "ER_XAER_RMFAIL" "XAE07" "";
  StateRow "ER_XAER_OUTSIDE" "XAE09" "";
  StateRow "ER_XAER_RMERR" "XAE03" "";
  StateRow "ER_XA_RBROLLBACK" "XA100" "";
  StateRow "ER_NONEXISTING_PROC_GRANT" "42000" "";
  StateRow "ER_DATA_TOO_LONG" "22001" "";
  StateRow "ER_SP_BAD_SQLSTATE" "42000" "";
  StateRow "ER_CANT_CREATE_USER_WITH_GRANT" "42000" "";
  StateRow "ER_SP_DUP_HANDLER" "42000" "";
  StateRow "ER_SP_NOT_VAR_ARG" "42000" "";
  StateRow "ER_SP_NO_RETSET" "0A000" "";
  StateRow "ER_CANT_CREATE_GEOMETRY_OBJECT" "22003" "";
  StateRow "ER_TOO_BIG_SCALE" "42000" "S1009";
  StateRow "ER_TOO_BIG_PRECISION" "42000" "S1009";
  StateRow "ER_M_BIGGER_THAN_D" "42000" "S1009";
  StateRow "ER_TOO_LONG_BODY" "42000" "S1009";
  StateRow "ER_TOO_BIG_DISPLAYWIDTH" "42000" "S1009";
  StateRow "ER_XAER_DUPID" "XAE08" "";
  StateRow "ER_DATETIME_FUNCTION_OVERFLOW" "22008" "";
  StateRow "ER_ROW_IS_REFERENCED_2" "23000" "";
  StateRow "ER_NO_REFERENCED_ROW_2" "23000" "";
  StateRow "ER_SP_BAD_VAR_SHADOW" "42000" "";
  StateRow "ER_SP_WRONG_NAME" "42000" "";
  StateRow "ER_SP_NO_AGGREGATE" "42000" "";
  StateRow "ER_MAX_PREPARED_STMT_COUNT_REACHED" "42000" "";
  StateRow "ER_NON_GROUPING_FIELD_USED" "42000" "";
  StateRow "ER_FOREIGN_DUPLICATE_KEY" "23000" "S1009";
  StateRow "ER_CANT_CHANGE_TX_ISOLATION" "25001" "";
  StateRow "ER_WRONG_PARAMCOUNT_TO_NATIVE_FCT" "42000" "";
  StateRow "ER_WRONG_PARAMETERS_TO_NATIVE_FCT" "42000" "";
  StateRow "ER_WRONG_PARAMETERS_TO_STORED_FCT" "42000" "";
  StateRow "ER_DUP_ENTRY_WITH_KEY_NAME" "23000" "S1009";
  StateRow "ER_XA_RBTIMEOUT" "XA106" "";
  StateRow "ER_XA_RBDEADLOCK" "XA102" "";
  StateRow "ER_FUNC_INEXISTENT_NAME_COLLISION" "42000" "";
  StateRow "ER_DUP_SIGNAL_SET" "42000" "";
  StateRow "ER_SIGNAL_WARN" "01000" "";
  StateRow "ER_SIGNAL_NOT_FOUND" "02000" "";
  StateRow "ER_SIGNAL_EXCEPTION" "HY000" "";
  StateRow "ER_RESIGNAL_WITHOUT_ACTIVE_HANDLER" "0K000" "";
  StateRow "ER_SPATIAL_MUST_HAVE_GEOM_COL" "42000" "";
  StateRow "ER_DATA_OUT_OF_RANGE" "22003" "";
  StateRow "ER_ACCESS_DENIED_NO_PASSWORD_ERROR" "28000" "";
  StateRow "ER_TRUNCATE_ILLEGAL_FK" "42000" ""].

Definition sql_states : list state_row := sql_states_1 ++ sql_states_2.

(** * errmsg.h *)

Definition CR_MIN_ERROR : Z := 2000.
Definition CR_MAX_ERROR : Z := 2999.
Definition CR_ERROR_FIRST : Z := 2000.
Definition CR_UNKNOWN_ERROR : Z := 2000.
Definition CR_ERROR_LAST : Z := 2059.

Definition cr_codes : list (string * Z) := [
  ("CR_UNKNOWN_ERROR", 2000);
  ("CR_SOCKET_CREATE_ERROR", 2001);
  ("CR_CONNECTION_ERROR", 2002);
  ("CR_CONN_HOST_ERROR", 2003);
  ("CR_IPSOCK_ERROR", 2004);
  ("CR_UNKNOWN_HOST", 2005);
  ("CR_SERVER_GONE_ERROR", 2006);
  ("CR_VERSION_ERROR", 2007);
  ("CR_OUT_OF_MEMORY", 2008);
  ("CR_WRONG_HOST_INFO", 2009);
  ("CR_LOCALHOST_CONNECTION", 2010);
  ("CR_TCP_CONNECTION", 2011);
  ("CR_SERVER_HANDSHAKE_ERR", 2012);
  ("CR_SERVER_LOST", 2013);
  ("CR_COMMANDS_OUT_OF_SYNC", 2014);
  ("CR_NAMEDPIPE_CONNECTION", 2015);
  ("CR_NAMEDPIPEWAIT_ERROR", 2016);
  ("CR_NAMEDPIPEOPEN_ERROR", 2017);
  ("CR_NAMEDPIPESETSTATE_ERROR", 2018);
  ("CR_CANT_READ_CHARSET", 2019);
  ("CR_NET_PACKET_TOO_LARGE", 2020);
  ("CR_EMBEDDED_CONNECTION", 2021);
  ("CR_PROBE_SLAVE_STATUS", 2022);
  ("CR_PROBE_SLAVE_HOSTS", 2023);
  ("CR_PROBE_SLAVE_CONNECT", 2024);
  ("CR_PROBE_MASTER_CONNECT", 2025);
  ("CR_SSL_CONNECTION_ERROR", 2026);
  ("CR_MALFORMED_PACKET", 2027);
  ("CR_WRONG_LICENSE", 2028);
  ("CR_NULL_POINTER", 2029);
  ("CR_NO_PREPARE_STMT", 2030);
  ("CR_PARAMS_NOT_BOUND", 2031);
  ("CR_DATA_TRUNCATED", 2032);
  ("CR_NO_PARAMETERS_EXISTS", 2033);
  ("CR_INVALID_PARAMETER_NO", 2034);
  ("CR_INVALID_BUFFER_USE", 2035);
  ("CR_UNSUPPORTED_PARAM_TYPE", 2036);
  ("CR_SHARED_MEMORY_CONNECTION", 2037);
  ("CR_SHARED_MEMORY_CONNECT_REQUEST_ERROR", 2038);
  ("CR_SHARED_MEMORY_CONNECT_ANSWER_ERROR", 2039);
  ("CR_SHARED_MEMORY_CONNECT_FILE_MAP_ERROR", 2040);
  ("CR_SHARED_MEMORY_CONNECT_MAP_ERROR", 2041);
  ("CR_SHARED_MEMORY_FILE_MAP_ERROR", 2042);
  ("CR_SHARED_MEMORY_MAP_ERROR", 2043);
  ("CR_SHARED_MEMORY_EVENT_ERROR", 2044);
  ("CR_SHARED_MEMORY_CONNECT_ABANDONED_ERROR", 2045);
  ("CR_SHARED_MEMORY_CONNECT_SET_ERROR", 2046);
  ("CR_CONN_UNKNOW_PROTOCOL", 2047);
  ("CR_INVALID_CONN_HANDLE", 2048);
  ("CR_SECURE_AUTH", 2049);
  ("CR_FETCH_CANCELED", 2050);
  ("CR_NO_DATA", 2051);
  ("CR_NO_STMT_METADATA", 2052);
  ("CR_NO_RESULT_SET", 2053);
  ("CR_NOT_IMPLEMENTED", 2054);
  ("CR_SERVER_LOST_EXTENDED", 2055);
  ("CR_STMT_CLOSED", 2056);
  ("CR_NEW_STMT_METADATA", 2057);
  ("CR_ALREADY_CONNECTED", 2058);
  ("CR_AUTH_PLUGIN_CANNOT_LOAD", 2059)].
