(* ===== verification/Errors.v ===== *)
(** What the error tables of the MySQL headers promise to the code that
    indexes and searches them: every code has one name and one message, every
    SQL state belongs to a code; and the macro [ER] of errmsg.h, which indexes
    the client's messages. *)
From Stdlib Require Import ZArith Ascii String Lia.
From stdpp Require Import base list strings numbers sorting sets.
From S2P Require Import Prelude.
From S2P Require Import ErrTables.

Local Open Scope Z_scope.

(** * The tables *)

(** [char last_error[MYSQL_ERRMSG_SIZE]], [char sqlstate[SQLSTATE_LENGTH + 1]]. *)
Definition MYSQL_ERRMSG_SIZE : Z := 512.
Definition SQLSTATE_LENGTH : Z := 5.

(** What the preprocessor puts for a name of mysqld_error.h. *)
Fixpoint define_of (n : string) (ds : list (string * Z)) : option Z :=
  match ds with
  | [] => None
  | (m, c) :: ds => if String.eqb n m then Some c else define_of n ds
  end.
Definition er_define (n : string) : option Z := define_of n er_codes.

(** The rows of mysqld_ername.h with a code; the code of a row of sql_state.h. *)
Definition rows_with (c : Z) : list er_row := filter (λ r, er_code r = c) er_rows.
Definition state_codes : list (option Z) := map (λ r, er_define (state_er r)) sql_states.

(** A C string fits an array of [k] bytes. *)
Definition fits (s : string) (k : Z) : bool := Z.of_nat (String.length s) <? k.

(** A class is 2 and a subclass 3 digits or upper case letters. *)
Definition state_char (c : ascii) : bool :=
  let k := Z.of_nat (nat_of_ascii c) in ((48 <=? k) && (k <=? 57)) || ((65 <=? k) && (k <=? 90)).
Definition sqlstate (s : string) : bool :=
  (Z.of_nat (String.length s) =? SQLSTATE_LENGTH) && forallb state_char (String.list_ascii_of_string s).

(** * The macro [ER] *)

(** [client_errors[i]], with [None] for a read out of the array. *)
Definition client_error (client_errors : list string) (i : Z) : option string :=
  if i <? 0 then None else client_errors !! Z.to_nat i.

Definition ER (client_errors : list string) (X : Z) : option string :=
  if (CR_ERROR_FIRST <=? X) && (X <=? CR_ERROR_LAST)
  then client_error client_errors (X - CR_ERROR_FIRST)
  else client_error client_errors CR_UNKNOWN_ERROR.

(** * Numbered tables *)

(** A table is numbered from [f] when its row [i] has the code [f + i]. *)
Fixpoint numbered (f : Z) (cs : list Z) : bool :=
  match cs with [] => true | c :: cs => (c =? f) && numbered (f + 1) cs end.

Lemma numbered_lookup cs f i : numbered f cs = true → (i < length cs)%nat → cs !! i = Some (f + Z.of_nat i).
Proof.
  revert f i. induction cs as [|c cs IH]; intros f i; cbn; [intros _ ?; lia|].
  intros [->%Z.eqb_eq H]%andb_prop Hi. destruct i as [|i]; cbn; [by rewrite Z.add_0_r|].
  rewrite (IH _ _ H) by lia. f_equal. lia.
Qed.

Lemma numbered_lookup_inv cs f i c : numbered f cs = true → cs !! i = Some c → c = f + Z.of_nat i.
Proof. intros H E. rewrite (numbered_lookup _ f i) in E by (try done; by eapply lookup_lt_Some). by injection E. Qed.

Lemma numbered_range {A} (g : A → Z) f l x :
  numbered f (map g l) = true → x ∈ l → f ≤ g x < f + Z.of_nat (length l).
Proof.
  intros H [i Hi]%list_elem_of_lookup. pose proof (lookup_lt_Some _ _ _ Hi).
  assert (map g l !! i = Some (g x)) as E by by rewrite list_lookup_fmap, Hi.
  apply (numbered_lookup_inv _ f) in E; [lia|done].
Qed.

(** A numbered table has one row with each of its codes. *)
Lemma numbered_filter {A} (g : A → Z) f l i x :
  numbered f (map g l) = true → l !! i = Some x → filter (λ y, g y = f + Z.of_nat i) l = [x].
Proof.
  revert f i. induction l as [|y l IH]; intros f i; cbn [map numbered]; [done|].
  intros [Hy%Z.eqb_eq H]%andb_prop. destruct i as [|i]; cbn [lookup list_lookup].
  - intros [= ->]. rewrite filter_cons_True by lia. f_equal.
    assert (∀ z, z ∈ l → g z ≠ f + 0) as N by (intros z Hz; pose proof (numbered_range _ _ _ _ H Hz); lia).
    clear -N. induction l as [|z l IH]; [done|]. rewrite filter_cons_False by (apply N; set_solver).
    apply IH. set_solver.
  - intros E. rewrite filter_cons_False by lia. rewrite <- (IH (f + 1) i H E).
    by replace (f + 1 + Z.of_nat i) with (f + Z.of_nat (S i)) by lia.
Qed.

Lemma define_elem n c ds : define_of n ds = Some c → (n, c) ∈ ds.
Proof.
  induction ds as [|[m d] ds IH]; cbn; [done|].
  destruct (String.eqb_spec n m) as [->|]; [intros [= ->]|intros H; right; auto]. left.
Qed.

(** * The facts that evaluation decides *)

Definition defined_once (ds : list (string * Z)) : bool :=
  forallb (λ d, match define_of d.1 ds with Some c => c =? d.2 | None => false end) ds.

Fixpoint increasing (f : Z) (cs : list (option Z)) : bool :=
  match cs with
  | [] => true
  | Some c :: cs => (f <? c) && increasing c cs
  | None :: cs => false
  end.

Lemma codes_numbered : numbered ER_ERROR_FIRST (map snd er_codes) = true.
Proof. by vm_compute. Qed.
Lemma names_match : map (λ r, (er_name r, er_code r)) er_rows = er_codes.
Proof. by vm_compute. Qed.
Lemma names_once : defined_once er_codes = true.
Proof. by vm_compute. Qed.
Lemma texts_fit : forallb (λ r, fits (message (er_text r)) MYSQL_ERRMSG_SIZE) er_rows = true.
Proof. by vm_compute. Qed.
Lemma states_increase : increasing 0 state_codes = true.
Proof. by vm_compute. Qed.
Lemma codes_length : Z.of_nat (length er_codes) = ER_ERROR_LAST - ER_ERROR_FIRST + 1.
Proof. by vm_compute. Qed.
Lemma clients_numbered : numbered CR_ERROR_FIRST (map snd cr_codes) = true.
Proof. by vm_compute. Qed.

(** A JDBC state may be missing; that of [ER_PARSE_ERROR] has a lower case letter. *)
Definition jdbc_ok (r : state_row) : bool :=
  String.eqb (jdbc_state r) EmptyString || sqlstate (jdbc_state r)
  || String.eqb (state_er r) "ER_PARSE_ERROR" && String.eqb (jdbc_state r) "s1009".

Lemma states_formed : forallb (λ r, sqlstate (odbc_state r) && jdbc_ok r) sql_states = true.
Proof. by vm_compute. Qed.

Lemma increasing_sorted f cs :
  increasing f cs = true → ∃ zs, cs = map Some zs ∧ StronglySorted Z.lt zs ∧ Forall (Z.lt f) zs.
Proof.
  revert f. induction cs as [|[c|] cs IH]; intros f; cbn; [|intros [Hc%Z.ltb_lt H]%andb_prop|done].
  - exists []. repeat constructor.
  - destruct (IH c H) as (zs & -> & Hs & Hf). exists (c :: zs). split_and!; [done|by constructor|].
    constructor; [done|]. eapply Forall_impl; [exact Hf|]. cbn. lia.
Qed.

Lemma rows_numbered : numbered ER_ERROR_FIRST (map er_code er_rows) = true.
Proof. by rewrite <- codes_numbered, <- names_match, map_map. Qed.

Lemma rows_length : Z.of_nat (length er_rows) = ER_ERROR_LAST - ER_ERROR_FIRST + 1.
Proof. by rewrite <- codes_length, <- names_match, length_map. Qed.

(** The row at an index has the code of the index, and no other row has it. *)
Lemma row_code i r :
  er_rows !! i = Some r → er_code r = ER_ERROR_FIRST + Z.of_nat i ∧ rows_with (er_code r) = [r].
Proof.
  intros Hr. assert (map er_code er_rows !! i = Some (er_code r)) as E by by rewrite list_lookup_fmap, Hr.
  apply (numbered_lookup_inv _ ER_ERROR_FIRST) in E; [|apply rows_numbered]. split; [done|].
  rewrite E. by apply numbered_filter; [apply rows_numbered|].
Qed.

(** A code in range has a definition and one row, which is at its index. *)
Lemma code_row c :
  ER_ERROR_FIRST ≤ c ≤ ER_ERROR_LAST →
  ∃ r, er_rows !! Z.to_nat (c - ER_ERROR_FIRST) = Some r ∧ rows_with c = [r] ∧ er_code r = c
       ∧ er_define (er_name r) = Some c ∧ fits (message (er_text r)) MYSQL_ERRMSG_SIZE = true.
Proof.
  intros Hc. pose proof rows_length.
  destruct (lookup_lt_is_Some_2 er_rows (Z.to_nat (c - ER_ERROR_FIRST))) as [r Hr]; [lia|].
  destruct (row_code _ _ Hr) as [Ec Hw]. rewrite Z2Nat.id, Zplus_minus in Ec by lia. subst c.
  exists r. split_and!; [done|done|done| |].
  - assert ((er_name r, er_code r) ∈ er_codes) as He.
    { rewrite <- names_match. apply list_elem_of_fmap. exists r. split; [done|]. by eapply list_elem_of_lookup_2. }
    pose proof (proj1 (forallb_forall _ _) names_once _ (proj1 (list_elem_of_In _ _) He)) as D. cbn [fst snd] in D.
    unfold er_define. destruct (define_of _ _) as [d|]; [|done]. apply Z.eqb_eq in D. congruence.
  - apply (proj1 (forallb_forall _ _) texts_fit), list_elem_of_In. by eapply list_elem_of_lookup_2.
Qed.

(** The error tables agree with one another.  A name that mysqld_error.h
    defines has a code between [ER_ERROR_FIRST] and [ER_ERROR_LAST]; each code
    of that range has one row in mysqld_ername.h, the one at its index, whose
    name is defined as that code and whose message fits [last_error].  Every
    name of sql_state.h is defined, the codes go up strictly (so that a code
    has at most one state and a search may bisect), an ODBC state is
    [SQLSTATE_LENGTH] digits or upper case letters, and so is a JDBC state, unless
    it is empty, but for that of [ER_PARSE_ERROR]. *)
Lemma error_tables_agree :
  (∀ n c, er_define n = Some c → ER_ERROR_FIRST ≤ c ≤ ER_ERROR_LAST ∧ map er_name (rows_with c) = [n])
  ∧ (∀ c, ER_ERROR_FIRST ≤ c ≤ ER_ERROR_LAST →
       ∃ r, er_rows !! Z.to_nat (c - ER_ERROR_FIRST) = Some r ∧ rows_with c = [r] ∧ er_code r = c
            ∧ er_define (er_name r) = Some c ∧ fits (message (er_text r)) MYSQL_ERRMSG_SIZE = true)
  ∧ (∃ cs, state_codes = map Some cs ∧ StronglySorted Z.lt cs)
  ∧ Forall (λ r, sqlstate (odbc_state r) = true ∧ jdbc_ok r = true) sql_states.
Proof.
  split_and!; [| |destruct (increasing_sorted _ _ states_increase) as (zs & ? & ? & _); eauto|].
  - intros n c H%define_elem. rewrite <- names_match in H. apply list_elem_of_fmap in H as (r & [= -> ->] & Hr).
    pose proof rows_length. apply list_elem_of_lookup in Hr as [i Hi]. pose proof (lookup_lt_Some _ _ _ Hi).
    destruct (row_code _ _ Hi) as [E ->]. split; [lia|done].
  - apply code_row.
  - apply list.Forall_forall. intros r Hr. apply andb_prop.
    exact (proj1 (forallb_forall _ _) states_formed r (proj1 (list_elem_of_In _ _) Hr)).
Qed.

(** ** The macro *)


