(* ===== verification/Psi.v ===== *)
(** * Instrumented calls: programs, events and the performance schema interface

    mysql/psi/psi.h declares the interface through which the code of the MySQL
    headers reports waits: a table of functions, [PSI_v1], which is NULL or is
    provided by a server.  This file has:

    - [prog]: a C function as a tree of the calls it makes, those on the machine
      ([Real]: memory, files, locks) and those on the instrumentation ([Psi]), so
      that calls of several threads can be interleaved;
    - [run]: a program run alone, with the events it makes;
    - [replaces]: a program does on the machine what another one does, whatever
      the instrumentation answers;
    - [wp]: what the events of a program must be, for every answer;
    - the data of psi.h and the record [PSI_v1] of its functions.

    The functions of [PSI_v1] are implemented by a server, not here: they are
    arbitrary functions of the state of the instrumentation; [spawn_thread], which
    creates a thread, is an arbitrary program. *)
From Stdlib Require Import ZArith Ascii Lia.
From stdpp Require Import base list strings numbers gmap functions.
From S2P Require Import Prelude Packet.

Local Open Scope Z_scope.

(** ** The data of psi.h *)

(** The opaque structures of the interface are known by their addresses. *)
Abbreviation PSI_mutex := loc.
Abbreviation PSI_rwlock := loc.
Abbreviation PSI_cond := loc.
Abbreviation PSI_table_share := loc.
Abbreviation PSI_table := loc.
Abbreviation PSI_thread := loc.
Abbreviation PSI_file := loc.
Abbreviation PSI_mutex_locker := loc.
Abbreviation PSI_rwlock_locker := loc.
Abbreviation PSI_cond_locker := loc.
Abbreviation PSI_table_locker := loc.
Abbreviation PSI_file_locker := loc.

Inductive PSI_mutex_operation : Set :=
| PSI_MUTEX_LOCK
| PSI_MUTEX_TRYLOCK.

Inductive PSI_rwlock_operation : Set :=
| PSI_RWLOCK_READLOCK
| PSI_RWLOCK_WRITELOCK
| PSI_RWLOCK_TRYREADLOCK
| PSI_RWLOCK_TRYWRITELOCK.

Inductive PSI_cond_operation : Set :=
| PSI_COND_WAIT
| PSI_COND_TIMEDWAIT.

Inductive PSI_file_operation : Set :=
| PSI_FILE_CREATE
| PSI_FILE_CREATE_TMP
| PSI_FILE_OPEN
| PSI_FILE_STREAM_OPEN
| PSI_FILE_CLOSE
| PSI_FILE_STREAM_CLOSE
| PSI_FILE_READ
| PSI_FILE_WRITE
| PSI_FILE_SEEK
| PSI_FILE_TELL
| PSI_FILE_FLUSH
| PSI_FILE_STAT
| PSI_FILE_FSTAT
| PSI_FILE_CHSIZE
| PSI_FILE_DELETE
| PSI_FILE_RENAME
| PSI_FILE_SYNC.

#[global] Instance PSI_mutex_operation_eq_dec : EqDecision PSI_mutex_operation.
Proof. solve_decision. Defined.
#[global] Instance PSI_rwlock_operation_eq_dec : EqDecision PSI_rwlock_operation.
Proof. solve_decision. Defined.
#[global] Instance PSI_cond_operation_eq_dec : EqDecision PSI_cond_operation.
Proof. solve_decision. Defined.
#[global] Instance PSI_file_operation_eq_dec : EqDecision PSI_file_operation.
Proof. solve_decision. Defined.

(** Keys are unsigned ints; a key of zero disables the instrumentation. *)
Definition PSI_mutex_key : Set := Z.
Definition PSI_rwlock_key : Set := Z.
Definition PSI_cond_key : Set := Z.
Definition PSI_thread_key : Set := Z.
Definition PSI_file_key : Set := Z.

(** What is registered under a name; [m_key] is the address of the key. *)
Record PSI_mutex_info_v1 : Set := PSI_mutex_info {
  mutex_key : loc; mutex_name : bytes; mutex_flags : Z }.
Record PSI_rwlock_info_v1 : Set := PSI_rwlock_info {
  rwlock_key : loc; rwlock_name : bytes; rwlock_flags : Z }.
Record PSI_cond_info_v1 : Set := PSI_cond_info {
  cond_key : loc; cond_name : bytes; cond_flags : Z }.
Record PSI_thread_info_v1 : Set := PSI_thread_info {
  thread_key : loc; thread_name : bytes; thread_flags : Z }.
Record PSI_file_info_v1 : Set := PSI_file_info {
  file_key : loc; file_name : bytes; file_flags : Z }.

(** What a locker keeps during a wait; [timer] and [wait] are pointers that only
    the server uses. *)
Record PSI_mutex_locker_state_v1 : Set := MutexState {
  ms_flags : Z; ms_mutex : option PSI_mutex; ms_thread : option PSI_thread;
  ms_timer_start : Z; ms_timer : option loc; ms_operation : PSI_mutex_operation;
  ms_src_file : bytes; ms_src_line : Z; ms_wait : option loc }.

Record PSI_rwlock_locker_state_v1 : Set := RwlockState {
  rs_flags : Z; rs_rwlock : option PSI_rwlock; rs_thread : option PSI_thread;
  rs_timer_start : Z; rs_timer : option loc; rs_operation : PSI_rwlock_operation;
  rs_src_file : bytes; rs_src_line : Z; rs_wait : option loc }.

Record PSI_cond_locker_state_v1 : Set := CondState {
  cs_flags : Z; cs_cond : option PSI_cond; cs_mutex : option PSI_mutex;
  cs_thread : option PSI_thread; cs_timer_start : Z; cs_timer : option loc;
  cs_operation : PSI_cond_operation; cs_src_file : bytes; cs_src_line : Z;
  cs_wait : option loc }.

Record PSI_file_locker_state_v1 : Set := FileState {
  fs_flags : Z; fs_file : option PSI_file; fs_thread : option PSI_thread;
  fs_number_of_bytes : Z; fs_timer_start : Z; fs_timer : option loc;
  fs_operation : PSI_file_operation; fs_src_file : bytes; fs_src_line : Z;
  fs_wait : option loc }.

(** ** Events *)

(** A locker of one of the four kinds that are waited with. *)
Inductive locker : Set :=
| MutexLocker (l : PSI_mutex_locker)
| RwlockLocker (l : PSI_rwlock_locker)
| CondLocker (l : PSI_cond_locker)
| FileLocker (l : PSI_file_locker).

#[global] Instance locker_eq_dec : EqDecision locker.
Proof. solve_decision. Defined.

(** The functions that start and end a wait. *)
Inductive wait : Set :=
| MutexWait
| RdWait
| WrWait
| CondWait
| FileWait
| FileOpenWait.

Inductive wait_end : Set :=
| EndMutexWait
| EndRdWait
| EndWrWait
| EndCondWait
| EndFileWait
| EndFileOpenWait
| EndFileOpenWaitBind.

#[global] Instance wait_eq_dec : EqDecision wait.
Proof. solve_decision. Defined.
#[global] Instance wait_end_eq_dec : EqDecision wait_end.
Proof. solve_decision. Defined.

(** What a locker is asked for. *)
Inductive operation : Set :=
| MutexOp (op : PSI_mutex_operation)
| RwlockOp (op : PSI_rwlock_operation)
| CondOp (op : PSI_cond_operation)
| FileOp (op : PSI_file_operation).

#[global] Instance operation_eq_dec : EqDecision operation.
Proof. solve_decision. Defined.

(** The functions of psi.h that start and end the wait of an operation: a file that
    is opened by its name gets a descriptor or a stream, and the function that ends
    the wait is the one for it; nothing stays open behind the status of a file. *)
Definition wait_of (o : operation) : wait * wait_end :=
  match o with
  | MutexOp _ => (MutexWait, EndMutexWait)
  | RwlockOp (PSI_RWLOCK_READLOCK | PSI_RWLOCK_TRYREADLOCK) => (RdWait, EndRdWait)
  | RwlockOp (PSI_RWLOCK_WRITELOCK | PSI_RWLOCK_TRYWRITELOCK) => (WrWait, EndWrWait)
  | CondOp _ => (CondWait, EndCondWait)
  | FileOp (PSI_FILE_CREATE | PSI_FILE_CREATE_TMP | PSI_FILE_OPEN) => (FileOpenWait, EndFileOpenWaitBind)
  | FileOp PSI_FILE_STREAM_OPEN => (FileOpenWait, EndFileOpenWait)
  | FileOp PSI_FILE_STAT => (FileOpenWait, EndFileWait)
  | FileOp _ => (FileWait, EndFileWait)
  end.

(** The calls that an operation stands for. *)
Definition calls_of (o : operation) : list string :=
  match o with
  | MutexOp PSI_MUTEX_LOCK => ["pthread_mutex_lock"; "safe_mutex_lock"]
  | MutexOp PSI_MUTEX_TRYLOCK => ["pthread_mutex_trylock"; "safe_mutex_lock"]
  | RwlockOp PSI_RWLOCK_READLOCK => ["rw_rdlock"; "rw_pr_rdlock"]
  | RwlockOp PSI_RWLOCK_WRITELOCK => ["rw_wrlock"; "rw_pr_wrlock"]
  | RwlockOp PSI_RWLOCK_TRYREADLOCK => ["rw_tryrdlock"]
  | RwlockOp PSI_RWLOCK_TRYWRITELOCK => ["rw_trywrlock"]
  | CondOp PSI_COND_WAIT => ["pthread_cond_wait"]
  | CondOp PSI_COND_TIMEDWAIT => ["pthread_cond_timedwait"]
  | FileOp PSI_FILE_CREATE => ["my_create"; "my_create_with_symlink"]
  | FileOp PSI_FILE_CREATE_TMP => ["create_temp_file"]
  | FileOp PSI_FILE_OPEN => ["my_open"]
  | FileOp PSI_FILE_STREAM_OPEN => ["my_fopen"]
  | FileOp PSI_FILE_CLOSE => ["my_close"]
  | FileOp PSI_FILE_STREAM_CLOSE => ["my_fclose"]
  | FileOp PSI_FILE_READ => ["fgets"; "fgetc"; "my_fread"; "my_read"; "my_pread"]
  | FileOp PSI_FILE_WRITE => ["fputs"; "fputc"; "vfprintf"; "my_fwrite"; "my_write"; "my_pwrite"]
  | FileOp PSI_FILE_SEEK => ["my_fseek"; "my_seek"]
  | FileOp PSI_FILE_TELL => ["my_ftell"; "my_tell"]
  | FileOp PSI_FILE_FLUSH => ["fflush"]
  | FileOp PSI_FILE_STAT => ["my_stat"]
  | FileOp PSI_FILE_FSTAT => ["my_fstat"]
  | FileOp PSI_FILE_CHSIZE => ["my_chsize"]
  | FileOp PSI_FILE_DELETE => ["my_delete"; "my_delete_with_symlink"]
  | FileOp PSI_FILE_RENAME => ["my_rename"; "my_rename_with_symlink"]
  | FileOp PSI_FILE_SYNC => ["my_sync"]
  end%string.

(** The other calls on the instrumentation. *)
Inductive note : Set :=
| InitMutex (psi : option PSI_mutex)
| DestroyMutex (psi : PSI_mutex)
| UnlockMutex (psi : PSI_mutex)
| InitRwlock (psi : option PSI_rwlock)
| DestroyRwlock (psi : PSI_rwlock)
| UnlockRwlock (psi : PSI_rwlock)
| InitCond (psi : option PSI_cond)
| DestroyCond (psi : PSI_cond)
| SignalCond (psi : PSI_cond)
| BroadcastCond (psi : PSI_cond)
| CreateFile (key : PSI_file_key) (name : bytes) (file : Z)
| GetThread (psi : option PSI_thread)
| SetThreadId (psi : PSI_thread) (id : Z).

Inductive event : Set :=
| Access                                        (* a field, malloc or free *)
| Call (f : string)                             (* the call that is measured *)
| Locker (o : operation) (l : option locker)    (* get_thread_*_locker *)
| Start (l : locker) (w : wait) (count : Z)
| End (l : locker) (w : wait_end) (arg : Z)     (* a count, an rc, a descriptor *)
| Note (n : note).

(** ** Programs *)

Section Programs.
Context {R I : Type}.

(** [f] acts on the machine: it gives a value, is undefined, or waits for
    another thread ([Spins]).  On the instrumentation it always answers.  The
    event may depend on the answer. *)
Inductive prog (A : Type) : Type :=
| Ret (a : A)
| Real (B : Set) (e : B → event) (f : R → res (B * R)) (k : B → prog A)
| Psi (B : Set) (e : B → event) (f : I → B * I) (k : B → prog A).
#[global] Arguments Ret {A} a.
#[global] Arguments Real {A B} e f k.
#[global] Arguments Psi {A B} e f k.

Fixpoint pbind {A B} (p : prog A) (g : A → prog B) : prog B :=
  match p with
  | Ret a => g a
  | Real e f k => Real e f (λ b, pbind (k b) g)
  | Psi e f k => Psi e f (λ b, pbind (k b) g)
  end.

#[global] Instance prog_ret : MRet prog := λ A a, Ret a.
#[global] Instance prog_bind : MBind prog := λ A B g p, pbind p g.

Definition real {B : Set} (e : event) (f : R → res (B * R)) : prog B := Real (λ _, e) f Ret.
Definition psi {B : Set} (e : B → event) (f : I → B * I) : prog B := Psi e f Ret.
Definition undefined {B : Set} (w : ub) : prog B := real Access (λ _, Ub w).

(** Running a program alone: its value, the state it leaves and its events. *)
Fixpoint run {A} (p : prog A) (r : R) (i : I) : res (A * R * I * list event) :=
  match p with
  | Ret a => Ok (a, r, i, [])
  | Real e f k =>
      do '(b, r) <- f r;
      do '(a, r, i, t) <- run (k b) r i; Ok (a, r, i, e b :: t)
  | Psi e f k =>
      let '(b, i) := f i in
      do '(a, r, i, t) <- run (k b) r i; Ok (a, r, i, e b :: t)
  end.

(** [p] makes the calls of [q] on the machine, in the same order and with the
    same result, whatever the instrumentation answers; [q] makes no others. *)
Fixpoint replaces {A} (p q : prog A) : Prop :=
  match p with
  | Ret a => q = Ret a
  | Real e f k => ∃ k', q = Real e f k' ∧ ∀ b, replaces (k b) (k' b)
  | Psi e f k => ∀ b, replaces (k b) q
  end.

(** ** Laws *)

Lemma run_bind {A B} (p : prog A) (g : A → prog B) r i :
  run (pbind p g) r i =
  do '(a, r, i, t) <- run p r i; do '(b, r, i, t') <- run (g a) r i; Ok (b, r, i, t ++ t').
Proof.
  revert r i. induction p as [a|C e f k IH|C e f k IH]; intros r i; simpl.
  - by destruct (run (g a) r i) as [[[[??]?]?]| |].
  - destruct (f r) as [[b r']| |]; [|done..]. simpl. rewrite IH.
    destruct (run (k b) r' i) as [[[[a r1] i1] t]| |]; [|done..]. simpl.
    by destruct (run (g a) r1 i1) as [[[[??]?]?]| |].
  - destruct (f i) as [b i']. rewrite IH.
    destruct (run (k b) r i') as [[[[a r1] i1] t]| |]; [|done..]. simpl.
    by destruct (run (g a) r1 i1) as [[[[??]?]?]| |].
Qed.

Lemma replaces_bind {A B} (p q : prog A) (g h : A → prog B) :
  replaces p q → (∀ a, replaces (g a) (h a)) → replaces (pbind p g) (pbind q h).
Proof.
  intros Hp Hg. revert q Hp.
  induction p as [a|C e f k IH|C e f k IH]; simpl; intros q Hp.
  - by subst q.
  - destruct Hp as (k' & -> & Hk). simpl. eexists. split; [reflexivity|]. intros b. apply IH, Hk.
  - eauto.
Qed.

(** What is left of an outcome when the instrumentation is forgotten. *)
Definition machine {A} (o : res (A * R * I * list event)) : res (A * R) :=
  do '(a, r, _, _) <- o; Ok (a, r).

(** A program that replaces another gives the same value and leaves the machine
    in the same state; it is undefined, or waits, when the other one does. *)
Lemma replaces_run {A} (p q : prog A) r i j :
  replaces p q → machine (run p r i) = machine (run q r j).
Proof.
  revert q r i j.
  induction p as [a|B e f k IH|B e f k IH]; simpl; intros q r i j Hp.
  - by subst q.
  - destruct Hp as (k' & -> & Hk). simpl.
    destruct (f r) as [[b r']| |]; [|done..]. simpl.
    specialize (IH b (k' b) r' i j (Hk b)). unfold machine in *.
    destruct (run (k b) r' i) as [[[[??]?]?]| |], (run (k' b) r' j) as [[[[??]?]?]| |];
      simpl in *; done.
  - destruct (f i) as [b i']. specialize (IH b q r i' j (Hp b)). unfold machine in *.
    destruct (run (k b) r i') as [[[[??]?]?]| |]; simpl in *; done.
Qed.
End Programs.

Arguments prog : clear implicits.

(** ** The protocol of the events

    A wait is started with the locker that was just obtained, by the function for
    the operation it was asked for; one call is made, which is of that operation; and
    the wait is ended with the same locker, by the function for the operation. *)
Inductive phase : Set :=
| Idle
| Got (o : operation) (l : locker)
| Open (o : operation) (l : locker)
| Ran (o : operation) (l : locker).

#[global] Instance phase_eq_dec : EqDecision phase.
Proof. solve_decision. Defined.

Definition advance (ph : phase) (e : event) : option phase :=
  match ph, e with
  | _, Access => Some ph
  | Idle, Locker _ None => Some Idle
  | Idle, Locker o (Some l) => Some (Got o l)
  | Idle, (Call _ | Note _) => Some Idle
  | Got o l, Start l' w _ => if decide (l = l' ∧ w = (wait_of o).1) then Some (Open o l) else None
  | Open o l, Call f => if decide (f ∈ calls_of o) then Some (Ran o l) else None
  | Ran o l, End l' e _ => if decide (l = l' ∧ e = (wait_of o).2) then Some Idle else None
  | _, _ => None
  end.

(** The phase after a list of events, if they keep to the protocol. *)
Fixpoint protocol (ph : phase) (t : list event) : option phase :=
  match t with
  | [] => Some ph
  | e :: t => advance ph e ≫= λ ph, protocol ph t
  end.

Lemma protocol_app ph t t' : protocol ph (t ++ t') = protocol ph t ≫= λ ph, protocol ph t'.
Proof.
  revert ph. induction t as [|e t IH]; intros ph; simpl; [done|].
  destruct (advance ph e); simpl; auto.
Qed.

Section Protocol.
Context {R I : Type}.

(** For all answers, [p] keeps to the protocol from [ph] and ends in [Q]. *)
Fixpoint wp {A} (p : prog R I A) (ph : phase) (Q : A → phase → Prop) : Prop :=
  match p with
  | Ret a => Q a ph
  | Real e _ k | Psi e _ k => ∀ b, match advance ph (e b) with
                                   | Some ph => wp (k b) ph Q
                                   | None => False
                                   end
  end.

Definition measured {A} (p : prog R I A) : Prop := wp p Idle (λ _ ph, ph = Idle).

Lemma wp_bind {A B} (p : prog R I A) (g : A → prog R I B) ph Q :
  wp p ph (λ a ph, wp (g a) ph Q) → wp (pbind p g) ph Q.
Proof.
  revert ph. induction p as [a|C e f k IH|C e f k IH]; intros ph; simpl; [done|..];
    intros H b; specialize (H b); destruct (advance ph (e b)); [by apply IH|done..|by apply IH|done].
Qed.

Lemma wp_mono {A} (p : prog R I A) ph (Q Q' : A → phase → Prop) :
  (∀ a ph, Q a ph → Q' a ph) → wp p ph Q → wp p ph Q'.
Proof.
  intros HQ. revert ph. induction p as [a|C e f k IH|C e f k IH]; intros ph; simpl; [auto|..];
    intros H b; specialize (H b); destruct (advance ph (e b)); try done; by apply IH.
Qed.

Lemma wp_then {A B} (p : prog R I A) (g : A → prog R I B) ph Q Q' :
  wp p ph Q' → (∀ a ph, Q' a ph → wp (g a) ph Q) → wp (pbind p g) ph Q.
Proof. intros Hp Hg. apply wp_bind. eapply wp_mono; [|exact Hp]. done. Qed.

Lemma measured_bind {A B} (p : prog R I A) (g : A → prog R I B) :
  measured p → (∀ a, measured (g a)) → measured (pbind p g).
Proof.
  intros Hp Hg. eapply wp_then; [exact Hp|]. intros a ph ->. apply Hg.
Qed.

Lemma wp_run {A} (p : prog R I A) ph Q r i a r' i' t :
  wp p ph Q → run p r i = Ok (a, r', i', t) →
  ∃ ph', protocol ph t = Some ph' ∧ Q a ph'.
Proof.
  revert ph r i t. induction p as [x|C e f k IH|C e f k IH]; intros ph r i t; simpl.
  - intros HQ [= -> -> -> <-]. eauto.
  - intros H. destruct (f r) as [[b r1]| |]; [|done..]. simpl. intros E.
    apply rbind_Ok in E as ([[[a1 r2] i2] t2] & E & [= -> -> -> <-]). simpl.
    specialize (H b). destruct (advance ph (e b)); [|done]. simpl. eauto.
  - intros H. destruct (f i) as [b i1]. simpl. intros E.
    apply rbind_Ok in E as ([[[a1 r2] i2] t2] & E & [= -> -> -> <-]). simpl.
    specialize (H b). destruct (advance ph (e b)); [|done]. simpl. eauto.
Qed.
End Protocol.

(** ** The interface

    [P] is the state of the instrumentation, with what it writes through the
    pointers it is given.  The storage [state] that the C code passes with a
    request for a locker is the locker's own memory: it is part of [P]. *)
Section Interface.
Context (R P : Type).

(** Next to it, the hooks: the field [m_psi] of the object at an address, which
    is arbitrary before the object is initialized. *)
Record inst : Type := Inst { ps : P; m_psi : loc → option loc }.

Definition register_mutex_v1_t : Type := bytes → list PSI_mutex_info_v1 → Z → P → P.
Definition register_rwlock_v1_t : Type := bytes → list PSI_rwlock_info_v1 → Z → P → P.
Definition register_cond_v1_t : Type := bytes → list PSI_cond_info_v1 → Z → P → P.
Definition register_thread_v1_t : Type := bytes → list PSI_thread_info_v1 → Z → P → P.
Definition register_file_v1_t : Type := bytes → list PSI_file_info_v1 → Z → P → P.
Definition init_mutex_v1_t : Type := PSI_mutex_key → loc → P → option PSI_mutex * P.
Definition destroy_mutex_v1_t : Type := PSI_mutex → P → P.
Definition init_rwlock_v1_t : Type := PSI_rwlock_key → loc → P → option PSI_rwlock * P.
Definition destroy_rwlock_v1_t : Type := PSI_rwlock → P → P.
Definition init_cond_v1_t : Type := PSI_cond_key → loc → P → option PSI_cond * P.
Definition destroy_cond_v1_t : Type := PSI_cond → P → P.
Definition get_table_share_v1_t : Type :=
  bytes → Z → bytes → Z → loc → P → option PSI_table_share * P.
Definition release_table_share_v1_t : Type := PSI_table_share → P → P.
Definition open_table_v1_t : Type := PSI_table_share → loc → P → option PSI_table * P.
Definition close_table_v1_t : Type := PSI_table → P → P.
Definition create_file_v1_t : Type := PSI_file_key → bytes → Z → P → P.
(** This one makes a thread: it calls the machine too. *)
Definition spawn_thread_v1_t : Type :=
  PSI_thread_key → loc → option loc → loc → option loc → prog R inst Z.
Definition new_thread_v1_t : Type := PSI_thread_key → loc → Z → P → option PSI_thread * P.
Definition set_thread_id_v1_t : Type := PSI_thread → Z → P → P.
Definition get_thread_v1_t : Type := P → option PSI_thread * P.
Definition set_thread_v1_t : Type := PSI_thread → P → P.
Definition delete_current_thread_v1_t : Type := P → P.
Definition delete_thread_v1_t : Type := PSI_thread → P → P.
Definition get_thread_mutex_locker_v1_t : Type :=
  PSI_mutex → PSI_mutex_operation → P → option PSI_mutex_locker * P.
Definition get_thread_rwlock_locker_v1_t : Type :=
  PSI_rwlock → PSI_rwlock_operation → P → option PSI_rwlock_locker * P.
(** The mutex of a condition need not be instrumented. *)
Definition get_thread_cond_locker_v1_t : Type :=
  PSI_cond → option PSI_mutex → PSI_cond_operation → P → option PSI_cond_locker * P.
Definition get_thread_table_locker_v1_t : Type := PSI_table → P → option PSI_table_locker * P.
(** The identity is an address that stands for the file: the caller's local
    variable ([None]), or the stream. *)
Definition get_thread_file_name_locker_v1_t : Type :=
  PSI_file_key → PSI_file_operation → bytes → option loc → P → option PSI_file_locker * P.
Definition get_thread_file_stream_locker_v1_t : Type :=
  PSI_file → PSI_file_operation → P → option PSI_file_locker * P.
Definition get_thread_file_descriptor_locker_v1_t : Type :=
  Z → PSI_file_operation → P → option PSI_file_locker * P.
Definition unlock_mutex_v1_t : Type := PSI_mutex → P → P.
Definition unlock_rwlock_v1_t : Type := PSI_rwlock → P → P.
Definition signal_cond_v1_t : Type := PSI_cond → P → P.
Definition broadcast_cond_v1_t : Type := PSI_cond → P → P.
Definition start_mutex_wait_v1_t : Type := PSI_mutex_locker → bytes → Z → P → P.
Definition end_mutex_wait_v1_t : Type := PSI_mutex_locker → Z → P → P.
Definition start_rwlock_rdwait_v1_t : Type := PSI_rwlock_locker → bytes → Z → P → P.
Definition end_rwlock_rdwait_v1_t : Type := PSI_rwlock_locker → Z → P → P.
Definition start_rwlock_wrwait_v1_t : Type := PSI_rwlock_locker → bytes → Z → P → P.
Definition end_rwlock_wrwait_v1_t : Type := PSI_rwlock_locker → Z → P → P.
Definition start_cond_wait_v1_t : Type := PSI_cond_locker → bytes → Z → P → P.
Definition end_cond_wait_v1_t : Type := PSI_cond_locker → Z → P → P.
Definition start_table_wait_v1_t : Type := PSI_table_locker → bytes → Z → P → P.
Definition end_table_wait_v1_t : Type := PSI_table_locker → P → P.
Definition start_file_open_wait_v1_t : Type :=
  PSI_file_locker → bytes → Z → P → option PSI_file * P.
Definition end_file_open_wait_v1_t : Type := PSI_file_locker → P → P.
Definition end_file_open_wait_and_bind_to_descriptor_v1_t : Type := PSI_file_locker → Z → P → P.
Definition start_file_wait_v1_t : Type := PSI_file_locker → Z → bytes → Z → P → P.
Definition end_file_wait_v1_t : Type := PSI_file_locker → Z → P → P.

Record PSI_v1 : Type := {
  register_mutex : register_mutex_v1_t;
  register_rwlock : register_rwlock_v1_t;
  register_cond : register_cond_v1_t;
  register_thread : register_thread_v1_t;
  register_file : register_file_v1_t;
  init_mutex : init_mutex_v1_t;
  destroy_mutex : destroy_mutex_v1_t;
  init_rwlock : init_rwlock_v1_t;
  destroy_rwlock : destroy_rwlock_v1_t;
  init_cond : init_cond_v1_t;
  destroy_cond : destroy_cond_v1_t;
  get_table_share : get_table_share_v1_t;
  release_table_share : release_table_share_v1_t;
  open_table : open_table_v1_t;
  close_table : close_table_v1_t;
  create_file : create_file_v1_t;
  spawn_thread : spawn_thread_v1_t;
  new_thread : new_thread_v1_t;
  set_thread_id : set_thread_id_v1_t;
  get_thread : get_thread_v1_t;
  set_thread : set_thread_v1_t;
  delete_current_thread : delete_current_thread_v1_t;
  delete_thread : delete_thread_v1_t;
  get_thread_mutex_locker : get_thread_mutex_locker_v1_t;
  get_thread_rwlock_locker : get_thread_rwlock_locker_v1_t;
  get_thread_cond_locker : get_thread_cond_locker_v1_t;
  get_thread_table_locker : get_thread_table_locker_v1_t;
  get_thread_file_name_locker : get_thread_file_name_locker_v1_t;
  get_thread_file_stream_locker : get_thread_file_stream_locker_v1_t;
  get_thread_file_descriptor_locker : get_thread_file_descriptor_locker_v1_t;
  unlock_mutex : unlock_mutex_v1_t;
  unlock_rwlock : unlock_rwlock_v1_t;
  signal_cond : signal_cond_v1_t;
  broadcast_cond : broadcast_cond_v1_t;
  start_mutex_wait : start_mutex_wait_v1_t;
  end_mutex_wait : end_mutex_wait_v1_t;
  start_rwlock_rdwait : start_rwlock_rdwait_v1_t;
  end_rwlock_rdwait : end_rwlock_rdwait_v1_t;
  start_rwlock_wrwait : start_rwlock_wrwait_v1_t;
  end_rwlock_wrwait : end_rwlock_wrwait_v1_t;
  start_cond_wait : start_cond_wait_v1_t;
  end_cond_wait : end_cond_wait_v1_t;
  start_table_wait : start_table_wait_v1_t;
  end_table_wait : end_table_wait_v1_t;
  start_file_open_wait : start_file_open_wait_v1_t;
  end_file_open_wait : end_file_open_wait_v1_t;
  end_file_open_wait_and_bind_to_descriptor : end_file_open_wait_and_bind_to_descriptor_v1_t;
  start_file_wait : start_file_wait_v1_t;
  end_file_wait : end_file_wait_v1_t
}.
End Interface.

Arguments Inst {P} _ _.
Arguments ps {P} _.
Arguments m_psi {P} _ _.

(** The version that is exported, and the builds: with the instrumentation or
    not (HAVE_PSI_INTERFACE), with checked mutexes or not (SAFE_MUTEX). *)
Abbreviation PSI := PSI_v1.

Record build : Set := Build { HAVE_PSI_INTERFACE : bool; SAFE_MUTEX : bool }.

(** ** Calls on the instrumentation, as programs *)
Section Calls.
Context {R P : Type}.

Definition on_ps (f : P → P) (i : inst P) : unit * inst P := (tt, Inst (f (ps i)) (m_psi i)).

Definition ask {B : Set} (e : B → event) (f : P → B * P) : prog R (inst P) B :=
  psi e (λ i, let '(b, s) := f (ps i) in (b, Inst s (m_psi i))).

Definition tell (e : event) (f : P → P) : prog R (inst P) unit := psi (λ _, e) (on_ps f).

(** The field has a value, that of its initialization or any other; a read of a field
    that was never set, or of freed memory, is not modelled as undefined. *)
Definition load_psi (that : loc) : prog R (inst P) (option loc) :=
  psi (λ _, Access) (λ i, (m_psi i that, i)).

Definition store_psi (that : loc) (v : option loc) : prog R (inst P) unit :=
  psi (λ _, Access) (λ i, (tt, Inst (ps i) (<[that := v]> (m_psi i)))).
End Calls.

(** ** Programs that only talk to the instrumentation *)
Section Quiet.
Context {R I : Type}.

(** [p] makes no call on the machine, and its values satisfy [Q]. *)
Fixpoint quietly {A} (p : prog R I A) (Q : A → Prop) : Prop :=
  match p with
  | Ret a => Q a
  | Real _ _ _ => False
  | Psi _ _ k => ∀ b, quietly (k b) Q
  end.

Lemma quietly_bind {A B} (p : prog R I A) (g : A → prog R I B) Q :
  quietly p (λ a, quietly (g a) Q) → quietly (pbind p g) Q.
Proof. induction p as [a|C e f k IH|C e f k IH]; simpl; [done..|]; eauto. Qed.

Lemma quietly_mono {A} (p : prog R I A) (Q Q' : A → Prop) :
  (∀ a, Q a → Q' a) → quietly p Q → quietly p Q'.
Proof. intros HQ. induction p as [a|C e f k IH|C e f k IH]; simpl; [eauto|done|eauto]. Qed.

Lemma replaces_quietly {A B} (p : prog R I A) (g : A → prog R I B) (q : prog R I B) Q :
  quietly p Q → (∀ a, Q a → replaces (g a) q) → replaces (pbind p g) q.
Proof.
  intros Hp Hg. induction p as [a|C e f k IH|C e f k IH]; simpl in *; [eauto|done|eauto].
Qed.

Lemma replaces_real {A} {B : Set} e f (g h : B → prog R I A) :
  (∀ b, replaces (g b) (h b)) → replaces (pbind (real e f) g) (pbind (real e f) h).
Proof. intros H. simpl. eexists. split; [reflexivity|done]. Qed.

Lemma replaces_real_last {A : Set} e (f : R → res (A * R)) (g : A → prog R I A) :
  (∀ b, replaces (g b) (Ret b)) → replaces (pbind (real e f) g) (real e f).
Proof. intros H. simpl. eexists. split; [reflexivity|done]. Qed.

Lemma replaces_quiet_unit (p : prog R I unit) :
  quietly p (λ _, True) → replaces p (Ret tt).
Proof. induction p as [[]|C e f k IH|C e f k IH]; simpl; [done..|eauto]. Qed.

(** One access or one call keeps the protocol where an event of its kind fits. *)
Lemma wp_access {A} {B : Set} f (g : B → prog R I A) ph Q :
  (∀ b, wp (g b) ph Q) → wp (pbind (real Access f) g) ph Q.
Proof. intros H b. destruct ph; apply H. Qed.

Lemma wp_idle_call {A} {B : Set} c f (g : B → prog R I A) Q :
  (∀ b, wp (g b) Idle Q) → wp (pbind (real (Call c) f) g) Idle Q.
Proof. done. Qed.

End Quiet.

Lemma advance_end o l e z : e = (wait_of o).2 → advance (Ran o l) (End l e z) = Some Idle.
Proof. intros H. simpl. by rewrite decide_True. Qed.

Lemma advance_start o l w z : w = (wait_of o).1 → advance (Got o l) (Start l w z) = Some (Open o l).
Proof. intros H. simpl. by rewrite decide_True. Qed.

Lemma advance_call o l f : f ∈ calls_of o → advance (Open o l) (Call f) = Some (Ran o l).
Proof. intros H. simpl. by rewrite decide_True. Qed.
