(* ===== verification/PsiWrap.v ===== *)
(** * The shape of the instrumented functions

    The inline functions of mysql_file.h and mysql_thread.h share their frame:

      if (PSI_server && that->m_psi) {
        locker= PSI_server->get_thread_..._locker(&state, that->m_psi, ...);
        if (locker != NULL) PSI_server->start_..._wait(locker, ...);
      }
      result= the call;
      if (locker != NULL) PSI_server->end_..._wait(locker, ...);

    This file has its parts, and what holds of them for every instrumentation:
    they do not touch the machine ([quietly]) and follow the protocol ([wp]).  The
    tactics [replaces_steps] and [wp_steps] go through a function with them. *)
From Stdlib Require Import ZArith Ascii Lia.
From stdpp Require Import base list strings numbers gmap functions.
From S2P Require Import Prelude Packet Psi.

Section Wrappers.
Context {R P : Type} (cfg : build) (PSI_server : option (PSI R P)).

Abbreviation M := (prog R (inst P)).

(** What starts or ends a wait with a locker. *)
Abbreviation starter := (PSI R P → loc → M unit).

(** [#ifdef HAVE_PSI_INTERFACE] *)
Definition ifdef {A} (otherwise : A) (p : M A) : M A :=
  if HAVE_PSI_INTERFACE cfg then p else Ret otherwise.

(** [if (likely(locker != NULL)) start] *)
Definition started (srv : PSI R P) (start : starter) (locker : option loc) : M (option loc) :=
  match locker with
  | Some l => _ ← start srv l; Ret (Some l)
  | None => Ret None
  end.

(** [if (likely(PSI_server != NULL)) { locker= get; start }] *)
Definition served (get : PSI R P → M (option loc)) (start : starter) : M (option loc) :=
  match PSI_server with
  | Some srv => locker ← get srv; started srv start locker
  | None => Ret None
  end.

(** [if (likely(PSI_server && that->m_psi)) { locker= get; start }] *)
Definition hooked (that : loc) (get : PSI R P → loc → M (option loc)) (start : starter)
  : M (option loc) :=
  match PSI_server with
  | Some srv =>
      psi ← load_psi that;
      match psi with
      | Some h => locker ← get srv h; started srv start locker
      | None => Ret None
      end
  | None => Ret None
  end.

(** [if (likely(locker != NULL)) PSI_server->end_..._wait(locker, ...)] *)
Definition ended (locker : option loc) (finish : starter) : M unit :=
  match locker with
  | Some l => match PSI_server with
              | Some srv => finish srv l
              | None => undefined NullDeref
              end
  | None => Ret tt
  end.

(** [if (likely(PSI_server && that->m_psi)) notify] *)
Definition hook (that : loc) (notify : PSI R P → loc → M unit) : M unit :=
  match PSI_server with
  | Some srv =>
      psi ← load_psi that;
      match psi with
      | Some h => notify srv h
      | None => Ret tt
      end
  | None => Ret tt
  end.

(** ** They do not touch the machine *)

Definition valid_locker (o : option loc) : Prop := PSI_server = None → o = None.
Definition quiet_starter (start : starter) : Prop :=
  ∀ srv l, quietly (start srv l) (λ _, True).

Lemma started_quiet srv start o :
  PSI_server = Some srv → quiet_starter start → quietly (started srv start o) valid_locker.
Proof.
  intros E H. destruct o as [l|]; simpl; [|done].
  apply quietly_bind. eapply quietly_mono; [|apply H]. simpl. intros _ _ ?. congruence.
Qed.

Lemma served_quiet get start :
  (∀ srv, quietly (get srv) (λ _, True)) → quiet_starter start →
  quietly (served get start) valid_locker.
Proof.
  intros Hg Hs. unfold served. destruct PSI_server as [srv|] eqn:E; [|done].
  apply quietly_bind. eapply quietly_mono; [|apply Hg]. intros o _. by apply started_quiet.
Qed.

Lemma hooked_quiet that get start :
  (∀ srv h, quietly (get srv h) (λ _, True)) → quiet_starter start →
  quietly (hooked that get start) valid_locker.
Proof.
  intros Hg Hs. unfold hooked. destruct PSI_server as [srv|] eqn:E; [|done].
  simpl. intros [h|]; [|done]. apply quietly_bind. eapply quietly_mono; [|apply Hg].
  intros o _. by apply started_quiet.
Qed.

Lemma ended_quiet o finish :
  valid_locker o → quiet_starter finish → quietly (ended o finish) (λ _, True).
Proof.
  intros Ho Hf. destruct o as [l|]; simpl; [|done].
  destruct PSI_server as [srv|] eqn:E; [apply Hf|]. by specialize (Ho E).
Qed.

Lemma hook_quiet that notify :
  (∀ srv h, quietly (notify srv h) (λ _, True)) → quietly (hook that notify) (λ _, True).
Proof.
  intros Hn. unfold hook. destruct PSI_server as [srv|] eqn:E; [|done].
  simpl. intros [h|]; [apply Hn|done].
Qed.

Lemma ifdef_locker_quiet p : quietly p valid_locker → quietly (ifdef None p) valid_locker.
Proof. unfold ifdef. by destruct HAVE_PSI_INTERFACE. Qed.
Lemma ifdef_unit_quiet p : quietly p (λ _, True) → quietly (ifdef tt p) (λ _, True).
Proof. unfold ifdef. by destruct HAVE_PSI_INTERFACE. Qed.
Lemma tell_quiet e f : quietly (tell e f : M unit) (λ _, True).
Proof. done. Qed.
Lemma ask_quiet {B : Set} (e : B → event) f : quietly (ask e f : M B) (λ _, True).
Proof. done. Qed.
Lemma store_psi_quiet that v : quietly (store_psi that v : M unit) (λ _, True).
Proof. done. Qed.

(** ** They follow the protocol *)

Context (K : loc → locker) (op : operation).

(** The phases between the start and the end of a wait, if there is a locker. *)
Definition got (o : option loc) : phase := match o with Some l => Got op (K l) | None => Idle end.
Definition opened (o : option loc) : phase := match o with Some l => Open op (K l) | None => Idle end.
Definition ran (o : option loc) : phase := match o with Some l => Ran op (K l) | None => Idle end.

Definition begins (start : starter) : Prop :=
  ∀ srv l, wp (start srv l) (Got op (K l)) (λ _ ph, ph = Open op (K l)).
Definition finishes (finish : starter) : Prop :=
  ∀ srv l, wp (finish srv l) (Ran op (K l)) (λ _ ph, ph = Idle).

(** A locker that is held: there is none without a server, and none without
    the instrumentation. *)
Definition holds (o : option loc) (ph : phase) : Prop := valid_locker o ∧ ph = opened o.
Definition kept (o : option loc) (ph : phase) : Prop :=
  (HAVE_PSI_INTERFACE cfg = false → o = None) ∧ holds o ph.

Lemma started_wp srv start o :
  PSI_server = Some srv → begins start → wp (started srv start o) (got o) holds.
Proof.
  intros E H. destruct o as [l|]; simpl; [|done].
  eapply wp_then; [apply H|]. intros _ ph ->. split; [|done]. intros ?. congruence.
Qed.

Lemma served_wp get start :
  (∀ srv, wp (get srv) Idle (λ o ph, ph = got o)) → begins start →
  wp (served get start) Idle holds.
Proof.
  intros Hg Hs. unfold served. destruct PSI_server as [srv|] eqn:E; [|done].
  eapply wp_then; [apply Hg|]. intros o ph ->. by apply started_wp.
Qed.

Lemma hooked_wp that get start :
  (∀ srv h, wp (get srv h) Idle (λ o ph, ph = got o)) → begins start →
  wp (hooked that get start) Idle holds.
Proof.
  intros Hg Hs. unfold hooked. destruct PSI_server as [srv|] eqn:E; [|done].
  simpl. intros [h|]; [|done]. eapply wp_then; [apply Hg|]. intros o ph ->. by apply started_wp.
Qed.

Lemma ask_locker_wp f :
  wp (ask (λ o : option loc, Locker op (K <$> o)) f : M (option loc)) Idle (λ o ph, ph = got o).
Proof. intros [l|]; done. Qed.

Lemma ifdef_locker_wp p : wp p Idle holds → wp (ifdef None p) Idle kept.
Proof.
  unfold ifdef, kept. destruct HAVE_PSI_INTERFACE; [|done].
  intros H. eapply wp_mono; [|exact H]. done.
Qed.

Lemma ended_wp o finish :
  valid_locker o → finishes finish → wp (ended o finish) (ran o) (λ _ ph, ph = Idle).
Proof.
  intros Ho Hf. destruct o as [l|]; simpl; [|done].
  destruct PSI_server as [srv|] eqn:E; [apply Hf|]. by specialize (Ho E).
Qed.

Lemma ifdef_ended_wp o finish ph :
  kept o ph → finishes finish → wp (ifdef tt (ended o finish)) (ran o) (λ _ ph, ph = Idle).
Proof.
  intros [Hc [Ho _]] Hf. unfold ifdef. destruct HAVE_PSI_INTERFACE; [by apply ended_wp|].
  by rewrite Hc.
Qed.

Lemma wp_kept_call {A} {B : Set} c f (g : B → M A) o ph Q :
  kept o ph → c ∈ calls_of op → (∀ b, wp (g b) (ran o) Q) → wp (pbind (real (Call c) f) g) ph Q.
Proof.
  intros [_ [_ ->]] Hc H. destruct o as [l|]; [|exact H]. intros b. cbn [opened].
  rewrite advance_call by done. apply H.
Qed.

Lemma wp_store_psi {A} that v (g : unit → M A) ph Q :
  (∀ b, wp (g b) ph Q) → wp (pbind (store_psi that v) g) ph Q.
Proof. intros H b. destruct ph; apply H. Qed.

Lemma hook_wp that notify :
  (∀ srv h, wp (notify srv h) Idle (λ _ ph, ph = Idle)) →
  wp (ifdef tt (hook that notify)) Idle (λ _ ph, ph = Idle).
Proof.
  intros Hn. unfold ifdef, hook. destruct HAVE_PSI_INTERFACE; [|done].
  destruct PSI_server as [srv|]; [|done]. simpl. intros [h|]; [apply Hn|done].
Qed.
End Wrappers.

Create HintDb quiet.
#[export] Hint Resolve served_quiet hooked_quiet ended_quiet hook_quiet ifdef_locker_quiet
  ifdef_unit_quiet tell_quiet ask_quiet store_psi_quiet : quiet.

(** A call is one of those of its operation. *)
Ltac solve_call := apply (bool_decide_unpack _); vm_compute; exact I.

Create HintDb waits.
#[export] Hint Extern 1 (_ = _) => reflexivity : waits.
#[export] Hint Resolve served_wp hooked_wp ask_locker_wp ifdef_locker_wp ifdef_ended_wp
  hook_wp : waits.

(** Call by call: the same calls on both sides, or a quiet one on the left. *)
Ltac replaces_steps :=
  repeat first
    [ apply replaces_real; intros ?
    | apply replaces_real_last; intros ?
    | reflexivity
    | eapply replaces_quietly; [solve [eauto with quiet]|intros ? ?]
    | match goal with |- replaces (match ?o with _ => _ end) _ => destruct o end ].

(** Event by event, with the phase the program is in. *)
Ltac wp_steps :=
  repeat first
    [ reflexivity
    | apply wp_access; intros ?
    | eapply wp_kept_call; [eassumption|solve_call|intros ?]
    | apply wp_idle_call; intros ?
    | apply wp_store_psi; intros ?
    | eapply wp_then; [solve [eauto with waits]|intros ? ? ?; cbv beta in *; subst]
    | match goal with |- wp (match ?o with _ => _ end) _ _ => destruct o end ].
