(* ===== verification/PsiFile.v ===== *)
(** * Instrumented file calls: mysql/psi/mysql_file.h

    Each [inline_mysql_file_*] asks the instrumentation for a locker, starts a
    wait, makes the call it stands for, and ends the wait.  The macros
    [mysql_file_*] pass the place they are used at.  A stream is a [MYSQL_FILE]
    that [fopen] allocates; the functions of mysys and of the C library that are
    called are the fields of [mysys], arbitrary functions of the state [OS]. *)
From Stdlib Require Import ZArith Ascii Lia.
From stdpp Require Import base list strings numbers gmap functions.
From S2P Require Import Prelude Clib Packet Psi PsiWrap.

Local Open Scope Z_scope.

(** ** What is used of mysys and of the C library *)

Abbreviation FILE := loc.
Abbreviation MY_STAT := loc.
Abbreviation File := Z.

Definition MY_FILE_ERROR : Z := u64 (-1).
Definition MY_FNABP : Z := 2.
Definition MY_NABP : Z := 4.
Definition MY_WME : Z := 16.

(** A pointer to text is the text it points to, or NULL; [fgets] gives the bytes
    it stored.  Buffers of other calls are addresses, and their contents are in
    [OS]. *)
Record mysys (OS : Type) : Type := {
  fgets : loc → Z → FILE → OS → res (option bytes * OS);
  fgetc : FILE → OS → res (Z * OS);
  fputs : option bytes → FILE → OS → res (Z * OS);
  fputc : ascii → FILE → OS → res (Z * OS);
  vfprintf : FILE → bytes → list arg → OS → res (Z * OS);
  fflush : FILE → OS → res (Z * OS);
  feof : FILE → OS → res (Z * OS);
  my_fstat : Z → MY_STAT → Z → OS → res (Z * OS);
  my_stat : bytes → MY_STAT → Z → OS → res (option MY_STAT * OS);
  my_chsize : File → Z → Z → Z → OS → res (Z * OS);
  my_malloc : Z → Z → OS → res (option loc * OS);
  my_free : loc → OS → res (unit * OS);
  my_fopen : bytes → Z → Z → OS → res (option FILE * OS);
  my_fclose : FILE → Z → OS → res (Z * OS);
  my_fread : FILE → loc → Z → Z → OS → res (Z * OS);
  my_fwrite : FILE → loc → Z → Z → OS → res (Z * OS);
  my_fseek : FILE → Z → Z → Z → OS → res (Z * OS);
  my_ftell : FILE → Z → OS → res (Z * OS);
  my_create : bytes → Z → Z → Z → OS → res (File * OS);
  create_temp_file : option bytes → bytes → Z → Z → OS → res ((bytes * File) * OS);
  my_open : bytes → Z → Z → OS → res (File * OS);
  my_close : File → Z → OS → res (Z * OS);
  my_read : File → loc → Z → Z → OS → res (Z * OS);
  my_write : File → loc → Z → Z → OS → res (Z * OS);
  my_pread : File → loc → Z → Z → Z → OS → res (Z * OS);
  my_pwrite : File → loc → Z → Z → Z → OS → res (Z * OS);
  my_seek : File → Z → Z → Z → OS → res (Z * OS);
  my_tell : File → Z → OS → res (Z * OS);
  my_delete : bytes → Z → OS → res (Z * OS);
  my_rename : bytes → bytes → Z → OS → res (Z * OS);
  my_create_with_symlink : bytes → bytes → Z → Z → Z → OS → res (File * OS);
  my_delete_with_symlink : bytes → Z → OS → res (Z * OS);
  my_rename_with_symlink : bytes → bytes → Z → OS → res (Z * OS);
  my_sync : File → Z → OS → res (Z * OS)
}.

(** The machine: the state of the system, and the field [m_file] of each
    [MYSQL_FILE] that is allocated, once it is written ([m_psi] is in [inst]). *)
Record mach (OS : Type) : Type := Mach { os : OS; m_file : gmap loc (option (option FILE)) }.

Arguments Mach {OS} _ _.
Arguments os {OS} _.
Arguments m_file {OS} _.

(** The calls of the interface, with the type of their results. *)
Inductive file_call : Set → Type :=
| F_fgets (str : loc) (size : Z) (file : loc) : file_call (option bytes)
| F_fgetc (file : loc) : file_call Z
| F_fputs (str : option bytes) (file : loc) : file_call Z
| F_fputc (c : ascii) (file : loc) : file_call Z
| F_fprintf (file : loc) (format : bytes) (args : list arg) : file_call Z
| F_vfprintf (file : loc) (format : bytes) (args : list arg) : file_call Z
| F_fflush (file : loc) : file_call Z
| F_feof (file : loc) : file_call Z
| F_fstat (filenr : Z) (stat_area : MY_STAT) (flags : Z) : file_call Z
| F_stat (key : PSI_file_key) (path : bytes) (stat_area : MY_STAT) (flags : Z)
    : file_call (option MY_STAT)
| F_chsize (file : File) (newlength filler flags : Z) : file_call Z
| F_fopen (key : PSI_file_key) (filename : bytes) (flags myFlags : Z) : file_call (option loc)
| F_fclose (file : option loc) (flags : Z) : file_call Z
| F_fread (file : loc) (buffer : loc) (count flags : Z) : file_call Z
| F_fwrite (file : loc) (buffer : loc) (count flags : Z) : file_call Z
| F_fseek (file : loc) (pos whence flags : Z) : file_call Z
| F_ftell (file : loc) (flags : Z) : file_call Z
| F_create (key : PSI_file_key) (filename : bytes) (create_flags access_flags myFlags : Z)
    : file_call File
| F_create_temp (key : PSI_file_key) (dir : option bytes) (pfx : bytes) (mode myFlags : Z)
    : file_call (bytes * File)
| F_open (key : PSI_file_key) (filename : bytes) (flags myFlags : Z) : file_call File
| F_close (file : File) (flags : Z) : file_call Z
| F_read (file : File) (buffer : loc) (count flags : Z) : file_call Z
| F_write (file : File) (buffer : loc) (count flags : Z) : file_call Z
| F_pread (file : File) (buffer : loc) (count offset flags : Z) : file_call Z
| F_pwrite (file : File) (buffer : loc) (count offset flags : Z) : file_call Z
| F_seek (file : File) (pos whence flags : Z) : file_call Z
| F_tell (file : File) (flags : Z) : file_call Z
| F_delete (key : PSI_file_key) (name : bytes) (flags : Z) : file_call Z
| F_rename (key : PSI_file_key) (from to : bytes) (flags : Z) : file_call Z
| F_create_with_symlink (key : PSI_file_key) (linkname filename : bytes) (create_flags access_flags flags : Z)
    : file_call File
| F_delete_with_symlink (key : PSI_file_key) (name : bytes) (flags : Z) : file_call Z
| F_rename_with_symlink (key : PSI_file_key) (from to : bytes) (flags : Z) : file_call Z
| F_sync (fd : File) (flags : Z) : file_call Z.

(** Where a macro is used. *)
Record site : Set := Site { FILE_ : bytes; LINE_ : Z }.

Definition sizeof_MYSQL_FILE : Z := 16.

Section Files.
Context {OS P : Type} (lib : mysys OS) (cfg : build) (PSI_server : option (PSI (mach OS) P)).
(** The name of the header and the line of a call in it, for [fprintf]. *)
Context (header : site).

Abbreviation M := (prog (mach OS) (inst P)).

(** A call of the library, and the accesses to a [MYSQL_FILE]. *)
Definition call {B : Set} (f : string) (g : OS → res (B * OS)) : M B :=
  real (Call f) (λ m, do '(b, o) <- g (os m); Ok (b, Mach o (m_file m))).

Definition load_file (file : loc) : M (option FILE) :=
  real Access (λ m, match m_file m !! file with
                    | Some (Some f) => Ok (f, m)
                    | Some None => Ub Uninit
                    | None => Ub OutOfBounds
                    end).

(** [file->m_file] where the C code uses the stream it points to. *)
Definition stream (file : loc) : M FILE :=
  real Access (λ m, match m_file m !! file with
                    | Some (Some (Some f)) => Ok (f, m)
                    | Some (Some None) => Ub NullDeref
                    | Some None => Ub Uninit
                    | None => Ub OutOfBounds
                    end).

Definition store_file (file : loc) (f : option FILE) : M unit :=
  real Access (λ m, match m_file m !! file with
                    | Some _ => Ok (tt, Mach (os m) (<[file := Some f]> (m_file m)))
                    | None => Ub OutOfBounds
                    end).

Definition malloc_file : M (option loc) :=
  real Access (λ m, do '(p, o) <- my_malloc _ lib sizeof_MYSQL_FILE MY_WME (os m);
                    Ok (p, Mach o (match p with
                                   | Some p => <[p := None]> (m_file m)
                                   | None => m_file m
                                   end))).

Definition free_file (file : loc) : M unit :=
  real Access (λ m, match m_file m !! file with
                    | Some _ => do '(_, o) <- my_free _ lib file (os m);
                                Ok (tt, Mach o (delete file (m_file m)))
                    | None => Ub OutOfBounds
                    end).

(** *** The parts the functions share *)

Abbreviation starter := (PSI (mach OS) P → PSI_file_locker → M unit).
Abbreviation ifdef := (ifdef cfg).
Abbreviation ended := (ended PSI_server).

Definition stream_locker (file : loc) (op : PSI_file_operation) (start : starter)
  : M (option PSI_file_locker) :=
  hooked PSI_server file (λ srv h, ask (λ o : option loc, Locker (FileOp op) (FileLocker <$> o))
                           (get_thread_file_stream_locker _ _ srv h op)) start.

Definition descriptor_locker (file : File) (op : PSI_file_operation) (start : starter)
  : M (option PSI_file_locker) :=
  served PSI_server (λ srv, ask (λ o : option loc, Locker (FileOp op) (FileLocker <$> o))
                      (get_thread_file_descriptor_locker _ _ srv file op)) start.

Definition name_locker (key : PSI_file_key) (op : PSI_file_operation) (name : bytes)
    (identity : option loc) (start : starter) : M (option PSI_file_locker) :=
  served PSI_server (λ srv, ask (λ o : option loc, Locker (FileOp op) (FileLocker <$> o))
                      (get_thread_file_name_locker _ _ srv key op name identity)) start.

Definition start_wait (count : Z) (src_file : bytes) (src_line : Z) : starter := λ srv l,
  tell (Start (FileLocker l) FileWait count) (start_file_wait _ _ srv l count src_file src_line).

Definition start_open (src_file : bytes) (src_line : Z) : PSI (mach OS) P → PSI_file_locker → M (option PSI_file) :=
  λ srv l, ask (λ _, Start (FileLocker l) FileOpenWait 0)
           (start_file_open_wait _ _ srv l src_file src_line).

(** The file handle is not used by the functions on descriptors. *)
Definition start_open_ (src_file : bytes) (src_line : Z) : starter := λ srv l,
  _ ← start_open src_file src_line srv l; Ret tt.

Definition end_wait (count : Z) : starter := λ srv l,
  tell (End (FileLocker l) EndFileWait count) (end_file_wait _ _ srv l count).

Definition end_open : starter := λ srv l,
  tell (End (FileLocker l) EndFileOpenWait 0) (end_file_open_wait _ _ srv l).

Definition end_bind (file : File) : starter := λ srv l,
  tell (End (FileLocker l) EndFileOpenWaitBind file)
    (end_file_open_wait_and_bind_to_descriptor _ _ srv l file).

(** The bytes that a read or a write counts: all or none with MY_NABP or
    MY_FNABP, else the result unless it is an error. *)
Definition bytes_moved (flags count result : Z) : Z :=
  if decide (Z.land flags (Z.lor MY_NABP MY_FNABP) ≠ 0)
  then (if result =? 0 then count else 0)
  else (if result =? MY_FILE_ERROR then 0 else result).

Definition strlen (s : bytes) : Z := Z.of_nat (length (cstr s)).

(** *** The functions *)

Definition inline_mysql_file_fgets (src_file : bytes) (src_line : Z)
    (str : loc) (size : Z) (file : loc) : M (option bytes) :=
  locker ← ifdef None (stream_locker file PSI_FILE_READ (start_wait (u64 size) src_file src_line));
  f ← stream file;
  result ← call "fgets" (fgets _ lib str size f);
  _ ← ifdef tt (ended locker (end_wait (match result with Some s => strlen s | None => 0 end)));
  Ret result.

Definition inline_mysql_file_fgetc (src_file : bytes) (src_line : Z)
    (file : loc) : M Z :=
  locker ← ifdef None (stream_locker file PSI_FILE_READ (start_wait 1 src_file src_line));
  f ← stream file;
  result ← call "fgetc" (fgetc _ lib f);
  _ ← ifdef tt (ended locker (end_wait 1));
  Ret result.

Definition inline_mysql_file_fputs (src_file : bytes) (src_line : Z)
    (str : option bytes) (file : loc) : M Z :=
  let nbytes := match str with Some s => strlen s | None => 0 end in
  locker ← ifdef None (stream_locker file PSI_FILE_WRITE (start_wait nbytes src_file src_line));
  f ← stream file;
  result ← call "fputs" (fputs _ lib str f);
  _ ← ifdef tt (ended locker (end_wait nbytes));
  Ret result.

Definition inline_mysql_file_fputc (src_file : bytes) (src_line : Z)
    (c : ascii) (file : loc) : M Z :=
  locker ← ifdef None (stream_locker file PSI_FILE_WRITE (start_wait 1 src_file src_line));
  f ← stream file;
  result ← call "fputc" (fputc _ lib c f);
  _ ← ifdef tt (ended locker (end_wait 1));
  Ret result.

(** The place that is reported is the header itself. *)
Definition inline_mysql_file_fprintf
    (file : loc) (format : bytes) (args : list arg) : M Z :=
  locker ← ifdef None (stream_locker file PSI_FILE_WRITE (start_wait 0 (FILE_ header) (LINE_ header)));
  f ← stream file;
  result ← call "vfprintf" (vfprintf _ lib f format args);
  _ ← ifdef tt (ended locker (end_wait (u64 result)));
  Ret result.

Definition inline_mysql_file_vfprintf (src_file : bytes) (src_line : Z)
    (file : loc) (format : bytes) (args : list arg) : M Z :=
  locker ← ifdef None (stream_locker file PSI_FILE_WRITE (start_wait 0 src_file src_line));
  f ← stream file;
  result ← call "vfprintf" (vfprintf _ lib f format args);
  _ ← ifdef tt (ended locker (end_wait (u64 result)));
  Ret result.

Definition inline_mysql_file_fflush (src_file : bytes) (src_line : Z)
    (file : loc) : M Z :=
  locker ← ifdef None (stream_locker file PSI_FILE_FLUSH (start_wait 0 src_file src_line));
  f ← stream file;
  result ← call "fflush" (fflush _ lib f);
  _ ← ifdef tt (ended locker (end_wait 0));
  Ret result.

Definition inline_mysql_file_feof (file : loc) : M Z :=
  f ← stream file;
  call "feof" (feof _ lib f).

Definition inline_mysql_file_fstat (src_file : bytes) (src_line : Z)
    (filenr : Z) (stat_area : MY_STAT) (flags : Z) : M Z :=
  locker ← ifdef None (descriptor_locker filenr PSI_FILE_FSTAT (start_wait 0 src_file src_line));
  result ← call "my_fstat" (my_fstat _ lib filenr stat_area flags);
  _ ← ifdef tt (ended locker (end_wait 0));
  Ret result.

Definition inline_mysql_file_stat (key : PSI_file_key) (src_file : bytes) (src_line : Z)
    (path : bytes) (stat_area : MY_STAT) (flags : Z) : M (option MY_STAT) :=
  locker ← ifdef None (name_locker key PSI_FILE_STAT path None (start_open_ src_file src_line));
  result ← call "my_stat" (my_stat _ lib path stat_area flags);
  _ ← ifdef tt (ended locker (end_wait 0));
  Ret result.

Definition inline_mysql_file_chsize (src_file : bytes) (src_line : Z)
    (file : File) (newlength filler flags : Z) : M Z :=
  locker ← ifdef None (descriptor_locker file PSI_FILE_CHSIZE (start_wait (u64 newlength) src_file src_line));
  result ← call "my_chsize" (my_chsize _ lib file newlength filler flags);
  _ ← ifdef tt (ended locker (end_wait (u64 newlength)));
  Ret result.

Definition inline_mysql_file_fopen (key : PSI_file_key) (src_file : bytes) (src_line : Z)
    (filename : bytes) (flags myFlags : Z) : M (option loc) :=
  that ← malloc_file;
  match that with
  | Some that =>
      _ ← store_psi that None;
      locker ← ifdef None
        (name_locker key PSI_FILE_STREAM_OPEN filename (Some that) (λ srv l,
           h ← start_open src_file src_line srv l; store_psi that h));
      f ← call "my_fopen" (my_fopen _ lib filename flags myFlags);
      _ ← store_file that f;
      _ ← ifdef tt (ended locker end_open);
      f ← load_file that;
      match f with
      | Some _ => Ret (Some that)
      | None => _ ← free_file that; Ret None
      end
  | None => Ret None
  end.

Definition inline_mysql_file_fclose (src_file : bytes) (src_line : Z)
    (file : option loc) (flags : Z) : M Z :=
  match file with
  | Some file =>
      locker ← ifdef None
        (stream_locker file PSI_FILE_STREAM_CLOSE (start_wait 0 src_file src_line));
      f ← stream file;
      result ← call "my_fclose" (my_fclose _ lib f flags);
      _ ← ifdef tt (ended locker (end_wait 0));
      _ ← free_file file;
      Ret result
  | None => Ret 0
  end.

Definition inline_mysql_file_fread (src_file : bytes) (src_line : Z)
    (file : loc) (buffer : loc) (count flags : Z) : M Z :=
  locker ← ifdef None (stream_locker file PSI_FILE_READ (start_wait count src_file src_line));
  f ← stream file;
  result ← call "my_fread" (my_fread _ lib f buffer count flags);
  _ ← ifdef tt (ended locker (end_wait (bytes_moved flags count result)));
  Ret result.

Definition inline_mysql_file_fwrite (src_file : bytes) (src_line : Z)
    (file : loc) (buffer : loc) (count flags : Z) : M Z :=
  locker ← ifdef None (stream_locker file PSI_FILE_WRITE (start_wait count src_file src_line));
  f ← stream file;
  result ← call "my_fwrite" (my_fwrite _ lib f buffer count flags);
  _ ← ifdef tt (ended locker (end_wait (bytes_moved flags count result)));
  Ret result.

Definition inline_mysql_file_fseek (src_file : bytes) (src_line : Z)
    (file : loc) (pos whence flags : Z) : M Z :=
  locker ← ifdef None (stream_locker file PSI_FILE_SEEK (start_wait 0 src_file src_line));
  f ← stream file;
  result ← call "my_fseek" (my_fseek _ lib f pos whence flags);
  _ ← ifdef tt (ended locker (end_wait 0));
  Ret result.

Definition inline_mysql_file_ftell (src_file : bytes) (src_line : Z)
    (file : loc) (flags : Z) : M Z :=
  locker ← ifdef None (stream_locker file PSI_FILE_TELL (start_wait 0 src_file src_line));
  f ← stream file;
  result ← call "my_ftell" (my_ftell _ lib f flags);
  _ ← ifdef tt (ended locker (end_wait 0));
  Ret result.

Definition inline_mysql_file_create (key : PSI_file_key) (src_file : bytes) (src_line : Z)
    (filename : bytes) (create_flags access_flags myFlags : Z) : M File :=
  locker ← ifdef None (name_locker key PSI_FILE_CREATE filename None (start_open_ src_file src_line));
  file ← call "my_create" (my_create _ lib filename create_flags access_flags myFlags);
  _ ← ifdef tt (ended locker (end_bind file));
  Ret file.

(** [if (likely(PSI_server != NULL)) PSI_server->create_file(...)] *)
Definition created (key : PSI_file_key) (to : bytes) (file : File) : M unit :=
  match PSI_server with
  | Some srv => tell (Note (CreateFile key to file)) (create_file _ _ srv key to file)
  | None => Ret tt
  end.

(** [create_temp_file] writes the name it chose to [to]. *)
Definition inline_mysql_file_create_temp (key : PSI_file_key)
    (dir : option bytes) (pfx : bytes) (mode myFlags : Z) : M (bytes * File) :=
  r ← call "create_temp_file" (create_temp_file _ lib dir pfx mode myFlags);
  let '(to, file) := r in
  _ ← ifdef tt (created key to file);
  Ret (to, file).

Definition inline_mysql_file_open (key : PSI_file_key) (src_file : bytes) (src_line : Z)
    (filename : bytes) (flags myFlags : Z) : M File :=
  locker ← ifdef None (name_locker key PSI_FILE_OPEN filename None (start_open_ src_file src_line));
  file ← call "my_open" (my_open _ lib filename flags myFlags);
  _ ← ifdef tt (ended locker (end_bind file));
  Ret file.

Definition inline_mysql_file_close (src_file : bytes) (src_line : Z)
    (file : File) (flags : Z) : M Z :=
  locker ← ifdef None (descriptor_locker file PSI_FILE_CLOSE (start_wait 0 src_file src_line));
  result ← call "my_close" (my_close _ lib file flags);
  _ ← ifdef tt (ended locker (end_wait 0));
  Ret result.

Definition inline_mysql_file_read (src_file : bytes) (src_line : Z)
    (file : File) (buffer : loc) (count flags : Z) : M Z :=
  locker ← ifdef None (descriptor_locker file PSI_FILE_READ (start_wait count src_file src_line));
  result ← call "my_read" (my_read _ lib file buffer count flags);
  _ ← ifdef tt (ended locker (end_wait (bytes_moved flags count result)));
  Ret result.

Definition inline_mysql_file_write (src_file : bytes) (src_line : Z)
    (file : File) (buffer : loc) (count flags : Z) : M Z :=
  locker ← ifdef None (descriptor_locker file PSI_FILE_WRITE (start_wait count src_file src_line));
  result ← call "my_write" (my_write _ lib file buffer count flags);
  _ ← ifdef tt (ended locker (end_wait (bytes_moved flags count result)));
  Ret result.

Definition inline_mysql_file_pread (src_file : bytes) (src_line : Z)
    (file : File) (buffer : loc) (count offset flags : Z) : M Z :=
  locker ← ifdef None (descriptor_locker file PSI_FILE_READ (start_wait count src_file src_line));
  result ← call "my_pread" (my_pread _ lib file buffer count offset flags);
  _ ← ifdef tt (ended locker (end_wait (bytes_moved flags count result)));
  Ret result.

Definition inline_mysql_file_pwrite (src_file : bytes) (src_line : Z)
    (file : File) (buffer : loc) (count offset flags : Z) : M Z :=
  locker ← ifdef None (descriptor_locker file PSI_FILE_WRITE (start_wait count src_file src_line));
  result ← call "my_pwrite" (my_pwrite _ lib file buffer count offset flags);
  _ ← ifdef tt (ended locker (end_wait (bytes_moved flags count result)));
  Ret result.

Definition inline_mysql_file_seek (src_file : bytes) (src_line : Z)
    (file : File) (pos whence flags : Z) : M Z :=
  locker ← ifdef None (descriptor_locker file PSI_FILE_SEEK (start_wait 0 src_file src_line));
  result ← call "my_seek" (my_seek _ lib file pos whence flags);
  _ ← ifdef tt (ended locker (end_wait 0));
  Ret result.

Definition inline_mysql_file_tell (src_file : bytes) (src_line : Z)
    (file : File) (flags : Z) : M Z :=
  locker ← ifdef None (descriptor_locker file PSI_FILE_TELL (start_wait 0 src_file src_line));
  result ← call "my_tell" (my_tell _ lib file flags);
  _ ← ifdef tt (ended locker (end_wait 0));
  Ret result.

Definition inline_mysql_file_delete (key : PSI_file_key) (src_file : bytes) (src_line : Z)
    (name : bytes) (flags : Z) : M Z :=
  locker ← ifdef None (name_locker key PSI_FILE_DELETE name None (start_wait 0 src_file src_line));
  result ← call "my_delete" (my_delete _ lib name flags);
  _ ← ifdef tt (ended locker (end_wait 0));
  Ret result.

Definition inline_mysql_file_rename (key : PSI_file_key) (src_file : bytes) (src_line : Z)
    (from to : bytes) (flags : Z) : M Z :=
  locker ← ifdef None (name_locker key PSI_FILE_RENAME to None (start_wait 0 src_file src_line));
  result ← call "my_rename" (my_rename _ lib from to flags);
  _ ← ifdef tt (ended locker (end_wait 0));
  Ret result.

Definition inline_mysql_file_create_with_symlink (key : PSI_file_key) (src_file : bytes) (src_line : Z)
    (linkname filename : bytes) (create_flags access_flags flags : Z) : M File :=
  locker ← ifdef None (name_locker key PSI_FILE_CREATE filename None (start_open_ src_file src_line));
  file ← call "my_create_with_symlink" (my_create_with_symlink _ lib linkname filename create_flags access_flags flags);
  _ ← ifdef tt (ended locker (end_bind file));
  Ret file.

Definition inline_mysql_file_delete_with_symlink (key : PSI_file_key) (src_file : bytes) (src_line : Z)
    (name : bytes) (flags : Z) : M Z :=
  locker ← ifdef None (name_locker key PSI_FILE_DELETE name None (start_wait 0 src_file src_line));
  result ← call "my_delete_with_symlink" (my_delete_with_symlink _ lib name flags);
  _ ← ifdef tt (ended locker (end_wait 0));
  Ret result.

Definition inline_mysql_file_rename_with_symlink (key : PSI_file_key) (src_file : bytes) (src_line : Z)
    (from to : bytes) (flags : Z) : M Z :=
  locker ← ifdef None (name_locker key PSI_FILE_RENAME to None (start_wait 0 src_file src_line));
  result ← call "my_rename_with_symlink" (my_rename_with_symlink _ lib from to flags);
  _ ← ifdef tt (ended locker (end_wait 0));
  Ret result.

Definition inline_mysql_file_sync (src_file : bytes) (src_line : Z)
    (fd : File) (flags : Z) : M Z :=
  locker ← ifdef None (descriptor_locker fd PSI_FILE_SYNC (start_wait 0 src_file src_line));
  result ← call "my_sync" (my_sync _ lib fd flags);
  _ ← ifdef tt (ended locker (end_wait 0));
  Ret result.

(** *** The macros: the functions, with the place of the call *)

Definition mysql_file_fgets (at_ : site) (str : loc) (size : Z) (file : loc) : M (option bytes) :=
  inline_mysql_file_fgets (FILE_ at_) (LINE_ at_) str size file.

Definition mysql_file_fgetc (at_ : site) (file : loc) : M Z :=
  inline_mysql_file_fgetc (FILE_ at_) (LINE_ at_) file.

Definition mysql_file_fputs (at_ : site) (str : option bytes) (file : loc) : M Z :=
  inline_mysql_file_fputs (FILE_ at_) (LINE_ at_) str file.

Definition mysql_file_fputc (at_ : site) (c : ascii) (file : loc) : M Z :=
  inline_mysql_file_fputc (FILE_ at_) (LINE_ at_) c file.

Definition mysql_file_fprintf (file : loc) (format : bytes) (args : list arg) : M Z :=
  inline_mysql_file_fprintf file format args.

Definition mysql_file_vfprintf (at_ : site) (file : loc) (format : bytes) (args : list arg) : M Z :=
  inline_mysql_file_vfprintf (FILE_ at_) (LINE_ at_) file format args.

Definition mysql_file_fflush (at_ : site) (file : loc) : M Z :=
  inline_mysql_file_fflush (FILE_ at_) (LINE_ at_) file.

Definition mysql_file_feof (file : loc) : M Z :=
  inline_mysql_file_feof file.

Definition mysql_file_fstat (at_ : site) (filenr : Z) (stat_area : MY_STAT) (flags : Z) : M Z :=
  inline_mysql_file_fstat (FILE_ at_) (LINE_ at_) filenr stat_area flags.

Definition mysql_file_stat (at_ : site) (key : PSI_file_key) (path : bytes) (stat_area : MY_STAT) (flags : Z)
    : M (option MY_STAT) :=
  inline_mysql_file_stat key (FILE_ at_) (LINE_ at_) path stat_area flags.

Definition mysql_file_chsize (at_ : site) (file : File) (newlength filler flags : Z) : M Z :=
  inline_mysql_file_chsize (FILE_ at_) (LINE_ at_) file newlength filler flags.

Definition mysql_file_fopen (at_ : site) (key : PSI_file_key) (filename : bytes) (flags myFlags : Z)
    : M (option loc) :=
  inline_mysql_file_fopen key (FILE_ at_) (LINE_ at_) filename flags myFlags.

Definition mysql_file_fclose (at_ : site) (file : option loc) (flags : Z) : M Z :=
  inline_mysql_file_fclose (FILE_ at_) (LINE_ at_) file flags.

Definition mysql_file_fread (at_ : site) (file : loc) (buffer : loc) (count flags : Z) : M Z :=
  inline_mysql_file_fread (FILE_ at_) (LINE_ at_) file buffer count flags.

Definition mysql_file_fwrite (at_ : site) (file : loc) (buffer : loc) (count flags : Z) : M Z :=
  inline_mysql_file_fwrite (FILE_ at_) (LINE_ at_) file buffer count flags.

Definition mysql_file_fseek (at_ : site) (file : loc) (pos whence flags : Z) : M Z :=
  inline_mysql_file_fseek (FILE_ at_) (LINE_ at_) file pos whence flags.

Definition mysql_file_ftell (at_ : site) (file : loc) (flags : Z) : M Z :=
  inline_mysql_file_ftell (FILE_ at_) (LINE_ at_) file flags.

Definition mysql_file_create (at_ : site) (key : PSI_file_key) (filename : bytes) (create_flags access_flags myFlags : Z)
    : M File :=
  inline_mysql_file_create key (FILE_ at_) (LINE_ at_) filename create_flags access_flags myFlags.

Definition mysql_file_create_temp (key : PSI_file_key) (dir : option bytes) (pfx : bytes) (mode myFlags : Z)
    : M (bytes * File) :=
  inline_mysql_file_create_temp key dir pfx mode myFlags.

Definition mysql_file_open (at_ : site) (key : PSI_file_key) (filename : bytes) (flags myFlags : Z)
    : M File :=
  inline_mysql_file_open key (FILE_ at_) (LINE_ at_) filename flags myFlags.

Definition mysql_file_close (at_ : site) (file : File) (flags : Z) : M Z :=
  inline_mysql_file_close (FILE_ at_) (LINE_ at_) file flags.

Definition mysql_file_read (at_ : site) (file : File) (buffer : loc) (count flags : Z) : M Z :=
  inline_mysql_file_read (FILE_ at_) (LINE_ at_) file buffer count flags.

Definition mysql_file_write (at_ : site) (file : File) (buffer : loc) (count flags : Z) : M Z :=
  inline_mysql_file_write (FILE_ at_) (LINE_ at_) file buffer count flags.

Definition mysql_file_pread (at_ : site) (file : File) (buffer : loc) (count offset flags : Z)
    : M Z :=
  inline_mysql_file_pread (FILE_ at_) (LINE_ at_) file buffer count offset flags.

Definition mysql_file_pwrite (at_ : site) (file : File) (buffer : loc) (count offset flags : Z)
    : M Z :=
  inline_mysql_file_pwrite (FILE_ at_) (LINE_ at_) file buffer count offset flags.

Definition mysql_file_seek (at_ : site) (file : File) (pos whence flags : Z) : M Z :=
  inline_mysql_file_seek (FILE_ at_) (LINE_ at_) file pos whence flags.

Definition mysql_file_tell (at_ : site) (file : File) (flags : Z) : M Z :=
  inline_mysql_file_tell (FILE_ at_) (LINE_ at_) file flags.

Definition mysql_file_delete (at_ : site) (key : PSI_file_key) (name : bytes) (flags : Z) : M Z :=
  inline_mysql_file_delete key (FILE_ at_) (LINE_ at_) name flags.

Definition mysql_file_rename (at_ : site) (key : PSI_file_key) (from to : bytes) (flags : Z) : M Z :=
  inline_mysql_file_rename key (FILE_ at_) (LINE_ at_) from to flags.

Definition mysql_file_create_with_symlink (at_ : site) (key : PSI_file_key) (linkname filename : bytes) (create_flags access_flags flags : Z)
    : M File :=
  inline_mysql_file_create_with_symlink key
    (FILE_ at_) (LINE_ at_) linkname filename create_flags access_flags flags.

Definition mysql_file_delete_with_symlink (at_ : site) (key : PSI_file_key) (name : bytes) (flags : Z)
    : M Z :=
  inline_mysql_file_delete_with_symlink key (FILE_ at_) (LINE_ at_) name flags.

Definition mysql_file_rename_with_symlink (at_ : site) (key : PSI_file_key) (from to : bytes) (flags : Z)
    : M Z :=
  inline_mysql_file_rename_with_symlink key (FILE_ at_) (LINE_ at_) from to flags.

Definition mysql_file_sync (at_ : site) (fd : File) (flags : Z) : M Z :=
  inline_mysql_file_sync (FILE_ at_) (LINE_ at_) fd flags.

(** A call, through its macro, at a place. *)
Definition perform {B : Set} (at_ : site) (c : file_call B) : M B :=
  match c with
  | F_fgets str size file => mysql_file_fgets at_ str size file
  | F_fgetc file => mysql_file_fgetc at_ file
  | F_fputs str file => mysql_file_fputs at_ str file
  | F_fputc c file => mysql_file_fputc at_ c file
  | F_fprintf file format args => mysql_file_fprintf file format args
  | F_vfprintf file format args => mysql_file_vfprintf at_ file format args
  | F_fflush file => mysql_file_fflush at_ file
  | F_feof file => mysql_file_feof file
  | F_fstat filenr stat_area flags => mysql_file_fstat at_ filenr stat_area flags
  | F_stat key path stat_area flags => mysql_file_stat at_ key path stat_area flags
  | F_chsize file newlength filler flags => mysql_file_chsize at_ file newlength filler flags
  | F_fopen key filename flags myFlags => mysql_file_fopen at_ key filename flags myFlags
  | F_fclose file flags => mysql_file_fclose at_ file flags
  | F_fread file buffer count flags => mysql_file_fread at_ file buffer count flags
  | F_fwrite file buffer count flags => mysql_file_fwrite at_ file buffer count flags
  | F_fseek file pos whence flags => mysql_file_fseek at_ file pos whence flags
  | F_ftell file flags => mysql_file_ftell at_ file flags
  | F_create key filename create_flags access_flags myFlags =>
      mysql_file_create at_ key filename create_flags access_flags myFlags
  | F_create_temp key dir pfx mode myFlags => mysql_file_create_temp key dir pfx mode myFlags
  | F_open key filename flags myFlags => mysql_file_open at_ key filename flags myFlags
  | F_close file flags => mysql_file_close at_ file flags
  | F_read file buffer count flags => mysql_file_read at_ file buffer count flags
  | F_write file buffer count flags => mysql_file_write at_ file buffer count flags
  | F_pread file buffer count offset flags => mysql_file_pread at_ file buffer count offset flags
  | F_pwrite file buffer count offset flags => mysql_file_pwrite at_ file buffer count offset flags
  | F_seek file pos whence flags => mysql_file_seek at_ file pos whence flags
  | F_tell file flags => mysql_file_tell at_ file flags
  | F_delete key name flags => mysql_file_delete at_ key name flags
  | F_rename key from to flags => mysql_file_rename at_ key from to flags
  | F_create_with_symlink key linkname filename create_flags access_flags flags =>
      mysql_file_create_with_symlink at_ key linkname filename create_flags access_flags flags
  | F_delete_with_symlink key name flags => mysql_file_delete_with_symlink at_ key name flags
  | F_rename_with_symlink key from to flags => mysql_file_rename_with_symlink at_ key from to flags
  | F_sync fd flags => mysql_file_sync at_ fd flags
  end.

(** What a call stands for: the function of the library, on the stream if there
    is one; a [MYSQL_FILE] is still allocated by [fopen] and freed by [fclose]. *)
Definition plain {B : Set} (c : file_call B) : M B :=
  match c with
  | F_fgets str size file => f ← stream file; call "fgets" (fgets _ lib str size f)
  | F_fgetc file => f ← stream file; call "fgetc" (fgetc _ lib f)
  | F_fputs str file => f ← stream file; call "fputs" (fputs _ lib str f)
  | F_fputc c file => f ← stream file; call "fputc" (fputc _ lib c f)
  | F_fprintf file format args => f ← stream file; call "vfprintf" (vfprintf _ lib f format args)
  | F_vfprintf file format args => f ← stream file; call "vfprintf" (vfprintf _ lib f format args)
  | F_fflush file => f ← stream file; call "fflush" (fflush _ lib f)
  | F_feof file => f ← stream file; call "feof" (feof _ lib f)
  | F_fstat filenr stat_area flags => call "my_fstat" (my_fstat _ lib filenr stat_area flags)
  | F_stat _ path stat_area flags => call "my_stat" (my_stat _ lib path stat_area flags)
  | F_chsize file newlength filler flags =>
      call "my_chsize" (my_chsize _ lib file newlength filler flags)
  | F_fopen _ filename flags myFlags =>
      that ← malloc_file;
      match that with
      | Some that =>
          f ← call "my_fopen" (my_fopen _ lib filename flags myFlags);
          _ ← store_file that f;
          f ← load_file that;
          match f with
          | Some _ => Ret (Some that)
          | None => _ ← free_file that; Ret None
          end
      | None => Ret None
      end
  | F_fclose (Some file) flags =>
      f ← stream file;
      result ← call "my_fclose" (my_fclose _ lib f flags);
      _ ← free_file file;
      Ret result
  | F_fclose None _ => Ret 0
  | F_fread file buffer count flags =>
      f ← stream file; call "my_fread" (my_fread _ lib f buffer count flags)
  | F_fwrite file buffer count flags =>
      f ← stream file; call "my_fwrite" (my_fwrite _ lib f buffer count flags)
  | F_fseek file pos whence flags =>
      f ← stream file; call "my_fseek" (my_fseek _ lib f pos whence flags)
  | F_ftell file flags => f ← stream file; call "my_ftell" (my_ftell _ lib f flags)
  | F_create _ filename create_flags access_flags myFlags =>
      call "my_create" (my_create _ lib filename create_flags access_flags myFlags)
  | F_create_temp _ dir pfx mode myFlags =>
      call "create_temp_file" (create_temp_file _ lib dir pfx mode myFlags)
  | F_open _ filename flags myFlags => call "my_open" (my_open _ lib filename flags myFlags)
  | F_close file flags => call "my_close" (my_close _ lib file flags)
  | F_read file buffer count flags => call "my_read" (my_read _ lib file buffer count flags)
  | F_write file buffer count flags => call "my_write" (my_write _ lib file buffer count flags)
  | F_pread file buffer count offset flags =>
      call "my_pread" (my_pread _ lib file buffer count offset flags)
  | F_pwrite file buffer count offset flags =>
      call "my_pwrite" (my_pwrite _ lib file buffer count offset flags)
  | F_seek file pos whence flags => call "my_seek" (my_seek _ lib file pos whence flags)
  | F_tell file flags => call "my_tell" (my_tell _ lib file flags)
  | F_delete _ name flags => call "my_delete" (my_delete _ lib name flags)
  | F_rename _ from to flags => call "my_rename" (my_rename _ lib from to flags)
  | F_create_with_symlink _ linkname filename create_flags access_flags flags =>
      call "my_create_with_symlink" (my_create_with_symlink _ lib linkname filename create_flags access_flags flags)
  | F_delete_with_symlink _ name flags =>
      call "my_delete_with_symlink" (my_delete_with_symlink _ lib name flags)
  | F_rename_with_symlink _ from to flags =>
      call "my_rename_with_symlink" (my_rename_with_symlink _ lib from to flags)
  | F_sync fd flags => call "my_sync" (my_sync _ lib fd flags)
  end.

(** ** Every call does on the machine what it stands for *)

Lemma stream_locker_quiet file op start :
  quiet_starter start → quietly (stream_locker file op start) (valid_locker PSI_server).
Proof. by apply hooked_quiet. Qed.
Lemma descriptor_locker_quiet file op start :
  quiet_starter start → quietly (descriptor_locker file op start) (valid_locker PSI_server).
Proof. by apply served_quiet. Qed.
Lemma name_locker_quiet key op name identity start :
  quiet_starter start → quietly (name_locker key op name identity start) (valid_locker PSI_server).
Proof. by apply served_quiet. Qed.
Lemma start_wait_quiet count f l : quiet_starter (start_wait count f l).
Proof. done. Qed.
Lemma start_open_quiet f l : quiet_starter (start_open_ f l).
Proof. done. Qed.
Lemma start_stream_quiet f l that :
  quiet_starter (λ srv lk, h ← start_open f l srv lk; store_psi that h).
Proof. done. Qed.
Lemma end_wait_quiet count : quiet_starter (end_wait count).
Proof. done. Qed.
Lemma end_open_quiet : quiet_starter end_open.
Proof. done. Qed.
Lemma end_bind_quiet file : quiet_starter (end_bind file).
Proof. done. Qed.
Lemma created_quiet key to file : quietly (created key to file) (λ _, True).
Proof. unfold created. by destruct PSI_server. Qed.

#[local] Hint Resolve stream_locker_quiet descriptor_locker_quiet name_locker_quiet
  start_wait_quiet start_open_quiet start_stream_quiet end_wait_quiet end_open_quiet
  end_bind_quiet created_quiet : quiet.

Ltac unfold_call := cbv [perform plain mbind prog_bind
  mysql_file_fgets inline_mysql_file_fgets mysql_file_fgetc inline_mysql_file_fgetc
  mysql_file_fputs inline_mysql_file_fputs mysql_file_fputc inline_mysql_file_fputc
  mysql_file_fprintf inline_mysql_file_fprintf mysql_file_vfprintf inline_mysql_file_vfprintf
  mysql_file_fflush inline_mysql_file_fflush mysql_file_feof inline_mysql_file_feof
  mysql_file_fstat inline_mysql_file_fstat mysql_file_stat inline_mysql_file_stat
  mysql_file_chsize inline_mysql_file_chsize mysql_file_fopen inline_mysql_file_fopen
  mysql_file_fclose inline_mysql_file_fclose mysql_file_fread inline_mysql_file_fread
  mysql_file_fwrite inline_mysql_file_fwrite mysql_file_fseek inline_mysql_file_fseek
  mysql_file_ftell inline_mysql_file_ftell mysql_file_create inline_mysql_file_create
  mysql_file_create_temp inline_mysql_file_create_temp mysql_file_open inline_mysql_file_open
  mysql_file_close inline_mysql_file_close mysql_file_read inline_mysql_file_read
  mysql_file_write inline_mysql_file_write mysql_file_pread inline_mysql_file_pread
  mysql_file_pwrite inline_mysql_file_pwrite mysql_file_seek inline_mysql_file_seek
  mysql_file_tell inline_mysql_file_tell mysql_file_delete inline_mysql_file_delete
  mysql_file_rename inline_mysql_file_rename mysql_file_create_with_symlink
  inline_mysql_file_create_with_symlink mysql_file_delete_with_symlink
  inline_mysql_file_delete_with_symlink mysql_file_rename_with_symlink
  inline_mysql_file_rename_with_symlink mysql_file_sync inline_mysql_file_sync].

Lemma perform_replaces {B : Set} at_ (c : file_call B) : replaces (perform at_ c) (plain c).
Proof. destruct c; unfold_call; replaces_steps. Qed.

(** ** Waits are started and ended in pairs *)

Lemma start_wait_begins op count f l :
  FileWait = (wait_of op).1 → begins FileLocker op (start_wait count f l).
Proof. intros H srv k b. by rewrite advance_start. Qed.
Lemma start_open_begins op f l :
  FileOpenWait = (wait_of op).1 → begins FileLocker op (start_open_ f l).
Proof. intros H srv k b. by rewrite advance_start. Qed.
Lemma start_stream_begins op f l that :
  FileOpenWait = (wait_of op).1 →
  begins FileLocker op (λ srv k, h ← start_open f l srv k; store_psi that h).
Proof. intros H srv k b. by rewrite advance_start. Qed.
Lemma end_wait_finishes op count :
  EndFileWait = (wait_of op).2 → finishes FileLocker op (end_wait count).
Proof. intros H srv k b. by rewrite advance_end. Qed.
Lemma end_open_finishes op : EndFileOpenWait = (wait_of op).2 → finishes FileLocker op end_open.
Proof. intros H srv k b. by rewrite advance_end. Qed.
Lemma end_bind_finishes op file :
  EndFileOpenWaitBind = (wait_of op).2 → finishes FileLocker op (end_bind file).
Proof. intros H srv k b. by rewrite advance_end. Qed.

Lemma stream_locker_wp file op start : begins FileLocker (FileOp op) start →
  wp (stream_locker file op start) Idle (holds PSI_server FileLocker (FileOp op)).
Proof. apply hooked_wp. intros srv h. apply ask_locker_wp. Qed.
Lemma descriptor_locker_wp file op start : begins FileLocker (FileOp op) start →
  wp (descriptor_locker file op start) Idle (holds PSI_server FileLocker (FileOp op)).
Proof. apply served_wp. intros srv. apply ask_locker_wp. Qed.
Lemma name_locker_wp key op name identity start : begins FileLocker (FileOp op) start →
  wp (name_locker key op name identity start) Idle (holds PSI_server FileLocker (FileOp op)).
Proof. apply served_wp. intros srv. apply ask_locker_wp. Qed.
Lemma created_wp key to file : wp (ifdef tt (created key to file)) Idle (λ _ ph, ph = Idle).
Proof. unfold PsiWrap.ifdef, created. by destruct HAVE_PSI_INTERFACE, PSI_server. Qed.

#[local] Hint Resolve stream_locker_wp descriptor_locker_wp name_locker_wp start_wait_begins
  start_open_begins start_stream_begins end_wait_finishes end_open_finishes
  end_bind_finishes created_wp : waits.

Lemma perform_measured {B : Set} at_ (c : file_call B) : measured (perform at_ c).
Proof. unfold measured. destruct c; unfold_call; wp_steps. Qed.
End Files.
