(* ===== verification/PsiThread.v ===== *)
(** * Instrumented locks, conditions and threads: mysql/psi/mysql_thread.h

    An instrumented mutex, rwlock, prlock or condition is the real object and a
    hook, [m_psi], which [init] gets from the instrumentation and [destroy] gives
    back.  The real object is the first field: its address is that of the whole.
    The functions of pthread and of my_pthread.h that are called are the fields of
    [threads]; a call that waits for another thread is [Spins] until it can go on. *)
From Stdlib Require Import ZArith Ascii Lia.
From stdpp Require Import base list strings numbers gmap functions.
From S2P Require Import Prelude Packet Psi PsiWrap PsiFile.

Local Open Scope Z_scope.

(** ** What is used of pthread and of my_pthread.h *)

Record threads (R : Type) : Type := {
  pthread_mutex_init : loc → option loc → R → res (Z * R);
  pthread_mutex_destroy : loc → R → res (Z * R);
  pthread_mutex_lock : loc → R → res (Z * R);
  pthread_mutex_trylock : loc → R → res (Z * R);
  pthread_mutex_unlock : loc → R → res (Z * R);
  safe_mutex_init : loc → option loc → bytes → Z → R → res (Z * R);
  safe_mutex_destroy : loc → bytes → Z → R → res (Z * R);
  safe_mutex_lock : loc → bool → bytes → Z → R → res (Z * R);
  safe_mutex_unlock : loc → bytes → Z → R → res (Z * R);
  my_rwlock_init : loc → option loc → R → res (Z * R);
  rwlock_destroy : loc → R → res (Z * R);
  rw_rdlock : loc → R → res (Z * R);
  rw_wrlock : loc → R → res (Z * R);
  rw_tryrdlock : loc → R → res (Z * R);
  rw_trywrlock : loc → R → res (Z * R);
  rw_unlock : loc → R → res (Z * R);
  rw_pr_init : loc → R → res (Z * R);
  rw_pr_destroy : loc → R → res (Z * R);
  rw_pr_rdlock : loc → R → res (Z * R);
  rw_pr_wrlock : loc → R → res (Z * R);
  rw_pr_unlock : loc → R → res (Z * R);
  pthread_cond_init : loc → option loc → R → res (Z * R);
  pthread_cond_destroy : loc → R → res (Z * R);
  pthread_cond_wait : loc → loc → R → res (Z * R);
  pthread_cond_timedwait : loc → loc → loc → R → res (Z * R);
  pthread_cond_signal : loc → R → res (Z * R);
  pthread_cond_broadcast : loc → R → res (Z * R);
  pthread_create : loc → option loc → loc → option loc → R → res (Z * R)
}.

(** The calls of the interface, with the type of their results. *)
Inductive thread_call : Set → Type :=
| T_mutex_init (K : PSI_mutex_key) (M : loc) (A : option loc) : thread_call Z
| T_mutex_destroy (M : loc) : thread_call Z
| T_mutex_lock (M : loc) : thread_call Z
| T_mutex_trylock (M : loc) : thread_call Z
| T_mutex_unlock (M : loc) : thread_call Z
| T_rwlock_init (K : PSI_rwlock_key) (RW : loc) : thread_call Z
| T_prlock_init (K : PSI_rwlock_key) (RW : loc) : thread_call Z
| T_rwlock_destroy (RW : loc) : thread_call Z
| T_prlock_destroy (RW : loc) : thread_call Z
| T_rwlock_rdlock (RW : loc) : thread_call Z
| T_prlock_rdlock (RW : loc) : thread_call Z
| T_rwlock_wrlock (RW : loc) : thread_call Z
| T_prlock_wrlock (RW : loc) : thread_call Z
| T_rwlock_tryrdlock (RW : loc) : thread_call Z
| T_rwlock_trywrlock (RW : loc) : thread_call Z
| T_rwlock_unlock (RW : loc) : thread_call Z
| T_prlock_unlock (RW : loc) : thread_call Z
| T_cond_init (K : PSI_cond_key) (C : loc) (A : option loc) : thread_call Z
| T_cond_destroy (C : loc) : thread_call Z
| T_cond_wait (C M : loc) : thread_call Z
| T_cond_timedwait (C M W : loc) : thread_call Z
| T_cond_signal (C : loc) : thread_call Z
| T_cond_broadcast (C : loc) : thread_call Z
| T_thread_create (K : PSI_thread_key) (P1 : loc) (P2 : option loc) (P3 : loc) (P4 : option loc)
    : thread_call Z
| T_thread_set_psi_id (id : Z) : thread_call unit.

Section Threads.
Context {R P : Type} (lib : threads R) (cfg : build) (PSI_server : option (PSI R P)).

Abbreviation M := (prog R (inst P)).
Abbreviation starter := (PSI R P → loc → M unit).
Abbreviation ifdef := (ifdef cfg).
Abbreviation ended := (ended PSI_server).
Abbreviation hook := (hook PSI_server).

Definition lib_call {B : Set} (f : string) (g : R → res (B * R)) : M B := real (Call f) g.

(** *** The parts the functions share *)

Definition mutex_locker (that : loc) (op : PSI_mutex_operation) (start : starter)
  : M (option PSI_mutex_locker) :=
  hooked PSI_server that (λ srv h, ask (λ o : option loc, Locker (MutexOp op) (MutexLocker <$> o))
                           (get_thread_mutex_locker _ _ srv h op)) start.

Definition rwlock_locker (that : loc) (op : PSI_rwlock_operation) (start : starter)
  : M (option PSI_rwlock_locker) :=
  hooked PSI_server that (λ srv h, ask (λ o : option loc, Locker (RwlockOp op) (RwlockLocker <$> o))
                           (get_thread_rwlock_locker _ _ srv h op)) start.

(** The hook of the mutex is passed too. *)
Definition cond_locker (that mutex : loc) (op : PSI_cond_operation) (start : starter)
  : M (option PSI_cond_locker) :=
  hooked PSI_server that (λ srv h,
    hm ← load_psi mutex;
    ask (λ o : option loc, Locker (CondOp op) (CondLocker <$> o)) (get_thread_cond_locker _ _ srv h hm op)) start.

Definition start_mutex (src_file : bytes) (src_line : Z) : starter := λ srv l,
  tell (Start (MutexLocker l) MutexWait 0) (start_mutex_wait _ _ srv l src_file src_line).
Definition end_mutex (rc : Z) : starter := λ srv l,
  tell (End (MutexLocker l) EndMutexWait rc) (end_mutex_wait _ _ srv l rc).
Definition start_rd (src_file : bytes) (src_line : Z) : starter := λ srv l,
  tell (Start (RwlockLocker l) RdWait 0) (start_rwlock_rdwait _ _ srv l src_file src_line).
Definition end_rd (rc : Z) : starter := λ srv l,
  tell (End (RwlockLocker l) EndRdWait rc) (end_rwlock_rdwait _ _ srv l rc).
Definition start_wr (src_file : bytes) (src_line : Z) : starter := λ srv l,
  tell (Start (RwlockLocker l) WrWait 0) (start_rwlock_wrwait _ _ srv l src_file src_line).
Definition end_wr (rc : Z) : starter := λ srv l,
  tell (End (RwlockLocker l) EndWrWait rc) (end_rwlock_wrwait _ _ srv l rc).
Definition start_cond (src_file : bytes) (src_line : Z) : starter := λ srv l,
  tell (Start (CondLocker l) CondWait 0) (start_cond_wait _ _ srv l src_file src_line).
Definition end_cond (rc : Z) : starter := λ srv l,
  tell (End (CondLocker l) EndCondWait rc) (end_cond_wait _ _ srv l rc).

(** [that->m_psi= PSI_server ? PSI_server->init_...(key, &that->...) : NULL],
    and NULL without the instrumentation. *)
Definition init_hook (that : loc) (init : PSI R P → M (option loc)) : M unit :=
  if HAVE_PSI_INTERFACE cfg then
    match PSI_server with
    | Some srv => h ← init srv; store_psi that h
    | None => store_psi that None
    end
  else store_psi that None.

(** [PSI_server->destroy_...(that->m_psi); that->m_psi= NULL] *)
Definition destroy_hook (that : loc) (destroy : PSI R P → loc → M unit) : M unit :=
  hook that (λ srv h, _ ← destroy srv h; store_psi that None).

(** *** The functions *)

Definition inline_mysql_mutex_init (key : PSI_mutex_key) (that : loc) (attr : option loc)
    (src_file : bytes) (src_line : Z) : M Z :=
  _ ← init_hook that (λ srv, ask (λ h, Note (InitMutex h)) (init_mutex _ _ srv key that));
  if SAFE_MUTEX cfg
  then lib_call "safe_mutex_init" (safe_mutex_init _ lib that attr src_file src_line)
  else lib_call "pthread_mutex_init" (pthread_mutex_init _ lib that attr).

Definition inline_mysql_mutex_destroy (that : loc) (src_file : bytes) (src_line : Z) : M Z :=
  _ ← ifdef tt (destroy_hook that (λ srv h,
        tell (Note (DestroyMutex h)) (destroy_mutex _ _ srv h)));
  if SAFE_MUTEX cfg
  then lib_call "safe_mutex_destroy" (safe_mutex_destroy _ lib that src_file src_line)
  else lib_call "pthread_mutex_destroy" (pthread_mutex_destroy _ lib that).

Definition inline_mysql_mutex_lock (that : loc) (src_file : bytes) (src_line : Z) : M Z :=
  locker ← ifdef None (mutex_locker that PSI_MUTEX_LOCK (start_mutex src_file src_line));
  result ← (if SAFE_MUTEX cfg
            then lib_call "safe_mutex_lock" (safe_mutex_lock _ lib that false src_file src_line)
            else lib_call "pthread_mutex_lock" (pthread_mutex_lock _ lib that));
  _ ← ifdef tt (ended locker (end_mutex result));
  Ret result.

Definition inline_mysql_mutex_trylock (that : loc) (src_file : bytes) (src_line : Z) : M Z :=
  locker ← ifdef None (mutex_locker that PSI_MUTEX_TRYLOCK (start_mutex src_file src_line));
  result ← (if SAFE_MUTEX cfg
            then lib_call "safe_mutex_lock" (safe_mutex_lock _ lib that true src_file src_line)
            else lib_call "pthread_mutex_trylock" (pthread_mutex_trylock _ lib that));
  _ ← ifdef tt (ended locker (end_mutex result));
  Ret result.

Definition inline_mysql_mutex_unlock (that : loc) (src_file : bytes) (src_line : Z) : M Z :=
  _ ← ifdef tt (hook that (λ srv h, tell (Note (UnlockMutex h)) (unlock_mutex _ _ srv h)));
  if SAFE_MUTEX cfg
  then lib_call "safe_mutex_unlock" (safe_mutex_unlock _ lib that src_file src_line)
  else lib_call "pthread_mutex_unlock" (pthread_mutex_unlock _ lib that).

Definition inline_mysql_rwlock_init (key : PSI_rwlock_key) (that : loc) : M Z :=
  _ ← init_hook that (λ srv, ask (λ h, Note (InitRwlock h)) (init_rwlock _ _ srv key that));
  lib_call "my_rwlock_init" (my_rwlock_init _ lib that None).

Definition inline_mysql_prlock_init (key : PSI_rwlock_key) (that : loc) : M Z :=
  _ ← init_hook that (λ srv, ask (λ h, Note (InitRwlock h)) (init_rwlock _ _ srv key that));
  lib_call "rw_pr_init" (rw_pr_init _ lib that).

Definition inline_mysql_rwlock_destroy (that : loc) : M Z :=
  _ ← ifdef tt (destroy_hook that (λ srv h,
        tell (Note (DestroyRwlock h)) (destroy_rwlock _ _ srv h)));
  lib_call "rwlock_destroy" (rwlock_destroy _ lib that).

Definition inline_mysql_prlock_destroy (that : loc) : M Z :=
  _ ← ifdef tt (destroy_hook that (λ srv h,
        tell (Note (DestroyRwlock h)) (destroy_rwlock _ _ srv h)));
  lib_call "rw_pr_destroy" (rw_pr_destroy _ lib that).

Definition inline_mysql_rwlock_rdlock (that : loc) (src_file : bytes) (src_line : Z) : M Z :=
  locker ← ifdef None (rwlock_locker that PSI_RWLOCK_READLOCK (start_rd src_file src_line));
  result ← lib_call "rw_rdlock" (rw_rdlock _ lib that);
  _ ← ifdef tt (ended locker (end_rd result));
  Ret result.

Definition inline_mysql_prlock_rdlock (that : loc) (src_file : bytes) (src_line : Z) : M Z :=
  locker ← ifdef None (rwlock_locker that PSI_RWLOCK_READLOCK (start_rd src_file src_line));
  result ← lib_call "rw_pr_rdlock" (rw_pr_rdlock _ lib that);
  _ ← ifdef tt (ended locker (end_rd result));
  Ret result.

Definition inline_mysql_rwlock_wrlock (that : loc) (src_file : bytes) (src_line : Z) : M Z :=
  locker ← ifdef None (rwlock_locker that PSI_RWLOCK_WRITELOCK (start_wr src_file src_line));
  result ← lib_call "rw_wrlock" (rw_wrlock _ lib that);
  _ ← ifdef tt (ended locker (end_wr result));
  Ret result.

Definition inline_mysql_prlock_wrlock (that : loc) (src_file : bytes) (src_line : Z) : M Z :=
  locker ← ifdef None (rwlock_locker that PSI_RWLOCK_WRITELOCK (start_wr src_file src_line));
  result ← lib_call "rw_pr_wrlock" (rw_pr_wrlock _ lib that);
  _ ← ifdef tt (ended locker (end_wr result));
  Ret result.

Definition inline_mysql_rwlock_tryrdlock (that : loc) (src_file : bytes) (src_line : Z) : M Z :=
  locker ← ifdef None (rwlock_locker that PSI_RWLOCK_TRYREADLOCK (start_rd src_file src_line));
  result ← lib_call "rw_tryrdlock" (rw_tryrdlock _ lib that);
  _ ← ifdef tt (ended locker (end_rd result));
  Ret result.

Definition inline_mysql_rwlock_trywrlock (that : loc) (src_file : bytes) (src_line : Z) : M Z :=
  locker ← ifdef None (rwlock_locker that PSI_RWLOCK_TRYWRITELOCK (start_wr src_file src_line));
  result ← lib_call "rw_trywrlock" (rw_trywrlock _ lib that);
  _ ← ifdef tt (ended locker (end_wr result));
  Ret result.

Definition inline_mysql_rwlock_unlock (that : loc) : M Z :=
  _ ← ifdef tt (hook that (λ srv h, tell (Note (UnlockRwlock h)) (unlock_rwlock _ _ srv h)));
  lib_call "rw_unlock" (rw_unlock _ lib that).

Definition inline_mysql_prlock_unlock (that : loc) : M Z :=
  _ ← ifdef tt (hook that (λ srv h, tell (Note (UnlockRwlock h)) (unlock_rwlock _ _ srv h)));
  lib_call "rw_pr_unlock" (rw_pr_unlock _ lib that).

Definition inline_mysql_cond_init (key : PSI_cond_key) (that : loc) (attr : option loc) : M Z :=
  _ ← init_hook that (λ srv, ask (λ h, Note (InitCond h)) (init_cond _ _ srv key that));
  lib_call "pthread_cond_init" (pthread_cond_init _ lib that attr).

Definition inline_mysql_cond_destroy (that : loc) : M Z :=
  _ ← ifdef tt (destroy_hook that (λ srv h,
        tell (Note (DestroyCond h)) (destroy_cond _ _ srv h)));
  lib_call "pthread_cond_destroy" (pthread_cond_destroy _ lib that).

Definition inline_mysql_cond_wait (that mutex : loc) (src_file : bytes) (src_line : Z) : M Z :=
  locker ← ifdef None (cond_locker that mutex PSI_COND_WAIT (start_cond src_file src_line));
  result ← lib_call "pthread_cond_wait" (pthread_cond_wait _ lib that mutex);
  _ ← ifdef tt (ended locker (end_cond result));
  Ret result.

Definition inline_mysql_cond_timedwait (that mutex : loc) (abstime : loc)
    (src_file : bytes) (src_line : Z) : M Z :=
  locker ← ifdef None (cond_locker that mutex PSI_COND_TIMEDWAIT (start_cond src_file src_line));
  result ← lib_call "pthread_cond_timedwait" (pthread_cond_timedwait _ lib that mutex abstime);
  _ ← ifdef tt (ended locker (end_cond result));
  Ret result.

Definition inline_mysql_cond_signal (that : loc) : M Z :=
  _ ← ifdef tt (hook that (λ srv h, tell (Note (SignalCond h)) (signal_cond _ _ srv h)));
  lib_call "pthread_cond_signal" (pthread_cond_signal _ lib that).

Definition inline_mysql_cond_broadcast (that : loc) : M Z :=
  _ ← ifdef tt (hook that (λ srv h, tell (Note (BroadcastCond h)) (broadcast_cond _ _ srv h)));
  lib_call "pthread_cond_broadcast" (pthread_cond_broadcast _ lib that).

Definition inline_mysql_thread_create (key : PSI_thread_key) (thread : loc) (attr : option loc)
    (start_routine : loc) (arg : option loc) : M Z :=
  match PSI_server with
  | Some srv => spawn_thread _ _ srv key thread attr start_routine arg
  | None => lib_call "pthread_create" (pthread_create _ lib thread attr start_routine arg)
  end.

Definition inline_mysql_thread_set_psi_id (id : Z) : M unit :=
  match PSI_server with
  | Some srv =>
      psi ← ask (λ h, Note (GetThread h)) (get_thread _ _ srv);
      match psi with
      | Some h => tell (Note (SetThreadId h id)) (set_thread_id _ _ srv h id)
      | None => Ret tt
      end
  | None => Ret tt
  end.

(** *** The macros: the functions, with the place of the call *)

Definition mysql_mutex_init (at_ : site) (K : PSI_mutex_key) (M_ : loc) (A : option loc) : M Z :=
  inline_mysql_mutex_init K M_ A (FILE_ at_) (LINE_ at_).

Definition mysql_mutex_destroy (at_ : site) (M_ : loc) : M Z :=
  inline_mysql_mutex_destroy M_ (FILE_ at_) (LINE_ at_).

Definition mysql_mutex_lock (at_ : site) (M_ : loc) : M Z :=
  inline_mysql_mutex_lock M_ (FILE_ at_) (LINE_ at_).

Definition mysql_mutex_trylock (at_ : site) (M_ : loc) : M Z :=
  inline_mysql_mutex_trylock M_ (FILE_ at_) (LINE_ at_).

Definition mysql_mutex_unlock (at_ : site) (M_ : loc) : M Z :=
  inline_mysql_mutex_unlock M_ (FILE_ at_) (LINE_ at_).

Definition mysql_rwlock_init (K : PSI_rwlock_key) (RW : loc) : M Z :=
  inline_mysql_rwlock_init K RW.

Definition mysql_prlock_init (K : PSI_rwlock_key) (RW : loc) : M Z :=
  inline_mysql_prlock_init K RW.

Definition mysql_rwlock_destroy (RW : loc) : M Z :=
  inline_mysql_rwlock_destroy RW.

Definition mysql_prlock_destroy (RW : loc) : M Z :=
  inline_mysql_prlock_destroy RW.

Definition mysql_rwlock_rdlock (at_ : site) (RW : loc) : M Z :=
  inline_mysql_rwlock_rdlock RW (FILE_ at_) (LINE_ at_).

Definition mysql_prlock_rdlock (at_ : site) (RW : loc) : M Z :=
  inline_mysql_prlock_rdlock RW (FILE_ at_) (LINE_ at_).

Definition mysql_rwlock_wrlock (at_ : site) (RW : loc) : M Z :=
  inline_mysql_rwlock_wrlock RW (FILE_ at_) (LINE_ at_).

Definition mysql_prlock_wrlock (at_ : site) (RW : loc) : M Z :=
  inline_mysql_prlock_wrlock RW (FILE_ at_) (LINE_ at_).

Definition mysql_rwlock_tryrdlock (at_ : site) (RW : loc) : M Z :=
  inline_mysql_rwlock_tryrdlock RW (FILE_ at_) (LINE_ at_).

Definition mysql_rwlock_trywrlock (at_ : site) (RW : loc) : M Z :=
  inline_mysql_rwlock_trywrlock RW (FILE_ at_) (LINE_ at_).

Definition mysql_rwlock_unlock (RW : loc) : M Z :=
  inline_mysql_rwlock_unlock RW.

Definition mysql_prlock_unlock (RW : loc) : M Z :=
  inline_mysql_prlock_unlock RW.

Definition mysql_cond_init (K : PSI_cond_key) (C : loc) (A : option loc) : M Z :=
  inline_mysql_cond_init K C A.

Definition mysql_cond_destroy (C : loc) : M Z :=
  inline_mysql_cond_destroy C.

Definition mysql_cond_wait (at_ : site) (C M_ : loc) : M Z :=
  inline_mysql_cond_wait C M_ (FILE_ at_) (LINE_ at_).

Definition mysql_cond_timedwait (at_ : site) (C M_ W : loc) : M Z :=
  inline_mysql_cond_timedwait C M_ W (FILE_ at_) (LINE_ at_).

Definition mysql_cond_signal (C : loc) : M Z :=
  inline_mysql_cond_signal C.

Definition mysql_cond_broadcast (C : loc) : M Z :=
  inline_mysql_cond_broadcast C.

Definition mysql_thread_create (K : PSI_thread_key) (P1 : loc) (P2 : option loc) (P3 : loc) (P4 : option loc) : M Z :=
  if HAVE_PSI_INTERFACE cfg then inline_mysql_thread_create K P1 P2 P3 P4
  else lib_call "pthread_create" (pthread_create _ lib P1 P2 P3 P4).

Definition mysql_thread_set_psi_id (id : Z) : M unit :=
  ifdef tt (inline_mysql_thread_set_psi_id id).

(** A call, through its macro, at a place. *)
Definition perform_thread {B : Set} (at_ : site) (c : thread_call B) : M B :=
  match c with
  | T_mutex_init K M_ A => mysql_mutex_init at_ K M_ A
  | T_mutex_destroy M_ => mysql_mutex_destroy at_ M_
  | T_mutex_lock M_ => mysql_mutex_lock at_ M_
  | T_mutex_trylock M_ => mysql_mutex_trylock at_ M_
  | T_mutex_unlock M_ => mysql_mutex_unlock at_ M_
  | T_rwlock_init K RW => mysql_rwlock_init K RW
  | T_prlock_init K RW => mysql_prlock_init K RW
  | T_rwlock_destroy RW => mysql_rwlock_destroy RW
  | T_prlock_destroy RW => mysql_prlock_destroy RW
  | T_rwlock_rdlock RW => mysql_rwlock_rdlock at_ RW
  | T_prlock_rdlock RW => mysql_prlock_rdlock at_ RW
  | T_rwlock_wrlock RW => mysql_rwlock_wrlock at_ RW
  | T_prlock_wrlock RW => mysql_prlock_wrlock at_ RW
  | T_rwlock_tryrdlock RW => mysql_rwlock_tryrdlock at_ RW
  | T_rwlock_trywrlock RW => mysql_rwlock_trywrlock at_ RW
  | T_rwlock_unlock RW => mysql_rwlock_unlock RW
  | T_prlock_unlock RW => mysql_prlock_unlock RW
  | T_cond_init K C A => mysql_cond_init K C A
  | T_cond_destroy C => mysql_cond_destroy C
  | T_cond_wait C M_ => mysql_cond_wait at_ C M_
  | T_cond_timedwait C M_ W => mysql_cond_timedwait at_ C M_ W
  | T_cond_signal C => mysql_cond_signal C
  | T_cond_broadcast C => mysql_cond_broadcast C
  | T_thread_create K P1 P2 P3 P4 => mysql_thread_create K P1 P2 P3 P4
  | T_thread_set_psi_id id => mysql_thread_set_psi_id id
  end.

(** What a call stands for; the checked mutexes are told where they are used. *)
Definition plain_thread {B : Set} (at_ : site) (c : thread_call B) : M B :=
  match c with
  | T_mutex_init _ m a =>
      if SAFE_MUTEX cfg
      then lib_call "safe_mutex_init" (safe_mutex_init _ lib m a (FILE_ at_) (LINE_ at_))
      else lib_call "pthread_mutex_init" (pthread_mutex_init _ lib m a)
  | T_mutex_destroy m =>
      if SAFE_MUTEX cfg
      then lib_call "safe_mutex_destroy" (safe_mutex_destroy _ lib m (FILE_ at_) (LINE_ at_))
      else lib_call "pthread_mutex_destroy" (pthread_mutex_destroy _ lib m)
  | T_mutex_lock m =>
      if SAFE_MUTEX cfg
      then lib_call "safe_mutex_lock" (safe_mutex_lock _ lib m false (FILE_ at_) (LINE_ at_))
      else lib_call "pthread_mutex_lock" (pthread_mutex_lock _ lib m)
  | T_mutex_trylock m =>
      if SAFE_MUTEX cfg
      then lib_call "safe_mutex_lock" (safe_mutex_lock _ lib m true (FILE_ at_) (LINE_ at_))
      else lib_call "pthread_mutex_trylock" (pthread_mutex_trylock _ lib m)
  | T_mutex_unlock m =>
      if SAFE_MUTEX cfg
      then lib_call "safe_mutex_unlock" (safe_mutex_unlock _ lib m (FILE_ at_) (LINE_ at_))
      else lib_call "pthread_mutex_unlock" (pthread_mutex_unlock _ lib m)
  | T_rwlock_init _ rw => lib_call "my_rwlock_init" (my_rwlock_init _ lib rw None)
  | T_prlock_init _ rw => lib_call "rw_pr_init" (rw_pr_init _ lib rw)
  | T_rwlock_destroy rw => lib_call "rwlock_destroy" (rwlock_destroy _ lib rw)
  | T_prlock_destroy rw => lib_call "rw_pr_destroy" (rw_pr_destroy _ lib rw)
  | T_rwlock_rdlock rw => lib_call "rw_rdlock" (rw_rdlock _ lib rw)
  | T_prlock_rdlock rw => lib_call "rw_pr_rdlock" (rw_pr_rdlock _ lib rw)
  | T_rwlock_wrlock rw => lib_call "rw_wrlock" (rw_wrlock _ lib rw)
  | T_prlock_wrlock rw => lib_call "rw_pr_wrlock" (rw_pr_wrlock _ lib rw)
  | T_rwlock_tryrdlock rw => lib_call "rw_tryrdlock" (rw_tryrdlock _ lib rw)
  | T_rwlock_trywrlock rw => lib_call "rw_trywrlock" (rw_trywrlock _ lib rw)
  | T_rwlock_unlock rw => lib_call "rw_unlock" (rw_unlock _ lib rw)
  | T_prlock_unlock rw => lib_call "rw_pr_unlock" (rw_pr_unlock _ lib rw)
  | T_cond_init _ c a => lib_call "pthread_cond_init" (pthread_cond_init _ lib c a)
  | T_cond_destroy c => lib_call "pthread_cond_destroy" (pthread_cond_destroy _ lib c)
  | T_cond_wait c m => lib_call "pthread_cond_wait" (pthread_cond_wait _ lib c m)
  | T_cond_timedwait c m t =>
      lib_call "pthread_cond_timedwait" (pthread_cond_timedwait _ lib c m t)
  | T_cond_signal c => lib_call "pthread_cond_signal" (pthread_cond_signal _ lib c)
  | T_cond_broadcast c => lib_call "pthread_cond_broadcast" (pthread_cond_broadcast _ lib c)
  | T_thread_create _ t a f x => lib_call "pthread_create" (pthread_create _ lib t a f x)
  | T_thread_set_psi_id _ => Ret tt
  end.

(** The calls but [mysql_thread_create], which leaves it to the server to create the
    thread ([spawn_thread]). *)
Definition spawnless {B : Set} (c : thread_call B) : bool :=
  match c with T_thread_create _ _ _ _ _ => false | _ => true end.

Ltac unfold_call := cbv [
  perform_thread plain_thread mbind prog_bind mysql_mutex_init inline_mysql_mutex_init
  mysql_mutex_destroy inline_mysql_mutex_destroy mysql_mutex_lock inline_mysql_mutex_lock
  mysql_mutex_trylock inline_mysql_mutex_trylock mysql_mutex_unlock inline_mysql_mutex_unlock
  mysql_rwlock_init inline_mysql_rwlock_init mysql_prlock_init inline_mysql_prlock_init
  mysql_rwlock_destroy inline_mysql_rwlock_destroy mysql_prlock_destroy
  inline_mysql_prlock_destroy mysql_rwlock_rdlock inline_mysql_rwlock_rdlock mysql_prlock_rdlock
  inline_mysql_prlock_rdlock mysql_rwlock_wrlock inline_mysql_rwlock_wrlock mysql_prlock_wrlock
  inline_mysql_prlock_wrlock mysql_rwlock_tryrdlock inline_mysql_rwlock_tryrdlock
  mysql_rwlock_trywrlock inline_mysql_rwlock_trywrlock mysql_rwlock_unlock
  inline_mysql_rwlock_unlock mysql_prlock_unlock inline_mysql_prlock_unlock mysql_cond_init
  inline_mysql_cond_init mysql_cond_destroy inline_mysql_cond_destroy mysql_cond_wait
  inline_mysql_cond_wait mysql_cond_timedwait inline_mysql_cond_timedwait mysql_cond_signal
  inline_mysql_cond_signal mysql_cond_broadcast inline_mysql_cond_broadcast mysql_thread_create
  inline_mysql_thread_create mysql_thread_set_psi_id inline_mysql_thread_set_psi_id].

(** ** Every call does on the machine what it stands for *)

Lemma mutex_locker_quiet that op start :
  quiet_starter start → quietly (mutex_locker that op start) (valid_locker PSI_server).
Proof. by apply hooked_quiet. Qed.
Lemma rwlock_locker_quiet that op start :
  quiet_starter start → quietly (rwlock_locker that op start) (valid_locker PSI_server).
Proof. by apply hooked_quiet. Qed.
Lemma cond_locker_quiet that mutex op start :
  quiet_starter start → quietly (cond_locker that mutex op start) (valid_locker PSI_server).
Proof. by apply hooked_quiet. Qed.
Lemma start_mutex_quiet f l : quiet_starter (start_mutex f l).
Proof. done. Qed.
Lemma end_mutex_quiet rc : quiet_starter (end_mutex rc).
Proof. done. Qed.
Lemma start_rd_quiet f l : quiet_starter (start_rd f l).
Proof. done. Qed.
Lemma end_rd_quiet rc : quiet_starter (end_rd rc).
Proof. done. Qed.
Lemma start_wr_quiet f l : quiet_starter (start_wr f l).
Proof. done. Qed.
Lemma end_wr_quiet rc : quiet_starter (end_wr rc).
Proof. done. Qed.
Lemma start_cond_quiet f l : quiet_starter (start_cond f l).
Proof. done. Qed.
Lemma end_cond_quiet rc : quiet_starter (end_cond rc).
Proof. done. Qed.
Lemma init_hook_quiet that init :
  (∀ srv, quietly (init srv) (λ _, True)) → quietly (init_hook that init) (λ _, True).
Proof.
  intros H. unfold init_hook. destruct HAVE_PSI_INTERFACE; [|done].
  destruct PSI_server as [srv|]; [|done]. apply quietly_bind.
  eapply quietly_mono; [|apply H]. done.
Qed.
Lemma destroy_hook_quiet that destroy :
  (∀ srv h, quietly (destroy srv h) (λ _, True)) →
  quietly (destroy_hook that destroy) (λ _, True).
Proof.
  intros H. apply hook_quiet. intros srv h. apply quietly_bind.
  eapply quietly_mono; [|apply H]. done.
Qed.
Lemma set_psi_id_quiet id : quietly (inline_mysql_thread_set_psi_id id) (λ _, True).
Proof.
  unfold inline_mysql_thread_set_psi_id. destruct PSI_server as [srv|]; [|done].
  simpl. by intros [h|].
Qed.

#[local] Hint Resolve mutex_locker_quiet rwlock_locker_quiet cond_locker_quiet
  start_mutex_quiet end_mutex_quiet start_rd_quiet end_rd_quiet start_wr_quiet end_wr_quiet
  start_cond_quiet end_cond_quiet init_hook_quiet destroy_hook_quiet set_psi_id_quiet : quiet.

Lemma perform_thread_replaces {B : Set} at_ (c : thread_call B) :
  spawnless c = true → replaces (perform_thread at_ c) (plain_thread at_ c).
Proof.
  intros Hc. destruct c; try done; clear Hc;
    try (apply replaces_quiet_unit, ifdef_unit_quiet, set_psi_id_quiet);
    unfold_call; try destruct (SAFE_MUTEX cfg); replaces_steps.
Qed.

(** ** Waits are started and ended in pairs *)

Lemma start_mutex_begins op f l :
  MutexWait = (wait_of op).1 → begins MutexLocker op (start_mutex f l).
Proof. intros H srv k b. by rewrite advance_start. Qed.
Lemma end_mutex_finishes op rc :
  EndMutexWait = (wait_of op).2 → finishes MutexLocker op (end_mutex rc).
Proof. intros H srv k b. by rewrite advance_end. Qed.
Lemma start_rd_begins op f l :
  RdWait = (wait_of op).1 → begins RwlockLocker op (start_rd f l).
Proof. intros H srv k b. by rewrite advance_start. Qed.
Lemma end_rd_finishes op rc :
  EndRdWait = (wait_of op).2 → finishes RwlockLocker op (end_rd rc).
Proof. intros H srv k b. by rewrite advance_end. Qed.
Lemma start_wr_begins op f l :
  WrWait = (wait_of op).1 → begins RwlockLocker op (start_wr f l).
Proof. intros H srv k b. by rewrite advance_start. Qed.
Lemma end_wr_finishes op rc :
  EndWrWait = (wait_of op).2 → finishes RwlockLocker op (end_wr rc).
Proof. intros H srv k b. by rewrite advance_end. Qed.
Lemma start_cond_begins op f l :
  CondWait = (wait_of op).1 → begins CondLocker op (start_cond f l).
Proof. intros H srv k b. by rewrite advance_start. Qed.
Lemma end_cond_finishes op rc :
  EndCondWait = (wait_of op).2 → finishes CondLocker op (end_cond rc).
Proof. intros H srv k b. by rewrite advance_end. Qed.

Lemma mutex_locker_wp that op start : begins MutexLocker (MutexOp op) start →
  wp (mutex_locker that op start) Idle (holds PSI_server MutexLocker (MutexOp op)).
Proof. apply hooked_wp. intros srv h. apply ask_locker_wp. Qed.
Lemma rwlock_locker_wp that op start : begins RwlockLocker (RwlockOp op) start →
  wp (rwlock_locker that op start) Idle (holds PSI_server RwlockLocker (RwlockOp op)).
Proof. apply hooked_wp. intros srv h. apply ask_locker_wp. Qed.
Lemma cond_locker_wp that mutex op start : begins CondLocker (CondOp op) start →
  wp (cond_locker that mutex op start) Idle (holds PSI_server CondLocker (CondOp op)).
Proof. apply hooked_wp. intros srv h hm. apply ask_locker_wp. Qed.

Lemma init_hook_wp that n f :
  wp (init_hook that (λ srv, ask (λ h, Note (n h)) (f srv))) Idle (λ _ ph, ph = Idle).
Proof. unfold init_hook. by destruct HAVE_PSI_INTERFACE, PSI_server. Qed.
Lemma destroy_hook_wp that n f :
  wp (ifdef tt (destroy_hook that (λ srv h, tell (Note (n h)) (f srv h)))) Idle
    (λ _ ph, ph = Idle).
Proof. by apply hook_wp. Qed.
Lemma notify_wp that n f :
  wp (ifdef tt (hook that (λ srv h, tell (Note (n h)) (f srv h)))) Idle (λ _ ph, ph = Idle).
Proof. by apply hook_wp. Qed.
Lemma set_psi_id_wp id : measured (ifdef tt (inline_mysql_thread_set_psi_id id)).
Proof.
  unfold PsiWrap.ifdef, inline_mysql_thread_set_psi_id.
  destruct HAVE_PSI_INTERFACE, PSI_server as [srv|]; [|done..]. by intros [h|].
Qed.
#[local] Hint Resolve mutex_locker_wp rwlock_locker_wp cond_locker_wp start_mutex_begins
  end_mutex_finishes start_rd_begins end_rd_finishes start_wr_begins end_wr_finishes
  start_cond_begins end_cond_finishes init_hook_wp destroy_hook_wp notify_wp : waits.

Lemma perform_thread_measured {B : Set} at_ (c : thread_call B) :
  spawnless c = true → measured (perform_thread at_ c).
Proof.
  intros Hc. destruct c; try done; clear Hc; try apply set_psi_id_wp;
    unfold measured; unfold_call; try destruct (SAFE_MUTEX cfg); wp_steps.
Qed.
End Threads.
