(* ===== verification/PsiClient.v ===== *)
(** * Clients of the instrumented calls

    A client is any program over the calls of mysql_file.h and mysql_thread.h: it
    may choose each call by the results of the earlier ones.  If it does not create
    threads, which is left to the server ([spawn_free]), then whatever the build and
    the server, it computes what it computes with the plain calls
    ([client_transparent]), and its waits are started and ended in pairs, each for
    the operation it was asked for ([client_waits_paired]).  Hooks that are not
    initialized are not modelled: every [m_psi] has a value. *)
From Stdlib Require Import ZArith Ascii Lia.
From stdpp Require Import base list strings numbers gmap functions.
From S2P Require Import Prelude Clib Packet Psi PsiWrap PsiFile PsiThread.

Local Open Scope Z_scope.

Inductive client (A : Type) : Type :=
| Done (a : A)
| DoFile (B : Set) (at_ : site) (c : file_call B) (k : B → client A)
| DoThread (B : Set) (at_ : site) (c : thread_call B) (k : B → client A).
Arguments Done {A} a.
Arguments DoFile {A B} at_ c k.
Arguments DoThread {A B} at_ c k.

(** A client that does not call [mysql_thread_create]. *)
Fixpoint spawn_free {A} (c : client A) : Prop :=
  match c with
  | Done _ => True
  | DoFile _ _ k => ∀ b, spawn_free (k b)
  | DoThread _ c k => spawnless c = true ∧ ∀ b, spawn_free (k b)
  end.

Section Clients.
Context {OS P : Type} (flib : mysys OS) (tlib : threads (mach OS)) (header : site).

Abbreviation M := (prog (mach OS) (inst P)).
Abbreviation server := (option (PSI (mach OS) P)).

Fixpoint compile {A} (cfg : build) (srv : server) (c : client A) : M A :=
  match c with
  | Done a => Ret a
  | DoFile at_ c k => pbind (perform flib cfg srv header at_ c) (λ b, compile cfg srv (k b))
  | DoThread at_ c k => pbind (perform_thread tlib cfg srv at_ c) (λ b, compile cfg srv (k b))
  end.

(** The same client, with the calls of the libraries. *)
Fixpoint plain_client {A} (cfg : build) (c : client A) : M A :=
  match c with
  | Done a => Ret a
  | DoFile at_ c k => pbind (plain flib c) (λ b, plain_client cfg (k b))
  | DoThread at_ c k => pbind (plain_thread tlib cfg at_ c) (λ b, plain_client cfg (k b))
  end.

(** The plain calls depend on the build only by the choice of the mutexes. *)
Lemma plain_thread_build {B : Set} cfg cfg' at_ (c : thread_call B) :
  SAFE_MUTEX cfg = SAFE_MUTEX cfg' →
  plain_thread (P := P) tlib cfg at_ c = plain_thread tlib cfg' at_ c.
Proof. intros E. destruct c; simpl; by rewrite ?E. Qed.

Lemma compile_replaces {A} cfg cfg' (srv : server) (c : client A) :
  SAFE_MUTEX cfg = SAFE_MUTEX cfg' → spawn_free c → replaces (compile cfg srv c) (plain_client cfg' c).
Proof.
  intros E. induction c as [a|B at_ c k IH|B at_ c k IH]; simpl; [done|..].
  - intros Hk. apply replaces_bind; [apply perform_replaces|auto].
  - intros [Hc Hk]. rewrite <- (plain_thread_build cfg) by done.
    apply replaces_bind; [by apply perform_thread_replaces|auto].
Qed.

Lemma compile_measured {A} cfg (srv : server) (c : client A) :
  spawn_free c → measured (compile cfg srv c).
Proof.
  induction c as [a|B at_ c k IH|B at_ c k IH]; simpl; [done|..].
  - intros Hk. apply measured_bind; [apply perform_measured|auto].
  - intros [Hc Hk]. apply measured_bind; [by apply perform_thread_measured|auto].
Qed.

(** The instrumentation is transparent: a client of the file and thread
    calls gives the same result and leaves the machine in the same state in a
    build with and in a build without the instrumentation, with any server or
    none, in any state of the server and of the hooks. *)
Theorem client_transparent {A} cfg cfg' (srv srv' : server) (c : client A) r i j :
  SAFE_MUTEX cfg = SAFE_MUTEX cfg' → spawn_free c →
  machine (run (compile cfg srv c) r i) = machine (run (compile cfg' srv' c) r j).
Proof.
  intros E Hc.
  rewrite (replaces_run _ _ r i j (compile_replaces cfg cfg' srv c E Hc)).
  symmetry. by apply replaces_run, compile_replaces.
Qed.

(** The waits a client reports are paired: every locker that is obtained
    starts one wait, by the function for the operation it was asked for; one call is
    made during it, and the call is one that the operation stands for; and the wait
    is ended with the same locker, by the one function for the operation (a file
    that was opened is bound to its descriptor, a stream is not), before the next
    locker is obtained.  The client makes any calls of mysql_file.h and
    mysql_thread.h but [mysql_thread_create]; the server answers as it likes. *)
Theorem client_waits_paired {A} cfg (srv : server) (c : client A) r i a r' i' t :
  spawn_free c → run (compile cfg srv c) r i = Ok (a, r', i', t) → protocol Idle t = Some Idle.
Proof.
  intros Hc H. destruct (wp_run _ _ _ _ _ _ _ _ _ (compile_measured cfg srv c Hc) H) as (ph & Hp & ->).
  done.
Qed.
End Clients.
