(* ===== verification/PsiPool.v ===== *)
(** * Instrumented calls in several threads

    A pool of threads runs by interleaving their calls, one at a time, on the
    machine they share and on the instrumentation they share.  A pool of
    instrumented programs and the pool of the programs they replace reach the same
    states of the machine ([pool_transparent]).  And what each thread reports, taken
    out of the interleaved reports of all, is waits in pairs ([pool_waits_paired]). *)
From Stdlib Require Import ZArith Ascii Lia.
From stdpp Require Import base list strings numbers gmap functions relations.
From S2P Require Import Prelude Packet Psi PsiWrap PsiFile PsiThread PsiClient.

Local Open Scope Z_scope.

Section Pool.
Context {R I : Type}.

Abbreviation pool := (list (prog R I unit)).

(** The threads, the machine, the instrumentation, and the events so far. *)
Record world : Type := World { mc : R; ins : I; ths : pool; evs : list (nat * event) }.

Inductive step : world → world → Prop :=
| step_real r i ps log j (B : Set) (e : B → event) f k b r' :
    ps !! j = Some (Real e f k) → f r = Ok (b, r') →
    step (World r i ps log) (World r' i (<[j := k b]> ps) (log ++ [(j, e b)]))
| step_psi r i ps log j (B : Set) (e : B → event) f k b i' :
    ps !! j = Some (Psi e f k) → f i = (b, i') →
    step (World r i ps log) (World r i' (<[j := k b]> ps) (log ++ [(j, e b)])).

(** All threads are done. *)
Definition finished (w : world) : Prop := Forall (λ p, p = Ret tt) (ths w).

(** One step of a given thread, and the steps of a schedule. *)
Definition step_of (w : world) (j : nat) : option world :=
  match ths w !! j with
  | Some (Real e f k) =>
      match f (mc w) with
      | Ok (b, r) => Some (World r (ins w) (<[j := k b]> (ths w)) (evs w ++ [(j, e b)]))
      | _ => None
      end
  | Some (Psi e f k) =>
      let '(b, i) := f (ins w) in
      Some (World (mc w) i (<[j := k b]> (ths w)) (evs w ++ [(j, e b)]))
  | _ => None
  end.

Fixpoint schedule (js : list nat) (w : world) : option world :=
  match js with
  | [] => Some w
  | j :: js => step_of w j ≫= schedule js
  end.

Lemma step_of_step w j w' : step_of w j = Some w' → step w w'.
Proof.
  destruct w as [r i ps log]. unfold step_of. simpl.
  destruct (ps !! j) as [[a|B e f k|B e f k]|] eqn:Hj; [done|..|done].
  - destruct (f r) as [[b r']| |] eqn:Hf; [|done..]. intros [= <-]. by eapply step_real.
  - destruct (f i) as [b i'] eqn:Hf. intros [= <-]. by eapply step_psi.
Qed.

Lemma schedule_reaches js w w' : schedule js w = Some w' → rtc step w w'.
Proof.
  revert w. induction js as [|j js IH]; intros w; simpl.
  - intros [= <-]. apply rtc_refl.
  - destruct (step_of w j) as [w1|] eqn:E; [|done]. simpl. intros H.
    eapply rtc_l; [by apply step_of_step in E|]. by apply IH.
Qed.

(** ** The pool of plain programs is simulated, and simulates *)

Definition sim (w v : world) : Prop := mc w = mc v ∧ Forall2 replaces (ths w) (ths v).

Lemma sim_step w v w' : sim w v → step w w' → ∃ v', rtc step v v' ∧ sim w' v'.
Proof.
  intros [Hm Hs] Hstep. destruct v as [r2 i2 qs log2]; simpl in *.
  destruct Hstep as [r i ps log j B e f k b r' Hj Hf|r i ps log j B e f k b i' Hj Hf];
    simpl in *; subst r2.
  - destruct (Forall2_lookup_l _ _ _ _ _ Hs Hj) as (q & Hq & Hr).
    destruct Hr as (k' & -> & Hk).
    exists (World r' i2 (<[j := k' b]> qs) (log2 ++ [(j, e b)])). split.
    + apply rtc_once. by eapply step_real.
    + split; [done|]. simpl. apply Forall2_insert; [done|apply Hk].
  - destruct (Forall2_lookup_l _ _ _ _ _ Hs Hj) as (q & Hq & Hr).
    exists (World r i2 qs log2). split; [apply rtc_refl|]. split; [done|]. simpl.
    rewrite <- (list_insert_id qs j q) by done. apply Forall2_insert; [done|apply Hr].
Qed.

Lemma sim_steps w v w' : sim w v → rtc step w w' → ∃ v', rtc step v v' ∧ sim w' v'.
Proof.
  intros Hs Hsteps. revert v Hs. induction Hsteps as [w|w w1 w' H1 _ IH]; intros v Hs.
  - exists v. split; [apply rtc_refl|done].
  - destruct (sim_step w v w1 Hs H1) as (v1 & Hv & Hs1).
    destruct (IH v1 Hs1) as (v' & Hv' & Hs'). exists v'. split; [by etrans|done].
Qed.

(** A thread catches up with the instrumentation until its next call. *)
Lemma catch_up r ps log j p q i :
  ps !! j = Some p → replaces p q →
  ∃ i' p' log', rtc step (World r i ps log) (World r i' (<[j := p']> ps) log') ∧
    match q with
    | Ret a => p' = Ret a
    | Real e f k' => ∃ k, p' = Real e f k ∧ ∀ b, replaces (k b) (k' b)
    | Psi _ _ _ => False
    end.
Proof.
  revert i ps log. induction p as [a|B e f k IH|B e f k IH]; intros i ps log Hj Hr.
  - simpl in Hr. subst q. exists i, (Ret a), log. split; [|done].
    rewrite list_insert_id by done. apply rtc_refl.
  - destruct Hr as (k' & -> & Hk). exists i, (Real e f k), log. split; [|eauto].
    rewrite list_insert_id by done. apply rtc_refl.
  - destruct (f i) as [b i1] eqn:Hf. simpl in Hr.
    assert (Hl : (j < length ps)%nat) by by eapply lookup_lt_Some.
    destruct (IH b i1 (<[j := k b]> ps) (log ++ [(j, e b)])) as (i' & p' & log' & Hrtc & Hp').
    { by rewrite list_lookup_insert_eq. }
    { apply Hr. }
    exists i', p', log'. split; [|done].
    eapply rtc_l; [by eapply step_psi|]. by rewrite list_insert_insert_eq in Hrtc.
Qed.

Lemma sim_back w v v' : sim w v → step v v' → ∃ w', rtc step w w' ∧ sim w' v'.
Proof.
  intros [Hm Hs] Hstep. destruct w as [r1 i1 ps log1]; simpl in *.
  destruct Hstep as [r i qs log j B e f k b r' Hj Hf|r i qs log j B e f k b i' Hj Hf];
    simpl in *; subst r1;
    destruct (Forall2_lookup_r _ _ _ _ _ Hs Hj) as (p & Hp & Hr);
    destruct (catch_up r ps log1 j p _ i1 Hp Hr) as (i2 & p' & log2 & Hrtc & Hp'); [|done].
  destruct Hp' as (k1 & -> & Hk).
  assert (Hl : (j < length ps)%nat) by by eapply lookup_lt_Some.
  exists (World r' i2 (<[j := k1 b]> ps) (log2 ++ [(j, e b)])). split.
  - eapply rtc_r; [exact Hrtc|].
    rewrite <- (list_insert_insert_eq ps j (k1 b) (Real e f k1)).
    eapply step_real; [|done]. by rewrite list_lookup_insert_eq.
  - split; [done|]. simpl. apply Forall2_insert; [done|apply Hk].
Qed.

Lemma sim_steps_back w v v' : sim w v → rtc step v v' → ∃ w', rtc step w w' ∧ sim w' v'.
Proof.
  intros Hs Hsteps. revert w Hs. induction Hsteps as [v|v v1 v' H1 _ IH]; intros w Hs.
  - exists w. split; [apply rtc_refl|done].
  - destruct (sim_back w v v1 Hs H1) as (w1 & Hw & Hs1).
    destruct (IH w1 Hs1) as (w' & Hw' & Hs'). exists w'. split; [by etrans|done].
Qed.

Lemma sim_finished w v : sim w v → finished w → finished v.
Proof.
  intros [Hm Hs] Hf. unfold finished in *. induction Hs as [|p q ps qs Hr _ IH]; [done|].
  inversion Hf; subst. constructor; [done|auto].
Qed.

(** When the plain threads are done, the others have only reports to make. *)
Lemma sim_finish w v n :
  sim w v → finished v → (n ≤ length (ths w))%nat →
  ∃ w', rtc step w w' ∧ mc w' = mc w ∧ length (ths w') = length (ths w) ∧
    Forall2 replaces (ths w') (ths v) ∧ ∀ j, (j < n)%nat → ths w' !! j = Some (Ret tt).
Proof.
  intros [Hm Hs] Hf Hn. induction n as [|n IH].
  { exists w. repeat split; [apply rtc_refl|done|lia]. }
  destruct IH as ([r i ps log] & Hrtc & Hr & Hlen & Hs' & Hdone); [lia|]. simpl in *.
  destruct (lookup_lt_is_Some_2 ps n) as [p Hp]; [lia|].
  destruct (Forall2_lookup_l _ _ _ _ _ Hs' Hp) as (q & Hq & Hrep).
  destruct (catch_up r ps log n p q i Hp Hrep) as (i2 & p' & log2 & Hrtc2 & Hp').
  assert (q = Ret tt) as ->.
  { exact (Forall_lookup_1 _ _ _ _ Hf Hq). }
  exists (World r i2 (<[n := p']> ps) log2). simpl. subst p'. repeat split.
  - by etrans.
  - done.
  - by rewrite length_insert.
  - rewrite <- (list_insert_id (ths v) n (Ret tt)) by done. by apply Forall2_insert.
  - intros j Hj. destruct (decide (j = n)) as [->|Hne].
    + rewrite list_lookup_insert_eq; [done|lia].
    + rewrite list_lookup_insert_ne by done. apply Hdone. lia.
Qed.

(** The states of the machine in which a pool can end. *)
Definition outcome (w0 : world) (r : R) : Prop :=
  ∃ w, rtc step w0 w ∧ finished w ∧ mc w = r.

Lemma sim_outcome w v r : sim w v → outcome w r ↔ outcome v r.
Proof.
  intros Hs. split.
  - intros (w' & Hrtc & Hf & <-). destruct (sim_steps _ _ _ Hs Hrtc) as (v' & Hv & Hs').
    exists v'. split; [done|]. split; [by eapply sim_finished|]. by destruct Hs'.
  - intros (v' & Hrtc & Hf & <-). destruct (sim_steps_back _ _ _ Hs Hrtc) as (w' & Hw & Hs').
    destruct (sim_finish w' v' (length (ths w')) Hs' Hf) as (w2 & Hw2 & Hm & Hlen & _ & Hd); [done|].
    exists w2. split; [by etrans|]. destruct Hs' as [Hm' _]. split; [|congruence].
    unfold finished. apply Forall_lookup_2. intros j p Hp.
    assert (j < length (ths w2))%nat by by eapply lookup_lt_Some.
    specialize (Hd j). rewrite Hp in Hd. rewrite <- Hlen in Hd. naive_solver.
Qed.


(** ** What each thread reports *)

Definition of_thread (j : nat) (log : list (nat * event)) : list event :=
  snd <$> filter (λ je, je.1 = j) log.

Lemma of_thread_snoc j log j' e :
  of_thread j (log ++ [(j', e)]) = of_thread j log ++ (if decide (j' = j) then [e] else []).
Proof.
  unfold of_thread. rewrite filter_app, fmap_app. f_equal.
  destruct (decide (j' = j)) as [->|Hne]; [by rewrite filter_cons_True|by rewrite filter_cons_False].
Qed.

(** Where each thread is in the protocol is what the rest of it continues from. *)
Definition in_pairs (w : world) : Prop :=
  ∀ j p, ths w !! j = Some p →
    ∃ ph, protocol Idle (of_thread j (evs w)) = Some ph ∧ wp p ph (λ _ ph, ph = Idle).

Lemma in_pairs_event r i ps log j p e p' r' i' :
  in_pairs (World r i ps log) → ps !! j = Some p →
  (∀ ph, wp p ph (λ _ ph, ph = Idle) → ∃ ph', advance ph e = Some ph' ∧ wp p' ph' (λ _ ph, ph = Idle)) →
  in_pairs (World r' i' (<[j := p']> ps) (log ++ [(j, e)])).
Proof.
  intros Hp Hj He j1 p1. simpl. rewrite of_thread_snoc. destruct (decide (j = j1)) as [<-|Hne].
  - rewrite list_lookup_insert_eq by (by eapply lookup_lt_Some). intros [= <-].
    destruct (Hp j p Hj) as (ph & Hph & Hw). simpl in Hph. destruct (He ph Hw) as (ph' & Ha & Hw').
    exists ph'. rewrite protocol_app, Hph. simpl. by rewrite Ha.
  - rewrite list_lookup_insert_ne, app_nil_r by done. apply Hp.
Qed.

Lemma in_pairs_step w w' : in_pairs w → step w w' → in_pairs w'.
Proof.
  intros Hp Hs. destruct Hs as [r i ps log j B e f k b r' Hj _|r i ps log j B e f k b i' Hj _];
    (eapply in_pairs_event; [exact Hp|exact Hj|]); intros ph Hw; specialize (Hw b); simpl in Hw;
    destruct (advance ph (e b)) as [ph'|]; [by exists ph'|done|by exists ph'|done].
Qed.

Lemma in_pairs_steps w w' : in_pairs w → rtc step w w' → in_pairs w'.
Proof. intros Hp Hs. induction Hs; eauto using in_pairs_step. Qed.
End Pool.

Arguments world : clear implicits.

Section Transparent.
Context {OS P : Type} (flib : mysys OS) (tlib : threads (mach OS)) (header : site).

Abbreviation server := (option (PSI (mach OS) P)).

Definition start (cfg : build) (srv : server) (cs : list (client unit)) r i
  : world (mach OS) (inst P) :=
  World r i ((λ c, compile flib tlib header cfg srv c) <$> cs) [].

Lemma start_sim cfg cfg' (srv : server) cs r i j :
  SAFE_MUTEX cfg = SAFE_MUTEX cfg' → Forall spawn_free cs →
  sim (start cfg srv cs r i)
    (World r j ((λ c, plain_client flib tlib cfg' c) <$> cs) []).
Proof.
  intros E Hcs. split; [done|]. simpl.
  induction Hcs as [|c cs Hc _ IH]; simpl; constructor; [by apply compile_replaces|done].
Qed.

(** C19. The instrumentation is transparent to threads: in two builds with the same
    choice of mutexes, with any servers or none, threads that interleave their calls
    of mysql_file.h and mysql_thread.h, other than [mysql_thread_create], can end in
    the same states of the machine; every hook is taken to be initialized. *)
Theorem pool_transparent cfg cfg' (srv srv' : server) cs r i j :
  SAFE_MUTEX cfg = SAFE_MUTEX cfg' → Forall spawn_free cs →
  ∀ r', outcome (start cfg srv cs r i) r' ↔ outcome (start cfg' srv' cs r j) r'.
Proof.
  intros E Hcs r'. rewrite (sim_outcome _ _ r' (start_sim cfg cfg' srv cs r i j E Hcs)).
  symmetry. by apply sim_outcome, (start_sim cfg' cfg' srv' cs r j j eq_refl).
Qed.

(** C20. The reports of threads that interleave their calls: at every instant, what a
    thread has reported so far keeps to the protocol of waits (each locker it obtains
    starts a wait for its operation, one call of the operation is made, and the
    wait is ended with the same locker by the function for the operation), and
    when the thread is done no wait of it is open; for every build and server,
    threads that make any calls but [mysql_thread_create]. *)
Theorem pool_waits_paired cfg (srv : server) cs r i w j p :
  Forall spawn_free cs → rtc step (start cfg srv cs r i) w → ths w !! j = Some p →
  ∃ ph, protocol Idle (of_thread j (evs w)) = Some ph ∧ (p = Ret tt → ph = Idle).
Proof.
  intros Hcs Hrtc Hj.
  assert (in_pairs (start cfg srv cs r i)) as H0.
  { intros j0 p0. simpl. rewrite list_lookup_fmap. intros (c & Hc & ->)%fmap_Some.
    exists Idle. split; [done|]. by apply compile_measured, (list.Forall_lookup_1 spawn_free cs j0). }
  destruct (in_pairs_steps _ _ H0 Hrtc j p Hj) as (ph & Hph & Hw). exists ph. split; [done|]. by intros ->.
Qed.
End Transparent.
