(* ===== verification/PsiStream.v ===== *)
(** * Streams

    A stream that is opened and closed leaves no memory behind, also when it cannot
    be opened ([stream_no_leak]). *)
From Stdlib Require Import ZArith Ascii Lia.
From stdpp Require Import base list strings numbers gmap functions.
From S2P Require Import Prelude Clib Packet Psi PsiWrap PsiFile PsiThread PsiClient.

Local Open Scope Z_scope.

Section Streams.
Context {OS P : Type} (flib : mysys OS) (tlib : threads (mach OS)) (header : site).
Context (cfg : build) (srv : option (PSI (mach OS) P)).

(** A stream is opened, and closed if it was opened. *)
Definition open_close (at_ : site) (key : PSI_file_key) (name : bytes) (flags myFlags : Z)
  : client (option Z) :=
  DoFile at_ (F_fopen key name flags myFlags) (λ f,
    match f with
    | Some file => DoFile at_ (F_fclose (Some file) myFlags) (λ z, Done (Some z))
    | None => Done None
    end).

Lemma open_close_spawn_free at_ key name fl myfl : spawn_free (open_close at_ key name fl myfl).
Proof. by intros [file|]. Qed.

(** C21. No [MYSQL_FILE] is left behind: after a stream was opened and closed, or
    could not be opened, the same ones are allocated as before; with or without
    the instrumentation, with any server, when [my_malloc] gives memory that is not
    in use. *)
Theorem stream_no_leak at_ key name fl myfl r i z r' i' tr :
  (∀ p o', my_malloc _ flib sizeof_MYSQL_FILE MY_WME (os r) = Ok (Some p, o') → m_file r !! p = None) →
  run (compile flib tlib header cfg srv (open_close at_ key name fl myfl)) r i = Ok (z, r', i', tr) →
  m_file r' = m_file r.
Proof.
  intros Hfresh Hrun.
  pose proof (replaces_run _ _ r i i
    (compile_replaces flib tlib header cfg cfg srv (open_close at_ key name fl myfl)
      eq_refl (open_close_spawn_free at_ key name fl myfl))) as Hm.
  rewrite Hrun in Hm. simpl in Hm. symmetry in Hm. clear Hrun tr. revert Hm. unfold machine. simpl.
  destruct (my_malloc OS flib sizeof_MYSQL_FILE MY_WME (os r)) as [[[p|] o]| |] eqn:Em; simpl;
    [|by intros [= <- <-]..|done|done].
  pose proof (Hfresh _ _ eq_refl) as Hp.
  destruct (my_fopen OS flib name fl myfl o) as [[f o1]| |]; simpl; [|done..].
  rewrite lookup_insert_eq. simpl. rewrite lookup_insert_eq. simpl.
  assert (Hback : ∀ v, delete p (<[p := v]> (<[p := None]> (m_file r))) = m_file r).
  { intros v. by rewrite insert_insert_eq, delete_insert_id. }
  destruct f as [f|]; simpl; rewrite lookup_insert_eq; simpl.
  - destruct (my_fclose OS flib f myfl o1) as [[c o2]| |]; simpl; [|done..].
    rewrite lookup_insert_eq. destruct (my_free OS flib p o2) as [[? o3]| |]; simpl; [|done..].
    intros [= <- <-]. apply Hback.
  - destruct (my_free OS flib p o1) as [[? o3]| |]; simpl; [|done..].
    intros [= <- <-]. apply Hback.
Qed.
End Streams.
