(* ===== verification/PsiDemo.v ===== *)
(** * The theorems on instrumented calls, at work

    A small machine (bytes that can be moved, one mutex, memory handed out in
    order) and a server that records every wait in the structures of psi.h, to
    evaluate the programs and to apply the theorems at concrete inputs. *)
From Stdlib Require Import ZArith Ascii Lia.
From stdpp Require Import base list strings numbers gmap functions relations.
From S2P Require Import Prelude Clib Packet Psi PsiWrap PsiFile PsiThread PsiClient PsiPool PsiStream.

Local Open Scope Z_scope.

(** ** A machine *)

Record disk : Set := Disk { avail : Z; total : Z; taken : bool; top : loc }.

(** Moving bytes, as far as there are any, with the results of mysys. *)
Definition move_bytes (count flags : Z) (d : disk) : res (Z * disk) :=
  let n := Z.max 0 (Z.min count (avail d)) in
  Ok (if decide (Z.land flags (Z.lor MY_NABP MY_FNABP) ≠ 0)
      then (if n =? count then 0 else MY_FILE_ERROR) else n,
      Disk (avail d - n) (total d + n) (taken d) (top d)).

Definition fine {A} (a : A) (d : disk) : res (A * disk) := Ok (a, d).

Definition demo_files : mysys disk := {|
  fgets _ _ _ := fine None; fgetc _ := fine (-1); fputs _ _ := fine 0; fputc _ _ := fine 0;
  vfprintf _ _ _ := fine 0; fflush _ := fine 0; feof _ := fine 0; my_fstat _ _ _ := fine 0;
  my_stat _ _ _ := fine None; my_chsize _ _ _ _ := fine 0;
  my_malloc _ _ d := Ok (Some (top d), Disk (avail d) (total d) (taken d) (top d + 1)%positive);
  my_free _ := fine tt; my_fopen _ _ _ := fine (Some 1%positive); my_fclose _ _ := fine 0;
  my_fread _ _ count flags := move_bytes count flags;
  my_fwrite _ _ count flags := move_bytes count flags;
  my_fseek _ _ _ _ := fine 0; my_ftell _ _ := fine 0; my_create _ _ _ _ := fine 3;
  create_temp_file _ _ _ _ := fine ([], 3); my_open _ _ _ := fine 3; my_close _ _ := fine 0;
  my_read _ _ count flags := move_bytes count flags;
  my_write _ _ count flags := move_bytes count flags;
  my_pread _ _ count _ flags := move_bytes count flags;
  my_pwrite _ _ count _ flags := move_bytes count flags;
  my_seek _ _ _ _ := fine 0; my_tell _ _ := fine 0; my_delete _ _ := fine 0;
  my_rename _ _ _ := fine 0; my_create_with_symlink _ _ _ _ _ := fine 3;
  my_delete_with_symlink _ _ := fine 0; my_rename_with_symlink _ _ _ := fine 0;
  my_sync _ _ := fine 0 |}.

Abbreviation machine_state := (mach disk).

Definition set_taken (b : bool) (m : machine_state) : machine_state :=
  Mach (Disk (avail (os m)) (total (os m)) b (top (os m))) (m_file m).

Definition take_mutex (wait : bool) (m : machine_state) : res (Z * machine_state) :=
  if taken (os m) then (if wait then Spins else Ok (16, m)) else Ok (0, set_taken true m).

Definition ok (m : machine_state) : res (Z * machine_state) := Ok (0, m).

Definition demo_threads : threads machine_state := {|
  pthread_mutex_init _ _ := ok; pthread_mutex_destroy _ := ok;
  pthread_mutex_lock _ := take_mutex true; pthread_mutex_trylock _ := take_mutex false;
  pthread_mutex_unlock _ m := Ok (0, set_taken false m);
  safe_mutex_init _ _ _ _ := ok; safe_mutex_destroy _ _ _ := ok;
  safe_mutex_lock _ try _ _ := take_mutex (negb try);
  safe_mutex_unlock _ _ _ m := Ok (0, set_taken false m);
  my_rwlock_init _ _ := ok; rwlock_destroy _ := ok; rw_rdlock _ := ok; rw_wrlock _ := ok;
  rw_tryrdlock _ := ok; rw_trywrlock _ := ok; rw_unlock _ := ok; rw_pr_init _ := ok;
  rw_pr_destroy _ := ok; rw_pr_rdlock _ := ok; rw_pr_wrlock _ := ok; rw_pr_unlock _ := ok;
  pthread_cond_init _ _ := ok; pthread_cond_destroy _ := ok; pthread_cond_wait _ _ := ok;
  pthread_cond_timedwait _ _ _ := ok; pthread_cond_signal _ := ok;
  pthread_cond_broadcast _ := ok; pthread_create _ _ _ _ := ok |}.

(** ** A server that records *)

Inductive locker_state : Set :=
| SMutex (s : PSI_mutex_locker_state_v1)
| SRwlock (s : PSI_rwlock_locker_state_v1)
| SCond (s : PSI_cond_locker_state_v1)
| SFile (s : PSI_file_locker_state_v1).

(** The time, the next address, the waits that are open and those that ended. *)
Record recorder : Set := Recorder {
  time : Z; next_addr : loc; waits_open : gmap loc locker_state; history : list locker_state }.

Definition new_locker (s : locker_state) (p : recorder) : option loc * recorder :=
  (Some (next_addr p),
   Recorder (time p + 1) (next_addr p + 1) (<[next_addr p := s]> (waits_open p)) (history p)).

Definition new_handle (p : recorder) : option loc * recorder :=
  (Some (next_addr p), Recorder (time p + 1) (next_addr p + 1) (waits_open p) (history p)).

Definition tick (p : recorder) : recorder :=
  Recorder (time p + 1) (next_addr p) (waits_open p) (history p).

(** A wait starts: its time and place are kept with its locker. *)
Definition start_state (count : Z) (file : bytes) (line now : Z) (s : locker_state) : locker_state :=
  match s with
  | SMutex s => SMutex (MutexState (ms_flags s) (ms_mutex s) (ms_thread s) now (ms_timer s)
                          (ms_operation s) file line (ms_wait s))
  | SRwlock s => SRwlock (RwlockState (rs_flags s) (rs_rwlock s) (rs_thread s) now (rs_timer s)
                            (rs_operation s) file line (rs_wait s))
  | SCond s => SCond (CondState (cs_flags s) (cs_cond s) (cs_mutex s) (cs_thread s) now
                        (cs_timer s) (cs_operation s) file line (cs_wait s))
  | SFile s => SFile (FileState (fs_flags s) (fs_file s) (fs_thread s) count now (fs_timer s)
                        (fs_operation s) file line (fs_wait s))
  end.

Definition start_record (l : loc) (count : Z) (file : bytes) (line : Z) (p : recorder) : recorder :=
  Recorder (time p + 1) (next_addr p)
    (alter (start_state count file line (time p)) l (waits_open p)) (history p).

(** It ends: a file wait with the bytes it moved. *)
Definition end_state (count : Z) (s : locker_state) : locker_state :=
  match s with
  | SFile s => SFile (FileState (fs_flags s) (fs_file s) (fs_thread s) count (fs_timer_start s)
                        (fs_timer s) (fs_operation s) (fs_src_file s) (fs_src_line s) (fs_wait s))
  | s => s
  end.

Definition end_record (l : loc) (count : Z) (p : recorder) : recorder :=
  Recorder (time p + 1) (next_addr p) (delete l (waits_open p))
    (history p ++ (end_state count <$> option_list (waits_open p !! l))).

Definition file_state (h : option loc) (op : PSI_file_operation) : locker_state :=
  SFile (FileState 0 h None 0 0 None op [] 0 None).

Definition demo_server : PSI machine_state recorder := {|
  register_mutex _ _ _ := tick; register_rwlock _ _ _ := tick; register_cond _ _ _ := tick;
  register_thread _ _ _ := tick; register_file _ _ _ := tick;
  init_mutex _ _ := new_handle; destroy_mutex _ := tick;
  init_rwlock _ _ := new_handle; destroy_rwlock _ := tick;
  init_cond _ _ := new_handle; destroy_cond _ := tick;
  get_table_share _ _ _ _ _ := new_handle; release_table_share _ := tick;
  open_table _ _ := new_handle; close_table _ := tick;
  create_file _ _ _ := tick;
  spawn_thread _ t a f x := lib_call "pthread_create" (pthread_create _ demo_threads t a f x);
  new_thread _ _ _ := new_handle; set_thread_id _ _ := tick; get_thread := new_handle;
  set_thread _ := tick; delete_current_thread := tick; delete_thread _ := tick;
  get_thread_mutex_locker h op := new_locker (SMutex (MutexState 0 (Some h) None 0 None op [] 0 None));
  get_thread_rwlock_locker h op := new_locker (SRwlock (RwlockState 0 (Some h) None 0 None op [] 0 None));
  get_thread_cond_locker h hm op := new_locker (SCond (CondState 0 (Some h) hm None 0 None op [] 0 None));
  get_thread_table_locker _ := new_handle;
  get_thread_file_name_locker _ op _ _ := new_locker (file_state None op);
  get_thread_file_stream_locker h op := new_locker (file_state (Some h) op);
  get_thread_file_descriptor_locker _ op := new_locker (file_state None op);
  unlock_mutex _ := tick; unlock_rwlock _ := tick; signal_cond _ := tick; broadcast_cond _ := tick;
  start_mutex_wait l f n := start_record l 0 f n; end_mutex_wait l _ := end_record l 0;
  start_rwlock_rdwait l f n := start_record l 0 f n; end_rwlock_rdwait l _ := end_record l 0;
  start_rwlock_wrwait l f n := start_record l 0 f n; end_rwlock_wrwait l _ := end_record l 0;
  start_cond_wait l f n := start_record l 0 f n; end_cond_wait l _ := end_record l 0;
  start_table_wait l f n := start_record l 0 f n; end_table_wait l := end_record l 0;
  start_file_open_wait l f n p := new_handle (start_record l 0 f n p);
  end_file_open_wait l := end_record l 0;
  end_file_open_wait_and_bind_to_descriptor l _ := end_record l 0;
  start_file_wait l c f n := start_record l c f n;
  end_file_wait l c := end_record l c |}.

(** ** The theorems, applied *)

Definition with_psi : build := Build true false.
Definition without_psi : build := Build false false.
Definition here : site := Site (lit "client.c") 7.
Definition the_header : site := Site (lit "mysql_file.h") 629.
Definition machine0 : machine_state := Mach (Disk 100 0 false 10) ∅.
Definition recorder0 : recorder := Recorder 0 50 ∅ [].
Definition inst0 : inst recorder := Inst recorder0 (λ _, Some 5%positive).

(** A client that reads under a mutex and writes to a stream. *)
Definition demo_client : client Z :=
  DoThread here (T_mutex_init 1 20%positive None) (λ _,
  DoThread here (T_mutex_lock 20%positive) (λ _,
  DoFile here (F_read 3 30%positive 60 0) (λ n,
  DoFile here (F_read 3 30%positive 60 0) (λ n',
  DoThread here (T_mutex_unlock 20%positive) (λ _,
  DoFile here (F_fopen 2 (lit "log") 0 0) (λ f,
  match f with
  | Some f => DoFile here (F_fwrite f 30%positive 8 MY_NABP) (λ _,
              DoFile here (F_fclose (Some f) 0) (λ _, Done (n + n')))
  | None => Done (-1)
  end)))))).

Abbreviation demo_run cfg srv := (run (compile demo_files demo_threads the_header cfg srv demo_client)
  machine0 inst0).

Lemma demo_spawn_free : spawn_free demo_client.
Proof. split; [done|intros _]. split; [done|intros _ n n']. split; [done|]. by intros _ [f|]. Qed.

(** What it gives, and what the server recorded of the file waits. *)
Example demo_result : machine (demo_run with_psi (Some demo_server)) =
  Ok (100, Mach (Disk 0 100 false 11) ∅).
Proof. vm_compute. reflexivity. Qed.

Lemma client_transparent_witness :
  SAFE_MUTEX with_psi = SAFE_MUTEX without_psi ∧
  machine (demo_run with_psi (Some demo_server)) = machine (demo_run without_psi None).
Proof.
  exact (conj eq_refl (client_transparent demo_files demo_threads the_header with_psi without_psi
    (Some demo_server) None demo_client machine0 inst0 inst0 eq_refl demo_spawn_free)).
Defined.

Lemma client_waits_paired_witness :
  match demo_run with_psi (Some demo_server) with
  | Ok (_, _, _, t) => protocol Idle t = Some Idle
  | _ => False
  end.
Proof.
  destruct (demo_run with_psi (Some demo_server)) as [[[[a r'] i'] t]| |] eqn:E.
  - exact (client_waits_paired demo_files demo_threads the_header with_psi (Some demo_server)
      demo_client machine0 inst0 a r' i' t demo_spawn_free E).
  - vm_compute in E. discriminate E.
  - vm_compute in E. discriminate E.
Defined.

(** Two threads that take the mutex in turn. *)
Definition demo_section : client unit :=
  DoThread here (T_mutex_lock 20%positive) (λ _,
  DoThread here (T_mutex_unlock 20%positive) (λ _, Done tt)).

Lemma demo_sections_free : Forall spawn_free [demo_section; demo_section].
Proof. do 2 (apply Forall_cons_2; [by split|]). apply Forall_nil_2. Qed.

Lemma pool_transparent_witness :
  SAFE_MUTEX with_psi = SAFE_MUTEX without_psi ∧
  let w := start demo_files demo_threads the_header with_psi (Some demo_server)
             [demo_section; demo_section] machine0 inst0 in
  let v := start demo_files demo_threads the_header without_psi None
             [demo_section; demo_section] machine0 inst0 in
  ∀ r', outcome w r' ↔ outcome v r'.
Proof.
  pose proof demo_sections_free as Hs.
  exact (conj eq_refl (pool_transparent demo_files demo_threads the_header with_psi without_psi
    (Some demo_server) None _ machine0 inst0 inst0 eq_refl Hs)).
Defined.

(** The second thread asks for the mutex while the first one has it. *)
Definition demo_schedule : list nat := [0; 1; 0; 0; 0; 1; 0; 1; 0]%nat.

Lemma pool_waits_paired_witness :
  match schedule demo_schedule (start demo_files demo_threads the_header with_psi (Some demo_server)
          [demo_section; demo_section] machine0 inst0) with
  | Some w => ∃ p ph, ths w !! 1%nat = Some p ∧ protocol Idle (of_thread 1 (evs w)) = Some ph
                ∧ (p = Ret tt → ph = Idle)
  | None => False
  end.
Proof.
  destruct (schedule demo_schedule _) as [w|] eqn:E; [|vm_compute in E; discriminate E].
  pose proof demo_sections_free as Hs.
  pose proof (schedule_reaches _ _ _ E) as Hr.
  destruct (ths w !! 1%nat) as [p|] eqn:Ep; [|exfalso; vm_compute in E; injection E as <-; vm_compute in Ep; discriminate Ep].
  destruct (pool_waits_paired demo_files demo_threads the_header with_psi (Some demo_server)
    [demo_section; demo_section] machine0 inst0 w 1 p Hs Hr Ep) as (ph & H1 & H2).
  exists p, ph. exact (conj eq_refl (conj H1 H2)).
Defined.

Lemma stream_no_leak_witness :
  match run (compile demo_files demo_threads the_header with_psi (Some demo_server)
               (open_close here 2 (lit "log") 0 0)) machine0 inst0 with
  | Ok (_, r', _, _) => m_file r' = m_file machine0
  | _ => False
  end.
Proof.
  destruct (run (compile demo_files demo_threads the_header with_psi (Some demo_server)
    (open_close here 2 (lit "log") 0 0)) machine0 inst0) as [[[[z r'] i'] tr]| |] eqn:E.
  - refine (stream_no_leak demo_files demo_threads the_header with_psi (Some demo_server)
      here 2 (lit "log") 0 0 machine0 inst0 z r' i' tr _ E). intros p o' _. apply lookup_empty.
  - vm_compute in E. discriminate E.
  - vm_compute in E. discriminate E.
Defined.
