(* ===== verification/Main.v ===== *)
(** src/daemon.c and the start of [main] in src/agent.c. *)
From Stdlib Require Import ZArith Ascii Lia SpecFloat.
From stdpp Require Import base list strings numbers gmap.
From S2P Require Import Prelude.
From S2P Require Import Clib.
From S2P Require Import Packet.
From S2P Require Import Sender.
From S2P Require Import Routine.
From S2P Require Import Unsent.
From S2P Require Import Storage.
From S2P Require Import Plugin.
From S2P Require Import Sparser.
From S2P Require Import Metadata.
From S2P Require Import Scheduler.
From S2P Require Import Agent.

Local Open Scope Z_scope.

(** * Becoming a daemon *)

(** The results of the calls of [daemonize] in the process that makes them. *)
Record daemon_env := DaemonEnv { fork1 : Z; setsid : Z; fork2 : Z; chdir : Z }.

(** A process leaves through [_exit], or returns and goes on. *)
Inductive outcome (A : Type) := Exits (code : Z) | Goes (a : A).
Arguments Exits {A} code.
Arguments Goes {A} a.

(** What the call changes: the session, the directory, SIGHUP, the three streams. *)
Record process := Process {
  own_session : bool; cwd : bytes; ignores_hup : bool; null_streams : bool
}.

Definition daemonize (e : daemon_env) (p : process) : outcome (Z * process) :=
  if 0 <? fork1 e then Exits 0
  else if fork1 e <? 0 then Goes (-1, p)
  else if setsid e =? -1 then Goes (-2, p)
  else
    let p := Process true (cwd p) (ignores_hup p) (null_streams p) in
    if 0 <? fork2 e then Exits 0
    else if fork2 e <? 0 then Goes (-3, p)
    else if negb (chdir e =? 0) then Goes (-4, p)
    else Goes (0, Process true (lit "/") true true).

(** * The start of the agent *)

Section Main.
Context {E M : Type}.

(** What the start depends on: the calls of [daemonize], the result of
    [zlog_init], the host, the configuration file, the libraries of plugins with
    their load functions, the listing and the files of [res/], memory (the block
    for a plugin, as [memset] clears it), and the results of the pthread and curl
    calls. *)
Record main_env := MainEnv {
  mn_daemon : daemon_env;
  mn_zlog : Z;
  mn_meta : meta_env;
  mn_conf : option bytes;
  mn_loadable : bytes → bool;
  mn_block : option (plugin_t E M);
  mn_plugin : pthread_results;
  mn_load : bytes → list bytes → plugin_t E M → res (Z * plugin_t E M);
  mn_dir : option (list (Z * bytes));
  mn_malloc : Z → bool;
  mn_sch : pthread_results;
  mn_st : pthread_results;
  mn_header : bool;
  mn_handles : packet_type → option handle;
  mn_setopt : packet_type → copt → Z
}.

(** What runs when the main loop is reached. *)
Record agent := AgentState {
  ag_process : process;
  ag_meta : meta_state;
  ag_pluginc : Z;
  ag_plugins : list (plugin_t E M);
  ag_sch : option routine_t;
  ag_st : option routine_t;
  ag_globals : storage_globals
}.

(** What [sparse] makes of a section at its end: a new block, [plugin_init], and the
    load function of the library on it. *)
Definition make_plugin (e : main_env) (t : bytes) (args : list bytes) : res (option (plugin_t E M)) :=
  do p <- of_opt NullDeref (mn_block e);
  match plugin_init (mn_plugin e) (Some p) with
  | (z, Some p) =>
      if z <? 0 then Ok None
      else do x <- mn_load e t args p; Ok (if x.1 <? 0 then None else Some x.2)
  | (_, None) => Ok None
  end.

(** [routine_start] of the scheduler, the storage and the first [pluginc] plugins. *)
Definition start_plugins (pluginc : Z) (ps : list (plugin_t E M)) : list (plugin_t E M) :=
  let n := Z.to_nat pluginc in
  ((λ p, set_r (routine_start_record (r p)) p) <$> take n ps) ++ drop n ps.

(** [main] up to its loop.  The results of [scheduler_init] and [storage_init]
    are not looked at. *)
Definition main_start (e : main_env) (p : process) (m : meta_state) (sch st : routine_t)
    (g : storage_globals) (files : gmap bytes bytes) : res (outcome agent) :=
  match daemonize (mn_daemon e) p with
  | Exits code => Ok (Exits code)
  | Goes (z, p) =>
      if z <? 0 then Ok (Exits 1)
      else if negb (mn_zlog e =? 0) then Ok (Exits 1)
      else
        do x <- meta_init (mn_meta e) m;
        let '(z, m) := x in
        if z <? 0 then Ok (Exits 1)
        else
          do x <- sparse (mn_loadable e) (make_plugin e) (mn_conf e);
          let '(pluginc, ps) := x in
          if pluginc =? 0 then Ok (Exits 1)
          else
            do x <- (if 0 <? pluginc then restore (mn_malloc e) (mn_dir e) (ps, files)
                     else restore (mn_malloc e) (mn_dir e) ([], files));
            let ps := if 0 <? pluginc then fst x else ps in
            let '(_, sch) := scheduler_init (mn_sch e) (Some sch) in
            let '(_, st, g) := storage_init (mn_st e) (mn_header e) (mn_handles e) (mn_setopt e) (Some st) g in
            Ok (Goes (AgentState p m pluginc (start_plugins pluginc ps)
                        (routine_start_record <$> sch) (routine_start_record <$> st) g))
  end.

(** * Properties *)

(** A load function sets the members of its plugin and not the task of its routine
    ([load_os_keeps_task], [load_mysql_keeps_task]). *)
Definition loads_module (load : bytes → list bytes → plugin_t E M → res (Z * plugin_t E M)) : Prop :=
  ∀ t args p z p', load t args p = Ok (z, p') → task (r p') = task (r p).

Lemma made_prepares e t args p :
  loads_module (mn_load e) → make_plugin e t args = Ok (Some p) → task (r p) = Some plugin_prep_fn.
Proof.
  intros Hl H. unfold make_plugin in H. inv_ok H. unfold plugin_init, routine_init in H.
  destruct (any_negative (mn_plugin e)); [done|]. cbn [Z.ltb Z.compare] in H. inv_ok H.
  destruct v0 as [z p']. cbn [fst snd] in H. destruct (z <? 0); [done|]. injection H as <-. by rewrite (Hl _ _ _ _ _ E1).
Qed.

(** C33. What the main loop starts from: whenever [main] gets there, the scheduler
    and the storage routine are alive, overdue and have their tasks and periods,
    and every plugin it found is alive, overdue and has the task of preparing, so
    that the first round pings them all; the ids that were restored change
    nothing of this. *)
Theorem main_starts_everything e p m sch st g files ag now :
  any_negative (mn_sch e) = false → any_negative (mn_st e) = false → loads_module (mn_load e) → 0 ≤ now →
  main_start e p m sch st g files = Ok (Goes ag) →
  (∃ sch', ag_sch ag = Some sch' ∧ routine_alive sch' = true ∧ routine_overdue now sch' = true
     ∧ task sch' = Some scheduler_main_fn ∧ period sch' = Some 530)
  ∧ (∃ st', ag_st ag = Some st' ∧ routine_alive st' = true ∧ routine_overdue now st' = true
     ∧ task st' = Some storage_main_fn ∧ period st' = Some 21000 ∧ delay st' = 1)
  ∧ ag_pluginc ag ≠ 0
  ∧ ∀ i q, Z.of_nat i < ag_pluginc ag → ag_plugins ag !! i = Some q →
      routine_alive (r q) = true ∧ routine_overdue now (r q) = true ∧ task (r q) = Some plugin_prep_fn.
Proof.
  intros Hs1 Hs2 Hld Hnow H. unfold main_start in H.
  destruct (daemonize _ _) as [|[z p']]; [done|]. destruct (z <? 0); [done|].
  destruct (negb _); [done|]. inv_ok H. destruct v as [z' m']. destruct (z' <? 0); [done|].
  inv_ok H. destruct v as [pluginc ps]. destruct (Z.eqb_spec pluginc 0) as [|Hpc]; [done|]. inv_ok H.
  unfold scheduler_init, storage_init, routine_init in H. rewrite Hs1, Hs2 in H. simpl in H.
  destruct (sender_init _ _ _ _) as [? sd]. destruct (unsent_init _ _) as [[? f] u].
  injection H as <-. simpl.
  assert (∀ x, due x = 0 → routine_overdue now x = true) as Hov.
  { intros x Hx. unfold routine_overdue. rewrite Hx. by apply Z.leb_le. }
  split; [eexists; split; [done|]; repeat split; by apply Hov || by vm_compute|].
  split; [eexists; split; [done|]; repeat split; by apply Hov || by vm_compute|].
  split; [done|]. intros i q Hi Hq. unfold start_plugins in Hq.
  rewrite (proj2 (Z.ltb_lt 0 pluginc)) in Hq, E2 by lia.
  rewrite lookup_app in Hq. destruct (_ !! i) as [q'|] eqn:Eq.
  - injection Hq as ->. apply list_lookup_fmap_Some in Eq as (q0 & -> & Hq0).
    split; [done|]. split; [by apply Hov|]. apply lookup_take_Some in Hq0 as [Hq0 _].
    apply (f_equal (fmap r)) in Hq0. rewrite <- list_lookup_fmap, (restore_r _ _ _ _ _ E2), list_lookup_fmap in Hq0.
    apply fmap_Some in Hq0 as (q1 & Hq1 & Er). change (task (r q0) = Some plugin_prep_fn). rewrite Er.
    assert (Forall (λ p, task (r p) = Some plugin_prep_fn) ps) as Hall.
    { eapply (sparse_plugins _ _ _); [|exact E1]. intros t a p0. by apply made_prepares. }
    by apply (proj1 (list.Forall_lookup _ _) Hall i q1).
  - apply lookup_ge_None in Eq. rewrite length_fmap, length_take in Eq. rewrite lookup_drop in Hq.
    apply lookup_lt_Some in Hq. rewrite length_fmap, length_take in Hq. lia.
Qed.

(** A configuration file that cannot be opened does not stop the agent:
    [sparse] returns -1, the test of [main] is for 0, and the agent runs on
    without a plugin. *)
Theorem main_without_configuration e p p' m m' sch st g files :
  daemonize (mn_daemon e) p = Goes (0, p') → mn_zlog e = 0 →
  meta_init (mn_meta e) m = Ok (0, m') → mn_conf e = None → mn_dir e = None →
  ∃ ag, main_start e p m sch st g files = Ok (Goes ag)
    ∧ ag_pluginc ag = -1 ∧ ag_plugins ag = [].
Proof.
  intros Hd Hz Hm Hc Hr. unfold main_start. rewrite Hd, Hz, Hm, Hc, Hr. simpl.
  destruct (scheduler_init _ _) as [? sch']. destruct (storage_init _ _ _ _ _ _) as [[? st'] g'].
  by eexists.
Qed.

End Main.

(** [daemonize] returns 0 in exactly one process, the grandchild that is its
    own session and runs in the root directory, deaf to SIGHUP; each parent
    leaves with code 0, and every failure is a negative number of its own. *)
Theorem daemonize_outcome e p :
  match daemonize e p with
  | Exits code => code = 0 ∧ (0 < fork1 e ∨ fork1 e = 0 ∧ setsid e ≠ -1 ∧ 0 < fork2 e)
  | Goes (z, p') =>
      (z = 0 ∧ fork1 e = 0 ∧ setsid e ≠ -1 ∧ fork2 e = 0 ∧ chdir e = 0
       ∧ p' = Process true (lit "/") true true)
      ∨ (z = -1 ∧ fork1 e < 0) ∨ (z = -2 ∧ setsid e = -1) ∨ (z = -3 ∧ fork2 e < 0)
      ∨ (z = -4 ∧ chdir e ≠ 0)
  end.
Proof.
  unfold daemonize. destruct (Z.ltb_spec 0 (fork1 e)); [by auto|].
  destruct (Z.ltb_spec (fork1 e) 0); [by right; left|].
  destruct (Z.eqb_spec (setsid e) (-1)); [by do 2 right; left|].
  destruct (Z.ltb_spec 0 (fork2 e)); [split; [done|]; right; split; [lia|done]|].
  destruct (Z.ltb_spec (fork2 e) 0); [by do 3 right; left|]. destruct (Z.eqb_spec (chdir e) 0) as [Hc|Hc]; simpl.
  - left. repeat split; (done || lia).
  - do 4 right. done.
Qed.

(** * Witnesses *)

Definition some_process : process := Process false (lit "/root") false false.
Definition child : daemon_env := DaemonEnv 0 1 0 0.

(** A library whose load function clears all members but the routine. *)
Definition up_load (t : bytes) (a : list bytes) (p : plugin_t unit unit) : res (Z * plugin_t unit unit) :=
  Ok (0, set_r (r p) (up_plugin None None plugin_gather_fn)).

Definition some_main (conf : option bytes) : main_env :=
  MainEnv child 0 (some_env None) conf (λ _, true) (Some (up_plugin None None plugin_gather_fn)) (Pthread 0 0 0 0)
    up_load None (λ _, true)
    (Pthread 0 0 0 0) (Pthread 0 0 0 0) true (λ t, Some (Pos.of_nat (S (Z.to_nat (type_code t))))) (λ _ _, 0).

Definition some_globals : storage_globals :=
  Globals open_senders None (Fs ∅ ∅) (Unsent None false [] []).

Lemma main_starts_everything_witness :
  ∃ ag, main_start (some_main (Some plugin_conf)) some_process no_meta idle_routine idle_routine some_globals ∅
      = Ok (Goes ag)
  ∧ (∃ sch', ag_sch ag = Some sch' ∧ routine_alive sch' = true ∧ routine_overdue 5 sch' = true
     ∧ task sch' = Some scheduler_main_fn ∧ period sch' = Some 530)
  ∧ (∃ st', ag_st ag = Some st' ∧ routine_alive st' = true ∧ routine_overdue 5 st' = true
     ∧ task st' = Some storage_main_fn ∧ period st' = Some 21000 ∧ delay st' = 1)
  ∧ ag_pluginc ag ≠ 0
  ∧ ∀ i q, Z.of_nat i < ag_pluginc ag → ag_plugins ag !! i = Some q →
      routine_alive (r q) = true ∧ routine_overdue 5 (r q) = true ∧ task (r q) = Some plugin_prep_fn.
Proof.
  assert (match main_start (some_main (Some plugin_conf)) some_process no_meta idle_routine idle_routine
    some_globals ∅ with Ok (Goes _) => true | _ => false end = true) as Hok by (vm_compute; reflexivity).
  destruct (main_start (some_main (Some plugin_conf)) some_process no_meta idle_routine idle_routine
    some_globals ∅) as [[c|ag]|w|] eqn:E; try discriminate Hok.
  exists ag. split; [reflexivity|].
  apply (main_starts_everything (some_main (Some plugin_conf)) some_process no_meta idle_routine
    idle_routine some_globals ∅ ag 5); [reflexivity|reflexivity| |lia|exact E].
  by intros t a p z p' [= _ <-].
Defined.

Lemma main_without_configuration_witness :
  ∃ ag, main_start (some_main None) some_process no_meta idle_routine idle_routine some_globals ∅
      = Ok (Goes ag) ∧ ag_pluginc ag = -1 ∧ ag_plugins ag = [].
Proof.
  assert (match meta_init (mn_meta (some_main None)) no_meta with Ok (0, _) => true | _ => false end = true)
    as Hok by (vm_compute; reflexivity).
  destruct (meta_init (mn_meta (some_main None)) no_meta) as [[[] m']|w|] eqn:E; try discriminate Hok.
  apply (main_without_configuration (some_main None) some_process (Process true (lit "/") true true)
    no_meta m'); [reflexivity|reflexivity| |reflexivity|reflexivity].
  exact E.
Defined.
